(* ===== verification/_CoqProject ===== *)
-Q . S2P
Prelude.v
Words.v
Bitmap.v
RingBuffer.v
DList.v
CString.v
Strconv.v
VFormat.v
Stdio.v
Pmm.v
Heap.v
Console.v
Paging.v
Vmm.v
Vfs.v
Pipe.v
LocalSocket.v
FdOps.v
Initrd.v
Ksymbols.v
Devfs.v
Keyboard.v
Tty.v
Gdt.v
UserMem.v
UserSpace.v
Fork.v
Kernel.v
Thread.v
Signal.v
Sched.v
Ext2.v
Elf.v
Proc.v
Pids.v
Fault.v
SysFork.v
Ports.v
Pic.v
Pci.v
Ata.v
Partition.v
Idt.v
Pit.v
IsaDma.v
Sb16.v
Serial.v
Multiboot.v
Syscall.v
Printk.v
Shell.v
Boot.v
Trace.v
