(* ===== verification/Prelude.v ===== *)
(** * DepthOS: a verification library for the kernel

    DepthOS is a 32-bit x86 kernel in C: a physical page allocator and a slab
    heap, page tables and memory areas, tasks, processes, signals and a round
    robin scheduler, a file system layer with ext2, a memory disk, devices,
    pipes and local sockets, a text console with keyboard and terminal, and
    drivers for disks, the PCI bus, sound, serial lines and timers.  This
    library translates that code into executable definitions, one file for a
    component, and proves of each what makes it correct.

    ** How the code is modelled

    A value of a w-bit unsigned type is a [Z] in [0, 2^w); wrap-around is
    written out with [u8], [u16], [u32], [u64], conversions to signed types
    with [s8], [s32] (this file).  Arrays are lists read and written by index
    with [get], [set], [slice], [blit]; C strings are buffers with their
    terminator.  Structures that are shared or linked by pointers live in
    stores ([gmap]) indexed by address, so that aliasing and dangling pointers
    are visible; allocations whose address matters take it from a list of
    fresh addresses, which is the kernel's [kmalloc] for its clients (Heap
    models [kmalloc] itself).  [None] is a panic, a failed assertion or
    undefined behaviour (an access out of bounds or through NULL, uninitialised
    data that decides something); values the code leaves uninitialised are
    parameters called [junk].  Code behind a function pointer, the hardware
    behind ports and the devices behind a driver are Section variables or type
    classes; their laws are classes with an instance that shows they hold of
    something ([UserMem], [FileOps], [ByteFile], [PortDevice], [AtaDrive],
    [PciHost], [Uart], and [holds] of Ext2).

    ** The files

    Data structures and text (src/lib):
    - Prelude: machine integers, arrays, record update, tactics, the constants
      of kernel.h, errno.h and paging.h; Words: little-endian words, bits;
    - Bitmap (bitmap.c), RingBuffer (ringbuffer.c), DList (list.c), CString
      (string.c), Strconv (strconv.c, stdbits.c, math.c);
    - VFormat (vformat.c), Stdio (stdio.c); Printk (printk of io/console.c,
      io/logging.c, the dumps of bitmaps).

    Memory (src/mm):
    - Pmm (pmm.c), Heap (heap.c), Paging (paging.c), Vmm (vmm.c);
    - UserMem: memory as a task sees it, through the page tables; UserSpace:
      the invariant of the address space of a task, and what mapping a page
      and storing a byte do to it; Fork: the copy of an address space that
      clone_pgd makes; Fault: pagefault_handler, with what its report reads.

    Tasks and processes (src/kernel):
    - Kernel: the state of the process code and its monad [K], in which a
      function returns, gives up the processor ([Reschedule]) or switches to
      a given task; Thread, Signal (signal.c), Sched (sched.c), Elf (elf.c),
      Proc (proc.c), Syscall (syscall.c);
    - Pids: process numbers over all runs; SysFork: the fork system call from
      end to end.

    Files (src/fs, src/net):
    - Vfs (vfs.c), Initrd (file.c, initrd.c), Devfs (devfs.c and devices.c),
      Pipe (pipe.c), LocalSocket (local_socket.c), FdOps (fdops.c), Ext2
      (ext2.c), Partition (partition.c, mbr.c), Ksymbols (ksymbols.c), Boot
      (the mounts of kmain.c).

    Devices and the processor (src/io, src/drivers, src/arch/x86):
    - Console (console.c), Keyboard (keyboard.c), Tty (tty.c), Shell (shell.c
      of src/kernel, which nothing starts);
    - Ports (ports.c): the monad [P] of the drivers, over any device; Pic
      (pic.c), Pci (pci.c), Ata (ata.c), Pit (pit.c, beeper.c), IsaDma
      (dma-isa.c, locking.c), Sb16 (sb16.c), Serial (serial.c, ps2.c, emu.c);
    - Gdt (gdt.c, tss.c), Idt (idt.c), Multiboot (multiboot.c), Trace
      (trace.c, panic, the exceptions and the reports of sched.c).

    ** How the parts interact

    Pmm is a Bitmap; Heap and Paging take frames from Pmm; Vmm fills areas
    through Paging, and Fault runs Vmm for the task that Kernel says is
    current, or walks its stack frames, as Trace prints them, and then Signal.  Pipe and Tty are built on RingBuffer, task and area
    lists on DList.  The process code reads and writes user memory through
    [UserMem], which Paging implements ([paging_mem]); Elf loads a file
    through [FileOps], which the memory disk implements, and Ksymbols reads it
    through [ByteFile].  A partition is a disk again ([holds] of Ext2), so
    that Ext2 reads either.  Everything printed goes through VFormat to a
    [Provider], the console unless another one is chosen.

    ** What is proved

    Every property's theorem carries its number C<n> and a sentence that
    states it.  They are, in groups:
    - data structures refine their abstract counterparts: arrays of booleans
      (the scan gives its run counted from where it starts, and on a search
      for clear bits counts the bits behind the end as clear), bounded queues,
      sequences (C1 to C4); strings and splitting (C5, C6);
      formatting ends, integers are laid out as asked, buffers are cut where
      they should be, printing shows the formatted text (C7 to C9, [printk]);
    - memory: allocation gives what is free and nothing else, freeing gives it
      back, the pages of an emptied slab too, mapping and unmapping change exactly the entries of their range,
      the boot's map is linear, areas stay ordered and disjoint, a page fault
      shows zeroes in fresh frames, or ends in the right signal when the
      frames of the program can be read, fork copies (Heap, Pmm,
      Paging, Vmm, Fault, SysFork);
    - files: the longest mount, whatever lies behind the unterminated copies
      that the search makes, pipes and sockets as streams of the bytes that
      reach the reader's memory, descriptors,
      ext2 files as the bytes of their blocks, symbol maps (Vfs, Pipe,
      LocalSocket, FdOps, Ext2, Partition, Ksymbols);
    - processes: signal delivery and return are inverse, no ready task is
      passed over for ever while tasks come and go, waiting reaps the right
      child and its status word tells how it ended, numbers stay unique in
      every run, an executable is loaded as its headers say, up to a segment
      whose last page its rounding leaves out (Signal, Sched, Proc, Pids, Elf);
    - devices: the screen's invariant and type, text typed on
      a US keyboard, described apart from the driver, reaches its reader,
      the bus is enumerated completely, a disk's sectors arrive whatever its
      delays, descriptors and gates are what the processor expects, a trace
      names the right functions (Console, Tty, Pci, Ata, Gdt, Idt, Trace).

    Where the code does something else than it means to, the theorem states
    what it does, and the sentence says so.

    ** Fuel and bounds

    Loops that the code bounds are structural or have exactly the code's
    bound.  The others have fuel, and a theorem that their fuel is enough:
    vformat and the searches in strings and paths take the length of their
    input ([vformat_terminates], [find_mount_longest]), walks over lists the
    size of the store ([chain_size]), digits 32, console_putchara 3
    ([console_putchara_spec]: the recursion is three deep on a line of two
    columns), ext2's loops the number of bytes to read.  Loops that wait for a
    device take any fuel above the device's own bound ([max_busy],
    [tx_max]); the theorems hold for every such bound.  [pick_loop] has one
    round of the task list: without a ready task the code loops for ever, and
    the property assumes one.  [trace] has the code's [max].

    ** Not modelled

    - kmain but for its mounts: it calls the initialisations one after the
      other on states that this library keeps apart; tmpfs, which it mounts,
      has no source in the repository;
    - assembly: entry stubs, loading of descriptor tables and segment
      registers, the jump into a task's registers (the model ends in the state
      from which they start), halting, invalidation of the TLB;
    - klogf's output (KLOG_ENABLED is 0);
    - code that is compiled out (#if 0 blocks), tables of function pointers
      and static device records, declarations;
    - src/tests, programs that test the kernel.  *)
From stdpp Require Export base numbers list gmap.
From Stdlib Require Export ZArith Lia Bool.
From Stdlib Require Znumtheory.

#[global] Open Scope Z_scope.

(** ** Machine integers

    The kernel is built for i386 ([-m32]): [int], [long], [size_t],
    [uintptr_t] and pointers are 32 bits wide, [uint64_t] is 64.  A value of
    an unsigned type of width [w] is a [Z] in [0, 2^w); arithmetic on it is
    followed by the wrap-around functions below. *)
Definition u8 (x : Z) : Z := x mod 0x100.
Definition u16 (x : Z) : Z := x mod 0x10000.
Definition u32 (x : Z) : Z := x mod 0x100000000.
Definition u64 (x : Z) : Z := x mod 0x10000000000000000.

(** Conversion to a signed type of the same width. *)
Definition s8 (x : Z) : Z := let y := u8 x in if y <? 0x80 then y else y - 0x100.
Definition s32 (x : Z) : Z :=
  let y := u32 x in if y <? 0x80000000 then y else y - 0x100000000.

Definition b2z (b : bool) : Z := if b then 1 else 0.

Declare Scope c_scope.
Delimit Scope c_scope with C.
Notation "x '&&&' y" := (Z.land x y) (at level 40, left associativity) : c_scope.
Notation "x '|||' y" := (Z.lor x y) (at level 50, left associativity) : c_scope.
Notation "x '<<<' y" := (Z.shiftl x y) (at level 38, left associativity) : c_scope.
Notation "x '>>>' y" := (Z.shiftr x y) (at level 38, left associativity) : c_scope.

Create HintDb kernel.
Create Rewrite HintDb kernel.

(** ** Record update

    [r <| f := v |>] is [r] with field [f] set to [v], for a record whose
    constructor applied to its projections is declared as an [Eta] instance. *)
Class Eta (R : Type) := eta : R -> R.
Class Update {R E : Type} (getter : R -> E) := update_field : (E -> E) -> R -> R.
Definition upd {R E : Type} (getter : R -> E) {U : Update getter} (f : E -> E) (r : R) : R := U f r.
#[global] Arguments upd {R E} getter {U} f r /.
Ltac solve_update :=
  lazymatch goal with
  | |- @Update ?R ?E ?getter =>
      let inst := constr:(_ : Eta R) in
      let body := eval red in inst in
      lazymatch eval pattern getter in body with
      | ?F _ => let u := eval cbv beta in (fun f : E -> E => F (fun r => f (getter r))) in exact u
      end
  end.
#[export] Hint Extern 1 (Update _) => solve_update : typeclass_instances.
Declare Scope update_scope.
Notation "r <| f := v |>" := (upd f (fun _ => v) r)
  (at level 8, f at level 1, v at level 99, left associativity, format "r <| f  :=  v |>") : update_scope.
#[global] Open Scope update_scope.

Lemma u8_range x : 0 <= u8 x < 0x100.
Proof. apply Z.mod_pos_bound; lia. Qed.
Lemma u16_range x : 0 <= u16 x < 0x10000.
Proof. apply Z.mod_pos_bound; lia. Qed.
Lemma u32_range x : 0 <= u32 x < 0x100000000.
Proof. apply Z.mod_pos_bound; lia. Qed.
Lemma u8_id x : 0 <= x < 0x100 -> u8 x = x.
Proof. apply Z.mod_small. Qed.
Lemma u16_id x : 0 <= x < 0x10000 -> u16 x = x.
Proof. apply Z.mod_small. Qed.
Lemma u32_id x : 0 <= x < 0x100000000 -> u32 x = x.
Proof. apply Z.mod_small. Qed.
Lemma u32_wrap x : 0x100000000 <= x < 0x200000000 -> u32 x = x - 0x100000000.
Proof.
  intros. unfold u32. rewrite <- (Z.mod_small (x - 0x100000000) 0x100000000) by lia.
  rewrite <- (Z.mod_add (x - 0x100000000) 1) by lia. f_equal; lia.
Qed.
Lemma u32_neg x : - 0x100000000 <= x < 0 -> u32 x = x + 0x100000000.
Proof.
  intros. unfold u32. rewrite <- (Z.mod_small (x + 0x100000000) 0x100000000) by lia.
  rewrite <- (Z.mod_add x 1) by lia. f_equal; lia.
Qed.
Lemma u32_u32 x : u32 (u32 x) = u32 x.
Proof. apply u32_id, u32_range. Qed.
Lemma u32_add_l x y : u32 (u32 x + y) = u32 (x + y).
Proof. unfold u32. apply Zplus_mod_idemp_l. Qed.
Lemma u32_add_r x y : u32 (x + u32 y) = u32 (x + y).
Proof. unfold u32. apply Zplus_mod_idemp_r. Qed.
Lemma u32_sub_l x y : u32 (u32 x - y) = u32 (x - y).
Proof. unfold u32. apply Zminus_mod_idemp_l. Qed.
Lemma u32_sub_r x y : u32 (x - u32 y) = u32 (x - y).
Proof. unfold u32. apply Zminus_mod_idemp_r. Qed.
Lemma u8_u32 x : u8 (u32 x) = u8 x.
Proof. unfold u8, u32. symmetry. apply Znumtheory.Zmod_div_mod; [lia|lia|]. by exists 0x1000000. Qed.
Lemma s32_id x : - 0x80000000 <= x < 0x80000000 -> s32 x = x.
Proof.
  intros. unfold s32. destruct (decide (0 <= x)).
  - rewrite u32_id by lia. destruct (x <? 0x80000000) eqn:E; lia.
  - rewrite u32_neg by lia. destruct (x + 0x100000000 <? 0x80000000) eqn:E; lia.
Qed.

#[export] Hint Resolve u8_range u16_range u32_range : kernel.
#[export] Hint Rewrite u32_u32 u32_add_l u32_add_r u32_sub_l u32_sub_r : kernel.

(** [wrap32] removes the wrap-arounds that the context proves harmless. *)
Ltac wrap32 :=
  repeat match goal with
         | |- context [u32 ?x] => rewrite (u32_id x) by lia
         | H : context [u32 ?x] |- _ => rewrite (u32_id x) in H by lia
         | |- context [u8 ?x] => rewrite (u8_id x) by lia
         | H : context [u8 ?x] |- _ => rewrite (u8_id x) in H by lia
         end.

(** Turns the boolean comparisons of the hypotheses into propositions. *)
Ltac zbool :=
  repeat match goal with
         | H : (_ =? _) = true |- _ => apply Z.eqb_eq in H
         | H : (_ =? _) = false |- _ => apply Z.eqb_neq in H
         | H : (_ <? _) = true |- _ => apply Z.ltb_lt in H
         | H : (_ <? _) = false |- _ => apply Z.ltb_ge in H
         | H : (_ <=? _) = true |- _ => apply Z.leb_le in H
         | H : (_ <=? _) = false |- _ => apply Z.leb_gt in H
         end.

(** Splits on every boolean comparison of the goal and hypotheses. *)
Ltac cmp :=
  repeat match goal with
         | H : (_ =? _) = true |- _ => apply Z.eqb_eq in H
         | H : (_ =? _) = false |- _ => apply Z.eqb_neq in H
         | H : (_ <? _) = true |- _ => apply Z.ltb_lt in H
         | H : (_ <? _) = false |- _ => apply Z.ltb_ge in H
         | H : (_ <=? _) = true |- _ => apply Z.leb_le in H
         | H : (_ <=? _) = false |- _ => apply Z.leb_gt in H
         | |- context [?x =? ?y] => destruct (x =? y) eqn:?
         | |- context [?x <? ?y] => destruct (x <? y) eqn:?
         | |- context [?x <=? ?y] => destruct (x <=? y) eqn:?
         end.

(** ** Arrays

    A C array is a list; an index is a [Z].  Reads and writes outside the
    array are undefined behaviour in C: in the model a read gives the default
    and a write does nothing, and every theorem about an array carries the
    bounds that make the accesses of the code defined. *)
Definition get {A} (d : A) (l : list A) (i : Z) : A :=
  if i <? 0 then d else default d (l !! Z.to_nat i).
Definition set {A} (l : list A) (i : Z) (v : A) : list A :=
  if i <? 0 then l else <[Z.to_nat i := v]> l.
Definition zlen {A} (l : list A) : Z := Z.of_nat (length l).

Lemma set_length {A} (l : list A) i v : length (set l i v) = length l.
Proof. unfold set. destruct (i <? 0); [done|]. apply length_insert. Qed.

Lemma set_nat {A} (l : list A) (i : nat) v : set l (Z.of_nat i) v = <[i := v]> l.
Proof. unfold set. rewrite Nat2Z.id. destruct (Z.ltb_spec (Z.of_nat i) 0); [lia|done]. Qed.

Lemma zlen_set {A} (l : list A) i v : zlen (set l i v) = zlen l.
Proof. unfold zlen. by rewrite set_length. Qed.

Lemma get_set_eq {A} (d : A) l i v : 0 <= i < zlen l -> get d (set l i v) i = v.
Proof.
  unfold get, set, zlen; intros. destruct (i <? 0) eqn:E; [lia|].
  rewrite list_lookup_insert_eq by lia. done.
Qed.

Lemma get_set_ne {A} (d : A) l i j v : i <> j -> get d (set l i v) j = get d l j.
Proof.
  unfold get, set; intros. destruct (j <? 0) eqn:E1, (i <? 0) eqn:E2; try done.
  rewrite list_lookup_insert_ne by lia. done.
Qed.

Lemma get_out {A} (d : A) l i : ~ (0 <= i < zlen l) -> get d l i = d.
Proof.
  unfold get, zlen; intros. destruct (i <? 0) eqn:E; [done|].
  rewrite lookup_ge_None_2 by lia. done.
Qed.

Lemma set_out {A} (l : list A) i v : ~ (0 <= i < zlen l) -> set l i v = l.
Proof.
  unfold set, zlen; intros. destruct (i <? 0) eqn:E; [done|].
  apply list_insert_ge. lia.
Qed.

Lemma get_lookup {A} (d : A) l i : 0 <= i < zlen l -> l !! Z.to_nat i = Some (get d l i).
Proof.
  unfold get, zlen; intros. destruct (i <? 0) eqn:E; [lia|].
  destruct (lookup_lt_is_Some_2 l (Z.to_nat i)) as [x Hx]; [lia|]. by rewrite Hx.
Qed.

Lemma list_eq_get {A} (d : A) (l1 l2 : list A) :
  length l1 = length l2 ->
  (forall i, 0 <= i < zlen l1 -> get d l1 i = get d l2 i) -> l1 = l2.
Proof.
  intros Hl H. apply list_eq. intros i.
  destruct (decide (i < length l1)%nat).
  - specialize (H (Z.of_nat i)). unfold zlen in H.
    pose proof (get_lookup d l1 (Z.of_nat i)) as H1.
    pose proof (get_lookup d l2 (Z.of_nat i)) as H2.
    unfold zlen in *. rewrite Nat2Z.id in *. rewrite H1, H2 by lia. f_equal. apply H; lia.
  - rewrite !lookup_ge_None_2 by lia. done.
Qed.

Lemma get_app_l {A} (d : A) l1 l2 i : i < zlen l1 -> get d (l1 ++ l2) i = get d l1 i.
Proof.
  unfold get, zlen. intros. destruct (i <? 0) eqn:E; [done|].
  rewrite lookup_app_l by lia. done.
Qed.
Lemma get_app_r {A} (d : A) l1 l2 i :
  zlen l1 <= i -> get d (l1 ++ l2) i = get d l2 (i - zlen l1).
Proof.
  unfold get, zlen. intros. destruct (i <? 0) eqn:E; [lia|].
  destruct (i - _ <? 0) eqn:E2; [lia|].
  rewrite lookup_app_r by lia. do 2 f_equal. lia.
Qed.
Lemma zlen_app {A} (l1 l2 : list A) : zlen (l1 ++ l2) = zlen l1 + zlen l2.
Proof. unfold zlen. rewrite length_app. lia. Qed.
Lemma zlen_nonneg {A} (l : list A) : 0 <= zlen l.
Proof. unfold zlen. lia. Qed.
Lemma zlen_nil {A} : zlen ([] : list A) = 0.
Proof. done. Qed.
Lemma zlen_cons {A} (x : A) l : zlen (x :: l) = zlen l + 1.
Proof. unfold zlen; simpl. lia. Qed.
Lemma zlen_reverse {A} (l : list A) : zlen (reverse l) = zlen l.
Proof. unfold zlen. by rewrite length_reverse. Qed.
Lemma zlen_fmap {A B} (f : A -> B) (l : list A) : zlen (f <$> l) = zlen l.
Proof. unfold zlen. by rewrite length_fmap. Qed.
Lemma zlen_replicate {A} n (x : A) : zlen (replicate n x) = Z.of_nat n.
Proof. unfold zlen. by rewrite length_replicate. Qed.
Lemma get_replicate {A} (d : A) n i : get d (replicate n d) i = d.
Proof.
  unfold get. destruct (i <? 0); [done|].
  destruct (replicate n d !! Z.to_nat i) eqn:E; [|done].
  apply lookup_replicate in E. by destruct E as [-> _].
Qed.

#[export] Hint Rewrite @zlen_set @zlen_app @zlen_replicate @zlen_nil @zlen_cons @zlen_reverse @zlen_fmap : kernel.
#[export] Hint Resolve zlen_nonneg : kernel.

(** [memcpy] into an array: [blit l off src] writes [src] at [l + off];
    [slice l off n] reads [n] elements at [l + off]. *)
Definition blit {A} (l : list A) (off : Z) (src : list A) : list A :=
  if off <? 0 then l else list_inserts (Z.to_nat off) src l.
Definition slice {A} (l : list A) (off n : Z) : list A :=
  take (Z.to_nat n) (drop (Z.to_nat off) l).

Lemma zlen_blit {A} (l : list A) off src : zlen (blit l off src) = zlen l.
Proof. unfold blit, zlen. destruct (_ <? 0); [done|]. by rewrite length_inserts. Qed.

Lemma get_blit {A} (d : A) l off src j :
  0 <= off -> get d (blit l off src) j
  = if (off <=? j) && (j <? off + zlen src) && (j <? zlen l) then get d src (j - off) else get d l j.
Proof.
  intros Hoff. destruct (decide (0 <= j < zlen l)); cycle 1.
  { rewrite (get_out d l j), (get_out d (blit l off src)) by (rewrite ?zlen_blit; lia).
    destruct (off <=? j) eqn:E1, (j <? zlen l) eqn:E2; rewrite ?andb_false_r; try done; lia. }
  unfold get, blit, zlen in *. destruct (off <? 0) eqn:E0; [lia|].
  destruct (j <? 0) eqn:E1; [lia|].
  destruct ((off <=? j) && (j <? off + Z.of_nat (length src)) && _) eqn:E2.
  - apply andb_true_iff in E2 as [E2 _]. apply andb_true_iff in E2 as [??].
    destruct (j - off <? 0) eqn:E3; [lia|].
    rewrite list_lookup_inserts by lia. do 2 f_equal. lia.
  - apply andb_false_iff in E2 as [E2|E2]; [|lia].
    apply andb_false_iff in E2 as [E2|E2].
    + rewrite list_lookup_inserts_lt by lia. done.
    + rewrite list_lookup_inserts_ge by lia. done.
Qed.

Lemma zlen_slice {A} (l : list A) off n :
  0 <= off -> 0 <= n -> off + n <= zlen l -> zlen (slice l off n) = n.
Proof. unfold zlen, slice. intros. rewrite length_take, length_drop. lia. Qed.

Lemma get_slice {A} (d : A) l off n j :
  0 <= off -> 0 <= j < n -> get d (slice l off n) j = get d l (off + j).
Proof.
  intros. unfold get, slice. destruct (j <? 0) eqn:E; [lia|]. destruct (off + j <? 0) eqn:E2; [lia|].
  rewrite lookup_take_lt by lia. rewrite lookup_drop. do 2 f_equal. lia.
Qed.

Lemma slice_ext {A} (d : A) l off n l' :
  0 <= off -> 0 <= n -> off + n <= zlen l -> zlen l' = n ->
  (forall j, 0 <= j < n -> get d l (off + j) = get d l' j) -> slice l off n = l'.
Proof.
  intros. pose proof (zlen_slice l off n ltac:(lia) ltac:(lia) ltac:(lia)) as Hz.
  apply (list_eq_get d); [unfold zlen in *; lia|]. rewrite Hz.
  intros j Hj. rewrite get_slice by lia. auto.
Qed.

Lemma slice_blit_same {A} (l : list A) off src :
  0 <= off -> off + zlen src <= zlen l -> slice (blit l off src) off (zlen src) = src.
Proof.
  intros. destruct src as [|d src]; [done|].
  apply (slice_ext d); rewrite ?zlen_blit; auto with kernel.
  intros j Hj. rewrite get_blit by done.
  replace (off + j - off) with j by lia.
  destruct (off <=? off + j) eqn:E1, (off + j <? off + zlen (d :: src)) eqn:E2,
    (off + j <? zlen l) eqn:E3; simpl; try lia. done.
Qed.

Lemma slice_blit_other {A} (l : list A) off src off' n :
  0 <= off -> 0 <= off' -> 0 <= n -> off' + n <= zlen l ->
  off' + n <= off \/ off + zlen src <= off' ->
  slice (blit l off src) off' n = slice l off' n.
Proof.
  intros. destruct l as [|d l'].
  { unfold blit, slice. destruct (off <? 0); [done|].
    assert (list_inserts (Z.to_nat off) src ([] : list A) = []) as ->; [|done].
    apply length_zero_iff_nil. by rewrite length_inserts. }
  apply (slice_ext d); rewrite ?zlen_blit, ?zlen_slice; try lia.
  intros j Hj. rewrite get_blit, get_slice by lia.
  destruct (off <=? off' + j) eqn:E1, (off' + j <? off + zlen src) eqn:E2; simpl; try done; lia.
Qed.

Lemma blit_eq {A} (l : list A) off src :
  0 <= off -> off + zlen src <= zlen l ->
  blit l off src = take (Z.to_nat off) l ++ src ++ drop (Z.to_nat off + length src) l.
Proof.
  unfold zlen, blit. intros. destruct (off <? 0) eqn:E; [lia|].
  rewrite <- (take_drop (Z.to_nat off) l) at 1.
  rewrite <- (take_drop (length src) (drop (Z.to_nat off) l)) at 1.
  assert (length (take (Z.to_nat off) l) = Z.to_nat off) as Hl
    by (rewrite length_take; lia).
  rewrite <- Hl at 1. rewrite <- (Nat.add_0_r (length (take _ l))).
  rewrite list_inserts_app_r, list_inserts_0_r, drop_drop; [done|].
  rewrite length_take, length_drop. lia.
Qed.
Lemma slice_cons {A} (l : list A) o n x :
  0 <= o -> 0 < n -> l !! Z.to_nat o = Some x -> slice l o n = x :: slice l (o + 1) (n - 1).
Proof.
  intros Ho Hn Hx. unfold slice.
  replace (Z.to_nat (o + 1)) with (S (Z.to_nat o)) by lia.
  replace (Z.to_nat n) with (S (Z.to_nat (n - 1))) by lia. by rewrite (drop_S _ x).
Qed.
Lemma lookup_slice {A} (l : list A) o n i :
  0 <= o -> 0 <= i < n -> slice l o n !! Z.to_nat i = l !! Z.to_nat (o + i).
Proof.
  intros Ho Hi. unfold slice. rewrite lookup_take_lt by lia.
  rewrite lookup_drop. f_equal. lia.
Qed.
Lemma blit_at {A} (a b src : list A) :
  (length src <= length b)%nat -> blit (a ++ b) (zlen a) src = a ++ src ++ drop (length src) b.
Proof.
  intros H. rewrite blit_eq; [|unfold zlen; lia|unfold zlen; rewrite length_app; lia].
  unfold zlen. rewrite Nat2Z.id, take_app_length, drop_app_ge by lia.
  by replace (length a + length src - length a)%nat with (length src) by lia.
Qed.

Lemma blit_app {A} (l : list A) off a b :
  0 <= off -> off + zlen a + zlen b <= zlen l ->
  blit (blit l off a) (off + zlen a) b = blit l off (a ++ b).
Proof.
  intros. pose proof (zlen_nonneg a). pose proof (zlen_nonneg b). destruct l as [|d l'].
  { unfold zlen in *; simpl in *. destruct a, b; simpl in *; try lia. unfold blit; simpl.
    by repeat destruct (_ <? 0). }
  apply (list_eq_get d); [pose proof (zlen_blit (d :: l') off (a ++ b));
    pose proof (zlen_blit (blit (d :: l') off a) (off + zlen a) b);
    pose proof (zlen_blit (d :: l') off a); unfold zlen in *; lia|].
  rewrite !zlen_blit. intros i Hi. rewrite !get_blit by lia. rewrite zlen_blit, zlen_app.
  destruct (off + zlen a <=? i) eqn:E1, (i <? off + zlen a + zlen b) eqn:E2, (off <=? i) eqn:E3,
    (i <? off + (zlen a + zlen b)) eqn:E4, (i <? off + zlen a) eqn:E5,
    (i <? zlen (d :: l')) eqn:E6; simpl; try done; try lia.
  - rewrite get_app_r by lia. f_equal. lia.
  - rewrite get_app_l by lia. done.
Qed.

Lemma set_blit {A} (l : list A) i x : set l i x = blit l i [x].
Proof. unfold blit, set. by destruct (i <? 0). Qed.

Lemma blit_nil {A} (l : list A) i : blit l i [] = l.
Proof. unfold blit. by destruct (i <? 0). Qed.

Lemma blit_comm {A} (l : list A) a b x y :
  0 <= a -> 0 <= b -> a + zlen x <= b \/ b + zlen y <= a ->
  blit (blit l a x) b y = blit (blit l b y) a x.
Proof.
  intros. destruct x as [|d x]; [by rewrite !blit_nil|].
  apply (list_eq_get d).
  { apply Nat2Z.inj. fold (zlen (blit (blit l a (d :: x)) b y)).
    fold (zlen (blit (blit l b y) a (d :: x))). by rewrite !zlen_blit. }
  intros i Hi. rewrite !get_blit by done. rewrite !zlen_blit.
  destruct (a <=? i) eqn:?, (b <=? i) eqn:?, (i <? a + zlen (d :: x)) eqn:?, (i <? b + zlen y) eqn:?,
    (i <? zlen l) eqn:?; simpl; try done; lia.
Qed.

#[export] Hint Rewrite @zlen_blit : kernel.

(** ** Counted loops

    [for (i = lo; i < hi; i++) s = body(i, s)] where the body leaves [hi]
    alone. *)
Fixpoint for_n {S} (n : nat) (i : Z) (body : Z -> S -> S) (s : S) : S :=
  match n with
  | O => s
  | Datatypes.S n => for_n n (i + 1) body (body i s)
  end.
Definition for_range {S} (lo hi : Z) (body : Z -> S -> S) (s : S) : S :=
  for_n (Z.to_nat (hi - lo)) lo body s.

Lemma for_range_ind {S} (P : Z -> S -> Prop) lo hi body s :
  lo <= hi -> P lo s ->
  (forall i s, lo <= i < hi -> P i s -> P (i + 1) (body i s)) ->
  P hi (for_range lo hi body s).
Proof.
  unfold for_range. remember (Z.to_nat (hi - lo)) as n eqn:En.
  revert lo s En. induction n as [|n IH]; intros lo s En Hle H0 Hs; simpl.
  - replace hi with lo by lia. done.
  - apply IH; [lia|lia| |].
    + apply Hs; [lia|done].
    + intros. apply Hs; [lia|done].
Qed.

Lemma for_range_empty {S} lo hi (body : Z -> S -> S) s : hi <= lo -> for_range lo hi body s = s.
Proof. unfold for_range. intros. by replace (Z.to_nat (hi - lo)) with O by lia. Qed.

Lemma for_range_step {S} lo hi (body : Z -> S -> S) s :
  lo < hi -> for_range lo hi body s = for_range (lo + 1) hi body (body lo s).
Proof.
  unfold for_range. intros.
  replace (Z.to_nat (hi - lo)) with (Datatypes.S (Z.to_nat (hi - (lo + 1)))) by lia. done.
Qed.

(** ** Bits *)
Lemma land_bit_test x k :
  0 <= k -> (Z.land x (Z.shiftl 1 k) =? 0) = negb (Z.testbit x k).
Proof.
  intros Hk. rewrite Z.shiftl_1_l. destruct (Z.testbit x k) eqn:E; simpl.
  - apply Z.eqb_neq. intros H. assert (Z.testbit (Z.land x (2 ^ k)) k = false) as H2.
    { by rewrite H, Z.bits_0. }
    rewrite Z.land_spec, Z.pow2_bits_true, E in H2 by lia. done.
  - apply Z.eqb_eq. apply Z.bits_inj'. intros n Hn.
    rewrite Z.land_spec, Z.bits_0, Z.pow2_bits_eqb by lia.
    destruct (Z.eqb_spec k n); [subst; rewrite E; done|]. apply andb_false_r.
Qed.

Lemma testbit_shiftl1 k n : 0 <= k -> 0 <= n -> Z.testbit (Z.shiftl 1 k) n = (k =? n).
Proof. intros. rewrite Z.shiftl_1_l. by apply Z.pow2_bits_eqb. Qed.

Lemma testbit_u8 x n : 0 <= n < 8 -> Z.testbit (u8 x) n = Z.testbit x n.
Proof. intros. unfold u8. change 0x100 with (2 ^ 8). apply Z.mod_pow2_bits_low; lia. Qed.
Lemma testbit_u32 x n : 0 <= n < 32 -> Z.testbit (u32 x) n = Z.testbit x n.
Proof. intros. unfold u32. change 0x100000000 with (2 ^ 32). apply Z.mod_pow2_bits_low; lia. Qed.
Lemma testbit_u32_high x n : 32 <= n -> Z.testbit (u32 x) n = false.
Proof. intros. unfold u32. change 0x100000000 with (2 ^ 32). apply Z.mod_pow2_bits_high; lia. Qed.

(** ** Error numbers (include/depthos/errno.h) *)
Definition EINVAL := 1.
Definition EOVERFLOW := 2.
Definition E2BIG := 3.
Definition ENIMPL := 4.
Definition ENOSYS := ENIMPL.
Definition EFAULT := 5.
Definition EACCES := 6.
Definition EPERM := 7.
Definition ENOENT := 8.
Definition EBADF := 9.
Definition EAGAIN := 10.
Definition ENOTDIR := 11.
Definition ENOIOCTL := 12.
Definition ENOTTY := ENOIOCTL.
Definition EMFILE := 13.
Definition ENOEXEC := 14.
Definition EEXIST := 15.
Definition ENOMEM := 16.
Definition ERANGE := 17.
Definition EADDRINUSE := 18.
Definition ECONNREFUSED := 19.
Definition ENOTSOCK := 20.

(** ** Kernel constants (include/depthos/kernel.h, paging.h) *)
Definition VIRT_BASE := 0xC0000000.
Definition PAGE_SIZE := 4096.
Definition PAGE_TABLE_SIZE := 1024.
Definition INVALID_ADDR := 0xFFFFFFFF.
Definition ADDR_TO_PHYS (addr : Z) : Z := u32 (addr - VIRT_BASE).
Definition ADDR_TO_VIRT (addr : Z) : Z := u32 (addr + VIRT_BASE).
(** [ROUND_DOWN(x, s)] and [ROUND_UP(N, S)] on [uint32_t] operands. *)
Definition ROUND_DOWN (x s : Z) : Z := u32 (x - x mod s).
Definition ROUND_UP (n s : Z) : Z := u32 (u32 (n + s - 1) / s * s).
Definition PG_RND_DOWN (a : Z) : Z := ROUND_DOWN a PAGE_SIZE.
Definition PG_RND_UP (a : Z) : Z := ROUND_UP a PAGE_SIZE.
Definition PG_OFFSET (a : Z) : Z := a mod PAGE_SIZE.

(** lib/math.c: both parameters are [int]s, whatever the caller passes; [b] is not 0. *)
Definition ceil_div (a b : Z) : Z :=
  let a := s32 a in
  let b := s32 b in
  s32 (Z.quot a b + (if Z.rem a b =? 0 then 0 else 1)).

Lemma ceil_div_small a b : 0 <= a < 0x80000000 -> 0 < b < 0x80000000 ->
  ceil_div a b = Z.quot a b + (if Z.rem a b =? 0 then 0 else 1).
Proof.
  intros Ha Hb. unfold ceil_div. rewrite !(s32_id a), !(s32_id b) by lia. apply s32_id.
  pose proof (Z.quot_rem' a b). pose proof (Z.rem_bound_pos a b ltac:(lia) ltac:(lia)).
  pose proof (Z.quot_pos a b ltac:(lia) ltac:(lia)).
  destruct (decide (b = 1)) as [->|]; [rewrite Z.rem_1_r, Z.quot_1_r in *; simpl; lia|].
  destruct (Z.rem a b =? 0); nia.
Qed.

(** [CEIL_DIV] (tools.h), on unsigned operands. *)
Definition CEIL_DIV (a b : Z) : Z := a / b + (if a mod b =? 0 then 0 else 1).

(** Whole pages, and what becomes of 2 GiB or more of them. *)
Lemma ceil_div_pages n : 0 <= n < 0x100000 ->
  ceil_div (4096 * n) 4096 = if n <? 0x80000 then n else n - 0x100000.
Proof.
  intros Hn. assert (Hs : s32 (4096 * n) = 4096 * (if n <? 0x80000 then n else n - 0x100000)).
  { unfold s32. rewrite u32_id by lia.
    destruct (4096 * n <? 0x80000000) eqn:?, (n <? 0x80000) eqn:?; lia. }
  unfold ceil_div. rewrite Hs. change (s32 4096) with 4096.
  rewrite (Z.mul_comm 4096), Z.quot_mul, Z.rem_mul by lia. simpl. rewrite Z.add_0_r.
  apply s32_id. destruct (n <? 0x80000) eqn:?; lia.
Qed.
