(* ===== verification/Words.v ===== *)
(** * Words: little-endian words and bit-level reasoning

    Reading words from bytes, and a tactic that proves two words equal bit by
    bit. *)
From S2P Require Import Prelude.

Definition le16 (m : list Z) (o : Z) : Z := Z.lor (get 0 m o) (Z.shiftl (get 0 m (o + 1)) 8).
Definition le32 (m : list Z) (o : Z) : Z := Z.lor (le16 m o) (Z.shiftl (le16 m (o + 2)) 16).

(** Bit by bit: a mask is a range of bits. *)
Definition bits (lo w : Z) : Z := Z.shiftl (Z.ones w) lo.
Lemma testbit_bits lo w n : 0 <= lo -> 0 <= w -> 0 <= n -> Z.testbit (bits lo w) n = (lo <=? n) && (n <? lo + w).
Proof.
  intros. unfold bits. rewrite Z.shiftl_spec by lia. destruct (lo <=? n) eqn:E; simpl.
  - rewrite Z.testbit_ones_nonneg by lia. destruct (n - lo <? w) eqn:?, (n <? lo + w) eqn:?; lia.
  - apply Z.testbit_neg_r. lia.
Qed.
Lemma testbit_high x w n : 0 <= x < 2 ^ w -> 0 <= w <= n -> Z.testbit x n = false.
Proof. intros. rewrite <- (Z.mod_small x (2 ^ w)) by lia. apply Z.mod_pow2_bits_high. lia. Qed.
Lemma testbit_u32' x n : 0 <= n -> Z.testbit (u32 x) n = (n <? 32) && Z.testbit x n.
Proof.
  intros. destruct (n <? 32) eqn:E; simpl; [apply testbit_u32; lia|apply testbit_u32_high; lia].
Qed.
Lemma testbit_shl x k n : 0 <= n -> Z.testbit (Z.shiftl x k) n = (k <=? n) && Z.testbit x (n - k).
Proof.
  intros. rewrite Z.shiftl_spec by lia. destruct (k <=? n) eqn:E; [done|]. apply Z.testbit_neg_r. lia.
Qed.
Ltac masks :=
  change 0xFFFF with (bits 0 16) in *; change 0xFF with (bits 0 8) in *; change 0xF with (bits 0 4) in *;
  change 0xFF000000 with (bits 24 8) in *; change 0xFF0000 with (bits 16 8) in *; change 0xF0000 with (bits 16 4) in *.
Ltac bit_guard :=
  match goal with
  | |- context [?a <=? ?b] => destruct (a <=? b) eqn:?; try lia; cbn [andb orb]
  | |- context [?a <? ?b] => destruct (a <? b) eqn:?; try lia; cbn [andb orb]
  end.
Ltac bit_step :=
  match goal with
  | |- context [Z.testbit (Z.lor _ _) _] => rewrite Z.lor_spec
  | |- context [Z.testbit (Z.land _ _) _] => rewrite Z.land_spec
  | |- context [Z.testbit (Z.shiftr _ _) _] => rewrite Z.shiftr_spec by lia
  | |- context [Z.testbit (Z.shiftl ?x ?k) ?n] => rewrite (testbit_shl x k n) by lia
  | |- context [Z.testbit (u32 _) _] => rewrite testbit_u32' by lia
  | |- context [Z.testbit (bits _ _) _] => rewrite testbit_bits by lia
  end.
(** Proves that two words have the same bits. *)
Ltac same_bits :=
  masks; apply Z.bits_inj'; intros n Hn;
  repeat first [progress rewrite ?andb_false_r, ?andb_true_r, ?orb_false_r, ?orb_true_r; cbn [andb orb] | bit_guard | bit_step];
  try reflexivity; try (f_equal; lia); try (erewrite testbit_high; [reflexivity|eassumption|lia]);
  try (symmetry; erewrite testbit_high; [reflexivity|eassumption|lia]).

Lemma range_of_bits x w : 0 <= w -> 0 <= x -> (forall n, w <= n -> Z.testbit x n = false) -> 0 <= x < 2 ^ w.
Proof.
  intros Hw Hx Hb. enough (x = x mod 2 ^ w) as -> by (apply Z.mod_pos_bound; lia).
  apply Z.bits_inj'. intros n Hn. destruct (decide (n < w)).
  - by rewrite Z.mod_pow2_bits_low by lia.
  - rewrite Z.mod_pow2_bits_high by lia. apply Hb. lia.
Qed.
Lemma lor_range x y w : 0 <= w -> 0 <= x < 2 ^ w -> 0 <= y < 2 ^ w -> 0 <= Z.lor x y < 2 ^ w.
Proof.
  intros Hw Hx Hy. apply range_of_bits; [done|apply Z.lor_nonneg; lia|]. intros n Hn.
  by rewrite Z.lor_spec, (testbit_high x w), (testbit_high y w).
Qed.
Lemma shiftl_range x k w : 0 <= k -> 0 <= w -> 0 <= x < 2 ^ w -> 0 <= Z.shiftl x k < 2 ^ (w + k).
Proof. intros. rewrite Z.shiftl_mul_pow2, Z.pow_add_r by lia. pose proof (Z.pow_pos_nonneg 2 k). nia. Qed.
Lemma le16_range b o : (forall i, 0 <= get 0 b i < 256) -> 0 <= le16 b o < 2 ^ 16.
Proof.
  intros Hb. apply lor_range; [lia|pose proof (Hb o); lia|]. apply (shiftl_range _ 8 8); [lia..|]. apply Hb.
Qed.
Lemma le32_range b o : (forall i, 0 <= get 0 b i < 256) -> 0 <= le32 b o < 2 ^ 32.
Proof.
  intros Hb. apply lor_range; [lia|pose proof (le16_range b o Hb); lia|].
  apply (shiftl_range _ 16 16); [lia..|]. by apply le16_range.
Qed.
