(* ===== verification/Bitmap.v ===== *)
(** * Bitmap: lib/bitmap.c and include/depthos/bitmap.h *)
From S2P Require Import Prelude.

Record bitmap := Bitmap { bm_bits : list Z; bm_size : Z }.

Definition EBITMAP := 1.
Definition bitmap_elem_size : Z := 8.
Definition bitmap_size (bm : bitmap) : Z := bm_size bm.
Definition bitmap_elem_index (idx : Z) : Z := idx / bitmap_elem_size.
Definition bitmap_byte_size (bm : bitmap) : Z := bitmap_elem_index (u32 (bitmap_size bm - 1)) + 1.
Definition bitmap_elem_offset (idx : Z) : Z := idx mod bitmap_elem_size.
Definition bitmap_elem_mask (idx : Z) : Z := u8 (Z.shiftl 1 (bitmap_elem_offset idx)).

(** [memset(bm->bits, 0, bitmap_byte_size(bm))] *)
Definition bitmap_init (bm : bitmap) : bitmap :=
  Bitmap (for_range 0 (bitmap_byte_size bm) (fun i l => set l i 0) (bm_bits bm)) (bm_size bm).

(** [garbage] is what the fresh allocation holds. *)
Definition bitmap_create (garbage : list Z) (c : Z) : bitmap :=
  Bitmap (take (Z.to_nat (bitmap_elem_index (u32 (c - 1)) + 1)) garbage) c.

Definition bitmap_in_bounds (bm : bitmap) (idx : Z) : bool := idx <? bm_size bm.

(** [bm->bits[i] = f(bm->bits[i])], the shape of the three updates. *)
Definition upd_bits (f : Z -> Z) (bm : bitmap) (i : Z) : bitmap :=
  Bitmap (set (bm_bits bm) (bitmap_elem_index i) (u8 (f (get 0 (bm_bits bm) (bitmap_elem_index i)))))
         (bm_size bm).

Definition bitmap_mark (bm : bitmap) (i : Z) : bitmap :=
  if negb (bitmap_in_bounds bm i) then bm
  else upd_bits (fun b => Z.lor b (bitmap_elem_mask i)) bm i.

Definition bitmap_reset (bm : bitmap) (i : Z) : bitmap :=
  if negb (bitmap_in_bounds bm i) then bm
  else upd_bits (fun b => Z.land b (Z.lnot (bitmap_elem_mask i))) bm i.

Definition bitmap_flip (bm : bitmap) (i : Z) : bitmap :=
  if negb (bitmap_in_bounds bm i) then bm
  else upd_bits (fun b => Z.lxor b (bitmap_elem_mask i)) bm i.

Definition bitmap_test (bm : bitmap) (i : Z) : bool :=
  if negb (bitmap_in_bounds bm i) then false
  else negb (Z.land (get 0 (bm_bits bm) (bitmap_elem_index i)) (bitmap_elem_mask i) =? 0).

Definition bitmap_set (bm : bitmap) (v : bool) (idx : Z) : bitmap :=
  if v then bitmap_mark bm idx else bitmap_reset bm idx.

(** The bound [i < bm->size - idx && i < c] compares as [unsigned long]. *)
Definition bitmap_setmulti (bm : bitmap) (v : bool) (idx c : Z) : bitmap :=
  for_range 0 (Z.min (u32 (bm_size bm - idx)) c)
    (fun i bm => bitmap_set bm v (u32 (idx + i))) bm.

(** The loop of [bitmap_scan] from [i], with [fuel] iterations left. *)
Fixpoint bitmap_scan_loop (bm : bitmap) (s n : Z) (v : bool) (fuel : nat) (i r rc : Z) : Z :=
  match fuel with
  | O => - EBITMAP
  | S fuel =>
      if negb (eqb (bitmap_test bm (u32 (s + i))) v)
      then bitmap_scan_loop bm s n v fuel (i + 1) r 0
      else
        let r := if rc =? 0 then i else r in
        let rc := u32 (rc + 1) in
        if rc =? n then r else bitmap_scan_loop bm s n v fuel (i + 1) r rc
  end.

Definition bitmap_scan (bm : bitmap) (s n : Z) (v : bool) : Z :=
  bitmap_scan_loop bm s n v (Z.to_nat (bm_size bm)) 0 0 0.

(** [idx] is a [size_t]: the test [idx < 0] of the code never holds, so a
    failed scan goes on with [idx = SIZE_MAX]. *)
Definition bitmap_scan_flip (bm : bitmap) (s n : Z) (v : bool) : bitmap * Z :=
  let idx := u32 (bitmap_scan bm s n v) in
  if idx <? 0 then (bm, s32 idx)
  else (for_range 0 n (fun i bm => bitmap_flip bm (u32 (idx + i))) bm, s32 idx).

(** ** Invariant and the meaning of a bit *)

(** The byte array is long enough for [bm_size] bits and holds bytes. *)
Definition bm_wf (bm : bitmap) : Prop :=
  0 <= bm_size bm < 0x100000000 /\ bm_size bm <= 8 * zlen (bm_bits bm) /\
  Forall (fun b => 0 <= b < 0x100) (bm_bits bm).

Lemma elem_index_bound bm i :
  bm_wf bm -> 0 <= i < bm_size bm -> 0 <= bitmap_elem_index i < zlen (bm_bits bm).
Proof.
  intros (?&?&?) ?. unfold bitmap_elem_index, bitmap_elem_size.
  split; [apply Z.div_pos; lia | apply Z.div_lt_upper_bound; lia].
Qed.

Lemma elem_mask_shift i : bitmap_elem_mask i = Z.shiftl 1 (i mod 8).
Proof.
  unfold bitmap_elem_mask, bitmap_elem_offset, bitmap_elem_size.
  pose proof (Z.mod_pos_bound i 8 ltac:(lia)). apply u8_id.
  rewrite Z.shiftl_1_l. change 0x100 with (2 ^ 8).
  split; [lia|]. apply Z.pow_lt_mono_r; lia.
Qed.

Lemma bitmap_test_bit bm i :
  bitmap_test bm i = (i <? bm_size bm) && Z.testbit (get 0 (bm_bits bm) (i / 8)) (i mod 8).
Proof.
  unfold bitmap_test, bitmap_in_bounds. destruct (i <? bm_size bm); simpl; [|done].
  rewrite elem_mask_shift, land_bit_test, negb_involutive; [done|].
  apply Z.mod_pos_bound; lia.
Qed.

Lemma bitmap_test_out bm i : bm_size bm <= i -> bitmap_test bm i = false.
Proof. intros. rewrite bitmap_test_bit. destruct (i <? _) eqn:E; [lia|done]. Qed.

Lemma upd_bits_wf f bm i : bm_wf bm -> bm_wf (upd_bits f bm i).
Proof.
  intros (?&?&Hb). unfold bm_wf, upd_bits; simpl. rewrite zlen_set.
  split_and!; [lia..|]. unfold set. destruct (_ <? 0); [done|].
  apply Forall_insert; [done|apply u8_range].
Qed.

(** An update that changes only bit [i mod 8] of its byte, by [g]. *)
Lemma upd_bits_test f g bm i j :
  (forall b n, 0 <= n < 8 ->
     Z.testbit (f b) n = if i mod 8 =? n then g (Z.testbit b n) else Z.testbit b n) ->
  bm_wf bm -> 0 <= i < bm_size bm -> 0 <= j ->
  bitmap_test (upd_bits f bm i) j
  = if i =? j then g (bitmap_test bm j) else bitmap_test bm j.
Proof.
  intros Hf Hwf Hi Hj. pose proof (elem_index_bound bm i Hwf Hi) as Hb.
  pose proof (Z.mod_pos_bound j 8 ltac:(lia)).
  rewrite !bitmap_test_bit; unfold upd_bits; simpl.
  unfold bitmap_elem_index, bitmap_elem_size in *.
  destruct (decide (i / 8 = j / 8)) as [Hd|Hd].
  - rewrite Hd in *. rewrite get_set_eq by done. rewrite testbit_u8, Hf by lia.
    destruct (Z.eqb_spec i j).
    + subst j. rewrite Z.eqb_refl. destruct (i <? bm_size bm) eqn:E; [done|lia].
    + destruct (Z.eqb_spec (i mod 8) (j mod 8)); [|done].
      pose proof (Z.div_mod i 8 ltac:(lia)). pose proof (Z.div_mod j 8 ltac:(lia)). lia.
  - rewrite get_set_ne by done. destruct (Z.eqb_spec i j); [congruence|done].
Qed.

Lemma bitmap_mark_wf bm i : bm_wf bm -> bm_wf (bitmap_mark bm i).
Proof. unfold bitmap_mark. destruct (negb _); [done|]. apply upd_bits_wf. Qed.
Lemma bitmap_reset_wf bm i : bm_wf bm -> bm_wf (bitmap_reset bm i).
Proof. unfold bitmap_reset. destruct (negb _); [done|]. apply upd_bits_wf. Qed.
Lemma bitmap_flip_wf bm i : bm_wf bm -> bm_wf (bitmap_flip bm i).
Proof. unfold bitmap_flip. destruct (negb _); [done|]. apply upd_bits_wf. Qed.
Lemma bitmap_set_wf bm v i : bm_wf bm -> bm_wf (bitmap_set bm v i).
Proof. destruct v; [apply bitmap_mark_wf|apply bitmap_reset_wf]. Qed.
#[export] Hint Resolve bitmap_mark_wf bitmap_reset_wf bitmap_flip_wf bitmap_set_wf : kernel.

(** The guard of the three updates: outside the bitmap they do nothing. *)
Ltac guarded :=
  unfold bitmap_in_bounds;
  match goal with |- context [?i <? bm_size ?bm] => destruct (Z.ltb_spec i (bm_size bm)) end; simpl.

Lemma bitmap_mark_test bm i j : bm_wf bm -> 0 <= i -> 0 <= j ->
  bitmap_test (bitmap_mark bm i) j
  = if (i =? j) && (i <? bm_size bm) then true else bitmap_test bm j.
Proof.
  intros Hwf Hi Hj. unfold bitmap_mark. guarded; [|by rewrite andb_false_r].
  rewrite (upd_bits_test _ (fun _ => true)) by
    (try done; intros b n Hn; rewrite elem_mask_shift, Z.lor_spec,
       testbit_shiftl1 by (try apply Z.mod_pos_bound; lia); cmp; auto using orb_true_r, orb_false_r).
  by rewrite andb_true_r.
Qed.

Lemma bitmap_reset_test bm i j : bm_wf bm -> 0 <= i -> 0 <= j ->
  bitmap_test (bitmap_reset bm i) j
  = if (i =? j) && (i <? bm_size bm) then false else bitmap_test bm j.
Proof.
  intros Hwf Hi Hj. unfold bitmap_reset. guarded; [|by rewrite andb_false_r].
  rewrite (upd_bits_test _ (fun _ => false)) by
    (try done; intros b n Hn; rewrite elem_mask_shift, Z.land_spec, Z.lnot_spec,
       testbit_shiftl1 by (try apply Z.mod_pos_bound; lia); cmp;
     simpl; auto using andb_true_r, andb_false_r).
  by rewrite andb_true_r.
Qed.

Lemma bitmap_flip_test bm i j : bm_wf bm -> 0 <= i -> 0 <= j ->
  bitmap_test (bitmap_flip bm i) j
  = if (i =? j) && (i <? bm_size bm) then negb (bitmap_test bm j) else bitmap_test bm j.
Proof.
  intros Hwf Hi Hj. unfold bitmap_flip. guarded; [|by rewrite andb_false_r].
  rewrite (upd_bits_test _ negb) by
    (try done; intros b n Hn; rewrite elem_mask_shift, Z.lxor_spec,
       testbit_shiftl1 by (try apply Z.mod_pos_bound; lia); cmp;
     auto using xorb_true_r, xorb_false_r).
  by rewrite andb_true_r.
Qed.

Lemma bitmap_set_test bm v i j : bm_wf bm -> 0 <= i -> 0 <= j ->
  bitmap_test (bitmap_set bm v i) j
  = if (i =? j) && (i <? bm_size bm) then v else bitmap_test bm j.
Proof. destruct v; [apply bitmap_mark_test|apply bitmap_reset_test]. Qed.

Lemma upd_bits_size f bm i : bm_size (upd_bits f bm i) = bm_size bm.
Proof. done. Qed.
Lemma bitmap_mark_size bm i : bm_size (bitmap_mark bm i) = bm_size bm.
Proof. unfold bitmap_mark. by destruct (negb _). Qed.
Lemma bitmap_set_size bm v i : bm_size (bitmap_set bm v i) = bm_size bm.
Proof. destruct v; unfold bitmap_set, bitmap_mark, bitmap_reset; by destruct (negb _). Qed.
Lemma bitmap_flip_size bm i : bm_size (bitmap_flip bm i) = bm_size bm.
Proof. unfold bitmap_flip. by destruct (negb _). Qed.
#[export] Hint Rewrite bitmap_mark_size bitmap_set_size bitmap_flip_size : kernel.

(** ** Initialisation *)
Lemma bitmap_create_wf garbage c :
  0 < c < 0x100000000 -> c <= 8 * zlen garbage ->
  Forall (fun b => 0 <= b < 0x100) garbage -> bm_wf (bitmap_create garbage c).
Proof.
  intros Hc Hg Hb. unfold bm_wf, bitmap_create, bitmap_elem_index, bitmap_elem_size, zlen in *; simpl.
  rewrite length_take. wrap32.
  pose proof (Z.div_mod (c - 1) 8 ltac:(lia)). pose proof (Z.mod_pos_bound (c - 1) 8 ltac:(lia)).
  split_and!; [lia..|]. by apply Forall_take.
Qed.

Lemma bitmap_init_clear bm j : bm_wf bm -> 0 < bm_size bm -> 0 <= j ->
  bm_wf (bitmap_init bm) /\ bm_size (bitmap_init bm) = bm_size bm /\
  bitmap_test (bitmap_init bm) j = false.
Proof.
  intros (Hs&Hl&Hb) Hpos Hj. unfold bitmap_init.
  set (n := bitmap_byte_size bm).
  assert (Hn : n = (bm_size bm - 1) / 8 + 1).
  { unfold n, bitmap_byte_size, bitmap_elem_index, bitmap_elem_size, bitmap_size. by wrap32. }
  pose proof (Z.div_mod (bm_size bm - 1) 8 ltac:(lia)).
  pose proof (Z.mod_pos_bound (bm_size bm - 1) 8 ltac:(lia)).
  pose proof (for_range_ind (fun i l => zlen l = zlen (bm_bits bm) /\
     Forall (fun b => 0 <= b < 0x100) l /\ forall k, 0 <= k < i -> get 0 l k = 0)
     0 n (fun i l => set l i 0) (bm_bits bm)) as (H1&H2&H3); [lia|split_and!; [done..|lia]| |].
  - intros i l Hi (Hl1&Hl2&Hl3). rewrite zlen_set. split_and!; [done| |].
    + unfold Prelude.set. destruct (_ <? 0); [done|]. by apply Forall_insert.
    + intros k Hk. destruct (decide (i = k)); [subst; rewrite get_set_eq; lia|].
      rewrite get_set_ne by done. apply Hl3; lia.
  - split_and!; [split_and!; simpl; [lia..|done]|done|].
    rewrite bitmap_test_bit; simpl. destruct (j <? bm_size bm) eqn:E; [|done].
    rewrite H3; [apply Z.bits_0|].
    split; [apply Z.div_pos; lia|]. apply Z.div_lt_upper_bound; lia.
Qed.

(** ** Ranges *)
Lemma bitmap_setmulti_test bm v idx c :
  bm_wf bm -> 0 <= idx < 0x100000000 -> 0 <= c -> idx + c <= 0x100000000 ->
  bm_wf (bitmap_setmulti bm v idx c) /\
  bm_size (bitmap_setmulti bm v idx c) = bm_size bm /\
  forall j, 0 <= j ->
    bitmap_test (bitmap_setmulti bm v idx c) j
    = if (idx <=? j) && (j <? idx + c) && (j <? bm_size bm) then v else bitmap_test bm j.
Proof.
  intros Hwf Hidx Hc Hover. unfold bitmap_setmulti.
  pose proof (u32_range (bm_size bm - idx)) as Hr. destruct Hwf as [Hs Hwf'].
  set (m := Z.min _ c).
  pose proof (for_range_ind (fun i b => bm_wf b /\ bm_size b = bm_size bm /\ forall j, 0 <= j ->
     bitmap_test b j = if (idx <=? j) && (j <? idx + i) && (j <? bm_size bm) then v
                       else bitmap_test bm j)
     0 m (fun i b => bitmap_set b v (u32 (idx + i))) bm) as H.
  destruct H as (H1&H2&H3); [unfold m; lia| | |].
  - split_and!; [by split|done|]. intros. cmp; simpl; done || lia.
  - intros i b Hi (Hw&Hsz&Ht). rewrite bitmap_set_size, Hsz.
    split_and!; [auto with kernel|done|]. intros j Hj. wrap32.
    rewrite bitmap_set_test, Hsz, Ht by (done || lia). cmp; simpl; done || lia.
  - split_and!; [done|done|]. intros j Hj. rewrite H3 by done.
    destruct (decide (idx <= bm_size bm)).
    + unfold m. rewrite (u32_id (bm_size bm - idx)) by lia. cmp; simpl; done || lia.
    + cmp; simpl; done || lia.
Qed.

Lemma flip_index idx j i :
  0 <= idx < 0x100000000 -> 0 <= j < 0x100000000 -> 0 <= i < 0x100000000 ->
  (u32 (idx + i) =? j) = (u32 (j - idx) =? i).
Proof.
  intros. destruct (decide (idx + i < 0x100000000)), (decide (idx <= j));
    rewrite ?(u32_id (idx + i)), ?(u32_wrap (idx + i)), ?(u32_id (j - idx)),
      ?(u32_neg (j - idx)) by lia; cmp; done || lia.
Qed.

(** The flipping loop of [bitmap_scan_flip], also when [idx + i] wraps. *)
Lemma flip_range_test bm idx n :
  bm_wf bm -> 0 <= idx < 0x100000000 -> 0 <= n <= 0x100000000 ->
  let bm' := for_range 0 n (fun i b => bitmap_flip b (u32 (idx + i))) bm in
  bm_wf bm' /\ bm_size bm' = bm_size bm /\
  forall j, 0 <= j ->
    bitmap_test bm' j
    = if (u32 (j - idx) <? n) && (j <? bm_size bm) then negb (bitmap_test bm j)
      else bitmap_test bm j.
Proof.
  intros Hwf Hidx Hn. simpl. destruct Hwf as [Hs Hwf'].
  apply (for_range_ind (fun i b => bm_wf b /\ bm_size b = bm_size bm /\ forall j, 0 <= j ->
     bitmap_test b j = if (u32 (j - idx) <? i) && (j <? bm_size bm) then negb (bitmap_test bm j)
                       else bitmap_test bm j)); [lia| |].
  - split_and!; [by split|done|]. intros j Hj. pose proof (u32_range (j - idx)).
    cmp; simpl; done || lia.
  - intros i b Hi (Hw&Hsz&Ht). rewrite bitmap_flip_size, Hsz.
    split_and!; [auto with kernel|done|]. intros j Hj.
    pose proof (u32_range (idx + i)).
    rewrite bitmap_flip_test, Hsz, Ht by (done || lia).
    destruct (decide (j < bm_size bm)); [|cmp; rewrite ?andb_false_r; simpl; done || lia].
    pose proof (flip_index idx j i ltac:(lia) ltac:(lia) ltac:(lia)) as Hfi.
    destruct (u32 (idx + i) =? j) eqn:E1; symmetry in Hfi; cmp; simpl; try done; lia.
Qed.

(** ** Scanning *)
Definition run (bm : bitmap) (s n : Z) (v : bool) (r : Z) : Prop :=
  forall k, 0 <= k < n -> bitmap_test bm (u32 (s + (r + k))) = v.

(** What [bitmap_scan] returns: the first run, counted from [s], if any. *)
Definition scan_result (bm : bitmap) (s n : Z) (v : bool) (r : Z) : Prop :=
  (r = - EBITMAP /\ forall r', 0 <= r' -> r' + n <= bm_size bm -> ~ run bm s n v r') \/
  (0 <= r /\ r + n <= bm_size bm /\ run bm s n v r /\ forall r', 0 <= r' < r -> ~ run bm s n v r').

Lemma bitmap_scan_loop_spec bm s n v fuel i r rc :
  0 < n < 0x100000000 -> 0 <= bm_size bm < 0x100000000 ->
  i + Z.of_nat fuel = bm_size bm -> 0 <= rc < n -> rc <= i ->
  (rc <> 0 -> r = i - rc) -> run bm s rc v (i - rc) ->
  (forall r', 0 <= r' < i - rc -> ~ run bm s n v r') ->
  scan_result bm s n v (bitmap_scan_loop bm s n v fuel i r rc).
Proof.
  intros Hn Hsz. revert i r rc.
  induction fuel as [|fuel IH]; intros i r rc Hi Hrc Hle Hr Hrun Hfirst; simpl.
  { left. split; [done|]. intros r' ??. apply Hfirst. lia. }
  destruct (eqb (bitmap_test bm (u32 (s + i))) v) eqn:E; simpl.
  - apply eqb_prop in E. rewrite (u32_id (rc + 1)) by lia.
    set (r1 := if rc =? 0 then i else r).
    assert (Hr1 : r1 = i - rc) by (unfold r1; cmp; auto with lia).
    assert (Hrun1 : run bm s (rc + 1) v (i - rc)).
    { intros k Hk. destruct (decide (k = rc)) as [->|]; [|apply Hrun; lia].
      by replace (i - rc + rc) with i by lia. }
    destruct (Z.eqb_spec (rc + 1) n).
    + right. rewrite Hr1. split_and!; [lia|lia|by subst n|]. exact Hfirst.
    + apply IH; [lia..|by replace (i + 1 - (rc + 1)) with (i - rc) by lia|].
      replace (i + 1 - (rc + 1)) with (i - rc) by lia. done.
  - apply eqb_false_iff in E. apply IH; [lia..|intros k; lia|].
    intros r' Hr' Hrun'. destruct (decide (r' < i - rc)); [apply (Hfirst r'); [lia|done]|].
    apply E. rewrite <- (Hrun' (i - r')) by lia. do 3 f_equal. lia.
Qed.

Lemma bitmap_scan_spec bm s n v :
  0 <= bm_size bm < 0x100000000 -> 0 < n < 0x100000000 ->
  scan_result bm s n v (bitmap_scan bm s n v).
Proof.
  intros. unfold bitmap_scan. apply bitmap_scan_loop_spec; try lia. all: intros k; lia.
Qed.

(** ** The abstract bitmap: an array of booleans *)
Definition bools (bm : bitmap) : list bool := bitmap_test bm <$> seqZ 0 (bm_size bm).

Lemma bools_zlen bm : 0 <= bm_size bm -> zlen (bools bm) = bm_size bm.
Proof. intros. unfold bools, zlen. rewrite length_fmap, length_seqZ. lia. Qed.

Lemma bools_get bm i : 0 <= i < bm_size bm -> get false (bools bm) i = bitmap_test bm i.
Proof.
  intros. unfold get, bools. destruct (i <? 0) eqn:E; [lia|].
  rewrite list_lookup_fmap, lookup_seqZ_lt by lia. simpl. f_equal. lia.
Qed.

(** Two bitmaps of one size with the same tests have the same abstraction. *)
Lemma bools_ext bm (l : list bool) :
  0 <= bm_size bm -> zlen l = bm_size bm ->
  (forall j, 0 <= j < bm_size bm -> bitmap_test bm j = get false l j) -> bools bm = l.
Proof.
  intros Hs Hl H. pose proof (bools_zlen bm Hs) as Hz.
  apply (list_eq_get false); [unfold zlen in *; lia|].
  rewrite Hz. intros j Hj. rewrite bools_get by done. auto.
Qed.

(** The abstract operations; [set] outside the array does nothing. *)
Module BoolArray.
Definition write (i : Z) (v : bool) (l : list bool) : list bool := set l i v.
Definition flip (i : Z) (l : list bool) : list bool := set l i (negb (get false l i)).
Definition fill (v : bool) (idx c : Z) (l : list bool) : list bool :=
  imap (fun k b => if (idx <=? Z.of_nat k) && (Z.of_nat k <? idx + c) then v else b) l.
End BoolArray.

Lemma bools_upd bm bm' i v :
  bm_wf bm -> bm_size bm' = bm_size bm ->
  (forall j, 0 <= j < bm_size bm ->
     bitmap_test bm' j = if i =? j then v else bitmap_test bm j) ->
  bools bm' = set (bools bm) i v.
Proof.
  intros (Hs&_&_) Hsz Ht. apply bools_ext; [lia| |].
  { rewrite zlen_set, bools_zlen; lia. }
  intros j Hj. rewrite Hsz in Hj. rewrite Ht by done.
  destruct (Z.eqb_spec i j) as [->|].
  - rewrite get_set_eq; [done|]. rewrite bools_zlen; lia.
  - rewrite get_set_ne, bools_get by lia. done.
Qed.

Lemma fill_get v idx c l j :
  0 <= j < zlen l ->
  get false (BoolArray.fill v idx c l) j
  = if (idx <=? j) && (j <? idx + c) then v else get false l j.
Proof.
  intros Hj. unfold get, BoolArray.fill, zlen in *. destruct (j <? 0) eqn:E; [lia|].
  rewrite list_lookup_imap.
  destruct (lookup_lt_is_Some_2 l (Z.to_nat j)) as [x Hx]; [lia|]. rewrite Hx; simpl.
  by rewrite Z2Nat.id by lia.
Qed.

(** C1: the packed byte operations implement an array of booleans: a test
    reads the array (false outside it), mark, reset, set and flip write one
    element and setmulti fills a range, all of them within the bounds only, and
    the invariant is kept. *)
Theorem bitmap_refines_bool_array (bm : bitmap) (v : bool) (i c : Z)
  (Hwf : bm_wf bm) (Hi : 0 <= i) (Hc : 0 <= c) (Hover : i + c < 0x100000000) :
  bitmap_test bm i = get false (bools bm) i /\
  (bm_wf (bitmap_set bm v i) /\ bools (bitmap_set bm v i) = BoolArray.write i v (bools bm)) /\
  (bm_wf (bitmap_flip bm i) /\ bools (bitmap_flip bm i) = BoolArray.flip i (bools bm)) /\
  (bm_wf (bitmap_setmulti bm v i c) /\
   bools (bitmap_setmulti bm v i c) = BoolArray.fill v i c (bools bm)).
Proof.
  assert (Hs : 0 <= bm_size bm) by apply Hwf. split_and!.
  - destruct (decide (i < bm_size bm)); [by rewrite bools_get|].
    rewrite bitmap_test_out, get_out by (rewrite ?bools_zlen; lia). done.
  - auto with kernel.
  - apply bools_upd; [done|apply bitmap_set_size|].
    intros j Hj. rewrite bitmap_set_test by (done || lia). cmp; simpl; done || lia.
  - auto with kernel.
  - unfold BoolArray.flip. destruct (decide (i < bm_size bm)).
    + apply bools_upd; [done|apply bitmap_flip_size|].
      intros j Hj. rewrite bitmap_flip_test, bools_get by (done || lia).
      destruct (Z.eqb_spec i j); cmp; simpl; subst; done || lia.
    + rewrite set_out by (rewrite bools_zlen; lia). unfold bitmap_flip. by guarded; [lia|].
  - apply bitmap_setmulti_test; done || lia.
  - pose proof (bitmap_setmulti_test bm v i c Hwf ltac:(lia) Hc ltac:(lia)) as (?&Hsz&Ht).
    apply bools_ext; [lia|unfold BoolArray.fill, zlen; rewrite length_imap; fold (zlen (bools bm));
                          rewrite bools_zlen; lia|].
    rewrite Hsz. intros j Hj. rewrite Ht, fill_get, bools_get by (rewrite ?bools_zlen; lia).
    cmp; simpl; done || lia.
Qed.

Definition bm_example : bitmap := Bitmap [0xF7; 0x01] 12.
Lemma bm_example_wf : bm_wf bm_example.
Proof. split_and!; [vm_compute; intuition discriminate..|]. repeat constructor; lia. Qed.

Lemma bitmap_refines_bool_array_witness :
  bitmap_test bm_example 3 = false /\
  bools (bitmap_set bm_example true 3) = replicate 9 true ++ replicate 3 false.
Proof.
  pose proof (bitmap_refines_bool_array bm_example true 3 4 bm_example_wf
                ltac:(lia) ltac:(lia) ltac:(lia)) as (H1&(H2&H3)&_).
  split; [exact H1 | rewrite H3; vm_compute; reflexivity].
Defined.

(** ** What a scan is for *)

(** [r] starts a run of [n] elements equal to [v] inside the array. *)
Definition run_in (l : list bool) (n : Z) (v : bool) (r : Z) : Prop :=
  0 <= r /\ r + n <= zlen l /\ forall k, r <= k < r + n -> get false l k = v.

(** [r] is the first such start, or [-EBITMAP] and there is none. *)
Definition first_run (l : list bool) (n : Z) (v : bool) (r : Z) : Prop :=
  (r = - EBITMAP /\ forall r', ~ run_in l n v r') \/
  (run_in l n v r /\ forall r', r' < r -> ~ run_in l n v r').

(** The bits a scan from [s] reads: those from [s] on, then as many behind
    the end of the bitmap as there are before [s], which test as 0. *)
Definition scanned (bm : bitmap) (s : Z) : list bool :=
  drop (Z.to_nat s) (bools bm) ++ replicate (Z.to_nat (Z.min s (bm_size bm))) false.

Lemma scanned_zlen bm s : 0 <= s -> 0 <= bm_size bm -> zlen (scanned bm s) = bm_size bm.
Proof.
  intros. pose proof (bools_zlen bm ltac:(done)) as Hz. unfold scanned, zlen in *.
  rewrite length_app, length_drop, length_replicate. lia.
Qed.

Lemma scanned_get bm s j :
  0 <= s -> 0 <= bm_size bm -> 0 <= j < bm_size bm ->
  get false (scanned bm s) j = bitmap_test bm (s + j).
Proof.
  intros Hs Hb Hj. pose proof (bools_zlen bm Hb) as Hz. unfold scanned.
  destruct (decide (s + j < bm_size bm)) as [Hin|].
  - rewrite <- bools_get by lia. unfold get, zlen in *.
    destruct (j <? 0) eqn:E1; [lia|]. destruct (s + j <? 0) eqn:E2; [lia|].
    rewrite lookup_app_l by (rewrite length_drop; lia).
    rewrite lookup_drop. by replace (Z.to_nat s + Z.to_nat j)%nat with (Z.to_nat (s + j)) by lia.
  - rewrite bitmap_test_out by lia. unfold get, zlen in *.
    destruct (j <? 0) eqn:E1; [lia|]. rewrite lookup_app_r by (rewrite length_drop; lia).
    rewrite lookup_replicate_2; [done|]. rewrite length_drop. lia.
Qed.

Lemma scanned_run bm s n v r :
  0 <= s -> 0 <= bm_size bm -> s + bm_size bm <= 0x100000000 ->
  0 <= r -> r + n <= bm_size bm -> run bm s n v r <-> run_in (scanned bm s) n v r.
Proof.
  intros Hs Hb Hw Hr Hn. unfold run_in. rewrite scanned_zlen by done.
  split.
  - intros H. split_and!; [done|done|]. intros k Hk. rewrite scanned_get by lia.
    rewrite <- (H (k - r)) by lia. rewrite u32_id by lia. f_equal. lia.
  - intros (_&_&H) k Hk. rewrite <- (H (r + k)), scanned_get, u32_id by lia. done.
Qed.

(** Set bits are not found behind the end. *)
Lemma scanned_run_true bm s n r :
  0 <= s -> 0 <= bm_size bm -> 0 < n ->
  run_in (scanned bm s) n true r <-> run_in (drop (Z.to_nat s) (bools bm)) n true r.
Proof.
  intros Hs Hb Hn. pose proof (bools_zlen bm Hb) as Hz. pose proof (scanned_zlen bm s Hs Hb) as Hl.
  assert (Hd : zlen (drop (Z.to_nat s) (bools bm)) = Z.max 0 (bm_size bm - s)).
  { unfold zlen in *. rewrite length_drop. lia. }
  assert (Hg : forall k, 0 <= k < zlen (drop (Z.to_nat s) (bools bm)) ->
    get false (scanned bm s) k = get false (drop (Z.to_nat s) (bools bm)) k).
  { intros k Hk. unfold scanned, get, zlen in *. destruct (k <? 0) eqn:E; [lia|].
    by rewrite lookup_app_l by lia. }
  unfold run_in. rewrite Hl, Hd. split; intros (Hr&Hfit&H); (split_and!; [done| |]).
  - pose proof (H (r + n - 1) ltac:(lia)) as Hlast. rewrite scanned_get in Hlast by lia.
    destruct (decide (s + (r + n - 1) < bm_size bm)); [lia|].
    by rewrite bitmap_test_out in Hlast by lia.
  - intros k Hk. rewrite <- Hg by (rewrite Hd; pose proof (H (r + n - 1) ltac:(lia)) as Hlast;
      rewrite scanned_get in Hlast by lia;
      destruct (decide (s + (r + n - 1) < bm_size bm)); [lia|];
      by rewrite bitmap_test_out in Hlast by lia). auto.
  - lia.
  - intros k Hk. rewrite Hg by lia. auto.
Qed.

Lemma scan_first_run bm s n v :
  bm_wf bm -> 0 <= s -> s + bm_size bm <= 0x100000000 -> 0 < n < 0x100000000 ->
  first_run (scanned bm s) n v (bitmap_scan bm s n v).
Proof.
  intros (Hb&_) Hs Hw Hn.
  assert (Hfit : forall r, run_in (scanned bm s) n v r -> 0 <= r /\ r + n <= bm_size bm).
  { intros r (?&?&_). rewrite scanned_zlen in * by lia. lia. }
  destruct (bitmap_scan_spec bm s n v Hb Hn) as [[-> Hno]|(Hr&Hf&Hrun&Hfirst)].
  - left. split; [done|]. intros r' H. pose proof (Hfit r' H) as [].
    by apply (Hno r'), scanned_run; try lia.
  - right. split; [by apply scanned_run; try lia|]. intros r' Hr' H. pose proof (Hfit r' H) as [].
    by apply (Hfirst r'), scanned_run; try lia.
Qed.

(** C2: from bit 0, the way the kernel calls it, [bitmap_scan] returns the
    index of the first run of [n] bits equal to [v] of the array, and
    [-EBITMAP] exactly when the array has no such run.  From a bit [s] the
    result counts from [s] (bitmap.h promises the index itself): for set bits
    it is the first run of the rest of the array, or [-EBITMAP] when the rest
    has none; for clear bits [s] bits behind the end are scanned too and read
    as 0, so a run that is reported can leave the array. *)
Theorem bitmap_scan_first_run (bm : bitmap) (s n : Z) (v : bool)
  (Hwf : bm_wf bm) (Hs : 0 <= s) (Hw : s + bm_size bm <= 0x100000000)
  (Hn : 0 < n < 0x100000000) :
  first_run (bools bm) n v (bitmap_scan bm 0 n v) /\
  first_run (drop (Z.to_nat s) (bools bm)) n true (bitmap_scan bm s n true) /\
  first_run (drop (Z.to_nat s) (bools bm)
             ++ replicate (Z.to_nat (Z.min s (bm_size bm))) false)
            n false (bitmap_scan bm s n false).
Proof.
  assert (Hb : 0 <= bm_size bm < 0x100000000) by apply Hwf. split_and!.
  - pose proof (scan_first_run bm 0 n v Hwf ltac:(lia) ltac:(lia) Hn) as H.
    unfold scanned in H. rewrite Z.min_l in H by lia. simpl in H. by rewrite app_nil_r in H.
  - destruct (scan_first_run bm s n true Hwf Hs Hw Hn) as [[-> Hno]|[Hr Hfirst]].
    + left. split; [done|]. intros r'. by rewrite <- scanned_run_true by lia.
    + right. split; [by apply scanned_run_true; try lia|].
      intros r' ?. rewrite <- scanned_run_true by lia. auto.
  - apply (scan_first_run bm s n false); done.
Qed.

Lemma bitmap_scan_first_run_witness :
  bitmap_scan bm_example 0 2 false = 9 /\ first_run (bools bm_example) 2 false 9 /\
  bitmap_scan bm_example 0 4 false = -1 /\ first_run (bools bm_example) 4 false (-1) /\
  bitmap_scan bm_example 3 4 true = 1 /\
  first_run (drop 3 (bools bm_example)) 4 true 1.
Proof.
  pose proof (bitmap_scan_first_run bm_example 3 2 false bm_example_wf
                ltac:(lia) ltac:(simpl; lia) ltac:(lia)) as (H1&_&_).
  pose proof (bitmap_scan_first_run bm_example 3 4 false bm_example_wf
                ltac:(lia) ltac:(simpl; lia) ltac:(lia)) as (H2&H3&_).
  split_and!; [reflexivity|exact H1|reflexivity|exact H2|reflexivity|exact H3].
Defined.

(** From bit 10 the bits 12 and 13, behind the end, are reported as clear. *)
Example bitmap_scan_past_end :
  bitmap_scan bm_example 10 4 false = 0 /\ bm_size bm_example = 12 /\ bitmap_scan bm_example 0 4 false = -1.
Proof. vm_compute. auto. Qed.

Lemma bitmap_scan_range bm s n v :
  0 <= bm_size bm < 0x100000000 -> 0 < n < 0x100000000 ->
  - 1 <= bitmap_scan bm s n v < bm_size bm.
Proof.
  intros H1 H2. destruct (bitmap_scan_spec bm s n v H1 H2) as [[-> _]|(?&?&_)];
    unfold EBITMAP; lia.
Qed.

(** The two outcomes of [bitmap_scan_flip] from bit 0. *)
Lemma scan_flip_spec bm n v :
  bm_wf bm -> bm_size bm < 0x80000000 -> 0 < n < 0x100000000 ->
  exists bm' r, bitmap_scan_flip bm 0 n v = (bm', r) /\
  r = bitmap_scan bm 0 n v /\ bm_wf bm' /\ bm_size bm' = bm_size bm /\
  ((0 <= r /\ r + n <= bm_size bm /\
    (forall j, r <= j < r + n -> bitmap_test bm j = v) /\
    forall j, 0 <= j -> bitmap_test bm' j
       = if (r <=? j) && (j <? r + n) then negb v else bitmap_test bm j) \/
   (r = -1 /\ forall j, 0 <= j < bm_size bm -> bitmap_test bm' j
       = if j <? n - 1 then negb (bitmap_test bm j) else bitmap_test bm j)).
Proof.
  intros Hwf Hmax Hn. destruct Hwf as [Hs Hwf'].
  pose proof (bitmap_scan_range bm 0 n v Hs Hn) as Hr.
  pose proof (bitmap_scan_spec bm 0 n v Hs Hn) as Hspec.
  set (r := bitmap_scan bm 0 n v) in *.
  unfold bitmap_scan_flip. fold r. pose proof (u32_range r).
  destruct (u32 r <? 0) eqn:E; [lia|].
  destruct (flip_range_test bm (u32 r) n (conj Hs Hwf') (u32_range r) ltac:(lia)) as (H1&H2&H3).
  eexists _, r. split_and!.
  { f_equal. unfold s32. rewrite u32_u32. destruct (decide (0 <= r)).
    - rewrite u32_id by lia. cmp; lia.
    - rewrite u32_neg by lia. cmp; lia. }
  1-3: done.
  destruct Hspec as [[Hr1 _]|(Hr0&Hfit&Hrun&_)].
  - right. unfold EBITMAP in Hr1. split; [lia|]. intros j Hj. rewrite H3 by lia.
    rewrite Hr1. rewrite (u32_neg (- (1))) by lia.
    replace (u32 (j - _)) with (j + 1); [cmp; simpl; done || lia|].
    rewrite u32_neg by lia. lia.
  - left. assert (Hall : forall j, r <= j < r + n -> bitmap_test bm j = v).
    { intros j Hj. rewrite <- (Hrun (j - r)) by lia. f_equal. rewrite u32_id by lia. lia. }
    split_and!; [done..|]. intros j Hj. rewrite H3 by lia.
    rewrite (u32_id r) by lia.
    destruct (decide (j < bm_size bm)).
    + destruct (decide (r <= j)); rewrite ?(u32_id (j - r)), ?(u32_neg (j - r)) by lia.
      * cmp; simpl; rewrite ?Hall by lia; done || lia.
      * cmp; simpl; done || lia.
    + cmp; simpl; rewrite ?andb_false_r; done || lia.
Qed.

(** When a run is found, [bitmap_scan_flip] returns its start and flips
    exactly its [n] bits; nothing else changes. *)
Theorem bitmap_scan_flip_success (bm bm' : bitmap) (n r : Z) (v : bool)
  (Hwf : bm_wf bm) (Hmax : bm_size bm < 0x80000000) (Hn : 0 < n < 0x100000000)
  (Hrun : bitmap_scan_flip bm 0 n v = (bm', r)) (Hr : 0 <= r) :
  bm_wf bm' /\ r + n <= bm_size bm /\
  (forall j, r <= j < r + n -> bitmap_test bm j = v /\ bitmap_test bm' j = negb v) /\
  (forall j, 0 <= j -> ~ (r <= j < r + n) -> bitmap_test bm' j = bitmap_test bm j) /\
  (forall r', 0 <= r' < r -> ~ run bm 0 n v r').
Proof.
  destruct (scan_flip_spec bm n v Hwf Hmax Hn) as (b&x&He&Hx&Hw&Hsz&[(H1&H2&H3&H4)|[H1 _]]);
    rewrite Hrun in He; simplify_eq; [|lia].
  split_and!; [done|done| | |].
  - intros j Hj. split; [auto|]. rewrite H4 by lia. cmp; simpl; done || lia.
  - intros j ??. rewrite H4 by lia. cmp; simpl; done || lia.
  - destruct (bitmap_scan_spec bm 0 n v (proj1 Hwf) Hn) as [[Hf _]|(_&_&_&Hf)]; [|done].
    unfold EBITMAP in Hf. lia.
Qed.

Lemma bitmap_scan_flip_success_witness :
  (bitmap_scan_flip bm_example 0 2 false).2 = 9 /\
  bitmap_test (bitmap_scan_flip bm_example 0 2 false).1 9 = true.
Proof.
  split; [reflexivity|].
  pose proof (bitmap_scan_flip_success bm_example _ 2 9 false bm_example_wf
    ltac:(vm_compute; reflexivity) ltac:(lia) ltac:(vm_compute; reflexivity) ltac:(lia)) as (_&_&H&_).
  apply (H 9). lia.
Defined.

(** When no run is found, the failure test [idx < 0] on an unsigned
    [size_t] is never taken: [bitmap_scan_flip] does return [-EBITMAP], but only
    after flipping the [n - 1] first bits of the bitmap. *)
Lemma bitmap_scan_flip_failure_corrupts (bm bm' : bitmap) (n r : Z) (v : bool)
  (Hwf : bm_wf bm) (Hmax : bm_size bm < 0x80000000) (Hn : 0 < n < 0x100000000)
  (Hfull : bitmap_scan bm 0 n v = - EBITMAP)
  (Hrun : bitmap_scan_flip bm 0 n v = (bm', r)) :
  r = - EBITMAP /\ bm_wf bm' /\
  (forall j, 0 <= j < n - 1 -> j < bm_size bm -> bitmap_test bm' j = negb (bitmap_test bm j)) /\
  (forall j, n - 1 <= j < bm_size bm -> bitmap_test bm' j = bitmap_test bm j).
Proof.
  destruct (scan_flip_spec bm n v Hwf Hmax Hn) as (b&x&He&Hx&Hw&Hsz&[(H1&H2&H3&H4)|[H1 H2]]);
    rewrite Hrun in He; simplify_eq; [rewrite Hfull in H1; unfold EBITMAP in *; lia|].
  split_and!; [done|done|..]; intros; rewrite H2 by lia; cmp; done || lia.
Qed.

Lemma bitmap_scan_flip_failure_corrupts_witness :
  bitmap_test bm_example 0 = true /\
  bitmap_test (bitmap_scan_flip bm_example 0 4 false).1 0 = false.
Proof.
  split; [reflexivity|].
  pose proof (bitmap_scan_flip_failure_corrupts bm_example _ 4 (-1) false bm_example_wf
    ltac:(vm_compute; reflexivity) ltac:(lia) ltac:(vm_compute; reflexivity)
    ltac:(vm_compute; reflexivity)) as (_&_&H&_).
  exact (H 0 ltac:(lia) ltac:(vm_compute; reflexivity)).
Defined.
