(* ===== verification/RingBuffer.v ===== *)
(** * RingBuffer: lib/ringbuffer.c and include/depthos/ringbuffer.h

    The ring of [rb_max_size] slots of [rb_elem_size] bytes used by pipes and
    the terminal.  A pointer into [data] is its offset. *)
From S2P Require Import Prelude.

Record ringbuffer := RingBuffer {
  rb_data : list Z;
  rb_elem_size : Z;
  rb_max_size : Z;
  rb_read_idx : Z;
  rb_write_idx : Z;
  rb_size : Z
}.

Definition ringbuffer_at (rb : ringbuffer) (idx : Z) : Z := u32 (idx * rb_elem_size rb).
Definition ringbuffer_empty (rb : ringbuffer) : bool := rb_size rb =? 0.
Definition ringbuffer_full (rb : ringbuffer) : bool := rb_size rb =? rb_max_size rb.

Definition ringbuffer_init (rb : ringbuffer) (zero : bool) : ringbuffer :=
  let esz := if rb_elem_size rb =? 0 then 1 else rb_elem_size rb in
  let data := if zero
              then for_range 0 (u32 (esz * rb_max_size rb)) (fun i l => set l i 0) (rb_data rb)
              else rb_data rb in
  RingBuffer data esz (rb_max_size rb) 0 0 0.

(** [garbage] is the fresh allocation; the ring's own record is never NULL. *)
Definition ringbuffer_create (garbage : list Z) (max_size elem_size : Z) : ringbuffer :=
  ringbuffer_init (RingBuffer garbage elem_size max_size 0 0 0) true.

(** [v] is the [elem_size] bytes read at the source pointer; the result is the
    offset of the slot written. *)
Definition ringbuffer_push (rb : ringbuffer) (v : list Z) : ringbuffer * Z :=
  let e := ringbuffer_at rb (rb_write_idx rb) in
  (RingBuffer (blit (rb_data rb) e v) (rb_elem_size rb) (rb_max_size rb) (rb_read_idx rb)
     (u32 (rb_write_idx rb + 1) mod rb_max_size rb)
     (u32 (rb_size rb + 1) mod u32 (rb_max_size rb + 1)), e).

(** The loop over [data], [n] elements of [elem_size] bytes. *)
Definition ringbuffer_pushn (rb : ringbuffer) (data : list Z) (n : Z) : ringbuffer :=
  for_range 0 n
    (fun i rb => (ringbuffer_push rb (slice data (i * rb_elem_size rb) (rb_elem_size rb))).1) rb.

Definition ringbuffer_pop (rb : ringbuffer) : ringbuffer * option Z :=
  if ringbuffer_empty rb then (rb, None)
  else (RingBuffer (rb_data rb) (rb_elem_size rb) (rb_max_size rb)
          (u32 (rb_read_idx rb + 1) mod rb_max_size rb) (rb_write_idx rb)
          (u32 (rb_size rb - 1)),
        Some (ringbuffer_at rb (rb_read_idx rb))).

(** The bytes behind a slot pointer. *)
Definition slot_at (rb : ringbuffer) (off : Z) : list Z := slice (rb_data rb) off (rb_elem_size rb).

(** ** Invariant and abstraction *)
Definition rb_wf (rb : ringbuffer) : Prop :=
  0 < rb_elem_size rb /\ 0 < rb_max_size rb /\ rb_max_size rb + 1 < 0x100000000 /\
  rb_elem_size rb * rb_max_size rb < 0x100000000 /\
  rb_elem_size rb * rb_max_size rb <= zlen (rb_data rb) /\
  0 <= rb_read_idx rb < rb_max_size rb /\ 0 <= rb_size rb <= rb_max_size rb /\
  rb_write_idx rb = (rb_read_idx rb + rb_size rb) mod rb_max_size rb.

(** The queue held by the ring, oldest element first. *)
Definition contents (rb : ringbuffer) : list (list Z) :=
  (fun k => slot_at rb (ringbuffer_at rb ((rb_read_idx rb + k) mod rb_max_size rb)))
    <$> seqZ 0 (rb_size rb).

Lemma slot_bounds rb i :
  rb_wf rb -> 0 <= i < rb_max_size rb ->
  ringbuffer_at rb i = i * rb_elem_size rb /\
  0 <= i * rb_elem_size rb /\ i * rb_elem_size rb + rb_elem_size rb <= zlen (rb_data rb).
Proof.
  intros (?&?&?&?&?&_) ?. unfold ringbuffer_at.
  assert (0 <= i * rb_elem_size rb) by nia.
  assert (i * rb_elem_size rb + rb_elem_size rb <= rb_elem_size rb * rb_max_size rb) by nia.
  rewrite u32_id by lia. lia.
Qed.

Lemma contents_zlen rb : rb_wf rb -> zlen (contents rb) = rb_size rb.
Proof. intros (?&?&?&?&?&?&?&?). unfold contents, zlen. rewrite length_fmap, length_seqZ. lia. Qed.

(** Wrapping indices: [(a + k) mod m] for [a < m] and [k <= m]. *)
Lemma ring_index a k m :
  0 <= a < m -> 0 <= k <= m -> (a + k) mod m = if a + k <? m then a + k else a + k - m.
Proof.
  intros. destruct (a + k <? m) eqn:E; [apply Z.mod_small; lia|].
  rewrite <- (Z.mod_small (a + k - m) m) by lia.
  rewrite <- (Z.mod_add (a + k - m) 1 m) by lia. f_equal. lia.
Qed.

Lemma push_wf rb v :
  rb_wf rb -> rb_size rb < rb_max_size rb -> zlen v = rb_elem_size rb ->
  rb_wf (ringbuffer_push rb v).1.
Proof.
  intros Hwf Hlt Hv. destruct Hwf as (?&?&?&?&?&?&?&Hw).
  assert (Hwb : 0 <= rb_write_idx rb < rb_max_size rb) by (rewrite Hw; apply Z.mod_pos_bound; lia).
  unfold rb_wf, ringbuffer_push; simpl. rewrite zlen_blit.
  wrap32. rewrite (Z.mod_small (rb_size rb + 1)) by lia.
  split_and!; try lia. rewrite Hw, Zplus_mod_idemp_l. f_equal. lia.
Qed.

Lemma push_contents rb v :
  rb_wf rb -> rb_size rb < rb_max_size rb -> zlen v = rb_elem_size rb ->
  contents (ringbuffer_push rb v).1 = contents rb ++ [v].
Proof.
  intros Hwf Hlt Hv. pose proof Hwf as (?&?&?&?&?&?&?&Hw).
  assert (Hwb : 0 <= rb_write_idx rb < rb_max_size rb) by (rewrite Hw; apply Z.mod_pos_bound; lia).
  destruct (slot_bounds rb (rb_write_idx rb) Hwf Hwb) as (Hat&Hb1&Hb2).
  unfold contents at 1, ringbuffer_push; simpl.
  rewrite (u32_id (rb_size rb + 1)), (u32_id (rb_max_size rb + 1)) by lia.
  rewrite (Z.mod_small (rb_size rb + 1)) by lia.
  rewrite (seqZ_app 0 (rb_size rb) 1), fmap_app by lia. f_equal.
  - apply list_fmap_ext. intros n k Hk. apply lookup_seqZ in Hk as [-> Hk].
    set (i := (rb_read_idx rb + (0 + Z.of_nat n)) mod rb_max_size rb).
    assert (Hi : 0 <= i < rb_max_size rb) by (apply Z.mod_pos_bound; lia).
    destruct (slot_bounds rb i Hwf Hi) as (Hati&Hi1&Hi2).
    unfold slot_at, ringbuffer_at in *; simpl. rewrite Hat, Hati. apply slice_blit_other; try lia.
    rewrite Hv. assert (i <> rb_write_idx rb).
    { rewrite Hw. unfold i. rewrite !ring_index by lia. cmp; lia. }
    nia.
  - simpl. f_equal. unfold slot_at, ringbuffer_at in *; simpl.
    replace (Z.of_nat 0 + (0 + rb_size rb)) with (rb_size rb) by lia. rewrite <- Hw.
    rewrite Hat, <- Hv. apply slice_blit_same; lia.
Qed.

Lemma pop_wf rb : rb_wf rb -> 0 < rb_size rb -> rb_wf (ringbuffer_pop rb).1.
Proof.
  intros (?&?&?&?&?&?&?&Hw) Hne. unfold ringbuffer_pop, ringbuffer_empty.
  destruct (rb_size rb =? 0) eqn:E; [lia|]. unfold rb_wf; simpl. wrap32.
  pose proof (Z.mod_pos_bound (rb_read_idx rb + 1) (rb_max_size rb) ltac:(lia)).
  split_and!; try lia. rewrite Hw, Zplus_mod_idemp_l. f_equal. lia.
Qed.

Lemma pop_contents rb :
  rb_wf rb -> 0 < rb_size rb ->
  exists off, (ringbuffer_pop rb).2 = Some off /\
    contents rb = slot_at rb off :: contents (ringbuffer_pop rb).1.
Proof.
  intros (?&?&?&?&?&?&?&Hw) Hne. unfold ringbuffer_pop, ringbuffer_empty.
  destruct (rb_size rb =? 0) eqn:E; [lia|]. simpl. eexists; split; [done|].
  unfold contents; simpl. wrap32. rewrite (seqZ_cons 0 (rb_size rb)) by lia.
  rewrite fmap_cons. f_equal.
  - by rewrite Z.add_0_r, Z.mod_small by lia.
  - replace (Z.pred (rb_size rb)) with (rb_size rb - 1) by lia.
    rewrite <- (fmap_add_seqZ 1 0), <- list_fmap_compose.
    apply list_fmap_ext. intros n k Hk. unfold slot_at, ringbuffer_at; simpl.
    rewrite Zplus_mod_idemp_l. do 4 f_equal. lia.
Qed.

Lemma init_wf rb :
  0 < rb_elem_size rb -> 0 < rb_max_size rb -> rb_max_size rb + 1 < 0x100000000 ->
  rb_elem_size rb * rb_max_size rb < 0x100000000 ->
  rb_elem_size rb * rb_max_size rb <= zlen (rb_data rb) ->
  rb_wf (ringbuffer_init rb true) /\ contents (ringbuffer_init rb true) = [].
Proof.
  intros. unfold ringbuffer_init. destruct (rb_elem_size rb =? 0) eqn:E; [lia|].
  split; [|done]. unfold rb_wf; simpl. rewrite Z.mod_0_l by lia. split_and!; try lia.
  pose proof (u32_range (rb_elem_size rb * rb_max_size rb)).
  apply (for_range_ind (fun _ l => rb_elem_size rb * rb_max_size rb <= zlen l)); [lia|lia|].
  intros; by rewrite zlen_set.
Qed.

(** ** The abstract queue *)
Module Queue.
Definition queue := list (list Z).
Definition enqueue (v : list Z) (q : queue) : queue := q ++ [v].
Definition dequeue (q : queue) : option (list Z) * queue :=
  match q with [] => (None, []) | x :: q => (Some x, q) end.
End Queue.

(** C3: while it is not full, the ring is a bounded FIFO queue: [push] enqueues,
    [pop] dequeues and points at the dequeued bytes (NULL when empty), and the
    invariant is kept. *)
Theorem ringbuffer_refines_queue (rb : ringbuffer) (v : list Z)
  (Hwf : rb_wf rb) (Hv : zlen v = rb_elem_size rb) :
  (ringbuffer_full rb = false ->
   rb_wf (ringbuffer_push rb v).1 /\
   contents (ringbuffer_push rb v).1 = Queue.enqueue v (contents rb)) /\
  rb_wf (ringbuffer_pop rb).1 /\
  (slot_at rb <$> (ringbuffer_pop rb).2, contents (ringbuffer_pop rb).1)
  = Queue.dequeue (contents rb).
Proof.
  pose proof Hwf as (_&_&_&_&_&_&Hs&_). split.
  - intros Hf%Z.eqb_neq. split; [apply push_wf|apply push_contents]; done || lia.
  - destruct (decide (rb_size rb = 0)) as [H0|].
    + unfold ringbuffer_pop, ringbuffer_empty. rewrite H0; simpl. split; [done|].
      unfold contents. by rewrite H0.
    + split; [apply pop_wf; done || lia|].
      destruct (pop_contents rb Hwf ltac:(lia)) as (off&->&->). done.
Qed.

Definition rb_example : ringbuffer := RingBuffer [10; 11; 12; 13] 1 4 3 1 2.
Lemma rb_example_wf : rb_wf rb_example.
Proof. unfold rb_wf; vm_compute; intuition congruence. Qed.

Lemma ringbuffer_refines_queue_witness :
  contents (ringbuffer_push rb_example [99]).1 = [[13]; [10]; [99]].
Proof.
  pose proof (ringbuffer_refines_queue rb_example [99] rb_example_wf eq_refl) as [H _].
  destruct (H eq_refl) as [_ ->]. reflexivity.
Defined.

(** [pushn] of as many elements as there is room for enqueues them all, in
    order. *)
Theorem ringbuffer_pushn_appends (rb : ringbuffer) (data : list Z) (n : Z)
  (Hwf : rb_wf rb) (Hn : 0 <= n) (Hroom : rb_size rb + n <= rb_max_size rb)
  (Hdata : n * rb_elem_size rb <= zlen data) :
  rb_wf (ringbuffer_pushn rb data n) /\
  contents (ringbuffer_pushn rb data n)
  = contents rb ++
    ((fun i => slice data (i * rb_elem_size rb) (rb_elem_size rb)) <$> seqZ 0 n).
Proof.
  set (chunk i := slice data (i * rb_elem_size rb) (rb_elem_size rb)).
  pose proof (for_range_ind (fun i b => rb_wf b /\ rb_elem_size b = rb_elem_size rb /\
    rb_max_size b = rb_max_size rb /\ contents b = contents rb ++ (chunk <$> seqZ 0 i)) 0 n
    (fun i rb => (ringbuffer_push rb (slice data (i * rb_elem_size rb) (rb_elem_size rb))).1) rb)
    as (H1&_&_&H2); [done| | |by split].
  - split_and!; [done..|]. by rewrite app_nil_r.
  - intros i b Hi (Hb&He&Hm&Hc).
    assert (Hsz : rb_size b = rb_size rb + i).
    { rewrite <- !contents_zlen, Hc, zlen_app by done.
      unfold zlen at 2. rewrite length_fmap, length_seqZ. lia. }
    assert (0 < rb_elem_size rb) by apply Hwf.
    assert (Hz : zlen (chunk i) = rb_elem_size b).
    { unfold chunk. rewrite zlen_slice; nia. }
    rewrite He. fold (chunk i). split_and!; [apply push_wf; done || lia|done..|].
    rewrite push_contents, Hc by (done || lia).
    by rewrite (seqZ_app 0 i 1), fmap_app, app_assoc by lia.
Qed.

Lemma ringbuffer_pushn_appends_ex :
  contents (ringbuffer_pushn rb_example [7; 8] 2) = [[13]; [10]; [7]; [8]].
Proof.
  destruct (ringbuffer_pushn_appends rb_example [7; 8] 2 rb_example_wf ltac:(lia)
    ltac:(vm_compute; congruence) ltac:(vm_compute; congruence)) as [_ ->]. reflexivity.
Defined.

(** Nothing stops a push into a full ring (the terminal's keyboard handler
    does not test for it): the size wraps to zero, so the whole queue is lost,
    and the write index has moved past the read index, so from then on the
    ring answers a push with the element pushed before it. *)
Theorem ringbuffer_push_full_loses (rb : ringbuffer) (v w : list Z)
  (Hwf : rb_wf rb) (Hmax : 1 < rb_max_size rb) (Hfull : ringbuffer_full rb = true)
  (Hv : zlen v = rb_elem_size rb) (Hw : zlen w = rb_elem_size rb) :
  let rb1 := (ringbuffer_push rb v).1 in
  let rb2 := (ringbuffer_push rb1 w).1 in
  contents rb1 = [] /\ (ringbuffer_pop rb1).2 = None /\ ~ rb_wf rb1 /\
  exists off, (ringbuffer_pop rb2).2 = Some off /\ slot_at rb2 off = v.
Proof.
  pose proof Hwf as (?&?&?&?&?&?&?&Hwi). apply Z.eqb_eq in Hfull.
  assert (Hwr : rb_write_idx rb = rb_read_idx rb).
  { rewrite Hwi, Hfull, ring_index by lia. cmp; lia. }
  assert (Hsz : rb_size (ringbuffer_push rb v).1 = 0).
  { unfold ringbuffer_push; simpl. rewrite Hfull. wrap32. apply Z_mod_same_full. }
  set (rb1 := (ringbuffer_push rb v).1) in *. cbv zeta. split_and!.
  - unfold contents. by rewrite Hsz.
  - unfold ringbuffer_pop, ringbuffer_empty. by rewrite Hsz.
  - intros (_&_&_&_&_&_&_&Hbad). rewrite Hsz in Hbad. unfold rb1, ringbuffer_push in Hbad.
    simpl in Hbad. rewrite Hwr, Z.add_0_r, u32_id, (Z.mod_small (rb_read_idx rb)) in Hbad by lia.
    rewrite ring_index in Hbad by lia. destruct (_ <? _) eqn:E in Hbad; lia.
  - destruct (slot_bounds rb (rb_read_idx rb) Hwf ltac:(lia)) as (Hat&Hb1&Hb2).
    assert (Hnext : u32 (rb_read_idx rb + 1) mod rb_max_size rb <> rb_read_idx rb /\
       0 <= u32 (rb_read_idx rb + 1) mod rb_max_size rb < rb_max_size rb).
    { wrap32. split; [rewrite ring_index by lia; cmp; lia|apply Z.mod_pos_bound; lia]. }
    set (nx := u32 (rb_read_idx rb + 1) mod rb_max_size rb) in *.
    destruct (slot_bounds rb nx Hwf ltac:(lia)) as (Hat2&Hb3&Hb4).
    unfold ringbuffer_pop, ringbuffer_empty.
    assert (rb_size (ringbuffer_push rb1 w).1 = 1) as ->.
    { change (u32 (rb_size rb1 + 1) mod u32 (rb_max_size rb + 1) = 1).
      rewrite Hsz. wrap32. apply Z.mod_small; lia. }
    simpl. eexists; split; [done|].
    unfold slot_at, ringbuffer_push, rb1, ringbuffer_at in *; simpl.
    rewrite Hwr. fold nx. rewrite Hat, Hat2.
    rewrite slice_blit_other by (rewrite ?zlen_blit; nia).
    rewrite <- Hv. apply slice_blit_same; lia.
Qed.

Lemma ringbuffer_push_full_loses_witness :
  let rb := RingBuffer [1; 2; 3] 1 3 0 0 3 in
  contents rb = [[1]; [2]; [3]] /\ contents (ringbuffer_push rb [4]).1 = [].
Proof.
  simpl. split; [reflexivity|].
  apply (ringbuffer_push_full_loses (RingBuffer [1; 2; 3] 1 3 0 0 3) [4] [5]);
    first [reflexivity | unfold rb_wf; vm_compute; intuition congruence].
Defined.
