(* ===== verification/DList.v ===== *)
(** * DList: lib/list.c and include/depthos/list.h

    The intrusive doubly linked list of 64-bit values on which the kernel keeps
    its tasks, processes, memory areas, pipes and sockets.  Entries live in a
    store [gmap Z list_entry] indexed by address (NULL is 0), so aliasing and
    dangling links are visible; an operation that dereferences an address that
    holds no entry yields [None].  [kmalloc] is a parameter: the address [a]
    of the fresh entry is an argument. *)
From S2P Require Import Prelude.

Record list_entry := ListEntry { le_value : Z; le_next : Z; le_prev : Z }.
Record clist := CList { l_first : Z; l_last : Z; l_length : Z }.

Definition with_next (n : Z) (e : list_entry) := ListEntry (le_value e) n (le_prev e).
Definition with_prev (p : Z) (e : list_entry) := ListEntry (le_value e) (le_next e) p.
Definition with_first (a : Z) (l : clist) := CList a (l_last l) (l_length l).
Definition with_last (a : Z) (l : clist) := CList (l_first l) a (l_length l).
Definition with_length (n : Z) (l : clist) := CList (l_first l) (l_last l) (u32 n).

Definition list_init : clist := CList 0 0 0.

(** [h[a]->field = ...]: fails on an address without an entry. *)
Definition update (f : list_entry -> list_entry) (a : Z) (h : gmap Z list_entry)
  : option (gmap Z list_entry) :=
  e ← h !! a; Some (<[a := f e]> h).

Definition list_insert (h : gmap Z list_entry) (l : clist) (prev next entry : Z)
  : option (gmap Z list_entry * clist) :=
  if entry =? 0 then Some (h, l) else
  h ← update (with_prev prev) entry h;
  h ← update (with_next next) entry h;
  '(h, l) ← (if negb (next =? 0) then h ← update (with_prev entry) next h; Some (h, l)
             else Some (h, with_last entry l));
  '(h, l) ← (if negb (prev =? 0) then h ← update (with_next entry) prev h; Some (h, l)
             else Some (h, with_first entry l));
  Some (h, with_length (l_length l + 1) l).

(** [a] is what [kmalloc] returned; the links of the fresh entry are
    overwritten by [list_insert] before they are read. *)
Definition list_insert_value (h : gmap Z list_entry) (l : clist) (prev next value a : Z)
  : option (gmap Z list_entry * clist * Z) :=
  if a =? 0 then None else
  '(h, l) ← list_insert (<[a := ListEntry value 0 0]> h) l prev next a;
  Some (h, l, a).

Definition list_remove (h : gmap Z list_entry) (l : clist) (entry : Z)
  : option (gmap Z list_entry * clist) :=
  if entry =? 0 then Some (h, l) else
  e ← h !! entry;
  '(h, l) ← (if le_prev e =? 0 then
               let l := with_first (le_next e) l in
               if negb (le_next e =? 0) then h ← update (with_prev 0) (le_next e) h; Some (h, l)
               else Some (h, l)
             else
               h ← update (with_next (le_next e)) (le_prev e) h;
               if negb (le_next e =? 0) then h ← update (with_prev (le_prev e)) (le_next e) h; Some (h, l)
               else Some (h, l));
  let l := if le_next e =? 0 then with_last (le_prev e) l else l in
  Some (h, with_length (l_length l - 1) l).

(** The [list_foreach] of [list_remove_index], from [item] at position [i];
    [fuel] bounds the walk (a cyclic list would not end). *)
Fixpoint list_remove_index_loop (h : gmap Z list_entry) (l : clist) (index : Z)
  (fuel : nat) (item i : Z) : option (gmap Z list_entry * clist * Z) :=
  match fuel with
  | O => None
  | S fuel =>
      if item =? 0 then Some (h, l, 0)
      else if i =? index then '(h, l) ← list_remove h l item; Some (h, l, item)
      else e ← h !! item; list_remove_index_loop h l index fuel (le_next e) (u32 (i + 1))
  end.
Definition list_remove_index (h : gmap Z list_entry) (l : clist) (index : Z) :=
  list_remove_index_loop h l index (S (S (size h))) (l_first l) 0.

(** The loop of [list_insert_index] never advances [i]. *)
Fixpoint list_insert_index_loop (h : gmap Z list_entry) (l : clist) (index value a : Z)
  (fuel : nat) (item i : Z) : option (gmap Z list_entry * clist * Z) :=
  match fuel with
  | O => None
  | S fuel =>
      if item =? 0 then Some (h, l, 0)
      else
        e ← h !! item;
        if i =? index
        then '(h, l, _) ← list_insert_value h l item (le_next e) value a; Some (h, l, item)
        else list_insert_index_loop h l index value a fuel (le_next e) i
  end.
Definition list_insert_index (h : gmap Z list_entry) (l : clist) (index value a : Z) :=
  list_insert_index_loop h l index value a (S (S (size h))) (l_first l) 0.

Definition list_push (h : gmap Z list_entry) (l : clist) (value a : Z) :=
  list_insert_value h l (l_last l) 0 value a.
Definition list_push_front (h : gmap Z list_entry) (l : clist) (value a : Z) :=
  list_insert_value h l 0 (l_first l) value a.

Definition list_pop (h : gmap Z list_entry) (l : clist) : option (gmap Z list_entry * clist * Z) :=
  if l_last l =? 0 then Some (h, l, 0)
  else '(h, l') ← list_remove h l (l_last l); Some (h, l', l_last l).
Definition list_pop_front (h : gmap Z list_entry) (l : clist) : option (gmap Z list_entry * clist * Z) :=
  if l_first l =? 0 then Some (h, l, 0)
  else '(h, l') ← list_remove h l (l_first l); Some (h, l', l_first l).

(** ** Representation: a list of (address, value) pairs *)
Definition hd_or (n : Z) (xs : list (Z * Z)) : Z := match xs with [] => n | (a, _) :: _ => a end.
Definition last_or (p : Z) (xs : list (Z * Z)) : Z := foldl (fun _ x => x.1) p xs.

(** The entries [xs] are linked in order, the first one back to [p] and the
    last one on to [n]. *)
Fixpoint chain (h : gmap Z list_entry) (p : Z) (xs : list (Z * Z)) (n : Z) : Prop :=
  match xs with
  | [] => True
  | (a, v) :: xs =>
      a <> 0 /\ h !! a = Some (ListEntry v (hd_or n xs) p) /\ chain h a xs n
  end.

Definition is_list (h : gmap Z list_entry) (l : clist) (xs : list (Z * Z)) : Prop :=
  chain h 0 xs 0 /\ NoDup xs.*1 /\
  l_first l = hd_or 0 xs /\ l_last l = last_or 0 xs /\ l_length l = u32 (zlen xs).

Lemma chain_app h p xs ys n :
  chain h p (xs ++ ys) n <-> chain h p xs (hd_or n ys) /\ chain h (last_or p xs) ys n.
Proof.
  revert p. induction xs as [|[a v] xs IH]; intros p; simpl; [tauto|].
  rewrite IH. assert (hd_or n (xs ++ ys) = hd_or (hd_or n ys) xs) as -> by (by destruct xs as [|[]]).
  tauto.
Qed.

Lemma chain_ext h h' p xs n :
  (forall a, a ∈ xs.*1 -> h' !! a = h !! a) -> chain h p xs n -> chain h' p xs n.
Proof.
  revert p. induction xs as [|[a v] xs IH]; intros p Hext; simpl; [done|].
  intros (Ha&He&Hc). split_and!; [done| |].
  - rewrite Hext; [done|]. set_solver.
  - apply IH; [|done]. intros; apply Hext. set_solver.
Qed.

Lemma last_or_app p xs a v : last_or p (xs ++ [(a, v)]) = a.
Proof. unfold last_or. by rewrite foldl_app. Qed.
Lemma last_or_cons p a v xs : last_or p ((a, v) :: xs) = last_or a xs.
Proof. done. Qed.
Lemma last_or_change p q xs : xs <> [] -> last_or p xs = last_or q xs.
Proof. by destruct xs as [|[]]. Qed.
Lemma last_or_comp p xs ys : last_or p (xs ++ ys) = last_or (last_or p xs) ys.
Proof. unfold last_or. by rewrite foldl_app. Qed.
Lemma hd_or_app n xs ys : hd_or n (xs ++ ys) = hd_or (hd_or n ys) xs.
Proof. by destruct xs as [|[]]. Qed.

Lemma chain_nonzero h p xs n a : chain h p xs n -> a ∈ xs.*1 -> a <> 0.
Proof.
  revert p. induction xs as [|[b v] xs IH]; intros p; simpl; [set_solver|].
  intros (?&_&Hc) [->|Hin]%elem_of_cons; [done|]. by eapply IH.
Qed.
Lemma chain_dom h p xs n a : chain h p xs n -> a ∈ xs.*1 -> is_Some (h !! a).
Proof.
  revert p. induction xs as [|[b v] xs IH]; intros p; simpl; [set_solver|].
  intros (?&Hb&Hc) [->|Hin]%elem_of_cons; [by eexists|]. by eapply IH.
Qed.
Lemma last_or_in p xs : xs <> [] -> last_or p xs ∈ xs.*1.
Proof.
  destruct xs as [|x xs _] using rev_ind; [done|]. intros _.
  destruct x as [a v]. rewrite last_or_app, fmap_app. set_solver.
Qed.

Lemma update_other f a h h' b : update f a h = Some h' -> b <> a -> h' !! b = h !! b.
Proof.
  unfold update. destruct (h !! a); simpl; [|done]. intros [= <-] ?. by rewrite lookup_insert_ne.
Qed.
Lemma update_eq f a h e : h !! a = Some e -> update f a h = Some (<[a := f e]> h).
Proof. unfold update. by intros ->. Qed.
Lemma update_some f a h : is_Some (h !! a) -> is_Some (update f a h).
Proof. intros [e He]. unfold update. rewrite He. by eexists. Qed.
Lemma update_dom f a h h' b : update f a h = Some h' -> is_Some (h !! b) -> is_Some (h' !! b).
Proof.
  unfold update. destruct (h !! a) eqn:E; simpl; [|done]. intros [= <-] ?.
  destruct (decide (a = b)) as [->|]; [rewrite lookup_insert_eq; by eexists|by rewrite lookup_insert_ne].
Qed.

(** Redirecting the forward link out of a chain, the backward link into it. *)
Lemma chain_set_next h p xs n n' h' :
  chain h p xs n -> NoDup xs.*1 -> xs <> [] ->
  update (with_next n') (last_or p xs) h = Some h' -> chain h' p xs n'.
Proof.
  revert p. induction xs as [|[a v] xs IH]; intros p; simpl; [done|].
  intros (Ha&He&Hc) [Hni Hnd]%NoDup_cons _ Hup. destruct xs as [|[b w] xs].
  - unfold update in Hup. simpl in Hup. rewrite He in Hup. simpl in Hup. simplify_eq.
    split_and!; [done| |done]. by rewrite lookup_insert_eq.
  - split_and!; [done| |].
    + pose proof (last_or_in a ((b, w) :: xs) ltac:(done)) as Hin.
      rewrite (update_other _ _ _ _ a Hup); [done|]. intros Heq. apply Hni. by rewrite Heq.
    + by apply IH.
Qed.

Lemma chain_set_prev h p xs n p' h' :
  chain h p xs n -> NoDup xs.*1 -> xs <> [] ->
  update (with_prev p') (hd_or 0 xs) h = Some h' -> chain h' p' xs n.
Proof.
  destruct xs as [|[a v] xs]; [done|]. simpl. intros (Ha&He&Hc) [Hni Hnd]%NoDup_cons _.
  unfold update. rewrite He; simpl. intros [= <-]. split_and!; [done|by rewrite lookup_insert_eq|].
  eapply chain_ext; [|done]. intros b Hb. rewrite lookup_insert_ne; [done|]. by intros <-.
Qed.


(** ** Insertion *)
Lemma hd_or_zero h p xs n : chain h p xs n -> (hd_or 0 xs =? 0) = bool_decide (xs = []).
Proof. destruct xs as [|[a v] xs]; simpl; [done|]. intros (?&_). by apply Z.eqb_neq. Qed.
Lemma last_or_zero h p xs n : chain h p xs n -> (last_or 0 xs =? 0) = bool_decide (xs = []).
Proof.
  intros Hc. destruct (decide (xs = [])) as [->|Hne]; [done|].
  rewrite bool_decide_false by done. apply Z.eqb_neq.
  eapply chain_nonzero; [done|]. by apply last_or_in.
Qed.

(** The second half of an insertion: the link back from [zs]. *)
Lemma link_back h l zs p0 a :
  chain h p0 zs 0 -> NoDup zs.*1 ->
  exists h' l',
    (if negb (hd_or 0 zs =? 0) then h ← update (with_prev a) (hd_or 0 zs) h; Some (h, l)
     else Some (h, with_last a l)) = Some (h', l') /\
    chain h' a zs 0 /\ (forall b, b ∉ zs.*1 -> h' !! b = h !! b) /\
    l_first l' = l_first l /\ l_length l' = l_length l /\
    l_last l' = if bool_decide (zs = []) then a else l_last l.
Proof.
  intros Hc Hnd. rewrite (hd_or_zero _ _ _ _ Hc). destruct (decide (zs = [])) as [->|Hne].
  - exists h, (with_last a l). done.
  - rewrite bool_decide_false by done; simpl.
    assert (Hin : hd_or 0 zs ∈ zs.*1) by (destruct zs as [|[]]; [done|set_solver]).
    destruct (update_some (with_prev a) (hd_or 0 zs) h) as [h' Hh']; [by eapply chain_dom|].
    rewrite Hh'; simpl. exists h', l. split_and!; try done.
    + by eapply chain_set_prev.
    + intros b Hb. eapply update_other; [done|]. by intros ->.
Qed.

(** The link forward from [xs]. *)
Lemma link_forward h l xs n0 a :
  chain h 0 xs n0 -> NoDup xs.*1 ->
  exists h' l',
    (if negb (last_or 0 xs =? 0) then h ← update (with_next a) (last_or 0 xs) h; Some (h, l)
     else Some (h, with_first a l)) = Some (h', l') /\
    chain h' 0 xs a /\ (forall b, b ∉ xs.*1 -> h' !! b = h !! b) /\
    l_last l' = l_last l /\ l_length l' = l_length l /\
    l_first l' = if bool_decide (xs = []) then a else l_first l.
Proof.
  intros Hc Hnd. rewrite (last_or_zero _ _ _ _ Hc). destruct (decide (xs = [])) as [->|Hne].
  - exists h, (with_first a l). done.
  - rewrite bool_decide_false by done; simpl. pose proof (last_or_in 0 xs Hne) as Hin.
    destruct (update_some (with_next a) (last_or 0 xs) h) as [h' Hh']; [by eapply chain_dom|].
    rewrite Hh'; simpl. exists h', l. split_and!; try done.
    + by eapply chain_set_next.
    + intros b Hb. eapply update_other; [done|]. by intros ->.
Qed.

(** Inserting [a] between the end of [xs] and the start of [zs]; whatever was
    linked between them before is cut out. *)
Lemma list_insert_spec h l xs zs n0 p0 a v e0 :
  chain h 0 xs n0 -> chain h p0 zs 0 -> NoDup (xs ++ zs).*1 -> a <> 0 ->
  a ∉ (xs ++ zs).*1 -> h !! a = Some e0 -> le_value e0 = v ->
  (xs <> [] -> l_first l = hd_or 0 xs) -> (zs <> [] -> l_last l = last_or 0 zs) ->
  exists h' l', list_insert h l (last_or 0 xs) (hd_or 0 zs) a = Some (h', l') /\
    chain h' 0 (xs ++ (a, v) :: zs) 0 /\
    l_first l' = hd_or 0 (xs ++ (a, v) :: zs) /\ l_last l' = last_or 0 (xs ++ (a, v) :: zs) /\
    l_length l' = u32 (l_length l + 1) /\
    (forall b, b ∉ a :: (xs ++ zs).*1 -> h' !! b = h !! b).
Proof.
  rewrite fmap_app. intros Hx Hz [Hnx [Hdisj Hnz]]%NoDup_app Ha Hni He Hv Hf Hl.
  unfold list_insert. destruct (Z.eqb_spec a 0) as [|_]; [done|].
  rewrite (update_eq _ _ _ _ He); simpl.
  rewrite (update_eq _ _ _ _ (lookup_insert_eq _ _ _)); simpl.
  rewrite insert_insert_eq. set (h2 := <[a := _]> h).
  assert (Hother : forall b, b <> a -> h2 !! b = h !! b) by (intros; by apply lookup_insert_ne).
  assert (Hz2 : chain h2 p0 zs 0).
  { eapply chain_ext; [|done]. intros; apply Hother. set_solver. }
  destruct (link_back h2 l zs p0 a Hz2 Hnz) as (h3&l3&->&Hz3&Ho3&Hf3&Hn3&Hl3). simpl.
  assert (Hx3 : chain h3 0 xs n0).
  { eapply chain_ext; [|exact Hx]. intros b Hb. rewrite Ho3 by set_solver. apply Hother. set_solver. }
  destruct (link_forward h3 l3 xs n0 a Hx3 Hnx) as (h4&l4&->&Hx4&Ho4&Hl4&Hn4&Hf4). simpl.
  eexists _, _. split; [done|]. simpl. rewrite chain_app, hd_or_app, last_or_comp; simpl.
  split_and!; try done.
  - rewrite Ho4, Ho3 by set_solver. unfold h2. rewrite lookup_insert_eq. subst v. done.
  - eapply chain_ext; [|exact Hz3]. intros b Hb. apply Ho4. set_solver.
  - rewrite Hf4, Hf3. destruct (decide (xs = [])) as [->|]; [done|].
    rewrite bool_decide_false, Hf by done. by destruct xs as [|[]].
  - rewrite Hl4, Hl3. destruct (decide (zs = [])) as [->|]; [done|].
    rewrite bool_decide_false, Hl by done. by apply last_or_change.
  - by rewrite Hn4, Hn3.
  - intros b Hb. rewrite Ho4, Ho3 by set_solver. apply Hother. set_solver.
Qed.

Lemma list_insert_value_spec h l xs zs n0 p0 a v :
  chain h 0 xs n0 -> chain h p0 zs 0 -> NoDup (xs ++ zs).*1 -> a <> 0 ->
  a ∉ (xs ++ zs).*1 ->
  (xs <> [] -> l_first l = hd_or 0 xs) -> (zs <> [] -> l_last l = last_or 0 zs) ->
  exists h' l', list_insert_value h l (last_or 0 xs) (hd_or 0 zs) v a = Some (h', l', a) /\
    chain h' 0 (xs ++ (a, v) :: zs) 0 /\
    l_first l' = hd_or 0 (xs ++ (a, v) :: zs) /\ l_last l' = last_or 0 (xs ++ (a, v) :: zs) /\
    l_length l' = u32 (l_length l + 1) /\
    (forall b, b ∉ a :: (xs ++ zs).*1 -> h' !! b = h !! b).
Proof.
  rewrite fmap_app. intros Hx Hz Hnd Ha Hni Hf Hl. unfold list_insert_value.
  destruct (Z.eqb_spec a 0) as [|_]; [done|]. set (h1 := <[a := _]> h).
  assert (Ho : forall b, b <> a -> h1 !! b = h !! b) by (intros; by apply lookup_insert_ne).
  destruct (list_insert_spec h1 l xs zs n0 p0 a v (ListEntry v 0 0))
    as (h'&l'&->&Hc&H1&H2&H3&H4); try (done || by rewrite fmap_app).
  - eapply chain_ext; [|done]. intros; apply Ho. set_solver.
  - eapply chain_ext; [|done]. intros; apply Ho. set_solver.
  - apply lookup_insert_eq.
  - simpl. exists h', l'. split_and!; try done. intros b Hb. rewrite H4 by set_solver.
    apply Ho. set_solver.
Qed.

(** Inserting between neighbours of a well-formed list. *)
Lemma insert_value_is_list h l xs ys a v :
  is_list h l (xs ++ ys) -> a <> 0 -> a ∉ (xs ++ ys).*1 ->
  exists h' l', list_insert_value h l (last_or 0 xs) (hd_or 0 ys) v a = Some (h', l', a) /\
    is_list h' l' (xs ++ (a, v) :: ys) /\
    (forall b, b ∉ a :: (xs ++ ys).*1 -> h' !! b = h !! b).
Proof.
  intros ([Hx Hy]%chain_app&Hnd&Hf&Hl&Hn) Ha Hni.
  destruct (list_insert_value_spec h l xs ys (hd_or 0 ys) (last_or 0 xs) a v)
    as (h'&l'&He&Hc&H1&H2&H3&H4); try done.
  - intros Hne. rewrite Hf. by destruct xs as [|[]].
  - intros Hne. rewrite Hl, last_or_comp. by apply last_or_change.
  - exists h', l'. split; [done|]. split; [|done]. split_and!; try done.
    + rewrite fmap_app in *; simpl. apply NoDup_app in Hnd as (?&?&?). apply NoDup_app.
      rewrite NoDup_cons. set_solver.
    + rewrite H3, Hn, !zlen_app. unfold zlen; simpl. rewrite u32_add_l. f_equal. lia.
Qed.

(** ** Removal *)
Lemma remove_is_list h l xs ys a v :
  is_list h l (xs ++ (a, v) :: ys) ->
  exists h' l', list_remove h l a = Some (h', l') /\ is_list h' l' (xs ++ ys) /\
    h' !! a = h !! a /\ (forall b, b ∉ (xs ++ ys).*1 -> h' !! b = h !! b).
Proof.
  intros (Hc&Hnd&Hf&Hl&Hn). apply chain_app in Hc as [Hx (Ha&He&Hy)]. simpl in Hx.
  rewrite fmap_app in Hnd; simpl in Hnd. apply NoDup_app in Hnd as (Hnx&Hdisj&Hny').
  apply NoDup_cons in Hny' as [Hay Hny]. fold (fmap (M := list) (fst (A := Z) (B := Z))) in *.
  assert (Hax : a ∉ xs.*1) by set_solver.
  unfold list_remove. destruct (Z.eqb_spec a 0) as [|_]; [done|]. rewrite He; simpl.
  rewrite (last_or_zero _ _ _ _ Hx), (hd_or_zero _ _ _ _ Hy).
  assert (Hlen : u32 (l_length l - 1) = u32 (zlen (xs ++ ys))).
  { rewrite Hn, u32_sub_l, !zlen_app. unfold zlen; simpl. f_equal. lia. }
  assert (Hnd' : NoDup (xs ++ ys).*1) by (rewrite fmap_app; apply NoDup_app; set_solver).
  rewrite hd_or_app in Hf. rewrite last_or_comp, last_or_cons in Hl.
  destruct (link_back h (with_first (hd_or 0 ys) l) ys a (last_or 0 xs) Hy Hny)
    as (hb&lb&Hbe&Hby&Hbo&_).
  rewrite (hd_or_zero _ _ _ _ Hy) in Hbe.
  destruct (decide (xs = [])) as [->|Hxne], (decide (ys = [])) as [->|Hyne];
    rewrite ?bool_decide_true, ?bool_decide_false in * by done; simpl in *.
  - eexists _, _. split; [done|]. split_and!; done || (by split_and!).
  - destruct (update (with_prev 0) (hd_or 0 ys) h) as [h1|] eqn:E; simpl in *; [|done]. simplify_eq.
    eexists _, _. split; [done|]. split_and!; try done; [|by rewrite Hbo].
    split_and!; try done. simpl. rewrite Hl. by apply last_or_change.
  - destruct (link_forward h l xs a 0 Hx Hnx) as (h1&l1&H1&H2&H3&_).
    rewrite (last_or_zero _ _ _ _ Hx), bool_decide_false in H1 by done; simpl in H1.
    destruct (update _ (last_or 0 xs) h) as [h1'|] eqn:E; simpl in *; [|done]. simplify_eq.
    eexists _, _. split; [done|]. rewrite app_nil_r in *. split_and!; try done; [|by rewrite H3].
    split_and!; try done. simpl. rewrite Hf. by destruct xs as [|[]].
  - destruct (link_forward h l xs a (hd_or 0 ys) Hx Hnx) as (h1&l1&H1&H2&H3&_).
    rewrite (last_or_zero _ _ _ _ Hx), bool_decide_false in H1 by done; simpl in H1.
    destruct (update _ (last_or 0 xs) h) as [h1'|] eqn:E; simpl in *; [|done]. simplify_eq.
    assert (Hy1 : chain h1 a ys 0).
    { eapply chain_ext; [|done]. intros b Hb. apply H3. set_solver. }
    destruct (link_back h1 l1 ys a (last_or 0 xs) Hy1 Hny) as (h2&l2&H4&H5&H6&_).
    rewrite (hd_or_zero _ _ _ _ Hy1), bool_decide_false in H4 by done; simpl in H4.
    destruct (update _ (hd_or 0 ys) h1) as [h2'|] eqn:E2; simpl in *; [|done]. simplify_eq.
    eexists _, _. split; [done|]. rewrite fmap_app in *. split_and!.
    + split_and!; try done; [|by rewrite fmap_app|simpl; rewrite Hf; by destruct xs as [|[]]
        |simpl; rewrite Hl, last_or_comp; by apply last_or_change].
      apply chain_app. split; [|done]. eapply chain_ext; [|done]. intros b Hb. apply H6. set_solver.
    + rewrite H6, H3 by set_solver. done.
    + intros b Hb. rewrite H6, H3 by set_solver. done.
Qed.

Lemma is_list_frame h h' l xs :
  (forall b, b ∈ xs.*1 -> h' !! b = h !! b) -> is_list h l xs -> is_list h' l xs.
Proof. intros Hb (Hc&?). split; [|done]. by eapply chain_ext. Qed.

Lemma push_is_list h l xs a v :
  is_list h l xs -> a <> 0 -> a ∉ xs.*1 ->
  exists h' l', list_push h l v a = Some (h', l', a) /\ is_list h' l' (xs ++ [(a, v)]) /\
    (forall b, b ∉ a :: xs.*1 -> h' !! b = h !! b).
Proof.
  intros Hl Ha Hni. pose proof Hl as (_&_&_&Hlast&_). unfold list_push. rewrite Hlast.
  rewrite <- (app_nil_r xs) in Hl, Hni.
  destruct (insert_value_is_list h l xs [] a v Hl Ha Hni) as (h'&l'&?&?&Ho).
  exists h', l'. split_and!; [done..|]. intros. apply Ho. by rewrite app_nil_r.
Qed.

Lemma push_front_is_list h l xs a v :
  is_list h l xs -> a <> 0 -> a ∉ xs.*1 ->
  exists h' l', list_push_front h l v a = Some (h', l', a) /\ is_list h' l' ((a, v) :: xs) /\
    (forall b, b ∉ a :: xs.*1 -> h' !! b = h !! b).
Proof.
  intros Hl Ha Hni. pose proof Hl as (_&_&Hfirst&_). unfold list_push_front. rewrite Hfirst.
  apply (insert_value_is_list h l [] xs a v Hl Ha Hni).
Qed.

Lemma pop_front_is_list h l a v xs :
  is_list h l ((a, v) :: xs) ->
  exists h' l', list_pop_front h l = Some (h', l', a) /\ is_list h' l' xs /\ h' !! a = h !! a /\
    (forall b, b ∉ xs.*1 -> h' !! b = h !! b).
Proof.
  intros Hl. pose proof Hl as ((Ha&_)&_&Hf&_). simpl in Hf. unfold list_pop_front.
  rewrite Hf. destruct (Z.eqb_spec a 0); [done|].
  destruct (remove_is_list h l [] xs a v Hl) as (h'&l'&->&?&?&?). simpl. eauto 10.
Qed.

Lemma pop_is_list h l a v xs :
  is_list h l (xs ++ [(a, v)]) ->
  exists h' l', list_pop h l = Some (h', l', a) /\ is_list h' l' xs /\ h' !! a = h !! a /\
    (forall b, b ∉ xs.*1 -> h' !! b = h !! b).
Proof.
  intros Hl. pose proof Hl as (Hc&_&_&Hla&_). rewrite last_or_app in Hla.
  assert (a <> 0) by (eapply chain_nonzero; [done|rewrite fmap_app; set_solver]).
  unfold list_pop. rewrite Hla. destruct (Z.eqb_spec a 0); [done|].
  destruct (remove_is_list h l xs [] a v Hl) as (h'&l'&->&?&?&?). rewrite app_nil_r in *.
  simpl. eauto 10.
Qed.

Lemma chain_size h p xs n : chain h p xs n -> NoDup xs.*1 -> (length xs <= size h)%nat.
Proof.
  intros Hc Hnd. rewrite <- (length_fmap fst xs), <- (size_list_to_set (C := gset Z) xs.*1) by done.
  rewrite <- size_dom. apply subseteq_size. intros a Ha%elem_of_list_to_set.
  apply elem_of_dom. by eapply chain_dom.
Qed.

Lemma remove_index_loop_spec h l index fuel xs ys :
  is_list h l (xs ++ ys) -> zlen xs <= index < 0x100000000 -> (length ys < fuel)%nat ->
  zlen (xs ++ ys) < 0x100000000 ->
  list_remove_index_loop h l index fuel (hd_or 0 ys) (zlen xs)
  = match (xs ++ ys) !! Z.to_nat index with
    | Some (a, _) => '(h', l') ← list_remove h l a; Some (h', l', a)
    | None => Some (h, l, 0)
    end.
Proof.
  revert xs ys. induction fuel as [|fuel IH]; intros xs ys Hl Hi Hf Hs; [lia|]. simpl.
  pose proof Hl as (Hc&_). apply chain_app in Hc as [_ Hy].
  destruct ys as [|[a v] ys].
  - rewrite app_nil_r in *. rewrite lookup_ge_None_2 by (unfold zlen in *; lia). done.
  - destruct Hy as (Ha&He&_). unfold hd_or at 1 3 4; simpl.
    destruct (Z.eqb_spec a 0); [done|]. destruct (Z.eqb_spec (zlen xs) index) as [Heq|Hne].
    + rewrite lookup_app_r by (unfold zlen in *; lia).
      by replace (Z.to_nat index - length xs)%nat with O by (unfold zlen in *; lia).
    + rewrite He; simpl. replace (xs ++ (a, v) :: ys) with ((xs ++ [(a, v)]) ++ ys) in *
        by by rewrite <- app_assoc.
      rewrite <- IH; [|done|rewrite zlen_app; unfold zlen in *; simpl; lia|simpl in *; lia|done].
      f_equal. rewrite zlen_app in *. rewrite u32_id; [done|].
      unfold zlen in *; rewrite length_app in *; simpl in *; lia.
Qed.

Lemma remove_index_spec h l index xs :
  is_list h l xs -> 0 <= index < 0x100000000 -> zlen xs < 0x100000000 ->
  list_remove_index h l index
  = match xs !! Z.to_nat index with
    | Some (a, _) => '(h', l') ← list_remove h l a; Some (h', l', a)
    | None => Some (h, l, 0)
    end.
Proof.
  intros Hl Hi Hs. unfold list_remove_index. pose proof Hl as (Hc&Hnd&->&_).
  apply (remove_index_loop_spec h l index _ [] xs); try done.
  pose proof (chain_size _ _ _ _ Hc Hnd). lia.
Qed.

(** C4: on a well-formed list the operations are those of a sequence: [push]
    and [push_front] add an entry at an end, [pop] and [pop_front] remove and
    return the entry at an end (NULL on the empty list), every link of the
    result is consistent, and entries of other lists are not touched. *)
Theorem list_refines_sequence (h : gmap Z list_entry) (l : clist) (xs : list (Z * Z)) (a v : Z)
  (Hl : is_list h l xs) (Ha : a <> 0) (Hfresh : a ∉ xs.*1) :
  (exists h' l', list_push h l v a = Some (h', l', a) /\ is_list h' l' (xs ++ [(a, v)]) /\
    forall b, b ∉ a :: xs.*1 -> h' !! b = h !! b) /\
  (exists h' l', list_push_front h l v a = Some (h', l', a) /\ is_list h' l' ((a, v) :: xs) /\
    forall b, b ∉ a :: xs.*1 -> h' !! b = h !! b) /\
  (exists h' l' r, list_pop h l = Some (h', l', r) /\
    (forall b, b ∉ xs.*1 -> h' !! b = h !! b) /\
    match last xs with
    | None => r = 0 /\ is_list h' l' []
    | Some (b, _) => r = b /\ is_list h' l' (take (length xs - 1) xs)
    end) /\
  (exists h' l' r, list_pop_front h l = Some (h', l', r) /\
    (forall b, b ∉ xs.*1 -> h' !! b = h !! b) /\
    match xs with
    | [] => r = 0 /\ is_list h' l' []
    | (b, _) :: ys => r = b /\ is_list h' l' ys
    end).
Proof.
  split_and!.
  - by apply push_is_list.
  - by apply push_front_is_list.
  - destruct xs as [|[b w] xs _] using rev_ind.
    + pose proof Hl as (_&_&_&Hla&_). unfold list_pop. rewrite Hla; simpl.
      exists h, l, 0. by split_and!.
    + rewrite last_snoc, length_app, Nat.add_sub, take_app_length.
      destruct (pop_is_list h l b w xs Hl) as (h'&l'&?&?&?&Ho). exists h', l', b.
      split_and!; try done. intros c Hc. apply Ho. rewrite fmap_app in Hc. set_solver.
  - destruct xs as [|[b w] xs].
    + pose proof Hl as (_&_&Hfi&_). unfold list_pop_front. rewrite Hfi; simpl.
      exists h, l, 0. by split_and!.
    + destruct (pop_front_is_list h l b w xs Hl) as (h'&l'&?&?&?&Ho). exists h', l', b.
      split_and!; try done. intros c Hc. apply Ho. set_solver.
Qed.

(** The list [(10, 7); (20, 8)] built by two pushes. *)
Definition list_example : gmap Z list_entry * clist :=
  ({[10 := ListEntry 7 20 0; 20 := ListEntry 8 0 10]}, CList 10 20 2).
Lemma list_example_ok : is_list list_example.1 list_example.2 [(10, 7); (20, 8)].
Proof.
  unfold is_list; simpl. split_and!; try done. repeat constructor; set_solver.
Qed.

Lemma list_refines_sequence_witness :
  exists h' l', list_pop_front list_example.1 list_example.2 = Some (h', l', 10) /\
                is_list h' l' [(20, 8)].
Proof.
  destruct (list_refines_sequence _ _ _ 30 9 list_example_ok ltac:(lia) ltac:(set_solver))
    as (_&_&_&h'&l'&r&H1&_&->&H2). eauto.
Defined.

(** [list_remove] unlinks exactly the given entry wherever it stands (the
    neighbours are joined, the removed entry itself keeps its links), and
    [list_remove_index] removes and returns the entry of that index, NULL past
    the end; the walk always ends on a well-formed list. *)
Lemma list_remove_unlinks (h : gmap Z list_entry) (l : clist) (xs ys : list (Z * Z)) (a v : Z)
  (Hl : is_list h l (xs ++ (a, v) :: ys)) (Hlen : zlen (xs ++ (a, v) :: ys) < 0x100000000) :
  exists h' l', list_remove h l a = Some (h', l') /\
    list_remove_index h l (zlen xs) = Some (h', l', a) /\
    is_list h' l' (xs ++ ys) /\ h' !! a = h !! a /\
    (forall b, b ∉ (xs ++ ys).*1 -> h' !! b = h !! b) /\
    (forall i, zlen (xs ++ (a, v) :: ys) <= i < 0x100000000 ->
       list_remove_index h l i = Some (h, l, 0)).
Proof.
  destruct (remove_is_list h l xs ys a v Hl) as (h'&l'&He&H1&H2&H3).
  exists h', l'. pose proof (zlen_nonneg xs). rewrite zlen_app in Hlen.
  pose proof (zlen_nonneg ((a, v) :: ys)).
  split_and!; try done.
  - rewrite (remove_index_spec h l _ _ Hl) by (rewrite ?zlen_app; lia).
    unfold zlen at 1. rewrite Nat2Z.id, lookup_app_r, Nat.sub_diag by lia. simpl. by rewrite He.
  - intros i Hi. pose proof (zlen_nonneg (xs ++ (a, v) :: ys)).
    rewrite (remove_index_spec h l i _ Hl) by (rewrite ?zlen_app in *; lia).
    rewrite lookup_ge_None_2; [done|]. unfold zlen in *. lia.
Qed.

Lemma list_remove_unlinks_witness :
  exists h' l', list_remove_index list_example.1 list_example.2 1 = Some (h', l', 20) /\
                is_list h' l' [(10, 7)].
Proof.
  destruct (list_remove_unlinks _ _ [(10, 7)] [] 20 8 list_example_ok ltac:(vm_compute; reflexivity))
    as (h'&l'&_&H1&H2&_). eauto.
Defined.

Lemma insert_index_loop_spec h l index value a fuel xs ys :
  is_list h l (xs ++ ys) -> index <> 0 -> (length ys < fuel)%nat ->
  list_insert_index_loop h l index value a fuel (hd_or 0 ys) 0 = Some (h, l, 0).
Proof.
  revert xs ys. induction fuel as [|fuel IH]; intros xs ys Hl Hi Hf; [lia|]. simpl.
  pose proof Hl as (Hc&_). apply chain_app in Hc as [_ Hy].
  destruct ys as [|[b w] ys]; [done|]. destruct Hy as (Hb&He&_). unfold hd_or at 1 2; simpl.
  destruct (Z.eqb_spec b 0); [done|]. rewrite He; simpl.
  destruct index as [|p|p]; [done|..];
    (apply (IH (xs ++ [(b, w)]) ys); [by rewrite <- app_assoc|done|simpl in Hf; lia]).
Qed.

(** [list_insert_index] never advances its counter: at index 0 it inserts
    {e after} the first entry and returns that old entry, and at every other
    index it inserts nothing and returns NULL, even where the index exists. *)
Theorem list_insert_index_only_zero (h : gmap Z list_entry) (l : clist)
  (xs : list (Z * Z)) (a v b w : Z)
  (Hl : is_list h l ((b, w) :: xs)) (Ha : a <> 0) (Hfresh : a ∉ ((b, w) :: xs).*1) :
  (exists h' l', list_insert_index h l 0 v a = Some (h', l', b) /\
     is_list h' l' ((b, w) :: (a, v) :: xs)) /\
  (forall i, 0 < i -> list_insert_index h l i v a = Some (h, l, 0)).
Proof.
  pose proof Hl as (Hc&Hnd&Hf&_). split.
  - unfold list_insert_index. rewrite Hf. destruct Hc as (Hb&He&Hc). simpl.
    destruct (Z.eqb_spec b 0); [done|]. rewrite He; simpl.
    destruct (insert_value_is_list h l [(b, w)] xs a v Hl Ha Hfresh) as (h'&l'&Hi&?&_).
    simpl in Hi. rewrite Hi; simpl. eauto.
  - intros i Hi. unfold list_insert_index. rewrite Hf.
    apply (insert_index_loop_spec h l i v a _ [] _ Hl); [lia|].
    pose proof (chain_size _ _ _ _ Hc Hnd). simpl in *. lia.
Qed.

Lemma list_insert_index_only_zero_witness :
  list_insert_index list_example.1 list_example.2 1 5 30
  = Some (list_example.1, list_example.2, 0).
Proof.
  apply (list_insert_index_only_zero _ _ _ 30 5 _ _ list_example_ok); [lia|set_solver|lia].
Defined.
