(* ===== verification/CString.v ===== *)
(** * CString: lib/string.c

    A [char] is a signed 8-bit [Z]; a [const char *] is the suffix, from the
    pointed-at character on, of the buffer it points into.  A function that
    reads past the end of the buffer yields [None]; [Some None] is the NULL
    pointer.  [cstring s] is the buffer of a string literal or of a heap copy:
    the characters of [s] and the terminating 0. *)
From S2P Require Import Prelude.
From Stdlib Require String Ascii.
Export String.StringSyntax.

#[local] Arguments Z.eqb !x !y : simpl nomatch.

(** The characters of a string literal. *)
Definition str (s : String.string) : list Z :=
  map (fun c => Z.of_N (Ascii.N_of_ascii c)) (String.list_ascii_of_string s).
#[global] Arguments str s%_string_scope.
Definition cstring (s : list Z) : list Z := s ++ [0].
(** Contents of a C string: no embedded 0. *)
Definition nonul (s : list Z) : Prop := Forall (fun c => c <> 0) s.

Fixpoint memchr (s : list Z) (c : Z) (n : nat) : option (option (list Z)) :=
  match n with
  | O => Some None
  | S n => match s with
           | [] => None
           | x :: s' => if negb (x =? c) then memchr s' c n else Some (Some s)
           end
  end.

Fixpoint memcmp (pa pb : list Z) (sz : nat) : option Z :=
  match sz with
  | O => Some 0
  | S sz => match pa, pb with
            | a :: pa, b :: pb => if a =? b then memcmp pa pb sz else Some (a - b)
            | _, _ => None
            end
  end.

(** [memcpy(dst, src, n)] as the value of the destination buffer. *)
Fixpoint memcpy (dst src : list Z) (n : nat) {struct n} : option (list Z) :=
  match n with
  | O => Some dst
  | S n => match dst, src with
           | _ :: dst, x :: src => d ← memcpy dst src n; Some (x :: d)
           | _, _ => None
           end
  end.

Fixpoint memset (p : list Z) (c : Z) (n : nat) {struct n} : option (list Z) :=
  match n with
  | O => Some p
  | S n => match p with
           | _ :: p => q ← memset p c n; Some (s8 c :: q)
           | [] => None
           end
  end.

Fixpoint strchr (s : list Z) (c : Z) : option (option (list Z)) :=
  match s with
  | [] => None
  | x :: s' => if negb (x =? 0) && negb (x =? c) then strchr s' c
               else if x =? 0 then Some None else Some (Some s)
  end.

Fixpoint strlen (s : list Z) : option Z :=
  match s with
  | [] => None
  | x :: s' => if negb (x =? 0) then n ← strlen s'; Some (n + 1) else Some 0
  end.

(** The downward scan of [strrchr] from [s + i - 1]; the result is an offset. *)
Fixpoint strrchr_loop (s : list Z) (c : Z) (i : nat) : option Z :=
  match i with
  | O => None
  | S i => if negb (get 0 s (Z.of_nat i) =? c) then strrchr_loop s c i else Some (Z.of_nat i)
  end.
Definition strrchr (s : list Z) (c : Z) : option (option Z) :=
  n ← strlen s; Some (strrchr_loop s c (Z.to_nat n)).

Fixpoint strcmp (a b : list Z) : option Z :=
  match a, b with
  | x :: a, y :: b =>
      if negb (x =? 0) && negb (y =? 0) && (x =? y) then strcmp a b
      else if x =? y then Some 0 else Some (x - y)
  | _, _ => None
  end.

Fixpoint strstr_loop (haystack needle : list Z) (sz : nat) : option (option (list Z)) :=
  r ← memcmp haystack needle sz;
  if negb (r =? 0) then
    match haystack with
    | [] => None
    | x :: rest => if x =? 0 then Some None else strstr_loop rest needle sz
    end
  else Some (Some haystack).
Definition strstr (haystack needle : list Z) : option (option (list Z)) :=
  sz ← strlen needle; strstr_loop haystack needle (Z.to_nat sz).

(** [strcpy(dst, src)] as the value of the destination buffer. *)
Fixpoint strcpy (dst src : list Z) : option (list Z) :=
  match dst, src with
  | _ :: dst, x :: src => if x =? 0 then Some (x :: dst) else d ← strcpy dst src; Some (x :: d)
  | _, _ => None
  end.

(** A write at [dest + off]. *)
Definition at_off (f : list Z -> option (list Z)) (dest : list Z) (off : Z) : option (list Z) :=
  if off <? 0 then None
  else if zlen dest <? off then None
  else d ← f (drop (Z.to_nat off) dest); Some (take (Z.to_nat off) dest ++ d).

(** The [do ... while] of [strsplt]: [p] is the pointer after [++p], [c] the
    number of rows written. *)
Fixpoint strsplt_loop (fuel : nat) (p dest : list Z) (buf_str_size n delim c : Z)
  : option (list Z * Z) :=
  match fuel with
  | O => None
  | S fuel =>
      next ← strchr p delim;
      match next with
      | Some nx =>
          if (0 <? n) && (c =? n)
          then d ← at_off (fun d => strcpy d p) dest (buf_str_size * c); Some (d, c + 1)
          else
            let len := (length p - length nx)%nat in
            d ← at_off (fun d => memcpy d p len) dest (buf_str_size * c);
            d ← at_off (fun d => memset d 0 1) d (buf_str_size * c + Z.of_nat len);
            strsplt_loop fuel (tail nx) d buf_str_size n delim (c + 1)
      | None => d ← at_off (fun d => strcpy d p) dest (buf_str_size * c); Some (d, c + 1)
      end
  end.
Definition strsplt (src dest : list Z) (buf_str_size n delim : Z) : option (list Z * Z) :=
  strsplt_loop (S (length src)) src dest buf_str_size n delim 0.

(** [fresh] is the allocation of [strlen(s) + 1] bytes. *)
Definition strdup (fresh s : list Z) : option (list Z) :=
  n ← strlen s;
  d ← memcpy fresh s (Z.to_nat (n + 1));
  at_off (fun d => memset d 0 1) d n.

(** ** The functions on the contents of strings *)
Lemma nonul_cons c s : nonul (c :: s) <-> c <> 0 /\ nonul s.
Proof. unfold nonul. by rewrite Forall_cons. Qed.

Lemma strlen_cstring s rest : nonul s -> strlen (cstring s ++ rest) = Some (zlen s).
Proof.
  induction s as [|c s IH]; simpl; [done|]. intros [Hc Hs]%nonul_cons.
  destruct (Z.eqb_spec c 0); [done|]; simpl. unfold cstring in IH. rewrite IH by done. simpl.
  unfold zlen; simpl. f_equal. lia.
Qed.

Lemma strcmp_cstring a b r1 r2 :
  nonul a -> nonul b ->
  exists d, strcmp (cstring a ++ r1) (cstring b ++ r2) = Some d /\ (d = 0 <-> a = b).
Proof.
  revert b. induction a as [|x a IH]; intros [|y b]; simpl.
  - intros _ _. by exists 0.
  - intros _ [Hy _]%nonul_cons. destruct (Z.eqb_spec 0 y); [congruence|].
    exists (0 - y). split; [done|]. split; [lia|done].
  - intros [Hx _]%nonul_cons _. destruct (Z.eqb_spec x 0); [done|]; simpl.
    exists (x - 0). split; [done|]. split; [lia|done].
  - intros [Hx Ha]%nonul_cons [Hy Hb]%nonul_cons.
    destruct (Z.eqb_spec x 0), (Z.eqb_spec y 0); try done; simpl.
    destruct (Z.eqb_spec x y) as [->|Hne].
    + destruct (IH b Ha Hb) as (d&Hd&Hiff). exists d. split; [done|].
      rewrite Hiff. split; congruence.
    + exists (x - y). split; [done|]. split; [lia|congruence].
Qed.

Lemma strchr_cstring s rest c :
  nonul s -> c <> 0 ->
  (c ∉ s /\ strchr (cstring s ++ rest) c = Some None) \/
  (exists s1 s2, s = s1 ++ c :: s2 /\ c ∉ s1 /\
     strchr (cstring s ++ rest) c = Some (Some (c :: cstring s2 ++ rest))).
Proof.
  intros Hs Hc. induction s as [|x s IH]; simpl.
  - left. split; [set_solver|done].
  - apply nonul_cons in Hs as [Hx Hs]. destruct (Z.eqb_spec x 0); [done|]; simpl.
    destruct (Z.eqb_spec x c) as [->|Hne]; simpl.
    + right. exists [], s. split_and!; [done|set_solver|done].
    + unfold cstring in IH. destruct (IH Hs) as [[Hn ->]|(s1&s2&->&Hn&->)].
      * left. split; [|done]. set_solver.
      * right. exists (x :: s1), s2. split_and!; [done| |done]. set_solver.
Qed.

(** The last occurrence of a character in a list. *)
Lemma strrchr_loop_spec s c i :
  (i <= length s)%nat ->
  match strrchr_loop s c i with
  | None => c ∉ take i s
  | Some k => 0 <= k < Z.of_nat i /\ get 0 s k = c /\ c ∉ drop (S (Z.to_nat k)) (take i s)
  end.
Proof.
  induction i as [|i IH]; intros Hi; simpl; [rewrite take_0; set_solver|].
  assert (Hin : s !! i = Some (get 0 s (Z.of_nat i))).
  { rewrite <- (get_lookup 0 s (Z.of_nat i)) by (unfold zlen; lia). by rewrite Nat2Z.id. }
  pose proof (take_S_r s i _ Hin) as Ht.
  destruct (Z.eqb_spec (get 0 s (Z.of_nat i)) c) as [Heq|Hne]; simpl.
  - split_and!; [lia|lia|done|]. rewrite Nat2Z.id. rewrite drop_ge; [set_solver|].
    rewrite length_take. lia.
  - specialize (IH ltac:(lia)). rewrite Ht. destruct (strrchr_loop s c i) as [k|].
    + destruct IH as (?&?&Hd). split_and!; [lia|lia|done|].
      rewrite drop_app_le by (rewrite length_take; lia). set_solver.
    + set_solver.
Qed.

Lemma strcpy_cstring dst s r :
  nonul s -> (length s < length dst)%nat ->
  strcpy dst (cstring s ++ r) = Some (cstring s ++ drop (S (length s)) dst).
Proof.
  revert dst. induction s as [|c s IH]; intros [|x dst] Hs Hl; simpl in *; try lia.
  - by rewrite drop_0.
  - apply nonul_cons in Hs as [Hc Hs]. destruct (Z.eqb_spec c 0); [done|].
    unfold cstring in IH. rewrite IH by (done || lia). done.
Qed.

Lemma memcpy_spec dst src n :
  (n <= length dst)%nat -> (n <= length src)%nat ->
  memcpy dst src n = Some (take n src ++ drop n dst).
Proof.
  revert dst src. induction n as [|n IH]; intros dst src Hd Hs; simpl; [by destruct dst|].
  destruct dst as [|x dst], src as [|y src]; simpl in *; try lia. rewrite IH by lia. done.
Qed.

Lemma memcmp_spec a b n :
  (n <= length a)%nat -> (n <= length b)%nat ->
  exists d, memcmp a b n = Some d /\ (d = 0 <-> take n a = take n b).
Proof.
  revert a b. induction n as [|n IH]; intros a b Ha Hb; simpl.
  { exists 0. by destruct a, b. }
  destruct a as [|x a], b as [|y b]; simpl in *; try lia.
  destruct (Z.eqb_spec x y) as [->|Hne].
  - destruct (IH a b ltac:(lia) ltac:(lia)) as (d&->&Hd). exists d. split; [done|].
    rewrite Hd. split; congruence.
  - exists (x - y). split; [done|]. split; [lia|congruence].
Qed.

(** ** Splitting: what [strsplt] computes

    [k] is the number of splits still allowed ([None]: no limit). *)
Fixpoint fields (delim : Z) (k : option nat) (s : list Z) : list (list Z) :=
  match s with
  | [] => [[]]
  | x :: s' =>
      if x =? delim then
        match k with
        | Some O => [s]
        | Some (S k) => [] :: fields delim (Some k) s'
        | None => [] :: fields delim None s'
        end
      else match fields delim k s' with
           | f :: fs => (x :: f) :: fs
           | [] => [[x]]
           end
  end.

Lemma fields_nodelim delim k s : delim ∉ s -> fields delim k s = [s].
Proof.
  induction s as [|x s IH]; simpl; [done|]. intros Hn.
  destruct (Z.eqb_spec x delim); [set_solver|]. rewrite IH by set_solver. done.
Qed.
Lemma fields_split delim k s1 s2 :
  delim ∉ s1 ->
  fields delim k (s1 ++ delim :: s2)
  = match k with
    | Some O => [s1 ++ delim :: s2]
    | Some (S k) => s1 :: fields delim (Some k) s2
    | None => s1 :: fields delim None s2
    end.
Proof.
  induction s1 as [|x s1 IH]; simpl; intros Hn.
  - by rewrite Z.eqb_refl; destruct k as [[]|].
  - destruct (Z.eqb_spec x delim); [set_solver|]. rewrite IH by set_solver.
    by destruct k as [[]|].
Qed.

(** Row [i] of the table [d] holds the string [f]. *)
Definition row (d : list Z) (bs i : Z) (f : list Z) : Prop :=
  slice d (bs * i) (zlen f + 1) = cstring f.

Lemma at_off_row dest off (src : list Z) f :
  0 <= off -> off + zlen src <= zlen dest ->
  (forall d, (length src <= length d)%nat -> f d = Some (src ++ drop (length src) d)) ->
  at_off f dest off = Some (blit dest off src).
Proof.
  intros Ho Hl Hf. unfold at_off. destruct (off <? 0) eqn:E; [lia|].
  pose proof (zlen_nonneg src).
  destruct (zlen dest <? off) eqn:E2; [lia|].
  rewrite Hf by (rewrite length_drop; unfold zlen in *; lia). simpl. f_equal.
  rewrite blit_eq by lia. by rewrite drop_drop.
Qed.

Lemma at_off_strcpy dest off f r :
  nonul f -> 0 <= off -> off + zlen f + 1 <= zlen dest ->
  at_off (fun d => strcpy d (cstring f ++ r)) dest off = Some (blit dest off (cstring f)).
Proof.
  intros. assert (length (cstring f) = S (length f)) as Hl
    by (unfold cstring; rewrite length_app; simpl; lia).
  apply at_off_row; [lia|unfold zlen in *; lia|intros d Hd].
  rewrite strcpy_cstring by (done || lia). rewrite Hl. unfold cstring.
  done.
Qed.

Lemma at_off_field dest off f r :
  0 <= off -> off + zlen f + 1 <= zlen dest ->
  (d ← at_off (fun d => memcpy d (f ++ r) (length f)) dest off;
   at_off (fun d => memset d 0 1) d (off + Z.of_nat (length f)))
  = Some (blit dest off (cstring f)).
Proof.
  intros. pose proof (zlen_nonneg f).
  rewrite (at_off_row _ _ f); [simpl|lia|lia|]; cycle 1.
  { intros d Hd. rewrite memcpy_spec by (rewrite ?length_app; lia). by rewrite take_app_length. }
  rewrite (at_off_row _ _ [0]); [|unfold zlen in *; lia| |]; cycle 1.
  { rewrite zlen_blit. unfold zlen in *; simpl; lia. }
  { intros [|x d] Hd; [simpl in Hd; lia|]. simpl; by rewrite drop_0. }
  f_equal. apply blit_app; [lia|]. unfold zlen at 2; simpl. lia.
Qed.

Lemma row_blit_same d bs i f :
  0 <= bs * i -> bs * i + zlen f + 1 <= zlen d -> row (blit d (bs * i) (cstring f)) bs i f.
Proof.
  intros. unfold row, cstring. replace (zlen f + 1) with (zlen (f ++ [0]))
    by (rewrite zlen_app; done).
  apply slice_blit_same; [done|]. rewrite zlen_app. unfold zlen at 2; simpl. lia.
Qed.
Lemma row_blit_other d bs i c f g :
  0 <= i < c -> zlen f + 1 <= bs -> bs * c <= zlen d ->
  row d bs i f -> row (blit d (bs * c) g) bs i f.
Proof.
  intros. unfold row. pose proof (zlen_nonneg f). rewrite slice_blit_other; [done|nia..].
Qed.

(** Fields that are left when [c] rows of at most [n] have been written. *)
Definition splits_left (n c : Z) : option nat :=
  if 0 <? n then Some (Z.to_nat (n - c)) else None.

Definition rows_ok (dest d : list Z) (bs c : Z) (fs : list (list Z)) : Prop :=
  zlen d = zlen dest
  /\ (forall i f, fs !! i = Some f -> row d bs (c + Z.of_nat i) f)
  /\ (forall i f, 0 <= i < c -> zlen f + 1 <= bs -> row dest bs i f -> row d bs i f).

Lemma strsplt_last s r bs c dest :
  nonul s -> 0 <= c -> zlen s + 1 <= bs -> bs * (c + 1) <= zlen dest ->
  exists d, at_off (fun d => strcpy d (cstring s ++ r)) dest (bs * c) = Some d
    /\ rows_ok dest d bs c [s].
Proof.
  intros. pose proof (zlen_nonneg s). rewrite at_off_strcpy by (done || nia).
  eexists. split; [done|]. split_and!; [by rewrite zlen_blit| |].
  - intros [|[]] f [= <-]. rewrite Z.add_0_r. apply row_blit_same; nia.
  - intros i f ???. apply row_blit_other; (done || nia).
Qed.

Lemma rows_ok_cons dest d bs c f fs :
  0 <= c -> zlen f + 1 <= bs -> bs * (c + 1) <= zlen dest ->
  rows_ok (blit dest (bs * c) (cstring f)) d bs (c + 1) fs -> rows_ok dest d bs c (f :: fs).
Proof.
  intros ??? (Hz&Hrows&Hold). pose proof (zlen_nonneg f).
  split_and!; [by rewrite Hz, zlen_blit| |].
  - intros [|i] g Hl.
    + injection Hl as <-. rewrite Z.add_0_r. apply Hold; [lia|done|]. apply row_blit_same; nia.
    + replace (c + Z.of_nat (S i)) with (c + 1 + Z.of_nat i) by lia. by apply Hrows.
  - intros i g ???. apply Hold; [lia|done|]. apply row_blit_other; [lia|done|nia|done].
Qed.

Lemma strsplt_loop_spec fuel r bs n delim s dest c :
  delim <> 0 -> nonul s -> (length s < fuel)%nat -> 0 <= c -> (0 < n -> c <= n) ->
  let fs := fields delim (splits_left n c) s in
  (forall f, f ∈ fs -> zlen f + 1 <= bs) ->
  bs * (c + zlen fs) <= zlen dest ->
  exists d, strsplt_loop fuel (cstring s ++ r) dest bs n delim c = Some (d, c + zlen fs)
    /\ rows_ok dest d bs c fs.
Proof.
  intros Hd. revert s dest c. induction fuel as [|fuel IH]; intros s dest c Hs Hfu Hc Hn fs Hfs Hroom;
    [lia|].
  assert (Hlast : fs = [s] ->
    exists d, (d ← at_off (fun d => strcpy d (cstring s ++ r)) dest (bs * c); Some (d, c + 1))
              = Some (d, c + zlen fs) /\ rows_ok dest d bs c fs).
  { intros E. rewrite E in *. destruct (strsplt_last s r bs c dest) as (d&->&Hr);
      [done|done|set_solver|done|]. by exists d. }
  assert (Hlen : length (cstring s ++ r) = (length s + 1 + length r)%nat)
    by (unfold cstring; rewrite !length_app; simpl; lia).
  simpl. destruct (strchr_cstring s r delim Hs Hd) as [[Hni ->]|(s1&s2&E&Hni&->)]; simpl.
  { apply Hlast. by apply fields_nodelim. }
  destruct (_ && _) eqn:Elim.
  { apply andb_true_iff in Elim as [??]. apply Hlast.
    subst fs. rewrite E, fields_split by done. unfold splits_left.
    destruct (0 <? n) eqn:?; [|lia]. by replace (Z.to_nat (n - c)) with O by lia. }
  clear Hlast.
  assert (Hf : fs = s1 :: fields delim (splits_left n (c + 1)) s2).
  { subst fs. rewrite E, fields_split by done. unfold splits_left in *.
    destruct (0 <? n) eqn:?; [|done]. simpl in Elim.
    by replace (Z.to_nat (n - c)) with (S (Z.to_nat (n - (c + 1)))) by lia. }
  clearbody fs. subst s fs. set (fs := fields _ _ _) in *.
  pose proof (Hfs s1 ltac:(set_solver)). pose proof (zlen_nonneg s1). pose proof (zlen_nonneg fs).
  change (zlen (s1 :: fs)) with (Z.of_nat (S (length fs))) in *. rewrite Nat2Z.inj_succ in *.
  fold (zlen fs) in *.
  replace (_ - _)%nat with (length s1) by (rewrite Hlen; unfold cstring;
    simpl; rewrite !length_app; simpl; lia).
  replace (cstring (s1 ++ delim :: s2) ++ r) with (s1 ++ delim :: cstring s2 ++ r)
    by (unfold cstring; by rewrite <- !app_assoc).
  pose proof (at_off_field dest (bs * c) s1 (delim :: cstring s2 ++ r) ltac:(nia) ltac:(nia)) as Hw.
  destruct (at_off (fun d => memcpy d _ _) _ _) as [d1|]; [simpl in Hw |- *; rewrite Hw|done].
  unfold nonul in Hs; rewrite Forall_app, Forall_cons in Hs; destruct Hs as (_&_&Hs2).
  rewrite length_app in Hfu; simpl in Hfu |- *.
  destruct (IH s2 (blit dest (bs * c) (cstring s1)) (c + 1) Hs2) as (d&Hrun&Hr);
    [lia|lia|destruct (0 <? n) eqn:?; simpl in Elim; lia|set_solver|rewrite zlen_blit; fold fs; lia|].
  exists d. unfold cstring in *. rewrite Hrun. split; [do 2 f_equal; subst fs; lia|].
  apply rows_ok_cons; [lia|done|nia|done].
Qed.

Lemma fields_length delim k s :
  length (fields delim k s)
  = S (match k with
       | Some k => Nat.min k (length (filter (fun c => c = delim) s))
       | None => length (filter (fun c => c = delim) s)
       end).
Proof.
  revert k. induction s as [|x s IH]; intros k; simpl; [by destruct k as [[]|]|].
  rewrite filter_cons. destruct (Z.eqb_spec x delim) as [->|Hne].
  - rewrite decide_True by done. destruct k as [[|k]|]; simpl; rewrite ?IH; done.
  - rewrite decide_False by done. specialize (IH k).
    destruct (fields delim k s) as [|f fs]; simpl in *; [lia|]. done.
Qed.

Lemma memcmp_prefix h m r y :
  nonul m -> exists d, memcmp (cstring h ++ r) (m ++ y) (length m) = Some d
    /\ (d = 0 <-> exists t, h = m ++ t).
Proof.
  revert h. induction m as [|c m IH]; intros h Hm; simpl.
  { exists 0. split; [by destruct (cstring h ++ r)|]. split; [by exists h|done]. }
  apply nonul_cons in Hm as [Hc Hm]. destruct h as [|x h]; simpl.
  - destruct (Z.eqb_spec 0 c); [congruence|]. exists (0 - c). split; [done|].
    split; [lia|intros [t [=]]].
  - destruct (Z.eqb_spec x c) as [->|Hne].
    + destruct (IH h Hm) as (d&Hd&Hiff). exists d. split; [done|]. rewrite Hiff.
      split; intros [t Ht]; exists t; congruence.
    + exists (x - c). split; [done|]. split; [lia|intros [t [=]]; done].
Qed.

Lemma strstr_loop_spec h m r y :
  nonul h -> nonul m ->
  (exists h1 h2, h = h1 ++ m ++ h2 /\ (forall u v, h = u ++ m ++ v -> (length h1 <= length u)%nat)
     /\ strstr_loop (cstring h ++ r) (m ++ y) (length m) = Some (Some (m ++ cstring h2 ++ r)))
  \/ (~ (exists u v, h = u ++ m ++ v)
      /\ strstr_loop (cstring h ++ r) (m ++ y) (length m) = Some None).
Proof.
  intros Hh Hm. induction h as [|x h IH].
  - pose proof (memcmp_prefix [] m r y Hm) as (d&Hd&Hiff). simpl in *. rewrite Hd. simpl.
    destruct (Z.eqb_spec d 0) as [->|Hne]; simpl.
    + left. destruct (proj1 Hiff eq_refl) as [t Ht]. symmetry in Ht.
      apply app_eq_nil in Ht as [-> ->]. exists [], []. split_and!; [done|simpl; lia|done].
    + right. split; [|done]. intros (u&v&E). apply Hne, Hiff.
      symmetry in E. apply app_eq_nil in E as [_ E]. by exists v.
  - pose proof (memcmp_prefix (x :: h) m r y Hm) as (d&Hd&Hiff).
    apply nonul_cons in Hh as [Hx Hh]. specialize (IH Hh). simpl in *. rewrite Hd. simpl.
    destruct (Z.eqb_spec d 0) as [->|Hne]; simpl.
    + left. destruct (proj1 Hiff eq_refl) as [t Ht]. exists [], t. split_and!; [done|simpl; lia|].
      do 2 f_equal. unfold cstring. rewrite !app_assoc, <- Ht.
      done.
    + destruct (Z.eqb_spec x 0); [done|]; simpl. unfold cstring in *.
      destruct IH as [(h1&h2&E&Hmin&->)|[Hn ->]].
      * left. exists (x :: h1), h2. split_and!; [by rewrite E| |done].
        intros [|z u] v Euv; simpl in *; [exfalso; apply Hne, Hiff; by exists v|].
        injection Euv as _ Euv. specialize (Hmin u v Euv). lia.
      * right. split; [|done]. intros ([|z u]&v&E); simpl in *; [apply Hne, Hiff; by exists v|].
        injection E as _ E. apply Hn. by exists u, v.
Qed.

Lemma strrchr_cstring s rest c :
  nonul s ->
  (c ∉ s /\ strrchr (cstring s ++ rest) c = Some None) \/
  (exists s1 s2, s = s1 ++ c :: s2 /\ c ∉ s2 /\ strrchr (cstring s ++ rest) c = Some (Some (zlen s1))).
Proof.
  intros Hs. unfold strrchr. rewrite strlen_cstring by done. cbn [mbind option_bind].
  unfold zlen. rewrite Nat2Z.id.
  pose proof (strrchr_loop_spec (cstring s ++ rest) c (length s)) as H.
  unfold cstring in *. rewrite <- app_assoc in H at 1. rewrite length_app in H. specialize (H ltac:(lia)).
  replace (take (length s) ((s ++ [0]) ++ rest)) with s in H
    by (rewrite <- app_assoc, take_app_length; done).
  destruct (strrchr_loop _ c (length s)) as [k|]; [|by left]. right.
  destruct H as (Hk&Hg&Hd). exists (take (Z.to_nat k) s), (drop (S (Z.to_nat k)) s).
  assert (Hl : s !! Z.to_nat k = Some c).
  { rewrite <- Hg. rewrite <- app_assoc, get_app_l by (unfold zlen; lia).
    apply (get_lookup 0 s k). unfold zlen; lia. }
  split_and!; [|done|].
  - symmetry. by apply take_drop_middle.
  - f_equal. f_equal. rewrite length_take. lia.
Qed.

Lemma strdup_cstring fresh s r :
  nonul s -> (length s < length fresh)%nat ->
  strdup fresh (cstring s ++ r) = Some (cstring s ++ drop (S (length s)) fresh).
Proof.
  intros Hs Hf. unfold strdup. rewrite strlen_cstring by done. cbn [mbind option_bind].
  assert (Hl : length (cstring s) = Z.to_nat (zlen s + 1))
    by (unfold cstring, zlen; rewrite length_app; simpl; lia).
  rewrite memcpy_spec by (rewrite ?length_app; unfold zlen in *; lia).
  rewrite <- Hl at 1. rewrite take_app_length. cbn [mbind option_bind].
  replace (Z.to_nat (zlen s + 1)) with (S (length s)) by (unfold zlen; lia).
  rewrite (at_off_row _ _ [0]);
    [|unfold zlen in *; lia|unfold cstring, zlen; rewrite !length_app; simpl; lia|].
  - unfold cstring. rewrite <- app_assoc, blit_at by (rewrite length_app; simpl; lia).
    done.
  - intros [|x d] Hlen; [simpl in Hlen; lia|]. simpl; by rewrite drop_0.
Qed.

(** C5: strlen is the length of the string; strcmp is 0 exactly on equal
    strings; strchr points at the first, strrchr at the last occurrence of a
    character, and both are NULL exactly when there is none; strcpy and strdup
    copy the string with its terminator and leave the rest of the buffer. *)
Theorem string_functions_spec a b r r' c :
  nonul a -> nonul b -> c <> 0 ->
  strlen (cstring a ++ r) = Some (zlen a)
  /\ (exists d, strcmp (cstring a ++ r) (cstring b ++ r') = Some d /\ (d = 0 <-> a = b))
  /\ (c ∉ a /\ strchr (cstring a ++ r) c = Some None /\ strrchr (cstring a ++ r) c = Some None
      \/ exists a1 a2 b1 b2, a = a1 ++ c :: a2 /\ c ∉ a1 /\ a = b1 ++ c :: b2 /\ c ∉ b2
           /\ strchr (cstring a ++ r) c = Some (Some (c :: cstring a2 ++ r))
           /\ strrchr (cstring a ++ r) c = Some (Some (zlen b1)))
  /\ (forall dst, zlen a < zlen dst ->
        strcpy dst (cstring a ++ r) = Some (cstring a ++ drop (S (length a)) dst))
  /\ (forall fresh, zlen fresh = zlen a + 1 -> strdup fresh (cstring a ++ r) = Some (cstring a)).
Proof.
  intros Ha Hb Hc. split_and!.
  - by apply strlen_cstring.
  - by apply strcmp_cstring.
  - destruct (strchr_cstring a r c Ha Hc) as [[Hn Hch]|(a1&a2&E&Hn&Hch)],
      (strrchr_cstring a r c Ha) as [[Hn' Hrch]|(b1&b2&E'&Hn'&Hrch)]; [by left|set_solver..|].
    right. exists a1, a2, b1, b2. by split_and!.
  - intros dst Hd. apply strcpy_cstring; [done|]. unfold zlen in Hd. lia.
  - intros fresh Hf. rewrite strdup_cstring by (done || (unfold zlen in Hf; lia)).
    rewrite drop_ge, app_nil_r by (unfold zlen in Hf; lia). done.
Qed.

Lemma string_functions_spec_witness :
  strlen (cstring (str "dev") ++ [7]) = Some 3.
Proof.
  apply (string_functions_spec (str "dev") (str "x") [7] [] 101);
    [repeat constructor; done|repeat constructor; done|done].
Defined.

(** [strstr] points at the first occurrence of the needle, and is NULL
    exactly when the needle does not occur; it never reads past the terminator
    of the haystack. *)
Lemma strstr_first_occurrence h m r r' :
  nonul h -> nonul m ->
  (exists h1 h2, h = h1 ++ m ++ h2 /\ (forall u v, h = u ++ m ++ v -> (length h1 <= length u)%nat)
     /\ strstr (cstring h ++ r) (cstring m ++ r') = Some (Some (m ++ cstring h2 ++ r)))
  \/ (~ (exists u v, h = u ++ m ++ v) /\ strstr (cstring h ++ r) (cstring m ++ r') = Some None).
Proof.
  intros Hh Hm. unfold strstr. rewrite strlen_cstring by done. simpl. unfold zlen. rewrite Nat2Z.id.
  replace (cstring m ++ r') with (m ++ [0] ++ r') by (unfold cstring; by rewrite <- app_assoc).
  by apply strstr_loop_spec.
Qed.

Lemma strstr_first_occurrence_witness :
  exists o, strstr (cstring (str "a/dev")) (cstring (str "dev")) = Some o.
Proof.
  destruct (strstr_first_occurrence (str "a/dev") (str "dev") [] [])
    as [(h1&h2&_&_&H)|[_ H]].
  - repeat constructor; done.
  - repeat constructor; done.
  - eexists; apply H.
  - eexists; apply H.
Defined.

(** C6: [strsplt] writes the delimiter-separated fields of the string, one per
    row of [buf_str_size] bytes, and returns their number: with a limit
    [n > 0] the last row holds the whole remainder, and there are up to
    [n + 1] rows. *)
Theorem strsplt_fields s r bs n delim dest :
  delim <> 0 -> nonul s -> 0 <= n ->
  let fs := fields delim (splits_left n 0) s in
  (forall f, f ∈ fs -> zlen f + 1 <= bs) ->
  bs * zlen fs <= zlen dest ->
  exists d, strsplt (cstring s ++ r) dest bs n delim = Some (d, zlen fs)
    /\ zlen d = zlen dest
    /\ (forall i f, fs !! i = Some f -> row d bs (Z.of_nat i) f)
    /\ (0 < n -> n <= zlen (filter (fun c => c = delim) s) -> zlen fs = n + 1).
Proof.
  intros Hd Hs Hn fs Hfs Hroom. unfold strsplt.
  destruct (strsplt_loop_spec (S (length (cstring s ++ r))) r bs n delim s dest 0)
    as (d&Hrun&Hz&Hrows&_); try done.
  - unfold cstring. rewrite !length_app. lia.
  - exists d. split_and!; [done|done|intros i f Hi; by apply (Hrows i f)|].
    intros H0 Hle. subst fs. unfold zlen in *. rewrite fields_length. unfold splits_left.
    destruct (0 <? n) eqn:?; lia.
Qed.

Lemma strsplt_fields_witness :
  exists d, strsplt (cstring (str "usr/bin/ls")) (replicate 15 9) 5 0 47 = Some (d, 3)
    /\ row d 5 1 (str "bin").
Proof.
  destruct (strsplt_fields (str "usr/bin/ls") [] 5 0 47 (replicate 15 9)) as (d&Hrun&_&Hr&_).
  - done.
  - repeat constructor; done.
  - done.
  - intros f. vm_compute fields. intros Hf.
    repeat (apply elem_of_cons in Hf as [->|Hf]; [vm_compute; done|]).
    by apply elem_of_nil in Hf.
  - vm_compute. done.
  - exists d. split; [apply Hrun|]. by apply (Hr 1%nat).
Defined.
