(* ===== verification/Strconv.v ===== *)
(** * Strconv: lib/strconv.c, lib/stdbits.c, lib/math.c

    Integer-to-text conversion, with the digit lemmas that vformat and the
    console share, and the bit helpers. *)
From S2P Require Import Prelude CString.

Definition HEX : list Z := Eval vm_compute in str "0123456789abcdef".
Definition hexchar (d : Z) : Z := get 0 HEX d.

(** The digit loop: [c] is the local array, [i] the next free position. *)
Fixpoint itoa_loop (fuel : nat) (acc base : Z) (c : list Z) (i : Z) : option (list Z * Z) :=
  if 0 <? acc then
    match fuel with
    | O => None
    | S fuel => itoa_loop fuel (acc / base) base (set c i (hexchar (acc mod base))) (i + 1)
    end
  else Some (c, i).

(** [while (i >= 0) buf[i--] = c[j++]], from [i - 1] down. *)
Fixpoint itoa_reverse (i : nat) (buf c : list Z) (j : Z) : list Z :=
  match i with
  | O => buf
  | S i => itoa_reverse i (set buf (Z.of_nat i) (get 0 c j)) c (j + 1)
  end.

(** [acc] is an [int]: a value of 2^31 or more is negative. [None]: the digit
    loop leaves the 33 characters of [c] (base 1). *)
Definition itoa (v base : Z) (buf : list Z) : option (list Z) :=
  if v =? 0 then Some (blit buf 0 (str "0" ++ [0]))
  else if 16 <? base then Some buf
  else
    '(c, i) ← itoa_loop 32 (s32 v) base (replicate 33 0) 0;
    let c := set c i 0 in
    Some (itoa_reverse (Z.to_nat i) (set buf i 0) c 0).

Definition setbit (number off bit : Z) : Z :=
  let bit := Z.land bit (Z.shiftl 1 0) in
  u32 (Z.lxor number (Z.land (Z.lxor (- bit) number) (u32 (Z.shiftl 1 off)))).
Definition getbit (number off : Z) : Z := Z.land (Z.shiftr number off) 1.

(** ** Digits *)

(** Least significant digit first; [fuel] digits at most. *)
Fixpoint lsd (fuel : nat) (base v : Z) : list Z :=
  match fuel with
  | O => []
  | S fuel => if 0 <? v then v mod base :: lsd fuel base (v / base) else []
  end.
Definition digits (base v : Z) : list Z := reverse (lsd 32 base v).
Definition value (base : Z) (ds : list Z) : Z := foldl (fun a d => a * base + d) 0 ds.
Definition numeral (base v : Z) : list Z := if v =? 0 then str "0" else hexchar <$> digits base v.

Lemma div_base_lt v base n : 2 <= base -> 0 <= v < 2 ^ Z.of_nat (S n) -> 0 <= v / base < 2 ^ Z.of_nat n.
Proof.
  intros Hb Hv. rewrite Nat2Z.inj_succ, Z.pow_succ_r in Hv by lia.
  split; [apply Z.div_pos; lia|]. apply Z.div_lt_upper_bound; nia.
Qed.

Lemma lsd_digits n base v : 2 <= base -> Forall (fun d => 0 <= d < base) (lsd n base v).
Proof.
  intros Hb. revert v. induction n as [|n IH]; intros v; simpl; [constructor|].
  destruct (0 <? v); constructor; [apply Z.mod_pos_bound; lia|apply IH].
Qed.

Lemma lsd_value n base v :
  2 <= base -> 0 <= v < 2 ^ Z.of_nat n -> foldr (fun d a => d + base * a) 0 (lsd n base v) = v.
Proof.
  intros Hb. revert v. induction n as [|n IH]; intros v Hv; simpl in *; [lia|].
  destruct (0 <? v) eqn:E; simpl; [|lia].
  rewrite IH by (apply div_base_lt; done). pose proof (Z.div_mod v base ltac:(lia)). lia.
Qed.

Lemma lsd_last n base v :
  2 <= base -> 0 < v < 2 ^ Z.of_nat n -> exists ds d, lsd n base v = ds ++ [d] /\ d <> 0.
Proof.
  intros Hb. revert v. induction n as [|n IH]; intros v Hv; simpl in *; [lia|].
  destruct (0 <? v) eqn:E; [|lia].
  pose proof (div_base_lt v base n Hb ltac:(lia)).
  destruct (decide (v / base = 0)) as [E0|Hne].
  - exists [], (v mod base). rewrite E0. split; [by destruct n|].
    pose proof (Z.div_mod v base ltac:(lia)). lia.
  - destruct (IH (v / base) ltac:(lia)) as (ds&d&->&Hd). exists (v mod base :: ds), d. done.
Qed.

Lemma lsd_length n base v : (length (lsd n base v) <= n)%nat.
Proof. revert v. induction n; intros v; simpl; [lia|]. destruct (0 <? v); simpl; [|lia]. auto with arith. Qed.

Lemma lsd_mono n base v : 2 <= base -> 0 <= v < 2 ^ Z.of_nat n -> lsd (S n) base v = lsd n base v.
Proof.
  intros Hb. revert v. induction n as [|n IH]; intros v Hv; [simpl in *; destruct (0 <? v) eqn:?; [lia|done]|].
  change (lsd (S (S n)) base v) with (if 0 <? v then v mod base :: lsd (S n) base (v / base) else []).
  rewrite IH by (apply div_base_lt; done). done.
Qed.

Lemma digits_value base v : 2 <= base -> 0 <= v < 2 ^ 32 -> value base (digits base v) = v.
Proof.
  intros Hb Hv. etransitivity; [|apply (lsd_value 32 base v); done]. unfold value, digits.
  induction (lsd 32 base v) as [|d ds IH]; [done|].
  rewrite reverse_cons, foldl_app, IH. simpl. lia.
Qed.

(** A value has one numeral: digits below the base, no leading zero, and the
    value is read back. *)
Lemma digits_spec base v :
  2 <= base -> 0 < v < 2 ^ 32 ->
  value base (digits base v) = v /\ Forall (fun d => 0 <= d < base) (digits base v)
  /\ (exists d ds, digits base v = d :: ds /\ d <> 0)
  /\ (length (digits base v) <= 32)%nat.
Proof.
  intros Hb Hv. split_and!.
  - apply digits_value; lia.
  - unfold digits. apply Forall_reverse. by apply lsd_digits.
  - destruct (lsd_last 32 base v Hb Hv) as (ds&d&E&Hd). exists d, (reverse ds). unfold digits.
    rewrite E, reverse_app. done.
  - unfold digits. rewrite length_reverse. apply lsd_length.
Qed.

Lemma set_blit_cons {A} (l : list A) i (x : A) xs :
  0 <= i -> i + 1 + zlen xs <= zlen l -> blit (set l i x) (i + 1) xs = blit l i (x :: xs).
Proof.
  intros. rewrite set_blit. change (i + 1) with (i + zlen [x]).
  rewrite blit_app; [done|done|]. unfold zlen at 1; simpl. lia.
Qed.

Lemma itoa_loop_spec n base v c i :
  2 <= base -> 0 <= v < 2 ^ Z.of_nat n -> 0 <= i -> i + Z.of_nat n <= zlen c ->
  itoa_loop n v base c i
  = Some (blit c i (hexchar <$> lsd n base v), i + zlen (lsd n base v)).
Proof.
  intros Hb. revert v c i. induction n as [|n IH]; intros v c i Hv Hi Hc.
  - simpl in *. destruct (0 <? v) eqn:?; [lia|]. do 2 f_equal; [|unfold zlen; simpl; lia].
    unfold blit. by destruct (i <? 0).
  - change (lsd (S n) base v) with (if 0 <? v then v mod base :: lsd n base (v / base) else []).
    simpl. destruct (0 <? v) eqn:?; cycle 1.
    { simpl. do 2 f_equal; [|unfold zlen; simpl; lia]. unfold blit. by destruct (i <? 0). }
    pose proof (lsd_length n base (v / base)) as Hl.
    rewrite IH; [|by apply div_base_lt|lia|rewrite zlen_set; lia].
    rewrite set_blit_cons; [|lia|unfold zlen in *; rewrite length_fmap; lia].
    do 2 f_equal. unfold zlen. simpl. lia.
Qed.

(** The reversal copies [c[j ..]] into [buf[.. i - 1]] backwards. *)
Lemma itoa_reverse_spec xs buf c j :
  zlen xs <= zlen buf -> (forall k, 0 <= k < zlen xs -> get 0 c (j + k) = get 0 xs k) ->
  itoa_reverse (length xs) buf c j = blit buf 0 (reverse xs).
Proof.
  revert buf j. induction xs as [|x xs IH]; intros buf j Hb Hc; simpl; [done|].
  pose proof (zlen_nonneg xs).
  change (zlen (x :: xs)) with (Z.of_nat (S (length xs))) in *. rewrite Nat2Z.inj_succ in *.
  fold (zlen xs) in *.
  pose proof (Hc 0 ltac:(lia)) as Hx. rewrite Z.add_0_r in Hx. rewrite Hx.
  rewrite IH; cycle 1.
  { rewrite zlen_set. lia. }
  { intros k Hk. replace (j + 1 + k) with (j + (k + 1)) by lia. rewrite Hc by lia.
    unfold get. destruct (k + 1 <? 0) eqn:?, (k <? 0) eqn:?; try lia.
    by replace (Z.to_nat (k + 1)) with (S (Z.to_nat k)) by lia. }
  change (get 0 (x :: xs) 0) with x. rewrite reverse_cons.
  assert (Hr : zlen (reverse xs) = zlen xs) by (unfold zlen; by rewrite length_reverse).
  apply (list_eq_get 0).
  { apply Nat2Z.inj. fold (zlen (blit (set buf (zlen xs) x) 0 (reverse xs))).
    fold (zlen (blit buf 0 (reverse xs ++ [x]))). by autorewrite with kernel. }
  rewrite zlen_blit, zlen_set. intros k Hk.
  rewrite !get_blit by lia. rewrite zlen_set, zlen_app, Hr. rewrite !Z.sub_0_r, !Z.add_0_l.
  change (zlen [x]) with 1.
  destruct (0 <=? k) eqn:?; [|lia]. destruct (k <? zlen buf) eqn:?; [|lia]. simpl.
  destruct (k <? zlen xs) eqn:?, (k <? zlen xs + 1) eqn:?; simpl; try lia.
  - by rewrite get_app_l by lia.
  - assert (k = zlen xs) as -> by lia. rewrite get_set_eq by lia.
    rewrite get_app_r by lia. by rewrite Hr, Z.sub_diag.
  - rewrite get_set_ne by lia. done.
Qed.

(** [itoa] writes the numeral of [v] and a terminator for every [v] below
    2^31 and base 2 to 16, in a buffer large enough; from 2^31 on the [int]
    accumulator is negative and the result is the empty string. *)
Lemma itoa_numeral v base buf :
  0 <= v < 2 ^ 32 -> 2 <= base <= 16 -> 33 <= zlen buf ->
  itoa v base buf
  = Some (if v <? 2 ^ 31 then blit buf 0 (cstring (numeral base v)) else set buf 0 0).
Proof.
  intros Hv Hb Hbuf. unfold itoa, numeral. destruct (Z.eqb_spec v 0) as [->|Hnz]; [done|].
  destruct (16 <? base) eqn:?; [lia|].
  destruct (v <? 2 ^ 31) eqn:Hlt; cycle 1.
  { replace (s32 v) with (v - 2 ^ 32) by (unfold s32; rewrite u32_id by lia; cmp; lia).
    unfold itoa_loop. destruct (0 <? v - 2 ^ 32) eqn:?; [lia|]. done. }
  rewrite s32_id by lia.
  rewrite itoa_loop_spec; [|lia|lia|lia|vm_compute; discriminate]. unfold digits.
  pose proof (lsd_length 32 base v) as Hl. remember (lsd 32 base v) as ds eqn:Eds. clear Eds.
  cbn [mbind option_bind]. rewrite Z.add_0_l. set (xs := hexchar <$> ds).
  assert (Hxs : length xs = length ds) by apply length_fmap.
  replace (zlen ds) with (zlen xs) by (unfold zlen; congruence).
  assert (Hxb : zlen xs <= 32) by (unfold zlen; lia). pose proof (zlen_nonneg xs).
  unfold zlen at 1. rewrite Nat2Z.id. f_equal.
  rewrite itoa_reverse_spec.
  - unfold cstring. rewrite fmap_reverse. fold xs. rewrite <- blit_app.
    + rewrite Z.add_0_l, zlen_reverse, !set_blit. apply blit_comm; autorewrite with kernel; lia.
    + lia.
    + autorewrite with kernel. lia.
  - rewrite zlen_set. lia.
  - intros k Hk. rewrite get_set_ne by lia. rewrite get_blit by lia. rewrite Z.sub_0_r.
    destruct (0 <=? 0 + k) eqn:?; [|lia].
    destruct (0 + k <? 0 + zlen xs) eqn:?; [|lia].
    destruct (0 + k <? zlen (replicate 33 0)) eqn:E; [done|].
    apply Z.ltb_ge in E. rewrite zlen_replicate in E. clearbody xs. lia.
Qed.

Lemma itoa_numeral_witness : itoa 2024 10 (replicate 40 7) = Some (str "2024" ++ [0] ++ replicate 35 7).
Proof. rewrite itoa_numeral; [vm_compute; reflexivity|lia|lia|vm_compute; discriminate]. Defined.

(** ** Single bits of a word *)
Lemma setbit_testbit number off bit n :
  0 <= off < 32 -> 0 <= n < 32 ->
  Z.testbit (setbit number off bit) n = if n =? off then Z.odd bit else Z.testbit number n.
Proof.
  intros Ho Hn. unfold setbit. rewrite testbit_u32, Z.lxor_spec, Z.land_spec, Z.lxor_spec by lia.
  rewrite testbit_u32, testbit_shiftl1 by lia.
  destruct (Z.eqb_spec n off) as [->|Hne]; cycle 1.
  { destruct (off =? n) eqn:?; [lia|]. by rewrite andb_false_r, xorb_false_r. }
  rewrite Z.eqb_refl, andb_true_r.
  assert (Hb : Z.land bit (Z.shiftl 1 0) = Z.b2z (Z.odd bit)).
  { change (Z.shiftl 1 0) with (Z.ones 1). rewrite Z.land_ones by lia. change (2 ^ 1) with 2.
    by rewrite Zmod_odd; destruct (Z.odd bit). }
  rewrite Hb. destruct (Z.odd bit); cbn [Z.b2z].
  - change (- (1)) with (-1). rewrite Z.bits_m1 by lia. by destruct (Z.testbit number off).
  - change (- 0) with 0. rewrite Z.bits_0. by destruct (Z.testbit number off).
Qed.

Lemma getbit_testbit number off : 0 <= off -> getbit number off = b2z (Z.testbit number off).
Proof.
  intros. unfold getbit. change 1 with (Z.ones 1) at 1. rewrite Z.land_ones by lia. change (2 ^ 1) with 2.
  rewrite Zmod_odd. rewrite <- Z.bit0_odd, Z.shiftr_spec by lia. rewrite Z.add_0_l.
  by destruct (Z.testbit number off).
Qed.

(** [ceil_div] (lib/math.c) rounds the quotient of non-negative [int]s up. *)
Lemma ceil_div_spec a b : 0 <= a < 0x80000000 -> 0 < b < 0x80000000 -> b * (ceil_div a b - 1) < a <= b * ceil_div a b.
Proof.
  intros. rewrite ceil_div_small by done. pose proof (Z.quot_rem' a b) as Hq. pose proof (Z.rem_bound_pos a b ltac:(lia) ltac:(lia)).
  destruct (Z.rem a b =? 0) eqn:?; nia.
Qed.
