(* ===== verification/VFormat.v ===== *)
(** * VFormat: lib/vformat.c

    The formatter calls its [output] callback on one chunk of characters at a
    time; the model returns the list of chunks in the order of the calls
    ([out]).  The format is a buffer [s] with the index [fmt]; the variadic
    arguments are the list of 32-bit words of the i386 stack ([int], [long],
    [size_t] and pointers take one, [long long] takes two); [mem a] is the
    buffer of characters readable from the address [a].  An access outside a
    buffer, or an argument that is not there, is undefined: the model stops. *)
From S2P Require Import Prelude CString Strconv.

Inductive sign_mode := SIGN_DEFAULT | SIGN_SPACE | SIGN_PLUS.
Inductive length_mode :=
  LENGTH_DEFAULT | LENGTH_CHAR | LENGTH_SHORT | LENGTH_LONG | LENGTH_LONG_LONG
| LENGTH_INTMAX_T | LENGTH_SIZE_T | LENGTH_PTRDIFF_T.

Record vformat_flags := VFlags {
  alternate : bool;
  padding : bool;
  left : bool;
  width : bool;
  precision : bool;
  signed_value : bool;
  padding_value : Z;
  width_value : Z;
  precision_value : Z;
  vlength : length_mode;
  sign : sign_mode;
  radix : Z
}.

(** Field updates, [flags.f = v]. *)
Definition set_alternate v f := VFlags v (padding f) (left f) (width f) (precision f)
  (signed_value f) (padding_value f) (width_value f) (precision_value f) (vlength f) (sign f) (radix f).
Definition set_padding v f := VFlags (alternate f) v (left f) (width f) (precision f)
  (signed_value f) (padding_value f) (width_value f) (precision_value f) (vlength f) (sign f) (radix f).
Definition set_left v f := VFlags (alternate f) (padding f) v (width f) (precision f)
  (signed_value f) (padding_value f) (width_value f) (precision_value f) (vlength f) (sign f) (radix f).
Definition set_width v w f := VFlags (alternate f) (padding f) (left f) v (precision f)
  (signed_value f) (padding_value f) w (precision_value f) (vlength f) (sign f) (radix f).
Definition set_precision v p f := VFlags (alternate f) (padding f) (left f) (width f) v
  (signed_value f) (padding_value f) (width_value f) p (vlength f) (sign f) (radix f).
Definition set_signed v f := VFlags (alternate f) (padding f) (left f) (width f) (precision f)
  v (padding_value f) (width_value f) (precision_value f) (vlength f) (sign f) (radix f).
Definition set_padding_value v f := VFlags (alternate f) (padding f) (left f) (width f) (precision f)
  (signed_value f) v (width_value f) (precision_value f) (vlength f) (sign f) (radix f).
Definition set_vlength v f := VFlags (alternate f) (padding f) (left f) (width f) (precision f)
  (signed_value f) (padding_value f) (width_value f) (precision_value f) v (sign f) (radix f).
Definition set_sign v f := VFlags (alternate f) (padding f) (left f) (width f) (precision f)
  (signed_value f) (padding_value f) (width_value f) (precision_value f) (vlength f) v (radix f).
Definition set_radix v f := VFlags (alternate f) (padding f) (left f) (width f) (precision f)
  (signed_value f) (padding_value f) (width_value f) (precision_value f) (vlength f) (sign f) v.

Definition no_flags : vformat_flags :=
  VFlags false false false false false false 0 0 0 LENGTH_DEFAULT SIGN_DEFAULT 0.

(** [output_copy(output, context, c, n)]: chunks of at most 64 characters. *)
Fixpoint output_copy_loop (fuel : nat) (buf : list Z) (n : Z) : list (list Z) :=
  match fuel with
  | O => []
  | S fuel =>
      if 0 <? n then
        let w := if n <? 64 then n else 64 in
        take (Z.to_nat w) buf :: output_copy_loop fuel buf (n - w)
      else []
  end.
Definition output_copy (c n : Z) : list (list Z) :=
  let buf := replicate 64 0 in
  let buf := if n <? 64 then blit buf 0 (replicate (Z.to_nat n) (s8 c)) else replicate 64 (s8 c) in
  output_copy_loop (Z.to_nat n) buf n.

(** The array [c] of 32 characters is filled from its end. *)
Fixpoint format_int_loop (fuel : nat) (v base : Z) (c : list Z) (i : Z) : list Z * Z :=
  match fuel with
  | O => (c, i)
  | S fuel =>
      if 0 <? v
      then format_int_loop fuel (v / base) base (set c (i - 1) (hexchar (v mod base))) (i - 1)
      else (c, i)
  end.
(** The chunk that [format_int] outputs; it returns the chunk's length. *)
Definition format_int (v base : Z) : list Z :=
  let c := replicate 32 0 in
  let '(c, i) := if (v =? 0) || (base <? 2) || (16 <? base) then (set c (32 - 1) 48, 32 - 1)
                 else format_int_loop 33 v base c 32 in
  slice c i (32 - i).

(** [char] constants of the format language *)
Definition chr (s : String.string) : Z := get 0 (str s) 0.
#[global] Arguments chr s%_string_scope.

Definition neg_long (v : Z) : bool := s32 v <? 0.

(** The field widths ([sw], [aw], [w0], [w1], [vw], [w2]). *)
Definition rich_widths (v : Z) (flags : vformat_flags) : Z * Z * Z * Z * Z * Z :=
  let sw := if signed_value flags &&
                 (negb (match sign flags with SIGN_DEFAULT => true | _ => false end) || neg_long v)
            then 1 else 0 in
  let aw := if alternate flags then
              if (radix flags =? 8) && negb (v =? 0) then 1
              else if radix flags =? 16 then 2 else 0
            else 0 in
  let '(vw, w1) :=
    if precision flags && (precision_value flags =? 0) && (v =? 0) then (0, 0)
    else
      let vw := zlen (format_int (if signed_value flags && neg_long v then u32 (- v) else v)
                        (radix flags)) in
      (vw, if vw <? precision_value flags then precision_value flags - vw else 0) in
  let sum := s32 (sw + aw + w1 + vw) in
  if width flags && (sum <? width_value flags) then
    let dw := width_value flags - sum in
    if left flags then (sw, aw, 0, w1, vw, dw)
    else if precision flags || (padding_value flags =? 32) then (sw, aw, dw, w1, vw, 0)
    else (sw, aw, 0, dw, vw, 0)
  else (sw, aw, 0, w1, vw, 0).

Definition when_nz (n : Z) (l : list (list Z)) : list (list Z) := if n =? 0 then [] else l.

Definition format_rich_int (v : Z) (flags : vformat_flags) : list (list Z) * Z :=
  let '(sw, aw, w0, w1, vw, w2) := rich_widths v flags in
  let '(signs, v) :=
    if signed_value flags then
      if neg_long v then ([str "-"], u32 (- v))
      else match sign flags with
           | SIGN_DEFAULT => ([], v)
           | SIGN_PLUS => ([str "+"], v)
           | SIGN_SPACE => ([str " "], v)
           end
    else ([], v) in
  let alts :=
    if alternate flags then
      if (radix flags =? 8) && negb (v =? 0) then [str "0"]
      else if radix flags =? 16 then [str "0x"] else []
    else [] in
  (when_nz w0 (output_copy 32 w0) ++ signs ++ alts ++ when_nz w1 (output_copy 48 w1)
     ++ [format_int v (radix flags)] ++ when_nz w2 (output_copy 32 w2),
   s32 (w0 + sw + aw + w1 + vw + w2)).

(** Reading [n] characters at [p]. *)
Definition rd (p : list Z) (off n : Z) : option (list Z) :=
  if (0 <=? off) && (0 <=? n) && (off + n <=? zlen p) then Some (slice p off n) else None.

Definition format_string (p : list Z) (flags : vformat_flags) : option (list (list Z)) :=
  let '(w0, w1) :=
    if width flags && (precision_value flags <? width_value flags) then
      let dw := s32 (width_value flags - precision_value flags) in
      if left flags then (0, dw) else (dw, 0)
    else (0, 0) in
  body ← rd p 0 (u32 (precision_value flags));
  Some (when_nz w0 (output_copy 32 (u32 w0)) ++ [body] ++ when_nz w1 (output_copy 32 (u32 w1))).

Definition is_digit (c : Z) : bool := (48 <=? c) && (c <=? 57).
(** [fetch_int(s + fmt, &v)]: the value and the index of the first non-digit. *)
Fixpoint fetch_int_loop (rest : list Z) (fmt v : Z) : option (Z * Z) :=
  match rest with
  | [] => None
  | c :: rest => if is_digit c then fetch_int_loop rest (fmt + 1) (s32 (v * 10 + (c - 48)))
                 else Some (fmt, v)
  end.
Definition fetch_int (s : list Z) (fmt : Z) : option (Z * Z) :=
  fetch_int_loop (drop (Z.to_nat fmt) s) fmt 0.

(** ** The state machine of [vformat] *)
Inductive vstate := LITERAL | PERCENT | FLAGS | WIDTH | DOT | PRECISION | LENGTH.

Record vformat_state := VState {
  vs_state : vstate;
  vs_fmt : Z;
  vs_percent_start : Z;
  vs_flags : vformat_flags;
  vs_ui : Z;
  vs_si : Z;
  vs_ap : list Z;
  vs_out : list (list Z)
}.

Definition goto (t : vstate) (st : vformat_state) := VState t (vs_fmt st) (vs_percent_start st)
  (vs_flags st) (vs_ui st) (vs_si st) (vs_ap st) (vs_out st).
Definition at_fmt (i : Z) (st : vformat_state) := VState (vs_state st) i (vs_percent_start st)
  (vs_flags st) (vs_ui st) (vs_si st) (vs_ap st) (vs_out st).
Definition with_flags (f : vformat_flags -> vformat_flags) (st : vformat_state) :=
  VState (vs_state st) (vs_fmt st) (vs_percent_start st) (f (vs_flags st)) (vs_ui st) (vs_si st)
    (vs_ap st) (vs_out st).
Definition output (chunks : list (list Z)) (st : vformat_state) := VState (vs_state st) (vs_fmt st)
  (vs_percent_start st) (vs_flags st) (vs_ui st) (vs_si st) (vs_ap st) (vs_out st ++ chunks).
Definition with_ap (ap : list Z) (st : vformat_state) := VState (vs_state st) (vs_fmt st)
  (vs_percent_start st) (vs_flags st) (vs_ui st) (vs_si st) ap (vs_out st).
Definition with_ui (ui : Z) (st : vformat_state) := VState (vs_state st) (vs_fmt st)
  (vs_percent_start st) (vs_flags st) ui (vs_si st) (vs_ap st) (vs_out st).
Definition with_si (si : Z) (st : vformat_state) := VState (vs_state st) (vs_fmt st)
  (vs_percent_start st) (vs_flags st) (vs_ui st) si (vs_ap st) (vs_out st).

(** [va_arg]: one word, or the low word of two. *)
Definition va_word (st : vformat_state) : option (Z * vformat_state) :=
  match vs_ap st with [] => None | w :: ap => Some (u32 w, with_ap ap st) end.
Definition va_long_long (st : vformat_state) : option (Z * vformat_state) :=
  '(lo, st) ← va_word st; '(_, st) ← va_word st; Some (lo, st).

Section Machine.
Variable mem : Z -> list Z.
Variable s : list Z.

Definition cur (st : vformat_state) : option Z :=
  if vs_fmt st <? 0 then None else s !! Z.to_nat (vs_fmt st).
Definition adv (st : vformat_state) : vformat_state := at_fmt (vs_fmt st + 1) st.

(** [for (p = fmt; *p && *p != '%'; ++p)]: the characters stepped over. *)
Fixpoint literal_len (rest : list Z) : option Z :=
  match rest with
  | [] => None
  | c :: rest => if negb (c =? 0) && negb (c =? 37) then n ← literal_len rest; Some (n + 1) else Some 0
  end.

(** The [if (state == LITERAL)] part; the boolean is the [break]. *)
Definition step_literal (st : vformat_state) : option (vformat_state * bool) :=
  n ← literal_len (drop (Z.to_nat (vs_fmt st)) s);
  data ← rd s (vs_fmt st) n;
  let st := goto PERCENT (output [data] st) in
  let p := vs_fmt st + n in
  let st := VState (vs_state st) p p (vs_flags st) (vs_ui st) (vs_si st) (vs_ap st) (vs_out st) in
  c ← cur st;
  if c =? 37 then Some (with_flags (fun _ => no_flags) (adv st), false) else Some (st, true).

Definition step_percent (st : vformat_state) : option vformat_state :=
  c ← cur st;
  if c =? chr "%" then Some (goto LITERAL (output [[37]] (adv st)))
  else if c =? chr "#" then Some (with_flags (set_alternate true) (adv st))
  else if c =? chr "0" then Some (with_flags (fun f => set_padding true (set_padding_value 48 f)) (adv st))
  else if c =? chr " " then
    Some (with_flags (fun f => match sign f with SIGN_DEFAULT => set_sign SIGN_SPACE f | _ => f end) (adv st))
  else if c =? chr "-" then Some (with_flags (set_left true) (adv st))
  else if c =? chr "+" then Some (with_flags (set_sign SIGN_PLUS) (adv st))
  else Some (goto FLAGS st).

Definition step_flags (st : vformat_state) : option vformat_state :=
  c ← cur st;
  if c =? chr "*" then
    '(w, st) ← va_word (adv st);
    Some (goto WIDTH (with_flags (set_width true (s32 w)) st))
  else
    '(p, v) ← fetch_int s (vs_fmt st);
    let st := with_flags (fun f => set_width (width f) v f) st in
    let st := if negb (p =? vs_fmt st) then with_flags (set_width true v) (at_fmt p st) else st in
    Some (goto WIDTH st).

Definition step_width (st : vformat_state) : option vformat_state :=
  c ← cur st;
  if c =? chr "." then Some (goto DOT (adv st)) else Some (goto PRECISION st).

Definition step_dot (st : vformat_state) : option vformat_state :=
  c ← cur st;
  if c =? chr "*" then
    '(w, st) ← va_word (adv st);
    Some (goto PRECISION (with_flags (set_precision true (s32 w)) st))
  else
    '(p, v) ← fetch_int s (vs_fmt st);
    let st := with_flags (fun f => set_precision (precision f) v f) st in
    let st := if negb (p =? vs_fmt st) then with_flags (set_precision true v) (at_fmt p st) else st in
    Some (goto PRECISION st).

Definition step_precision (st : vformat_state) : option vformat_state :=
  c ← cur st;
  st ← (if c =? chr "h" then
          c2 ← cur (adv st);
          if c2 =? chr "h" then Some (with_flags (set_vlength LENGTH_CHAR) (adv (adv st)))
          else Some (with_flags (set_vlength LENGTH_SHORT) (adv st))
        else if c =? chr "l" then
          c2 ← cur (adv st);
          if c2 =? chr "l" then Some (with_flags (set_vlength LENGTH_LONG_LONG) (adv (adv st)))
          else Some (with_flags (set_vlength LENGTH_LONG) (adv st))
        else if c =? chr "j" then Some (with_flags (set_vlength LENGTH_INTMAX_T) (adv st))
        else if c =? chr "z" then Some (with_flags (set_vlength LENGTH_SIZE_T) (adv st))
        else if c =? chr "t" then Some (with_flags (set_vlength LENGTH_PTRDIFF_T) (adv st))
        else Some st);
  Some (goto LENGTH st).

(** The argument of [%d]: [si] keeps its old value for [%jd] and [%td]. *)
Definition fetch_signed (st : vformat_state) : option vformat_state :=
  match vlength (vs_flags st) with
  | LENGTH_CHAR | LENGTH_SHORT | LENGTH_DEFAULT | LENGTH_LONG | LENGTH_SIZE_T =>
      '(v, st) ← va_word st; Some (with_si v st)
  | LENGTH_LONG_LONG => '(v, st) ← va_long_long st; Some (with_si v st)
  | LENGTH_INTMAX_T | LENGTH_PTRDIFF_T => Some st
  end.
(** The argument of [%u], [%o], [%x]: also [%hhx] and [%hx] fetch nothing. *)
Definition fetch_unsigned (st : vformat_state) : option vformat_state :=
  match vlength (vs_flags st) with
  | LENGTH_DEFAULT | LENGTH_LONG | LENGTH_SIZE_T => '(v, st) ← va_word st; Some (with_ui v st)
  | LENGTH_LONG_LONG => '(v, st) ← va_long_long st; Some (with_ui v st)
  | LENGTH_CHAR | LENGTH_SHORT | LENGTH_INTMAX_T | LENGTH_PTRDIFF_T => Some st
  end.

(** The [case 's']: the characters and the flags for [format_string]. *)
Definition string_arg (a : Z) (flags : vformat_flags) : option (list Z * vformat_flags) :=
  if a =? 0 then
    if precision flags && (7 <=? u32 (precision_value flags)) then Some (str "(null)" ++ [0], flags)
    else if negb (precision flags) then
      Some (str "(null)" ++ [0], set_precision (precision flags) 6 flags)
    else Some (mem 0, flags)
  else if precision flags then
    r ← memchr (mem a) 0 (Z.to_nat (u32 (precision_value flags)));
    match r with
    | Some p => Some (mem a, set_precision true (Z.of_nat (length (mem a) - length p)) flags)
    | None => Some (mem a, flags)
    end
  else n ← strlen (mem a); Some (mem a, set_precision (precision flags) n flags).

Definition step_length (st : vformat_state) : option vformat_state :=
  let st := with_flags (fun f => if left f && padding f then set_padding false f else f) st in
  let st := with_flags (fun f => if negb (padding f) then set_padding_value 32 f else f) st in
  c ← cur st;
  let unknown st :=
    data ← rd s (vs_percent_start st - 1) (vs_fmt st - vs_percent_start st + 2);
    Some (output [data] st) in
  st ← (if (c =? chr "d") || (c =? chr "i") then
          st ← fetch_signed st;
          let st := with_flags (fun f => set_radix 10 (set_signed true f)) st in
          Some (output (format_rich_int (vs_si st) (vs_flags st)).1 st)
        else if (c =? chr "u") || (c =? chr "o") || (c =? chr "x") then
          st ← fetch_unsigned st;
          let r := if c =? chr "u" then 10 else if c =? chr "o" then 8 else 16 in
          let st := with_flags (set_radix r) st in
          Some (output (format_rich_int (vs_ui st) (vs_flags st)).1 st)
        else if c =? chr "p" then
          '(v, st) ← va_word st;
          let st := with_flags (fun f => set_radix 16 (set_alternate true f)) st in
          Some (output (format_rich_int v (vs_flags st)).1 st)
        else if c =? chr "c" then
          '(v, st) ← va_word st;
          let st := with_flags (set_precision true 1) st in
          chunks ← format_string [s8 v] (vs_flags st);
          Some (output chunks st)
        else if c =? chr "s" then
          '(a, st) ← va_word st;
          '(p, f) ← string_arg a (vs_flags st);
          let st := with_flags (fun _ => f) st in
          chunks ← format_string p f;
          Some (output chunks st)
        else if c =? 0 then unknown (at_fmt (vs_fmt st - 1) st)
        else unknown st);
  Some (goto LITERAL (adv st)).

Definition is_state (t : vstate) (st : vformat_state) : bool :=
  match t, vs_state st with
  | LITERAL, LITERAL | PERCENT, PERCENT | FLAGS, FLAGS | WIDTH, WIDTH | DOT, DOT
  | PRECISION, PRECISION | LENGTH, LENGTH => true
  | _, _ => false
  end.
Definition when (t : vstate) (f : vformat_state -> option vformat_state) (st : vformat_state) :=
  if is_state t st then f st else Some st.

(** One iteration of [while ( *fmt )]; [true] is the [break]. *)
Definition iteration (st : vformat_state) : option (vformat_state * bool) :=
  '(st, brk) ← (if is_state LITERAL st then step_literal st else Some (st, false));
  if (brk : bool) then Some (st, true) else
  st ← when PERCENT step_percent st;
  st ← when FLAGS step_flags st;
  st ← when WIDTH step_width st;
  st ← when DOT step_dot st;
  st ← when PRECISION step_precision st;
  st ← when LENGTH step_length st;
  Some (st, false).

Inductive run := Done (st : vformat_state) | Undefined | OutOfFuel.

Fixpoint vformat_loop (fuel : nat) (st : vformat_state) : run :=
  match fuel with
  | O => OutOfFuel
  | S fuel =>
      match cur st with
      | None => Undefined
      | Some c =>
          if c =? 0 then Done st
          else match iteration st with
               | None => Undefined
               | Some (st, true) => Done st
               | Some (st, false) => vformat_loop fuel st
               end
      end
  end.

(** [ui0], [si0]: the uninitialised locals. *)
Definition vformat (ap : list Z) (ui0 si0 : Z) : run :=
  vformat_loop (S (length s)) (VState LITERAL 0 0 no_flags ui0 si0 ap []).
End Machine.

(** ** Integers *)
Lemma format_int_loop_spec n base v c i :
  2 <= base -> 0 <= v < 2 ^ Z.of_nat n -> zlen (lsd n base v) <= i <= zlen c ->
  format_int_loop n v base c i
  = (blit c (i - zlen (lsd n base v)) (reverse (hexchar <$> lsd n base v)),
     i - zlen (lsd n base v)).
Proof.
  intros Hb. revert v c i. induction n as [|n IH]; intros v c i Hv Hi; simpl.
  { change (reverse _) with ([] : list Z). by rewrite zlen_nil, Z.sub_0_r, blit_nil. }
  simpl in Hi. destruct (0 <? v) eqn:E; cycle 1.
  { change (reverse _) with ([] : list Z). by rewrite zlen_nil, Z.sub_0_r, blit_nil. }
  rewrite zlen_cons in Hi. pose proof (zlen_nonneg (lsd n base (v / base))).
  rewrite IH; [|by apply div_base_lt|rewrite zlen_set; lia].
  rewrite zlen_cons, fmap_cons, reverse_cons. set (ds := lsd n base (v / base)) in *.
  replace (i - (zlen ds + 1)) with (i - 1 - zlen ds) by lia. f_equal.
  rewrite set_blit, blit_comm by (autorewrite with kernel; lia).
  replace (i - 1) with (i - 1 - zlen ds + zlen (reverse (hexchar <$> ds))) at 2
    by (autorewrite with kernel; lia).
  apply blit_app; autorewrite with kernel; lia.
Qed.

Lemma numeral_length base v : 2 <= base -> 0 <= v < 2 ^ 32 -> 1 <= zlen (numeral base v) <= 32.
Proof.
  intros Hb Hv. unfold numeral. destruct (Z.eqb_spec v 0); [done|]. rewrite zlen_fmap.
  destruct (digits_spec base v) as (_&_&(d&ds&E&_)&Hl); [lia|lia|]. rewrite E in *.
  pose proof (zlen_nonneg ds). rewrite zlen_cons. unfold zlen in *; simpl in Hl. lia.
Qed.

Lemma format_int_numeral v base :
  0 <= v < 2 ^ 32 -> 2 <= base <= 16 -> format_int v base = numeral base v.
Proof.
  intros Hv Hb. unfold format_int. destruct (Z.eqb_spec v 0) as [->|Hnz].
  { reflexivity. }
  destruct (base <? 2) eqn:?; [lia|]. destruct (16 <? base) eqn:?; [lia|]. simpl orb. cbn iota.
  pose proof (numeral_length base v ltac:(lia) Hv) as Hlen.
  unfold numeral, digits in *. destruct (v =? 0) eqn:?; [lia|].
  rewrite zlen_fmap, zlen_reverse in Hlen. rewrite fmap_reverse in *.
  rewrite format_int_loop_spec; rewrite ?(lsd_mono 32 base v) by lia; try lia; cycle 1.
  { rewrite zlen_replicate. lia. }
  remember (lsd 32 base v) as ds eqn:Eds. clear Eds.
  replace (32 - (32 - zlen ds)) with (zlen (reverse (hexchar <$> ds))) by (autorewrite with kernel; lia).
  apply slice_blit_same; [lia|]. rewrite zlen_reverse, zlen_fmap, zlen_replicate. lia.
Qed.

(** ** Padding *)
Lemma output_copy_loop_spec fuel x n :
  0 <= n -> n <= Z.of_nat fuel ->
  concat (output_copy_loop fuel (replicate 64 x) n) = replicate (Z.to_nat n) x.
Proof.
  revert n. induction fuel as [|fuel IH]; intros n H0 Hf; cbn [output_copy_loop].
  { by replace n with 0 by lia. }
  destruct (0 <? n) eqn:E; [|by replace n with 0 by lia]. cbn [concat].
  destruct (n <? 64) eqn:E2.
  - rewrite Z.sub_diag. replace (output_copy_loop fuel _ 0) with ([] : list (list Z))
      by (by destruct fuel). rewrite app_nil_r, take_replicate. f_equal. lia.
  - rewrite IH by lia. rewrite take_replicate, <- replicate_add. f_equal. lia.
Qed.

Lemma output_copy_concat c n :
  0 <= c < 128 -> 0 <= n -> concat (output_copy c n) = replicate (Z.to_nat n) c.
Proof.
  intros Hc Hn. assert (Hs : s8 c = c) by (unfold s8; rewrite u8_id by lia; cmp; lia).
  unfold output_copy. rewrite Hs. destruct (n <? 64) eqn:E; [|apply output_copy_loop_spec; lia].
  destruct (Z.eqb_spec n 0) as [->|Hnz]; [done|].
  replace (Z.to_nat n) with (S (Z.to_nat (n - 1))) at 1 by lia. cbn [output_copy_loop].
  destruct (0 <? n) eqn:?; [|lia]. rewrite E, Z.sub_diag. cbn [concat].
  replace (output_copy_loop _ _ 0) with ([] : list (list Z)) by (by destruct (Z.to_nat (n - 1))).
  rewrite app_nil_r. rewrite blit_eq by (rewrite ?zlen_replicate; lia).
  rewrite take_0, app_nil_l, take_app_le by (rewrite length_replicate; lia).
  apply take_ge. rewrite length_replicate. lia.
Qed.

Lemma when_nz_copy c n :
  0 <= c < 128 -> 0 <= n -> concat (when_nz n (output_copy c n)) = replicate (Z.to_nat n) c.
Proof.
  intros. unfold when_nz. destruct (Z.eqb_spec n 0) as [->|]; [done|]. by apply output_copy_concat.
Qed.

(** ** The layout of a formatted integer *)
Definition sign_chars (v : Z) (f : vformat_flags) : list Z :=
  if signed_value f then
    if neg_long v then str "-"
    else match sign f with SIGN_DEFAULT => [] | SIGN_PLUS => str "+" | SIGN_SPACE => str " " end
  else [].
Definition alt_chars (v : Z) (f : vformat_flags) : list Z :=
  if alternate f then
    if (radix f =? 8) && negb (v =? 0) then str "0" else if radix f =? 16 then str "0x" else []
  else [].
Definition magnitude (v : Z) (f : vformat_flags) : Z :=
  if signed_value f && neg_long v then u32 (- v) else v.
Definition no_digits (v : Z) (f : vformat_flags) : bool :=
  precision f && (precision_value f =? 0) && (v =? 0).

Lemma magnitude_range v f : 0 <= v < 2 ^ 32 -> 0 <= magnitude v f < 2 ^ 32.
Proof.
  intros. unfold magnitude. destruct (_ && _); [|done]. pose proof (u32_range (- v)). lia.
Qed.
Lemma magnitude_nonzero v f : 0 <= v < 2 ^ 32 -> (magnitude v f =? 0) = (v =? 0).
Proof.
  intros. unfold magnitude. destruct (_ && _); [|done].
  destruct (Z.eqb_spec v 0) as [->|]; [done|]. rewrite u32_neg by lia. lia.
Qed.

Lemma sign_chars_length v f :
  zlen (sign_chars v f)
  = if signed_value f && (negb (match sign f with SIGN_DEFAULT => true | _ => false end) || neg_long v)
    then 1 else 0.
Proof.
  unfold sign_chars. destruct (signed_value f); [|done]. simpl.
  destruct (neg_long v); [by rewrite orb_true_r|]. by destruct (sign f).
Qed.
Lemma alt_chars_length v f :
  zlen (alt_chars v f)
  = if alternate f then
      if (radix f =? 8) && negb (v =? 0) then 1 else if radix f =? 16 then 2 else 0
    else 0.
Proof. unfold alt_chars. by repeat case_match. Qed.

Definition fmt_ok (v : Z) (f : vformat_flags) : Prop :=
  0 <= v < 2 ^ 32 /\ 2 <= radix f <= 16 /\
  0 <= width_value f < 2 ^ 31 /\ 0 <= precision_value f < 2 ^ 31 - 64 /\
  (precision f = false -> precision_value f = 0).

(** Length of the zero-extended number, before padding to the width. *)
Definition digits_length (v : Z) (f : vformat_flags) : Z :=
  if no_digits v f then 0 else Z.max (zlen (numeral (radix f) (magnitude v f))) (precision_value f).

Lemma rich_widths_spec v f :
  fmt_ok v f ->
  exists w0 w1 w2,
    rich_widths v f = (zlen (sign_chars v f), zlen (alt_chars v f), w0, w1,
                       (if no_digits v f then 0 else zlen (numeral (radix f) (magnitude v f))), w2)
    /\ 0 <= w0 /\ 0 <= w1 /\ 0 <= w2
    /\ w0 + zlen (sign_chars v f) + zlen (alt_chars v f) + w1
       + (if no_digits v f then 0 else zlen (numeral (radix f) (magnitude v f))) + w2
       = Z.max (if width f then width_value f else 0)
           (zlen (sign_chars v f) + zlen (alt_chars v f) + digits_length v f)
    /\ (left f = true \/ precision f = true \/ padding_value f = 32 ->
        w1 + (if no_digits v f then 0 else zlen (numeral (radix f) (magnitude v f)))
        = digits_length v f)
    /\ (left f = true -> w0 = 0) /\ (left f = false -> w2 = 0)
    /\ (precision f = false -> padding_value f <> 32 -> w0 = 0).
Proof.
  intros (Hv&Hr&Hw&Hp&Hp0). unfold rich_widths.
  rewrite <- sign_chars_length, <- alt_chars_length. fold (magnitude v f).
  pose proof (magnitude_range v f Hv) as Hm.
  pose proof (numeral_length (radix f) (magnitude v f) ltac:(lia) Hm) as Hn.
  rewrite format_int_numeral by lia.
  set (nl := zlen (numeral _ _)) in *. unfold digits_length. fold nl. fold (no_digits v f).
  assert (0 <= zlen (sign_chars v f) <= 1) as Hs.
  { rewrite sign_chars_length. destruct (_ && _); lia. }
  assert (0 <= zlen (alt_chars v f) <= 2) as Ha.
  { rewrite alt_chars_length. repeat case_match; lia. }
  set (sl := zlen (sign_chars v f)) in *. set (al := zlen (alt_chars v f)) in *.
  clearbody nl sl al.
  assert (Hmax : exists w1, (if no_digits v f then (0, 0)
     else (nl, if nl <? precision_value f then precision_value f - nl else 0))
     = ((if no_digits v f then 0 else nl), w1) /\ 0 <= w1 /\ (precision f = false -> w1 = 0) /\
       w1 + (if no_digits v f then 0 else nl)
       = (if no_digits v f then 0 else Z.max nl (precision_value f))).
  { destruct (no_digits v f); [by exists 0|]. eexists; split; [done|].
    split_and!; [|intros Hf; specialize (Hp0 Hf)|]; destruct (nl <? precision_value f) eqn:?; lia. }
  destruct Hmax as (w1&->&H1&H1z&H2). set (vw := if no_digits v f then 0 else nl) in *.
  set (dl := if no_digits v f then 0 else Z.max nl (precision_value f)) in *.
  assert (0 <= dl < 2 ^ 31 - 32) by (unfold dl; destruct (no_digits v f); lia).
  clearbody vw dl. rewrite s32_id by lia.
  destruct (width f && _) eqn:E.
  - apply andb_true_iff in E as [-> E]. destruct (left f) eqn:El.
    { do 3 eexists; split; [done|]. split_and!; try done; lia. }
    destruct (precision f || _) eqn:Ep.
    { do 3 eexists; split; [done|]. split_and!; try done; try lia.
      intros Hpf ?. rewrite Hpf in Ep. simpl in Ep. lia. }
    apply orb_false_iff in Ep as [Ep Ep2].
    specialize (H1z Ep). do 3 eexists; split; [done|]. split_and!; try done; try lia.
    intros [?|[?|?]]; [done|congruence|lia].
  - do 3 eexists; split; [done|]. split_and!; try done; try lia.
    destruct (width f); simpl in E; lia.
Qed.

Lemma rich_int_layout v f :
  fmt_ok v f ->
  exists w0 w1 w2,
    0 <= w0 /\ 0 <= w1 /\ 0 <= w2
    /\ concat (format_rich_int v f).1
       = replicate (Z.to_nat w0) 32 ++ sign_chars v f ++ alt_chars v f
           ++ replicate (Z.to_nat w1) 48 ++ numeral (radix f) (magnitude v f)
           ++ replicate (Z.to_nat w2) 32
    /\ (format_rich_int v f).2
       = Z.max (if width f then width_value f else 0)
           (zlen (sign_chars v f) + zlen (alt_chars v f) + digits_length v f)
    /\ zlen (concat (format_rich_int v f).1)
       = (format_rich_int v f).2 + (if no_digits v f then 1 else 0)
    /\ (left f = true -> w0 = 0) /\ (left f = false -> w2 = 0)
    /\ (precision f = false -> padding_value f <> 32 -> w0 = 0)
    /\ (left f = true \/ precision f = true \/ padding_value f = 32 ->
        w1 + (if no_digits v f then 0 else zlen (numeral (radix f) (magnitude v f)))
        = digits_length v f).
Proof.
  intros Hok. destruct (rich_widths_spec v f Hok) as (w0&w1&w2&Hw&H0&H1&H2&Hsum&Hzp&Hl&Hr&Hzero).
  destruct Hok as (Hv&Hrad&Hwv&Hp&_).
  unfold format_rich_int. rewrite Hw.
  assert (Hsv : (if signed_value f then if neg_long v then ([str "-"], u32 (- v))
     else match sign f with SIGN_DEFAULT => ([], v) | SIGN_PLUS => ([str "+"], v)
          | SIGN_SPACE => ([str " "], v) end else ([], v))
     = (if (signed_value f && (negb (match sign f with SIGN_DEFAULT => true | _ => false end)
             || neg_long v)) then [sign_chars v f] else [], magnitude v f)).
  { unfold sign_chars, magnitude. destruct (signed_value f), (neg_long v), (sign f); done. }
  rewrite Hsv.
  assert (Hs1 : concat (if (signed_value f && (negb (match sign f with SIGN_DEFAULT => true
     | _ => false end) || neg_long v)) then [sign_chars v f] else []) = sign_chars v f).
  { unfold sign_chars. destruct (signed_value f), (neg_long v), (sign f); done. }
  pose proof (magnitude_range v f Hv) as Hm.
  pose proof (numeral_length (radix f) (magnitude v f) ltac:(lia) Hm) as Hn.
  pose proof (magnitude_nonzero v f Hv) as Hz. rewrite Hz.
  exists w0, w1, w2. cbn [fst snd]. rewrite !concat_app, !when_nz_copy, Hs1 by lia.
  assert (Ha1 : concat (if alternate f then if (radix f =? 8) && negb (v =? 0) then [str "0"]
     else if radix f =? 16 then [str "0x"] else [] else []) = alt_chars v f).
  { unfold alt_chars. by repeat case_match. }
  rewrite Ha1. cbn [concat]. rewrite app_nil_r, format_int_numeral by lia.
  pose proof (zlen_nonneg (sign_chars v f)). pose proof (zlen_nonneg (alt_chars v f)).
  assert (zlen (sign_chars v f) <= 1) by (rewrite sign_chars_length; repeat case_match; lia).
  assert (zlen (alt_chars v f) <= 2) by (rewrite alt_chars_length; repeat case_match; lia).
  assert (digits_length v f < 2 ^ 31 - 32) by (unfold digits_length; destruct (no_digits v f); lia).
  assert (0 <= digits_length v f) by (unfold digits_length; destruct (no_digits v f); lia).
  assert (0 <= (if width f then width_value f else 0) < 2 ^ 31) by (destruct (width f); lia).
  rewrite s32_id by lia.
  split_and!; try done. autorewrite with kernel. rewrite !Z2Nat.id by lia.
  assert (no_digits v f = true -> zlen (numeral (radix f) (magnitude v f)) = 1).
  { unfold no_digits. intros [_ Hv0]%andb_true_iff. unfold numeral. by rewrite Hz, Hv0. }
  remember (no_digits v f) as nd; destruct nd; lia.
Qed.

(** C8: a formatted integer is: blanks, sign, radix prefix, zeros, numeral,
    blanks; its length and the value [format_rich_int] returns are the
    maximum of the field width and the natural length; the flags choose the
    side of the padding.  Only with an explicit precision 0 and the value 0
    do the two differ: no digit is counted, and yet a 0 is output. *)
Theorem format_rich_int_layout v f :
  fmt_ok v f ->
  exists w0 w1 w2,
    0 <= w0 /\ 0 <= w1 /\ 0 <= w2
    /\ concat (format_rich_int v f).1
       = replicate (Z.to_nat w0) 32 ++ sign_chars v f ++ alt_chars v f
           ++ replicate (Z.to_nat w1) 48 ++ numeral (radix f) (magnitude v f)
           ++ replicate (Z.to_nat w2) 32
    /\ (format_rich_int v f).2
       = Z.max (if width f then width_value f else 0)
           (zlen (sign_chars v f) + zlen (alt_chars v f) + digits_length v f)
    /\ zlen (concat (format_rich_int v f).1)
       = (format_rich_int v f).2 + (if no_digits v f then 1 else 0)
    /\ (left f = true -> w0 = 0) /\ (left f = false -> w2 = 0)
    /\ (precision f = false -> padding_value f <> 32 -> w0 = 0)
    /\ (left f = true \/ precision f = true \/ padding_value f = 32 ->
        w1 + (if no_digits v f then 0 else zlen (numeral (radix f) (magnitude v f)))
        = digits_length v f).
Proof. apply rich_int_layout. Qed.

Lemma format_rich_int_layout_witness :
  zlen (concat (format_rich_int 42 (VFlags true false false true true true 32 9 4 LENGTH_DEFAULT SIGN_PLUS 16)).1) = 9.
Proof.
  destruct (format_rich_int_layout 42
    (VFlags true false false true true true 32 9 4 LENGTH_DEFAULT SIGN_PLUS 16))
    as (w0&w1&w2&_&_&_&_&_&->&_); [|reflexivity].
  unfold fmt_ok; simpl; split_and!; try done; lia.
Defined.

(** ** Termination *)
Section Termination.
Variable mem : Z -> list Z.
Variable s : list Z.

Lemma va_word_frame st w st' :
  va_word st = Some (w, st') -> vs_fmt st' = vs_fmt st /\ vs_state st' = vs_state st.
Proof. unfold va_word. intros H. case_match; simplify_eq. done. Qed.
Lemma va_long_long_frame st w st' :
  va_long_long st = Some (w, st') -> vs_fmt st' = vs_fmt st /\ vs_state st' = vs_state st.
Proof.
  unfold va_long_long. destruct (va_word st) as [[lo s1]|] eqn:E1; [simpl|done].
  destruct (va_word s1) as [[hi s2]|] eqn:E2; [simpl|done]. intros [= <- <-].
  apply va_word_frame in E1, E2. intuition congruence.
Qed.
Lemma fetch_int_loop_mono rest fmt v p w : fetch_int_loop rest fmt v = Some (p, w) -> fmt <= p.
Proof.
  revert fmt v. induction rest as [|c rest IH]; intros fmt v; simpl; [done|].
  destruct (is_digit c); [|intros [= <- <-]; lia]. intros H%IH. lia.
Qed.
Lemma fetch_int_mono fmt p w : fetch_int s fmt = Some (p, w) -> fmt <= p.
Proof. apply fetch_int_loop_mono. Qed.
Lemma fetch_signed_frame st st' :
  fetch_signed st = Some st' -> vs_fmt st' = vs_fmt st /\ vs_state st' = vs_state st.
Proof.
  unfold fetch_signed. destruct (vlength (vs_flags st)); try (intros [= <-]; done).
  5: { destruct (va_long_long st) as [[v st1]|] eqn:E; [simpl|done]. intros [= <-].
       by apply va_long_long_frame in E. }
  all: destruct (va_word st) as [[v st1]|] eqn:E; [simpl|done]; intros [= <-];
    by apply va_word_frame in E.
Qed.
Lemma fetch_unsigned_frame st st' :
  fetch_unsigned st = Some st' -> vs_fmt st' = vs_fmt st /\ vs_state st' = vs_state st.
Proof.
  unfold fetch_unsigned. destruct (vlength (vs_flags st)); try (intros [= <-]; done).
  3: { destruct (va_long_long st) as [[v st1]|] eqn:E; [simpl|done]. intros [= <-].
       by apply va_long_long_frame in E. }
  all: destruct (va_word st) as [[v st1]|] eqn:E; [simpl|done]; intros [= <-];
    by apply va_word_frame in E.
Qed.

(** The steps only move forward, and each leaves its state. *)
Ltac step_tac :=
  repeat (progress (simplify_option_eq; simpl in *) || case_match
          || match goal with
             | H : va_word _ = Some (_, _) |- _ => apply va_word_frame in H as [? ?]
             | H : fetch_int _ _ = Some _ |- _ => apply fetch_int_mono in H
             | p : (_ * _)%type |- _ => destruct p
             end); simpl in *; try lia.

Lemma step_percent_mono st st' :
  step_percent s st = Some st' ->
  vs_fmt st <= vs_fmt st'
  /\ (vs_state st' = FLAGS \/ (vs_state st' = LITERAL \/ vs_state st' = vs_state st)
      /\ vs_fmt st < vs_fmt st').
Proof. unfold step_percent, adv, at_fmt, with_flags, goto, output. intros H. step_tac; intuition lia. Qed.
Lemma step_flags_mono st st' :
  step_flags s st = Some st' -> vs_fmt st <= vs_fmt st' /\ vs_state st' = WIDTH.
Proof. unfold step_flags, adv, at_fmt, with_flags, goto. intros H. step_tac; intuition lia. Qed.
Lemma step_width_mono st st' :
  step_width s st = Some st' ->
  vs_fmt st <= vs_fmt st' /\ (vs_state st' = DOT \/ vs_state st' = PRECISION).
Proof. unfold step_width, adv, at_fmt, goto. intros H. step_tac; intuition lia. Qed.
Lemma step_dot_mono st st' :
  step_dot s st = Some st' -> vs_fmt st <= vs_fmt st' /\ vs_state st' = PRECISION.
Proof. unfold step_dot, adv, at_fmt, with_flags, goto. intros H. step_tac; intuition lia. Qed.
Lemma step_precision_mono st st' :
  step_precision s st = Some st' -> vs_fmt st <= vs_fmt st' /\ vs_state st' = LENGTH.
Proof. unfold step_precision, adv, at_fmt, with_flags, goto. intros H. step_tac; intuition lia. Qed.
Lemma step_length_mono st st' :
  step_length mem s st = Some st' ->
  vs_state st' = LITERAL /\ vs_fmt st <= vs_fmt st'
  /\ (cur s st <> Some 0 -> vs_fmt st < vs_fmt st').
Proof.
  unfold step_length. set (st1 := with_flags (fun f => if negb (padding f) then _ else f) _).
  assert (E1 : vs_fmt st1 = vs_fmt st /\ cur s st1 = cur s st) by done. destruct E1 as [Ef Ec].
  rewrite Ec. clearbody st1. destruct (cur s st) as [c|]; [simpl|done].
  set (k := if _ || _ then _ else _). intros H.
  assert (Hk : forall st2, k = Some st2 ->
    vs_fmt st2 = vs_fmt st \/ c = 0 /\ vs_fmt st2 = vs_fmt st - 1).
  { intros st2. subst k.
    destruct (_ || _).
    { destruct (fetch_signed st1) eqn:E; [simpl|done]. intros [= <-].
      apply fetch_signed_frame in E as [E _]. simpl. lia. }
    destruct (_ || _ || _).
    { destruct (fetch_unsigned st1) eqn:E; [simpl|done]. intros [= <-].
      apply fetch_unsigned_frame in E as [E _]. simpl. lia. }
    unfold output, with_flags, at_fmt. intros. step_tac; lia. }
  destruct k as [st2|]; [simpl in H|done]. injection H as <-. simpl.
  destruct (Hk st2 eq_refl) as [E|[-> E]]; split_and!; try done; try lia.
Qed.

Lemma when_id t f st st' : when t f st = Some st' -> vs_state st <> t -> st' = st.
Proof. unfold when, is_state. intros H Hne. destruct t, (vs_state st); congruence. Qed.

Lemma when_out t f st : vs_state st <> t -> when t f st = Some st.
Proof. unfold when, is_state. intros Hne. destruct t, (vs_state st); congruence. Qed.
Lemma when_in t f st : vs_state st = t -> when t f st = f st.
Proof. unfold when, is_state. intros <-. by destruct (vs_state st). Qed.

(** From [FLAGS] on, one iteration runs through to [LENGTH]. *)
Lemma conversion_mono st0 st1 st2 st3 st4 st5 :
  vs_state st0 = FLAGS ->
  when FLAGS (step_flags s) st0 = Some st1 -> when WIDTH (step_width s) st1 = Some st2 ->
  when DOT (step_dot s) st2 = Some st3 -> when PRECISION (step_precision s) st3 = Some st4 ->
  when LENGTH (step_length mem s) st4 = Some st5 ->
  vs_state st5 = LITERAL /\ vs_fmt st0 <= vs_fmt st5
  /\ (cur s st0 <> Some 0 -> vs_fmt st0 < vs_fmt st5).
Proof.
  intros Hs H1 H2 H3 H4 H5.
  rewrite when_in in H1 by done. apply step_flags_mono in H1 as [L1 S1].
  rewrite when_in in H2 by done. apply step_width_mono in H2 as [L2 S2].
  assert (vs_fmt st2 <= vs_fmt st3 /\ vs_state st3 = PRECISION) as [L3 S3].
  { destruct S2 as [S2|S2].
    - rewrite when_in in H3 by done. by apply step_dot_mono in H3.
    - apply when_id in H3 as ->; [|congruence]. split; [lia|done]. }
  rewrite when_in in H4 by done. apply step_precision_mono in H4 as [L4 S4].
  rewrite when_in in H5 by done. apply step_length_mono in H5 as (S5&L5&Hz).
  split_and!; [done|lia|]. intros Hc.
  destruct (decide (vs_fmt st4 = vs_fmt st0)) as [E|]; [|lia].
  assert (cur s st4 = cur s st0) as Ec by (unfold cur; by rewrite E).
  rewrite Ec in Hz. specialize (Hz Hc). lia.
Qed.

Definition resting (st : vformat_state) : Prop := vs_state st = LITERAL \/ vs_state st = PERCENT.

Lemma iteration_mono st st' :
  resting st -> cur s st <> Some 0 -> iteration mem s st = Some (st', false) ->
  resting st' /\ vs_fmt st < vs_fmt st'.
Proof.
  intros Hr Hc. unfold iteration.
  assert (Hlit : forall st0, (if is_state LITERAL st then step_literal s st else Some (st, false))
     = Some (st0, false) -> vs_state st0 = PERCENT /\ vs_fmt st <= vs_fmt st0
       /\ (vs_fmt st < vs_fmt st0 \/ cur s st0 <> Some 0)).
  { intros st0. destruct Hr as [Hr|Hr]; unfold is_state; rewrite Hr.
    - unfold step_literal. destruct (literal_len _) as [n|] eqn:En; [simpl|done].
      destruct (rd _ _ _) as [d|] eqn:Ed; [simpl|done]. destruct (cur s (VState _ _ _ _ _ _ _ _)); [simpl|done].
      destruct (_ =? 37); [|done]. intros [= <-]. simpl.
      unfold rd in Ed. destruct (_ && _) eqn:E; [|done].
      repeat (apply andb_true_iff in E as [E ?]). split_and!; [done|lia|left; lia].
    - intros [= <-]. split_and!; [done|lia|by right]. }
  destruct (if is_state LITERAL st then _ else _) as [[st0 brk]|] eqn:E0; [simpl|done].
  destruct brk; [done|]. destruct (Hlit st0 eq_refl) as (S0&L0&Z0).
  rewrite when_in by done. destruct (step_percent s st0) as [st1|] eqn:E1; [simpl|done].
  apply step_percent_mono in E1 as (L1&C1).
  destruct (when FLAGS _ st1) as [st2|] eqn:E2; [simpl|done].
  destruct (when WIDTH _ st2) as [st3|] eqn:E3; [simpl|done].
  destruct (when DOT _ st3) as [st4|] eqn:E4; [simpl|done].
  destruct (when PRECISION _ st4) as [st5|] eqn:E5; [simpl|done].
  destruct (when LENGTH _ st5) as [st6|] eqn:E6; [simpl|done]. intros [= <-].
  destruct C1 as [S1|[S1 Hlt]].
  - destruct (conversion_mono _ _ _ _ _ _ S1 E2 E3 E4 E5 E6) as (S6&L6&Z6).
    split; [by left|]. destruct Z0 as [Z0|Z0]; [lia|].
    destruct (decide (vs_fmt st1 = vs_fmt st0)) as [E|]; [|lia].
    assert (cur s st1 = cur s st0) as Ec by (unfold cur; by rewrite E).
    rewrite Ec in Z6. specialize (Z6 Z0). lia.
  - assert (Hs1 : resting st1) by (destruct S1; [by left|right; congruence]).
    assert (Hne : forall t, t <> LITERAL -> t <> PERCENT -> vs_state st1 <> t)
      by (intros t ??; destruct Hs1; congruence).
    apply when_id in E2 as ->; [|by apply Hne]. apply when_id in E3 as ->; [|by apply Hne].
    apply when_id in E4 as ->; [|by apply Hne]. apply when_id in E5 as ->; [|by apply Hne].
    apply when_id in E6 as ->; [|by apply Hne]. split; [done|lia].
Qed.

Lemma vformat_loop_terminates fuel st :
  resting st -> 0 <= vs_fmt st -> zlen s < vs_fmt st + Z.of_nat fuel -> (0 < fuel)%nat ->
  vformat_loop mem s fuel st <> OutOfFuel.
Proof.
  revert st. induction fuel as [|fuel IH]; intros st Hr H0 Hf Hpos; [lia|].
  simpl. destruct (cur s st) as [c|] eqn:Ec; [|done].
  assert (vs_fmt st < zlen s).
  { unfold cur in Ec. destruct (_ <? 0); [done|]. apply lookup_lt_Some in Ec. unfold zlen. lia. } destruct (Z.eqb_spec c 0) as [->|Hc]; [done|].
  destruct (iteration mem s st) as [[st' []]|] eqn:Ei; try done.
  apply iteration_mono in Ei as [Hr' Hlt]; [|done|congruence]. apply IH; [done|lia|lia|lia].
Qed.
End Termination.

(** ** A format as a sequence of directives

    Every format is a list of literals, each followed by a directive, and a
    last literal.  The directives below are [%%] and the conversions with an
    optional [-], an optional [0] and an optional width. *)
Inductive conv := Cd | Cu | Co | Cx | Cp | Cs | Cc.
Inductive directive := Pct | Conv (lft zero : bool) (w : Z) (c : conv).

Definition conv_char (c : conv) : Z :=
  match c with
  | Cd => chr "d" | Cu => chr "u" | Co => chr "o" | Cx => chr "x" | Cp => chr "p"
  | Cs => chr "s" | Cc => chr "c"
  end.
Definition width_text (w : Z) : list Z := if w =? 0 then [] else numeral 10 w.
Definition directive_text (d : directive) : list Z :=
  match d with
  | Pct => [37]
  | Conv lft zero w c =>
      (if lft then str "-" else []) ++ (if zero then str "0" else []) ++ width_text w ++ [conv_char c]
  end.
Fixpoint format_text (ds : list (list Z * directive)) (tl : list Z) : list Z :=
  match ds with
  | [] => tl
  | (lit, d) :: ds => lit ++ 37 :: directive_text d ++ format_text ds tl
  end.

(** What each conversion prints: a prefix (sign or radix), a body, and the
    padding to the width. *)
Fixpoint c_str (p : list Z) : list Z :=
  match p with [] => [] | c :: p => if c =? 0 then [] else c :: c_str p end.
Definition conv_parts (mem : Z -> list Z) (c : conv) (a : Z) : list Z * list Z :=
  match c with
  | Cd => if s32 a <? 0 then (str "-", numeral 10 (- s32 a)) else ([], numeral 10 (s32 a))
  | Cu => ([], numeral 10 (u32 a))
  | Co => ([], numeral 8 (u32 a))
  | Cx => ([], numeral 16 (u32 a))
  | Cp => (str "0x", numeral 16 (u32 a))
  | Cs => ([], c_str (mem (u32 a)))
  | Cc => ([], [s8 a])
  end.
Definition is_int_conv (c : conv) : bool := match c with Cs | Cc => false | _ => true end.
Definition field (lft zero : bool) (w : Z) (prefix body : list Z) : list Z :=
  let n := Z.to_nat (w - (zlen prefix + zlen body)) in
  if lft then prefix ++ body ++ replicate n 32
  else if zero then prefix ++ replicate n 48 ++ body
  else replicate n 32 ++ prefix ++ body.

Fixpoint expected (mem : Z -> list Z) (ds : list (list Z * directive)) (args : list Z) : list Z :=
  match ds with
  | [] => []
  | (lit, Pct) :: ds => lit ++ [37] ++ expected mem ds args
  | (lit, Conv lft zero w c) :: ds =>
      match args with
      | [] => []
      | a :: args =>
          let '(prefix, body) := conv_parts mem c a in
          lit ++ field lft (zero && is_int_conv c) w prefix body ++ expected mem ds args
      end
  end.

Definition literal_ok (l : list Z) : Prop := Forall (fun c => c <> 0 /\ c <> 37) l.
Fixpoint args_ok (mem : Z -> list Z) (ds : list (list Z * directive)) (args : list Z) : Prop :=
  match ds with
  | [] => args = []
  | (lit, Pct) :: ds => literal_ok lit /\ args_ok mem ds args
  | (lit, Conv _ _ w c) :: ds =>
      match args with
      | [] => False
      | a :: args =>
          literal_ok lit /\ 0 <= w < 2 ^ 31
          /\ (c = Cs -> u32 a <> 0 /\ exists t r, mem (u32 a) = cstring t ++ r /\ nonul t /\ zlen t < 2 ^ 31)
          /\ args_ok mem ds args
      end
  end.

Lemma c_str_cstring t r : nonul t -> c_str (cstring t ++ r) = t.
Proof.
  induction t as [|c t IH]; simpl; [done|]. intros [Hc Ht]%nonul_cons.
  destruct (Z.eqb_spec c 0); [done|]. unfold cstring in IH. by rewrite IH.
Qed.

(** The flags after the padding adjustments of the [LENGTH] state. *)
Definition conv_flags (lft zero : bool) (w : Z) : vformat_flags :=
  VFlags false (zero && negb lft) lft (negb (w =? 0)) false false
    (if zero && negb lft then 48 else 32) w 0 LENGTH_DEFAULT SIGN_DEFAULT 0.

Lemma rich_int_field v f prefix body :
  fmt_ok v f -> precision f = false -> (width f = false -> width_value f = 0) ->
  sign_chars v f ++ alt_chars v f = prefix -> numeral (radix f) (magnitude v f) = body ->
  padding_value f = 32 \/ padding_value f = 48 ->
  concat (format_rich_int v f).1
  = field (left f) (padding_value f =? 48) (width_value f) prefix body.
Proof.
  intros Hok Hp Hw0 Hpre Hbody Hpad.
  destruct (rich_int_layout v f Hok) as (w0&w1&w2&H0&H1&H2&Hc&Hret&Hlen&Hl&Hr&Hz&Hd).
  destruct Hok as (_&_&Hw&_&Hpv). 
  assert (Hnd : no_digits v f = false) by (unfold no_digits; by rewrite Hp).
  unfold digits_length in Hret, Hd. rewrite Hnd, Hbody, (Hpv Hp) in Hret, Hd. rewrite Hnd in Hlen. rewrite Hbody in Hc.
  pose proof (zlen_nonneg body). pose proof (zlen_nonneg prefix).
  assert (Hn : zlen prefix = zlen (sign_chars v f) + zlen (alt_chars v f)) by (by rewrite <- Hpre, zlen_app).
  rewrite Hret, Hc in Hlen. autorewrite with kernel in Hlen. rewrite !Z2Nat.id in Hlen by lia.
  assert (Hww : (if width f then width_value f else 0) = width_value f)
    by (destruct (width f); [done|by rewrite Hw0]). rewrite Hww in Hlen.
  rewrite Hc, (app_assoc (sign_chars v f)), Hpre. unfold field.
  destruct (left f) eqn:El.
  - specialize (Hl eq_refl). specialize (Hd (or_introl eq_refl)).
    assert (w1 = 0) by lia. subst w0 w1. simpl. do 3 f_equal. lia.
  - specialize (Hr eq_refl). subst w2. simpl. rewrite app_nil_r. destruct Hpad as [E|E]; rewrite E; simpl.
    + assert (w1 = 0) as -> by (rewrite E in Hd; specialize (Hd ltac:(by right; right)); lia).
      simpl. f_equal. f_equal. lia.
    + specialize (Hz Hp ltac:(lia)). subst w0. simpl. do 3 f_equal. lia.
Qed.

(** ** Running a directive *)
Lemma hexchar_digit d : 0 <= d < 10 -> hexchar d = 48 + d.
Proof.
  intros H. assert (d = 0 \/ d = 1 \/ d = 2 \/ d = 3 \/ d = 4 \/ d = 5 \/ d = 6 \/ d = 7 \/ d = 8 \/ d = 9)
    as Hd by lia.
  by repeat destruct Hd as [->|Hd]; [..|subst].
Qed.

Lemma foldl_value_ge ds a :
  Forall (fun d => 0 <= d < 10) ds -> 0 <= a -> a <= foldl (fun a d => a * 10 + d) a ds.
Proof.
  intros Hf. revert a. induction Hf as [|d ds Hd Hf IH]; intros a Ha; simpl; [lia|].
  specialize (IH (a * 10 + d)). lia.
Qed.

Lemma fetch_int_loop_digits ds c rest fmt v :
  Forall (fun d => 0 <= d < 10) ds -> is_digit c = false -> 0 <= v ->
  foldl (fun a d => a * 10 + d) v ds < 2 ^ 31 ->
  fetch_int_loop ((hexchar <$> ds) ++ c :: rest) fmt v
  = Some (fmt + zlen ds, foldl (fun a d => a * 10 + d) v ds).
Proof.
  intros Hf Hc. revert fmt v. induction Hf as [|d ds Hd Hf IH]; intros fmt v Hv Hlt; simpl.
  { rewrite Hc, zlen_nil. do 2 f_equal. lia. }
  rewrite (hexchar_digit d Hd). unfold is_digit at 1.
  destruct (48 <=? 48 + d) eqn:?; [|lia]. destruct (48 + d <=? 57) eqn:?; [simpl|lia].
  simpl in Hlt. pose proof (foldl_value_ge ds (v * 10 + d) Hf ltac:(lia)).
  replace (48 + d - 48) with d by lia. rewrite s32_id by lia.
  rewrite IH by lia. rewrite zlen_cons. do 2 f_equal. lia.
Qed.

Lemma conv_char_plain c :
  is_digit (conv_char c) = false /\ conv_char c <> 0 /\ conv_char c ∉ str "%#0 -+*.hljzt".
Proof. destruct c; (split_and!; [done|done|]); apply (bool_decide_unpack _); vm_compute; exact I. Qed.

Lemma width_text_spec w c rest :
  0 <= w < 2 ^ 31 ->
  (forall fmt, fetch_int_loop (width_text w ++ conv_char c :: rest) fmt 0
     = Some (fmt + zlen (width_text w), w))
  /\ exists c0 r, width_text w ++ conv_char c :: rest = c0 :: r /\ c0 <> 0
       /\ c0 ∉ str "%#0 -+*".
Proof.
  intros Hw. destruct (conv_char_plain c) as (Hd&Hz&Hn). unfold width_text, numeral.
  destruct (Z.eqb_spec w 0) as [->|Hnz]; simpl app.
  { split.
    - intros fmt. cbn [app fetch_int_loop]. rewrite Hd. change (zlen (@nil Z)) with 0. by rewrite Z.add_0_r.
    - exists (conv_char c), rest. split_and!; [done|done|]. clear. destruct c; apply (bool_decide_unpack _); vm_compute; exact I. }
  destruct (digits_spec 10 w) as (Hval&Hdig&(d&ds&E&Hd0)&_); [lia|lia|]. split.
  - intros fmt. rewrite fetch_int_loop_digits; [|done|done|lia|fold (value 10 (digits 10 w)); lia].
    fold (value 10 (digits 10 w)). by rewrite Hval, zlen_fmap.
  - rewrite E in *. apply Forall_cons in Hdig as [Hd1 _]. rewrite fmap_cons. simpl.
    rewrite hexchar_digit by done. do 2 eexists. split_and!; [done|lia|].
    change (str "%#0 -+*") with [37; 35; 48; 32; 45; 43; 42].
    rewrite !not_elem_of_cons. split_and!; try lia. apply not_elem_of_nil.
Qed.

Section Runs.
Variable mem : Z -> list Z.
Variable s : list Z.

(** The text of the format from index [i] on. *)
Definition text (i : Z) (rest : list Z) : Prop :=
  0 <= i <= zlen s /\ drop (Z.to_nat i) s = rest.

Lemma text_cur st c rest : text (vs_fmt st) (c :: rest) -> cur s st = Some c.
Proof.
  intros [H0 Hd]. unfold cur. destruct (_ <? 0) eqn:?; [lia|].
  rewrite <- (Nat.add_0_r (Z.to_nat (vs_fmt st))), <- lookup_drop, Hd. done.
Qed.
Lemma text_len i rest : text i rest -> zlen rest = zlen s - i.
Proof. intros [H0 <-]. unfold zlen in *. rewrite length_drop. lia. Qed.
Lemma text_app i xs rest : text i (xs ++ rest) -> text (i + zlen xs) rest.
Proof.
  intros H. pose proof (text_len _ _ H) as Hl. destruct H as [H0 Hd]. rewrite zlen_app in Hl.
  pose proof (zlen_nonneg xs). pose proof (zlen_nonneg rest). split; [lia|].
  replace (Z.to_nat (i + zlen xs)) with (Z.to_nat i + length xs)%nat by (unfold zlen in *; lia).
  rewrite <- drop_drop, Hd. by rewrite drop_app_length.
Qed.
Lemma text_cons i c rest : text i (c :: rest) -> text (i + 1) rest.
Proof. apply (text_app i [c]). Qed.
Lemma text_rd i xs rest : text i (xs ++ rest) -> rd s i (zlen xs) = Some xs.
Proof.
  intros H. pose proof (text_len _ _ H) as Hl. destruct H as [H0 Hd]. rewrite zlen_app in Hl.
  pose proof (zlen_nonneg xs). pose proof (zlen_nonneg rest). unfold rd.
  destruct (0 <=? i) eqn:?; [|lia]. destruct (0 <=? zlen xs) eqn:?; [|lia].
  destruct (i + zlen xs <=? zlen s) eqn:?; [simpl|lia].
  unfold slice. rewrite Hd. unfold zlen. by rewrite Nat2Z.id, take_app_length.
Qed.

Lemma literal_len_spec lit c rest :
  literal_ok lit -> c = 0 \/ c = 37 -> literal_len (lit ++ c :: rest) = Some (zlen lit).
Proof.
  intros Hl Hc. induction Hl as [|x lit [Hx0 Hx37] Hl IH]; simpl.
  - by destruct Hc as [->| ->].
  - destruct (Z.eqb_spec x 0); [done|]. destruct (Z.eqb_spec x 37); [done|]. simpl.
    rewrite IH. simpl. by rewrite zlen_cons.
Qed.

Lemma step_literal_spec st lit c rest :
  text (vs_fmt st) (lit ++ c :: rest) -> literal_ok lit -> c = 0 \/ c = 37 ->
  exists st', step_literal s st = Some (st', c =? 0)
    /\ vs_state st' = PERCENT /\ vs_ap st' = vs_ap st /\ vs_out st' = vs_out st ++ [lit]
    /\ vs_percent_start st' = vs_fmt st + zlen lit
    /\ (c = 37 -> vs_flags st' = no_flags /\ vs_fmt st' = vs_fmt st + zlen lit + 1).
Proof.
  intros Ht Hl Hc. unfold step_literal. pose proof Ht as [_ Hd]. rewrite Hd.
  rewrite literal_len_spec by done. cbn [mbind option_bind].
  rewrite (text_rd _ _ _ Ht). cbn [mbind option_bind]. 
  erewrite (text_cur (VState _ _ _ _ _ _ _ _)) by (apply text_app, Ht). cbn [mbind option_bind].
  destruct Hc as [->| ->]; simpl; eexists; (split; [done|]); split_and!; done.
Qed.
Lemma format_string_field body r f :
  precision_value f = zlen body -> zlen body < 2 ^ 31 -> 0 <= width_value f < 2 ^ 31 ->
  (width f = false -> width_value f = 0) ->
  exists chunks, format_string (body ++ r) f = Some chunks
    /\ concat chunks = field (left f) false (width_value f) [] body.
Proof.
  intros Hp Hb Hw Hw0. pose proof (zlen_nonneg body). unfold format_string. rewrite Hp.
  assert (Hrd : rd (body ++ r) 0 (u32 (zlen body)) = Some body).
  { rewrite u32_id by lia. pose proof (zlen_nonneg r). unfold rd.
    destruct (0 <=? zlen body) eqn:?; [|lia]. destruct (0 + zlen body <=? _) eqn:E; simpl.
    - unfold slice, zlen. by rewrite Nat2Z.id, drop_0, take_app_length.
    - rewrite zlen_app in E. lia. }
  unfold field. change (zlen (@nil Z)) with 0. rewrite Z.add_0_l.
  destruct (width f && _) eqn:E.
  - apply andb_true_iff in E as [_ E]. rewrite s32_id by lia.
    destruct (left f); rewrite Hrd; cbn [mbind option_bind]; eexists; (split; [done|]);
      rewrite !u32_id, !concat_app, !when_nz_copy by lia; cbn [concat]; by rewrite ?app_nil_r.
  - rewrite Hrd. cbn [mbind option_bind]. eexists; split; [done|]. cbn.
    assert (width_value f <= zlen body) by (destruct (width f); simpl in E; [lia|rewrite Hw0; [lia|done]]).
    replace (Z.to_nat _) with O by lia. rewrite !app_nil_r. by destruct (left f).
Qed.

Definition flag_flags (lft zero : bool) : vformat_flags :=
  VFlags false zero lft false false false (if zero then 48 else 0) 0 0 LENGTH_DEFAULT SIGN_DEFAULT 0.

Ltac not_chars H :=
  repeat match goal with
         | |- context [?c =? chr ?x] =>
             destruct (Z.eqb_spec c (chr x)) as [->|_];
             [exfalso; apply H; apply (bool_decide_unpack _); vm_compute; exact I|]
         end.

Lemma step_percent_plain st c :
  cur s st = Some c -> c ∉ str "%#0 -+*" -> step_percent s st = Some (goto FLAGS st).
Proof. intros Hc Hn. unfold step_percent. rewrite Hc. cbn [mbind option_bind]. by not_chars Hn. Qed.

Lemma step_flags_width st w c rest :
  text (vs_fmt st) (width_text w ++ conv_char c :: rest) -> 0 <= w < 2 ^ 31 ->
  width (vs_flags st) = false ->
  step_flags s st
  = Some (goto WIDTH (with_flags (set_width (negb (w =? 0)) w) (at_fmt (vs_fmt st + zlen (width_text w)) st))).
Proof.
  intros Ht Hw Hwf. destruct (width_text_spec w c rest Hw) as (Hfetch&c0&r0&E&Hc0&Hc0').
  assert (Hl : zlen (width_text w) = 0 <-> w = 0).
  { unfold width_text. destruct (Z.eqb_spec w 0); [done|].
    pose proof (numeral_length 10 w ltac:(lia) ltac:(lia)). lia. }
  unfold step_flags. rewrite E in Ht. rewrite (text_cur _ _ _ Ht). cbn [mbind option_bind].
  destruct (Z.eqb_spec c0 (chr "*")) as [->|_].
  { exfalso. apply Hc0'. apply (bool_decide_unpack _). vm_compute. exact I. }
  unfold fetch_int. destruct Ht as [_ Hd]. rewrite Hd, <- E, Hfetch. cbn [mbind option_bind].
  f_equal. unfold with_flags, at_fmt, goto. cbn. 
  destruct (Z.eqb_spec w 0) as [->|Hnz]; cbn [negb].
  - change (zlen (width_text 0)) with 0. rewrite Z.add_0_r, Z.eqb_refl. simpl. by rewrite Hwf.
  - pose proof (zlen_nonneg (width_text w)). destruct (_ =? vs_fmt st) eqn:?; [lia|]. done.
Qed.

Lemma step_width_none st c rest :
  text (vs_fmt st) (conv_char c :: rest) -> step_width s st = Some (goto PRECISION st).
Proof.
  intros Ht. unfold step_width. rewrite (text_cur _ _ _ Ht). cbn [mbind option_bind]. by destruct c.
Qed.
Lemma step_precision_none st c rest :
  text (vs_fmt st) (conv_char c :: rest) -> step_precision s st = Some (goto LENGTH st).
Proof.
  intros Ht. unfold step_precision. rewrite (text_cur _ _ _ Ht). cbn [mbind option_bind].
  by destruct c.
Qed.

Lemma s32_u32 a : s32 (u32 a) = s32 a.
Proof. unfold s32. by rewrite u32_u32. Qed.
Lemma signed_cases a :
  (s32 a < 0 /\ u32 (- u32 a) = - s32 a) \/ (0 <= s32 a /\ u32 a = s32 a).
Proof.
  pose proof (u32_range a). unfold s32. destruct (u32 a <? 0x80000000) eqn:E; [right; lia|].
  left. split; [lia|]. rewrite u32_neg; lia.
Qed.

Lemma field_zero lft zero w p b :
  field lft (zero && negb lft) w p b = field lft zero w p b.
Proof. unfold field. destruct lft, zero; done. Qed.

(** The flags each integer conversion formats with. *)
Definition int_conv_flags (c : conv) (f : vformat_flags) : vformat_flags :=
  match c with
  | Cd => set_radix 10 (set_signed true f)
  | Cu => set_radix 10 f
  | Co => set_radix 8 f
  | Cp => set_radix 16 (set_alternate true f)
  | _ => set_radix 16 f
  end.

Lemma int_conv_field c lft zero w a :
  is_int_conv c = true -> 0 <= w < 2 ^ 31 ->
  concat (format_rich_int (u32 a) (int_conv_flags c (conv_flags lft zero w))).1
  = field lft (zero && is_int_conv c) w (conv_parts mem c a).1 (conv_parts mem c a).2.
Proof.
  intros Hi Hw. pose proof (u32_range a) as Hr.
  rewrite Hi, andb_true_r, <- field_zero.
  assert (Hz : (if zero && negb lft then 48 else 32) =? 48 = zero && negb lft)
    by (by destruct (zero && negb lft)).
  rewrite (rich_int_field _ _ (conv_parts mem c a).1 (conv_parts mem c a).2).
  - destruct c; try done; simpl; by rewrite Hz.
  - destruct c; try done; unfold fmt_ok; simpl; lia.
  - by destruct c.
  - destruct c; simpl; intros; try done; lia.
  - destruct c; try done; unfold sign_chars; simpl; unfold neg_long; rewrite ?s32_u32; try done.
    by destruct (s32 a <? 0).
  - destruct c; try done; unfold magnitude; simpl; unfold neg_long; rewrite ?s32_u32; try done.
    destruct (signed_cases a) as [[Hs He]|[Hs He]], (s32 a <? 0) eqn:?; simpl; try lia; congruence.
  - destruct c; try done; simpl; destruct (zero && negb lft); lia.
Qed.

Ltac int_case H := eexists; split; [reflexivity|]; split_and!; [done..|exact H].

(** The conversion itself. *)
Lemma step_length_spec st lft zero w c rest a ap :
  vs_flags st = set_width (negb (w =? 0)) w (flag_flags lft zero) -> vs_ap st = a :: ap ->
  text (vs_fmt st) (conv_char c :: rest) -> 0 <= w < 2 ^ 31 ->
  (c = Cs -> u32 a <> 0 /\ exists t r, mem (u32 a) = cstring t ++ r /\ nonul t /\ zlen t < 2 ^ 31) ->
  exists st', step_length mem s st = Some st'
    /\ vs_state st' = LITERAL /\ vs_ap st' = ap /\ vs_fmt st' = vs_fmt st + 1
    /\ concat (vs_out st') = concat (vs_out st)
         ++ field lft (zero && is_int_conv c) w (conv_parts mem c a).1 (conv_parts mem c a).2.
Proof.
  intros Hf Hap Ht Hw Hstr.
  assert (Hfl : forall st1, st1 = with_flags (fun f => if negb (padding f) then set_padding_value 32 f else f)
      (with_flags (fun f => if left f && padding f then set_padding false f else f) st) ->
      vs_flags st1 = conv_flags lft zero w).
  { intros st1 ->. destruct st; simpl in *. rewrite Hf. by destruct lft, zero. }
  unfold step_length. pose proof (text_cur _ _ _ Ht) as Hc.
  set (st1 := with_flags (fun f => if negb (padding f) then _ else f) _) in *.
  specialize (Hfl st1 eq_refl).
  assert (cur s st1 = Some (conv_char c) /\ vs_ap st1 = a :: ap /\ vs_fmt st1 = vs_fmt st
          /\ vs_out st1 = vs_out st) as (Hc1&Hap1&<-&<-) by done.
  rewrite Hc1. clearbody st1. clear Hf Hap Hc Hc1 Ht. cbn [mbind option_bind].
  destruct st1 as [stt fmt ps fl ui si ap1 out]. simpl in Hfl, Hap1. subst fl ap1.
  assert (Hint : forall c', is_int_conv c' = true ->
    concat (out ++ (format_rich_int (u32 a) (int_conv_flags c' (conv_flags lft zero w))).1)
    = concat out
      ++ field lft (zero && is_int_conv c') w (conv_parts mem c' a).1 (conv_parts mem c' a).2).
  { intros. rewrite concat_app. f_equal. by apply int_conv_field. }
  destruct c; [int_case (Hint Cd eq_refl)|int_case (Hint Cu eq_refl)|int_case (Hint Co eq_refl)
              |int_case (Hint Cx eq_refl)|int_case (Hint Cp eq_refl)| |].
  - destruct (Hstr eq_refl) as (Ha&t&r&Hm&Ht&Hlt).
    assert (Hsa : string_arg mem (u32 a) (conv_flags lft zero w)
                  = Some (t ++ [0] ++ r, set_precision false (zlen t) (conv_flags lft zero w))).
    { unfold string_arg. destruct (Z.eqb_spec (u32 a) 0); [done|]. cbn [precision conv_flags].
      rewrite Hm, strlen_cstring by done. simpl. unfold cstring. by rewrite <- app_assoc. }
    destruct (format_string_field t ([0] ++ r) (set_precision false (zlen t) (conv_flags lft zero w)))
      as (chunks&Hch&Hcc); [done|done|done|simpl; intros; lia|].
    cbn -[string_arg format_string conv_flags u32 field conv_parts concat].
    rewrite Hsa. cbn -[format_string conv_flags u32 field conv_parts concat app]. rewrite Hch.
    eexists; split; [reflexivity|]. split_and!; [done..|].
    cbn -[conv_flags u32 field concat]. rewrite concat_app, Hcc, andb_false_r, Hm, c_str_cstring by done.
    done.
  - assert (Hs8 : s8 (u32 a) = s8 a) by (unfold s8; by rewrite u8_u32).
    destruct (format_string_field [s8 a] [] (set_precision true 1 (conv_flags lft zero w)))
      as (chunks&Hch&Hcc); [done|done|done|simpl; intros; lia|]. rewrite app_nil_r in Hch.
    cbn -[format_string conv_flags u32 s8 field conv_parts concat]. rewrite Hs8, Hch.
    eexists; split; [reflexivity|]. split_and!; [done..|].
    cbn -[conv_flags u32 s8 field concat]. by rewrite concat_app, Hcc, andb_false_r.
Qed.

(** One conversion, from the character after its flags. *)
Lemma conversion_spec st lft zero w c rest a ap :
  vs_state st = PERCENT -> vs_flags st = flag_flags lft zero -> vs_ap st = a :: ap ->
  text (vs_fmt st) (width_text w ++ conv_char c :: rest) -> 0 <= w < 2 ^ 31 ->
  (c = Cs -> u32 a <> 0 /\ exists t r, mem (u32 a) = cstring t ++ r /\ nonul t /\ zlen t < 2 ^ 31) ->
  exists st', iteration mem s st = Some (st', false)
    /\ vs_state st' = LITERAL /\ vs_ap st' = ap /\ text (vs_fmt st') rest
    /\ concat (vs_out st') = concat (vs_out st)
         ++ field lft (zero && is_int_conv c) w (conv_parts mem c a).1 (conv_parts mem c a).2.
Proof.
  intros Hs Hf Hap Ht Hw Hstr.
  destruct (width_text_spec w c rest Hw) as (_&c0&r0&E&_&Hc0').
  unfold iteration. unfold is_state. rewrite Hs. cbn [mbind option_bind].
  rewrite when_in by done. rewrite E in Ht.
  rewrite (step_percent_plain _ _ (text_cur _ _ _ Ht) Hc0'). rewrite <- E in Ht. cbn [mbind option_bind].
  rewrite when_in by done. rewrite (step_flags_width (goto FLAGS st) w c rest) by (done || by simpl; rewrite Hf).
  cbn [mbind option_bind]. rewrite when_in by done.
  apply text_app in Ht as Ht2. set (st2 := goto WIDTH _).
  rewrite (step_width_none st2 c rest) by done. cbn [mbind option_bind].
  replace (when DOT _ _) with (Some (goto PRECISION st2)) by done. cbn [mbind option_bind].
  rewrite when_in by done. rewrite (step_precision_none (goto PRECISION st2) c rest) by done.
  cbn [mbind option_bind]. rewrite when_in by done.
  destruct (step_length_spec (goto LENGTH (goto PRECISION st2)) lft zero w c rest a ap)
    as (st'&Hst'&H1&H2&H3&H4); [by simpl; rewrite Hf|done|done|done|done|].
  rewrite Hst'. exists st'. split_and!; [done|done|done| |done].
  rewrite H3. by apply (text_cons _ (conv_char c)).
Qed.
(** ** Runs: iterations until the terminator *)
Inductive evals : vformat_state -> vformat_state -> Prop :=
| evals_end st : cur s st = Some 0 -> evals st st
| evals_break st c st' :
    cur s st = Some c -> c <> 0 -> iteration mem s st = Some (st', true) -> evals st st'
| evals_step st c st1 st' :
    cur s st = Some c -> c <> 0 -> iteration mem s st = Some (st1, false) -> evals st1 st' ->
    evals st st'.

Lemma evals_loop st st' :
  evals st st' -> forall fuel, vformat_loop mem s fuel st <> OutOfFuel ->
  vformat_loop mem s fuel st = Done st'.
Proof.
  induction 1 as [st Hc|st c st' Hc Hz Hi|st c st1 st' Hc Hz Hi Hev IH];
    intros [|fuel] Hf; simpl in *; try done; rewrite Hc in *.
  - done.
  - destruct (Z.eqb_spec c 0); [done|]. by rewrite Hi.
  - destruct (Z.eqb_spec c 0); [done|]. rewrite Hi in *. by apply IH.
Qed.

(** A literal and the [%] after it are consumed in the iteration of the
    character that follows. *)
Lemma evals_literal st lit c rest :
  vs_state st = LITERAL -> literal_ok lit -> c <> 0 ->
  text (vs_fmt st) (lit ++ 37 :: c :: rest) ->
  exists st1, vs_state st1 = PERCENT /\ vs_flags st1 = no_flags /\ vs_ap st1 = vs_ap st
    /\ vs_out st1 = vs_out st ++ [lit] /\ text (vs_fmt st1) (c :: rest)
    /\ forall st', evals st1 st' -> evals st st'.
Proof.
  intros Hs Hl Hc Ht.
  destruct (step_literal_spec st lit 37 (c :: rest) Ht Hl ltac:(by right))
    as (st1&H1&H2&H3&H4&_&H5). destruct (H5 eq_refl) as [H6 H7].
  assert (Ht1 : text (vs_fmt st1) (c :: rest)).
  { rewrite H7. eapply text_cons, text_app, Ht. }
  exists st1. split_and!; try done. intros st' Hev.
  assert (Hit : iteration mem s st = iteration mem s st1).
  { unfold iteration at 1. unfold is_state. rewrite Hs, H1. cbn [mbind option_bind].
    change (37 =? 0) with false. cbn iota. unfold iteration, is_state. by rewrite H2. }
  pose proof (text_cur st1 c rest Ht1) as Hc1.
  assert (exists c0, cur s st = Some c0 /\ c0 <> 0) as (c0&Hc0&Hz0).
  { destruct lit as [|x lit]; simpl in Ht.
    - exists 37. split; [by eapply text_cur|done].
    - exists x. split; [by eapply text_cur|]. by apply Forall_cons in Hl as [[? _] _]. }
  inversion Hev; subst; rewrite Hc1 in *; simplify_eq.
  - eapply evals_break; [done|done|by rewrite Hit].
  - eapply evals_step; [done|done|by rewrite Hit|done].
Qed.

(** A flag character. *)
Lemma evals_flag st c rest f :
  vs_state st = PERCENT -> text (vs_fmt st) (c :: rest) -> c <> 0 ->
  step_percent s st = Some (with_flags f (adv st)) ->
  forall st', evals (with_flags f (adv st)) st' -> evals st st'.
Proof.
  intros Hs Ht Hz Hp st' Hev. eapply evals_step; [by eapply text_cur|done| |done].
  unfold iteration. unfold is_state. rewrite Hs. cbn [mbind option_bind].
  rewrite when_in by done. rewrite Hp. cbn [mbind option_bind].
  assert (vs_state (with_flags f (adv st)) = PERCENT) as Hs2 by done.
  do 5 (rewrite when_out by congruence; cbn [mbind option_bind]). done.
Qed.

Lemma evals_minus (b : bool) st rest :
  vs_state st = PERCENT -> vs_flags st = no_flags ->
  text (vs_fmt st) ((if b then str "-" else []) ++ rest) ->
  exists st1, vs_state st1 = PERCENT /\ vs_flags st1 = flag_flags b false /\ vs_ap st1 = vs_ap st
    /\ vs_out st1 = vs_out st /\ text (vs_fmt st1) rest /\ forall st', evals st1 st' -> evals st st'.
Proof.
  intros Hs Hf Ht. destruct b; simpl in Ht; [|by exists st].
  exists (with_flags (set_left true) (adv st)). pose proof (text_cur _ _ _ Ht) as Hc.
  split_and!; [done|simpl; by rewrite Hf|done|done|by apply (text_cons _ 45)|].
  apply (evals_flag st 45 rest); [done|done|done|]. unfold step_percent. by rewrite Hc.
Qed.
Lemma evals_zero (b l : bool) st rest :
  vs_state st = PERCENT -> vs_flags st = flag_flags l false ->
  text (vs_fmt st) ((if b then str "0" else []) ++ rest) ->
  exists st1, vs_state st1 = PERCENT /\ vs_flags st1 = flag_flags l b /\ vs_ap st1 = vs_ap st
    /\ vs_out st1 = vs_out st /\ text (vs_fmt st1) rest /\ forall st', evals st1 st' -> evals st st'.
Proof.
  intros Hs Hf Ht. destruct b; simpl in Ht; [|by exists st].
  exists (with_flags (fun f => set_padding true (set_padding_value 48 f)) (adv st)).
  pose proof (text_cur _ _ _ Ht) as Hc.
  split_and!; [done|simpl; by rewrite Hf|done|done|by apply (text_cons _ 48)|].
  apply (evals_flag st 48 rest); [done|done|done|]. unfold step_percent. by rewrite Hc.
Qed.

Lemma evals_conversion st lft zero w c rest a ap :
  vs_state st = PERCENT -> vs_flags st = no_flags -> vs_ap st = a :: ap ->
  text (vs_fmt st) (directive_text (Conv lft zero w c) ++ rest) -> 0 <= w < 2 ^ 31 ->
  (c = Cs -> u32 a <> 0 /\ exists t r, mem (u32 a) = cstring t ++ r /\ nonul t /\ zlen t < 2 ^ 31) ->
  exists st1, vs_state st1 = LITERAL /\ vs_ap st1 = ap /\ text (vs_fmt st1) rest
    /\ concat (vs_out st1) = concat (vs_out st)
         ++ field lft (zero && is_int_conv c) w (conv_parts mem c a).1 (conv_parts mem c a).2
    /\ forall st', evals st1 st' -> evals st st'.
Proof.
  intros Hs Hf Hap Ht Hw Hstr. simpl in Ht. rewrite <- !app_assoc in Ht.
  destruct (evals_minus _ _ _ Hs Hf Ht) as (s1&Hs1&Hf1&Ha1&Ho1&Ht1&E1).
  destruct (evals_zero _ _ _ _ Hs1 Hf1 Ht1) as (s2&Hs2&Hf2&Ha2&Ho2&Ht2&E2).
  destruct (conversion_spec s2 lft zero w c rest a ap) as (s3&Hi&Hs3&Ha3&Ht3&Ho3);
    try done; [congruence|].
  exists s3. split_and!; [done|done|done|congruence|]. intros st' Hev. apply E1, E2.
  destruct (width_text_spec w c rest Hw) as (_&c0&r0&E&Hz&_). simpl in Ht2. rewrite E in Ht2.
  eapply evals_step; [by eapply text_cur|done|done|done].
Qed.

Definition width_ok (d : directive) : Prop :=
  match d with Pct => True | Conv _ _ w _ => 0 <= w < 2 ^ 31 end.

Lemma directive_text_cons d rest :
  width_ok d -> exists c r, directive_text d ++ rest = c :: r /\ c <> 0.
Proof.
  destruct d as [|lft zero w c]; intros Hw; [by do 2 eexists|].
  destruct (width_text_spec w c rest Hw) as (_&c0&r0&E&Hz&_).
  simpl. destruct lft; [by do 2 eexists|]. destruct zero; [by do 2 eexists|].
  simpl. rewrite <- app_assoc. simpl. rewrite E. by do 2 eexists.
Qed.

Lemma format_evals ds tl args st :
  vs_state st = LITERAL -> text (vs_fmt st) (format_text ds tl ++ [0]) ->
  vs_ap st = args -> args_ok mem ds args -> literal_ok tl ->
  exists st', evals st st' /\ concat (vs_out st') = concat (vs_out st) ++ expected mem ds args ++ tl.
Proof.
  revert args st. induction ds as [|[lit d] ds IH]; intros args st Hs Ht Hap Hargs Htl; simpl in *.
  - destruct tl as [|x tl].
    + exists st. split; [apply evals_end; by eapply text_cur|]. by rewrite !app_nil_r.
    + destruct (step_literal_spec st (x :: tl) 0 [] Ht Htl ltac:(by left)) as (st1&H1&H2&H3&H4&_).
      exists st1. split; [|by rewrite H4, concat_app; simpl; rewrite app_nil_r].
      eapply evals_break; [by eapply text_cur|by apply Forall_cons in Htl as [[? _] _]|].
      unfold iteration, is_state. by rewrite Hs, H1.
  - rewrite <- app_assoc in Ht. simpl in Ht. rewrite <- app_assoc in Ht.
    assert (Hd : width_ok d /\ literal_ok lit).
    { destruct d; [by destruct Hargs|]. destruct args; [done|]. by destruct Hargs as (?&?&_). }
    destruct Hd as [Hw Hlit].
    destruct (directive_text_cons d (format_text ds tl ++ [0]) Hw) as (c&r&E&Hz).
    rewrite E in Ht.
    destruct (evals_literal st lit c r Hs Hlit Hz Ht) as (s1&Hs1&Hf1&Ha1&Ho1&Ht1&E1).
    rewrite <- E in Ht1. destruct d as [|lft zero w cv].
    + pose proof (text_cur s1 37 _ Ht1) as Hc1. set (s2 := goto LITERAL (output [[37]] (adv s1))).
      destruct (IH args s2) as (st'&Hev&Hout); try done; [|by simpl; rewrite Ha1|by destruct Hargs|].
      { apply (text_cons _ 37), Ht1. }
      exists st'. split.
      * apply E1. eapply evals_step; [done|done| |exact Hev].
        unfold iteration, is_state. rewrite Hs1. cbn [mbind option_bind].
        rewrite when_in by done. unfold step_percent. rewrite Hc1. done.
      * rewrite Hout. simpl. rewrite Ho1, !concat_app. simpl. by rewrite <- !app_assoc.
    + destruct args as [|a ap]; [done|]. destruct Hargs as (_&_&Hstr&Hargs).
      destruct (evals_conversion s1 lft zero w cv (format_text ds tl ++ [0]) a ap)
        as (s2&Hs2&Ha2&Ht2&Ho2&E2); try done; [congruence|].
      destruct (IH ap s2 Hs2 Ht2 Ha2 Hargs Htl) as (st'&Hev&Hout).
      exists st'. split; [by apply E1, E2|].
      rewrite Hout, Ho2, Ho1, concat_app. destruct (conv_parts mem cv a); simpl.
      by rewrite app_nil_r, <- !app_assoc.
Qed.
End Runs.

(** C7: [vformat] ends on every format and argument list: each iteration
    moves the format pointer forward. *)
Theorem vformat_terminates mem s ap ui0 si0 : vformat mem s ap ui0 si0 <> OutOfFuel.
Proof.
  unfold vformat. apply vformat_loop_terminates; [by left|simpl; lia|simpl; unfold zlen; lia|lia].
Qed.

(** The output of [vformat] on a format made of literals, [%%] and the
    conversions d, u, o, x, p, s, c with optional left and zero flags and an
    optional width is exactly the literals interleaved with the padded
    arguments, and every argument is consumed in order. *)
Lemma vformat_renders mem ds tl args ui0 si0 :
  args_ok mem ds args -> literal_ok tl ->
  exists st, vformat mem (cstring (format_text ds tl)) args ui0 si0 = Done st
    /\ concat (vs_out st) = expected mem ds args ++ tl.
Proof.
  intros Ha Hl. set (s := cstring (format_text ds tl)).
  destruct (format_evals mem s ds tl args (VState LITERAL 0 0 no_flags ui0 si0 args []))
    as (st&Hev&Hout); try done.
  - split; [simpl; pose proof (zlen_nonneg s); lia|]. done.
  - exists st. split; [|done]. apply (evals_loop _ _ _ _ Hev).
    apply vformat_loop_terminates; [by left|simpl; lia|simpl; unfold zlen; lia|lia].
Qed.

Definition example_mem (a : Z) : list Z := if a =? 4096 then cstring (str "hda1") else [].
Lemma vformat_renders_witness :
  exists st, vformat example_mem (cstring (str "%-6s: 100%% of %08x at %4d")) [4096; 0xBEEF; -7] 0 0
             = Done st
    /\ concat (vs_out st) = str "hda1  : 100% of 0000beef at   -7".
Proof.
  destruct (vformat_renders example_mem
    [([], Conv true false 6 Cs); (str ": 100", Pct); (str " of ", Conv false true 8 Cx);
     (str " at ", Conv false false 4 Cd)] [] [4096; 0xBEEF; -7] 0 0) as (st&H1&H2).
  - assert (Hlit : forall l, forallb (fun c => negb (c =? 0) && negb (c =? 37)) l = true -> literal_ok l).
    { intros l Hb. apply Forall_forall. intros x Hx. rewrite forallb_forall in Hb.
      apply list_elem_of_In in Hx. specialize (Hb x Hx). lia. }
    simpl. split_and!; try (by apply Hlit); try lia; try done.
    intros _. split; [done|]. exists (str "hda1"), [].
    split_and!; [done|repeat constructor; done|done].
  - constructor.
  - exists st. split; [exact H1|]. rewrite H2. reflexivity.
Defined.
