(* ===== verification/Stdio.v ===== *)
(** * Stdio: lib/stdio.c

    [sprintf] and [snprintf]: [vformat] with an output callback that copies
    the chunks into a buffer.  The buffer is the part at index [str] of a
    larger memory [m], so that a write past its end is visible. *)
From S2P Require Import Prelude CString VFormat.

Record str_output_context := StrCtx { sc_mem : list Z; sc_str : Z; sc_limit : Z }.

Definition output_str (context : str_output_context) (data : list Z) : str_output_context :=
  let sz := zlen data in
  let '(m, limit) :=
    if sc_limit context <=? 1 then (sc_mem context, sc_limit context)
    else if sc_limit context <? sz then
      (blit (sc_mem context) (sc_str context) (take (Z.to_nat (sc_limit context - 1)) data), 1)
    else (blit (sc_mem context) (sc_str context) data, u32 (sc_limit context - sz)) in
  StrCtx m (sc_str context + sz) limit.

Definition output_all (context : str_output_context) (chunks : list (list Z)) : str_output_context :=
  foldl output_str context chunks.

(** The result is the memory and the returned length. *)
Definition vsprintf (mem : Z -> list Z) (m : list Z) (str : Z) (fmt ap : list Z) (ui0 si0 : Z)
  : option (list Z * Z) :=
  match vformat mem fmt ap ui0 si0 with
  | Done st =>
      let context := output_all (StrCtx m str (u32 (-1))) (vs_out st) in
      Some (set (sc_mem context) (sc_str context) 0, sc_str context - str)
  | _ => None
  end.

Definition vsnprintf (mem : Z -> list Z) (m : list Z) (str size : Z) (fmt ap : list Z) (ui0 si0 : Z)
  : option (list Z * Z) :=
  match vformat mem fmt ap ui0 si0 with
  | Done st =>
      let context := output_all (StrCtx m str size) (vs_out st) in
      let m := if negb (size =? 0)
               then set (sc_mem context) (str + u32 (size - sc_limit context)) 0
               else sc_mem context in
      Some (m, sc_str context - str)
  | _ => None
  end.

(** ** The callback over a sequence of chunks *)

(** Whether a chunk ends exactly where the room does. *)
Fixpoint fills_exactly (limit : Z) (chunks : list (list Z)) : bool :=
  match chunks with
  | [] => false
  | c :: cs => if limit <=? 1 then false
               else if limit =? zlen c then true
               else if limit <? zlen c then false
               else fills_exactly (limit - zlen c) cs
  end.

Lemma output_all_full m str limit chunks :
  limit <= 1 ->
  output_all (StrCtx m str limit) chunks = StrCtx m (str + zlen (concat chunks)) limit.
Proof.
  unfold output_all. revert str. induction chunks as [|c cs IH]; intros str Hl; simpl.
  { rewrite zlen_nil. f_equal. lia. }
  unfold output_str; simpl. destruct (limit <=? 1) eqn:?; [|lia]. rewrite IH by done.
  rewrite zlen_app. f_equal. lia.
Qed.

(** What is copied: everything while there is room, [limit - 1] characters
    otherwise, except when the room is filled exactly. *)
Definition copied (limit : Z) (chunks : list (list Z)) : list Z :=
  let all := concat chunks in
  if zlen all <? limit then all
  else if fills_exactly limit chunks then take (Z.to_nat limit) all
  else take (Z.to_nat (limit - 1)) all.

Lemma copied_length limit chunks :
  1 <= limit ->
  zlen (copied limit chunks)
  = if zlen (concat chunks) <? limit then zlen (concat chunks)
    else if fills_exactly limit chunks then limit else limit - 1.
Proof.
  intros. unfold copied. destruct (_ <? limit) eqn:E; [done|].
  destruct (fills_exactly limit chunks); unfold zlen in *; rewrite length_take; lia.
Qed.

Lemma output_all_spec m str limit chunks :
  1 <= limit < 2 ^ 32 -> 0 <= str -> str + limit <= zlen m ->
  output_all (StrCtx m str limit) chunks
  = StrCtx (blit m str (copied limit chunks)) (str + zlen (concat chunks))
      (limit - zlen (copied limit chunks)).
Proof.
  revert m str limit. induction chunks as [|c cs IH]; intros m str limit Hl Hs Hm.
  { unfold copied. simpl. rewrite zlen_nil. destruct (0 <? limit) eqn:?; [|lia].
    rewrite blit_nil, (zlen_nil (A:=Z)). unfold output_all; simpl. f_equal; lia. }
  pose proof (zlen_nonneg c) as Hc. pose proof (zlen_nonneg (concat cs)).
  destruct (decide (limit = 1)) as [->|Hne].
  { rewrite output_all_full by lia. unfold copied. simpl concat. rewrite zlen_app in *.
    destruct (_ <? 1) eqn:E.
    - assert (c = []) as -> by (destruct c; [done|rewrite zlen_cons in *; pose proof (zlen_nonneg c); lia]).
      assert (concat cs = []) as -> by (destruct (concat cs); [done|rewrite zlen_cons in *;
        pose proof (zlen_nonneg l); lia]).
      simpl. by rewrite blit_nil.
    - simpl. change (Z.to_nat (1 - 1)) with O. by rewrite take_0, blit_nil. }
  unfold output_all; simpl. unfold output_str at 2; simpl.
  destruct (limit <=? 1) eqn:?; [lia|]. fold (output_all).
  destruct (limit <? zlen c) eqn:Elt.
  - change (foldl output_str ?x cs) with (output_all x cs). rewrite output_all_full by lia.
    unfold copied. simpl. rewrite zlen_app. destruct (_ + _ <? limit) eqn:?; [lia|].
    destruct (limit <=? 1) eqn:?; [lia|]. destruct (limit =? zlen c) eqn:?; [lia|]. rewrite Elt.
    rewrite take_app_le by (unfold zlen in *; lia). f_equal; [lia|].
    unfold zlen in *. rewrite length_take. lia.
  - change (foldl output_str ?x cs) with (output_all x cs). rewrite u32_id by lia.
    destruct (decide (limit = zlen c)) as [->|Hneq].
    + rewrite output_all_full by lia. unfold copied. simpl. rewrite zlen_app.
      destruct (_ + _ <? zlen c) eqn:?; [lia|]. destruct (zlen c <=? 1) eqn:?; [lia|].
      rewrite Z.eqb_refl. replace (take (Z.to_nat (zlen c)) (c ++ concat cs)) with c
        by (unfold zlen; by rewrite Nat2Z.id, take_app_length). f_equal; lia.
    + rewrite IH by (rewrite ?zlen_blit; lia).
      assert (E : copied limit (c :: cs) = c ++ copied (limit - zlen c) cs).
      { unfold copied. simpl. rewrite zlen_app. destruct (limit <=? 1) eqn:?; [lia|].
        destruct (limit =? zlen c) eqn:?; [lia|]. rewrite Elt.
        destruct (_ + _ <? limit) eqn:?, (zlen (concat cs) <? _) eqn:?; try lia; [done|].
        destruct (fills_exactly _ cs); rewrite take_app_ge by (unfold zlen in *; lia);
          do 2 f_equal; unfold zlen in *; lia. }
      rewrite E, !zlen_app. f_equal; [|lia..].
      apply blit_app; [done|]. pose proof (copied_length (limit - zlen c) cs ltac:(lia)) as Hcl.
      rewrite Hcl. repeat case_match; lia.
Qed.

(** C9: [vsnprintf] of an output shorter than the buffer writes it with a
    terminator and nothing else; an output that is too long is cut to
    [size - 1] characters and a terminator, {e except} when the end of some
    chunk falls exactly on the end of the buffer: then [size] characters are
    written and the terminator goes past the end, to [str[size]].  The result
    is always the full length. *)
Theorem vsnprintf_spec mem m str size fmt ap ui0 si0 st :
  vformat mem fmt ap ui0 si0 = Done st ->
  1 <= size < 2 ^ 32 -> 0 <= str -> str + size < zlen m ->
  let all := concat (vs_out st) in
  vsnprintf mem m str size fmt ap ui0 si0
  = Some (blit m str (cstring (if zlen all <? size then all
                               else if fills_exactly size (vs_out st) then take (Z.to_nat size) all
                               else take (Z.to_nat (size - 1)) all)),
          zlen all).
Proof.
  intros Hf Hsz H0 Hm all. unfold vsnprintf. rewrite Hf.
  rewrite output_all_spec by lia. simpl. fold all. fold (copied size (vs_out st)).
  destruct (Z.eqb_spec size 0); [lia|]. cbn [negb].
  change (if zlen all <? size then all else _) with (copied size (vs_out st)).
  pose proof (copied_length size (vs_out st) ltac:(lia)) as Hl. fold all in Hl.
  pose proof (zlen_nonneg (copied size (vs_out st))).
  assert (zlen (copied size (vs_out st)) <= size) by (rewrite Hl; repeat case_match; lia).
  replace (size - (size - zlen (copied size (vs_out st)))) with (zlen (copied size (vs_out st))) by lia.
  rewrite u32_id by lia. do 2 f_equal; [|lia].
  rewrite set_blit. unfold cstring. apply blit_app; [done|]. rewrite zlen_cons, zlen_nil. lia.
Qed.

(** The off-by-one at work: the chunk of [%s] has exactly 4 characters. *)
Lemma vsnprintf_spec_witness :
  exists n, vsnprintf (fun _ => cstring ([97; 97; 97; 97])) (replicate 8 9) 1 4
    (cstring (CString.str "%s")) [4096] 0 0
  = Some ([9; 97; 97; 97; 97; 0; 9; 9], n).
Proof.
  destruct (vformat (fun _ => cstring ([97; 97; 97; 97])) (cstring (CString.str "%s")) [4096] 0 0)
    as [st| |] eqn:E; [|vm_compute in E; discriminate..].
  exists (zlen (concat (vs_out st))).
  rewrite (vsnprintf_spec _ (replicate 8 9) 1 4 _ _ _ _ st E); [|lia|lia|vm_compute; reflexivity].
  vm_compute in E. injection E as <-. reflexivity.
Defined.
