(* ===== verification/Pmm.v ===== *)
(** * Pmm: mm/pmm.c

    The physical frame allocator: a bitmap with one bit per 4 KiB frame, set
    when the frame is in use. *)
From S2P Require Import Prelude Bitmap.

Definition pmm_page_count (memory_size : Z) : Z :=
  u32 (memory_size / 4096 + b2z (negb (memory_size mod 4096 =? 0))).

(** [total_memory] is the global the boot code sets; [fresh] is the memory
    [kimalloc] returns. *)
Definition pmm_init (memory_size total_memory : Z) (fresh : list Z) : bitmap :=
  let memory_size := if memory_size =? 0 then total_memory else memory_size in
  let bm := Bitmap fresh (pmm_page_count memory_size) in
  let bm := bitmap_init (Bitmap (take (Z.to_nat (bitmap_byte_size bm)) fresh) (bm_size bm)) in
  for_range 0 1024 (fun k bm => bitmap_flip bm (Z.shiftr (k * 4096) 12)) bm.

(** [idx] is a [size_t]: [idx < 0] never holds. *)
Definition pmm_alloc (pmm : bitmap) (count : Z) : bitmap * Z :=
  let '(pmm, r) := bitmap_scan_flip pmm 0 count false in
  let idx := u32 r in
  if idx <? 0 then (pmm, idx) else (pmm, u32 (Z.shiftl idx 12)).

Definition pmm_free (pmm : bitmap) (frame count : Z) : bitmap :=
  bitmap_setmulti pmm false (Z.shiftr frame 12) count.

(** A page descriptor keeps its frame number in its upper 20 bits
    (include/depthos/paging.h). *)
Definition PAGE_EXTRACT_ADDR (pg : Z) : Z := Z.land (Z.shiftr pg 12) 0xFFFFF * PAGE_SIZE.
Definition pmm_free_desc (pmm : bitmap) (pg count : Z) : bitmap :=
  pmm_free pmm (PAGE_EXTRACT_ADDR pg) count.

Definition pmm_set (pmm : bitmap) (frame count : Z) (avail : bool) : bitmap :=
  bitmap_setmulti pmm (negb avail) (Z.shiftr frame 12) count.

(** ** Frames *)
Definition pmm_wf (pmm : bitmap) : Prop := bm_wf pmm /\ bm_size pmm <= 2 ^ 20.
(** Frame [k] exists and is free. *)
Definition frame_free (pmm : bitmap) (k : Z) : Prop := 0 <= k < bm_size pmm /\ bitmap_test pmm k = false.
Definition frame_used (pmm : bitmap) (k : Z) : Prop := 0 <= k < bm_size pmm /\ bitmap_test pmm k = true.

Lemma shl12 k : 0 <= k < 2 ^ 20 -> u32 (Z.shiftl k 12) = 4096 * k.
Proof. intros. rewrite Z.shiftl_mul_pow2 by lia. rewrite u32_id; lia. Qed.
Lemma shr12 k : Z.shiftr (4096 * k) 12 = k.
Proof. rewrite Z.shiftr_div_pow2 by lia. change (2 ^ 12) with 4096. rewrite Z.mul_comm. apply Z.div_mul. lia. Qed.

Lemma page_count_range size : 0 < size < 2 ^ 32 -> 0 < pmm_page_count size <= 2 ^ 20.
Proof.
  intros Hs. pose proof (Z.div_mod size 4096 ltac:(lia)) as Hd.
  pose proof (Z.mod_pos_bound size 4096 ltac:(lia)) as Hm.
  unfold pmm_page_count. destruct (Z.eqb_spec (size mod 4096) 0) as [E|E]; cbn [negb b2z];
    generalize dependent (size mod 4096); generalize dependent (size / 4096);
    intros q r Hd Hm E; rewrite u32_id; lia.
Qed.

Lemma pmm_init_spec memory_size total_memory fresh :
  let size := if memory_size =? 0 then total_memory else memory_size in
  0 < size < 2 ^ 32 -> pmm_page_count size <= 8 * zlen fresh ->
  Forall (fun b => 0 <= b < 0x100) fresh ->
  let pmm := pmm_init memory_size total_memory fresh in
  pmm_wf pmm /\ bm_size pmm = pmm_page_count size
  /\ forall k, 0 <= k < bm_size pmm -> bitmap_test pmm k = (k <? 1024).
Proof.
  intros size Hs Hl Hb. unfold pmm_init. fold size. clearbody size.
  assert (Hc : 0 < pmm_page_count size <= 2 ^ 20).
  { exact (page_count_range _ Hs). }
  set (n := pmm_page_count size) in *. cbn [bm_size].
  set (by_ := bitmap_byte_size (Bitmap fresh n)).
  assert (Hby : by_ = (n - 1) / 8 + 1).
  { unfold by_, bitmap_byte_size, bitmap_size, bitmap_elem_index, bitmap_elem_size. simpl.
    by rewrite u32_id by lia. }
  pose proof (Z.div_mod (n - 1) 8 ltac:(lia)). pose proof (Z.mod_pos_bound (n - 1) 8 ltac:(lia)).
  set (bm0 := Bitmap (take (Z.to_nat by_) fresh) n).
  assert (Hwf0 : bm_wf bm0).
  { split_and!; simpl; [lia|lia|unfold zlen in *; rewrite length_take; lia|by apply Forall_take]. }
  set (P := fun k bm => bm_wf bm /\ bm_size bm = n
     /\ forall j, 0 <= j -> bitmap_test bm j = (j <? k) && (j <? n)).
  assert (HP : P 1024 (for_range 0 1024 (fun k bm => bitmap_flip bm (Z.shiftr (k * 4096) 12)) (bitmap_init bm0))).
  { apply for_range_ind; [lia| |].
    - split_and!; [by apply (bitmap_init_clear bm0 0); [|simpl; lia|]
                  |by apply (bitmap_init_clear bm0 0); [|simpl; lia|]|].
      intros j Hj. destruct (bitmap_init_clear bm0 j Hwf0 ltac:(simpl; lia) Hj) as (_&_&->).
      destruct (j <? 0) eqn:?; [lia|done].
    - intros k bm Hk (Hw&Hsz&Ht). rewrite Z.mul_comm, shr12.
      split_and!; [by apply bitmap_flip_wf|by rewrite bitmap_flip_size|].
      intros j Hj. rewrite bitmap_flip_test, Ht by (done || lia). rewrite Hsz.
      destruct (Z.eqb_spec k j) as [->|]; simpl; cmp; simpl; try done; lia. }
  destruct HP as (Hw&Hsz&Ht). split_and!; [split; [done|rewrite Hsz; lia]|done|].
  intros k Hk. rewrite Ht by lia. rewrite Hsz in Hk. destruct (k <? n) eqn:?; [|lia].
  apply andb_true_r.
Qed.

(** The two outcomes of [pmm_alloc]. *)
Lemma pmm_alloc_cases pmm n :
  pmm_wf pmm -> 0 < n < 2 ^ 20 ->
  exists pmm' frame, pmm_alloc pmm n = (pmm', frame) /\ pmm_wf pmm' /\ bm_size pmm' = bm_size pmm /\
  ((exists k, frame = 4096 * k /\ bitmap_scan pmm 0 n false = k /\ 0 <= k /\ k + n <= bm_size pmm /\
      (forall j, k <= j < k + n -> bitmap_test pmm j = false) /\
      forall j, 0 <= j -> bitmap_test pmm' j
        = if (k <=? j) && (j <? k + n) then true else bitmap_test pmm j) \/
   (frame = 0xFFFFF000 /\ bitmap_scan pmm 0 n false = - EBITMAP /\
    forall j, 0 <= j < bm_size pmm -> bitmap_test pmm' j
      = if j <? n - 1 then negb (bitmap_test pmm j) else bitmap_test pmm j)).
Proof.
  intros [Hwf Hsz] Hn.
  destruct (scan_flip_spec pmm n false Hwf ltac:(lia) ltac:(lia)) as (pmm'&r&Hr&Hrs&Hwf'&Hsz'&Hc).
  unfold pmm_alloc. rewrite Hr. pose proof (u32_range r). destruct (u32 r <? 0) eqn:?; [lia|].
  do 2 eexists. split; [done|]. split; [split; [done|lia]|]. split; [done|].
  destruct Hc as [(H0&Hfit&Hall&Ht)|(->&Ht)].
  - left. exists r. split_and!; try done. rewrite (u32_id r) by lia. apply shl12. lia.
  - right. split_and!; [reflexivity|done|done].
Qed.

(** C12: what [pmm_alloc(n)] does, in both outcomes.  When there is a run of
    [n] free frames it returns the address of consecutive frames that were
    free and are now in use, changes no other frame, and [pmm_free] of that
    address gives back exactly the old bitmap.  When there is none it returns
    0xFFFFF000 - not the negative value its test is for - and has toggled the
    frames 0 to n - 2: every frame among them that was in use is now free, and
    the next allocation hands it out a second time. *)
Theorem pmm_alloc_outcomes pmm pmm' n frame :
  pmm_wf pmm -> 0 < n < 2 ^ 20 -> pmm_alloc pmm n = (pmm', frame) ->
  pmm_wf pmm' /\
  if bitmap_scan pmm 0 n false =? - EBITMAP
  then frame = 0xFFFFF000
    /\ (forall j, j < n - 1 -> frame_used pmm j -> frame_free pmm' j)
    /\ (forall j, j < n - 1 -> frame_free pmm j -> frame_used pmm' j)
    /\ (forall j, n - 1 <= j < bm_size pmm -> bitmap_test pmm' j = bitmap_test pmm j)
  else exists k, frame = 4096 * k
    /\ (forall j, k <= j < k + n -> frame_free pmm j /\ frame_used pmm' j)
    /\ (forall j, 0 <= j -> ~ (k <= j < k + n) -> bitmap_test pmm' j = bitmap_test pmm j)
    /\ (forall j, 0 <= j -> bitmap_test (pmm_free pmm' frame n) j = bitmap_test pmm j).
Proof.
  intros Hwf Hn Hrun.
  destruct (pmm_alloc_cases pmm n Hwf Hn) as (p'&f'&Hr&Hwf'&Hsz'&Hc). rewrite Hrun in Hr.
  injection Hr as <- <-. split; [done|].
  destruct Hc as [(k&->&Hs&Hk&Hfit&Hall&Ht)|(->&->&Ht)].
  - destruct (Z.eqb_spec (bitmap_scan pmm 0 n false) (- EBITMAP)) as [E|_]; [unfold EBITMAP in E; lia|].
    destruct Hwf as [Hbw Hsz]. exists k. split_and!; [done| | |].
    + intros j Hj. split; [split; [lia|by apply Hall]|]. split; [lia|].
      rewrite Ht by lia. destruct (k <=? j) eqn:?, (j <? k + n) eqn:?; try lia. done.
    + intros j Hj Hnj. rewrite Ht by lia. destruct (k <=? j) eqn:?, (j <? k + n) eqn:?; try lia; done.
    + intros j Hj. unfold pmm_free. rewrite shr12.
      destruct (bitmap_setmulti_test pmm' false k n) as (_&_&Hm); [by destruct Hwf'|lia..|].
      rewrite Hm, Ht by lia. destruct (k <=? j) eqn:?, (j <? k + n) eqn:?, (j <? bm_size pmm') eqn:?;
        simpl; try done; try lia. by rewrite Hall by lia.
  - rewrite Z.eqb_refl. split; [done|]. split_and!.
    + intros j Hj [Hb Hu]. split; [lia|]. rewrite Ht, Hu by lia. by destruct (j <? n - 1) eqn:?; [|lia].
    + intros j Hj [Hb Hu]. split; [lia|]. rewrite Ht, Hu by lia. by destruct (j <? n - 1) eqn:?; [|lia].
    + intros j Hj. rewrite Ht by lia. by destruct (j <? n - 1) eqn:?; [lia|].
Qed.

Definition pmm_example : bitmap := Bitmap [0xFF; 0x1F; 0] 24.
Lemma pmm_example_wf : pmm_wf pmm_example.
Proof. split; [|done]. split_and!; simpl; try done. repeat constructor; lia. Qed.
Lemma pmm_alloc_outcomes_witness :
  ((pmm_alloc pmm_example 4).2 = 4096 * 13 /\ frame_used (pmm_alloc pmm_example 4).1 13)
  /\ frame_used (Bitmap [0xFF] 8) 0 /\ frame_free (pmm_alloc (Bitmap [0xFF] 8) 2).1 0.
Proof.
  split; [split; [reflexivity|]|split; [by split|]].
  - destruct (pmm_alloc_outcomes pmm_example _ 4 (4096 * 13) pmm_example_wf ltac:(lia)
      ltac:(vm_compute; reflexivity)) as (_&k&Hk&H&_).
    assert (k = 13) as -> by lia. destruct (H 13 ltac:(lia)) as [_ H']. exact H'.
  - destruct (pmm_alloc_outcomes (Bitmap [0xFF] 8) _ 2 0xFFFFF000
      ltac:(split; [split_and!; simpl; try done; repeat constructor; lia|done])
      ltac:(lia) ltac:(vm_compute; reflexivity)) as (_&_&H&_).
    apply H; [lia|]. by split.
Defined.
