(* ===== verification/Heap.v ===== *)
(** * Heap: mm/heap.c

    The slab allocator.  [heap_mem] holds the words of the heap that the free
    lists are made of ([next] of a free object at the object's address);
    [heap_cache] is the part of the array in use, [heap_cache_size] its
    length; a pointer to a slab is its index. *)
From S2P Require Import Prelude Bitmap Pmm.

Definition HEAP_SLAB_PAGES := 4.
Definition HEAP_LGSLAB_PAGES := 10.
Definition HEAP_BASE := VIRT_BASE + 1 * 1024 * 4096.
Definition HEAP_SIZE := 2 * 1024 * 4096.
(** [sizeof(heap_slab_freelist_t)] *)
Definition FREELIST_SIZE := 4.

Record heap_slab := HeapSlab {
  sl_start : Z;
  sl_first : Z;
  sl_object_size : Z;
  sl_inuse : Z;
  sl_large : bool
}.

Record heap := Heap {
  kheap_bitmap : bitmap;
  heap_cache : list heap_slab;
  heap_mem : gmap Z Z;
  imalloc_ptr : Z
}.
Definition heap_cache_size (h : heap) : Z := zlen (heap_cache h).

Definition kimalloc (h : heap) (count : Z) : heap * Z :=
  (Heap (kheap_bitmap h) (heap_cache h) (heap_mem h) (u32 (imalloc_ptr h + count)), imalloc_ptr h).

Definition slab_pages (large : bool) : Z := if negb large then HEAP_SLAB_PAGES else HEAP_LGSLAB_PAGES.
Definition slab_has_addr (slab : heap_slab) (addr : Z) : bool :=
  (sl_start slab <=? addr) && (addr <? u32 (sl_start slab + slab_pages (sl_large slab) * 4096)).

(** The loop that threads the free list from [current], objects [i] to
    [count - 1]; the last one gets NULL. *)
Fixpoint init_freelist (n : nat) (start size current i : Z) (mem : gmap Z Z) : gmap Z Z :=
  match n with
  | O => <[current := 0]> mem
  | S n => let next := u32 (start + i * size) in
           init_freelist n start size next (i + 1) (<[current := next]> mem)
  end.

(** The result is the index of the new slab, [None] for NULL. *)
Definition kheap_cache_grow (h : heap) (size : Z) (large : bool) : heap * option Z :=
  if heap_cache_size h =? 256 then (h, None) else
  let slab_size := slab_pages large in
  let '(bm, page) := bitmap_scan_flip (kheap_bitmap h) 0 slab_size false in
  let h := Heap bm (heap_cache h) (heap_mem h) (imalloc_ptr h) in
  if page <? 0 then (h, None) else
  let start := u32 (HEAP_BASE + Z.shiftl (u16 page) 12) in
  let size := if large then u16 (PG_RND_UP size) else size in
  let slab_size := slab_size * 4096 in
  let mem := init_freelist (Z.to_nat (slab_size / size - 1)) start size start 1 (heap_mem h) in
  (Heap bm (heap_cache h ++ [HeapSlab start start size 0 large]) mem (imalloc_ptr h),
   Some (heap_cache_size h)).

(** [heap_cache_size--; if (i != heap_cache_size) heap_cache[i] =
    heap_cache[heap_cache_size];] *)
Definition swap_remove {A} (d : A) (l : list A) (i : Z) : list A :=
  let n := zlen l - 1 in
  let l' := if negb (i =? n) then set l i (get d l n) else l in
  take (Z.to_nat n) l'.
Definition no_slab : heap_slab := HeapSlab 0 0 0 0 false.

Definition kheap_cache_shrink (h : heap) (i : Z) : heap :=
  match heap_cache h !! Z.to_nat i with
  | None => h
  | Some slab =>
      Heap (bitmap_setmulti (kheap_bitmap h) false (u32 (sl_start slab - HEAP_BASE) / 4096)
              (slab_pages (sl_large slab)))
        (swap_remove no_slab (heap_cache h) i) (heap_mem h) (imalloc_ptr h)
  end.

(** The search of [kmalloc]: the first slab with a free object whose size
    fits best; [break] at an exact fit. *)
Fixpoint kmalloc_search (cache : list heap_slab) (size i fit fit_idx : Z) : Z * Z :=
  match cache with
  | [] => (fit, fit_idx)
  | slab :: rest =>
      if (sl_first slab =? 0) || (sl_object_size slab <? size)
      then kmalloc_search rest size (i + 1) fit fit_idx
      else if (fit =? 0) || (sl_object_size slab <? fit) then
        if sl_object_size slab =? size then (sl_object_size slab, i)
        else kmalloc_search rest size (i + 1) (sl_object_size slab) i
      else kmalloc_search rest size (i + 1) fit fit_idx
  end.

Definition with_first (a : Z) (s : heap_slab) := HeapSlab (sl_start s) a (sl_object_size s) (sl_inuse s) (sl_large s).
Definition with_inuse (n : Z) (s : heap_slab) := HeapSlab (sl_start s) (sl_first s) (sl_object_size s) (u16 n) (sl_large s).
Definition with_slab (h : heap) (i : Z) (s : heap_slab) : heap :=
  Heap (kheap_bitmap h) (set (heap_cache h) i s) (heap_mem h) (imalloc_ptr h).
Definition with_mem (h : heap) (m : gmap Z Z) : heap :=
  Heap (kheap_bitmap h) (heap_cache h) m (imalloc_ptr h).

(** [slab->inuse++; ret = slab->first; slab->first = slab->first->next] *)
Definition slab_take (h : heap) (idx : Z) : option (heap * Z) :=
  slab ← heap_cache h !! Z.to_nat idx;
  let slab := with_inuse (sl_inuse slab + 1) slab in
  let ret := sl_first slab in
  next ← heap_mem h !! sl_first slab;
  Some (with_slab h idx (with_first next slab), ret).

(** [size] is an [int]; the comparison with the [sizeof] is unsigned.  The
    address 0 is NULL. *)
Definition kmalloc (h : heap) (size : Z) : option (heap * Z) :=
  if (size =? 0) || (HEAP_LGSLAB_PAGES * PAGE_SIZE <? size) then Some (h, 0) else
  let size := if u32 size <? FREELIST_SIZE then FREELIST_SIZE else size in
  let '(fit, fit_idx) := kmalloc_search (heap_cache h) size 0 0 (-1) in
  let '(h, slab) := if negb (fit =? 0) then (h, Some fit_idx)
                    else kheap_cache_grow h (u16 size) (1024 <=? size) in
  match slab with
  | None => Some (h, 0)
  | Some idx => slab_take h idx
  end.

(** What [kfree] does to the slab it found. *)
Definition slab_give (h : heap) (i : Z) (slab : heap_slab) (addr : Z) : heap :=
  let slab := with_inuse (sl_inuse slab - 1) slab in
  let h := with_slab h i slab in
  if sl_first slab =? 0 then
    with_mem (with_slab h i (with_first addr slab)) (<[addr := 0]> (heap_mem h))
  else if sl_inuse slab =? 0 then kheap_cache_shrink h i
  else with_mem (with_slab h i (with_first addr slab)) (<[addr := sl_first slab]> (heap_mem h)).

Fixpoint kfree_loop (h : heap) (cache : list heap_slab) (i addr size : Z) : heap :=
  match cache with
  | [] => h
  | slab :: rest =>
      if (size <=? sl_object_size slab) && slab_has_addr slab addr
      then slab_give h i slab addr
      else kfree_loop h rest (i + 1) addr size
  end.
Definition kfree (h : heap) (addr size : Z) : heap :=
  if size =? 0 then h else
  let size := if size <? FREELIST_SIZE then FREELIST_SIZE else size in
  kfree_loop h (heap_cache h) 0 addr size.

(** [kheap_init]; [fresh] is the memory of the bitmap. Also the physical
    frames from [ADDR_TO_PHYS(HEAP_BASE)] are marked. *)
Fixpoint mark_loop (n : nat) (bm : bitmap) (ptr limit : Z) : bitmap :=
  match n with
  | O => bm
  | S n => if ptr <? limit then mark_loop n (bitmap_mark bm (Z.shiftr ptr 12)) (u32 (ptr + 4096)) limit
           else bm
  end.
Definition kheap_init (h : heap) (pmm : bitmap) (fresh : list Z) : heap * bitmap :=
  let total_page_count := ceil_div HEAP_SIZE PAGE_SIZE in
  let '(h, _) := kimalloc h (1 * total_page_count) in
  let bm := bitmap_init (Bitmap fresh total_page_count) in
  let pmm := pmm_set pmm (ADDR_TO_PHYS HEAP_BASE) total_page_count false in
  let bm := mark_loop (Z.to_nat ((imalloc_ptr h - HEAP_BASE) / 4096 + 1)) bm HEAP_BASE (imalloc_ptr h) in
  let h := Heap bm (heap_cache h) (heap_mem h) (imalloc_ptr h) in
  let '(h, _) := kheap_cache_grow h 8 false in
  let '(h, slab) := kheap_cache_grow h 16 true in
  let '(h, _) := kheap_cache_grow h 32 true in
  let h := match slab with Some i => kheap_cache_shrink h i | None => h end in
  let '(h, _) := kheap_cache_grow h 16 true in
  (h, pmm).

(** ** Slabs and their free lists *)
Definition slab_bytes (sl : heap_slab) : Z := slab_pages (sl_large sl) * 4096.
Definition slab_count (sl : heap_slab) : Z := slab_bytes sl / sl_object_size sl.
Definition objs (sl : heap_slab) : list Z :=
  (fun k => sl_start sl + k * sl_object_size sl) <$> seqZ 0 (slab_count sl).

Fixpoint free_chain (mem : gmap Z Z) (a : Z) (l : list Z) : Prop :=
  match l with
  | [] => a = 0
  | x :: l => a = x /\ x <> 0 /\ exists next, mem !! x = Some next /\ free_chain mem next l
  end.

Definition slab_ok (sl : heap_slab) : Prop :=
  (exists p, sl_start sl = HEAP_BASE + 4096 * p /\ 0 <= p /\ p + slab_pages (sl_large sl) <= 2048)
  /\ FREELIST_SIZE <= sl_object_size sl <= slab_bytes sl.
Definition slab_rep (mem : gmap Z Z) (sl : heap_slab) (F : list Z) : Prop :=
  slab_ok sl /\ free_chain mem (sl_first sl) F /\ NoDup F /\ F ⊆ objs sl
  /\ sl_inuse sl = slab_count sl - zlen F.

Lemma slab_pages_cases large : slab_pages large = 4 \/ slab_pages large = 10.
Proof. destruct large; [by right|by left]. Qed.

Lemma slab_count_bound sl : slab_ok sl -> 1 <= slab_count sl <= 10240.
Proof.
  intros [_ [Hlo Hhi]]. unfold slab_count, FREELIST_SIZE in *.
  assert (slab_bytes sl <= 40960) by (unfold slab_bytes; destruct (slab_pages_cases (sl_large sl)); lia).
  split; [apply Z.div_le_lower_bound; lia|].
  transitivity (slab_bytes sl / 4); [apply Z.div_le_compat_l; lia|]. apply Z.div_le_upper_bound; lia.
Qed.

Lemma elem_of_objs sl p :
  p ∈ objs sl <-> exists k, p = sl_start sl + k * sl_object_size sl /\ 0 <= k < slab_count sl.
Proof. unfold objs. rewrite list_elem_of_fmap. by setoid_rewrite elem_of_seqZ. Qed.

Lemma objs_range sl p :
  slab_ok sl -> p ∈ objs sl ->
  sl_start sl <= p /\ p + sl_object_size sl <= sl_start sl + slab_bytes sl.
Proof.
  intros [_ [Hlo Hhi]] (k&->&Hk)%elem_of_objs. unfold FREELIST_SIZE, slab_count in *.
  assert (sl_object_size sl * (slab_bytes sl / sl_object_size sl) <= slab_bytes sl)
    by (apply Z.mul_div_le; lia). nia.
Qed.

Lemma objs_NoDup sl : slab_ok sl -> NoDup (objs sl).
Proof.
  intros [_ [Hlo _]]. unfold objs, FREELIST_SIZE in *. apply NoDup_fmap_2; [|apply NoDup_seqZ].
  intros a b ?. nia.
Qed.
Lemma objs_length sl : slab_ok sl -> zlen (objs sl) = slab_count sl.
Proof.
  intros H. pose proof (slab_count_bound sl H). unfold objs, zlen.
  rewrite length_fmap, length_seqZ. lia.
Qed.

Lemma has_addr_range sl p :
  slab_ok sl -> slab_has_addr sl p = true <-> sl_start sl <= p < sl_start sl + slab_bytes sl.
Proof.
  intros [(q&Hq&H0&H1) _]. unfold slab_has_addr. fold (slab_bytes sl).
  assert (slab_bytes sl <= 40960) by (unfold slab_bytes; destruct (slab_pages_cases (sl_large sl)); lia).
  assert (0 <= slab_bytes sl) by (unfold slab_bytes; destruct (slab_pages_cases (sl_large sl)); lia).
  pose proof (slab_pages_cases (sl_large sl)).
  unfold HEAP_BASE, VIRT_BASE in *. rewrite u32_id by lia. rewrite andb_true_iff. lia.
Qed.

Lemma free_chain_frame mem mem' a l :
  (forall x, x ∈ l -> mem' !! x = mem !! x) -> free_chain mem a l -> free_chain mem' a l.
Proof.
  revert a. induction l as [|x l IH]; intros a Hm; simpl; [done|].
  intros (->&Hx&next&Hn&Hc). split_and!; [done|done|]. exists next.
  rewrite Hm by set_solver. split; [done|]. apply IH; [set_solver|done].
Qed.

Lemma slab_rep_frame mem mem' sl F :
  (forall x, x ∈ F -> mem' !! x = mem !! x) -> slab_rep mem sl F -> slab_rep mem' sl F.
Proof. intros Hm (?&?&?&?&?). split_and!; try done. by apply (free_chain_frame mem). Qed.

(** The free list that [kheap_cache_grow] threads. *)
Lemma init_freelist_spec n start size i mem :
  0 < size -> 1 <= i -> 0 < start -> start + (i + Z.of_nat n) * size < 2 ^ 32 ->
  let l := (fun k => start + k * size) <$> seqZ (i - 1) (Z.of_nat n + 1) in
  let mem' := init_freelist n start size (start + (i - 1) * size) i mem in
  free_chain mem' (start + (i - 1) * size) l /\ forall x, x ∉ l -> mem' !! x = mem !! x.
Proof.
  revert i mem. induction n as [|n IH]; intros i mem Hs Hi Hst Hb; simpl init_freelist; cbv zeta.
  - rewrite (seqZ_cons (i - 1)) by lia. simpl seqZ. split.
    + simpl. split_and!; [done|nia|]. exists 0. by rewrite lookup_insert_eq.
    + intros x Hx. rewrite lookup_insert_ne; [done|]. set_solver.
  - rewrite (seqZ_cons (i - 1)) by lia.
    replace (Z.pred (Z.of_nat (S n) + 1)) with (Z.of_nat n + 1) by lia.
    replace (Z.succ (i - 1)) with (i + 1 - 1) by lia.
    rewrite u32_id by nia. replace (start + i * size) with (start + (i + 1 - 1) * size) by (f_equal; lia).
    destruct (IH (i + 1) (<[start + (i - 1) * size := start + (i + 1 - 1) * size]> mem)) as [Hc Hf];
      [lia|lia|lia|nia|].
    set (l := _ <$> seqZ (i + 1 - 1) _) in *. rewrite fmap_cons.
    assert (Hn : start + (i - 1) * size ∉ l).
    { intros (k&Hk&Hr)%list_elem_of_fmap. apply elem_of_seqZ in Hr. nia. }
    split.
    + simpl. split_and!; [done|nia|]. eexists. rewrite Hf by done. rewrite lookup_insert_eq.
      split; [done|]. exact Hc.
    + intros x Hx. rewrite Hf by set_solver. rewrite lookup_insert_ne; [done|]. set_solver.
Qed.

(** ** The heap invariant

    [Fs] lists the free objects of each slab. *)
Definition page_of (sl : heap_slab) : Z := (sl_start sl - HEAP_BASE) / 4096.
Definition in_pages (sl : heap_slab) (k : Z) : Prop :=
  page_of sl <= k < page_of sl + slab_pages (sl_large sl).

#[export] Instance in_pages_dec sl k : Decision (in_pages sl k).
Proof. unfold in_pages. apply _. Defined.

Definition pages_disjoint (cache : list heap_slab) : Prop :=
  forall i j s1 s2 k, cache !! i = Some s1 -> cache !! j = Some s2 -> in_pages s1 k -> in_pages s2 k ->
  i = j.
Definition pages_marked (bm : bitmap) (cache : list heap_slab) : Prop :=
  forall i sl k, cache !! i = Some sl -> in_pages sl k -> bitmap_test bm k = true.

Record heap_rep (h : heap) (Fs : list (list Z)) : Prop := HeapRep {
  hr_bm : bm_wf (kheap_bitmap h);
  hr_size : bm_size (kheap_bitmap h) = 2048;
  hr_len : zlen (heap_cache h) <= 256;
  hr_slabs : Forall2 (slab_rep (heap_mem h)) (heap_cache h) Fs;
  hr_disjoint : pages_disjoint (heap_cache h);
  hr_marked : pages_marked (kheap_bitmap h) (heap_cache h)
}.

(** An object handed out and not yet freed. *)
Definition in_use (h : heap) (Fs : list (list Z)) (p : Z) : Prop :=
  exists i sl F, heap_cache h !! i = Some sl /\ Fs !! i = Some F /\ p ∈ objs sl /\ p ∉ F.

Lemma page_of_start sl :
  slab_ok sl -> sl_start sl = HEAP_BASE + 4096 * page_of sl
                /\ 0 <= page_of sl /\ page_of sl + slab_pages (sl_large sl) <= 2048.
Proof.
  intros [(p&Hp&H0&H1) _].
  assert (page_of sl = p) as ->; [|done].
  unfold page_of. rewrite Hp. replace (_ - HEAP_BASE) with (p * 4096) by lia. apply Z.div_mul. lia.
Qed.

(** Byte ranges of different slabs do not meet. *)
Lemma slabs_disjoint cache i j s1 s2 x :
  pages_disjoint cache -> cache !! i = Some s1 -> cache !! j = Some s2 ->
  slab_ok s1 -> slab_ok s2 ->
  sl_start s1 <= x < sl_start s1 + slab_bytes s1 -> sl_start s2 <= x < sl_start s2 + slab_bytes s2 ->
  i = j.
Proof.
  intros Hd H1 H2 Hok1 Hok2 Hx1 Hx2.
  destruct (page_of_start s1 Hok1) as (E1&?&?), (page_of_start s2 Hok2) as (E2&?&?).
  set (k := (x - HEAP_BASE) / 4096).
  pose proof (Z.div_mod (x - HEAP_BASE) 4096 ltac:(lia)) as Hdm. fold k in Hdm.
  pose proof (Z.mod_pos_bound (x - HEAP_BASE) 4096 ltac:(lia)).
  unfold slab_bytes in *. apply (Hd i j s1 s2 k); try done; unfold in_pages; lia.
Qed.

Lemma hr_lookup h Fs i sl F :
  heap_rep h Fs -> heap_cache h !! i = Some sl -> Fs !! i = Some F -> slab_rep (heap_mem h) sl F.
Proof. intros H H1 H2. exact (Forall2_lookup_lr _ _ _ _ _ _ (hr_slabs _ _ H) H1 H2). Qed.
Lemma hr_free h Fs i sl :
  heap_rep h Fs -> heap_cache h !! i = Some sl -> exists F, Fs !! i = Some F.
Proof.
  intros H H1. destruct (Forall2_lookup_l _ _ _ _ _ (hr_slabs _ _ H) H1) as (F&?&_). by exists F.
Qed.

Lemma hr_same_slab h Fs i j s1 s2 p :
  heap_rep h Fs -> heap_cache h !! i = Some s1 -> heap_cache h !! j = Some s2 ->
  p ∈ objs s1 -> p ∈ objs s2 -> i = j.
Proof.
  intros H H1 H2 Hp1 Hp2.
  destruct (hr_free _ _ _ _ H H1) as [F1 HF1], (hr_free _ _ _ _ H H2) as [F2 HF2].
  destruct (hr_lookup _ _ _ _ _ H H1 HF1) as [Hok1 _], (hr_lookup _ _ _ _ _ H H2 HF2) as [Hok2 _].
  pose proof (objs_range _ _ Hok1 Hp1). pose proof (objs_range _ _ Hok2 Hp2).
  pose proof (proj2 Hok1) as [? _]. pose proof (proj2 Hok2) as [? _]. unfold FREELIST_SIZE in *.
  eapply (slabs_disjoint _ i j s1 s2 p (hr_disjoint _ _ H)); try done; lia.
Qed.

(** Updating one slab and the words of its objects keeps the invariant. *)
Lemma heap_rep_update h Fs i sl F sl' F' mem' :
  heap_rep h Fs -> heap_cache h !! i = Some sl -> Fs !! i = Some F ->
  sl_start sl' = sl_start sl -> sl_large sl' = sl_large sl -> sl_object_size sl' = sl_object_size sl ->
  (forall x, x ∉ objs sl -> mem' !! x = heap_mem h !! x) ->
  slab_rep mem' sl' F' ->
  heap_rep (with_mem (with_slab h (Z.of_nat i) sl') mem') (<[i := F']> Fs).
Proof.
  intros H Hsl HF Hst Hlg Hosz Hmem Hrep.
  pose proof (lookup_lt_Some _ _ _ Hsl) as Hlt.
  assert (Hset : set (heap_cache h) (Z.of_nat i) sl' = <[i := sl']> (heap_cache h)).
  { apply set_nat. }
  assert (Hpages : forall k, in_pages sl' k <-> in_pages sl k).
  { intros k. unfold in_pages, page_of. by rewrite Hst, Hlg. }
  assert (Hback : forall j s, <[i := sl']> (heap_cache h) !! j = Some s ->
     exists s0, heap_cache h !! j = Some s0 /\ forall k, in_pages s k <-> in_pages s0 k).
  { intros j s Hj. destruct (decide (i = j)) as [<-|Hne].
    - rewrite list_lookup_insert_eq in Hj by done. injection Hj as <-. by exists sl.
    - rewrite list_lookup_insert_ne in Hj by done. by exists s. }
  constructor; simpl; rewrite ?Hset.
  - apply (hr_bm _ _ H).
  - apply (hr_size _ _ H).
  - unfold zlen. rewrite length_insert. apply (hr_len _ _ H).
  - apply Forall2_same_length_lookup. split.
    { rewrite !length_insert. apply (Forall2_length _ _ _ (hr_slabs _ _ H)). }
    intros j s G Hj HG. destruct (decide (i = j)) as [<-|Hne].
    + rewrite list_lookup_insert_eq in Hj by done.
      rewrite list_lookup_insert_eq in HG by (rewrite <- (Forall2_length _ _ _ (hr_slabs _ _ H)); done).
      by simplify_eq.
    + rewrite list_lookup_insert_ne in Hj by done. rewrite list_lookup_insert_ne in HG by done.
      pose proof (hr_lookup _ _ _ _ _ H Hj HG) as Hr. apply (slab_rep_frame (heap_mem h)); [|done].
      intros x Hx. apply Hmem. intros Hx'. apply Hne.
      destruct Hr as (_&_&_&Hsub&_). apply (hr_same_slab h Fs i j sl s x H); auto.
  - intros a b s1 s2 k Ha Hb Hk1 Hk2.
    destruct (Hback _ _ Ha) as (t1&Ht1&E1), (Hback _ _ Hb) as (t2&Ht2&E2).
    apply (hr_disjoint _ _ H a b t1 t2 k); [done|done|by apply E1|by apply E2].
  - intros a s1 k Ha Hk. destruct (Hback _ _ Ha) as (t1&Ht1&E1).
    apply (hr_marked _ _ H a t1); [done|by apply E1].
Qed.

Lemma get_lookup_nat {A} (l : list A) (i : nat) : l !! Z.to_nat (Z.of_nat i) = l !! i.
Proof. by rewrite Nat2Z.id. Qed.

Lemma slab_free_le sl F : slab_ok sl -> NoDup F -> F ⊆ objs sl -> zlen F <= slab_count sl.
Proof.
  intros Hok Hnd Hsub. rewrite <- objs_length by done. unfold zlen.
  apply Nat2Z.inj_le, submseteq_length, NoDup_submseteq; done.
Qed.

(** Taking the first free object of a slab. *)
Lemma slab_take_spec h Fs i sl F :
  heap_rep h Fs -> heap_cache h !! i = Some sl -> Fs !! i = Some F -> sl_first sl <> 0 ->
  exists h' F' sl', slab_take h (Z.of_nat i) = Some (h', sl_first sl)
    /\ F = sl_first sl :: F' /\ heap_rep h' (<[i := F']> Fs)
    /\ heap_cache h' = <[i := sl']> (heap_cache h) /\ objs sl' = objs sl
    /\ sl_object_size sl' = sl_object_size sl /\ kheap_bitmap h' = kheap_bitmap h.
Proof.
  intros H Hsl HF Hnz. pose proof (hr_lookup _ _ _ _ _ H Hsl HF) as (Hok&Hc&Hnd&Hsub&Hin).
  destruct F as [|x F']; [done|]. simpl in Hc. destruct Hc as (Hx&_&next&Hnext&Hc).
  pose proof (slab_count_bound sl Hok). rewrite zlen_cons in Hin.
  unfold slab_take. rewrite get_lookup_nat, Hsl. cbn [mbind option_bind].
  change (sl_first (with_inuse (sl_inuse sl + 1) sl)) with (sl_first sl).
  subst x. rewrite Hnext. cbn [mbind option_bind].
  set (sl' := with_first next (with_inuse (sl_inuse sl + 1) sl)).
  assert (Hrep : slab_rep (heap_mem h) sl' F').
  { pose proof (slab_free_le _ _ Hok Hnd Hsub) as Hle. apply NoDup_cons in Hnd as [_ Hnd].
    rewrite zlen_cons in Hle. pose proof (zlen_nonneg F').
    split_and!; [done|done|done|set_solver|].
    simpl. change (slab_count sl') with (slab_count sl). unfold u16. rewrite Z.mod_small; lia. }
  pose proof (heap_rep_update h Fs i sl _ sl' F' (heap_mem h) H Hsl HF eq_refl eq_refl eq_refl
                (fun _ _ => eq_refl) Hrep) as Hh.
  eexists (with_slab h (Z.of_nat i) sl'), F', sl'. split_and!; try done.
  apply set_nat.
Qed.

(** What the caller sees when one slab's free list changes. *)
Lemma in_use_update h h' Fs i sl sl' F F' p :
  heap_rep h Fs -> heap_cache h !! i = Some sl -> Fs !! i = Some F ->
  heap_cache h' = <[i := sl']> (heap_cache h) -> objs sl' = objs sl -> p ∈ objs sl ->
  (p :: F' ≡ₚ F -> ~ in_use h Fs p /\ forall q, in_use h' (<[i := F']> Fs) q <-> in_use h Fs q \/ q = p)
  /\ (F' ≡ₚ p :: F -> p ∉ F -> in_use h Fs p
        /\ forall q, in_use h' (<[i := F']> Fs) q <-> in_use h Fs q /\ q <> p).
Proof.
  intros H Hsl HF Hc Ho Hp. pose proof (lookup_lt_Some _ _ _ Hsl) as Hlt.
  pose proof (lookup_lt_Some _ _ _ HF) as HltF.
  pose proof (hr_lookup _ _ _ _ _ H Hsl HF) as (_&_&Hnd&_&_).
  assert (Hnew : forall q, in_use h' (<[i := F']> Fs) q
     <-> (q ∈ objs sl /\ q ∉ F') \/ (exists j s G, j <> i /\ heap_cache h !! j = Some s
           /\ Fs !! j = Some G /\ q ∈ objs s /\ q ∉ G)).
  { intros q. unfold in_use. rewrite Hc. split.
    - intros (j&s&G&Hj&HG&Hq&Hn). destruct (decide (i = j)) as [<-|Hne].
      + rewrite list_lookup_insert_eq in Hj by done. rewrite list_lookup_insert_eq in HG by done.
        simplify_eq. left. by rewrite <- Ho.
      + rewrite list_lookup_insert_ne in Hj by done. rewrite list_lookup_insert_ne in HG by done.
        right. exists j, s, G. done.
    - intros [[Hq Hn]|(j&s&G&Hne&Hj&HG&Hq&Hn)].
      + exists i, sl', F'. rewrite !list_lookup_insert_eq by done. rewrite Ho. done.
      + exists j, s, G. rewrite !list_lookup_insert_ne by done. done. }
  assert (Hold : forall q, in_use h Fs q
     <-> (q ∈ objs sl /\ q ∉ F) \/ (exists j s G, j <> i /\ heap_cache h !! j = Some s
           /\ Fs !! j = Some G /\ q ∈ objs s /\ q ∉ G)).
  { intros q. unfold in_use. split.
    - intros (j&s&G&Hj&HG&Hq&Hn). destruct (decide (i = j)) as [<-|Hne].
      + simplify_eq. by left.
      + right. exists j, s, G. done.
    - intros [[Hq Hn]|(j&s&G&Hne&Hj&HG&Hq&Hn)]; [by exists i, sl, F|by exists j, s, G]. }
  assert (Hout : forall j s G, j <> i -> heap_cache h !! j = Some s -> Fs !! j = Some G -> p ∈ objs s -> False).
  { intros j s G Hne Hj HG Hps. apply Hne. by apply (hr_same_slab h Fs j i s sl p). }
  split.
  - intros HP. assert (HpF : p ∈ F) by (rewrite <- HP; set_solver).
    assert (HpF' : p ∉ F') by (rewrite <- HP in Hnd; by apply NoDup_cons in Hnd as [? _]).
    assert (HF' : forall q, q ∈ F <-> q = p \/ q ∈ F') by (intros q; rewrite <- HP; set_solver).
    split.
    + rewrite Hold. intros [[_ ?]|(j&s&G&Hne&Hj&HG&Hq&_)]; [done|eauto].
    + intros q. rewrite Hnew, Hold. specialize (HF' q).
      destruct (decide (q = p)) as [->|Hqp]; [|naive_solver].
      split; [by right|]. intros _. by left.
  - intros HP Hpn. assert (HF' : forall q, q ∈ F' <-> q = p \/ q ∈ F) by (intros q; rewrite HP; set_solver).
    split.
    + rewrite Hold. by left.
    + intros q. rewrite Hnew, Hold. specialize (HF' q).
      destruct (decide (q = p)) as [->|Hqp].
      * split; [|naive_solver]. intros [[_ Hq]|(j&s&G&Hne&Hj&HG&Hq&_)]; [naive_solver|].
        exfalso. eauto.
      * naive_solver.
Qed.

(** The best-fit search finds a slab with a free object that is big enough,
    or nothing only when no slab has one. *)
Definition fits (size : Z) (sl : heap_slab) : Prop := sl_first sl <> 0 /\ size <= sl_object_size sl.

Lemma kmalloc_search_spec all pre cache size fit idx :
  0 < size -> all = pre ++ cache ->
  (fit = 0 /\ (forall sl, sl ∈ pre -> ~ fits size sl)
   \/ exists n sl, idx = Z.of_nat n /\ all !! n = Some sl /\ fits size sl /\ fit = sl_object_size sl) ->
  let '(fit', idx') := kmalloc_search cache size (zlen pre) fit idx in
  fit' = 0 /\ (forall sl, sl ∈ all -> ~ fits size sl)
  \/ exists n sl, idx' = Z.of_nat n /\ all !! n = Some sl /\ fits size sl /\ fit' = sl_object_size sl.
Proof.
  intros Hs. revert pre fit idx. induction cache as [|sl rest IH]; intros pre fit idx Hall Hinv; simpl.
  { rewrite app_nil_r in Hall. subst pre. done. }
  assert (Hlook : all !! length pre = Some sl) by (rewrite Hall; by apply list_lookup_middle).
  assert (Hnext : all = (pre ++ [sl]) ++ rest) by (by rewrite <- app_assoc).
  assert (Hz : zlen pre + 1 = zlen (pre ++ [sl])) by (rewrite zlen_app; done).
  destruct (_ || _) eqn:E1.
  - rewrite Hz. apply IH; [done|]. destruct Hinv as [[-> Hno]|Hyes]; [left|by right].
    split; [done|]. intros s Hin. apply elem_of_app in Hin as [Hin|Hin]; [by apply Hno|].
    apply list_elem_of_singleton in Hin as ->.
    intros [Hf Hos]. apply orb_true_iff in E1. lia.
  - apply orb_false_iff in E1 as [Ef Eo].
    assert (Hfit : fits size sl) by (split; lia).
    destruct ((fit =? 0) || _) eqn:E2.
    + destruct (_ =? size) eqn:E3.
      * right. exists (length pre), sl. split_and!; try done. 
      * rewrite Hz. apply IH; [done|]. right. exists (length pre), sl. done.
    + rewrite Hz. apply IH; [done|]. right. destruct Hinv as [[-> _]|Hyes]; [done|done].
Qed.

(** Adding a slab on fresh pages. *)
Lemma heap_rep_snoc h Fs bm mem sl F :
  heap_rep h Fs -> bm_wf bm -> bm_size bm = 2048 -> zlen (heap_cache h) <> 256 ->
  (forall x, x ∉ objs sl -> mem !! x = heap_mem h !! x) -> slab_rep mem sl F ->
  (forall i s k, heap_cache h !! i = Some s -> in_pages s k -> ~ in_pages sl k) ->
  (forall i s k, heap_cache h !! i = Some s -> in_pages s k -> bitmap_test bm k = true) ->
  (forall k, in_pages sl k -> bitmap_test bm k = true) ->
  heap_rep (Heap bm (heap_cache h ++ [sl]) mem (imalloc_ptr h)) (Fs ++ [F]).
Proof.
  intros H Hbm Hsz Hlen Hmem Hrep Hdis Hmark Hnew.
  assert (Hcase : forall j s, (heap_cache h ++ [sl]) !! j = Some s ->
     heap_cache h !! j = Some s \/ s = sl /\ j = length (heap_cache h)).
  { intros j s Hj. apply lookup_app_Some in Hj as [Hj|[Hge Hj]]; [by left|right].
    apply list_lookup_singleton_Some in Hj as [? ->]. split; [done|lia]. }
  constructor; simpl.
  - done.
  - done.
  - pose proof (hr_len _ _ H). rewrite zlen_app. unfold zlen in *. simpl. lia.
  - apply Forall2_app; [|by constructor]. pose proof (hr_slabs _ _ H) as Hs.
    apply Forall2_same_length_lookup. split; [by eapply Forall2_length|].
    intros i s G Hi HG. apply (slab_rep_frame (heap_mem h)); [|by apply (hr_lookup h Fs i)].
    intros x Hx. apply Hmem. intros Hx'.
    destruct (hr_lookup _ _ _ _ _ H Hi HG) as (Hok&_&_&Hsub&_). pose proof (proj1 Hrep) as Hok'.
    pose proof (objs_range _ _ Hok (Hsub _ Hx)). pose proof (objs_range _ _ Hok' Hx').
    destruct (page_of_start s Hok) as (E1&?&?), (page_of_start sl Hok') as (E2&?&?).
    pose proof (proj2 Hok) as [? _]. pose proof (proj2 Hok') as [? _]. unfold FREELIST_SIZE, slab_bytes in *.
    set (k := (x - HEAP_BASE) / 4096).
    pose proof (Z.div_mod (x - HEAP_BASE) 4096 ltac:(lia)) as Hdm. fold k in Hdm.
    pose proof (Z.mod_pos_bound (x - HEAP_BASE) 4096 ltac:(lia)).
    apply (Hdis i s k Hi); unfold in_pages; lia.
  - intros i j s1 s2 k Hi Hj H1 H2.
    destruct (Hcase _ _ Hi) as [Hi'|[-> ->]], (Hcase _ _ Hj) as [Hj'|[-> ->]]; try done.
    + by apply (hr_disjoint _ _ H i j s1 s2 k).
    + by destruct (Hdis _ _ _ Hi' H1).
    + by destruct (Hdis _ _ _ Hj' H2).
  - intros i s k Hi Hk. destruct (Hcase _ _ Hi) as [Hi'|[-> _]]; [by apply (Hmark i s)|by apply Hnew].
Qed.

(** A new slab: all its objects are free. *)
Lemma grow_spec h Fs size (large : bool) h' idx :
  heap_rep h Fs -> FREELIST_SIZE <= size ->
  size <= (if large then 40960 else 16384) ->
  kheap_cache_grow h size large = (h', Some idx) ->
  exists sl, idx = zlen (heap_cache h) /\ heap_cache h' = heap_cache h ++ [sl]
    /\ size <= sl_object_size sl /\ sl_first sl <> 0
    /\ heap_rep h' (Fs ++ [objs sl]).
Proof.
  intros H Hlo Hhi. unfold kheap_cache_grow, heap_cache_size. unfold FREELIST_SIZE in Hlo.
  destruct (zlen (heap_cache h) =? 256) eqn:E256; [done|].
  destruct (scan_flip_spec (kheap_bitmap h) (slab_pages large) false (hr_bm _ _ H)
    ltac:(rewrite (hr_size _ _ H); lia) ltac:(destruct (slab_pages_cases large); lia))
    as (bm&page&Hrun&_&Hbwf&Hbsz&Hcase). rewrite Hrun. rewrite (hr_size _ _ H) in Hbsz, Hcase.
  destruct (page <? 0) eqn:Ep; [done|]. intros [= <- <-].
  destruct Hcase as [(Hp0&Hfit&Hfree&Hbits)|(->&_)]; [|done].
  pose proof (slab_pages_cases large) as Hpg.
  assert (Hstart : u32 (HEAP_BASE + Z.shiftl (u16 page) 12) = HEAP_BASE + 4096 * page).
  { unfold HEAP_BASE, VIRT_BASE. rewrite u16_id, Z.shiftl_mul_pow2 by lia.
    change (2 ^ 12) with 4096. rewrite u32_id; lia. }
  rewrite Hstart. set (start := HEAP_BASE + 4096 * page) in *.
  set (osz := if large then u16 (PG_RND_UP size) else size).
  assert (Hosz : size <= osz <= slab_pages large * 4096).
  { unfold osz. destruct large; [|destruct Hpg as [Hpg|Hpg]; simpl in *; unfold HEAP_SLAB_PAGES; lia].
    unfold PG_RND_UP, ROUND_UP, PAGE_SIZE. change (slab_pages true) with 10.
    pose proof (Z.div_mod (size + 4096 - 1) 4096 ltac:(lia)) as Hd.
    pose proof (Z.mod_pos_bound (size + 4096 - 1) 4096 ltac:(lia)).
    rewrite (u32_id (size + 4096 - 1)) by lia. rewrite (u32_id (_ / 4096 * 4096)) by lia.
    rewrite u16_id by lia. split; lia. }
  clearbody osz. set (sl := HeapSlab start start osz 0 large).
  assert (Hok : slab_ok sl).
  { split; [exists page; simpl; split_and!; [done|lia|lia]|]. unfold slab_bytes, FREELIST_SIZE. simpl. lia. }
  pose proof (slab_count_bound sl Hok) as Hcnt.
  destruct (init_freelist_spec (Z.to_nat (slab_count sl - 1)) start osz 1 (heap_mem h)) as [Hch Hfr];
    [lia|lia|unfold start, HEAP_BASE, VIRT_BASE; lia| |].
  { assert (slab_count sl * osz <= slab_bytes sl).
    { unfold slab_count. simpl sl_object_size. rewrite Z.mul_comm. apply Z.mul_div_le. lia. }
    assert (slab_bytes sl <= 40960) by (unfold slab_bytes; simpl; lia).
    replace (1 + Z.of_nat (Z.to_nat (slab_count sl - 1))) with (slab_count sl) by lia.
    unfold start, HEAP_BASE, VIRT_BASE. lia. }
  change (slab_pages large * 4096 / osz) with (slab_count sl).
  simpl in Hch, Hfr. change (1 - 1) with 0 in Hch, Hfr.
  replace (start + 0 * osz) with start in Hch, Hfr by lia.
  assert (Hobj : (fun k => start + k * osz) <$> seqZ 0 (Z.of_nat (Z.to_nat (slab_count sl - 1)) + 1) = objs sl).
  { unfold objs. simpl sl_start. simpl sl_object_size. do 2 f_equal. lia. }
  rewrite Hobj in Hch, Hfr.
  set (mem' := init_freelist _ _ _ _ _ _) in *.
  exists sl. split_and!; [done|done|simpl; lia|simpl; unfold start, HEAP_BASE, VIRT_BASE; lia|].
  assert (Hpage : forall k, in_pages sl k <-> page <= k < page + slab_pages large).
  { intros k. unfold in_pages. destruct (page_of_start sl Hok) as (Hst&_). simpl sl_start in Hst.
    simpl sl_large. unfold start in Hst. replace (page_of sl) with page by lia. done. }
  assert (Hold : forall i s k, heap_cache h !! i = Some s -> in_pages s k -> ~ in_pages sl k).
  { intros i s k Hi Hk Hk'. pose proof (hr_marked _ _ H i s k Hi Hk) as Ht.
    apply Hpage in Hk'. rewrite Hfree in Ht by done. done. }
  apply heap_rep_snoc; try done.
  - lia.
  - split_and!; [done|done|by apply objs_NoDup|done|]. simpl. rewrite objs_length; [lia|done].
  - intros i s k Hi Hk. specialize (Hbits k). rewrite Hbits.
    + pose proof (hr_marked _ _ H i s k Hi Hk) as ->. by destruct (_ && _).
    + destruct (hr_free _ _ _ _ H Hi) as [F HF].
      destruct (page_of_start s (proj1 (hr_lookup _ _ _ _ _ H Hi HF))) as (_&?&_).
      unfold in_pages in Hk. lia.
  - intros k Hk%Hpage. rewrite Hbits by lia.
    destruct (page <=? k) eqn:?, (k <? page + slab_pages large) eqn:?; try lia; done.
Qed.

Lemma kmalloc_correct h Fs size :
  heap_rep h Fs -> 0 < size <= 40960 ->
  exists h' p, kmalloc h size = Some (h', p) /\
  ((p = 0 /\ h = h' /\ zlen (heap_cache h) = 256)
   \/ (p = 0 /\ bitmap_scan (kheap_bitmap h) 0 (slab_pages (1024 <=? size)) false = - EBITMAP)
   \/ exists Fs' i sl, heap_rep h' Fs' /\ heap_cache h' !! i = Some sl
        /\ p ∈ objs sl /\ size <= sl_object_size sl /\ ~ in_use h Fs p
        /\ forall q, in_use h' Fs' q <-> in_use h Fs q \/ q = p).
Proof.
  intros H Hsize. unfold kmalloc, HEAP_LGSLAB_PAGES, PAGE_SIZE.
  destruct (size =? 0) eqn:?; [lia|]. destruct (10 * 4096 <? size) eqn:?; [lia|]. cbn [orb].
  set (sz := if u32 size <? FREELIST_SIZE then FREELIST_SIZE else size).
  assert (Hsz : 4 <= sz <= 40960 /\ size <= sz /\ (1024 <=? sz) = (1024 <=? size)).
  { unfold sz, FREELIST_SIZE. rewrite u32_id by lia. destruct (size <? 4) eqn:?; lia. }
  destruct Hsz as (Hsz&Hle&<-). clearbody sz.
  (* taking from slab [n] of [h1], whose objects in use are those of [h] *)
  assert (Htake : forall h1 Fs1 n sl, heap_rep h1 Fs1 -> heap_cache h1 !! n = Some sl -> fits sz sl ->
    (forall q, in_use h1 Fs1 q <-> in_use h Fs q) ->
    exists h' p, slab_take h1 (Z.of_nat n) = Some (h', p) /\
    exists Fs' i sl, heap_rep h' Fs' /\ heap_cache h' !! i = Some sl
        /\ p ∈ objs sl /\ size <= sl_object_size sl /\ ~ in_use h Fs p
        /\ forall q, in_use h' Fs' q <-> in_use h Fs q \/ q = p).
  { intros h1 Fs1 n sl H1 Hsl [Hf Ho] Heq. destruct (hr_free _ _ _ _ H1 Hsl) as [F HF].
    destruct (slab_take_spec h1 Fs1 n sl F H1 Hsl HF Hf) as (h'&F'&sl'&Hrun&->&Hrep&Hc&Hob&Hos&_).
    pose proof (hr_lookup _ _ _ _ _ H1 Hsl HF) as (_&_&_&Hsub&_).
    destruct (in_use_update h1 h' Fs1 n sl sl' _ F' (sl_first sl) H1 Hsl HF Hc Hob) as [Hu _];
      [set_solver|]. destruct (Hu (reflexivity _)) as [Hnot Hiff].
    exists h', (sl_first sl). split; [done|]. exists (<[n := F']> Fs1), n, sl'.
    split_and!; [done| |rewrite Hob; set_solver|lia|by rewrite <- Heq|intros q; by rewrite Hiff, Heq].
    rewrite Hc. apply list_lookup_insert_eq. by eapply lookup_lt_Some. }
  pose proof (kmalloc_search_spec (heap_cache h) [] (heap_cache h) sz 0 (-1) ltac:(lia) eq_refl) as Hsearch.
  change (zlen (@nil heap_slab)) with 0 in Hsearch.
  destruct (kmalloc_search (heap_cache h) sz 0 0 (-1)) as [fit idx].
  destruct Hsearch as [[-> Hno]|(n&sl&->&Hsl&Hfit&->)].
  { left. split; [done|]. intros s Hs. by apply elem_of_nil in Hs. }
  - cbn [Z.eqb negb]. rewrite u16_id by lia.
    destruct (kheap_cache_grow h sz (1024 <=? sz)) as [h1 [idx1|]] eqn:Hg.
    + destruct (grow_spec h Fs sz (1024 <=? sz) h1 idx1 H) as (sl&->&Hc&Hos&Hnz&Hrep);
        [unfold FREELIST_SIZE; lia|destruct (1024 <=? sz) eqn:?; lia|done|].
      destruct (Htake h1 (Fs ++ [objs sl]) (length (heap_cache h)) sl Hrep) as (h'&p&Hrun&Hres).
      * rewrite Hc. by apply list_lookup_middle.
      * by split.
      * pose proof (Forall2_length _ _ _ (hr_slabs _ _ H)) as Hlen.
        intros q. unfold in_use. rewrite Hc. split.
        -- intros (i&s&F&Hi&HF&Hq&Hn). exists i, s, F.
           apply lookup_app_Some in Hi as [Hi|[Hge Hi]].
           ++ rewrite lookup_app_l in HF by (rewrite <- Hlen; by eapply lookup_lt_Some). done.
           ++ apply list_lookup_singleton_Some in Hi as [Hi ->].
              rewrite lookup_app_r in HF by lia. apply list_lookup_singleton_Some in HF as [_ <-]. done.
        -- intros (i&s&F&Hi&HF&Hq&Hn). exists i, s, F. rewrite !lookup_app, Hi, HF. done.
      * exists h', p. split; [exact Hrun|]. by right; right.
    + exists h1, 0. split; [done|]. unfold kheap_cache_grow, heap_cache_size in Hg.
      destruct (zlen (heap_cache h) =? 256) eqn:?; [left; injection Hg as <-; split_and!; [done|done|lia]|].
      right; left. split; [done|].
      destruct (scan_flip_spec (kheap_bitmap h) (slab_pages (1024 <=? sz)) false (hr_bm _ _ H)
        ltac:(rewrite (hr_size _ _ H); lia) ltac:(destruct (slab_pages_cases (1024 <=? sz)); lia))
        as (bm&page&Hrun&Hpg&_&_&Hcase). rewrite Hrun in Hg. destruct (page <? 0) eqn:?; [|done].
      destruct Hcase as [[? _]|[-> _]]; [lia|]. by rewrite <- Hpg.
  - destruct Hfit as [Hf Ho]. pose proof (hr_free _ _ _ _ H Hsl) as [F HF].
    destruct (hr_lookup _ _ _ _ _ H Hsl HF) as ((_&Hos)&_). unfold FREELIST_SIZE in Hos.
    destruct (sl_object_size sl =? 0) eqn:?; [lia|]. cbn [negb].
    destruct (Htake h Fs n sl H Hsl ltac:(by split) ltac:(done)) as (h'&p&Hrun&Hres).
    exists h', p. split; [exact Hrun|]. by right; right.
Qed.

(** ** Freeing *)
Lemma swap_remove_lookup {A} (d : A) (l : list A) (i j : nat) :
  (i < length l)%nat ->
  swap_remove d l (Z.of_nat i) !! j
  = if decide (j < length l - 1)%nat
    then l !! (if decide (j = i) then (length l - 1)%nat else j) else None.
Proof.
  intros Hi. unfold swap_remove. replace (Z.to_nat (zlen l - 1)) with (length l - 1)%nat by (unfold zlen; lia).
  destruct (decide (j < length l - 1)%nat) as [Hj|Hj]; cycle 1.
  { apply lookup_ge_None. rewrite length_take. lia. }
  rewrite lookup_take_lt by done.
  destruct (Z.eqb_spec (Z.of_nat i) (zlen l - 1)) as [E|E]; cbn [negb].
  - unfold zlen in E. rewrite decide_False by lia. done.
  - rewrite set_nat. destruct (decide (j = i)) as [->|Hne].
    + rewrite list_lookup_insert_eq by done.
      rewrite <- (get_lookup d l (zlen l - 1)) by (unfold zlen in *; lia). f_equal. unfold zlen; lia.
    + by rewrite list_lookup_insert_ne by done.
Qed.

Lemma swap_remove_source {A} (d : A) (l : list A) (i j : nat) x :
  (i < length l)%nat -> swap_remove d l (Z.of_nat i) !! j = Some x ->
  exists k, k <> i /\ l !! k = Some x /\ (j < length l - 1)%nat
            /\ k = if decide (j = i) then (length l - 1)%nat else j.
Proof.
  intros Hi H. rewrite swap_remove_lookup in H by done.
  destruct (decide (j < length l - 1)%nat) as [Hj|]; [|done].
  eexists. split_and!; [|exact H|done|done]. destruct (decide (j = i)); lia.
Qed.

Lemma swap_remove_target {A} (d : A) (l : list A) (i k : nat) x :
  (i < length l)%nat -> k <> i -> l !! k = Some x ->
  exists j, swap_remove d l (Z.of_nat i) !! j = Some x /\ (j < length l - 1)%nat
            /\ k = if decide (j = i) then (length l - 1)%nat else j.
Proof.
  intros Hi Hne Hk. pose proof (lookup_lt_Some _ _ _ Hk).
  destruct (decide (k = length l - 1)%nat) as [E|E].
  - exists i. rewrite swap_remove_lookup by done. rewrite !decide_True by lia. rewrite <- E. split_and!; [done|lia|done].
  - exists k. rewrite swap_remove_lookup by done. rewrite decide_True, decide_False by lia.
    split_and!; [done|lia|done].
Qed.

Lemma swap_remove_length {A} (d : A) (l : list A) (i : nat) :
  (i < length l)%nat -> length (swap_remove d l (Z.of_nat i)) = (length l - 1)%nat.
Proof.
  intros Hi. unfold swap_remove. rewrite length_take.
  destruct (negb _); rewrite ?set_length; unfold zlen; lia.
Qed.

(** From [h] to [h'] the pages of a slab are given back, or no page is. *)
Definition pages_after (h h' : heap) (sl : heap_slab) (released : bool) : Prop :=
  zlen (heap_cache h') = zlen (heap_cache h) - b2z released
  /\ forall k, 0 <= k ->
       bitmap_test (kheap_bitmap h') k
       = if released && bool_decide (in_pages sl k) then false else bitmap_test (kheap_bitmap h) k.

(** [kfree] releases the slab with its last object - unless that is its only
    one: of a slab without a free object the free list is just started. *)
Definition slab_released (sl : heap_slab) (F : list Z) : bool :=
  negb (zlen F =? 0) && (zlen F + 1 =? slab_count sl).

(** Releasing a slab keeps the invariant; only that slab's objects and pages go. *)
Lemma shrink_spec h Fs i sl F :
  heap_rep h Fs -> heap_cache h !! i = Some sl -> Fs !! i = Some F ->
  let h' := kheap_cache_shrink h (Z.of_nat i) in
  let Fs' := swap_remove [] Fs (Z.of_nat i) in
  heap_rep h' Fs' /\ pages_after h h' sl true
  /\ forall q, in_use h' Fs' q <-> exists j s G, j <> i /\ heap_cache h !! j = Some s
                                     /\ Fs !! j = Some G /\ q ∈ objs s /\ q ∉ G.
Proof.
  intros H Hsl HF. pose proof (lookup_lt_Some _ _ _ Hsl) as Hlt.
  pose proof (Forall2_length _ _ _ (hr_slabs _ _ H)) as Hlen.
  destruct (page_of_start sl (proj1 (hr_lookup _ _ _ _ _ H Hsl HF))) as (Hst&Hp0&Hp1).
  pose proof (slab_pages_cases (sl_large sl)) as Hpg.
  assert (Hpage : u32 (sl_start sl - HEAP_BASE) / 4096 = page_of sl).
  { unfold page_of. rewrite u32_id; [done|]. rewrite Hst. lia. }
  simpl. unfold kheap_cache_shrink. rewrite Nat2Z.id, Hsl, Hpage.
  destruct (bitmap_setmulti_test (kheap_bitmap h) false (page_of sl) (slab_pages (sl_large sl))
    (hr_bm _ _ H)) as (Hw&Hsz&Ht); [lia..|]. split_and!.
  - constructor; simpl.
    + done.
    + by rewrite Hsz, (hr_size _ _ H).
    + pose proof (hr_len _ _ H). unfold zlen in *. rewrite swap_remove_length by done. lia.
    + apply Forall2_same_length_lookup. split; [rewrite !swap_remove_length by lia; lia|].
      intros j s G Hj HG.
      apply swap_remove_source in Hj as (k&Hk&Hj&_&Ek); [|done].
      apply swap_remove_source in HG as (k'&_&HG&_&Ek'); [|lia].
      assert (k' = k) as -> by (rewrite Ek, Ek', Hlen; done). by apply (hr_lookup h Fs k).
    + intros a b s1 s2 k Ha Hb H1 H2.
      apply swap_remove_source in Ha as (ka&_&Ha&Hla&Ea); [|done].
      apply swap_remove_source in Hb as (kb&_&Hb&Hlb&Eb); [|done].
      pose proof (hr_disjoint _ _ H ka kb s1 s2 k Ha Hb H1 H2).
      destruct (decide (a = i)), (decide (b = i)); lia.
    + intros j s k Hj Hk. apply swap_remove_source in Hj as (kj&Hne&Hj&_&_); [|done].
      destruct (hr_free _ _ _ _ H Hj) as [G HG].
      destruct (page_of_start s (proj1 (hr_lookup _ _ _ _ _ H Hj HG))) as (_&?&_).
      rewrite Ht by (unfold in_pages in Hk; lia).
      destruct ((page_of sl <=? k) && _ && _) eqn:E; [|by apply (hr_marked _ _ H kj s)].
      exfalso. apply Hne. apply (hr_disjoint _ _ H kj i s sl k); [done|done|done|].
      unfold in_pages. lia.
  - unfold pages_after, zlen. simpl. rewrite swap_remove_length by done. split; [lia|].
    intros k Hk. rewrite Ht, (hr_size _ _ H) by done.
    destruct (bool_decide_reflect (in_pages sl k)) as [Hin|Hin]; unfold in_pages in Hin;
      cmp; simpl; done || lia.
  - intros q. unfold in_use; simpl. split.
    + intros (j&s&G&Hj&HG&Hq&Hn).
      apply swap_remove_source in Hj as (k&Hk&Hj&_&Ek); [|done].
      apply swap_remove_source in HG as (k'&_&HG&_&Ek'); [|lia].
      assert (k' = k) as -> by (rewrite Ek, Ek', Hlen; done). by exists k, s, G.
    + intros (k&s&G&Hne&Hk&HG&Hq&Hn).
      destruct (swap_remove_target no_slab _ i k s Hlt Hne Hk) as (j&Hj&Hjl&Ej).
      destruct (swap_remove_target [] Fs i k G ltac:(lia) Hne HG) as (j'&HG'&Hjl'&Ej').
      assert (j' = j) as ->; [|by exists j, s, G].
      rewrite <- Hlen in *. destruct (decide (j = i)), (decide (j' = i)); lia.
Qed.

Lemma objs_apart h Fs i j s1 s2 p q :
  heap_rep h Fs -> heap_cache h !! i = Some s1 -> heap_cache h !! j = Some s2 ->
  p ∈ objs s1 -> q ∈ objs s2 -> p <> q ->
  p + sl_object_size s1 <= q \/ q + sl_object_size s2 <= p.
Proof.
  intros H H1 H2 Hp Hq Hne.
  destruct (hr_free _ _ _ _ H H1) as [F1 HF1], (hr_free _ _ _ _ H H2) as [F2 HF2].
  destruct (hr_lookup _ _ _ _ _ H H1 HF1) as [Hok1 _], (hr_lookup _ _ _ _ _ H H2 HF2) as [Hok2 _].
  pose proof (objs_range _ _ Hok1 Hp) as R1. pose proof (objs_range _ _ Hok2 Hq) as R2.
  pose proof (proj2 Hok1) as [? _]. pose proof (proj2 Hok2) as [? _]. unfold FREELIST_SIZE in *.
  destruct (decide (i = j)) as [<-|Hij].
  - simplify_eq. apply elem_of_objs in Hp as (a&->&_), Hq as (b&->&_).
    assert (a < b \/ b < a) as [?|?] by nia; [left|right]; nia.
  - destruct (decide (sl_start s1 + slab_bytes s1 <= q)); [lia|].
    destruct (decide (q < sl_start s1)); cycle 1.
    { exfalso. apply Hij. apply (slabs_disjoint _ i j s1 s2 q (hr_disjoint _ _ H)); try done; lia. }
    destruct (decide (sl_start s2 + slab_bytes s2 <= p)); [lia|].
    exfalso. apply Hij. apply (slabs_disjoint _ i j s1 s2 p (hr_disjoint _ _ H)); try done; lia.
Qed.

Lemma slab_all_free sl F :
  slab_ok sl -> NoDup F -> F ⊆ objs sl -> zlen F = slab_count sl -> objs sl ⊆ F.
Proof.
  intros Hok Hnd Hsub Hlen. rewrite <- objs_length in Hlen by done.
  assert (F ≡ₚ objs sl) as Hp.
  { apply submseteq_length_Permutation; [by apply NoDup_submseteq|unfold zlen in *; lia]. }
  intros x Hx. by rewrite Hp.
Qed.

Lemma swap_remove_insert {A} (d : A) (l : list A) (i : nat) x :
  (i < length l)%nat ->
  swap_remove d (<[i := x]> l) (Z.of_nat i) = swap_remove d l (Z.of_nat i).
Proof.
  intros Hi. apply list_eq. intros j. rewrite !swap_remove_lookup by (by rewrite ?length_insert).
  rewrite length_insert. destruct (decide (j < length l - 1)%nat); [|done].
  destruct (decide (j = i)); apply list_lookup_insert_ne; lia.
Qed.

Lemma slab_give_spec h Fs i sl F p :
  heap_rep h Fs -> heap_cache h !! i = Some sl -> Fs !! i = Some F -> p ∈ objs sl -> p ∉ F ->
  exists Fs', heap_rep (slab_give h (Z.of_nat i) sl p) Fs'
    /\ pages_after h (slab_give h (Z.of_nat i) sl p) sl (slab_released sl F)
    /\ forall q, in_use (slab_give h (Z.of_nat i) sl p) Fs' q <-> in_use h Fs q /\ q <> p.
Proof.
  intros H Hsl HF Hp Hn. pose proof (hr_lookup _ _ _ _ _ H Hsl HF) as (Hok&Hc&Hnd&Hsub&Hin).
  pose proof (slab_count_bound sl Hok). pose proof (lookup_lt_Some _ _ _ Hsl) as Hlt.
  pose proof (lookup_lt_Some _ _ _ HF) as HltF.
  assert (Hnd' : NoDup (p :: F)) by (by constructor).
  assert (Hsub' : p :: F ⊆ objs sl) by set_solver.
  pose proof (slab_free_le _ _ Hok Hnd' Hsub') as Hle. rewrite zlen_cons in Hle. pose proof (zlen_nonneg F).
  assert (Hp0 : p <> 0).
  { pose proof (objs_range _ _ Hok Hp). destruct (page_of_start sl Hok) as (?&?&_).
    unfold HEAP_BASE, VIRT_BASE in *. lia. }
  set (sl1 := with_inuse (sl_inuse sl - 1) sl).
  assert (Hin1 : sl_inuse sl1 = slab_count sl - zlen (p :: F)).
  { simpl. rewrite zlen_cons. unfold u16. rewrite Z.mod_small; lia. }
  (* pushing [p] on the free list *)
  assert (Hpush : forall mem', mem' = <[p := sl_first sl]> (heap_mem h) ->
     heap_rep (with_mem (with_slab h (Z.of_nat i) (with_first p sl1)) mem') (<[i := p :: F]> Fs)
     /\ pages_after h (with_mem (with_slab h (Z.of_nat i) (with_first p sl1)) mem') sl false
     /\ forall q, in_use (with_mem (with_slab h (Z.of_nat i) (with_first p sl1)) mem') (<[i := p :: F]> Fs) q
                  <-> in_use h Fs q /\ q <> p).
  { intros mem' ->. split_and!.
    - apply (heap_rep_update h Fs i sl F); try done.
      { intros x Hx. apply lookup_insert_ne. set_solver. }
      split_and!; [done| |done|done|done]. simpl. split_and!; [done|done|].
      exists (sl_first sl). rewrite lookup_insert_eq. split; [done|].
      apply (free_chain_frame (heap_mem h)); [|done].
      intros x Hx. apply lookup_insert_ne. set_solver.
    - split; [|done]. simpl. rewrite zlen_set. lia.
    - eapply (in_use_update h _ Fs i sl (with_first p sl1) F (p :: F) p H Hsl HF); try done.
      simpl. apply set_nat. }
  unfold slab_give. fold sl1. change (sl_first sl1) with (sl_first sl).
  assert (Hww : forall s2, with_slab (with_slab h (Z.of_nat i) sl1) (Z.of_nat i) s2 = with_slab h (Z.of_nat i) s2).
  { intros s2. unfold with_slab; simpl. f_equal. rewrite !set_nat. by rewrite list_insert_insert_eq. }
  change (heap_mem (with_slab h (Z.of_nat i) sl1)) with (heap_mem h). rewrite !Hww.
  destruct (Z.eqb_spec (sl_first sl) 0) as [E|E].
  { assert (slab_released sl F = false) as ->.
    { destruct F as [|x F]; [done|]. simpl in Hc. destruct Hc as (?&?&_). congruence. }
    eexists. apply Hpush. by rewrite E. }
  assert (HF0 : zlen F <> 0).
  { destruct F as [|x F]; [by simpl in Hc|]. rewrite zlen_cons. pose proof (zlen_nonneg F). lia. }
  rewrite zlen_cons in Hin1.
  assert (slab_released sl F = (sl_inuse sl1 =? 0)) as ->.
  { unfold slab_released. rewrite Hin1. cmp; simpl; done || lia. }
  destruct (Z.eqb_spec (sl_inuse sl1) 0) as [E1|E1]; [|by eexists; apply Hpush].
  (* the slab is empty: it is released *)
  assert (Hsh : kheap_cache_shrink (with_slab h (Z.of_nat i) sl1) (Z.of_nat i)
                = kheap_cache_shrink h (Z.of_nat i)).
  { unfold kheap_cache_shrink. simpl. rewrite set_nat, Nat2Z.id, list_lookup_insert_eq, Hsl by done.
    by rewrite swap_remove_insert. }
  rewrite Hsh. destruct (shrink_spec h Fs i sl F H Hsl HF) as (Hr&Hpa&Hu).
  eexists. split; [exact Hr|]. split; [exact Hpa|]. intros q. rewrite Hu. split.
  - intros (j&s&G&Hne&Hj&HG&Hq&Hnq). split; [by exists j, s, G|]. intros ->.
    apply Hne. by apply (hr_same_slab h Fs j i s sl p).
  - intros [(j&s&G&Hj&HG&Hq&Hnq) Hqp]. exists j, s, G. split_and!; try done. intros ->. simplify_eq.
    (* every object of the slab is free or [p] *)
    assert (Hall : objs sl ⊆ p :: F).
    { apply slab_all_free; try done. rewrite zlen_cons. lia. }
    set_solver.
Qed.

Lemma kfree_loop_spec h Fs i sl p size pre cache :
  heap_rep h Fs -> heap_cache h !! i = Some sl -> p ∈ objs sl -> size <= sl_object_size sl ->
  heap_cache h = pre ++ cache -> (length pre <= i)%nat ->
  kfree_loop h cache (zlen pre) p size = slab_give h (Z.of_nat i) sl p.
Proof.
  intros H Hsl Hp Hs. revert pre. induction cache as [|s cache IH]; intros pre Hall Hle.
  { rewrite app_nil_r in Hall. subst pre. apply lookup_lt_Some in Hsl. lia. }
  assert (Hlook : heap_cache h !! length pre = Some s) by (rewrite Hall; by apply list_lookup_middle).
  destruct (hr_free _ _ _ _ H Hsl) as [F HF]. destruct (hr_lookup _ _ _ _ _ H Hsl HF) as [Hok _].
  destruct (hr_free _ _ _ _ H Hlook) as [G HG]. destruct (hr_lookup _ _ _ _ _ H Hlook HG) as [Hok' _].
  pose proof (objs_range _ _ Hok Hp). pose proof (proj2 Hok) as [? _]. unfold FREELIST_SIZE in *.
  simpl. destruct (decide (i = length pre)) as [->|Hne].
  - rewrite Hlook in Hsl. injection Hsl as <-.
    destruct (size <=? sl_object_size s) eqn:?; [|lia].
    rewrite (proj2 (has_addr_range s p Hok)) by lia. done.
  - destruct (_ && _) eqn:E.
    + apply andb_true_iff in E as [_ E]. apply has_addr_range in E; [|done].
      exfalso. apply Hne. by apply (slabs_disjoint _ i (length pre) sl s p (hr_disjoint _ _ H)); try done; lia.
    + replace (zlen pre + 1) with (zlen (pre ++ [s])) by (rewrite zlen_app; done).
      apply IH; [by rewrite <- app_assoc|]. rewrite length_app. simpl. lia.
Qed.

(** C10: an allocation of 1 to 40960 bytes on a well-formed heap returns
    either an object of a slab that is large enough, was not in use and
    overlaps no other object in use, after which exactly it is in use as well;
    or NULL, only when the 256 slabs are taken or no run of pages is left. *)
Theorem kmalloc_returns_fresh h Fs size :
  heap_rep h Fs -> 0 < size <= 40960 ->
  exists h' p, kmalloc h size = Some (h', p) /\
  ((p = 0 /\ h' = h /\ zlen (heap_cache h) = 256)
   \/ (p = 0 /\ bitmap_scan (kheap_bitmap h) 0 (slab_pages (1024 <=? size)) false = - EBITMAP)
   \/ exists Fs' i sl, heap_rep h' Fs' /\ heap_cache h' !! i = Some sl
        /\ p ∈ objs sl /\ size <= sl_object_size sl /\ ~ in_use h Fs p
        /\ (forall q, in_use h' Fs' q <-> in_use h Fs q \/ q = p)
        /\ (forall j s q, heap_cache h' !! j = Some s -> q ∈ objs s -> q <> p ->
              p + sl_object_size sl <= q \/ q + sl_object_size s <= p)).
Proof.
  intros H Hs. destruct (kmalloc_correct h Fs size H Hs) as (h'&p&Hrun&Hc).
  exists h', p. split; [done|]. destruct Hc as [(->&->&?)|[?|(Fs'&i&sl&Hr&Hi&Hp&Ho&Hn&Hu)]].
  - by left. - by right; left.
  - right; right. exists Fs', i, sl. split_and!; try done.
    intros j s q Hj Hq Hne. by apply (objs_apart h' Fs' i j).
Qed.

(** C11: [kfree] of an object in use, with a size not larger than the slab's
    object size, makes exactly that object free again and keeps the heap
    well-formed.  When it was the last one in use of a slab that had free
    objects, the slab leaves the table and exactly its pages are clear in the
    page bitmap; otherwise, also for the object of a one-object slab, no page
    and no entry of the table is given back. *)
Theorem kfree_releases h Fs i sl F p size :
  heap_rep h Fs -> heap_cache h !! i = Some sl -> Fs !! i = Some F -> p ∈ objs sl -> p ∉ F ->
  0 < size <= sl_object_size sl ->
  let h' := kfree h p size in
  let released := negb (zlen F =? 0) && (zlen F + 1 =? slab_count sl) in
  exists Fs', heap_rep h' Fs'
    /\ in_use h Fs p
    /\ (forall q, in_use h' Fs' q <-> in_use h Fs q /\ q <> p)
    /\ zlen (heap_cache h') = zlen (heap_cache h) - (if released then 1 else 0)
    /\ (forall k, 0 <= k -> bitmap_test (kheap_bitmap h') k
          = if released && bool_decide (in_pages sl k) then false
            else bitmap_test (kheap_bitmap h) k)
    /\ forall k, in_pages sl k -> bitmap_test (kheap_bitmap h) k = true.
Proof.
  intros H Hsl HF Hp Hn Hsz. unfold kfree. destruct (size =? 0) eqn:?; [lia|].
  destruct (hr_lookup _ _ _ _ _ H Hsl HF) as ((_&Hos)&_).
  set (sz := if size <? FREELIST_SIZE then FREELIST_SIZE else size).
  assert (sz <= sl_object_size sl) by (unfold sz; destruct (size <? FREELIST_SIZE); lia).
  pose proof (kfree_loop_spec h Fs i sl p sz [] (heap_cache h) H Hsl Hp H0 eq_refl ltac:(simpl; lia)) as Hk.
  change (zlen (@nil heap_slab)) with 0 in Hk. rewrite Hk.
  destruct (slab_give_spec h Fs i sl F p H Hsl HF Hp Hn) as (Fs'&Hr&[Hlen Hpg]&Hu).
  exists Fs'. split_and!; [done|by exists i, sl, F|done|exact Hlen|exact Hpg|].
  intros k. by apply (hr_marked _ _ H i).
Qed.

Lemma heap_empty_rep h :
  heap_cache h = [] -> bm_wf (kheap_bitmap h) -> bm_size (kheap_bitmap h) = 2048 -> heap_rep h [].
Proof.
  intros Hc Hw Hs. constructor; rewrite ?Hc; try done.
Qed.

Definition heap_example : heap := Heap (Bitmap (replicate 256 0) 2048) [] ∅ 0xC0200000.
Lemma heap_example_rep : heap_rep heap_example [].
Proof.
  apply heap_empty_rep; [done| |done]. split_and!; simpl; try done.
  repeat constructor; lia.
Qed.

Lemma kmalloc_returns_fresh_witness :
  exists h' p, kmalloc heap_example 100 = Some (h', p) /\ p = 0xC0400000.
Proof.
  destruct (kmalloc_returns_fresh heap_example [] 100 heap_example_rep ltac:(lia)) as (h'&p&Hrun&_).
  exists h', p. split; [exact Hrun|].
  assert (Hp : option_map snd (kmalloc heap_example 100) = Some 0xC0400000) by (vm_compute; reflexivity).
  rewrite Hrun in Hp. injection Hp as ->. reflexivity.
Defined.

(** A slab of ten pages, one object each, the first of them in use. *)
Definition heap_one : heap := from_option fst heap_example (kmalloc heap_example 1600).
Definition one_slab : heap_slab := get no_slab (heap_cache heap_one) 0.
Definition one_free : list Z := tail (objs one_slab).
Lemma tail_subseteq (l : list Z) : tail l ⊆ l.
Proof. destruct l; [done|]. simpl. set_solver. Qed.
Lemma tail_NoDup (l : list Z) : NoDup l -> NoDup (tail l).
Proof. destruct l; [done|]. by intros [_ ?]%NoDup_cons. Qed.
Lemma heap_one_rep : heap_rep heap_one [one_free].
Proof.
  assert (E : kmalloc heap_example 1600 = Some (heap_one, 0xC0400000)) by (vm_compute; reflexivity).
  assert (Hc : heap_cache heap_one = [one_slab]) by (vm_compute; reflexivity).
  assert (Hok : slab_ok one_slab).
  { split; [exists 0; vm_compute; intuition congruence|vm_compute; intuition congruence]. }
  assert (Hch : free_chain (heap_mem heap_one) (sl_first one_slab) one_free).
  { change one_free with ((fun k => 0xC0400000 + k * 4096) <$> seqZ 1 9). vm_compute.
    repeat (split; [reflexivity|split; [discriminate|eexists; split; [reflexivity|]]]). reflexivity. }
  constructor; rewrite ?Hc.
  - split_and!; [vm_compute; intuition congruence..|].
    apply (bool_decide_unpack _). by vm_compute.
  - vm_compute. reflexivity.
  - vm_compute. discriminate.
  - constructor; [|constructor]. split_and!; [exact Hok|exact Hch| | |vm_compute; reflexivity].
    + apply tail_NoDup, objs_NoDup, Hok.
    + apply tail_subseteq.
  - intros a b s1 s2 k Ha Hb _ _. apply list_lookup_singleton_Some in Ha as [Ha _], Hb as [Hb _]. by rewrite Ha, Hb.
  - intros a s k Ha Hk. apply list_lookup_singleton_Some in Ha as [_ Ha]. subst s.
    unfold in_pages in Hk. change (page_of one_slab) with 0 in Hk.
    assert (Hin : k ∈ seqZ 0 10) by (apply elem_of_seqZ; change (slab_pages _) with 10 in Hk; lia).
    clear Hk. revert k Hin. apply Forall_forall. apply (bool_decide_unpack _). by vm_compute.
Qed.

Lemma kfree_releases_witness :
  exists Fs', heap_rep (kfree heap_one 0xC0400000 1600) Fs'
    /\ ~ in_use (kfree heap_one 0xC0400000 1600) Fs' 0xC0400000
    /\ zlen (heap_cache heap_one) = 1 /\ bitmap_test (kheap_bitmap heap_one) 3 = true
    /\ zlen (heap_cache (kfree heap_one 0xC0400000 1600)) = 0
    /\ bitmap_test (kheap_bitmap (kfree heap_one 0xC0400000 1600)) 3 = false.
Proof.
  destruct (kfree_releases heap_one [one_free] 0 one_slab one_free 0xC0400000 1600 heap_one_rep)
    as (Fs'&Hr&_&Hu&Hlen&Hpg&_).
  - vm_compute. reflexivity.
  - reflexivity.
  - apply (bool_decide_unpack _). vm_compute. reflexivity.
  - apply (bool_decide_unpack _). vm_compute. reflexivity.
  - vm_compute. intuition congruence.
  - exists Fs'. split_and!; [exact Hr| |reflexivity|reflexivity|rewrite Hlen; reflexivity|].
    + intros Hin. apply Hu in Hin as [_ Hin]. exact (Hin eq_refl).
    + rewrite (Hpg 3 ltac:(lia)). vm_compute. reflexivity.
Defined.
