(* ===== verification/Console.v ===== *)
(** * Console: io/console.c

    The text-mode console: the cursor, the colours and the video memory, an
    array of [strs_len * strs_count] character cells.  The hardware cursor
    ports are write-only here: [con_ports] is the trace of the [outb]s. *)
From S2P Require Import Prelude CString Strconv.

Record console := Console {
  videoMemory : list Z;
  strs_count : Z;
  strs_len : Z;
  dbcolor : Z;
  dfcolor : Z;
  cursorx : Z;
  cursory : Z;
  con_ports : list (Z * Z)
}.

Definition with_cursor (x y : Z) (c : console) := Console (videoMemory c) (strs_count c) (strs_len c)
  (dbcolor c) (dfcolor c) x y (con_ports c).
Definition with_video (v : list Z) (c : console) := Console v (strs_count c) (strs_len c)
  (dbcolor c) (dfcolor c) (cursorx c) (cursory c) (con_ports c).
Definition outb (port v : Z) (c : console) := Console (videoMemory c) (strs_count c) (strs_len c)
  (dbcolor c) (dfcolor c) (cursorx c) (cursory c) (con_ports c ++ [(port, u8 v)]).

Definition console_flushc (c : console) : console :=
  let pos := u16 (cursory c * strs_len c + cursorx c) in
  outb 0x3D5 pos (outb 0x3D4 15 (outb 0x3D5 (Z.shiftr pos 8) (outb 0x3D4 14 c))).

(** [lo] and [hi] are what the data port answers. *)
Definition console_getcursor (lo hi : Z) (c : console) : console * Z * Z :=
  let c := outb 0x3D4 0x0F c in
  let c := outb 0x3D4 0x0E c in
  let pos := Z.lor (u16 lo) (u16 (Z.shiftl hi 8)) in
  (c, pos mod strs_len c, pos / strs_len c).

Definition console_init (lo hi : Z) (s l b f : Z) (c : console) : console :=
  let c := Console (videoMemory c) (if 0 <? s then s else strs_count c) (if 0 <? l then l else strs_len c)
             (if 0 <? b then b else dbcolor c) (if 0 <? f then f else dfcolor c)
             (cursorx c) (cursory c) (con_ports c) in
  let '(c, x, y) := console_getcursor lo hi c in
  console_flushc (with_cursor x y c).

Definition console_movec (x y : Z) (c : console) : console :=
  let c := if 0 <=? cursorx c + x then with_cursor (cursorx c + x) (cursory c) c else c in
  let c := if 0 <=? cursory c + y then with_cursor (cursorx c) (cursory c + y) c else c in
  console_flushc c.

(** [(dbcolor << 4) | (dfcolor & 0x0F)] as a [uint8_t], and a cell. *)
Definition attribute (b f : Z) : Z := u8 (Z.lor (Z.shiftl b 4) (Z.land f 0x0F)).
Definition cell (ch attr : Z) : Z := u16 (Z.lor ch (u16 (Z.shiftl attr 8))).

Definition console_clear (c : console) : console :=
  let v := cell 0x20 (attribute (dbcolor c) (dfcolor c)) in
  let c := with_video (for_range 0 (strs_len c * strs_count c) (fun i m => set m i v) (videoMemory c)) c in
  console_flushc (with_cursor 0 0 c).

Definition console_flushs (c : console) : console :=
  let b := cell 0x20 (attribute (dbcolor c) (dfcolor c)) in
  if strs_count c <=? cursory c then
    let m := for_range 0 ((strs_count c - 1) * strs_len c)
               (fun i m => set m i (get 0 m (i + strs_len c))) (videoMemory c) in
    let m := for_range ((strs_count c - 1) * strs_len c) (strs_count c * strs_len c)
               (fun i m => set m i b) m in
    with_cursor (cursorx c) (strs_count c - 1) (with_video m c)
  else c.

(** The effect of a character on the cursor before the cell is written. *)
Definition control (ch : Z) (c : console) : console :=
  if (ch =? 0x08) && negb (cursorx c =? 0) then with_cursor (cursorx c - 1) (cursory c) c
  else if ch =? 0x09 then with_cursor (Z.land (cursorx c + 8) (Z.lnot (8 - 1))) (cursory c) c
  else if ch =? 13 then with_cursor 0 (cursory c) c
  else if ch =? 10 then with_cursor 0 (cursory c + 1) c
  else c.

(** The recursion is at most three deep: escape, its two characters, and the
    line break of a full line; [fuel] 3 is proved enough for lines of two
    columns or more. *)
Fixpoint console_putchara (fuel : nat) (ch a : Z) (c : console) : option console :=
  match fuel with
  | O => None
  | S fuel =>
      let c := control ch c in
      if ch =? 27 then
        c ← console_putchara fuel (get 0 (str "^") 0) a c;
        console_putchara fuel (get 0 (str "[") 0) a c
      else
        let c := if 32 <=? ch then
                   let loc := cursory c * strs_len c + cursorx c in
                   with_cursor (cursorx c + 1) (cursory c)
                     (with_video (set (videoMemory c) loc (cell ch a)) c)
                 else c in
        c ← (if (strs_len c <=? cursorx c) || (cursorx c =? strs_len c - 1)
             then console_putchara fuel 10 (attribute (dbcolor c) (dfcolor c)) c else Some c);
        Some (console_flushc (console_flushs c))
  end.
Definition putchara (ch a : Z) (c : console) : option console := console_putchara 3 ch a c.
Definition console_putchar (ch : Z) (c : console) : option console :=
  putchara ch (attribute (dbcolor c) (dfcolor c)) c.

(** [buf[i]] is a [char], passed as an [unsigned char]. *)
Fixpoint console_write (buf : list Z) (c : console) : option console :=
  match buf with
  | [] => None
  | x :: buf => if x =? 0 then Some c else c ← console_putchar (u8 x) c; console_write buf c
  end.
Fixpoint console_writea (buf : list Z) (a : Z) (c : console) : option console :=
  match buf with
  | [] => None
  | x :: buf => if x =? 0 then Some c else c ← putchara (u8 x) a c; console_writea buf a c
  end.

(** The string that [console_write_int] writes; [char] arrays as in [itoa]. *)
Definition int_chars (v base : Z) : option (list Z) :=
  if (v =? 0) || (16 <? base) then Some (cstring (str "0"))
  else
    '(c, i) ← itoa_loop 32 (s32 v) base (replicate 33 0) 0;
    let c := set c i 0 in
    Some (itoa_reverse (Z.to_nat i) (set (replicate 33 0) i 0) c 0).
Definition console_write_int (v base : Z) (c : console) : option console :=
  s ← int_chars v base; console_write s c.
Definition console_write_hex (v : Z) (c : console) : option console :=
  c ← console_write (cstring (str "0x")) c; console_write_int v 16 c.
Definition console_write_dec (v : Z) (c : console) : option console := console_write_int v 10 c.

Definition pick_color (x dflt : Z) : Z := if x <? 0 then s8 dflt else x.
Definition console_write_color (buf : list Z) (b f : Z) (c : console) : option console :=
  console_writea buf (attribute (pick_color b (dbcolor c)) (pick_color f (dfcolor c))) c.
Definition console_putchar_color (ch b f : Z) (c : console) : option console :=
  putchara ch (attribute (pick_color b (dbcolor c)) (pick_color f (dfcolor c))) c.

Fixpoint console_output (data : list Z) (c : console) : option console :=
  match data with
  | [] => Some c
  | x :: data => c ← console_putchar (u8 x) c; console_output data c
  end.

(** The device: [off] is the caller's offset; a request other than the two is
    ignored. *)
Definition consoledev_write (buffer : list Z) (off : Z) (c : console) : option (console * Z * Z) :=
  c ← console_output buffer c;
  Some (c, u32 (off + zlen buffer), zlen buffer).
Definition consoledev_ioctl (request dx dy : Z) (c : console) : console :=
  if request =? 0x1 then console_clear c
  else if request =? 0x2 then console_movec dx dy c
  else c.

(** ** The screen as rows *)
Definition con_ok (c : console) : Prop :=
  2 <= strs_len c /\ 1 <= strs_count c /\ zlen (videoMemory c) = strs_len c * strs_count c
  /\ 0 <= cursorx c < strs_len c - 1 /\ 0 <= cursory c < strs_count c.

(** The screen moved up by one row, with a blank last row. *)
Definition blank (c : console) : Z := cell 0x20 (attribute (dbcolor c) (dfcolor c)).
Definition scroll (c : console) (m : list Z) : list Z :=
  drop (Z.to_nat (strs_len c)) m ++ replicate (Z.to_nat (strs_len c)) (blank c).

Lemma for_range_pointwise {A} (d : A) (m : list A) lo hi (f : list A -> Z -> A) (g : Z -> A) :
  0 <= lo <= hi -> hi <= zlen m ->
  (forall i m', lo <= i < hi -> zlen m' = zlen m ->
     (forall j, i <= j -> get d m' j = get d m j) -> f m' i = g i) ->
  let m' := for_range lo hi (fun i m => set m i (f m i)) m in
  zlen m' = zlen m
  /\ forall j, 0 <= j -> get d m' j = if (lo <=? j) && (j <? hi) then g j else get d m j.
Proof.
  intros Hlo Hhi Hf m'.
  assert (H : zlen m' = zlen m
    /\ (forall j, 0 <= j < lo -> get d m' j = get d m j)
    /\ (forall j, lo <= j < hi -> get d m' j = g j)
    /\ forall j, hi <= j -> get d m' j = get d m j).
  { apply (for_range_ind (fun i m' => zlen m' = zlen m
      /\ (forall j, 0 <= j < lo -> get d m' j = get d m j)
      /\ (forall j, lo <= j < i -> get d m' j = g j)
      /\ forall j, i <= j -> get d m' j = get d m j)); [lia| |].
    - split_and!; try done. intros j Hj. lia.
    - intros i s Hi (Hz&H1&H2&H3). split_and!; [by rewrite zlen_set| | |].
      + intros j Hj. rewrite get_set_ne by lia. by apply H1.
      + intros j Hj. destruct (decide (i = j)) as [<-|Hne].
        * rewrite get_set_eq by lia. by apply Hf.
        * rewrite get_set_ne by lia. apply H2. lia.
      + intros j Hj. rewrite get_set_ne by lia. apply H3. lia. }
  destruct H as (Hz&H1&H2&H3). split; [done|]. intros j Hj.
  destruct (lo <=? j) eqn:?, (j <? hi) eqn:?; simpl; [apply H2|apply H3|apply H1|apply H1]; lia.
Qed.

Lemma flushs_scroll c :
  2 <= strs_len c -> 1 <= strs_count c -> zlen (videoMemory c) = strs_len c * strs_count c ->
  strs_count c <= cursory c ->
  console_flushs c = with_cursor (cursorx c) (strs_count c - 1) (with_video (scroll c (videoMemory c)) c).
Proof.
  intros Hl Hc Hz Hy. unfold console_flushs. destruct (_ <=? cursory c) eqn:?; [|lia].
  fold (blank c). f_equal. f_equal. set (m := videoMemory c) in *. set (len := strs_len c) in *.
  destruct (for_range_pointwise 0 m 0 ((strs_count c - 1) * len) (fun m i => get 0 m (i + len))
    (fun i => get 0 m (i + len))) as [Hz1 Hg1]; [nia|nia| |].
  { intros i m' Hi _ Hm. apply Hm. lia. }
  set (m1 := for_range 0 _ _ m) in *.
  destruct (for_range_pointwise 0 m1 ((strs_count c - 1) * len) (strs_count c * len) (fun _ _ => blank c)
    (fun _ => blank c)) as [Hz2 Hg2]; [nia|nia|done|].
  set (m2 := for_range _ _ _ m1) in *.
  assert (Hdl : zlen (drop (Z.to_nat len) m) = (strs_count c - 1) * len)
    by (unfold zlen in *; rewrite length_drop; nia).
  apply (list_eq_get 0).
  { unfold scroll. fold len. apply Nat2Z.inj. fold (zlen m2). rewrite length_app, Nat2Z.inj_add.
    fold (zlen (drop (Z.to_nat len) m)). rewrite length_replicate. nia. }
  intros j Hj. rewrite Hz2, Hz1, Hz in Hj. rewrite Hg2, Hg1 by lia. unfold scroll. fold len.
  destruct ((_ <=? j) && _) eqn:E.
  - rewrite get_app_r by lia. unfold get. destruct (j - _ <? 0) eqn:?; [lia|].
    rewrite lookup_replicate_2; [done|]. rewrite Hdl. nia.
  - rewrite get_app_l by lia. destruct ((0 <=? j) && _) eqn:E2; [|nia].
    unfold get. destruct (j + len <? 0) eqn:?; [lia|]. destruct (j <? 0) eqn:?; [lia|].
    rewrite lookup_drop. do 2 f_equal. lia.
Qed.
Lemma flushs_id c : cursory c < strs_count c -> console_flushs c = c.
Proof. intros. unfold console_flushs. destruct (_ <=? cursory c) eqn:?; [lia|done]. Qed.

(** ** Printing a character *)

(** The cursor after the character and before any line break, the cells, and
    the cursor after the line break. *)
Definition raw_x (ch : Z) (c : console) : Z :=
  let x := cursorx c in
  if 32 <=? ch then x + 1
  else if (ch =? 0x08) && negb (x =? 0) then x - 1
  else if ch =? 0x09 then Z.land (x + 8) (Z.lnot 7)
  else if (ch =? 13) || (ch =? 10) then 0 else x.
Definition raw_cells (ch a : Z) (c : console) : list Z :=
  if 32 <=? ch then set (videoMemory c) (cursory c * strs_len c + cursorx c) (cell ch a)
  else videoMemory c.
Definition breaks (ch : Z) (c : console) : bool := (ch =? 10) || (strs_len c - 1 <=? raw_x ch c).

Definition same_setup (c c' : console) : Prop :=
  strs_len c' = strs_len c /\ strs_count c' = strs_count c
  /\ dbcolor c' = dbcolor c /\ dfcolor c' = dfcolor c.

Lemma raw_x_nonneg ch c : 0 <= cursorx c -> 0 <= raw_x ch c.
Proof.
  intros. unfold raw_x. destruct (32 <=? ch); [lia|]. destruct (_ && _) eqn:E; [lia|].
  destruct (ch =? 9); [apply Z.land_nonneg; lia|]. destruct (_ || _); lia.
Qed.

(** The line break: cursor to the start of the next row, scrolling at the
    bottom. *)
Definition line_break (c : console) (m : list Z) : list Z * Z :=
  if cursory c + 1 <? strs_count c then (m, cursory c + 1) else (scroll c m, cursory c).

Lemma scroll_length c m :
  0 <= strs_len c <= zlen m -> zlen (scroll c m) = zlen m.
Proof. intros. unfold scroll, zlen in *. rewrite length_app, length_drop, length_replicate. lia. Qed.

Lemma newline_flushs c c1 :
  same_setup c c1 -> 2 <= strs_len c -> 1 <= strs_count c -> 
  zlen (videoMemory c1) = strs_len c * strs_count c ->
  0 <= cursory c < strs_count c -> cursorx c1 = 0 -> cursory c1 = cursory c + 1 ->
  let c2 := console_flushs c1 in
  same_setup c c2 /\ cursorx c2 = 0 /\ con_ok c2
  /\ (videoMemory c2, cursory c2) = line_break c (videoMemory c1).
Proof.
  intros (El&Ec&Eb&Ef) Hl Hc Hz Hy Hx1 Hy1. cbv zeta. unfold line_break.
  destruct (cursory c + 1 <? strs_count c) eqn:E.
  - rewrite flushs_id by lia. unfold same_setup, con_ok. rewrite Hx1, Hy1, El, Ec. split_and!; lia || done.
  - rewrite flushs_scroll by lia. unfold same_setup, con_ok; simpl. unfold scroll, blank.
    rewrite Hx1, El, Ec, Eb, Ef. split_and!; try done; try lia.
    + rewrite <- Hz, <- El. rewrite <- (scroll_length c1 (videoMemory c1)) by nia.
      unfold scroll, blank. by rewrite El, Eb, Ef.
    + f_equal. lia.
Qed.

(** Every character but escape. *)
Lemma putchara_plain fuel ch a c :
  con_ok c -> 0 <= ch < 256 -> ch <> 27 ->
  exists c', console_putchara (S (S fuel)) ch a c = Some c' /\ con_ok c' /\ same_setup c c'
    /\ cursorx c' = (if breaks ch c then 0 else raw_x ch c)
    /\ (videoMemory c', cursory c')
       = if breaks ch c then line_break c (raw_cells ch a c) else (raw_cells ch a c, cursory c).
Proof.
  intros (Hl&Hc&Hz&Hx&Hy) Hch Hesc. cbn [console_putchara].
  destruct (ch =? 27) eqn:?; [lia|].
  set (c2 := if 32 <=? ch then _ else control ch c).
  assert (H2 : same_setup c c2 /\ cursorx c2 = raw_x ch c /\ videoMemory c2 = raw_cells ch a c
     /\ cursory c2 = cursory c + (if ch =? 10 then 1 else 0)).
  { unfold c2, raw_x, raw_cells, control, same_setup.
    destruct (32 <=? ch) eqn:E32; [|change (8 - 1) with 7].
    - destruct (ch =? 8) eqn:?, (ch =? 9) eqn:?, (ch =? 13) eqn:?, (ch =? 10) eqn:?; try lia. simpl.
      split_and!; done || lia.
    - destruct (ch =? 8) eqn:?, (ch =? 9) eqn:?, (ch =? 13) eqn:?, (ch =? 10) eqn:?; try lia; simpl;
        try destruct (cursorx c =? 0) eqn:?; simpl; split_and!; done || lia. }
  destruct H2 as (Hss&Hx2&Hv2&Hy2). pose proof Hss as (El&Ec&Eb&Ef). clearbody c2.
  pose proof (raw_x_nonneg ch c ltac:(lia)) as Hx0.
  assert (Hvl : zlen (videoMemory c2) = strs_len c * strs_count c).
  { rewrite Hv2. unfold raw_cells. destruct (32 <=? ch); [by rewrite zlen_set|done]. }
  unfold breaks. rewrite Hx2, El.
  destruct (Z.eqb_spec ch 10) as [->|Hnl].
  - assert (raw_x 10 c = 0) as Hr by done. rewrite Hr in *.
    destruct (strs_len c <=? 0) eqn:?; [lia|]. destruct (0 =? strs_len c - 1) eqn:?; [lia|]. simpl.
    destruct (newline_flushs c c2 Hss) as (S1&X1&O1&L1); try done.
    eexists. split; [done|]. rewrite <- Hv2. split_and!; try done; by destruct O1 as (?&?&?&?&?).
  - rewrite Z.add_0_r in Hy2. cbn [orb].
    destruct (strs_len c - 1 <=? raw_x ch c) eqn:E.
    + destruct ((strs_len c <=? _) || _) eqn:E2; [|lia].
      cbn [console_putchara]. change (10 =? 27) with false. change (32 <=? 10) with false. cbn iota.
      change (control 10 c2) with (with_cursor 0 (cursory c2 + 1) c2).
      set (c3 := with_cursor 0 (cursory c2 + 1) c2).
      change (strs_len c3) with (strs_len c2). change (cursorx c3) with 0. rewrite El.
      destruct (strs_len c <=? 0) eqn:?; [lia|]. destruct (0 =? strs_len c - 1) eqn:?; [lia|].
      cbn [orb mbind option_bind].
      destruct (newline_flushs c c3) as (S1&X1&O1&L1); try done; [simpl; lia|].
      eexists. split; [done|].
      assert (Hid : console_flushs (console_flushc (console_flushs c3)) = console_flushc (console_flushs c3)).
      { apply flushs_id. destruct O1 as (_&_&_&_&?). simpl. lia. }
      rewrite Hid. change (videoMemory c3) with (videoMemory c2) in L1. rewrite Hv2 in L1.
      split_and!; done.
    + destruct ((strs_len c <=? _) || _) eqn:E2; [lia|]. cbn [mbind option_bind].
      rewrite flushs_id by lia. eexists. split; [done|]. rewrite <- Hv2.
      split_and!; try done.
      * unfold con_ok; simpl. rewrite El, Ec, Hx2, Hy2. split_and!; lia || done.
      * simpl. by rewrite Hy2.
Qed.

Lemma putchara_total ch a c :
  con_ok c -> 0 <= ch < 256 -> exists c', putchara ch a c = Some c' /\ con_ok c' /\ same_setup c c'.
Proof.
  intros H Hch. destruct (decide (ch = 27)) as [->|Hne]; cycle 1.
  { destruct (putchara_plain 1 ch a c H Hch Hne) as (c'&?&?&?&_). by exists c'. }
  destruct (putchara_plain 0 94 a c H ltac:(lia) ltac:(lia)) as (c1&H1&Hok1&Hs1&_).
  destruct (putchara_plain 0 91 a c1 Hok1 ltac:(lia) ltac:(lia)) as (c2&H2&Hok2&Hs2&_).
  exists c2. split_and!; [|done|].
  - assert (E : putchara 27 a c = (c ← console_putchara 2 94 a c; console_putchara 2 91 a c)) by reflexivity.
    rewrite E, H1. exact H2.
  - unfold same_setup in *. intuition congruence.
Qed.

(** What one character other than escape makes of the screen: the cell under
    the cursor, the cursor, the line break at the end of a line. *)
Definition printed (ch a : Z) (c c' : console) : Prop :=
  same_setup c c' /\ cursorx c' = (if breaks ch c then 0 else raw_x ch c)
  /\ (videoMemory c', cursory c')
     = if breaks ch c then line_break c (raw_cells ch a c) else (raw_cells ch a c, cursory c).

(** C13: printing a byte other than escape on a well-formed screen writes at
    most the cell under the cursor, moves the cursor as the control character
    or by one, and breaks the line at its end, scrolling by exactly one row at
    the bottom; escape prints the two characters ^ and [ in this way, the
    second from where the first left the cursor.  The cursor stays on the
    screen, so every write is inside the video memory, and the recursion always
    ends. *)
Theorem console_putchara_spec ch a c :
  con_ok c -> 0 <= ch < 256 ->
  exists c', putchara ch a c = Some c' /\ con_ok c'
    /\ (ch <> 27 -> printed ch a c c')
    /\ (ch = 27 -> exists c1, con_ok c1 /\ printed 94 a c c1 /\ printed 91 a c1 c').
Proof.
  intros H Hch. destruct (decide (ch = 27)) as [->|Hne].
  - destruct (putchara_plain 0 94 a c H ltac:(lia) ltac:(lia)) as (c1&H1&Hok1&Hs1&Hx1&Hm1).
    destruct (putchara_plain 0 91 a c1 Hok1 ltac:(lia) ltac:(lia)) as (c2&H2&Hok2&Hs2&Hx2&Hm2).
    exists c2. split_and!; [|done|done|by exists c1].
    assert (E : putchara 27 a c = (c ← console_putchara 2 94 a c; console_putchara 2 91 a c)) by reflexivity.
    rewrite E, H1. exact H2.
  - destruct (putchara_plain 1 ch a c H Hch Hne) as (c'&Hr&Hok&Hs&Hx&Hm).
    exists c'. by split_and!.
Qed.

(** A 4 by 2 screen with the cursor before the last usable column. *)
Definition con_example : console := Console [0x741; 0x742; 0x743; 0; 0x744; 0x745; 0; 0] 2 4 0 7 2 1 [].
Lemma con_example_ok : con_ok con_example.
Proof. unfold con_ok; simpl. split_and!; try lia. done. Qed.
Lemma console_putchara_spec_witness :
  (exists c', putchara 0x46 7 con_example = Some c'
    /\ videoMemory c' = [0x744; 0x745; 0x746; 0; 0x720; 0x720; 0x720; 0x720] /\ cursory c' = 1)
  /\ exists c1 c', putchara 27 7 con_example = Some c' /\ printed 94 7 con_example c1 /\ printed 91 7 c1 c'.
Proof.
  split.
  - destruct (console_putchara_spec 0x46 7 con_example con_example_ok ltac:(lia)) as (c'&Hr&_&H&_).
    exists c'. split; [exact Hr|]. destruct (H ltac:(lia)) as (_&_&Hm).
    split; [apply (f_equal fst) in Hm|apply (f_equal snd) in Hm]; cbn [fst snd] in Hm; rewrite Hm; reflexivity.
  - destruct (console_putchara_spec 27 7 con_example con_example_ok ltac:(lia)) as (c'&Hr&_&_&H).
    destruct (H eq_refl) as (c1&_&H1&H2). exists c1, c'. split_and!; [exact Hr|exact H1|exact H2].
Defined.

(** A string of any content: the screen stays well-formed. *)
Lemma console_write_total s rest c :
  nonul s -> con_ok c -> exists c', console_write (cstring s ++ rest) c = Some c' /\ con_ok c'.
Proof.
  revert c. induction s as [|x s IH]; intros c Hs Hok; simpl; [by exists c|].
  apply nonul_cons in Hs as [Hx Hs]. destruct (Z.eqb_spec x 0); [done|].
  unfold console_putchar.
  destruct (putchara_total (u8 x) (attribute (dbcolor c) (dfcolor c)) c Hok (u8_range x)) as (c1&->&Hok1&_).
  simpl. apply IH; done.
Qed.
Lemma console_output_total data c :
  con_ok c -> exists c', console_output data c = Some c' /\ con_ok c'.
Proof.
  revert c. induction data as [|x s IH]; intros c Hok; simpl; [by exists c|]. unfold console_putchar.
  destruct (putchara_total (u8 x) (attribute (dbcolor c) (dfcolor c)) c Hok (u8_range x)) as (c1&->&Hok1&_).
  simpl. apply IH; done.
Qed.

(** The cursor-moving request has no upper bound: it can put the cursor
    below the screen, where the next printable character is stored past the
    end of the video memory. *)
Theorem console_movec_leaves_screen c dy :
  con_ok c -> strs_count c <= dy ->
  let c' := consoledev_ioctl 0x2 0 dy c in
  cursory c' = cursory c + dy
  /\ zlen (videoMemory c') <= cursory c' * strs_len c' + cursorx c'.
Proof.
  intros (Hl&Hc&Hz&Hx&Hy) Hd. unfold consoledev_ioctl, console_movec. simpl.
  destruct (0 <=? cursorx c + 0) eqn:?; [|lia]. simpl.
  destruct (0 <=? cursory c + dy) eqn:?; [|lia]. simpl. split; [done|]. rewrite Hz. nia.
Qed.
Lemma console_movec_leaves_screen_witness :
  cursory (consoledev_ioctl 0x2 0 100 con_example) = 101.
Proof. apply (console_movec_leaves_screen con_example 100 con_example_ok). vm_compute. discriminate. Defined.

(** ** The type of the screen

    A screen with a cell of 16 bits for every position, and the operations of
    its users: the writes of the device, the coloured strings of the kernel
    and the request to clear. *)
Definition cell_ok (w : Z) : Prop := 0 <= w < 0x10000.
Definition con_typed (c : console) : Prop := con_ok c /\ Forall cell_ok (videoMemory c).
Inductive con_op := OpWrite (data : list Z) | OpColor (text : list Z) (b f : Z) | OpInt (v base : Z) | OpClear.
Definition con_run (op : con_op) (c : console) : option console :=
  match op with
  | OpWrite data => '(c, _, _) ← consoledev_write data 0 c; Some c
  | OpColor text b f => console_write_color (cstring text) b f c
  | OpInt v base => console_write_int v base c
  | OpClear => Some (consoledev_ioctl 0x1 0 0 c)
  end.
Definition op_ok (op : con_op) : Prop :=
  match op with OpColor text _ _ => nonul text | OpInt v base => 0 <= v < 2 ^ 31 /\ 2 <= base <= 16 | _ => True end.
Fixpoint con_runs (ops : list con_op) (c : console) : option console :=
  match ops with [] => Some c | op :: ops => c ← con_run op c; con_runs ops c end.

Lemma cell_typed ch a : cell_ok (cell ch a).
Proof. apply u16_range. Qed.
Lemma line_break_typed c m : Forall cell_ok m -> Forall cell_ok (line_break c m).1.
Proof.
  intros Hm. unfold line_break. destruct (_ <? _); simpl; [done|]. unfold scroll. apply Forall_app_2; [by apply Forall_drop|].
  apply Forall_replicate, cell_typed.
Qed.
Lemma raw_cells_typed ch a c : Forall cell_ok (videoMemory c) -> Forall cell_ok (raw_cells ch a c).
Proof.
  intros Hm. unfold raw_cells. destruct (32 <=? ch); [|done]. unfold set. destruct (_ <? 0); [done|].
  apply Forall_insert; [done|apply cell_typed].
Qed.
Lemma plain_typed fuel ch a c :
  con_typed c -> 0 <= ch < 256 -> ch <> 27 ->
  exists c', console_putchara (S (S fuel)) ch a c = Some c' /\ con_typed c' /\ same_setup c c'.
Proof.
  intros [Hok Hm] Hch Hne. destruct (putchara_plain fuel ch a c Hok Hch Hne) as (c'&Hr&Hok'&Hs&_&Hv).
  exists c'. split; [done|]. split; [split; [done|]|done].
  apply (f_equal fst) in Hv. simpl in Hv. rewrite Hv. destruct (breaks ch c).
  - apply line_break_typed, raw_cells_typed, Hm.
  - apply raw_cells_typed, Hm.
Qed.
Lemma putchara_typed ch a c :
  con_typed c -> 0 <= ch < 256 -> exists c', putchara ch a c = Some c' /\ con_typed c' /\ same_setup c c'.
Proof.
  intros H Hch. destruct (decide (ch = 27)) as [->|Hne]; [|by apply (plain_typed 1)].
  destruct (plain_typed 0 94 a c H ltac:(lia) ltac:(lia)) as (c1&H1&Hok1&Hs1).
  destruct (plain_typed 0 91 a c1 Hok1 ltac:(lia) ltac:(lia)) as (c2&H2&Hok2&Hs2).
  exists c2. split_and!; [|done|unfold same_setup in *; intuition congruence].
  assert (E : putchara 27 a c = (c ← console_putchara 2 94 a c; console_putchara 2 91 a c)) by reflexivity.
  rewrite E, H1. exact H2.
Qed.
Lemma output_typed data c : con_typed c -> exists c', console_output data c = Some c' /\ con_typed c'.
Proof.
  revert c. induction data as [|x data IH]; intros c H; simpl; [by exists c|]. unfold console_putchar.
  destruct (putchara_typed (u8 x) (attribute (dbcolor c) (dfcolor c)) c H (u8_range x)) as (c1&->&H1&_). by apply IH.
Qed.
Lemma writea_typed s a rest c : nonul s -> con_typed c -> exists c', console_writea (cstring s ++ rest) a c = Some c' /\ con_typed c'.
Proof.
  revert c. induction s as [|x s IH]; intros c Hs H; simpl; [by exists c|]. apply nonul_cons in Hs as [Hx Hs].
  destruct (Z.eqb_spec x 0); [done|].
  destruct (putchara_typed (u8 x) a c H (u8_range x)) as (c1&->&H1&_). by apply IH.
Qed.
Lemma write_typed s rest c : nonul s -> con_typed c -> exists c', console_write (cstring s ++ rest) c = Some c' /\ con_typed c'.
Proof.
  revert c. induction s as [|x s IH]; intros c Hs H; simpl; [by exists c|]. apply nonul_cons in Hs as [Hx Hs].
  destruct (Z.eqb_spec x 0); [done|]. unfold console_putchar.
  destruct (putchara_typed (u8 x) (attribute (dbcolor c) (dfcolor c)) c H (u8_range x)) as (c1&->&H1&_). by apply IH.
Qed.
Lemma clear_typed c : con_typed c -> con_typed (console_clear c).
Proof.
  intros [(Hl&Hc&Hz&Hx&Hy) Hm]. unfold console_clear. set (w := cell 0x20 _).
  assert (exists m, for_range 0 (strs_len c * strs_count c) (fun i m => set m i w) (videoMemory c) = m
    /\ zlen m = zlen (videoMemory c) /\ Forall cell_ok m) as (m&->&Hz'&Hm').
  { eexists. split; [done|]. apply (for_range_ind (fun _ m => zlen m = zlen (videoMemory c) /\ Forall cell_ok m)); [nia|done|].
    intros i m _ [E Hf]. rewrite zlen_set. split; [done|]. unfold set. destruct (i <? 0); [done|].
    apply Forall_insert; [done|apply cell_typed]. }
  split; [|done]. unfold con_ok. simpl. rewrite Hz'. split_and!; done || lia.
Qed.

(** The text of a number. *)
Lemma hexchar_nonzero d : 0 <= d < 16 -> hexchar d <> 0.
Proof.
  intros Hd. assert (forallb (fun d => negb (hexchar d =? 0)) (seqZ 0 16) = true) as H by reflexivity.
  eapply forallb_forall in H; [|apply list_elem_of_In, elem_of_seqZ; exact Hd]. by destruct (Z.eqb_spec (hexchar d) 0).
Qed.
Lemma numeral_nonul base v : 2 <= base <= 16 -> nonul (numeral base v).
Proof.
  intros Hb. unfold numeral. destruct (v =? 0); [by repeat constructor|]. unfold digits. apply Forall_fmap, Forall_reverse.
  eapply Forall_impl; [apply lsd_digits; lia|]. intros d Hd. apply hexchar_nonzero. simpl in Hd. lia.
Qed.
Lemma int_chars_spec v base :
  0 <= v < 2 ^ 31 -> 2 <= base <= 16 -> exists rest, int_chars v base = Some (cstring (numeral base v) ++ rest).
Proof.
  intros Hv Hb. unfold int_chars. destruct (Z.eqb_spec v 0) as [->|Hnz]; [by exists []|].
  destruct (16 <? base) eqn:?; [lia|]. cbn [orb].
  pose proof (itoa_numeral v base (replicate 33 0) ltac:(lia) Hb ltac:(vm_compute; discriminate)) as E.
  unfold itoa in E. destruct (Z.eqb_spec v 0); [done|]. destruct (16 <? base) eqn:?; [lia|].
  destruct (v <? 2 ^ 31) eqn:?; [|lia]. rewrite E. rewrite blit_eq; [by eexists|lia|].
  rewrite zlen_replicate. unfold cstring. rewrite zlen_app. unfold numeral. destruct (v =? 0); [vm_compute; discriminate|].
  pose proof (lsd_length 32 base v). unfold digits. rewrite zlen_fmap, zlen_reverse. change (zlen [0]) with 1.
  remember (lsd 32 base v) as ds eqn:Eds. clear Eds. unfold zlen. lia.
Qed.
Lemma con_run_typed op c : con_typed c -> op_ok op -> exists c', con_run op c = Some c' /\ con_typed c'.
Proof.
  intros H Hop. destruct op as [data|text b f|v base|]; simpl in *.
  - destruct (output_typed data c H) as (c'&E&H'). exists c'. unfold consoledev_write. by rewrite E.
  - unfold console_write_color. rewrite <- (app_nil_r (cstring text)). by apply writea_typed.
  - destruct Hop as [Hv Hb]. destruct (int_chars_spec v base Hv Hb) as [rest E]. unfold console_write_int. rewrite E. simpl.
    apply write_typed; [by apply numeral_nonul|done].
  - exists (console_clear c). split; [done|by apply clear_typed].
Qed.

(** C32: the type of the screen is kept: from a screen of 16-bit cells with
    the cursor on it, any sequence of device writes of any bytes, coloured
    strings, numbers and clearings returns, in such a screen. *)
Theorem console_runs_typed ops c :
  con_typed c -> Forall op_ok ops -> exists c', con_runs ops c = Some c' /\ con_typed c'.
Proof.
  revert c. induction ops as [|op ops IH]; intros c H Hops; [by exists c|]. apply Forall_cons in Hops as [Hop Hops].
  destruct (con_run_typed op c H Hop) as (c1&E&H1). destruct (IH c1 H1 Hops) as (c2&E2&H2).
  exists c2. split; [|done]. cbn [con_runs]. by rewrite E.
Qed.
Lemma console_runs_typed_witness :
  exists c', con_runs [OpWrite [65; 10; 27; 300; 9]; OpColor (str "hi") (-1) 4; OpInt 255 16; OpClear; OpWrite [8; 66]] con_example
    = Some c' /\ con_typed c'.
Proof.
  apply console_runs_typed.
  - split; [exact con_example_ok|]. repeat constructor; unfold cell_ok; lia.
  - repeat constructor; try lia; done.
Defined.
