(* ===== verification/Paging.v ===== *)
(** * Paging: mm/paging.c and include/depthos/paging.h

    Page tables and directories are arrays of 1024 words, in a store indexed
    by their kernel virtual address ([ps_tables]); [ps_fresh] are the
    addresses that the next calls of [kmalloc(4096)] return; [ps_frames] is
    the content of physical frames and [ps_pmm] the frame bitmap.  A pointer
    to a page-table entry is the table's address and an index; an access
    through NULL is undefined, and the model stops. *)
From S2P Require Import Prelude Bitmap Strconv Pmm Heap.

Definition PTE_PRESENT_SHIFT := 0.
Definition PTE_RW_SHIFT := 1.
Definition PTE_USER_SHIFT := 2.
Definition PTE_PWT_SHIFT := 3.
Definition PTE_C_COW_SHIFT := 9.
Definition PTE_ADDR_SHIFT := 12.
Definition PTE_ADDR_MASK := 0xFFFFF.
Definition PTE_EXTRACT_ADDR (v : Z) : Z :=
  u32 (Z.land (Z.shiftr v PTE_ADDR_SHIFT) PTE_ADDR_MASK * PAGE_SIZE).
Definition PDE_EXTRACT_ADDR := PTE_EXTRACT_ADDR.

Definition BITF_M (v : bool) (shift : Z) : Z := Z.shiftl (Z.land (b2z v) 1) shift.
Definition make_pte (frame : Z) (write user : bool) : Z :=
  let pg := 0 in
  let pg := Z.lor pg (BITF_M true PTE_PRESENT_SHIFT) in
  let pg := Z.lor pg (BITF_M true PTE_PWT_SHIFT) in
  let pg := Z.lor pg (BITF_M write PTE_RW_SHIFT) in
  let pg := Z.lor pg (BITF_M user PTE_USER_SHIFT) in
  Z.lor pg (Z.land frame (u32 (Z.shiftl PTE_ADDR_MASK PTE_ADDR_SHIFT))).
(** The directory entry has the same layout. *)
Definition make_pde := make_pte.

Definition pde_index (addr : Z) : Z := addr / (PAGE_SIZE * PAGE_TABLE_SIZE).
Definition pte_index (addr : Z) : Z := (addr / PAGE_SIZE) mod PAGE_TABLE_SIZE.

Record pstate := PState {
  ps_tables : gmap Z (list Z);
  ps_fresh : list Z;
  ps_frames : gmap Z (list Z);
  ps_pmm : bitmap
}.
Definition with_tables (t : gmap Z (list Z)) (s : pstate) := PState t (ps_fresh s) (ps_frames s) (ps_pmm s).
Definition with_frames (f : gmap Z (list Z)) (s : pstate) := PState (ps_tables s) (ps_fresh s) f (ps_pmm s).
Definition with_pmm (p : bitmap) (s : pstate) := PState (ps_tables s) (ps_fresh s) (ps_frames s) p.

(** [t[i]] and [t[i] = v] for the table at [a]. *)
Definition word (s : pstate) (a i : Z) : Z := get 0 (default [] (ps_tables s !! a)) i.
Definition set_word (a i v : Z) (s : pstate) : pstate :=
  with_tables (alter (fun t => set t i v) a (ps_tables s)) s.

Definition zero_table : list Z := replicate 1024 0.
#[global] Arguments zero_table : simpl never.

(** [kmalloc(4096)] and the [memset] to 0 of the result. *)
Definition new_table (s : pstate) : option (pstate * Z) :=
  match ps_fresh s with
  | [] => None
  | a :: rest =>
      if a =? 0 then None
      else Some (PState (<[a := zero_table]> (ps_tables s)) rest (ps_frames s) (ps_pmm s), a)
  end.

(** 0 is NULL. *)
Definition get_pagetable (s : pstate) (pgd vaddr : Z) : Z :=
  let addr := PDE_EXTRACT_ADDR (word s pgd (pde_index vaddr)) in
  if addr =? 0 then 0 else ADDR_TO_VIRT addr.
Definition get_page (s : pstate) (pgd vaddr : Z) : option (Z * Z) :=
  if (1024 <? pde_index vaddr) || (1024 <? pte_index vaddr) then None
  else
    let pde := get_pagetable s pgd vaddr in
    if pde =? 0 then None else Some (pde, pte_index vaddr).

Definition get_phys_addr (s : pstate) (paging_enabled : bool) (pgd vaddr : Z) : Z :=
  if negb paging_enabled then ADDR_TO_PHYS vaddr
  else match get_page s pgd vaddr with
       | None => INVALID_ADDR
       | Some (t, i) => u32 (PTE_EXTRACT_ADDR (word s t i) + PG_OFFSET vaddr)
       end.

(** [None] also stands for the panic without memory. *)
Definition map_page (s : pstate) (pgd vaddr phys : Z) (user : bool) : option pstate :=
  let ti := pde_index vaddr in
  s ← (if negb (ti =? 0) && (PDE_EXTRACT_ADDR (word s pgd ti) =? 0) then
         '(s, tb) ← new_table s;
         Some (set_word pgd (pde_index vaddr) (make_pde (ADDR_TO_PHYS tb) true user) s)
       else Some s);
  '(t, i) ← get_page s pgd vaddr;
  Some (set_word t i (make_pte phys true user) s).

Definition page_set (s : pstate) (pgd vaddr : Z) : bool :=
  match get_page s pgd vaddr with None => false | Some (t, i) => negb (word s t i =? 0) end.

Fixpoint map_addr_fixed_loop (n : nat) (s : pstate) (pgd vaddr pstart i : Z) (user overwrite : bool)
  : option pstate :=
  match n with
  | O => Some s
  | S n =>
      s ← (if page_set s pgd (u32 (vaddr + i * PAGE_SIZE)) && negb overwrite then Some s
           else map_page s pgd (u32 (vaddr + i * PAGE_SIZE)) (u32 (pstart + i * PAGE_SIZE)) user);
      map_addr_fixed_loop n s pgd vaddr pstart (i + 1) user overwrite
  end.
Definition map_addr_fixed (s : pstate) (pgd vaddr pstart npages : Z) (user overwrite : bool) : option pstate :=
  map_addr_fixed_loop (Z.to_nat npages) s pgd (PG_RND_DOWN vaddr) pstart 0 user overwrite.

(** [phys_start] is unsigned: [phys_start < 0] never holds. *)
Definition map_addr (s : pstate) (pgd vaddr npages : Z) (user overwrite : bool) : option (pstate * Z) :=
  let vaddr := PG_RND_DOWN vaddr in
  let '(pmm, phys_start) := pmm_alloc (ps_pmm s) npages in
  let s := with_pmm pmm s in
  if phys_start <? 0 then Some (s, 0) else
  s ← map_addr_fixed s pgd vaddr phys_start npages user overwrite;
  Some (s, phys_start).

Definition unmap_page (s : pstate) (pgd vaddr : Z) : pstate :=
  match get_page s pgd vaddr with None => s | Some (t, i) => set_word t i 0 s end.

(** The freed table leaves the store. *)
Definition unmap_table (s : pstate) (pgd vaddr : Z) : pstate :=
  if 1024 <=? pde_index vaddr then s else
  let taddr := u32 (Z.shiftl (Z.shiftr (word s pgd (pde_index vaddr)) 12) 12) in
  if taddr =? 0 then s else
  let taddr := ADDR_TO_VIRT taddr in
  let s := set_word pgd (pde_index vaddr) 0 s in
  with_tables (delete taddr (ps_tables s)) s.

(** [for (; cur < lim && cur < stop; cur += step) body(cur)]; the result is
    the state and the last [cur]. *)
Fixpoint range_loop (n : nat) (cur lim stop step : Z) (body : pstate -> Z -> pstate) (s : pstate) : pstate * Z :=
  match n with
  | O => (s, cur)
  | S n => if (cur <? lim) && (cur <? stop)
           then range_loop n (u32 (cur + step)) lim stop step body (body s cur)
           else (s, cur)
  end.
Definition unmap_addr (s : pstate) (pgd vaddr npages : Z) (freetbl : bool) : pstate :=
  let cur := vaddr in
  let stop := u32 (vaddr + npages * PAGE_SIZE) in
  let fuel := S (Z.to_nat npages) in
  let '(s, cur) :=
    if freetbl then
      let '(s, cur) := range_loop fuel cur (ROUND_UP vaddr (PAGE_TABLE_SIZE * PAGE_SIZE)) stop PAGE_SIZE
                         (fun s a => unmap_page s pgd a) s in
      range_loop fuel cur (ROUND_DOWN stop (PAGE_TABLE_SIZE * PAGE_SIZE)) stop (PAGE_SIZE * PAGE_TABLE_SIZE)
        (fun s a => unmap_table s pgd a) s
    else (s, cur) in
  (range_loop fuel cur stop stop PAGE_SIZE (fun s a => unmap_page s pgd a) s).1.

(** [*p & ((!( *p << 0)) << 0)]: an entry is either 0 already, or becomes 0. *)
Definition turn_page (p : Z) : Z := Z.land p (Z.shiftl (b2z (u32 (Z.shiftl p PTE_PRESENT_SHIFT) =? 0)) PTE_PRESENT_SHIFT).

(** [a] is the new directory; [kernel_pgd] is copied from entry 768 on. *)
Definition create_pgd (s : pstate) (kernel_pgd : Z) : option (pstate * Z) :=
  '(s, a) ← new_table s;
  let t := blit zero_table (pde_index VIRT_BASE)
             (slice (default [] (ps_tables s !! kernel_pgd)) (pde_index VIRT_BASE)
                (1024 - pde_index VIRT_BASE)) in
  Some (with_tables (<[a := t]> (ps_tables s)) s, a).
Definition dup_pgd (s : pstate) (original : Z) : option (pstate * Z) :=
  '(s, a) ← new_table s;
  Some (with_tables (<[a := default [] (ps_tables s !! original)]> (ps_tables s)) s, a).

(** The inner loop of [clone_pgd]: page [j] of table [i].  The page is read
    under the original directory and written under the new one: both go
    through the frame of the entry. *)
Fixpoint clone_pages (n : nat) (s : pstate) (original table i j : Z) : option pstate :=
  match n with
  | O => Some s
  | S n =>
      '(t, k) ← get_page s original (u32 (i * 1024 * 4096 + j * 4096));
      s ← (if word s t k =? 0 then Some s
           else
             let page := word s t k in
             let '(pmm, frame) := pmm_alloc (ps_pmm s) 1 in
             let pte := make_pte frame (getbit page PTE_RW_SHIFT =? 1) (getbit page PTE_USER_SHIFT =? 1) in
             let s := set_word table j pte (with_pmm pmm s) in
             buffer ← ps_frames s !! PTE_EXTRACT_ADDR page;
             Some (with_frames (<[PTE_EXTRACT_ADDR pte := buffer]> (ps_frames s)) s));
      clone_pages n s original table i (j + 1)
  end.
Fixpoint clone_tables (n : nat) (s : pstate) (original pgd i : Z) : option pstate :=
  match n with
  | O => Some s
  | S n =>
      s ← (if (word s original i =? 0) || (VIRT_BASE <=? u32 (i * 1024 * 4096)) then Some s
           else
             '(s, table) ← new_table s;
             let s := set_word pgd i
                        (make_pde (ADDR_TO_PHYS table)
                           (negb (Z.land (word s original i) (Z.shiftl 1 PTE_RW_SHIFT) =? 0))
                           (negb (Z.land (word s original i) (Z.shiftl 1 PTE_USER_SHIFT) =? 0))) s in
             clone_pages 1024 s original table i 0);
      clone_tables n s original pgd (i + 1)
  end.
Definition clone_pgd (s : pstate) (original : Z) : option (pstate * Z) :=
  '(s, pgd) ← dup_pgd s original;
  s ← clone_tables 1024 s original pgd 0;
  Some (s, pgd).

(** cr3 holds a physical address.  [enable_paging] on the values of cr0 and
    cr4: page-size extensions off, paging on. *)
Definition cr3_of (pgd : Z) : Z := ADDR_TO_PHYS pgd.
Definition pgd_of_cr3 (cr3 : Z) : Z := ADDR_TO_VIRT cr3.
Definition enable_paging (cr0 cr4 : Z) : Z * Z := (Z.lor cr0 0x80000000, Z.land cr4 0xFFFFFFEF).

(** [paging_init]: the four kernel tables and the directory, given by their
    addresses (static arrays). *)
Record kernel_tables := KTables { kernel_pgd : Z; kernel_pgt : Z; heap_1_pgt : Z; heap_2_pgt : Z; heap_3_pgt : Z }.
Definition fill_kernel (t : Z) (s : pstate) : pstate :=
  for_range 0 1024 (fun k s =>
    let i := k * PAGE_SIZE in set_word t (pte_index i) (make_pte i false false) s) s.
(** One heap table; [add]: its frame addresses are computed with an [i +]. *)
Definition fill_heap (t first : Z) (add : bool) (s : pstate) : pstate :=
  for_range 0 PAGE_TABLE_SIZE (fun i s =>
    let offset := u32 ((first + i) * PAGE_SIZE) in
    set_word t (pte_index (u32 (HEAP_BASE + offset)))
      (make_pte (u32 ((if add then i else 0) + ADDR_TO_PHYS HEAP_BASE + offset)) true false) s) s.
Definition set_dirent (pgd t vaddr : Z) (s : pstate) : pstate :=
  set_word pgd (pde_index vaddr) (make_pde (ADDR_TO_PHYS t) true false) s.
Definition paging_init (kt : kernel_tables) (s : pstate) : pstate :=
  let s := fill_kernel (kernel_pgt kt) s in
  let s := fill_heap (heap_1_pgt kt) 0 false s in
  let s := fill_heap (heap_2_pgt kt) PAGE_TABLE_SIZE true s in
  let s := fill_heap (heap_3_pgt kt) (PAGE_TABLE_SIZE * 2) true s in
  let s := set_word (kernel_pgt kt) (pte_index 0) (make_pte 0 false false) s in
  let s := set_dirent (kernel_pgd kt) (kernel_pgt kt) VIRT_BASE s in
  let s := set_dirent (kernel_pgd kt) (heap_1_pgt kt) (VIRT_BASE + 1 * 1024 * 4096) s in
  let s := set_dirent (kernel_pgd kt) (heap_2_pgt kt) (VIRT_BASE + 2 * 1024 * 4096) s in
  set_dirent (kernel_pgd kt) (heap_3_pgt kt) (VIRT_BASE + 3 * 1024 * 4096) s.

(** ** Page-table entries *)
Lemma land_shiftl_small f x : 0 <= f < 4096 -> Z.land f (Z.shiftl x 12) = 0.
Proof.
  intros Hf. apply Z.bits_inj'. intros n Hn. rewrite Z.land_spec, Z.bits_0.
  destruct (decide (n < 12)) as [Hlt|Hge].
  - rewrite Z.shiftl_spec_low by lia. apply andb_false_r.
  - rewrite (Z.bits_above_log2 f n); [done|lia|].
    destruct (decide (f = 0)) as [->|]; [simpl; lia|].
    apply Z.log2_lt_pow2; [lia|]. apply Z.lt_le_trans with (2 ^ 12); [lia|].
    apply Z.pow_le_mono_r; lia.
Qed.

Lemma lor_page f k : 0 <= f < 4096 -> Z.lor f (4096 * k) = f + 4096 * k.
Proof.
  intros Hf. replace (4096 * k) with (Z.shiftl k 12) by (rewrite Z.shiftl_mul_pow2 by lia; lia).
  pose proof (Z.add_lor_land f (Z.shiftl k 12)) as H. rewrite land_shiftl_small in H by done. lia.
Qed.

Lemma land_frame_mask frame :
  0 <= frame < 2 ^ 32 ->
  Z.land frame (u32 (Z.shiftl PTE_ADDR_MASK PTE_ADDR_SHIFT)) = 4096 * (frame / 4096).
Proof.
  intros H. change (u32 (Z.shiftl PTE_ADDR_MASK PTE_ADDR_SHIFT)) with (Z.shiftl (Z.ones 20) 12).
  transitivity (Z.shiftl (Z.shiftr frame 12) 12);
    [|rewrite Z.shiftl_mul_pow2, Z.shiftr_div_pow2 by lia; change (2 ^ 12) with 4096; lia].
  apply Z.bits_inj'. intros n Hn. rewrite Z.land_spec.
  destruct (decide (n < 12)); [rewrite !Z.shiftl_spec_low by lia; apply andb_false_r|].
  rewrite !Z.shiftl_spec by lia. rewrite Z.shiftr_spec by lia. replace (n - 12 + 12) with n by lia.
  destruct (decide (n < 32)).
  - rewrite Z.ones_spec_low by lia. apply andb_true_r.
  - rewrite (Z.bits_above_log2 frame n); [done|lia|].
    destruct (decide (frame = 0)) as [->|]; [simpl; lia|].
    apply Z.log2_lt_pow2; [lia|]. apply Z.lt_le_trans with (2 ^ 32); [lia|].
    apply Z.pow_le_mono_r; lia.
Qed.

Definition pte_flags (write user : bool) : Z := 9 + 2 * b2z write + 4 * b2z user.
Lemma make_pte_eq frame write user :
  0 <= frame < 2 ^ 32 -> make_pte frame write user = pte_flags write user + 4096 * (frame / 4096).
Proof.
  intros H. unfold make_pte. rewrite land_frame_mask by done.
  rewrite <- lor_page by (destruct write, user; unfold pte_flags; simpl; lia).
  f_equal. by destruct write, user.
Qed.

Lemma extract_addr_eq v : 0 <= v < 2 ^ 32 -> PTE_EXTRACT_ADDR v = 4096 * (v / 4096).
Proof.
  intros H. unfold PTE_EXTRACT_ADDR, PTE_ADDR_SHIFT, PTE_ADDR_MASK, PAGE_SIZE.
  rewrite Z.shiftr_div_pow2 by lia. change (2 ^ 12) with 4096.
  assert (0 <= v / 4096 < 2 ^ 20) by (split; [apply Z.div_pos; lia|apply Z.div_lt_upper_bound; lia]).
  change 0xFFFFF with (Z.ones 20). rewrite Z.land_ones by lia. rewrite Z.mod_small by lia.
  rewrite u32_id; lia.
Qed.

Lemma make_pte_range frame write user :
  0 <= frame < 2 ^ 32 -> 0 < make_pte frame write user < 2 ^ 32.
Proof.
  intros H. rewrite make_pte_eq by done.
  assert (0 <= frame / 4096 < 2 ^ 20) by (split; [apply Z.div_pos; lia|apply Z.div_lt_upper_bound; lia]).
  destruct write, user; unfold pte_flags; simpl; lia.
Qed.

Lemma extract_make frame write user :
  0 <= frame < 2 ^ 32 -> PTE_EXTRACT_ADDR (make_pte frame write user) = 4096 * (frame / 4096).
Proof.
  intros H. rewrite extract_addr_eq by (pose proof (make_pte_range frame write user H); lia).
  rewrite make_pte_eq by done. f_equal.
  rewrite Z.mul_comm, Z.div_add by lia.
  rewrite (Z.div_small (pte_flags _ _)); [lia|]. destruct write, user; unfold pte_flags; simpl; lia.
Qed.

(** A page-table entry gives back the frame it was made from, rounded to a
    page, and the flags it was made with; it is always present. *)
Theorem make_pte_roundtrip frame write user :
  0 <= frame < 2 ^ 32 ->
  let pte := make_pte frame write user in
  PTE_EXTRACT_ADDR pte = 4096 * (frame / 4096)
  /\ getbit pte PTE_PRESENT_SHIFT = 1
  /\ getbit pte PTE_RW_SHIFT = b2z write /\ getbit pte PTE_USER_SHIFT = b2z user
  /\ getbit pte PTE_C_COW_SHIFT = 0.
Proof.
  intros H pte. split; [by apply extract_make|].
  unfold pte. rewrite make_pte_eq by done. set (k := frame / 4096).
  assert (Hb : forall n, 0 <= n < 12 ->
     getbit (pte_flags write user + 4096 * k) n = getbit (pte_flags write user) n).
  { intros n Hn. rewrite !getbit_testbit by lia. f_equal.
    rewrite <- (Z.mod_pow2_bits_low _ 12 n) by lia. change (2 ^ 12) with 4096.
    rewrite (Z.mul_comm 4096), Z.mod_add by lia. rewrite Z.mod_small; [done|].
    destruct write, user; unfold pte_flags; simpl; lia. }
  rewrite !Hb by (unfold PTE_PRESENT_SHIFT, PTE_RW_SHIFT, PTE_USER_SHIFT, PTE_C_COW_SHIFT; lia).
  by destruct write, user.
Qed.
Lemma make_pte_roundtrip_witness : PTE_EXTRACT_ADDR (make_pte 0x12345678 true false) = 0x12345000.
Proof. apply (make_pte_roundtrip 0x12345678 true false). lia. Defined.

(** ** Address spaces *)
Definition table_of (s : pstate) (pgd i : Z) : Z :=
  let addr := PDE_EXTRACT_ADDR (word s pgd i) in if addr =? 0 then 0 else ADDR_TO_VIRT addr.
(** The entry of table [i], index [j]; 0 without a table. *)
Definition ent (s : pstate) (pgd i j : Z) : Z :=
  if table_of s pgd i =? 0 then 0 else word s (table_of s pgd i) j.
(** The entry of a page. *)
Definition entry (s : pstate) (pgd vaddr : Z) : Z := ent s pgd (pde_index vaddr) (pte_index vaddr).

(** A table in the store: an aligned kernel address and 1024 words. *)
Definition table_ok (s : pstate) (a : Z) : Prop :=
  VIRT_BASE < a < 2 ^ 32 /\ a mod 4096 = 0 /\
  exists t, ps_tables s !! a = Some t /\ zlen t = 1024 /\ Forall (fun w => 0 <= w < 2 ^ 32) t.

Record pgd_ok (s : pstate) (pgd : Z) : Prop := PgdOk {
  po_pgd : table_ok s pgd;
  po_tables : forall i, 0 <= i < 1024 -> table_of s pgd i <> 0 ->
                table_ok s (table_of s pgd i) /\ table_of s pgd i <> pgd;
  po_inj : forall i j, 0 <= i < 1024 -> 0 <= j < 1024 -> table_of s pgd i <> 0 ->
                table_of s pgd i = table_of s pgd j -> i = j;
  po_low : forall i, PDE_EXTRACT_ADDR (word s pgd i) < 2 ^ 32 - VIRT_BASE
}.
Definition fresh_ok (s : pstate) : Prop :=
  NoDup (ps_fresh s) /\
  forall a, a ∈ ps_fresh s -> VIRT_BASE < a < 2 ^ 32 /\ a mod 4096 = 0 /\ ps_tables s !! a = None.

Lemma index_ranges vaddr : 0 <= vaddr < 2 ^ 32 -> 0 <= pde_index vaddr < 1024 /\ 0 <= pte_index vaddr < 1024.
Proof.
  intros H. unfold pde_index, pte_index, PAGE_SIZE, PAGE_TABLE_SIZE. split.
  - split; [apply Z.div_pos; lia|apply Z.div_lt_upper_bound; lia].
  - apply Z.mod_pos_bound. lia.
Qed.

Lemma index_page a b :
  0 <= a -> 0 <= b -> pde_index a = pde_index b /\ pte_index a = pte_index b <-> a / 4096 = b / 4096.
Proof.
  intros Ha Hb. unfold pde_index, pte_index, PAGE_SIZE, PAGE_TABLE_SIZE.
  change (4096 * 1024) with (4096 * 1024). rewrite <- !Z.div_div by lia.
  split; [|intros ->; done]. intros [H1 H2].
  pose proof (Z.div_mod (a / 4096) 1024 ltac:(lia)). pose proof (Z.div_mod (b / 4096) 1024 ltac:(lia)). lia.
Qed.

Lemma get_page_eq s pgd vaddr :
  0 <= vaddr < 2 ^ 32 ->
  get_page s pgd vaddr = if table_of s pgd (pde_index vaddr) =? 0 then None
                         else Some (table_of s pgd (pde_index vaddr), pte_index vaddr).
Proof.
  intros H. destruct (index_ranges vaddr H) as [Hi Hj]. unfold get_page, get_pagetable.
  destruct (1024 <? pde_index vaddr) eqn:?; [lia|]. destruct (1024 <? pte_index vaddr) eqn:?; [lia|].
  done.
Qed.

Lemma word_set_same s a i v t :
  ps_tables s !! a = Some t -> 0 <= i < zlen t -> word (set_word a i v s) a i = v.
Proof.
  intros Ht Hi. unfold word, set_word; simpl. rewrite lookup_alter_eq, Ht. simpl. by rewrite get_set_eq.
Qed.
Lemma word_set_other s a i v b j : (a, i) <> (b, j) -> word (set_word a i v s) b j = word s b j.
Proof.
  intros Hne. unfold word, set_word; simpl. destruct (decide (a = b)) as [->|Hab].
  - rewrite lookup_alter_eq. destruct (ps_tables s !! b); simpl; [|done]. rewrite get_set_ne; congruence.
  - by rewrite lookup_alter_ne.
Qed.

Lemma table_ok_set s a i v b :
  0 <= v < 2 ^ 32 -> table_ok s b -> table_ok (set_word a i v s) b.
Proof.
  intros Hv (Hr&Hm&t&Ht&Hl&Hf). split; [done|]. split; [done|]. simpl. destruct (decide (a = b)) as [->|Hab].
  - exists (set t i v). rewrite lookup_alter_eq, Ht. split_and!; [done|by rewrite zlen_set|].
    unfold set. destruct (i <? 0); [done|]. by apply Forall_insert.
  - exists t. by rewrite lookup_alter_ne.
Qed.

Lemma word_range s a i : table_ok s a -> 0 <= word s a i < 2 ^ 32.
Proof.
  intros (_&_&t&Ht&_&Hf). unfold word. rewrite Ht. simpl. unfold get. destruct (i <? 0); [lia|].
  destruct (t !! Z.to_nat i) eqn:E; simpl; [|lia]. by apply (Forall_lookup_1 _ _ _ _ Hf E).
Qed.

(** Writing an entry of a table changes that entry and no other. *)
Lemma set_entry_spec s pgd i j v :
  pgd_ok s pgd -> 0 <= i < 1024 -> 0 <= j < 1024 -> 0 <= v < 2 ^ 32 -> table_of s pgd i <> 0 ->
  let s' := set_word (table_of s pgd i) j v s in
  pgd_ok s' pgd
  /\ (forall k, table_of s' pgd k = table_of s pgd k)
  /\ forall i' j', 0 <= i' < 1024 ->
       ent s' pgd i' j' = if (i' =? i) && (j' =? j) then v else ent s pgd i' j'.
Proof.
  intros H Hi Hj Hv Hnz s'. destruct (po_tables _ _ H i Hi Hnz) as [Hok Hne].
  assert (Htab : forall k, table_of s' pgd k = table_of s pgd k).
  { intros k. unfold table_of, s'. rewrite word_set_other; [done|]. congruence. }
  split_and!; [|done|].
  - constructor.
    + apply table_ok_set; [done|apply (po_pgd _ _ H)].
    + intros k Hk. rewrite Htab. intros Hz. destruct (po_tables _ _ H k Hk Hz). split; [|done].
      by apply table_ok_set.
    + intros a b Ha Hb. rewrite !Htab. by apply (po_inj _ _ H).
    + intros k. unfold s'. rewrite word_set_other by congruence. apply (po_low _ _ H).
  - intros i' j' Hi'. unfold ent. rewrite Htab.
    destruct (Z.eqb_spec i' i) as [->|Hii]; rewrite ?andb_true_l, ?andb_false_l.
    + destruct (Z.eqb_spec (table_of s pgd i) 0); [done|]. destruct Hok as (_&_&t&Ht&Hl&_).
      destruct (Z.eqb_spec j' j) as [->|Hjj].
      * apply (word_set_same _ _ _ _ t Ht). lia.
      * apply word_set_other. congruence.
    + destruct (Z.eqb_spec (table_of s pgd i') 0); [done|]. apply word_set_other.
      intros [= E _]. apply Hii. symmetry. by apply (po_inj _ _ H).
Qed.

Lemma fresh_ok_set s a i v : fresh_ok s -> fresh_ok (set_word a i v s).
Proof.
  intros [Hnd Hf]. split; [done|]. intros x Hx. destruct (Hf x Hx) as (?&?&Hn). split_and!; try done; try lia.
  simpl. destruct (decide (a = x)) as [->|]; [by rewrite lookup_alter_eq, Hn|by rewrite lookup_alter_ne].
Qed.

Lemma table_ok_mono s s' a :
  (forall t, ps_tables s !! a = Some t -> ps_tables s' !! a = Some t) -> table_ok s a -> table_ok s' a.
Proof. intros Hm (Hr&Ha&t&Ht&Hl). split; [done|]. split; [done|]. exists t. auto. Qed.

Lemma frame_virt a :
  VIRT_BASE < a < 2 ^ 32 -> a mod 4096 = 0 ->
  0 < ADDR_TO_PHYS a < 2 ^ 32 /\ 4096 * (ADDR_TO_PHYS a / 4096) = ADDR_TO_PHYS a
  /\ ADDR_TO_VIRT (ADDR_TO_PHYS a) = a.
Proof.
  unfold ADDR_TO_PHYS, ADDR_TO_VIRT, VIRT_BASE. intros Ha Hm. rewrite (u32_id (a - _)) by lia.
  split_and!; [lia|lia| |rewrite u32_id; lia].
  pose proof (Z.div_mod (a - 0xC0000000) 4096 ltac:(lia)) as Hd.
  replace (a - 0xC0000000) with (a + (- 786432) * 4096) in * by lia.
  rewrite Z.mod_add in Hd by lia. lia.
Qed.

(** Hanging a fresh, zeroed table into an empty slot changes no entry. *)
Lemma new_table_spec s pgd i write user a rest :
  pgd_ok s pgd -> fresh_ok s -> 0 <= i < 1024 -> table_of s pgd i = 0 -> ps_fresh s = a :: rest ->
  exists s1, new_table s = Some (s1, a) /\
  let s2 := set_word pgd i (make_pde (ADDR_TO_PHYS a) write user) s1 in
  pgd_ok s2 pgd /\ fresh_ok s2 /\ table_of s2 pgd i = a /\ a <> 0
  /\ ps_fresh s2 = rest /\ ps_frames s2 = ps_frames s /\ ps_pmm s2 = ps_pmm s
  /\ (forall k, k <> i -> table_of s2 pgd k = table_of s pgd k)
  /\ forall i' j', 0 <= i' < 1024 -> ent s2 pgd i' j' = ent s pgd i' j'.
Proof.
  intros H [Hnd Hfr] Hi H0 Hf. rewrite Hf in Hnd. apply NoDup_cons in Hnd as [Hna Hnd].
  destruct (Hfr a) as (Ha&Hm&Hnone); [rewrite Hf; set_solver|].
  destruct (frame_virt a Ha Hm) as (Hp&Hpa&Hv).
  unfold new_table. rewrite Hf. destruct (a =? 0) eqn:?; [unfold VIRT_BASE in Ha; lia|].
  eexists. split; [done|]. cbv zeta.
  set (s1 := PState _ rest _ _). set (pde := make_pde (ADDR_TO_PHYS a) write user).
  assert (Hpde : 0 <= pde < 2 ^ 32) by (pose proof (make_pte_range (ADDR_TO_PHYS a) write user ltac:(lia)); unfold pde, make_pde; lia).
  pose proof (po_pgd _ _ H) as Hpgd.
  assert (Hap : a <> pgd) by (intros ->; destruct Hpgd as (_&_&t&Ht&_); congruence).
  assert (Hmono : forall b t, ps_tables s !! b = Some t -> ps_tables s1 !! b = Some t).
  { intros b t Hb. simpl. rewrite lookup_insert_ne; [done|]. intros ->. congruence. }
  assert (Hw1 : forall b k, b <> a -> word s1 b k = word s b k).
  { intros b k Hb. unfold word. simpl. by rewrite lookup_insert_ne by congruence. }
  set (s2 := set_word pgd i pde s1).
  assert (Hti : table_of s2 pgd i = a).
  { unfold table_of, s2. destruct Hpgd as (_&_&t&Ht&Hl&_).
    rewrite (word_set_same _ _ _ _ t) by (by apply Hmono || lia).
    unfold PDE_EXTRACT_ADDR, pde, make_pde. rewrite extract_make by lia. rewrite Hpa.
    destruct (ADDR_TO_PHYS a =? 0) eqn:?; [lia|done]. }
  assert (Htk : forall k, k <> i -> table_of s2 pgd k = table_of s pgd k).
  { intros k Hk. unfold table_of, s2. rewrite word_set_other by congruence. by rewrite Hw1 by congruence. }
  assert (Hoka : table_ok s2 a).
  { split; [done|]. split; [done|]. exists zero_table. simpl. rewrite lookup_alter_ne by congruence.
    rewrite lookup_insert_eq. split_and!; [done|done|]. apply Forall_replicate. lia. }
  assert (Hokm : forall b, table_ok s b -> table_ok s2 b).
  { intros b Hb. apply table_ok_set; [done|]. apply (table_ok_mono s s1); [intros t; apply Hmono|done]. }
  assert (Htna : forall k, 0 <= k < 1024 -> k <> i -> table_of s pgd k <> 0 -> table_of s pgd k <> a).
  { intros k Hk Hki Hz E. destruct (po_tables _ _ H k Hk Hz) as [(_&_&t&Ht&_) _]. congruence. }
  split_and!; try done.
  - constructor; [by apply Hokm| | |].
    + intros k Hk Hz. destruct (decide (k = i)) as [->|Hki]; [by rewrite Hti|].
      rewrite Htk in * by done. destruct (po_tables _ _ H k Hk Hz). split; [by apply Hokm|done].
    + intros k j Hk Hj Hz E. destruct (decide (k = i)) as [->|Hki], (decide (j = i)) as [->|Hji]; try done.
      * rewrite Hti in *. rewrite Htk in E by done.
        exfalso. apply (Htna j Hj Hji); [congruence|done].
      * rewrite Hti in E. rewrite Htk in * by done. exfalso. by apply (Htna k Hk Hki).
      * rewrite !Htk in * by done. by apply (po_inj _ _ H).
    + intros k. destruct (decide (k = i)) as [->|Hki].
      * unfold s2. destruct Hpgd as (_&_&t&Ht&Hl&_).
        rewrite (word_set_same _ _ _ _ t) by (by apply Hmono || lia).
        unfold PDE_EXTRACT_ADDR, pde, make_pde. rewrite extract_make by lia. rewrite Hpa.
        unfold ADDR_TO_PHYS, VIRT_BASE in *. rewrite u32_id; lia.
      * unfold s2. rewrite word_set_other by congruence. rewrite Hw1 by congruence. apply (po_low _ _ H).
  - apply fresh_ok_set. split; [done|]. intros x Hx. simpl in Hx.
    destruct (Hfr x) as (?&?&?); [rewrite Hf; set_solver|]. split_and!; try done; try lia.
    simpl. rewrite lookup_insert_ne; [done|]. intros ->. done.
  - unfold VIRT_BASE in Ha. lia.
  - intros i' j' Hi'. unfold ent. destruct (decide (i' = i)) as [->|Hne].
    + rewrite Hti, H0. destruct (a =? 0) eqn:?; [lia|]. simpl.
      unfold s2. rewrite word_set_other by congruence. unfold word; simpl. rewrite lookup_insert_eq. simpl.
      apply get_replicate.
    + rewrite Htk by done. destruct (Z.eqb_spec (table_of s pgd i') 0); [done|].
      pose proof (Htna i' Hi' Hne n) as Hta. destruct (po_tables _ _ H i' Hi' n) as [_ Htp].
      unfold s2. rewrite word_set_other by congruence. by apply Hw1.
Qed.

(** Whether mapping at [vaddr] finds or makes a table: table 0 is never made. *)
Definition mappable (s : pstate) (pgd vaddr : Z) : Prop :=
  table_of s pgd (pde_index vaddr) <> 0 \/ (pde_index vaddr <> 0 /\ ps_fresh s <> []).

Definition same_page (a b : Z) : bool := a / 4096 =? b / 4096.

Lemma entry_ent s pgd s' vaddr v va :
  0 <= vaddr < 2 ^ 32 -> 0 <= va < 2 ^ 32 ->
  (forall i' j', 0 <= i' < 1024 ->
     ent s' pgd i' j' = if (i' =? pde_index vaddr) && (j' =? pte_index vaddr) then v else ent s pgd i' j') ->
  entry s' pgd va = if same_page va vaddr then v else entry s pgd va.
Proof.
  intros Hv Hva H. unfold entry, same_page. destruct (index_ranges va Hva) as [Hi _].
  rewrite H by done. pose proof (index_page va vaddr ltac:(lia) ltac:(lia)) as Hp.
  destruct (Z.eqb_spec (va / 4096) (vaddr / 4096)) as [E|E].
  - apply Hp in E as [-> ->]. by rewrite !Z.eqb_refl.
  - destruct (Z.eqb_spec (pde_index va) (pde_index vaddr)), (Z.eqb_spec (pte_index va) (pte_index vaddr));
      simpl; try done. tauto.
Qed.

Lemma map_page_spec s pgd vaddr phys user :
  pgd_ok s pgd -> fresh_ok s -> 0 <= vaddr < 2 ^ 32 -> 0 <= phys < 2 ^ 32 -> mappable s pgd vaddr ->
  exists s', map_page s pgd vaddr phys user = Some s' /\ pgd_ok s' pgd /\ fresh_ok s'
    /\ ps_frames s' = ps_frames s /\ ps_pmm s' = ps_pmm s
    /\ (ps_fresh s' = ps_fresh s \/ exists a, ps_fresh s = a :: ps_fresh s')
    /\ (forall k, table_of s pgd k <> 0 -> table_of s' pgd k <> 0)
    /\ table_of s' pgd (pde_index vaddr) <> 0
    /\ forall va, 0 <= va < 2 ^ 32 ->
         entry s' pgd va = if same_page va vaddr then make_pte phys true user else entry s pgd va.
Proof.
  intros H Hf Hv Hph Hmap. destruct (index_ranges vaddr Hv) as [Hi Hj].
  pose proof (make_pte_range phys true user Hph) as Hpte.
  assert (Hfin : forall s1, pgd_ok s1 pgd -> fresh_ok s1 -> table_of s1 pgd (pde_index vaddr) <> 0 ->
    (forall i' j', 0 <= i' < 1024 -> ent s1 pgd i' j' = ent s pgd i' j') ->
    (forall k, table_of s pgd k <> 0 -> table_of s1 pgd k <> 0) ->
    exists s', ('(t, i) ← get_page s1 pgd vaddr; Some (set_word t i (make_pte phys true user) s1)) = Some s'
    /\ pgd_ok s' pgd /\ fresh_ok s' /\ ps_frames s' = ps_frames s1 /\ ps_pmm s' = ps_pmm s1
    /\ ps_fresh s' = ps_fresh s1
    /\ (forall k, table_of s pgd k <> 0 -> table_of s' pgd k <> 0)
    /\ table_of s' pgd (pde_index vaddr) <> 0
    /\ forall va, 0 <= va < 2 ^ 32 ->
         entry s' pgd va = if same_page va vaddr then make_pte phys true user else entry s pgd va).
  { intros s1 H1 Hf1 Hnz Hent Hmono. rewrite get_page_eq by done.
    destruct (Z.eqb_spec (table_of s1 pgd (pde_index vaddr)) 0); [done|]. cbn [mbind option_bind].
    destruct (set_entry_spec s1 pgd (pde_index vaddr) (pte_index vaddr) (make_pte phys true user)
      H1 Hi Hj ltac:(lia) Hnz) as (Hok&Htab&He).
    eexists. split; [done|]. split_and!; try done.
    - by apply fresh_ok_set.
    - intros k Hk. rewrite Htab. by apply Hmono.
    - by rewrite Htab.
    - intros va Hva. apply entry_ent; [done|done|]. intros i' j' Hi'. by rewrite He, Hent. }
  unfold map_page. fold (table_of s pgd (pde_index vaddr)).
  destruct (negb (pde_index vaddr =? 0) && _) eqn:E.
  - apply andb_true_iff in E as [Eti E0].
    assert (Ht0 : table_of s pgd (pde_index vaddr) = 0) by (unfold table_of; by rewrite E0).
    destruct Hmap as [?|[_ Hne]]; [done|]. destruct (ps_fresh s) as [|a rest] eqn:Efr; [done|].
    destruct (new_table_spec s pgd (pde_index vaddr) true user a rest H Hf Hi Ht0 Efr)
      as (s1&Hnew&Hok&Hfo&Hti&Hanz&Hrest&Hframes&Hpmm&Htk&Hent).
    rewrite Hnew. cbn [mbind option_bind].
    destruct (Hfin _ Hok Hfo) as (s'&Hrun&?&?&?&?&?&?&?&?); [by rewrite Hti|done| |].
    { intros k Hk. destruct (decide (k = pde_index vaddr)) as [->|]; [done|]. by rewrite Htk. }
    exists s'. split_and!; try done; try congruence. right. exists a. congruence.
  - cbn [mbind option_bind].
    assert (Hnz : table_of s pgd (pde_index vaddr) <> 0).
    { destruct Hmap as [?|[Hti _]]; [done|]. unfold table_of. apply andb_false_iff in E as [E|E]; [lia|].
      rewrite E. pose proof (po_low _ _ H (pde_index vaddr)) as Hlow.
      pose proof (word_range s pgd (pde_index vaddr) (po_pgd _ _ H)) as Hw.
      unfold ADDR_TO_VIRT, PDE_EXTRACT_ADDR, VIRT_BASE in *. rewrite extract_addr_eq in * by done.
      pose proof (Z.div_pos (word s pgd (pde_index vaddr)) 4096 ltac:(lia) ltac:(lia)).
      rewrite u32_id; lia. }
    destruct (Hfin s H Hf Hnz) as (s'&Hrun&?&?&?&?&?&?&?&?); [done|done|].
    exists s'. split_and!; try done. by left.
Qed.

Lemma page_set_entry s pgd vaddr :
  0 <= vaddr < 2 ^ 32 -> page_set s pgd vaddr = negb (entry s pgd vaddr =? 0).
Proof.
  intros H. unfold page_set, entry, ent. rewrite get_page_eq by done.
  by destruct (table_of s pgd (pde_index vaddr) =? 0).
Qed.

Lemma pde_index_nonzero vaddr : 0x400000 <= vaddr < 2 ^ 32 -> pde_index vaddr <> 0.
Proof.
  intros H E. unfold pde_index, PAGE_SIZE, PAGE_TABLE_SIZE in E. apply Z.div_small_iff in E; lia.
Qed.

Definition in_range (vaddr n va : Z) : bool := (vaddr <=? va) && (va <? vaddr + n * 4096).

Lemma same_page_range vaddr i va :
  vaddr mod 4096 = 0 -> same_page va (vaddr + i * 4096) = in_range (vaddr + i * 4096) 1 va.
Proof.
  intros Hm. unfold same_page, in_range.
  assert (Hd : vaddr = 4096 * (vaddr / 4096)) by (pose proof (Z.div_mod vaddr 4096); lia).
  set (q := vaddr / 4096) in *. clearbody q. subst vaddr.
  replace (4096 * q + i * 4096) with ((q + i) * 4096) by lia. rewrite Z.div_mul by lia.
  pose proof (Z.div_mod va 4096 ltac:(lia)). pose proof (Z.mod_pos_bound va 4096 ltac:(lia)).
  destruct (Z.eqb_spec (va / 4096) (q + i)), ((q + i) * 4096 <=? va) eqn:?, (va <? (q + i) * 4096 + 1 * 4096) eqn:?;
    simpl; try done; lia.
Qed.

Lemma in_range_succ vaddr i n va :
  0 <= n ->
  in_range (vaddr + i * 4096) (Z.succ n) va
  = in_range (vaddr + i * 4096) 1 va || in_range (vaddr + (i + 1) * 4096) n va.
Proof.
  intros Hn. apply eq_true_iff_eq. unfold in_range.
  rewrite orb_true_iff, !andb_true_iff, !Z.leb_le, !Z.ltb_lt. lia.
Qed.

Lemma in_range_disjoint vaddr i n va :
  in_range (vaddr + i * 4096) 1 va = true -> in_range (vaddr + (i + 1) * 4096) n va = false.
Proof.
  unfold in_range. rewrite andb_true_iff, andb_false_iff, Z.leb_le, Z.ltb_lt, Z.leb_gt, Z.ltb_ge. lia.
Qed.

Lemma map_addr_fixed_loop_spec n s pgd vaddr pstart i user overwrite :
  pgd_ok s pgd -> fresh_ok s -> vaddr mod 4096 = 0 -> 0x400000 <= vaddr -> 0 <= i ->
  vaddr + (i + Z.of_nat n) * 4096 <= 2 ^ 32 ->
  0 <= pstart -> pstart + (i + Z.of_nat n) * 4096 <= 2 ^ 32 -> Z.of_nat n <= zlen (ps_fresh s) ->
  exists s', map_addr_fixed_loop n s pgd vaddr pstart i user overwrite = Some s'
    /\ pgd_ok s' pgd /\ fresh_ok s' /\ ps_frames s' = ps_frames s /\ ps_pmm s' = ps_pmm s
    /\ forall va, 0 <= va < 2 ^ 32 ->
         entry s' pgd va
         = if in_range (vaddr + i * 4096) (Z.of_nat n) va && (overwrite || (entry s pgd va =? 0))
           then make_pte (pstart + (4096 * (va / 4096) - vaddr)) true user else entry s pgd va.
Proof.
  revert s i. induction n as [|n IH]; intros s i H Hf Hm Hlo Hi Hva Hp0 Hps Hfresh.
  { exists s. split_and!; try done. intros va Hv.
    change (Z.of_nat 0) with 0. by replace (in_range (vaddr + i * 4096) 0 va) with false by (unfold in_range; lia). }
  cbn [map_addr_fixed_loop]. rewrite Nat2Z.inj_succ in *. unfold PAGE_SIZE. rewrite !u32_id by lia. set (a := vaddr + i * 4096).
  rewrite page_set_entry by lia.
  assert (Hstep : exists s1, (if negb (entry s pgd a =? 0) && negb overwrite then Some s
       else map_page s pgd a (pstart + i * 4096) user) = Some s1
     /\ pgd_ok s1 pgd /\ fresh_ok s1 /\ ps_frames s1 = ps_frames s /\ ps_pmm s1 = ps_pmm s
     /\ Z.of_nat n <= zlen (ps_fresh s1)
     /\ forall va, 0 <= va < 2 ^ 32 -> entry s1 pgd va
          = if same_page va a && (overwrite || (entry s pgd va =? 0))
            then make_pte (pstart + i * 4096) true user else entry s pgd va).
  { assert (Hsame : forall va, 0 <= va < 2 ^ 32 -> same_page va a = true -> entry s pgd va = entry s pgd a).
    { intros va Hv E. unfold same_page in E. apply Z.eqb_eq in E.
      apply index_page in E as [E1 E2]; [|lia|lia]. unfold entry. by rewrite E1, E2. }
    destruct (negb (entry s pgd a =? 0) && negb overwrite) eqn:E.
    - exists s. split_and!; try done; [lia|]. intros va Hv. destruct (same_page va a) eqn:Es; [|done].
      rewrite (Hsame va Hv Es). apply andb_true_iff in E as [E1 E2].
      destruct overwrite; [done|]. by destruct (entry s pgd a =? 0).
    - destruct (map_page_spec s pgd a (pstart + i * 4096) user H Hf ltac:(lia) ltac:(lia))
        as (s1&Hrun&H1&Hf1&Hfr&Hpm&Hfs&_&_&He).
      { right. split; [apply pde_index_nonzero; lia|]. intros En. rewrite En, zlen_nil in Hfresh. lia. }
      exists s1. split_and!; try done.
      + destruct Hfs as [->|[x Hx]]; [lia|]. rewrite Hx, zlen_cons in Hfresh. lia.
      + intros va Hv. rewrite He by done. destruct (same_page va a) eqn:Es; [|done].
        rewrite (Hsame va Hv Es), andb_true_l. by destruct overwrite, (entry s pgd a =? 0). }
  destruct Hstep as (s1&Hrun&H1&Hf1&Hfr1&Hpm1&Hfs1&He1). rewrite Hrun. cbn [mbind option_bind].
  destruct (IH s1 (i + 1)) as (s'&Hrun'&H'&Hf'&Hfr'&Hpm'&He'); try done; try lia.
  exists s'. split_and!; try done; try congruence. intros va Hv. rewrite He', He1 by done.
  unfold a. rewrite same_page_range, in_range_succ by lia.
  destruct (in_range (vaddr + i * 4096) 1 va) eqn:E1.
  - rewrite (in_range_disjoint vaddr i _ va E1). rewrite andb_false_l, orb_true_l, !andb_true_l.
    destruct (overwrite || _) eqn:Eo; [|done]. f_equal.
    rewrite <- same_page_range in E1 by done. unfold same_page in E1. apply Z.eqb_eq in E1.
    rewrite Z.div_add in E1 by lia. pose proof (Z.div_mod vaddr 4096). lia.
  - by rewrite andb_false_l, orb_false_l.
Qed.

(** ** Mapping *)
Lemma PG_RND_DOWN_eq v : 0 <= v < 2 ^ 32 -> PG_RND_DOWN v = 4096 * (v / 4096) /\ 0 <= PG_RND_DOWN v <= v.
Proof.
  intros Hv. unfold PG_RND_DOWN, ROUND_DOWN, PAGE_SIZE.
  pose proof (Z.div_mod v 4096 ltac:(lia)). pose proof (Z.mod_pos_bound v 4096 ltac:(lia)).
  rewrite u32_id; lia.
Qed.

Lemma entry_table s pgd va : entry s pgd va <> 0 -> table_of s pgd (pde_index va) <> 0.
Proof. intros H E. apply H. unfold entry, ent. by rewrite E. Qed.

(** What an address translates to is read off its entry. *)
Lemma get_phys_entry s pgd va frame write user :
  0 <= va < 2 ^ 32 -> 0 <= frame < 2 ^ 32 -> frame mod 4096 = 0 -> frame + va mod 4096 < 2 ^ 32 ->
  entry s pgd va = make_pte frame write user -> get_phys_addr s true pgd va = frame + va mod 4096.
Proof.
  intros Hva Hf Hm Hlt He. pose proof (make_pte_range frame write user Hf) as Hp.
  pose proof (entry_table s pgd va ltac:(lia)) as Ht. unfold get_phys_addr. rewrite get_page_eq by done.
  destruct (Z.eqb_spec (table_of s pgd (pde_index va)) 0) as [|_]; [done|]. cbn [negb].
  unfold entry, ent in He. destruct (Z.eqb_spec (table_of s pgd (pde_index va)) 0) as [|_]; [done|].
  rewrite He, extract_make by done. unfold PG_OFFSET, PAGE_SIZE.
  pose proof (Z.div_mod frame 4096 ltac:(lia)). pose proof (Z.mod_pos_bound va 4096 ltac:(lia)).
  rewrite u32_id; lia.
Qed.

(** [map_addr] when frames are left. *)
Lemma map_addr_spec s pgd vaddr n user overwrite :
  let base := PG_RND_DOWN vaddr in
  pgd_ok s pgd -> fresh_ok s -> pmm_wf (ps_pmm s) -> 0 <= vaddr < 2 ^ 32 ->
  0x400000 <= base -> 0 < n < 2 ^ 20 -> base + n * 4096 <= 2 ^ 32 -> n <= zlen (ps_fresh s) ->
  bitmap_scan (ps_pmm s) 0 n false <> - EBITMAP ->
  exists s' k, map_addr s pgd vaddr n user overwrite = Some (s', 4096 * k)
    /\ pgd_ok s' pgd /\ fresh_ok s'
    /\ (forall j, k <= j < k + n -> frame_free (ps_pmm s) j /\ frame_used (ps_pmm s') j)
    /\ forall va, 0 <= va < 2 ^ 32 ->
         if in_range base n va && (overwrite || (entry s pgd va =? 0))
         then get_phys_addr s' true pgd va = 4096 * k + (va - base)
         else entry s' pgd va = entry s pgd va.
Proof.
  intros base H Hf Hw Hv Hlo Hn Hhi Hfr Hscan. destruct (PG_RND_DOWN_eq vaddr Hv) as [Hb Hbr].
  fold base in Hb, Hbr. assert (Hbm : base mod 4096 = 0) by (rewrite Hb, Z.mul_comm; by apply Z.mod_mul).
  destruct (pmm_alloc_cases (ps_pmm s) n Hw Hn) as (pmm'&frame&Hrun&Hw'&Hsz&[Hc|(_&?&_)]); [|done].
  destruct Hc as (k&->&_&Hk&Hkn&Hfree&Hused). destruct Hw as [Hbw Hbs].
  unfold map_addr. fold base. rewrite Hrun. destruct (4096 * k <? 0) eqn:?; [lia|].
  unfold map_addr_fixed. clearbody base. replace (PG_RND_DOWN base) with base.
  2: { destruct (PG_RND_DOWN_eq base ltac:(lia)) as [-> _]. pose proof (Z.div_mod base 4096). lia. }
  set (s1 := with_pmm pmm' s).
  assert (H1 : pgd_ok s1 pgd) by (destruct H; by constructor).
  destruct (map_addr_fixed_loop_spec (Z.to_nat n) s1 pgd base (4096 * k) 0 user overwrite H1 Hf Hbm Hlo)
    as (s'&Hr&Hok&Hfo&_&Hpm&He); try (unfold s1; simpl; lia).
  rewrite Hr. cbn [mbind option_bind]. exists s', k. split_and!; try done.
  - intros j Hj. rewrite Hpm. split; [split; [lia|by apply Hfree]|].
    split; [unfold s1; simpl; lia|]. unfold s1; simpl. rewrite Hused by lia.
    destruct (k <=? j) eqn:?, (j <? k + n) eqn:?; try lia. done.
  - intros va Hva. specialize (He va Hva). rewrite Z.add_0_r, Z2Nat.id in He by lia.
    change (entry s1 pgd va) with (entry s pgd va) in He.
    destruct (in_range base n va && _) eqn:E; [|done]. apply andb_true_iff in E as [E _].
    unfold in_range in E. apply andb_true_iff in E as [E1 E2]. zbool.
    pose proof (Z.div_mod va 4096 ltac:(lia)). pose proof (Z.mod_pos_bound va 4096 ltac:(lia)).
    assert (base / 4096 <= va / 4096) by (apply Z.div_le_mono; lia).
    pose proof (Z.div_mod base 4096 ltac:(lia)).
    assert (va / 4096 < base / 4096 + n) by (apply Z.div_lt_upper_bound; lia).
    erewrite get_phys_entry; [|done| | | |exact He]; try lia.
    replace (4096 * k + (4096 * (va / 4096) - base)) with ((k + va / 4096 - base / 4096) * 4096) by lia.
    by apply Z.mod_mul.
Qed.

(** C14: [map_addr] backs a range of pages, in an address space above the
    first 4 MiB, with consecutive frames that were free: every address of the
    range whose page was unmapped (or every one, when overwriting) translates
    to its place in the frames, and every other page keeps its entry. *)
Theorem map_addr_maps s pgd vaddr n user overwrite :
  let base := PG_RND_DOWN vaddr in
  pgd_ok s pgd -> fresh_ok s -> pmm_wf (ps_pmm s) -> 0 <= vaddr < 2 ^ 32 ->
  0x400000 <= base -> 0 < n < 2 ^ 20 -> base + n * 4096 <= 2 ^ 32 -> n <= zlen (ps_fresh s) ->
  bitmap_scan (ps_pmm s) 0 n false <> - EBITMAP ->
  exists s' k, map_addr s pgd vaddr n user overwrite = Some (s', 4096 * k)
    /\ pgd_ok s' pgd /\ fresh_ok s'
    /\ (forall j, k <= j < k + n -> frame_free (ps_pmm s) j /\ frame_used (ps_pmm s') j)
    /\ forall va, 0 <= va < 2 ^ 32 ->
         if in_range base n va && (overwrite || (entry s pgd va =? 0))
         then get_phys_addr s' true pgd va = 4096 * k + (va - base)
         else entry s' pgd va = entry s pgd va.
Proof. apply map_addr_spec. Qed.

(** ** Unmapping *)
Definition between (lo hi x : Z) : bool := (lo <=? x) && (x <? hi).

(** A loop body that clears the entries of one step. *)
Definition clears (pgd step : Z) (body : pstate -> Z -> pstate) : Prop :=
  forall s a, pgd_ok s pgd -> 0 <= a < 2 ^ 32 -> a mod step = 0 ->
    pgd_ok (body s a) pgd /\ forall x, 0 <= x < 2 ^ 32 ->
      entry (body s a) pgd x = if between a (a + step) x then 0 else entry s pgd x.

Lemma between_page a x : a mod 4096 = 0 -> between a (a + 4096) x = same_page x a.
Proof.
  intros Ha. pose proof (same_page_range a 0 x Ha) as H. rewrite Z.add_0_r in H. rewrite H.
  unfold between, in_range. done.
Qed.

Lemma unmap_page_clears pgd : clears pgd 4096 (fun s a => unmap_page s pgd a).
Proof.
  intros s a H Ha Hm. unfold unmap_page. rewrite get_page_eq by done.
  destruct (index_ranges a Ha) as [Hi Hj].
  destruct (Z.eqb_spec (table_of s pgd (pde_index a)) 0) as [E|E].
  - split; [done|]. intros x Hx. rewrite between_page by done. destruct (same_page x a) eqn:Es; [|done].
    unfold same_page in Es. apply Z.eqb_eq, index_page in Es as [E1 E2]; [|lia|lia].
    unfold entry, ent. by rewrite E1, E.
  - destruct (set_entry_spec s pgd (pde_index a) (pte_index a) 0 H Hi Hj ltac:(lia) E) as (Hok&Ht&He).
    split; [done|]. intros x Hx. rewrite between_page by done. by apply entry_ent.
Qed.

Lemma pde_between a x : 0 <= a -> a mod 0x400000 = 0 -> between a (a + 0x400000) x = (pde_index x =? pde_index a).
Proof.
  intros Ha Hm. unfold between, pde_index, PAGE_SIZE, PAGE_TABLE_SIZE.
  change (4096 * 1024) with 0x400000.
  pose proof (Z.div_mod a 0x400000 ltac:(lia)). pose proof (Z.div_mod x 0x400000 ltac:(lia)).
  pose proof (Z.mod_pos_bound x 0x400000 ltac:(lia)).
  apply eq_true_iff_eq. rewrite andb_true_iff, Z.leb_le, Z.ltb_lt, Z.eqb_eq. lia.
Qed.

Lemma shift_down_up v : 0 <= v < 2 ^ 32 -> u32 (Z.shiftl (Z.shiftr v 12) 12) = 4096 * (v / 4096).
Proof.
  intros Hv. rewrite Z.shiftl_mul_pow2, Z.shiftr_div_pow2 by lia. change (2 ^ 12) with 4096.
  pose proof (Z.div_mod v 4096 ltac:(lia)). pose proof (Z.mod_pos_bound v 4096 ltac:(lia)).
  rewrite u32_id; lia.
Qed.

Lemma unmap_table_clears pgd : clears pgd 0x400000 (fun s a => unmap_table s pgd a).
Proof.
  intros s a H Ha Hm. destruct (index_ranges a Ha) as [Hi _]. set (i := pde_index a) in *.
  unfold unmap_table. fold i. destruct (1024 <=? i) eqn:?; [lia|].
  pose proof (word_range s pgd i (po_pgd _ _ H)) as Hw. rewrite shift_down_up by done.
  assert (Hx : PDE_EXTRACT_ADDR (word s pgd i) = 4096 * (word s pgd i / 4096)) by (by apply extract_addr_eq).
  assert (Htab : table_of s pgd i = if 4096 * (word s pgd i / 4096) =? 0 then 0
                                    else ADDR_TO_VIRT (4096 * (word s pgd i / 4096)))
    by (unfold table_of; by rewrite Hx).
  destruct (Z.eqb_spec (4096 * (word s pgd i / 4096)) 0) as [E0|E0].
  { split; [done|]. intros x Hxr. rewrite pde_between by (lia || done). fold i.
    destruct (Z.eqb_spec (pde_index x) i) as [E|]; [|done]. unfold entry, ent. by rewrite E, Htab. }
  rewrite <- Htab. set (tb := table_of s pgd i) in *.
  assert (Htz : tb <> 0).
  { rewrite Htab. unfold ADDR_TO_VIRT. pose proof (po_low _ _ H i) as Hlow. rewrite Hx in Hlow.
    unfold VIRT_BASE in *. pose proof (Z.div_pos (word s pgd i) 4096 ltac:(lia) ltac:(lia)).
    rewrite u32_id; lia. }
  destruct (po_tables _ _ H i Hi Htz) as [Htok Htp]. fold tb in Htp. destruct (po_pgd _ _ H) as (Hpa&Hpm&t&Ht&Hl&Hf).
  set (s1 := set_word pgd i 0 s). set (s2 := with_tables _ s1).
  assert (Hw2 : forall b j, b <> tb -> (pgd, i) <> (b, j) -> word s2 b j = word s b j).
  { intros b j Hb Hne. rewrite <- (word_set_other s pgd i 0 b j Hne). unfold word, s2; simpl.
    by rewrite lookup_delete_ne. }
  assert (Hz2 : word s2 pgd i = 0).
  { rewrite <- (word_set_same s pgd i 0 t Ht ltac:(lia)). unfold word, s2; simpl.
    by rewrite lookup_delete_ne. }
  assert (Htk : forall k, table_of s2 pgd k = if k =? i then 0 else table_of s pgd k).
  { intros k. unfold table_of. destruct (Z.eqb_spec k i) as [->|Hk]; [by rewrite Hz2|].
    by rewrite Hw2 by congruence. }
  assert (Hokm : forall b, b <> tb -> table_ok s b -> table_ok s2 b).
  { intros b Hb Hok. apply (table_ok_mono s1 s2); [|by apply table_ok_set].
    intros u. unfold s2; simpl. by rewrite lookup_delete_ne. }
  split.
  - constructor.
    + apply Hokm; [done|]. exact (po_pgd _ _ H).
    + intros k Hk. rewrite Htk. destruct (Z.eqb_spec k i); [done|]. intros Hz.
      destruct (po_tables _ _ H k Hk Hz). split; [|done]. apply Hokm; [|done].
      intros E. apply n. by apply (po_inj _ _ H).
    + intros k j Hk Hj. rewrite !Htk. destruct (Z.eqb_spec k i), (Z.eqb_spec j i); try done; try congruence.
      by apply (po_inj _ _ H).
    + intros k. destruct (decide (k = i)) as [->|Hk]; [by rewrite Hz2|].
      rewrite Hw2 by congruence. apply (po_low _ _ H).
  - intros x Hxr. rewrite pde_between by (lia || done). fold i. destruct (index_ranges x Hxr) as [Hxi _].
    unfold entry, ent. rewrite Htk. destruct (Z.eqb_spec (pde_index x) i) as [|Hne]; [done|].
    destruct (Z.eqb_spec (table_of s pgd (pde_index x)) 0) as [|Hnz]; [done|].
    apply Hw2; [|].
    + intros E. apply Hne. by apply (po_inj _ _ H).
    + intros [= E _]. destruct (po_tables _ _ H (pde_index x) Hxi Hnz). congruence.
Qed.

(** Once [cur] is past one of the bounds the loop does nothing. *)
Lemma range_loop_done n cur lim stop step body s :
  Z.min lim stop <= cur -> range_loop n cur lim stop step body s = (s, cur).
Proof.
  intros H. destruct n; [done|]. simpl. destruct (cur <? lim) eqn:?, (cur <? stop) eqn:?; try done; lia.
Qed.

Lemma range_loop_clears pgd n cur lim stop step body s :
  clears pgd step body -> pgd_ok s pgd -> 0 < step -> 0 <= cur < 2 ^ 32 -> cur mod step = 0 ->
  cur <= Z.min lim stop < 2 ^ 32 -> Z.min lim stop mod step = 0 -> (Z.min lim stop - cur) / step <= Z.of_nat n ->
  exists s', range_loop n cur lim stop step body s = (s', Z.min lim stop) /\ pgd_ok s' pgd
    /\ forall x, 0 <= x < 2 ^ 32 ->
         entry s' pgd x = if between cur (Z.min lim stop) x then 0 else entry s pgd x.
Proof.
  intros Hb. revert cur s. induction n as [|n IH]; intros cur s H Hst Hc Hcm HM HMm Hn.
  all: destruct (decide (cur = Z.min lim stop)) as [E|E];
    [exists s; rewrite range_loop_done by lia; rewrite <- E; split_and!; try done;
     intros x Hx; unfold between; destruct (cur <=? x) eqn:?, (x <? cur) eqn:?; simpl; done || lia|].
  - assert (0 < (Z.min lim stop - cur) / step); [|lia].
    apply Z.div_str_pos. split; [done|]. apply Z.divide_pos_le; [lia|].
    apply Z.mod_divide; [lia|]. by rewrite Zminus_mod, HMm, Hcm.
  - set (M := Z.min lim stop) in *.
    assert (Hge : cur + step <= M).
    { assert (step <= M - cur); [|lia]. apply Z.divide_pos_le; [lia|].
      apply Z.mod_divide; [lia|]. by rewrite Zminus_mod, HMm, Hcm. }
    cbn [range_loop]. destruct ((cur <? lim) && (cur <? stop)) eqn:Ec;
      [|apply andb_false_iff in Ec as [Ec|Ec]; apply Z.ltb_ge in Ec; unfold M in *; lia].
    destruct (Hb s cur H Hc Hcm) as [Hok He]. rewrite u32_id by lia.
    destruct (IH (cur + step) (body s cur)) as (s'&Hr&Hok'&He'); try done; try lia.
    + rewrite <- (Z.mod_add _ (-1)) by lia. replace (cur + step + -1 * step) with cur by lia. done.
    + replace (M - cur) with (M - (cur + step) + 1 * step) in Hn by lia. rewrite Z.div_add in Hn by lia. lia.
    + exists s'. split_and!; [done|done|]. intros x Hx. rewrite He', He by done. unfold between.
      destruct (cur <=? x) eqn:?, (cur + step <=? x) eqn:?, (x <? M) eqn:?, (x <? cur + step) eqn:?;
        simpl; done || lia.
Qed.

Lemma ROUND_UP_eq v k : 0 < k -> 0 <= v -> v + k <= 2 ^ 32 ->
  v <= ROUND_UP v k < v + k /\ ROUND_UP v k mod k = 0.
Proof.
  intros Hk Hv Hle. unfold ROUND_UP. rewrite (u32_id (v + k - 1)) by lia.
  pose proof (Z.div_mod (v + k - 1) k ltac:(lia)). pose proof (Z.mod_pos_bound (v + k - 1) k ltac:(lia)).
  rewrite u32_id by nia. split; [nia|]. apply Z.mod_mul. lia.
Qed.
Lemma ROUND_DOWN_eq v k : 0 < k -> 0 <= v < 2 ^ 32 ->
  v - k < ROUND_DOWN v k <= v /\ 0 <= ROUND_DOWN v k /\ ROUND_DOWN v k mod k = 0.
Proof.
  intros Hk Hv. unfold ROUND_DOWN.
  pose proof (Z.div_mod v k ltac:(lia)). pose proof (Z.mod_pos_bound v k ltac:(lia)).
  pose proof (Z.div_pos v k ltac:(lia) ltac:(lia)).
  replace (v - v mod k) with (v / k * k) by lia. rewrite u32_id by nia.
  split_and!; [nia|nia|nia|]. apply Z.mod_mul. lia.
Qed.

Lemma div_le_small a n k : 0 < k -> a <= n * k -> a / k <= n.
Proof. intros Hk H. apply Z.div_le_upper_bound; lia. Qed.

Lemma unmap_pages_to pgd n cur lim stop s :
  pgd_ok s pgd -> 0 <= cur < 2 ^ 32 -> cur mod 4096 = 0 -> Z.min lim stop < 2 ^ 32 ->
  Z.min lim stop mod 4096 = 0 -> Z.min lim stop - cur <= Z.of_nat n * 4096 ->
  exists s' cur', range_loop n cur lim stop PAGE_SIZE (fun s a => unmap_page s pgd a) s = (s', cur')
    /\ cur' = Z.max cur (Z.min lim stop) /\ pgd_ok s' pgd
    /\ forall x, 0 <= x < 2 ^ 32 -> entry s' pgd x = if between cur cur' x then 0 else entry s pgd x.
Proof.
  intros H Hc Hcm HM HMm Hn. destruct (decide (Z.min lim stop <= cur)) as [Hle|Hgt].
  - exists s, cur. rewrite range_loop_done by done. split_and!; [done|lia|done|].
    intros x Hx. unfold between. destruct (cur <=? x) eqn:?, (x <? cur) eqn:?; simpl; done || lia.
  - destruct (range_loop_clears pgd n cur lim stop 4096 _ s (unmap_page_clears pgd) H) as (s'&Hr&Hok&He);
      try done; try lia; [by apply div_le_small; lia|].
    exists s', (Z.min lim stop). split_and!; [exact Hr|lia|done|done].
Qed.

(** C15: [unmap_addr] clears the entries of exactly the pages of its range,
    whether it walks the pages or drops whole tables, and leaves the address
    space well-formed. *)
Theorem unmap_addr_unmaps s pgd vaddr n freetbl :
  pgd_ok s pgd -> vaddr mod 4096 = 0 -> 0 <= vaddr -> 0 <= n -> vaddr + n * 4096 <= VIRT_BASE ->
  let s' := unmap_addr s pgd vaddr n freetbl in
  pgd_ok s' pgd
  /\ forall x, 0 <= x < 2 ^ 32 ->
       entry s' pgd x = if in_range vaddr n x then 0 else entry s pgd x.
Proof.
  intros H Hvm Hv Hn Hhi s'. unfold VIRT_BASE in Hhi. unfold s', unmap_addr. clear s'.
  replace (u32 (vaddr + n * PAGE_SIZE)) with (vaddr + n * 4096) by (unfold PAGE_SIZE; rewrite u32_id; lia).
  set (stop := vaddr + n * 4096). set (fuel := S (Z.to_nat n)).
  assert (Hsm : stop mod 4096 = 0) by (unfold stop; by rewrite Z.mod_add).
  assert (Hlast : forall s1 cur, pgd_ok s1 pgd -> vaddr <= cur <= stop -> cur mod 4096 = 0 ->
    (forall x, 0 <= x < 2 ^ 32 -> entry s1 pgd x = if between vaddr cur x then 0 else entry s pgd x) ->
    let s' := (range_loop fuel cur stop stop PAGE_SIZE (fun s a => unmap_page s pgd a) s1).1 in
    pgd_ok s' pgd /\ forall x, 0 <= x < 2 ^ 32 ->
      entry s' pgd x = if in_range vaddr n x then 0 else entry s pgd x).
  { intros s1 cur H1 Hcur Hcm He1.
    destruct (unmap_pages_to pgd fuel cur stop stop s1 H1) as (s2&c2&Hr&->&Hok&He);
      rewrite ?Z.min_id in *; try done; [unfold stop in *; lia..|].
    rewrite Hr. split; [done|]. intros x Hx. rewrite He, He1 by done. unfold between, in_range. fold stop.
    destruct (cur <=? x) eqn:?, (x <? Z.max cur stop) eqn:?, (vaddr <=? x) eqn:?, (x <? cur) eqn:?,
      (x <? stop) eqn:?; simpl; done || lia. }
  destruct freetbl.
  2: { apply Hlast; [done|unfold stop; lia|done|]. intros x Hx. unfold between.
       destruct (vaddr <=? x) eqn:?, (x <? vaddr) eqn:?; simpl; done || lia. }
  change (PAGE_TABLE_SIZE * PAGE_SIZE) with 0x400000. change (PAGE_SIZE * PAGE_TABLE_SIZE) with 0x400000.
  destruct (ROUND_UP_eq vaddr 0x400000) as [Hru Hrum]; [lia..|unfold stop in *; lia|].
  destruct (ROUND_DOWN_eq stop 0x400000) as (Hrd&Hrd0&Hrdm); [lia|unfold stop; lia|].
  set (ru := ROUND_UP vaddr 0x400000) in *. set (rd := ROUND_DOWN stop 0x400000) in *.
  assert (Hm4 : forall k, k mod 0x400000 = 0 -> k mod 4096 = 0).
  { intros k Hk. apply Z.mod_divide in Hk as [q ->]; [|done].
    replace (q * 0x400000) with (q * 1024 * 4096) by lia. by apply Z.mod_mul. }
  destruct (unmap_pages_to pgd fuel vaddr ru stop s H) as (s1&c1&Hr1&->&Hok1&He1).
  1-5: try (unfold stop in *; lia); try done.
  { destruct (Z.min_spec ru stop) as [[_ ->]|[_ ->]]; auto. }
  rewrite Hr1. destruct (decide (rd <= Z.max vaddr (Z.min ru stop))) as [Hle|Hgt].
  - rewrite range_loop_done by lia. apply Hlast; try done; [unfold stop in *; lia|].
    destruct (Z.max_spec vaddr (Z.min ru stop)) as [[_ ->]|[_ ->]]; [|done].
    destruct (Z.min_spec ru stop) as [[_ ->]|[_ ->]]; auto.
  - replace (Z.max vaddr (Z.min ru stop)) with ru in * by lia.
    destruct (range_loop_clears pgd fuel ru rd stop 0x400000 _ s1 (unmap_table_clears pgd) Hok1)
      as (s2&Hr2&Hok2&He2); try done; try lia.
    + by replace (Z.min rd stop) with rd by lia.
    + apply div_le_small; [lia|]. unfold stop, fuel in *. lia.
    + rewrite Hr2. replace (Z.min rd stop) with rd in * by lia. apply Hlast; [done|lia|by apply Hm4|].
      intros x Hx. rewrite He2, He1 by done. unfold between.
      destruct (ru <=? x) eqn:?, (x <? rd) eqn:?, (vaddr <=? x) eqn:?, (x <? ru) eqn:?; simpl; done || lia.
Qed.

(** ** An address space to begin with *)
Lemma zero_table_word s a i : ps_tables s !! a = Some zero_table -> word s a i = 0.
Proof. intros H. unfold word. rewrite H. apply get_replicate. Qed.
Lemma zero_table_ok s a :
  VIRT_BASE < a < 2 ^ 32 -> a mod 4096 = 0 -> ps_tables s !! a = Some zero_table -> table_ok s a.
Proof.
  intros H1 H2 H3. split; [done|]. split; [done|]. exists zero_table.
  split_and!; [done|done|]. apply Forall_replicate. lia.
Qed.
Lemma zero_pgd_ok s pgd :
  VIRT_BASE < pgd < 2 ^ 32 -> pgd mod 4096 = 0 -> ps_tables s !! pgd = Some zero_table ->
  pgd_ok s pgd /\ forall i, table_of s pgd i = 0.
Proof.
  intros H1 H2 H3.
  assert (Ht : forall i, table_of s pgd i = 0).
  { intros i. unfold table_of. by rewrite (zero_table_word _ _ _ H3). }
  split; [|done]. constructor; [by apply zero_table_ok| | |]; intros i; rewrite ?Ht; [done| |].
  - intros j _ _. by rewrite Ht.
  - by rewrite (zero_table_word _ _ _ H3).
Qed.

Definition space_example : pstate :=
  PState {[ 0xC0001000 := zero_table ]} [0xC0002000; 0xC0003000] ∅ pmm_example.
Lemma space_example_ok : pgd_ok space_example 0xC0001000 /\ fresh_ok space_example.
Proof.
  split; [by apply zero_pgd_ok|]. split.
  - repeat constructor; set_solver.
  - intros a Ha. simpl in Ha. assert (a = 0xC0002000 \/ a = 0xC0003000) as [-> | ->] by set_solver; done.
Qed.

Lemma space_example_entry va : entry space_example 0xC0001000 va = 0.
Proof.
  destruct (zero_pgd_ok space_example 0xC0001000) as [_ H]; try done.
  unfold entry, ent. by rewrite H.
Qed.

Lemma map_addr_maps_witness :
  exists s' k, map_addr space_example 0xC0001000 0x400123 2 true false = Some (s', 4096 * k)
    /\ get_phys_addr s' true 0xC0001000 0x401004 = 4096 * k + 4096 + 4.
Proof.
  destruct space_example_ok as [H1 H2].
  destruct (map_addr_maps space_example 0xC0001000 0x400123 2 true false H1 H2 pmm_example_wf)
    as (s'&k&Hr&_&_&Hu&He); [by vm_compute..|].
  exists s', k. split; [done|]. specialize (He 0x401004 ltac:(lia)). rewrite space_example_entry in He.
  change (get_phys_addr s' true 0xC0001000 0x401004 = 4096 * k + (0x401004 - 0x400000)) in He. lia.
Defined.

(** One page mapped, at 0x401000. *)
Definition space_mapped : pstate :=
  default space_example (map_page space_example 0xC0001000 0x401000 0x5000 true).
Lemma space_mapped_ok : pgd_ok space_mapped 0xC0001000 /\ entry space_mapped 0xC0001000 0x401000 <> 0.
Proof.
  destruct space_example_ok as [H1 H2]. unfold space_mapped.
  destruct (map_page_spec space_example 0xC0001000 0x401000 0x5000 true H1 H2) as (s'&Hr&Hok&_&_&_&_&_&_&He);
    [done|done|by right|].
  rewrite Hr. simpl. split; [done|]. by rewrite (He 0x401000 ltac:(lia)).
Qed.
Lemma unmap_addr_unmaps_witness :
  entry space_mapped 0xC0001000 0x401000 <> 0
  /\ entry (unmap_addr space_mapped 0xC0001000 0x400000 2 true) 0xC0001000 0x401000 = 0.
Proof.
  split; [apply space_mapped_ok|].
  destruct (unmap_addr_unmaps space_mapped 0xC0001000 0x400000 2 true) as [_ H];
    [apply space_mapped_ok|done..|].
  by rewrite (H 0x401000 ltac:(lia)).
Defined.

(** ** The kernel's linear map *)
Lemma word_set_eq s a i v b j :
  table_ok s a -> 0 <= i < 1024 ->
  word (set_word a i v s) b j = if (b =? a) && (j =? i) then v else word s b j.
Proof.
  intros (_&_&t&Ht&Hl&_) Hi. destruct (Z.eqb_spec b a) as [->|], (Z.eqb_spec j i) as [->|]; simpl;
    try (apply word_set_other; congruence). apply (word_set_same _ _ _ _ t Ht). lia.
Qed.

Lemma fill_table_spec s t idx v :
  table_ok s t -> (forall i, 0 <= i < 1024 -> idx i = i /\ 0 <= v i < 2 ^ 32) ->
  let s' := for_range 0 1024 (fun i s => set_word t (idx i) (v i) s) s in
  (forall b, table_ok s b -> table_ok s' b)
  /\ forall b j, 0 <= j < 1024 -> word s' b j = if b =? t then v j else word s b j.
Proof.
  intros Ht Hv s'.
  assert (H : (forall b, table_ok s b -> table_ok s' b)
    /\ forall b j, word s' b j = if (b =? t) && between 0 1024 j then v j else word s b j).
  { apply (for_range_ind (fun k s' => (forall b, table_ok s b -> table_ok s' b)
      /\ forall b j, word s' b j = if (b =? t) && between 0 k j then v j else word s b j)); [lia| |].
    - split; [done|]. intros b j. replace (between 0 0 j) with false; [by rewrite andb_false_r|].
      unfold between. destruct (0 <=? j) eqn:?, (j <? 0) eqn:?; simpl; done || lia.
    - intros k s1 Hk [Hok Hw]. destruct (Hv k Hk) as [-> Hvk].
      split; [intros b Hb; apply table_ok_set; [lia|by apply Hok]|].
      intros b j. rewrite word_set_eq, Hw by (auto || lia). destruct (b =? t); [|done].
      rewrite !andb_true_l. unfold between. destruct (Z.eqb_spec j k) as [->|Hjk].
      + destruct (0 <=? k) eqn:?, (k <? k + 1) eqn:?; simpl; done || lia.
      + replace (j <? k + 1) with (j <? k); [done|]. destruct (j <? k) eqn:?, (j <? k + 1) eqn:?; done || lia. }
  destruct H as [H1 H2]. split; [done|]. intros b j Hj. rewrite H2. unfold between.
  destruct (0 <=? j) eqn:?, (j <? 1024) eqn:?; try lia. by rewrite !andb_true_r.
Qed.

Definition kernel_tables_list (kt : kernel_tables) : list Z :=
  [kernel_pgt kt; heap_1_pgt kt; heap_2_pgt kt; heap_3_pgt kt].

Lemma heap_index i k : 0 <= i < 1024 -> 0 <= k < 3 ->
  pte_index (u32 (HEAP_BASE + u32 ((1024 * k + i) * PAGE_SIZE))) = i.
Proof.
  intros Hi Hk. unfold HEAP_BASE, VIRT_BASE, pte_index, PAGE_SIZE, PAGE_TABLE_SIZE.
  rewrite (u32_id ((_ + _) * _)) by lia. rewrite u32_id by lia.
  replace (0xC0000000 + 1 * 1024 * 4096 + (1024 * k + i) * 4096) with ((i + (k + 769) * 1024) * 4096) by lia.
  rewrite Z.div_mul by lia.
  rewrite Z.mod_add by lia. apply Z.mod_small. lia.
Qed.

(** The added index is below a page and is masked off. *)
Lemma heap_frame k i c : 0 <= i < 1024 -> 0 <= k < 3 -> 0 <= c < 1024 ->
  make_pte (u32 (c + ADDR_TO_PHYS HEAP_BASE + u32 ((1024 * k + i) * PAGE_SIZE))) true false
  = make_pte ((1024 * (k + 1) + i) * 4096) true false.
Proof.
  intros Hi Hk Hc. change (ADDR_TO_PHYS HEAP_BASE) with (1024 * 4096). unfold PAGE_SIZE.
  rewrite (u32_id ((_ + _) * _)) by lia. rewrite u32_id by lia.
  rewrite !make_pte_eq by lia. do 2 f_equal. rewrite Z.div_mul by lia.
  replace (c + 1024 * 4096 + (1024 * k + i) * 4096) with (c + (1024 * (k + 1) + i) * 4096) by lia.
  rewrite Z.div_add by lia. rewrite Z.div_small; lia.
Qed.

Lemma fill_kernel_spec t s :
  table_ok s t ->
  (forall b, table_ok s b -> table_ok (fill_kernel t s) b)
  /\ forall b j, 0 <= j < 1024 -> word (fill_kernel t s) b j
       = if b =? t then make_pte (j * 4096) false false else word s b j.
Proof.
  intros Ht. apply (fill_table_spec s t (fun i => pte_index (i * PAGE_SIZE))
    (fun i => make_pte (i * PAGE_SIZE) false false) Ht).
  intros i Hi. unfold pte_index, PAGE_SIZE, PAGE_TABLE_SIZE. rewrite Z.div_mul, Z.mod_small by lia.
  pose proof (make_pte_range (i * 4096) false false). lia.
Qed.

Lemma fill_heap_spec t k first add s :
  table_ok s t -> 0 <= k < 3 -> first = 1024 * k ->
  (forall b, table_ok s b -> table_ok (fill_heap t first add s) b)
  /\ forall b j, 0 <= j < 1024 -> word (fill_heap t first add s) b j
       = if b =? t then make_pte ((1024 * (k + 1) + j) * 4096) true false else word s b j.
Proof.
  intros Ht Hk ->.
  destruct (fill_table_spec s t
    (fun i => pte_index (u32 (HEAP_BASE + u32 ((1024 * k + i) * PAGE_SIZE))))
    (fun i => make_pte (u32 ((if add then i else 0) + ADDR_TO_PHYS HEAP_BASE
                             + u32 ((1024 * k + i) * PAGE_SIZE))) true false) Ht) as [H1 H2].
  - intros i Hi. rewrite heap_index, heap_frame by (destruct add; lia).
    pose proof (make_pte_range ((1024 * (k + 1) + i) * 4096) true false). split; [done|lia].
  - split; [exact H1|]. intros b j Hj. etransitivity; [exact (H2 b j Hj)|].
    destruct (b =? t); [|done]. rewrite heap_frame; destruct add; lia || done.
Qed.

(** The table of the [q]-th 4 MiB of the kernel half. *)
Definition kernel_table (kt : kernel_tables) (q : Z) : Z :=
  if q =? 0 then kernel_pgt kt else if q =? 1 then heap_1_pgt kt
  else if q =? 2 then heap_2_pgt kt else heap_3_pgt kt.

Definition kt_ok (kt : kernel_tables) (s : pstate) : Prop :=
  NoDup (kernel_pgd kt :: kernel_tables_list kt) /\
  forall a, a ∈ kernel_pgd kt :: kernel_tables_list kt ->
    VIRT_BASE < a < 2 ^ 32 /\ a mod 4096 = 0 /\ ps_tables s !! a = Some zero_table.

Lemma kernel_table_in kt q : 0 <= q < 4 -> kernel_table kt q ∈ kernel_tables_list kt.
Proof.
  intros H. unfold kernel_table, kernel_tables_list.
  destruct (q =? 0), (q =? 1), (q =? 2); set_solver.
Qed.

Lemma kernel_table_inj kt s q q' :
  kt_ok kt s -> 0 <= q < 4 -> 0 <= q' < 4 -> kernel_table kt q = kernel_table kt q' -> q = q'.
Proof.
  intros [Hnd _] Hq Hq'. unfold kernel_tables_list in Hnd. rewrite !NoDup_cons in Hnd.
  assert (q = 0 \/ q = 1 \/ q = 2 \/ q = 3) as [-> | [-> | [-> | ->]]] by lia;
  assert (q' = 0 \/ q' = 1 \/ q' = 2 \/ q' = 3) as [-> | [-> | [-> | ->]]] by lia; try done;
  unfold kernel_table; simpl; intros E; exfalso; set_solver.
Qed.

Lemma set_dirent_spec pgd t va s :
  table_ok s pgd -> 0 <= va < 2 ^ 32 ->
  (forall b, table_ok s b -> table_ok (set_dirent pgd t va s) b)
  /\ forall b j, word (set_dirent pgd t va s) b j
       = if (b =? pgd) && (j =? pde_index va) then make_pde (ADDR_TO_PHYS t) true false else word s b j.
Proof.
  intros Hp Hva. destruct (index_ranges va Hva) as [Hi _]. split.
  - intros b Hb. apply table_ok_set; [|done]. unfold make_pde.
    pose proof (make_pte_range (ADDR_TO_PHYS t) true false (u32_range _)). lia.
  - intros b j. by apply word_set_eq.
Qed.

Ltac distinct_tables :=
  repeat match goal with |- context [?a =? ?b] =>
    is_var a; is_var b; rewrite (proj2 (Z.eqb_neq a b)) by congruence end.

(** The words of the tables and of the directory after [paging_init]. *)
Lemma paging_init_words kt s :
  kt_ok kt s ->
  let s' := paging_init kt s in
  (forall b, table_ok s b -> table_ok s' b)
  /\ (forall q j, 0 <= q < 4 -> 0 <= j < 1024 ->
        word s' (kernel_table kt q) j = make_pte ((1024 * q + j) * 4096) (negb (q =? 0)) false)
  /\ (forall j, 0 <= j < 1024 -> word s' (kernel_pgd kt) j
        = if between 768 772 j then make_pde (ADDR_TO_PHYS (kernel_table kt (j - 768))) true false else 0).
Proof.
  intros [Hnd Ha] s'. unfold s'. clear s'. unfold kernel_tables_list in *. destruct kt as [pg t0 t1 t2 t3].
  cbn [kernel_pgd kernel_pgt heap_1_pgt heap_2_pgt heap_3_pgt] in *.
  rewrite !NoDup_cons, !not_elem_of_cons in Hnd. destruct_and!.
  assert (Hok : table_ok s pg /\ table_ok s t0 /\ table_ok s t1 /\ table_ok s t2 /\ table_ok s t3).
  { split_and!; apply zero_table_ok; apply Ha; rewrite !elem_of_cons; auto 6. }
  assert (Hz : forall j, word s pg j = 0) by (intros j; apply zero_table_word, Ha; rewrite elem_of_cons; auto).
  destruct Hok as (Kp&K0&K1&K2&K3). clear Ha. unfold paging_init.
  cbn [kernel_pgd kernel_pgt heap_1_pgt heap_2_pgt heap_3_pgt].
  destruct (fill_kernel_spec t0 s K0) as [Ho0 W0]. set (s0 := fill_kernel t0 s) in *. clearbody s0.
  destruct (fill_heap_spec t1 0 0 false s0) as [Ho1 W1]; [auto|lia|done|]. set (s1 := fill_heap t1 _ _ s0) in *. clearbody s1.
  destruct (fill_heap_spec t2 1 PAGE_TABLE_SIZE true s1) as [Ho2 W2]; [auto|lia|done|]. set (s2 := fill_heap t2 _ _ s1) in *. clearbody s2.
  destruct (fill_heap_spec t3 2 (PAGE_TABLE_SIZE * 2) true s2) as [Ho3 W3]; [auto|lia|done|]. set (s3 := fill_heap t3 _ _ s2) in *. clearbody s3.
  set (s4 := set_word t0 (pte_index 0) (make_pte 0 false false) s3).
  assert (Ho4 : forall b, table_ok s3 b -> table_ok s4 b) by (intros b Hb; by apply table_ok_set).
  assert (W4 : forall b j, word s4 b j = if (b =? t0) && (j =? 0) then make_pte 0 false false else word s3 b j)
    by (intros b j; apply word_set_eq; [auto|done]).
  clearbody s4.
  destruct (set_dirent_spec pg t0 VIRT_BASE s4) as [Ho5 W5]; [auto 6|done|].
  set (s5 := set_dirent pg t0 _ s4) in *. clearbody s5.
  destruct (set_dirent_spec pg t1 (VIRT_BASE + 1 * 1024 * 4096) s5) as [Ho6 W6]; [auto 7|done|].
  set (s6 := set_dirent pg t1 _ s5) in *. clearbody s6.
  destruct (set_dirent_spec pg t2 (VIRT_BASE + 2 * 1024 * 4096) s6) as [Ho7 W7]; [auto 8|done|].
  set (s7 := set_dirent pg t2 _ s6) in *. clearbody s7.
  destruct (set_dirent_spec pg t3 (VIRT_BASE + 3 * 1024 * 4096) s7) as [Ho8 W8]; [auto 9|done|].
  set (s8 := set_dirent pg t3 _ s7) in *. clearbody s8.
  change (pde_index VIRT_BASE) with 768 in *. change (pde_index (VIRT_BASE + 1 * 1024 * 4096)) with 769 in *.
  change (pde_index (VIRT_BASE + 2 * 1024 * 4096)) with 770 in *.
  change (pde_index (VIRT_BASE + 3 * 1024 * 4096)) with 771 in *.
  split_and!; [auto 10| |].
  - intros q j Hq Hj. rewrite W8, W7, W6, W5, W4, W3, W2, W1, W0 by lia.
    assert (q = 0 \/ q = 1 \/ q = 2 \/ q = 3) as [-> | [-> | [-> | ->]]] by lia;
      unfold kernel_table; cbn [Z.eqb kernel_pgt heap_1_pgt heap_2_pgt heap_3_pgt negb Pos.eqb];
      rewrite ?Z.eqb_refl; distinct_tables; rewrite ?andb_false_l, ?andb_true_l; try done.
    destruct (Z.eqb_spec j 0) as [->|]; done.
  - intros j Hj. rewrite W8, W7, W6, W5, W4, W3, W2, W1, W0 by lia.
    rewrite Z.eqb_refl; distinct_tables. rewrite !andb_true_l, !andb_false_l, Hz.
    unfold kernel_table, between.
    destruct (Z.eqb_spec j 771) as [->|]; [done|]. destruct (Z.eqb_spec j 770) as [->|]; [done|].
    destruct (Z.eqb_spec j 769) as [->|]; [done|]. destruct (Z.eqb_spec j 768) as [->|]; [done|].
    destruct (768 <=? j) eqn:?, (j <? 772) eqn:?; simpl; done || lia.
Qed.

(** A directory entry points to the table it was made for. *)
Lemma dirent_table a :
  VIRT_BASE < a < 2 ^ 32 -> a mod 4096 = 0 ->
  PDE_EXTRACT_ADDR (make_pde (ADDR_TO_PHYS a) true false) = ADDR_TO_PHYS a
  /\ 0 < ADDR_TO_PHYS a < 2 ^ 32 - VIRT_BASE /\ ADDR_TO_VIRT (ADDR_TO_PHYS a) = a.
Proof.
  intros Ha Hm. destruct (frame_virt _ Ha Hm) as (Hr&He&Hv).
  unfold PDE_EXTRACT_ADDR, make_pde. rewrite extract_make, He by lia. split_and!; try done; try lia.
  unfold ADDR_TO_PHYS, VIRT_BASE in *. rewrite u32_id; lia.
Qed.

Lemma linear_index va : 0 <= va < 2 ^ 32 -> in_range VIRT_BASE 4096 va = between 768 772 (pde_index va).
Proof.
  intros Hva. unfold in_range, between, pde_index, VIRT_BASE, PAGE_SIZE, PAGE_TABLE_SIZE.
  pose proof (Z.div_mod va (4096 * 1024) ltac:(lia)). pose proof (Z.mod_pos_bound va (4096 * 1024)).
  apply eq_true_iff_eq. rewrite !andb_true_iff, !Z.leb_le, !Z.ltb_lt. lia.
Qed.

Lemma linear_frame va :
  0 <= va -> (1024 * (pde_index va - 768) + pte_index va) * 4096 + va mod 4096 = va - VIRT_BASE.
Proof.
  intros Hva. unfold pde_index, pte_index, VIRT_BASE, PAGE_SIZE, PAGE_TABLE_SIZE. rewrite <- Z.div_div by lia.
  pose proof (Z.div_mod va 4096 ltac:(lia)). pose proof (Z.div_mod (va / 4096) 1024 ltac:(lia)). lia.
Qed.

(** C16: [paging_init] builds the kernel's linear map: the sixteen megabytes
    from [VIRT_BASE] translate to the physical addresses from 0, nothing else
    is mapped, and the directory is a well-formed address space. *)
Theorem paging_init_linear kt s :
  kt_ok kt s ->
  let s' := paging_init kt s in
  pgd_ok s' (kernel_pgd kt)
  /\ forall va, 0 <= va < 2 ^ 32 ->
       get_phys_addr s' true (kernel_pgd kt) va
       = if in_range VIRT_BASE 4096 va then va - VIRT_BASE else INVALID_ADDR.
Proof.
  intros Hkt s'. destruct (paging_init_words kt s Hkt) as (Hok&Hw&Hd). fold s' in Hok, Hw, Hd. clearbody s'.
  assert (Hin : forall a, a ∈ kernel_pgd kt :: kernel_tables_list kt -> table_ok s' a).
  { intros a Ha. destruct Hkt as [_ H]. destruct (H a Ha) as (?&?&?). by apply Hok, zero_table_ok. }
  assert (Hkr : forall q, 0 <= q < 4 -> table_ok s' (kernel_table kt q) /\ kernel_table kt q <> kernel_pgd kt).
  { intros q Hq. pose proof (kernel_table_in kt q Hq) as Hk.
    split; [apply Hin; by right|]. destruct Hkt as [Hnd _]. apply NoDup_cons in Hnd as [Hnd _].
    intros E. apply Hnd. by rewrite <- E. }
  assert (Hx : forall q, 0 <= q < 4 -> _) by (intros q Hq; destruct (Hkr q Hq) as [(Ha&Hm&_) _];
    exact (dirent_table _ Ha Hm)).
  assert (Ht : forall i, 0 <= i < 1024 -> table_of s' (kernel_pgd kt) i
      = if between 768 772 i then kernel_table kt (i - 768) else 0).
  { intros i Hi. unfold table_of. rewrite Hd by done. destruct (between 768 772 i) eqn:E; [|done].
    unfold between in E. destruct (Hx (i - 768)) as (->&?&->); [lia|].
    destruct (_ =? 0) eqn:?; [lia|done]. }
  split; [constructor|].
  - apply Hin. by left.
  - intros i Hi. rewrite Ht by done. destruct (between 768 772 i) eqn:E; [|done]. intros _.
    apply Hkr. unfold between in E. lia.
  - intros i j Hi Hj. rewrite !Ht by done. destruct (between 768 772 i) eqn:E; [|done].
    unfold between in *. intros Hz. destruct (between 768 772 j) eqn:E'; unfold between in *; rewrite E'; [|done].
    intros Ek. apply (kernel_table_inj kt s) in Ek; try done; lia.
  - intros i. destruct (decide (0 <= i < 1024)) as [Hi|Hi].
    + rewrite Hd by done. destruct (between 768 772 i) eqn:E; [|done].
      unfold between in E. destruct (Hx (i - 768)) as (->&?&_); lia.
    + replace (word s' (kernel_pgd kt) i) with 0; [done|].
      destruct (Hin (kernel_pgd kt)) as (_&_&t&Htb&Hl&_); [by left|]. unfold word. rewrite Htb.
      symmetry. apply get_out. simpl. lia.
  - intros va Hva. destruct (index_ranges va Hva) as [Hi Hj].
    rewrite linear_index by done. destruct (between 768 772 (pde_index va)) eqn:E.
    2: { unfold get_phys_addr. rewrite get_page_eq by done. rewrite Ht by done. by rewrite E. }
    assert (Hq : 0 <= pde_index va - 768 < 4) by (unfold between in E; lia).
    set (frame := (1024 * (pde_index va - 768) + pte_index va) * 4096).
    assert (Hfr : frame + va mod 4096 = va - VIRT_BASE) by (apply linear_frame; lia).
    pose proof (Z.mod_pos_bound va 4096 ltac:(lia)).
    rewrite (get_phys_entry s' (kernel_pgd kt) va frame (negb (pde_index va - 768 =? 0)) false); try done.
    + unfold frame. lia.
    + apply Z.mod_mul. lia.
    + unfold VIRT_BASE in Hfr. lia.
    + destruct (Hkr _ Hq) as [(Hk&_) _]. unfold entry, ent. rewrite Ht, E by done.
      destruct (Z.eqb_spec (kernel_table kt (pde_index va - 768)) 0); [unfold VIRT_BASE in Hk; lia|].
      by rewrite Hw.
Qed.

Definition boot_tables : kernel_tables := KTables 0xC0100000 0xC0101000 0xC0102000 0xC0103000 0xC0104000.
Definition boot_state : pstate :=
  PState (list_to_map (map (fun a => (a, zero_table)) (kernel_pgd boot_tables :: kernel_tables_list boot_tables)))
    [] ∅ pmm_example.
Lemma paging_init_linear_witness :
  get_phys_addr (paging_init boot_tables boot_state) true (kernel_pgd boot_tables) 0xC00B8000 = 0xB8000
  /\ get_phys_addr (paging_init boot_tables boot_state) true (kernel_pgd boot_tables) 0x1000 = INVALID_ADDR.
Proof.
  destruct (paging_init_linear boot_tables boot_state) as [_ H].
  - split; [by apply (bool_decide_unpack _); vm_compute|].
    intros a Ha. unfold kernel_tables_list in Ha. rewrite !elem_of_cons in Ha. destruct Ha as [-> | [-> | [-> | [-> | [-> | Ha]]]]];
      [split_and!; reflexivity..|by apply elem_of_nil in Ha].
  - split; [by rewrite (H 0xC00B8000 ltac:(lia))|by rewrite (H 0x1000 ltac:(lia))].
Defined.
