(* ===== verification/Vmm.v ===== *)
(** * Vmm: mm/vmm.c and include/depthos/vmm.h

    The memory areas of a task: an ordered list of regions that page faults
    populate.  Areas and list entries live in stores indexed by address;
    [vm_fresh] are the addresses that the next [kmalloc]s return.  The
    functions reached through pointers ([load_page] of an area, [mmap] of a
    file) are Section variables. *)
From Stdlib Require Import Sorted.
From S2P Require Import Prelude Bitmap DList Pmm Paging.

Definition MAP_PRIVATE := 0x01.
Definition MAP_FIXED := 0x04.
Definition MAP_ANON := 0x08.
Definition MMAP_BASE := 0x40000000.
Definition TASK_FILETABLE_MAX := 256.

Record vm_area := VmArea {
  n_proc : Z; addr : Z; va_size : Z; limit : Z; n_pages : Z; phys_addr : Z;
  va_pgd : Z; flags : Z; file : Z; file_off : Z; ops : Z
}.
Inductive vm_fault_kind := VM_FAULT_IGNORE | VM_FAULT_CRASH | VM_FAULT_BUSERROR.

(** The part of [current_task] that vmm.c works on: [vm_areas], the stores
    behind it, the file table and the bump index of [mmap]. *)
Record vmm := Vmm {
  vm_entries : gmap Z list_entry;
  vm_areas : option clist;
  vm_store : gmap Z vm_area;
  vm_fresh : list Z;
  errno : Z;
  mmap_bump_idx : Z;
  pgd : Z;
  filetable : list Z;
  vm_pages : pstate
}.
Definition with_errno (e : Z) (s : vmm) := Vmm (vm_entries s) (vm_areas s) (vm_store s) (vm_fresh s) e
  (mmap_bump_idx s) (pgd s) (filetable s) (vm_pages s).
Definition with_store (st : gmap Z vm_area) (s : vmm) := Vmm (vm_entries s) (vm_areas s) st (vm_fresh s)
  (errno s) (mmap_bump_idx s) (pgd s) (filetable s) (vm_pages s).
Definition with_list (h : gmap Z list_entry) (l : clist) (s : vmm) := Vmm h (Some l) (vm_store s) (vm_fresh s)
  (errno s) (mmap_bump_idx s) (pgd s) (filetable s) (vm_pages s).
Definition with_bump (b : Z) (s : vmm) := Vmm (vm_entries s) (vm_areas s) (vm_store s) (vm_fresh s)
  (errno s) b (pgd s) (filetable s) (vm_pages s).
Definition with_pages (p : pstate) (s : vmm) := Vmm (vm_entries s) (vm_areas s) (vm_store s) (vm_fresh s)
  (errno s) (mmap_bump_idx s) (pgd s) (filetable s) p.

(** [kmalloc]: the next fresh address. *)
Definition fresh_addr (s : vmm) : option (vmm * Z) :=
  match vm_fresh s with
  | [] => None
  | a :: rest => Some (Vmm (vm_entries s) (vm_areas s) (vm_store s) rest (errno s) (mmap_bump_idx s)
                         (pgd s) (filetable s) (vm_pages s), a)
  end.
Definition fail (e : Z) (s : vmm) : option (vmm * Z) := Some (with_errno e s, 0).

Definition vma_overlap (a b : vm_area) : bool :=
  if addr b <? addr a then addr a <? u32 (addr b + va_size b) else addr b <? u32 (addr a + va_size a).

Definition new_area (task_pgd a sz fl : Z) : vm_area :=
  VmArea 1 a sz 0 (u32 (ceil_div sz PAGE_SIZE)) 0 task_pgd fl 0 0 0.

(** The walk over [task->vm_areas]; [vma] is the new area's address.  The
    insertion is written as the code has it: between [item->prev] and
    [item->next]. *)
Fixpoint vma_create_walk (fuel : nat) (s : vmm) (l : clist) (vma item : Z) : option (vmm * Z) :=
  match fuel with
  | O => None
  | S fuel =>
      if item =? 0 then
        '(s, e) ← fresh_addr s;
        '(h, l, _) ← list_push (vm_entries s) l vma e;
        Some (with_list h l s, vma)
      else
        en ← vm_entries s !! item;
        area ← vm_store s !! le_value en;
        new ← vm_store s !! vma;
        if vma_overlap area new then
          fail ENOMEM (with_store (delete vma (vm_store s)) s)
        else if addr new <? addr area then
          '(s, e) ← fresh_addr s;
          '(h, l, _) ← list_insert_value (vm_entries s) l (le_prev en) (le_next en) vma e;
          Some (with_list h l s, vma)
        else vma_create_walk fuel s l vma (le_next en)
  end.
Definition vma_create (s : vmm) (a sz fl : Z) : option (vmm * Z) :=
  if negb (a mod PAGE_SIZE =? 0) then fail EINVAL s else
  '(s, vma) ← fresh_addr s;
  let s := with_store (<[vma := new_area (pgd s) a sz fl]> (vm_store s)) s in
  match vm_areas s with
  | None =>
      '(s, e) ← fresh_addr s;
      '(h, l, _) ← list_push (vm_entries s) list_init vma e;
      Some (with_list h l s, vma)
  | Some l => vma_create_walk (S (size (vm_entries s))) s l vma (l_first l)
  end.

Definition vma_deallocate (a : Z) (s : vmm) : vmm := with_store (delete a (vm_store s)) s.

(** The walk to the entry of an area; 0 when the list ends. *)
Fixpoint vma_find (fuel : nat) (s : vmm) (area item : Z) : option Z :=
  match fuel with
  | O => None
  | S fuel =>
      if item =? 0 then Some 0
      else en ← vm_entries s !! item;
           if le_value en =? area then Some item else vma_find fuel s area (le_next en)
  end.

(** [n_proc] is the first word of the area: when [kfree] has released it, that
    word is the allocator's free-list link, which [stale] stands for; the
    other fields are still what they were. *)
Definition vma_dispose (stale : Z) (s : vmm) (area : Z) : option vmm :=
  l ← vm_areas s;
  item ← vma_find (S (size (vm_entries s))) s area (l_first l);
  if item =? 0 then Some s else
  '(h, l) ← list_remove (vm_entries s) l item;
  let s := with_list h l s in
  a ← vm_store s !! area;
  let n := n_proc a - 1 in
  let a := VmArea n (addr a) (va_size a) (limit a) (n_pages a) (phys_addr a) (va_pgd a) (flags a)
             (file a) (file_off a) (ops a) in
  let s := with_store (<[area := a]> (vm_store s)) s in
  let '(s, n) := if n =? 0 then (vma_deallocate area s, stale) else (s, n) in
  Some (with_pages (unmap_addr (vm_pages s) (pgd s) (addr a) (va_size a / PAGE_SIZE) (n =? 0)) s).

Section dispatch.
  (** [file->ops->mmap], [None] when the file has none; and
      [area->ops->load_page] of an operations table, likewise. *)
  Context (file_mmap : Z -> option (vmm -> Z -> option (vmm * Z))).
  Context (load_page : Z -> option (vmm -> Z -> Z -> Z -> option (vmm * vm_fault_kind))).

Definition set_file (f off : Z) (a : vm_area) : vm_area :=
  VmArea (n_proc a) (addr a) (va_size a) (limit a) (n_pages a) (phys_addr a) (va_pgd a) (flags a) f off (ops a).
Definition set_n_pages (n : Z) (a : vm_area) : vm_area :=
  VmArea (n_proc a) (addr a) (va_size a) (limit a) n (phys_addr a) (va_pgd a) (flags a) (file a) (file_off a) (ops a).

(** The result is 0 or -1.  A descriptor outside the table is read all the
    same ([fd > TASK_FILETABLE_MAX] lets 256 through): the model stops. *)
Definition vma_map_file (s : vmm) (area fd offset : Z) : option (vmm * Z) :=
  let fail e s := Some (with_errno e s, -1) in
  if TASK_FILETABLE_MAX <? fd then fail EBADF s else
  f ← (if fd <? 0 then None else filetable s !! Z.to_nat fd);
  if f =? 0 then fail EBADF s else
  match file_mmap f with
  | None => fail ENIMPL s
  | Some mmap =>
      a ← vm_store s !! area;
      let s := with_store (<[area := set_file f (file_off a) a]> (vm_store s)) s in
      if negb (offset mod PAGE_SIZE =? 0) then fail EINVAL s else
      let s := with_store (<[area := set_file f offset a]> (vm_store s)) s in
      '(s, ret) ← mmap s area;
      if negb (ret =? 0) then fail ret s else
      a ← vm_store s !! area;
      let most := PG_RND_UP (va_size a) / PAGE_SIZE in
      if most <? n_pages a
      then Some (with_store (<[area := set_n_pages most a]> (vm_store s)) s, 0)
      else Some (s, 0)
  end.

Definition do_mmap (stale : Z) (s : vmm) (a length prot fl fd offset : Z) : option (vmm * Z) :=
  if length =? 0 then fail EINVAL s else
  if 0x100000000 <=? a + length then fail EOVERFLOW s else
  let stop := a + length in
  if VIRT_BASE <? stop then fail EEXIST s else
  '(s, area) ← vma_create s a (PG_RND_UP length) fl;
  if area =? 0 then Some (s, 0) else
  if (Z.land fl MAP_ANON =? 0) && negb (fd =? 0) then
    '(s, ret) ← vma_map_file s area fd offset;
    if ret <? 0 then s ← vma_dispose stale s area; Some (s, 0) else Some (s, 1)
  else Some (s, 1).

Definition sys_mmap (stale : Z) (s : vmm) (a length prot fl fd offset : Z) : option (vmm * Z) :=
  if (a =? 0) && negb (Z.land fl MAP_FIXED =? 0) then Some (s, INVALID_ADDR) else
  let '(s, a) :=
    if a =? 0 then (with_bump (u32 (mmap_bump_idx s + PG_RND_UP length / PAGE_SIZE)) s,
                    u32 (MMAP_BASE + mmap_bump_idx s * PAGE_SIZE))
    else (s, a) in
  '(s, ret) ← do_mmap stale s a length prot fl fd offset;
  if ret =? 0 then Some (s, - errno s) else Some (s, s32 a).

(** [memset((void* )area->addr, 0, PAGE_SIZE * area->n_pages)], through the
    frames behind the pages. *)
Definition zero_frame : list Z := replicate 4096 0.
#[global] Arguments zero_frame : simpl never.
Definition zero_pages (s : pstate) (d a n : Z) : pstate :=
  for_range 0 n (fun i s => with_frames (<[get_phys_addr s true d (u32 (a + i * PAGE_SIZE)) := zero_frame]> (ps_frames s)) s) s.

Fixpoint vma_pagefault_walk (fuel : nat) (s : vmm) (is_kernel_task present write : bool) (cr2 item : Z)
  : option (vmm * vm_fault_kind) :=
  match fuel with
  | O => None
  | S fuel =>
      if item =? 0 then Some (s, VM_FAULT_CRASH) else
      en ← vm_entries s !! item;
      let ptr := le_value en in
      area ← vm_store s !! ptr;
      if (addr area <=? cr2) && (cr2 <? u32 (addr area + va_size area)) then
        if negb present then
          if negb (limit area =? 0) && (u32 (addr area + limit area) <=? cr2)
          then Some (s, VM_FAULT_BUSERROR)
          else
            '(s, st) ←
              (if negb (phys_addr area =? 0) then
                 p ← map_addr_fixed (vm_pages s) (pgd s) (addr area) (phys_addr area) (n_pages area)
                       (negb is_kernel_task) true;
                 Some (with_pages p s, VM_FAULT_IGNORE)
               else match load_page (ops area) with
                    | Some load => load s ptr (PG_RND_DOWN cr2)
                                     (u32 (PG_RND_DOWN cr2 - addr area + file_off area))
                    | None =>
                        '(p, _) ← map_addr (vm_pages s) (pgd s) (addr area) (n_pages area)
                                   (negb is_kernel_task) true;
                        Some (with_pages p s, VM_FAULT_IGNORE)
                    end);
            match st with
            | VM_FAULT_IGNORE =>
                Some (if negb (Z.land (flags area) MAP_ANON =? 0)
                      then with_pages (zero_pages (vm_pages s) (pgd s) (addr area) (n_pages area)) s else s,
                      VM_FAULT_IGNORE)
            | _ => Some (s, st)
            end
        else if write then
          '(t, i) ← get_page (vm_pages s) (pgd s) cr2;
          Some (s, if negb (Z.land (word (vm_pages s) t i) (Z.shiftl 1 PTE_C_COW_SHIFT) =? 0)
                   then VM_FAULT_IGNORE else VM_FAULT_CRASH)
        else vma_pagefault_walk fuel s is_kernel_task present write cr2 (le_next en)
      else vma_pagefault_walk fuel s is_kernel_task present write cr2 (le_next en)
  end.
Definition vma_pagefault_handler (s : vmm) (kernel_pgd err_code cr2 : Z) : option (vmm * vm_fault_kind) :=
  let present := negb (Z.land err_code 0x1 =? 0) in
  let write := negb (Z.land (Z.shiftr err_code 1) 0x1 =? 0) in
  l ← vm_areas s;
  vma_pagefault_walk (S (size (vm_entries s))) s (pgd s =? kernel_pgd) present write cr2 (l_first l).
End dispatch.

(** ** Ordered areas *)
Definition area_valid (a : vm_area) : Prop :=
  0 <= addr a /\ addr a mod 4096 = 0 /\ 0 < va_size a /\ addr a + va_size a <= VIRT_BASE.
Definition area_before (a b : vm_area) : Prop := addr a + va_size a <= addr b.

Definition is_chain (h : gmap Z list_entry) (l : clist) (xs : list (Z * Z)) : Prop :=
  chain h 0 xs 0 /\ NoDup xs.*1 /\ l_first l = hd_or 0 xs /\ l_last l = last_or 0 xs.

(** [s] holds the areas [areas]: entries and areas at distinct addresses,
    linked in the order of their addresses, disjoint, below the kernel. *)
Record areas_rep (s : vmm) (xs : list (Z * Z)) (areas : list vm_area) : Prop := AreasRep {
  ar_list : match vm_areas s with None => xs = [] | Some l => is_chain (vm_entries s) l xs end;
  ar_store : Forall2 (fun x a => vm_store s !! x.2 = Some a) xs areas;
  ar_nodup : NoDup xs.*2;
  ar_sorted : StronglySorted area_before areas;
  ar_valid : Forall area_valid areas;
  ar_fresh : NoDup (vm_fresh s) /\ forall a, a ∈ vm_fresh s -> a <> 0 /\ a ∉ xs.*1 /\ a ∉ xs.*2
}.

Lemma overlap_iff a b :
  area_valid a -> area_valid b ->
  vma_overlap a b = true <-> addr a < addr b + va_size b /\ addr b < addr a + va_size a.
Proof.
  unfold area_valid, VIRT_BASE. intros (?&_&?&?) (?&_&?&?). unfold vma_overlap. rewrite !u32_id by lia.
  destruct (addr b <? addr a) eqn:?; rewrite Z.ltb_lt; lia.
Qed.

(** What the walk computes: the new area takes the place of the first area
    above it. *)
Fixpoint insert_area (new : vm_area) (areas : list vm_area) : option (list vm_area) :=
  match areas with
  | [] => Some [new]
  | a :: rest =>
      if vma_overlap a new then None
      else if addr new <? addr a then Some (new :: rest)
      else (fun r => a :: r) <$> insert_area new rest
  end.

Definition above (new : vm_area) (areas : list vm_area) : list vm_area :=
  filter (fun a => addr new < addr a) areas.
Definition below (new : vm_area) (areas : list vm_area) : list vm_area :=
  filter (fun a => addr a < addr new) areas.

Lemma sorted_above a areas : StronglySorted area_before (a :: areas) -> Forall area_valid (a :: areas) ->
  Forall (fun b => addr a < addr b) areas.
Proof.
  intros Hs Hv. inversion Hs as [|? ? _ Hb]; subst. inversion Hv as [|? ? Ha Hv']; subst.
  unfold area_before in Hb. unfold area_valid in Ha. eapply Forall_impl; [exact Hb|]. simpl. lia.
Qed.

Lemma above_all new areas : Forall (fun b => addr new < addr b) areas -> above new areas = areas /\ below new areas = [].
Proof.
  unfold above, below. induction 1 as [|a l Ha Hl [IH1 IH2]]; [done|]. rewrite !filter_cons.
  destruct (decide (addr new < addr a)), (decide (addr a < addr new)); try lia. by rewrite IH1.
Qed.

Lemma insert_area_eq new areas :
  area_valid new -> Forall area_valid areas -> StronglySorted area_before areas ->
  insert_area new areas
  = if existsb (vma_overlap new) areas then None
    else Some (below new areas ++ new :: tail (above new areas)).
Proof.
  intros Hn. induction areas as [|a areas IH]; intros Hv Hs; [done|].
  pose proof (sorted_above a areas Hs Hv) as Hab.
  inversion Hv as [|? ? Ha Hv']; subst. inversion Hs as [|? ? Hs' Hb]; subst. simpl.
  assert (Hsym : vma_overlap a new = vma_overlap new a).
  { apply eq_true_iff_eq. rewrite !overlap_iff by done. tauto. }
  rewrite Hsym. destruct (vma_overlap new a) eqn:E; [done|]. rewrite orb_false_l.
  assert (Hna : ~ (addr new < addr a + va_size a /\ addr a < addr new + va_size new)).
  { rewrite <- overlap_iff by done. by rewrite E. }
  unfold below, above. rewrite !filter_cons. unfold area_valid in *.
  destruct (addr new <? addr a) eqn:El.
  - rewrite decide_False, decide_True by lia. destruct (above_all new areas) as [H1 H2].
    { eapply Forall_impl; [exact Hab|]. simpl. lia. }
    unfold above, below in H1, H2. rewrite H1, H2. simpl. destruct (existsb _ areas) eqn:Ex; [|done].
    exfalso. apply existsb_exists in Ex as (b&Hin&Hb'). apply list_elem_of_In in Hin.
    rewrite Forall_forall in Hb, Hv', Hab. pose proof (Hv' b Hin). pose proof (Hb b Hin).
    apply overlap_iff in Hb'; [|unfold area_valid; lia..]. unfold area_before in *. lia.
  - rewrite decide_True, decide_False by lia. rewrite IH by done. unfold below, above.
    by destruct (existsb _ areas).
Qed.

(** ** vma_create *)
Lemma fresh_addr_spec s a rest :
  vm_fresh s = a :: rest ->
  exists s', fresh_addr s = Some (s', a) /\ vm_fresh s' = rest /\ vm_entries s' = vm_entries s
    /\ vm_areas s' = vm_areas s /\ vm_store s' = vm_store s /\ errno s' = errno s /\ pgd s' = pgd s
    /\ vm_pages s' = vm_pages s /\ filetable s' = filetable s.
Proof. intros H. unfold fresh_addr. rewrite H. by eexists. Qed.

(** The end of the walk: linking the new area between [pre] and [post]. *)
Lemma link_area s l pre post p0 n0 vma e rest :
  chain (vm_entries s) 0 pre n0 -> chain (vm_entries s) p0 post 0 ->
  NoDup (pre ++ post).*1 -> (pre <> [] -> l_first l = hd_or 0 pre) -> (post <> [] -> l_last l = last_or 0 post) ->
  vm_fresh s = e :: rest -> e <> 0 -> e ∉ (pre ++ post).*1 ->
  exists h' l' s', ('(s, e) ← fresh_addr s;
     '(h, l, _) ← list_insert_value (vm_entries s) l (last_or 0 pre) (hd_or 0 post) vma e;
     Some (with_list h l s, vma)) = Some (with_list h' l' s', vma)
  /\ is_chain h' l' (pre ++ (e, vma) :: post) /\ vm_fresh s' = rest /\ vm_store s' = vm_store s
  /\ errno s' = errno s /\ pgd s' = pgd s /\ vm_pages s' = vm_pages s /\ filetable s' = filetable s.
Proof.
  intros Hpre Hpost Hnd Hf Hl Hfr He Hni.
  destruct (fresh_addr_spec s e rest Hfr) as (s'&->&Hr&Hen&_&Hst&Her&Hp&Hpg&Hft). cbn [mbind option_bind].
  rewrite Hen.
  destruct (list_insert_value_spec (vm_entries s) l pre post n0 p0 e vma) as (h'&l'&->&Hc&H1&H2&_&_); try done.
  exists h', l', s'. split; [done|]. split; [|done]. split; [done|]. split; [|done].
  rewrite fmap_app in *. simpl. apply NoDup_app in Hnd as (?&?&?). apply NoDup_app.
  rewrite NoDup_cons. set_solver.
Qed.

Lemma chain_entry h p x v xs n : chain h p ((x, v) :: xs) n -> h !! x = Some (ListEntry v (hd_or n xs) p) /\ x <> 0.
Proof. intros (?&?&_). done. Qed.

Lemma vma_create_walk_spec fuel s l pre ys areas vma new e rest :
  chain (vm_entries s) 0 (pre ++ ys) 0 -> NoDup (pre ++ ys).*1 ->
  l_first l = hd_or 0 (pre ++ ys) -> l_last l = last_or 0 (pre ++ ys) ->
  Forall2 (fun x a => vm_store s !! x.2 = Some a) ys areas -> vm_store s !! vma = Some new ->
  vm_fresh s = e :: rest -> e <> 0 -> e ∉ (pre ++ ys).*1 -> (length ys < fuel)%nat ->
  match insert_area new areas with
  | None => vma_create_walk fuel s l vma (hd_or 0 ys) = fail ENOMEM (with_store (delete vma (vm_store s)) s)
  | Some areas' => exists h' l' s' ys', vma_create_walk fuel s l vma (hd_or 0 ys) = Some (with_list h' l' s', vma)
      /\ is_chain h' l' (pre ++ ys') /\ Forall2 (fun x a => vm_store s !! x.2 = Some a) ys' areas'
      /\ (exists y1 y2, ys' = y1 ++ (e, vma) :: y2 /\ exists d, ys = y1 ++ d ++ y2 /\ (length d <= 1)%nat)
      /\ vm_fresh s' = rest /\ vm_store s' = vm_store s
      /\ errno s' = errno s /\ pgd s' = pgd s /\ vm_pages s' = vm_pages s /\ filetable s' = filetable s
  end.
Proof.
  intros Hc Hnd Hf Hl Hst Hnew Hfr He Hni Hlen.
  revert pre ys areas Hc Hnd Hf Hl Hst Hni Hlen. induction fuel as [|fuel IH]; intros; [lia|].
  destruct ys as [|[x v] ys], areas as [|a areas]; try (by inversion Hst).
  - cbn [insert_area vma_create_walk hd_or Z.eqb]. rewrite app_nil_r in *.
    destruct (link_area s l pre [] (l_last l) 0 vma e rest) as (h'&l'&s'&Hr&Hch&Hrest);
      rewrite ?app_nil_r; try done.
    unfold list_push. rewrite <- Hl in Hr. destruct (fresh_addr_spec s e rest Hfr) as (s1&Hfs&_).
    exists h', l', s', [(e, vma)]. split; [exact Hr|]. split; [done|]. split; [by repeat constructor|].
    split; [exists [], []; split; [done|]; exists []; split; [done|simpl; lia]|done].
  - apply Forall2_cons in Hst as [Ha Hst]. cbn [insert_area vma_create_walk hd_or].
    pose proof Hc as Hc'. apply chain_app in Hc' as [Hpre Hsuf].
    destruct (chain_entry _ _ _ _ _ _ Hsuf) as [Hx Hx0]. destruct (Z.eqb_spec x 0); [done|].
    rewrite Hx. cbn [mbind option_bind le_value]. simpl in Ha. rewrite Ha, Hnew. cbn [mbind option_bind].
    destruct (vma_overlap a new); [done|]. destruct (addr new <? addr a).
    + cbn [le_prev le_next]. destruct Hsuf as (_&_&Hsuf).
      destruct (link_area s l pre ys x (hd_or 0 ((x, v) :: ys)) vma e rest) as (h'&l'&s'&Hr&Hch&Hrest);
        try done.
      * rewrite fmap_app in *. apply NoDup_app in Hnd as (?&?&[? ?]%NoDup_cons). apply NoDup_app. set_solver.
      * intros Hne. rewrite Hf. by destruct pre as [|[]].
      * intros Hne. rewrite Hl, last_or_comp, last_or_cons. by apply last_or_change.
      * rewrite fmap_app in *. set_solver.
      * exists h', l', s', ((e, vma) :: ys). split; [exact Hr|]. split; [done|]. split; [by constructor|].
        split; [|done]. exists [], ys. split; [done|]. exists [(x, v)]. split; [done|simpl; lia].
    + cbn [le_next]. specialize (IH (pre ++ [(x, v)]) ys areas).
      rewrite <- !app_assoc in IH. simpl in IH. simpl in Hlen.
      specialize (IH Hc Hnd Hf Hl Hst Hni ltac:(lia)).
      destruct (insert_area new areas) as [areas'|]; [|exact IH].
      destruct IH as (h'&l'&s'&ys'&Hr&Hch&Hst'&(y1&y2&->&d&->&Hd)&Hrest).
      exists h', l', s', ((x, v) :: y1 ++ (e, vma) :: y2). split; [exact Hr|]. rewrite <- app_assoc in Hch.
      split; [done|]. split; [by constructor|]. split; [|done].
      exists ((x, v) :: y1), y2. split; [done|]. by exists d.
Qed.

Lemma insert_area_elem new areas areas' x :
  insert_area new areas = Some areas' -> x ∈ areas' -> x = new \/ x ∈ areas.
Proof.
  revert areas'. induction areas as [|a areas IH]; simpl; intros areas' H Hx; [simplify_eq; set_solver|].
  destruct (vma_overlap a new); [done|]. destruct (addr new <? addr a); [simplify_eq; set_solver|].
  destruct (insert_area new areas) as [r|]; [|done]. simplify_eq/=.
  apply elem_of_cons in Hx as [->|Hx]; [set_solver|]. destruct (IH r eq_refl Hx); set_solver.
Qed.

Lemma insert_area_ordered new areas areas' :
  area_valid new -> Forall area_valid areas -> StronglySorted area_before areas ->
  insert_area new areas = Some areas' -> StronglySorted area_before areas' /\ Forall area_valid areas'.
Proof.
  intros Hn. revert areas'. induction areas as [|a areas IH]; simpl; intros areas' Hv Hs H.
  { simplify_eq. split; [repeat constructor|by constructor]. }
  inversion Hv as [|? ? Ha Hv']; subst. inversion Hs as [|? ? Hs' Hb]; subst.
  destruct (vma_overlap a new) eqn:E; [done|].
  assert (Hno : ~ (addr a < addr new + va_size new /\ addr new < addr a + va_size a)).
  { rewrite <- overlap_iff by done. by rewrite E. }
  unfold area_valid in *. destruct (addr new <? addr a) eqn:El.
  - simplify_eq. split; [|by constructor]. constructor; [done|]. rewrite Forall_forall in *.
    intros x Hx. pose proof (Hb x Hx). unfold area_before in *. lia.
  - destruct (insert_area new areas) as [r|] eqn:Er; [|done]. simplify_eq/=.
    destruct (IH r Hv' Hs' eq_refl) as [H1 H2]. split; [|by constructor]. constructor; [done|].
    rewrite Forall_forall in *. intros x Hx. unfold area_before in *.
    destruct (insert_area_elem _ _ _ _ Er Hx) as [->|Hin]; [lia|by apply Hb].
Qed.

Lemma is_chain_nil h : is_chain h list_init [].
Proof. split_and!; try done. constructor. Qed.

(** [vma_create] on an ordered task. *)
Lemma vma_create_spec s xs areas a sz fl p e rest :
  let new := new_area (pgd s) a sz fl in
  areas_rep s xs areas -> area_valid new -> vm_fresh s = p :: e :: rest ->
  if existsb (vma_overlap new) areas
  then exists s', vma_create s a sz fl = Some (s', 0) /\ errno s' = ENOMEM /\ areas_rep s' xs areas
         /\ vm_pages s' = vm_pages s
  else exists s' xs', vma_create s a sz fl = Some (s', p) /\ p <> 0 /\ errno s' = errno s
         /\ areas_rep s' xs' (below new areas ++ new :: tail (above new areas))
         /\ vm_store s' !! p = Some new /\ vm_pages s' = vm_pages s /\ pgd s' = pgd s.
Proof.
  intros new H Hn Hf. destruct H as [Hlist Hst Hnd Hsort Hval [Hfn Hfr]]. rewrite Hf in Hfn, Hfr.
  apply NoDup_cons in Hfn as [Hpn Hfn]. apply NoDup_cons in Hfn as [Hen Hfn].
  destruct (Hfr p) as (Hp0&Hp1&Hp2); [set_solver|]. destruct (Hfr e) as (He0&He1&He2); [set_solver|].
  destruct (fresh_addr_spec s p (e :: rest) Hf) as (s1&Hfs&Hr1&Hen1&Har1&Hst1&Her1&Hpg1&Hpp1&_).
  set (s2 := with_store (<[p := new]> (vm_store s)) s1).
  assert (Hrun : exists l, is_chain (vm_entries s2) l xs /\
    vma_create s a sz fl = vma_create_walk (S (size (vm_entries s2))) s2 l p (l_first l)).
  { unfold vma_create. destruct Hn as (_&Hm&_). change (addr new) with a in Hm. unfold PAGE_SIZE.
    rewrite Hm, Hfs. cbn [negb Z.eqb mbind option_bind]. rewrite Hpg1, Hst1. fold new s2.
    change (vm_areas s2) with (vm_areas s1). rewrite Har1.
    change (vm_entries s2) with (vm_entries s1). rewrite Hen1.
    destruct (vm_areas s) as [l|]; [by exists l|]. exists list_init. subst xs. split; [apply is_chain_nil|done]. }
  destruct Hrun as (l&(Hc&Hndx&Hlf&Hll)&->).
  assert (Hst2 : Forall2 (fun x a => vm_store s2 !! x.2 = Some a) xs areas).
  { clear -Hst Hp2. unfold s2; simpl. induction Hst as [|[x v] b xs areas Hb Hst IH]; [constructor|].
    simpl in *. constructor; [|apply IH; set_solver]. simpl. rewrite lookup_insert_ne by set_solver. done. }
  pose proof (vma_create_walk_spec (S (size (vm_entries s2))) s2 l [] xs areas p new e rest Hc Hndx Hlf Hll
    Hst2 (lookup_insert_eq _ _ _) Hr1 He0 He1) as Hw. simpl app in Hw.
  rewrite <- Hlf in Hw. specialize (Hw ltac:(pose proof (chain_size _ _ _ _ Hc Hndx); lia)).
  destruct (insert_area new areas) as [areas'|] eqn:Ei; pose proof Ei as Ei'; rewrite insert_area_eq in Ei' by done;
    destruct (existsb _ areas) eqn:Ex; try done.
  - destruct Hw as (h'&l'&s'&ys'&->&Hch&Hst'&(y1&y2&->&d&->&_)&Hfr'&Hss&Her&Hpg&Hpp&_). simplify_eq.
    destruct (insert_area_ordered _ _ _ Hn Hval Hsort Ei) as [Hs' Hv'].
    eexists _, (y1 ++ (e, p) :: y2). split; [done|]. simpl. rewrite Hss, Her, Hpg, Hpp. simpl.
    split_and!; try done; [|by rewrite lookup_insert_eq]. rewrite !fmap_app in *. simpl.
    constructor; simpl; try done.
    + by rewrite Hss.
    + rewrite fmap_app. simpl. apply NoDup_app in Hnd as (?&?&(?&?&?)%NoDup_app). apply NoDup_app.
      rewrite NoDup_cons. set_solver.
    + split; [done|]. intros b Hb. destruct (Hfr b) as (?&?&?); [set_solver|].
      rewrite !fmap_app. simpl. set_solver.
  - rewrite Hw. eexists. split; [done|]. split; [done|]. split; [|done].
    constructor; simpl; try done.
    + rewrite Har1, Hen1. destruct (vm_areas s); done.
    + rewrite delete_insert_eq. clear -Hst Hp2. induction Hst as [|[x v] b xs areas Hb Hst IH]; [constructor|].
      simpl in *. constructor; [|apply IH; set_solver]. simpl. rewrite lookup_delete_ne by set_solver. done.
    + rewrite Hr1. split; [by apply NoDup_cons|]. intros b Hb. apply Hfr. set_solver.
Qed.

(** ** do_mmap *)
(** What [do_mmap] refuses, in the order of its tests. *)
Definition mmap_refused (areas : list vm_area) (task_pgd a length fl : Z) : option Z :=
  if length =? 0 then Some EINVAL
  else if 0x100000000 <=? a + length then Some EOVERFLOW
  else if VIRT_BASE <? a + length then Some EEXIST
  else if negb (a mod 4096 =? 0) then Some EINVAL
  else if existsb (vma_overlap (new_area task_pgd a (PG_RND_UP length) fl)) areas then Some ENOMEM
  else None.

Lemma areas_rep_errno s xs areas e : areas_rep s xs areas -> areas_rep (with_errno e s) xs areas.
Proof. by intros []. Qed.

Lemma new_area_valid d a length fl :
  0 <= a -> 0 < length -> a + length <= VIRT_BASE -> a mod 4096 = 0 ->
  area_valid (new_area d a (PG_RND_UP length) fl).
Proof.
  unfold VIRT_BASE. intros Ha Hl Hle Hm. unfold area_valid, VIRT_BASE. simpl. unfold PG_RND_UP, PAGE_SIZE.
  destruct (ROUND_UP_eq length 4096) as [Hr Hrm]; [lia..|].
  apply Z.mod_divide in Hm as Hd; [|done]. destruct Hd as [x Hx].
  apply Z.mod_divide in Hrm as [r Hr2]; [|done]. split_and!; try done; lia.
Qed.

(** The pages counted for a region: the size in pages, but [ceil_div] takes the
    size as an [int], and from 2 GiB on the count wraps. *)
Definition page_count (sz : Z) : Z := if sz <? 0x80000000 then sz / 4096 else sz / 4096 - 0x100000 + 0x100000000.

Lemma new_area_pages d a length fl :
  0 < length -> length <= VIRT_BASE ->
  n_pages (new_area d a (PG_RND_UP length) fl) = page_count (PG_RND_UP length).
Proof.
  unfold VIRT_BASE. intros Hl Hle. unfold new_area, page_count. cbn [n_pages].
  unfold PG_RND_UP, PAGE_SIZE. destruct (ROUND_UP_eq length 4096) as [Hr Hrm]; [lia..|].
  apply Z.mod_divide in Hrm as [n Hn]; [|done]. rewrite Hn, Z.div_mul, (Z.mul_comm n) by lia.
  rewrite ceil_div_pages by lia.
  destruct (n <? 0x80000) eqn:?, (4096 * n <? 0x80000000) eqn:?; try lia; [by rewrite u32_id by lia|].
  rewrite u32_neg by lia. lia.
Qed.


(** Two areas, mapped upwards and downwards. *)
Definition task_example : vmm :=
  Vmm ∅ None ∅ [0xC0500000; 0xC0500040; 0xC0500080; 0xC05000C0; 0xC0500100; 0xC0500140] 0 0 0xC0001000 [] space_example.
Lemma task_example_rep : areas_rep task_example [] [].
Proof.
  constructor; simpl; try done; try constructor.
  - apply (bool_decide_unpack _). by vm_compute.
  - intros a Ha. split_and!; [|set_solver|set_solver]. revert a Ha. apply Forall_forall.
    by repeat constructor.
Qed.

(** ** Page faults *)
Lemma chain_walk_entry h p pre x v post n :
  chain h p (pre ++ (x, v) :: post) n ->
  h !! x = Some (ListEntry v (hd_or n post) (last_or p pre)) /\ x <> 0.
Proof. intros [_ Hc]%chain_app. by apply chain_entry in Hc. Qed.

(** Whether an area contains an address. *)
Definition in_area (va : Z) (a : vm_area) : bool := (addr a <=? va) && (va <? addr a + va_size a).

Lemma in_area_test a va : area_valid a ->
  ((addr a <=? va) && (va <? u32 (addr a + va_size a))) = in_area va a.
Proof. unfold area_valid, VIRT_BASE. intros (?&_&?&?). unfold in_area. by rewrite u32_id by lia. Qed.

(** The walk passes over the areas that do not contain the address. *)
Lemma pagefault_walk_skip load fuel s kt present write cr2 pre xs areas :
  chain (vm_entries s) 0 (pre ++ xs) 0 -> Forall2 (fun x a => vm_store s !! x.2 = Some a) xs areas ->
  Forall area_valid areas -> (length xs <= fuel)%nat ->
  match list_find (fun a => in_area cr2 a) areas with
  | None => vma_pagefault_walk load (S fuel) s kt present write cr2 (hd_or 0 xs) = Some (s, VM_FAULT_CRASH)
  | Some (i, a) => exists x post fuel', xs !! i = Some x /\ vm_store s !! x.2 = Some a /\ area_valid a
      /\ in_area cr2 a = true /\ vm_entries s !! x.1 = Some (ListEntry x.2 post (last_or 0 (pre ++ take i xs))) /\ x.1 <> 0
      /\ vma_pagefault_walk load (S fuel) s kt present write cr2 (hd_or 0 xs)
         = vma_pagefault_walk load (S fuel') s kt present write cr2 x.1
  end.
Proof.
  revert pre xs areas. induction fuel as [|fuel IH]; intros pre xs areas Hc Hst Hval Hlen;
    destruct xs as [|[x v] xs], areas as [|a areas]; try (by inversion Hst); try (simpl in Hlen; lia); [done..|].
  apply Forall2_cons in Hst as [Ha Hst]. simpl in Ha. inversion Hval as [|? ? Hv Hval']; subst.
  destruct (chain_walk_entry _ _ _ _ _ _ _ Hc) as [Hx Hx0].
  cbn [list_find]. destruct (decide (in_area cr2 a)) as [Hin|Hnin].
  - eexists (x, v), _, (S fuel). rewrite take_0, app_nil_r. simpl. split_and!; try done. by apply Is_true_true.
  - remember (S fuel) as f eqn:Ef. cbn [vma_pagefault_walk hd_or]. destruct (Z.eqb_spec x 0); [done|].
    rewrite Hx. cbn [mbind option_bind le_value le_next]. rewrite Ha. cbn [mbind option_bind].
    rewrite in_area_test by done. destruct (in_area cr2 a); [done|]. subst f.
    specialize (IH (pre ++ [(x, v)]) xs areas). rewrite <- app_assoc in IH. simpl in IH, Hlen.
    specialize (IH Hc Hst Hval' ltac:(lia)).
    destruct (list_find _ areas) as [[i b]|]; simpl; [|exact IH].
    destruct IH as (y&post&fuel'&?&?&?&?&?&?&Hr). exists y, post, fuel'. rewrite <- app_assoc in *. by split_and!.
Qed.

Lemma in_area_unique va areas a b :
  StronglySorted area_before areas -> Forall area_valid areas -> a ∈ areas -> b ∈ areas ->
  in_area va a = true -> in_area va b = true -> a = b.
Proof.
  intros Hs Hv. unfold in_area. induction areas as [|c areas IH]; [set_solver|].
  inversion Hs as [|? ? Hs' Hb]; subst. inversion Hv as [|? ? Hc Hv']; subst.
  rewrite Forall_forall in Hb. unfold area_before in Hb.
  intros [->|Ha]%elem_of_cons [->|Hb']%elem_of_cons Hia Hib; [done| | |by apply IH].
  - specialize (Hb b Hb'). lia.
  - specialize (Hb a Ha). lia.
Qed.

Lemma list_find_area va areas a :
  StronglySorted area_before areas -> Forall area_valid areas -> a ∈ areas -> in_area va a = true ->
  exists i, list_find (fun b => in_area va b) areas = Some (i, a).
Proof.
  intros Hs Hv Ha Hin. destruct (list_find_elem_of (fun b => in_area va b) areas a Ha) as [[i b] Hf].
  { by rewrite Hin. }
  exists i. rewrite Hf. f_equal. f_equal. apply list_find_Some in Hf as (Hl&Hb&_).
  apply (in_area_unique va areas); try done; [by apply list_elem_of_lookup_2 in Hl|by apply Is_true_true].
Qed.

Lemma get_phys_addr_frames f s d va : get_phys_addr (with_frames f s) true d va = get_phys_addr s true d va.
Proof. done. Qed.

Lemma zero_pages_spec s d a n :
  0 <= n ->
  exists f, zero_pages s d a n = with_frames f s
  /\ (forall i, 0 <= i < n -> f !! get_phys_addr s true d (u32 (a + i * PAGE_SIZE)) = Some zero_frame)
  /\ (forall q, (forall i, 0 <= i < n -> q <> get_phys_addr s true d (u32 (a + i * PAGE_SIZE))) ->
        f !! q = ps_frames s !! q).
Proof.
  intros Hn. unfold zero_pages.
  apply (for_range_ind (fun k s' => exists f, s' = with_frames f s
    /\ (forall i, 0 <= i < k -> f !! get_phys_addr s true d (u32 (a + i * PAGE_SIZE)) = Some zero_frame)
    /\ (forall q, (forall i, 0 <= i < k -> q <> get_phys_addr s true d (u32 (a + i * PAGE_SIZE))) ->
        f !! q = ps_frames s !! q))); [lia| |].
  - exists (ps_frames s). split; [by destruct s|]. split; [lia|done].
  - intros k s' Hk (f&->&Hf&Hr). rewrite get_phys_addr_frames. eexists. split; [done|]. split; intros i Hi.
    + destruct (decide (i = k)) as [->|]; [apply lookup_insert_eq|].
      destruct (decide (get_phys_addr s true d (u32 (a + i * PAGE_SIZE))
                        = get_phys_addr s true d (u32 (a + k * PAGE_SIZE)))) as [E|E];
        [rewrite E; apply lookup_insert_eq|]. rewrite lookup_insert_ne by done. apply Hf. lia.
    + rewrite lookup_insert_ne by (intros E; apply (Hi k); [lia|done]). apply Hr. intros j Hj. apply Hi. lia.
Qed.

(** An area that page faults fill with fresh zeroed frames. *)
Definition anonymous (load : Z -> option (vmm -> Z -> Z -> Z -> option (vmm * vm_fault_kind))) (a : vm_area) : Prop :=
  phys_addr a = 0 /\ load (ops a) = None /\ limit a = 0 /\ Z.land (flags a) MAP_ANON <> 0
  /\ n_pages a * 4096 = va_size a.

(** A fault on a page that is not present, in such an area, maps the whole area
    to new frames and zeroes them. *)
Lemma vma_pagefault_in_area load s xs areas kernel_pgd err_code cr2 l a :
  areas_rep s xs areas -> vm_areas s = Some l -> Z.land err_code 1 = 0 ->
  a ∈ areas -> in_area cr2 a = true -> anonymous load a ->
  vma_pagefault_handler load s kernel_pgd err_code cr2
  = ('(p, _) ← map_addr (vm_pages s) (pgd s) (addr a) (n_pages a) (negb (pgd s =? kernel_pgd)) true;
     Some (with_pages (zero_pages p (pgd s) (addr a) (n_pages a)) s, VM_FAULT_IGNORE)).
Proof.
  intros [Hlist Hst Hnd Hsort Hval Hfr] Hl Hpres Ha Hin (Hph&Hlo&Hlim&Hanon&Hnp).
  rewrite Hl in Hlist. destruct Hlist as (Hc&Hndx&Hlf&Hll).
  pose proof (pagefault_walk_skip load (size (vm_entries s)) s (pgd s =? kernel_pgd)
    (negb (Z.land err_code 1 =? 0)) (negb (Z.land (Z.shiftr err_code 1) 0x1 =? 0)) cr2 [] xs areas Hc Hst Hval
    (chain_size _ _ _ _ Hc Hndx)) as Hwalk.
  destruct (list_find_area cr2 areas a Hsort Hval Ha Hin) as [i Hf]. rewrite Hf in Hwalk.
  destruct Hwalk as (x&post&fuel'&_&Hsx&Hav&_&Hex&Hx0&Hw).
  unfold vma_pagefault_handler. rewrite Hl. cbn [mbind option_bind]. rewrite Hlf, Hw, Hpres.
  cbn [vma_pagefault_walk Z.eqb negb]. destruct (Z.eqb_spec x.1 0); [done|]. rewrite Hex.
  cbn [mbind option_bind le_value]. rewrite Hsx. cbn [mbind option_bind].
  rewrite in_area_test, Hin by done. rewrite Hlim, Hph, Hlo. cbn [Z.eqb negb andb].
  destruct (map_addr _ _ _ _ _ _) as [[p r]|]; [|done]. cbn [mbind option_bind].
  by rewrite (proj2 (Z.eqb_neq _ _) Hanon).
Qed.

(** A fault outside every area is a crash and changes nothing. *)
Lemma vma_pagefault_outside load s xs areas kernel_pgd err_code cr2 l :
  areas_rep s xs areas -> vm_areas s = Some l -> (forall a, a ∈ areas -> in_area cr2 a = false) ->
  vma_pagefault_handler load s kernel_pgd err_code cr2 = Some (s, VM_FAULT_CRASH).
Proof.
  intros [Hlist Hst Hnd Hsort Hval Hfr] Hl Hno. rewrite Hl in Hlist. destruct Hlist as (Hc&Hndx&Hlf&Hll).
  pose proof (pagefault_walk_skip load (size (vm_entries s)) s (pgd s =? kernel_pgd)
    (negb (Z.land err_code 1 =? 0)) (negb (Z.land (Z.shiftr err_code 1) 0x1 =? 0)) cr2 [] xs areas Hc Hst Hval
    (chain_size _ _ _ _ Hc Hndx)) as Hwalk.
  unfold vma_pagefault_handler. rewrite Hl. cbn [mbind option_bind]. rewrite Hlf.
  destruct (list_find _ areas) as [[i b]|] eqn:Ef; [|done].
  apply list_find_Some in Ef as (Hb&Hib&_). rewrite (Hno b) in Hib; [done|].
  by apply list_elem_of_lookup_2 in Hb.
Qed.

Definition area_example : vm_area := new_area 0xC0001000 0x50000000 8192 MAP_ANON.
Definition task_mapped : vmm :=
  Vmm {[ 0xC0500040 := ListEntry 0xC0500000 0 0 ]} (Some (CList 0xC0500040 0xC0500040 1))
    {[ 0xC0500000 := area_example ]} [0xC0500080] 0 0 0xC0001000 [] space_example.
Lemma task_mapped_rep : areas_rep task_mapped [(0xC0500040, 0xC0500000)] [area_example].
Proof.
  constructor; simpl.
  - split_and!; try done. repeat constructor; set_solver.
  - by constructor.
  - repeat constructor; set_solver.
  - repeat constructor.
  - constructor; [|constructor]. by vm_compute.
  - split; [repeat constructor; set_solver|]. intros a Ha.
    assert (a = 0xC0500080) as -> by set_solver. split_and!; [done|set_solver..].
Qed.
