(* ===== verification/Vfs.v ===== *)
(** * Vfs: fs/vfs.c, include/depthos/fs.h and file.h

    The mount table and the operations on paths and nodes.  Strings are their
    memory, terminator included; file nodes, mounted filesystems and devices
    live in stores indexed by address; the operations behind the function
    pointers of a filesystem are Section variables. *)
From S2P Require Import Prelude CString.

Definition MAX_VFS_MOUNTS := 256.
Definition MAX_VFS_FILESYSTEMS := 10.
Definition SEEK_CUR := 1.
Definition SEEK_END := 2.
Definition SEEK_SET := 3.
Definition PATH_SEPARATOR := 47.
Definition FS_FILE := 0x0001.
Definition FS_DIR := 0x0002.
Definition FS_PIPE := 0x0004.
Definition FS_DEV := 0x0008.
Definition FS_SOCKET := 0x0010.

Record fs_node := FsNode {
  name : list Z; path : list Z; type : Z; mode : Z; pos : Z; eof : bool; size : Z; dev : Z;
  inode_num : Z; fops : Z; impl : Z; pipe : Z; socket : Z; fs : Z; rdonly : bool
}.
Definition with_pos (p : Z) (f : fs_node) := FsNode (name f) (path f) (type f) (mode f) p (eof f) (size f)
  (dev f) (inode_num f) (fops f) (impl f) (pipe f) (socket f) (fs f) (rdonly f).
Definition with_eof (e : bool) (f : fs_node) := FsNode (name f) (path f) (type f) (mode f) (pos f) e (size f)
  (dev f) (inode_num f) (fops f) (impl f) (pipe f) (socket f) (fs f) (rdonly f).
(** What [vfs_open] fills in. *)
Definition opened (n p : list Z) (dv fsi : Z) (f : fs_node) := FsNode n p (type f) (mode f) 0 false (size f)
  dv (inode_num f) (fops f) (impl f) (pipe f) (socket f) fsi (rdonly f).

Record filesystem := Filesystem { fs_ops : Z; fs_dev : Z; fs_impl : Z }.
Record mount := Mount { mnt_path : list Z; mnt_fsi : Z }.

(** [root_mount] is a pointer into the table: its index, -1 for NULL.
    Filesystem drivers are named by a number; 0 is NULL. *)
Record vfs := Vfs {
  vfs_mounts_count : Z;
  root_mount : Z;
  vfs_mounts : list mount;
  vfs_filesystems : list Z;
  fsis : gmap Z filesystem;
  nodes : gmap Z fs_node;
  fresh : list Z
}.
Definition set_nodes (n : gmap Z fs_node) (s : vfs) := Vfs (vfs_mounts_count s) (root_mount s) (vfs_mounts s)
  (vfs_filesystems s) (fsis s) n (fresh s).
Definition set_fsis (n : gmap Z filesystem) (s : vfs) := Vfs (vfs_mounts_count s) (root_mount s) (vfs_mounts s)
  (vfs_filesystems s) n (nodes s) (fresh s).
Definition set_mounts (c r : Z) (m : list mount) (s : vfs) := Vfs c r m
  (vfs_filesystems s) (fsis s) (nodes s) (fresh s).
Definition kmalloc (s : vfs) : option (vfs * Z) :=
  match fresh s with
  | [] => None
  | a :: rest => Some (Vfs (vfs_mounts_count s) (root_mount s) (vfs_mounts s) (vfs_filesystems s) (fsis s)
                         (nodes s) rest, a)
  end.

Definition make_devid (c i : Z) : Z := Z.lor (u32 (Z.shiftl (u16 c) 16)) (u16 i).
Definition devid_class (id : Z) : Z := Z.shiftr id 16.
Definition devid_index (id : Z) : Z := Z.land id 0xFFFF.

(** [strcmp(a, b) == 0]. *)
Definition streq (a b : list Z) : option bool := d ← strcmp a b; Some (d =? 0).

(** The loop of [vfs_unmount] and [find_mount_exact]: the index of the first
    mount with this path among the [n] from index [i] on, or -1. *)
Fixpoint find_path (n : nat) (ms : list mount) (p : list Z) (i : Z) : option Z :=
  match n with
  | O => Some (-1)
  | S n =>
      m ← ms !! Z.to_nat i;
      e ← streq p (mnt_path m);
      if (e : bool) then Some i else find_path n ms p (i + 1)
  end.
Definition find_mount_exact (s : vfs) (p : list Z) : option Z :=
  find_path (Z.to_nat (vfs_mounts_count s)) (vfs_mounts s) p 0.

(** The loop of [find_mount], over the buffer [b]. *)
Fixpoint find_mount_loop (fuel : nat) (s : vfs) (b : list Z) : option Z :=
  match fuel with
  | O => None
  | S fuel =>
      o ← strrchr b PATH_SEPARATOR;
      match o with
      | None => Some (root_mount s)
      | Some i =>
          ret ← find_mount_exact s b;
          if negb (ret =? -1) then Some ret else find_mount_loop fuel s (set b i 0)
      end
  end.
(** The copy of the path is one byte short of its terminator: [junk] is the
    memory that follows the [strlen(path)] bytes copied into the buffer.  For
    the empty path the buffer is [kmalloc(0)], NULL: the model stops. *)
Definition find_mount (junk : list Z) (s : vfs) (p : list Z) : option Z :=
  e ← streq p (cstring (str "/"));
  if (e : bool) then Some (root_mount s) else
  n ← strlen p;
  if n =? 0 then None else
  b ← memcpy (replicate (Z.to_nat n) 0 ++ junk) p (Z.to_nat n);
  find_mount_loop (S (length b)) s b.

(** The result is a suffix of [p] or the literal. *)
Definition get_relative_mountpoint_path (m : mount) (p : list Z) : option (list Z) :=
  e ← streq p (mnt_path m);
  if (e : bool) then Some (cstring (str "/")) else
  r ← streq (mnt_path m) (cstring (str "/"));
  if (r : bool) then Some p else n ← strlen (mnt_path m); Some (drop (Z.to_nat n) p).

Definition vfs_register (s : vfs) (f : Z) : option vfs :=
  if zlen (vfs_filesystems s) <? MAX_VFS_FILESYSTEMS
  then Some (Vfs (vfs_mounts_count s) (root_mount s) (vfs_mounts s) (vfs_filesystems s ++ [f])
               (fsis s) (nodes s) (fresh s))
  else None.

Section drivers.
  (** The name of a driver, and its [mount], [open] and [create]; a missing
      [mount] or [create] is [None]; 0 is a failed open. *)
  Context (fs_name : Z -> list Z).
  Context (fs_mount : Z -> option (vfs -> Z -> option (vfs * Z))).
  Context (fs_open : Z -> vfs -> Z -> list Z -> option (vfs * Z)).
  Context (fs_create : Z -> option (vfs -> Z -> list Z -> Z -> Z -> Z -> option (vfs * Z))).
  (** [dev->class] and [dev->idx]. *)
  Context (dev_class dev_idx : Z -> Z).

Fixpoint get_filesystem_loop (l : list Z) (n : list Z) : option Z :=
  match l with
  | [] => Some 0
  | f :: l => e ← streq n (fs_name f); if (e : bool) then Some f else get_filesystem_loop l n
  end.
Definition vfs_get_filesystem (s : vfs) (n : list Z) : option Z := get_filesystem_loop (vfs_filesystems s) n.

(** The result is the new mount's index, or -1.  A mount past the end of the
    table is not refused by the code: the model stops. *)
Definition vfs_mount (s : vfs) (p : list Z) (f device : Z) : option (vfs * Z) :=
  if f =? 0 then None else
  '(s, fsi) ← match fs_mount f with
              | Some mnt => mnt s device
              | None => '(s, a) ← kmalloc s; Some (set_fsis (<[a := Filesystem f 0 0]> (fsis s)) s, a)
              end;
  if fsi =? 0 then Some (s, -1) else
  i ← fsis s !! fsi;
  let s := set_fsis (<[fsi := Filesystem (fs_ops i) device (fs_impl i)]> (fsis s)) s in
  let c := vfs_mounts_count s in
  if MAX_VFS_MOUNTS <=? c then None else
  r ← streq p (cstring (str "/"));
  Some (set_mounts (c + 1) (if (r : bool) then c else root_mount s) (set (vfs_mounts s) c (Mount p fsi)) s, c).

Definition vfs_unmount (s : vfs) (p : list Z) : option (vfs * bool) :=
  r ← streq p (cstring (str "/"));
  let s := if negb (r : bool) then set_mounts (vfs_mounts_count s) (-1) (vfs_mounts s) s else s in
  i ← find_path (Z.to_nat (vfs_mounts_count s)) (vfs_mounts s) p 0;
  if i =? -1 then Some (s, false) else
  m ← vfs_mounts s !! Z.to_nat i;
  let s := set_fsis (delete (mnt_fsi m) (fsis s)) s in
  let c := vfs_mounts_count s - 1 in
  last ← vfs_mounts s !! Z.to_nat c;
  Some (set_mounts c (root_mount s) (set (vfs_mounts s) i last) s, true).

(** [fresh1] and [fresh2] are the allocations of the two [strdup]s. *)
Definition vfs_open (junk fresh1 fresh2 : list Z) (s : vfs) (p : list Z) : option (vfs * Z) :=
  m ← find_mount junk s p;
  if m =? -1 then Some (s, 0) else
  mp ← vfs_mounts s !! Z.to_nat m;
  rel ← get_relative_mountpoint_path mp p;
  fsi ← fsis s !! mnt_fsi mp;
  '(s, node) ← fs_open (fs_ops fsi) s (mnt_fsi mp) rel;
  if node =? 0 then Some (s, 0) else
  np ← strdup fresh1 p;
  pl ← strlen np;
  let np := if (1 <? pl) && (get 0 p (pl - 1) =? PATH_SEPARATOR) then set np (pl - 1) 0 else np in
  sl ← strrchr np PATH_SEPARATOR;
  i ← sl;
  nm ← strdup fresh2 (drop (Z.to_nat (i + 1)) np);
  fsi ← fsis s !! mnt_fsi mp;
  n ← nodes s !! node;
  let dv := if fs_dev fsi =? 0 then 0 else make_devid (dev_class (fs_dev fsi)) (dev_idx (fs_dev fsi)) in
  Some (set_nodes (<[node := opened nm np dv (mnt_fsi mp) n]> (nodes s)) s, node).

Definition vfs_create (junk fresh1 fresh2 : list Z) (s : vfs) (p : list Z) (md ft device : Z) : option (vfs * Z) :=
  m ← find_mount junk s p;
  if m =? -1 then Some (s, 0) else
  '(s, node) ← vfs_open junk fresh1 fresh2 s p;
  if negb (node =? 0) then Some (s, 0) else
  mp ← vfs_mounts s !! Z.to_nat m;
  rel ← get_relative_mountpoint_path mp p;
  fsi ← fsis s !! mnt_fsi mp;
  match fs_create (fs_ops fsi) with
  | None => Some (s, 0)
  | Some create => create s (mnt_fsi mp) rel md ft device
  end.
End drivers.

(** [fresh1] is the allocation of the result. *)
Definition vfs_resolve (fresh1 : list Z) (p cwd : option (list Z)) : option (option (list Z)) :=
  match p, cwd with
  | Some p, Some cwd =>
      if get 0 p 0 =? PATH_SEPARATOR then d ← strdup fresh1 p; Some (Some d) else
      pc ← strlen cwd;
      res ← strcpy fresh1 cwd;
      if pc =? 0 then None
      else if negb (get 0 cwd (pc - 1) =? PATH_SEPARATOR) then
        r ← at_off (fun d => strcpy d p) (set res pc PATH_SEPARATOR) (pc + 1); Some (Some r)
      else r ← at_off (fun d => strcpy d p) res pc; Some (Some r)
  | _, _ => Some None
  end.

(** [soff_t] is signed. *)
Definition vfs_setpos (f : fs_node) (off most : Z) : fs_node * Z :=
  if off <? 0 then (f, - EINVAL) else if most <? off then (f, - EINVAL) else (with_pos off f, off).

(** ** Paths *)
Lemma streq_cstring a b r r' :
  nonul a -> nonul b -> streq (cstring a ++ r) (cstring b ++ r') = Some (bool_decide (a = b)).
Proof.
  intros Ha Hb. unfold streq. destruct (strcmp_cstring a b r r' Ha Hb) as (d&->&Hd).
  cbn [mbind option_bind]. f_equal. apply eq_true_iff_eq. by rewrite Z.eqb_eq, bool_decide_eq_true.
Qed.

(** The contents of the mount table. *)
Definition mounts_are (s : vfs) (paths : list (list Z)) : Prop :=
  vfs_mounts_count s = zlen paths /\ Forall nonul paths /\
  forall i q, paths !! i = Some q -> exists m, vfs_mounts s !! i = Some m /\ mnt_path m = cstring q.

(** The first index of [q] in [paths]. *)
Fixpoint index_of (q : list Z) (paths : list (list Z)) : Z :=
  match paths with
  | [] => -1
  | x :: paths => if bool_decide (q = x) then 0
                  else let i := index_of q paths in if i =? -1 then -1 else i + 1
  end.
Lemma index_of_range q paths : -1 <= index_of q paths < zlen paths.
Proof.
  induction paths as [|x paths IH]; simpl; [unfold zlen; simpl; lia|]. rewrite zlen_cons.
  case_bool_decide; [unfold zlen in *; lia|]. destruct (index_of q paths =? -1) eqn:?; lia.
Qed.
Lemma index_of_found q paths : index_of q paths <> -1 <-> q ∈ paths.
Proof.
  induction paths as [|x paths IH]; simpl; [set_solver|]. rewrite elem_of_cons.
  case_bool_decide; [split; [auto|done]|]. pose proof (index_of_range q paths).
  destruct (Z.eqb_spec (index_of q paths) (-1)); [|split; [intros _; right; apply IH; done|lia]].
  split; [done|]. intros [?|Hq]; [done|]. apply IH in Hq. done.
Qed.
Lemma index_of_lookup q paths : q ∈ paths -> paths !! Z.to_nat (index_of q paths) = Some q.
Proof.
  induction paths as [|x paths IH]; simpl; [set_solver|]. rewrite elem_of_cons.
  case_bool_decide; [by subst|]. intros [?|Hq]; [done|]. pose proof (index_of_range q paths).
  destruct (Z.eqb_spec (index_of q paths) (-1)) as [E|E]; [by apply index_of_found in Hq|].
  rewrite Z2Nat.inj_add by lia. rewrite Nat.add_comm. simpl. by apply IH.
Qed.

Lemma find_path_spec s paths p r i :
  mounts_are s paths -> nonul p -> 0 <= i <= zlen paths ->
  find_path (Z.to_nat (zlen paths - i)) (vfs_mounts s) (cstring p ++ r) i
  = Some (let k := index_of p (drop (Z.to_nat i) paths) in if k =? -1 then -1 else i + k).
Proof.
  intros (_&Hn&Hm) Hp. remember (Z.to_nat (zlen paths - i)) as n eqn:En. revert i En.
  induction n as [|n IH]; intros i En Hi; cbn [find_path].
  - rewrite drop_ge by (unfold zlen in *; lia). done.
  - destruct (lookup_lt_is_Some_2 paths (Z.to_nat i)) as [q Hq]; [unfold zlen in *; lia|].
    destruct (Hm _ _ Hq) as (m&->&Hmp). cbn [mbind option_bind]. rewrite Hmp.
    rewrite <- (app_nil_r (cstring q)). rewrite streq_cstring; [|done|by eapply Forall_lookup_1 in Hn].
    cbn [mbind option_bind]. rewrite (drop_S paths q (Z.to_nat i) Hq). cbn [index_of].
    case_bool_decide; [simpl; f_equal; lia|]. rewrite IH by (unfold zlen in *; lia).
    replace (Z.to_nat (i + 1)) with (S (Z.to_nat i)) by lia. set (k := index_of p _).
    pose proof (index_of_range p (drop (S (Z.to_nat i)) paths)) as Hk. fold k in Hk. clearbody k.
    cbv zeta. destruct (Z.eqb_spec k (-1)); [done|].
    destruct (Z.eqb_spec (k + 1) (-1)); [lia|]. f_equal. lia.
Qed.

Lemma find_mount_exact_spec s paths p r :
  mounts_are s paths -> nonul p -> find_mount_exact s (cstring p ++ r) = Some (index_of p paths).
Proof.
  intros Hm Hp. pose proof (find_path_spec s paths p r 0 Hm Hp) as H. unfold find_mount_exact.
  destruct Hm as [-> _]. rewrite Z.sub_0_r in H. rewrite H by (unfold zlen; lia). f_equal.
  change (drop (Z.to_nat 0) paths) with paths. cbv zeta. destruct (Z.eqb_spec (index_of p paths) (-1)); lia.
Qed.

(** [q] is [p] or one of its parents. *)
Definition parent (q p : list Z) : Prop := q = p \/ exists t, p = q ++ PATH_SEPARATOR :: t.

Lemma parent_prefix q p : parent q p -> exists t, p = q ++ t.
Proof. intros [->|[t ->]]; [exists []; by rewrite app_nil_r|by eexists]. Qed.

(** The parents of [p] between [c1] and [c1 ++ '/' :: c2] are none, when [c2]
    has no separator. *)
Lemma parent_between p c1 c2 q :
  PATH_SEPARATOR ∉ c2 -> parent (c1 ++ PATH_SEPARATOR :: c2) p -> parent q p ->
  (length q < length (c1 ++ PATH_SEPARATOR :: c2))%nat -> (length q <= length c1)%nat.
Proof.
  intros Hc Hp Hq Hlt. destruct (decide (length q <= length c1)%nat) as [|Hgt]; [done|exfalso].
  apply parent_prefix in Hp as [t Ht]. destruct Hq as [->|[u Hu]].
  { apply (f_equal length) in Ht. rewrite length_app in Ht. lia. }
  assert (Hl : p !! length q = Some PATH_SEPARATOR).
  { rewrite Hu, lookup_app_r, Nat.sub_diag by lia. done. }
  rewrite Ht, <- app_assoc, lookup_app_r in Hl by lia.
  rewrite length_app in Hlt. simpl in Hlt.
  replace (length q - length c1)%nat with (S (length q - length c1 - 1)) in Hl by lia. simpl in Hl.
  rewrite lookup_app_l in Hl by lia. apply Hc. by apply list_elem_of_lookup_2 in Hl.
Qed.

(** The mount a path belongs to. *)
Definition longest_mount (paths : list (list Z)) (p q : list Z) : Prop :=
  parent q p /\ PATH_SEPARATOR ∈ q /\ q ∈ paths /\
  forall q', parent q' p -> PATH_SEPARATOR ∈ q' -> q' ∈ paths -> (length q' <= length q)%nat.

Lemma find_mount_loop_spec fuel s paths p c r :
  mounts_are s paths -> nonul c -> parent c p -> (length c < fuel)%nat ->
  (forall q, parent q p -> PATH_SEPARATOR ∈ q -> q ∈ paths -> (length q <= length c)%nat) ->
  (exists q, longest_mount paths p q /\ find_mount_loop fuel s (cstring c ++ r) = Some (index_of q paths)) \/
  ((forall q, parent q p -> PATH_SEPARATOR ∈ q -> q ∉ paths) /\
   find_mount_loop fuel s (cstring c ++ r) = Some (root_mount s)).
Proof.
  intros Hm. revert c r. induction fuel as [|fuel IH]; intros c r Hc Hpar Hf Hlong; [lia|].
  cbn [find_mount_loop]. destruct (strrchr_cstring c r PATH_SEPARATOR Hc) as [[Hns ->]|(c1&c2&->&Hc2&->)];
    cbn [mbind option_bind].
  - right. split; [|done]. intros q Hq Hsep Hin. pose proof (Hlong q Hq Hsep Hin) as Hl.
    destruct (parent_prefix _ _ Hpar) as [t ->]. destruct (parent_prefix _ _ Hq) as [u Hu].
    apply Hns. apply list_elem_of_lookup in Hsep as [i Hi]. apply list_elem_of_lookup_2 with i.
    pose proof (lookup_lt_Some _ _ _ Hi). rewrite <- Hi.
    rewrite <- (lookup_app_l c t), Hu, lookup_app_l by lia. done.
  - rewrite (find_mount_exact_spec s paths) by done. cbn [mbind option_bind].
    set (c := c1 ++ PATH_SEPARATOR :: c2) in *.
    destruct (Z.eqb_spec (index_of c paths) (-1)) as [E|E]; cbn [negb].
    + assert (Hset : set (cstring c ++ r) (zlen c1) 0 = cstring c1 ++ (c2 ++ [0] ++ r)).
      { unfold c, cstring, set, zlen. destruct (Z.of_nat (length c1) <? 0) eqn:?; [zbool; lia|]. rewrite Nat2Z.id.
        rewrite <- !app_assoc. rewrite insert_app_r_alt by lia. rewrite Nat.sub_diag. done. }
      rewrite Hset. apply IH.
      * unfold c, nonul in Hc. apply Forall_app in Hc. tauto.
      * right. destruct (parent_prefix _ _ Hpar) as [t ->]. exists (c2 ++ t). unfold c.
        by rewrite <- app_assoc.
      * unfold c in Hf. rewrite length_app in Hf. simpl in Hf. lia.
      * intros q Hq Hsep Hin. apply (parent_between p c1 c2 q Hc2 Hpar Hq). fold c.
        pose proof (Hlong q Hq Hsep Hin). destruct (decide (length q = length c)) as [El|]; [|lia].
        exfalso. assert (q = c); [|subst q; by apply index_of_found in Hin].
        destruct (parent_prefix _ _ Hpar) as [t Ht]. destruct (parent_prefix _ _ Hq) as [u Hu].
        rewrite Ht in Hu. apply app_inj_1 in Hu as [-> _]; [done|lia].
    + left. exists c. split; [|done]. split_and!; try done.
      * unfold c. set_solver.
      * by apply index_of_found.
Qed.

(** The path as the mounted filesystem sees it. *)
Definition relative (q p : list Z) : list Z :=
  if bool_decide (p = q) then str "/" else if bool_decide (q = str "/") then p else drop (length q) p.

Lemma relative_spec m p q :
  nonul p -> nonul q -> mnt_path m = cstring q -> (exists t, p = q ++ t) \/ q = str "/" ->
  get_relative_mountpoint_path m (cstring p) = Some (cstring (relative q p)).
Proof.
  intros Hp Hq Hm Hpar. unfold get_relative_mountpoint_path, relative. rewrite Hm.
  pose proof (streq_cstring p q [] [] Hp Hq) as Hs. rewrite !app_nil_r in Hs. rewrite Hs.
  cbn [mbind option_bind]. case_bool_decide as Heq; [done|].
  assert (Hr : nonul (str "/")) by (by repeat constructor).
  pose proof (streq_cstring q (str "/") [] [] Hq Hr) as Hs2. rewrite !app_nil_r in Hs2. rewrite Hs2.
  cbn [mbind option_bind]. case_bool_decide as Hroot; [done|].
  pose proof (strlen_cstring q [] Hq) as Hl. rewrite app_nil_r in Hl. rewrite Hl. cbn [mbind option_bind].
  destruct Hpar as [[t ->]|]; [|done]. f_equal. unfold cstring, zlen. rewrite Nat2Z.id, <- app_assoc.
  by rewrite !drop_app_length.
Qed.

(** Bytes without a separator add no parent. *)
Lemma parent_stray p g q :
  PATH_SEPARATOR ∉ g -> q <> p ++ g -> q <> p -> parent q (p ++ g) <-> parent q p.
Proof.
  intros Hg Hq1 Hq2. split.
  - intros [->|[t Ht]]; [done|]. right. apply app_eq_inv in Ht as [(k&->&Ht)|(k&->&Ht)].
    + destruct k as [|x k]; simpl in Ht.
      * exfalso. apply Hg. rewrite <- Ht. by left.
      * simplify_eq. by exists k.
    + exfalso. apply Hg. rewrite Ht. apply elem_of_app. right. by left.
  - intros [->|[t ->]]; [done|]. right. exists (t ++ g). by rewrite <- app_assoc.
Qed.

(** When the stray bytes do not matter: there are none, or they have no
    separator and neither the path nor the path with them is a mount. *)
Definition harmless (paths : list (list Z)) (p g : list Z) : Prop :=
  g = [] \/ (PATH_SEPARATOR ∉ g /\ p ∉ paths /\ p ++ g ∉ paths).

Lemma harmless_parent paths p g q :
  harmless paths p g -> q ∈ paths -> parent q (p ++ g) <-> parent q p.
Proof.
  intros [->|(Hg&Hp&Hpg)] Hq; [by rewrite app_nil_r|]. apply parent_stray; [done|by intros ->..].
Qed.

Lemma find_mount_run s p g junk :
  nonul p -> nonul g -> p <> [] -> p <> str "/" ->
  find_mount (g ++ 0 :: junk) s (cstring p)
  = find_mount_loop (S (length (cstring (p ++ g) ++ junk))) s (cstring (p ++ g) ++ junk).
Proof.
  intros Hp Hg Hnil Hne. assert (Hr : nonul (str "/")) by (by repeat constructor).
  unfold find_mount. pose proof (streq_cstring p (str "/") [] [] Hp Hr) as Hs. rewrite !app_nil_r in Hs.
  rewrite Hs. cbn [mbind option_bind]. rewrite bool_decide_false by done.
  pose proof (strlen_cstring p [] Hp) as Hl. rewrite app_nil_r in Hl. rewrite Hl. cbn [mbind option_bind].
  destruct (Z.eqb_spec (zlen p) 0); [by destruct p; [|rewrite zlen_cons in *; pose proof (zlen_nonneg p); lia]|].
  unfold zlen. rewrite Nat2Z.id.
  rewrite memcpy_spec by (unfold cstring; rewrite ?length_app, ?length_replicate; simpl; lia).
  cbn [mbind option_bind].
  assert (E : take (length p) (cstring p) ++ drop (length p) (replicate (length p) 0 ++ g ++ 0 :: junk)
    = cstring (p ++ g) ++ junk).
  { unfold cstring. rewrite take_app_length. rewrite drop_app_ge; rewrite length_replicate; [|lia].
    by rewrite Nat.sub_diag, <- !app_assoc. }
  by rewrite E.
Qed.

(** C18: [find_mount] copies the path without a terminator, so it looks for the
    path followed by the bytes [g] that happen to come before the next 0 in
    memory.  It returns the mount of the longest parent of that string that is
    mounted (the first one mounted there), or the root mount when there is
    none.  When the stray bytes do not matter this is the mount the path
    itself belongs to, and the relative path is what is left of it, or "/". *)
Theorem find_mount_longest s paths p g junk :
  mounts_are s paths -> nonul p -> nonul g -> p <> [] -> p <> str "/" ->
  let r := find_mount (g ++ 0 :: junk) s (cstring p) in
  ((exists q, longest_mount paths (p ++ g) q /\ r = Some (index_of q paths)) \/
   ((forall q, parent q (p ++ g) -> PATH_SEPARATOR ∈ q -> q ∉ paths) /\ r = Some (root_mount s)))
  /\ (g = [] \/ (PATH_SEPARATOR ∉ g /\ p ∉ paths /\ p ++ g ∉ paths) ->
      (exists q m, longest_mount paths p q /\ r = Some (index_of q paths)
         /\ vfs_mounts s !! Z.to_nat (index_of q paths) = Some m
         /\ get_relative_mountpoint_path m (cstring p) = Some (cstring (relative q p))) \/
      ((forall q, parent q p -> PATH_SEPARATOR ∈ q -> q ∉ paths) /\ r = Some (root_mount s))).
Proof.
  intros Hm Hp Hg Hnil Hne r. unfold r. rewrite find_mount_run by done.
  set (r' := find_mount_loop _ _ _).
  assert (H : (exists q, longest_mount paths (p ++ g) q /\ r' = Some (index_of q paths)) \/
    ((forall q, parent q (p ++ g) -> PATH_SEPARATOR ∈ q -> q ∉ paths) /\ r' = Some (root_mount s))).
  { apply find_mount_loop_spec; [done|by apply Forall_app|by left|unfold cstring; rewrite !length_app; lia|].
    intros q Hq _ _. destruct (parent_prefix _ _ Hq) as [t ->]. rewrite length_app. lia. }
  split; [exact H|]. intros Hh. fold (harmless paths p g) in Hh. destruct H as [(q&(Hpar&Hsep&Hin&Hmax)&Hf)|[Hno Hf]].
  - left. pose proof (proj1 (harmless_parent paths p g q Hh Hin) Hpar) as Hpar'. pose proof Hm as (_&Hn&Hm').
    destruct (Hm' _ _ (index_of_lookup q paths Hin)) as (m&Hl&Hmp). exists q, m.
    split; [|split; [done|split; [done|]]].
    + split_and!; try done. intros q' Hq' Hs' Hin'. apply Hmax; try done. by apply (harmless_parent paths).
    + apply relative_spec; try done.
      * rewrite Forall_forall in Hn. by apply Hn.
      * left. by apply parent_prefix.
  - right. split; [|done]. intros q Hq Hsep Hin. apply (Hno q); try done. by apply (harmless_parent paths).
Qed.

Definition vfs_example : vfs :=
  Vfs 3 0 [Mount (cstring (str "/")) 1; Mount (cstring (str "/dev")) 2; Mount (cstring (str "/dev/pts")) 3]
    [] ∅ ∅ [].
Definition vfs_example_paths := [str "/"; str "/dev"; str "/dev/pts"].
Lemma vfs_example_mounts : mounts_are vfs_example vfs_example_paths.
Proof.
  split_and!; [done|by repeat constructor|]. intros [|[|[|i]]] q Hq; simplify_eq/=; by eexists.
Qed.
Lemma find_mount_longest_witness :
  longest_mount vfs_example_paths (str "/dev/pts/0") (str "/dev/pts")
  /\ find_mount (str "xy" ++ 0 :: [5]) vfs_example (cstring (str "/dev/pts/0")) = Some 2.
Proof.
  destruct (find_mount_longest vfs_example vfs_example_paths (str "/dev/pts/0") (str "xy") [5] vfs_example_mounts)
    as [_ H]; [by repeat constructor|by repeat constructor|done|done|].
  assert (Hq : parent (str "/dev/pts") (str "/dev/pts/0")) by (right; by exists (str "0")).
  assert (Hs : PATH_SEPARATOR ∈ str "/dev/pts") by (apply (bool_decide_unpack _); vm_compute; reflexivity).
  assert (Hi : str "/dev/pts" ∈ vfs_example_paths) by (apply (bool_decide_unpack _); vm_compute; reflexivity).
  destruct H as [(q&m&Hlong&Hf&_)|[H _]].
  - right. split_and!; apply (bool_decide_unpack _); vm_compute; reflexivity.
  - split; [|vm_compute; reflexivity]. destruct Hlong as (Hp&Hsep&Hin&Hmax).
    assert (q = str "/dev/pts") as <-; [|by split_and!].
    pose proof (Hmax _ Hq Hs Hi) as Hlen. unfold vfs_example_paths in Hin.
    apply elem_of_cons in Hin as [->|[->|[->|[]%not_elem_of_nil]%elem_of_cons]%elem_of_cons];
      [vm_compute in Hlen; lia|vm_compute in Hlen; lia|done].
  - by destruct (H _ Hq Hs).
Defined.

(** The copied path has no terminator of its own: with other bytes after it
    the same table gives the root mount for "/dev". *)
Lemma find_mount_unterminated :
  find_mount [0] vfs_example (cstring (str "/dev")) = Some 1
  /\ find_mount [120; 0] vfs_example (cstring (str "/dev")) = Some (root_mount vfs_example).
Proof. split; reflexivity. Qed.

(** Unmounting any path but the root's forgets the root mount. *)
Lemma vfs_unmount_forgets_root s p s' b :
  nonul p -> p <> str "/" -> vfs_unmount s (cstring p) = Some (s', b) -> root_mount s' = -1.
Proof.
  intros Hp Hne. unfold vfs_unmount. pose proof (streq_cstring p (str "/") [] [] Hp) as Hs.
  rewrite !app_nil_r in Hs. rewrite Hs by (by repeat constructor). cbn [mbind option_bind].
  rewrite bool_decide_false by done. cbn [negb]. destruct (find_path _ _ _ _) as [i|]; [|done].
  cbn [mbind option_bind]. destruct (i =? -1); [by intros [= <- <-]|].
  destruct (vfs_mounts _ !! Z.to_nat i); [|done]. cbn [mbind option_bind].
  destruct (_ !! Z.to_nat _); [|done]. cbn [mbind option_bind]. by intros [= <- <-].
Qed.

(** [vfs_resolve]: an absolute path is itself, another one is appended to the
    working directory after exactly one separator. *)
Lemma vfs_resolve_spec fresh1 p cwd :
  nonul p -> nonul cwd -> cwd <> [] -> (length cwd + length p + 2 <= length fresh1)%nat ->
  let sep := if bool_decide (last cwd = Some PATH_SEPARATOR) then [] else [PATH_SEPARATOR] in
  exists d, vfs_resolve fresh1 (Some (cstring p)) (Some (cstring cwd)) = Some (Some d)
  /\ exists r, d = cstring (if bool_decide (hd_error p = Some PATH_SEPARATOR) then p else cwd ++ sep ++ p) ++ r.
Proof.
  intros Hp Hc Hcn Hlen sep. unfold vfs_resolve.
  assert (Hh : get 0 (cstring p) 0 =? PATH_SEPARATOR = bool_decide (hd_error p = Some PATH_SEPARATOR)).
  { destruct p as [|x p]; [done|]. unfold cstring. simpl. change (get 0 (x :: (p ++ [0])) 0) with x.
    apply eq_true_iff_eq. rewrite Z.eqb_eq, bool_decide_eq_true. split; congruence. }
  rewrite Hh. pose proof (strdup_cstring fresh1 p [] Hp ltac:(lia)) as Hd. rewrite app_nil_r in Hd.
  case_bool_decide as Habs; [rewrite Hd; cbn [mbind option_bind]; eauto|].
  pose proof (strlen_cstring cwd [] Hc) as Hl. rewrite app_nil_r in Hl. rewrite Hl. cbn [mbind option_bind].
  pose proof (strcpy_cstring fresh1 cwd [] Hc ltac:(lia)) as Hcp. rewrite app_nil_r in Hcp. rewrite Hcp.
  cbn [mbind option_bind].
  destruct cwd as [|y cwd0 _] using rev_ind; [done|]. set (cwd := cwd0 ++ [y]) in *. clear Hcn.
  assert (Hz : zlen cwd = zlen cwd0 + 1) by (unfold cwd; by rewrite zlen_app).
  pose proof (zlen_nonneg cwd0). destruct (Z.eqb_spec (zlen cwd) 0); [lia|].
  assert (Hlast : get 0 (cstring cwd) (zlen cwd - 1) =? PATH_SEPARATOR = bool_decide (last cwd = Some PATH_SEPARATOR)).
  { unfold cwd, cstring. rewrite last_snoc. rewrite get_app_l by (rewrite zlen_app; unfold zlen; simpl; lia).
    rewrite zlen_app. change (zlen [y]) with 1. 
    rewrite get_app_r by lia. replace (zlen cwd0 + 1 - 1 - zlen cwd0) with 0 by lia. change (get 0 [y] 0) with y.
    apply eq_true_iff_eq. rewrite Z.eqb_eq, bool_decide_eq_true. split; congruence. }
  rewrite Hlast. unfold sep. set (rest := drop (S (length cwd)) fresh1).
  assert (Hrest : (length p + 1 <= length rest)%nat) by (unfold rest; rewrite length_drop; lia).
  assert (Hp0 : at_off (fun d => strcpy d (cstring p)) = at_off (fun d => strcpy d (cstring p ++ [])))
    by (by rewrite app_nil_r).
  case_bool_decide; cbn [negb]; rewrite Hp0.
  - rewrite at_off_strcpy;
      [|done|lia|unfold cstring, rest in *; rewrite !zlen_app; unfold zlen in *; rewrite length_drop in *; simpl; lia].
    cbn [mbind option_bind]. unfold cstring at 1. rewrite <- app_assoc, blit_at
      by (unfold cstring; rewrite !length_app; simpl; lia).
    eexists. split; [done|]. eexists. unfold cstring. by rewrite <- !app_assoc.
  - assert (Hset : set (cstring cwd ++ rest) (zlen cwd) PATH_SEPARATOR = (cwd ++ [PATH_SEPARATOR]) ++ rest).
    { unfold cstring, set, zlen. destruct (Z.of_nat (length cwd) <? 0) eqn:?; [zbool; lia|]. rewrite Nat2Z.id.
      rewrite <- !app_assoc. rewrite insert_app_r_alt by lia. by rewrite Nat.sub_diag. }
    rewrite Hset. replace (zlen cwd + 1) with (zlen (cwd ++ [PATH_SEPARATOR])) by (by rewrite zlen_app).
    rewrite at_off_strcpy;
      [|done|apply zlen_nonneg|rewrite (zlen_app _ rest); clear -Hrest; unfold zlen; lia].
    cbn [mbind option_bind]. rewrite blit_at by (unfold cstring; rewrite !length_app; simpl; lia).
    eexists. split; [done|]. eexists. unfold cstring. by rewrite <- !app_assoc.
Qed.
