(* ===== verification/Pipe.v ===== *)
(** * Pipe: fs/pipe.c and include/depthos/pipe.h

    Pipes over a ring of bytes.  An operation that has to wait spins on
    [sched_yield] until another task changes the pipe: it is [Blocked], and
    is tried again later. *)
From S2P Require Import Prelude RingBuffer Vfs.

Definition PIPE_SIZE := 4096.
Definition POLLIN := 0x01.
Definition POLLOUT := 0x02.

Inductive io (A : Type) := Blocked | Ret (a : A).
Arguments Blocked {A}.
Arguments Ret {A} a.

Record pipe_t := Pipe { pbuf : ringbuffer; n_writers : Z; n_readers : Z }.
Definition with_buf (b : ringbuffer) (p : pipe_t) := Pipe b (n_writers p) (n_readers p).

(** One iteration of the copy in [pipe_file_read], at index [i]; the ring is
    not empty. *)
Fixpoint pipe_read_loop (n : nat) (p : pipe_t) (buffer : list Z) (i : Z) : option (pipe_t * list Z * Z) :=
  match n with
  | O => Some (p, buffer, i)
  | S n =>
      if rb_size (pbuf p) =? 0 then Some (p, buffer, i) else
      let '(b, e) := ringbuffer_pop (pbuf p) in
      e ← e;
      pipe_read_loop n (with_buf b p) (blit buffer i (slot_at (pbuf p) e)) (u32 (i + 1))
  end.
(** [off] is [*offset]; the result is the pipe, the buffer, the offset and the
    returned count. *)
Definition pipe_file_read (p : pipe_t) (feof : bool) (buffer : list Z) (count off : Z)
  : option (io (pipe_t * list Z * Z * Z)) :=
  if feof then Some (Ret (p, buffer, off, 0)) else
  if rb_size (pbuf p) =? 0 then Some Blocked else
  '(p, buffer, i) ← pipe_read_loop (Z.to_nat count) p buffer 0;
  Some (Ret (p, buffer, u32 (off + i), i)).

Definition pipe_file_write (p : pipe_t) (buffer : list Z) (count off : Z) : io (pipe_t * Z * Z) :=
  if rb_max_size (pbuf p) <? u32 (rb_size (pbuf p) + count) then Blocked
  else Ret (with_buf (ringbuffer_pushn (pbuf p) buffer count) p, u32 (off + count), count).

(** The operations table of a pipe file; [pipe_write_ops] has [pipe_file_read]
    in its [write] slot. *)
Inductive pipe_ops := pipe_read_ops | pipe_write_ops | other_ops.
Definition reads_with_pipe_read (o : pipe_ops) : bool := match o with pipe_read_ops => true | _ => false end.
Definition writes_with_pipe_read (o : pipe_ops) : bool := match o with pipe_write_ops => true | _ => false end.

(** The result's second part is the closed file's [eof]. *)
Definition pipe_file_close (p : pipe_t) (o : pipe_ops) (feof : bool) : pipe_t * bool :=
  let p := if reads_with_pipe_read o then Pipe (pbuf p) (n_writers p) (n_readers p - 1)
           else if writes_with_pipe_read o then Pipe (pbuf p) (n_writers p - 1) (n_readers p)
           else p in
  (p, if n_writers p =? 0 then true else feof).

Definition pipe_file_poll (p : pipe_t) : Z :=
  let revents := 0 in
  let revents := if 0 <? rb_size (pbuf p) then Z.lor revents POLLIN else revents in
  if rb_size (pbuf p) <? rb_max_size (pbuf p) then Z.lor revents POLLOUT else revents.

(** [kmalloc]ed memory is [junk]: only these fields are set. *)
Definition create_pipe_file (ops_read ops_write : Z) (junk : fs_node) (p : pipe_t) (paddr : Z) (write : bool)
  : pipe_t * fs_node :=
  (if write then Pipe (pbuf p) (n_writers p + 1) (n_readers p)
   else Pipe (pbuf p) (n_writers p) (n_readers p + 1),
   FsNode (name junk) (path junk) (type junk) (mode junk) (pos junk) (eof junk) (rb_size (pbuf p)) (dev junk)
     (inode_num junk) (if write then ops_write else ops_read) (impl junk) paddr (socket junk) 0
     (rdonly junk)).

(** The pipes opened through a FIFO file; [open_pipes] in order, each with its
    device, inode and address. *)
Record open_pipe := OpenPipe { op_device : Z; op_inode : Z; op_pipe : Z }.
Fixpoint pipe_lookup (ps : list open_pipe) (inode : Z) : option Z :=
  match ps with
  | [] => None
  | op :: ps => if inode =? op_inode op then Some (op_pipe op) else pipe_lookup ps inode
  end.
(** [a] and [garbage] are the allocations of a new pipe and of its ring. *)
Definition pipe_open (garbage : list Z) (a : Z) (ps : list open_pipe) (store : gmap Z pipe_t) (device inode : Z)
  : list open_pipe * gmap Z pipe_t * Z :=
  match pipe_lookup ps inode with
  | Some p => (ps, store, p)
  | None => (ps ++ [OpenPipe device inode a], <[a := Pipe (ringbuffer_create garbage PIPE_SIZE 1) 0 0]> store, a)
  end.

(** ** A pipe is a queue of bytes *)
Definition pipe_wf (p : pipe_t) : Prop := rb_wf (pbuf p) /\ rb_elem_size (pbuf p) = 1.
Definition bytes (p : pipe_t) : list Z := concat (contents (pbuf p)).

Lemma concat_singletons (l : list (list Z)) : Forall (fun v => zlen v = 1) l -> zlen (concat l) = zlen l.
Proof.
  induction 1 as [|v l Hv Hl IH]; [done|]. simpl. rewrite zlen_app, zlen_cons, Hv, IH. lia.
Qed.

Lemma contents_singletons rb : rb_wf rb -> rb_elem_size rb = 1 -> Forall (fun v => zlen v = 1) (contents rb).
Proof.
  intros Hwf He. unfold contents. apply Forall_fmap, Forall_forall. intros k Hk%elem_of_seqZ. simpl.
  unfold slot_at. pose proof Hwf as (?&?&_).
  pose proof (Z.mod_pos_bound (rb_read_idx rb + k) (rb_max_size rb) ltac:(lia)) as Hm.
  destruct (slot_bounds rb _ Hwf Hm) as (->&?&?). rewrite zlen_slice by lia. done.
Qed.

Lemma bytes_length p : pipe_wf p -> zlen (bytes p) = rb_size (pbuf p).
Proof.
  intros [Hwf He]. unfold bytes. rewrite concat_singletons by (by apply contents_singletons).
  by apply contents_zlen.
Qed.

Lemma slices_concat (l : list Z) n :
  0 <= n <= zlen l -> concat ((fun i => slice l (i * 1) 1) <$> seqZ 0 n) = take (Z.to_nat n) l.
Proof.
  intros Hn. remember (Z.to_nat n) as k eqn:Ek. revert n Hn Ek.
  induction k as [|k IH]; intros n Hn Ek; [by replace n with 0 by lia|].
  replace n with (n - 1 + 1) by lia. rewrite seqZ_app, fmap_app, concat_app by lia.
  rewrite (IH (n - 1)) by lia. unfold zlen in Hn.
  destruct (lookup_lt_is_Some_2 l k) as [x Hx]; [lia|]. rewrite (take_S_r _ _ x) by done. f_equal.
  simpl. replace (Z.of_nat 0 + (0 + (n - 1))) with (Z.of_nat k) by lia. rewrite app_nil_r.
  unfold slice. rewrite Z.mul_1_r, Nat2Z.id. destruct (Z.of_nat k <? 0) eqn:?; [zbool; lia|].
  rewrite (drop_S _ x) by done. done.
Qed.

Lemma pipe_read_loop_spec n p buffer i :
  pipe_wf p -> 0 <= i -> i + Z.of_nat n <= zlen buffer -> zlen buffer < 2 ^ 32 ->
  let k := Z.min (Z.of_nat n) (zlen (bytes p)) in
  exists p', pipe_read_loop n p buffer i
    = Some (p', blit buffer i (take (Z.to_nat k) (bytes p)), i + k)
  /\ pipe_wf p' /\ bytes p' = drop (Z.to_nat k) (bytes p)
  /\ n_writers p' = n_writers p /\ n_readers p' = n_readers p.
Proof.
  revert p buffer i. induction n as [|n IH]; intros p buffer i Hp Hi Hb Hlt k.
  { exists p. unfold k. replace (Z.min (Z.of_nat 0) (zlen (bytes p))) with 0 by (unfold zlen; lia).
    change (Z.to_nat 0) with 0%nat. rewrite take_0, blit_nil, Z.add_0_r, drop_0. by split_and!. }
  pose proof (bytes_length p Hp) as Hl. cbn [pipe_read_loop].
  destruct (Z.eqb_spec (rb_size (pbuf p)) 0) as [E|E].
  { exists p. unfold k. replace (Z.min (Z.of_nat (S n)) (zlen (bytes p))) with 0 by lia.
    change (Z.to_nat 0) with 0%nat. rewrite take_0, blit_nil, Z.add_0_r, drop_0. by split_and!. }
  destruct Hp as [Hwf He]. pose proof Hwf as (_&_&_&_&_&_&Hs&_).
  destruct (pop_contents (pbuf p) Hwf) as (off&Hoff&Hc); [lia|].
  pose proof (pop_wf (pbuf p) Hwf) as Hwf'. specialize (Hwf' ltac:(lia)).
  pose proof (contents_singletons _ Hwf He) as Hsing. rewrite Hc in Hsing.
  inversion Hsing as [|? ? Hv Hsing']; subst.
  assert (Hb1 : bytes p = slot_at (pbuf p) off ++ bytes (with_buf (ringbuffer_pop (pbuf p)).1 p))
    by (unfold bytes; rewrite Hc; done).
  assert (He1 : rb_elem_size (ringbuffer_pop (pbuf p)).1 = 1)
    by (unfold ringbuffer_pop; by destruct (ringbuffer_empty _)).
  destruct (ringbuffer_pop (pbuf p)) as [b o]. simpl in *. subst o. cbn [mbind option_bind].
  set (p1 := with_buf b p) in *. set (v := slot_at (pbuf p) off) in *.
  destruct v as [|x [|]] eqn:Ev; unfold zlen in Hv; simpl in Hv; try lia. clear Hv.
  rewrite u32_id by lia.
  destruct (IH p1 (blit buffer i [x]) (i + 1)) as (p'&->&Hp'&Hd&?&?);
    rewrite ?zlen_blit; try lia; [by split|].
  exists p'. rewrite Hb1 in *. rewrite zlen_app in Hl. change (zlen [x]) with 1 in Hl.
  set (k1 := Z.min (Z.of_nat n) (zlen (bytes p1))) in *. 
  assert (Hkk : k = 1 + k1)
    by (unfold k, k1; rewrite Hb1, zlen_app; change (zlen [x]) with 1; lia).
  assert (Hk : Z.to_nat k = S (Z.to_nat k1)) by (rewrite Hkk; unfold k1, zlen; lia).
  rewrite Hk. split_and!; try done.
  - replace (i + k) with (i + 1 + k1) by lia.
    do 3 f_equal. change (take (S (Z.to_nat k1)) ([x] ++ bytes p1)) with ([x] ++ take (Z.to_nat k1) (bytes p1)).
    rewrite <- (blit_app buffer i [x]); [done|lia|].
    change (zlen [x]) with 1. unfold k1, zlen in *. rewrite length_take. lia.
Qed.

Lemma pushn_bytes p data n :
  pipe_wf p -> 0 <= n <= zlen data -> rb_size (pbuf p) + n <= rb_max_size (pbuf p) ->
  let p' := with_buf (ringbuffer_pushn (pbuf p) data n) p in
  pipe_wf p' /\ bytes p' = bytes p ++ take (Z.to_nat n) data /\ rb_max_size (pbuf p') = rb_max_size (pbuf p).
Proof.
  intros [Hwf He] Hn Hroom p'.
  destruct (ringbuffer_pushn_appends (pbuf p) data n Hwf) as [Hwf' Hc]; [lia|done|rewrite He; lia|].
  assert (Hsz : rb_elem_size (ringbuffer_pushn (pbuf p) data n) = 1
    /\ rb_max_size (ringbuffer_pushn (pbuf p) data n) = rb_max_size (pbuf p)).
  { unfold ringbuffer_pushn. apply (for_range_ind (fun _ b => rb_elem_size b = 1 /\ rb_max_size b = rb_max_size (pbuf p)));
      [lia|done|]. intros i s _ H. exact H. }
  destruct Hsz. split_and!; [by split| |done]. unfold bytes, p'. simpl. rewrite Hc, concat_app, He.
  by rewrite slices_concat.
Qed.

(** C19: a pipe is a bounded queue of bytes: a write waits until all of its
    bytes fit and then appends them; a read of a file that is not at its end
    waits for a byte and then takes as many as it asked for and there are, in
    the order in which they were written; nothing else of the buffer changes. *)
Theorem pipe_is_fifo p data count off buffer :
  pipe_wf p -> rb_max_size (pbuf p) <= PIPE_SIZE -> 0 <= count < 2 ^ 31 -> zlen data = count -> zlen buffer = count -> 0 <= off ->
  (if zlen (bytes p) + count <=? rb_max_size (pbuf p)
   then exists p', pipe_file_write p data count off = Ret (p', u32 (off + count), count)
          /\ pipe_wf p' /\ bytes p' = bytes p ++ data
   else pipe_file_write p data count off = Blocked)
  /\ (let k := Z.min count (zlen (bytes p)) in
      if zlen (bytes p) =? 0 then pipe_file_read p false buffer count off = Some Blocked
      else exists p', pipe_file_read p false buffer count off
                      = Some (Ret (p', blit buffer 0 (take (Z.to_nat k) (bytes p)), u32 (off + k), k))
             /\ pipe_wf p' /\ bytes p' = drop (Z.to_nat k) (bytes p)).
Proof.
  intros Hp Hmax Hc Hd Hb Hoff. unfold PIPE_SIZE in Hmax. rewrite bytes_length by done.
  pose proof Hp as [(_&Hm&Hm2&_&_&_&Hs&_) He]. split.
  - unfold pipe_file_write. destruct (rb_size (pbuf p) + count <=? rb_max_size (pbuf p)) eqn:E; zbool.
    + rewrite (u32_id (_ + count)) by lia. destruct (_ <? _) eqn:?; [lia|].
      destruct (pushn_bytes p data count Hp) as (H1&H2&_); [lia|lia|].
      eexists. split; [done|]. split; [done|]. rewrite H2, take_ge; [done|unfold zlen in Hd; lia].
    + rewrite u32_id by lia. destruct (_ <? _) eqn:?; [done|lia].
  - cbv zeta. unfold pipe_file_read. destruct (rb_size (pbuf p) =? 0); [done|].
    destruct (pipe_read_loop_spec (Z.to_nat count) p buffer 0 Hp) as (p'&->&Hp'&Hd'&_); try lia.
    cbn [mbind option_bind]. rewrite Z2Nat.id in * by lia. rewrite <- bytes_length by done.
    exists p'. split_and!; done.
Qed.

Definition pipe_example : pipe_t := Pipe rb_example 1 1.
Lemma pipe_is_fifo_witness :
  pipe_file_write pipe_example [7; 8] 2 0 = Ret (with_buf (ringbuffer_pushn rb_example [7; 8] 2) pipe_example, 2, 2)
  /\ exists p', pipe_file_read pipe_example false [0; 0] 2 0 = Some (Ret (p', [13; 10], 2, 2)).
Proof.
  assert (Hp : pipe_wf pipe_example) by (split; [apply rb_example_wf|done]).
  destruct (pipe_is_fifo pipe_example [7; 8] 2 0 [0; 0] Hp) as [_ (p'&Hr&_)]; [done..|].
  split; [reflexivity|]. exists p'. exact Hr.
Defined.
