(* ===== verification/LocalSocket.v ===== *)
(** * LocalSocket: net/local_socket.c and include/depthos/socket.h

    Stream sockets between processes of the machine.  Queues are the sequences
    of their values; a message keeps the sender's pointer, not a copy, and the
    bytes are read through it when they are received.  Sockets live in a store
    indexed by address; the memory of the running process is a function from
    addresses to bytes. *)
From S2P Require Import Prelude CString Vfs Pipe.

Definition AF_UNIX := 0x3.
Definition AF_LOCAL := AF_UNIX.
Definition SOCK_STREAM := 0x4.
Definition SOCK_STATE_DISCONNECTED := 0.
Definition SOCK_STATE_LISTENING := 1.
Definition SOCK_STATE_CONNECTED := 2.

Record net_message := Message { msg_data : Z; msg_size : Z }.
Record socket_t := Socket {
  family : Z; sock_type : Z; sock_state : Z; conn_queue : list Z; backlog : Z;
  messages : list net_message; peer : Z
}.
Definition with_messages (m : list net_message) (s : socket_t) :=
  Socket (family s) (sock_type s) (sock_state s) (conn_queue s) (backlog s) m (peer s).
Definition with_conn_queue (q : list Z) (s : socket_t) :=
  Socket (family s) (sock_type s) (sock_state s) q (backlog s) (messages s) (peer s).
Definition with_backlog (b : Z) (s : socket_t) :=
  Socket (family s) (sock_type s) (sock_state s) (conn_queue s) b (messages s) (peer s).
Definition with_peer (st p : Z) (s : socket_t) :=
  Socket (family s) (sock_type s) st (conn_queue s) (backlog s) (messages s) p.

(** [bound_sockets]: a socket and the copy of its path. *)
Record bound_socket := Bound { bs_sock : Z; bs_path : list Z }.
Record sockets := Sockets { sk_store : gmap Z socket_t; bound_sockets : list bound_socket }.
Definition with_sockets (st : gmap Z socket_t) (s : sockets) := Sockets st (bound_sockets s).

(** The copy of the path is made by [strdup]. *)
Definition local_socket_bind (open_path create_path : vfs -> list Z -> option (vfs * Z))
  (garbage : list Z) (v : vfs) (s : sockets) (sock : Z) (sun_filepath : list Z) : option (vfs * sockets * Z) :=
  '(v, fn) ← open_path v sun_filepath;
  if negb (fn =? 0) then Some (v, s, - EADDRINUSE) else
  '(v, _) ← create_path v sun_filepath;
  p ← strdup garbage sun_filepath;
  Some (v, Sockets (sk_store s) (bound_sockets s ++ [Bound sock p]), 0).

Fixpoint connect_walk (bs : list bound_socket) (s : sockets) (sock : Z) (p : list Z) : option (sockets * Z) :=
  match bs with
  | [] => Some (s, - ECONNREFUSED)
  | b :: bs =>
      e ← streq p (bs_path b);
      if (e : bool) then
        l ← sk_store s !! bs_sock b;
        if backlog l <=? s32 (zlen (conn_queue l)) then Some (s, - ECONNREFUSED)
        else Some (with_sockets (<[bs_sock b := with_conn_queue (conn_queue l ++ [sock]) l]> (sk_store s)) s, 0)
      else connect_walk bs s sock p
  end.
Definition local_socket_connect (s : sockets) (sock : Z) (sun_filepath : list Z) : option (sockets * Z) :=
  connect_walk (bound_sockets s) s sock sun_filepath.

(** Reading and writing the memory of a process. *)
Definition load (m : Z -> Z) (a n : Z) : list Z := m <$> seqZ a n.
Definition store (m : Z -> Z) (a : Z) (l : list Z) : Z -> Z :=
  fun x => if (a <=? x) && (x <? a + zlen l) then get 0 l (x - a) else m x.

(** [memcpy] within one memory: [*d++ = *s++], [n] times. *)
Fixpoint copy_bytes (n : nat) (m : Z -> Z) (d s : Z) : Z -> Z :=
  match n with
  | O => m
  | S n => copy_bytes n (fun x => if x =? d then m s else m x) (u32 (d + 1)) (u32 (s + 1))
  end.

(** In the memory [m] of the receiver; the result is the socket, the memory and
    the number of bytes. *)
Definition local_socket_recv (m : Z -> Z) (sock : socket_t) (buf sz : Z) : io (socket_t * (Z -> Z) * Z) :=
  match messages sock with
  | [] => Blocked
  | msg :: queue =>
      let count := if msg_size msg <? sz then msg_size msg else sz in
      let queue := if sz <? msg_size msg
                   then Message (u32 (msg_data msg + sz)) (u32 (msg_size msg - sz)) :: queue
                   else queue in
      Ret (with_messages queue sock, copy_bytes (Z.to_nat count) m buf (msg_data msg), count)
  end.

(** Nothing is returned. *)
Definition local_socket_send (s : sockets) (sock buf sz : Z) : option sockets :=
  me ← sk_store s !! sock;
  other ← sk_store s !! peer me;
  Some (with_sockets (<[peer me := with_messages (messages other ++ [Message buf sz]) other]> (sk_store s)) s).

Definition local_socket_poll (sock : socket_t) : Z :=
  if 0 <? zlen (messages sock) then Z.lor POLLOUT POLLIN else POLLOUT.

(** The new socket, at [a]; the function has no [return]. *)
Definition create_local_socket (s : sockets) (a ty : Z) : option sockets :=
  if negb (ty =? SOCK_STREAM) then None
  else Some (with_sockets (<[a := Socket AF_LOCAL ty SOCK_STATE_DISCONNECTED [] 0 [] 0]> (sk_store s)) s).

(** ** The stream of a socket: the places of its unread bytes, in order *)
Definition places (m : net_message) : list Z := seqZ (msg_data m) (msg_size m).
Definition stream (sock : socket_t) : list Z := concat (places <$> messages sock).
Definition message_ok (m : net_message) : Prop :=
  0 <= msg_data m /\ 0 <= msg_size m /\ msg_data m + msg_size m < 2 ^ 32.
Definition socket_ok (sock : socket_t) : Prop := Forall message_ok (messages sock).

(** The bytes of the stream, where the memory of the reader has them. *)
Definition stream_bytes (m : Z -> Z) (sock : socket_t) : list Z := m <$> stream sock.

(** Copying forwards to a place that does not overlap. *)
Lemma copy_bytes_spec n m d s :
  0 <= d -> d + Z.of_nat n <= 2 ^ 32 -> 0 <= s -> s + Z.of_nat n <= 2 ^ 32 ->
  (forall x, d <= x < d + Z.of_nat n -> ~ (s <= x < s + Z.of_nat n)) ->
  load (copy_bytes n m d s) d (Z.of_nat n) = load m s (Z.of_nat n)
  /\ forall x, ~ (d <= x < d + Z.of_nat n) -> copy_bytes n m d s x = m x.
Proof.
  revert m d s. induction n as [|n IH]; intros m d s Hd Hdn Hs Hsn Hdis; [done|]. cbn [copy_bytes].
  set (m1 := fun x => if x =? d then m s else m x).
  destruct n as [|n']; [|set (n := S n') in *].
  { cbn [copy_bytes]. split; [unfold load, m1; simpl; by rewrite Z.eqb_refl|].
    intros x Hx. unfold m1. by rewrite (proj2 (Z.eqb_neq _ _)) by lia. }
  assert (1 <= Z.of_nat n) by (unfold n; lia).
  rewrite !u32_id by lia.
  destruct (IH m1 (d + 1) (s + 1)) as [Hl Ho]; [lia..|intros x Hx; specialize (Hdis x); lia|].
  rewrite Nat2Z.inj_succ. unfold Z.succ. split.
  - unfold load in *. rewrite (Z.add_comm (Z.of_nat n) 1), !seqZ_app, !fmap_app by lia. f_equal.
    + rewrite (seqZ_cons d 1), (seqZ_cons s 1) by lia. rewrite !fmap_cons, Ho by lia.
      unfold m1. by rewrite Z.eqb_refl.
    + rewrite Hl. apply list_fmap_ext. intros i x Hx. apply list_elem_of_lookup_2, elem_of_seqZ in Hx.
      unfold m1. rewrite (proj2 (Z.eqb_neq _ _)); [done|]. specialize (Hdis d). lia.
  - intros x Hx. rewrite Ho by lia. unfold m1. by rewrite (proj2 (Z.eqb_neq _ _)) by lia.
Qed.

(** Taking [count] bytes of the first message. *)
Lemma recv_stream m sock msg queue buf sz :
  messages sock = msg :: queue -> socket_ok sock -> 0 <= sz ->
  let count := Z.min sz (msg_size msg) in
  exists sock', local_socket_recv m sock buf sz
      = Ret (sock', copy_bytes (Z.to_nat count) m buf (msg_data msg), count)
  /\ socket_ok sock' /\ stream sock = seqZ (msg_data msg) count ++ stream sock'.
Proof.
  intros Em Hok Hs count. unfold local_socket_recv. rewrite Em.
  unfold socket_ok in Hok. rewrite Em in Hok. inversion Hok as [|? ? (H0&H1&H2) Hq]; subst.
  assert (Hc : (if msg_size msg <? sz then msg_size msg else sz) = count) by (unfold count; cmp; lia).
  rewrite Hc. eexists. split; [done|]. unfold stream, socket_ok. rewrite Em. simpl.
  destruct (sz <? msg_size msg) eqn:E2; zbool.
  - split; [constructor; [|done]; unfold message_ok; simpl; rewrite !u32_id; lia|].
    unfold places at 1. replace (msg_size msg) with (sz + (msg_size msg - sz)) at 1 by lia.
    rewrite seqZ_app by lia. replace count with sz by (unfold count; lia). simpl. unfold places at 2. simpl.
    by rewrite !u32_id, <- app_assoc by lia.
  - split; [done|]. unfold places at 1. by replace count with (msg_size msg) by (unfold count; lia).
Qed.

(** C20: a socket is a stream of the bytes that were sent, as the receiver's
    memory has them at the senders' addresses when it receives.  A send appends
    its bytes to the peer's stream.  A receive waits exactly when there is no
    message; otherwise it copies the next bytes of the stream into the buffer -
    as many as asked for, but not past the end of a message - and leaves the
    rest of the stream to the following ones; no other byte of the memory
    changes.  The buffer must not lie over bytes still in the stream. *)
Theorem local_socket_stream s me other sock buf sz (m : Z -> Z) :
  sk_store s !! sock = Some me -> sk_store s !! peer me = Some other -> socket_ok other ->
  0 <= buf -> 0 <= sz -> buf + sz < 2 ^ 32 ->
  (exists s' other', local_socket_send s sock buf sz = Some s' /\ sk_store s' !! peer me = Some other'
     /\ socket_ok other' /\ stream_bytes m other' = stream_bytes m other ++ load m buf sz)
  /\ (match messages other with
      | [] => local_socket_recv m other buf sz = Blocked
      | msg :: _ =>
          let count := Z.min sz (msg_size msg) in
          (forall x, buf <= x < buf + count -> x ∉ stream other) ->
          exists other' m', local_socket_recv m other buf sz = Ret (other', m', count)
            /\ socket_ok other'
            /\ stream_bytes m other = load m' buf count ++ stream_bytes m' other'
            /\ forall x, ~ (buf <= x < buf + count) -> m' x = m x
      end).
Proof.
  intros Hme Hpeer Hok Hb Hs Hle. split.
  - unfold local_socket_send. rewrite Hme. cbn [mbind option_bind]. rewrite Hpeer. cbn [mbind option_bind].
    do 2 eexists. split; [done|]. simpl. rewrite lookup_insert_eq. split; [done|]. split.
    + apply Forall_app. split; [done|]. by repeat constructor.
    + unfold stream_bytes, stream, load. simpl. rewrite fmap_app, concat_app, fmap_app. simpl. by rewrite app_nil_r.
  - destruct (messages other) as [|msg queue] eqn:Em; [unfold local_socket_recv; by rewrite Em|].
    intros count Hdis. destruct (recv_stream m other msg queue buf sz Em Hok Hs) as (other'&Hr&Hok'&Hst).
    fold count in Hr, Hst. rewrite Hr. do 2 eexists. split; [done|]. split; [done|].
    assert (0 <= count <= sz).
    { unfold socket_ok in Hok. rewrite Em in Hok. inversion Hok as [|? ? (?&?&?) _]; subst. unfold count. lia. }
    assert (Hmsg : 0 <= msg_data msg /\ msg_data msg + count <= 2 ^ 32).
    { unfold socket_ok in Hok. rewrite Em in Hok. inversion Hok as [|? ? (?&?&?) _]; subst. unfold count. lia. }
    destruct (copy_bytes_spec (Z.to_nat count) m buf (msg_data msg)) as [Hl Ho]; [lia..| |].
    { intros x Hx Hx'. apply (Hdis x); [lia|]. rewrite Hst. apply elem_of_app. left. apply elem_of_seqZ. lia. }
    rewrite !Z2Nat.id in Hl, Ho by lia. split; [|done].
    unfold stream_bytes. rewrite Hst, fmap_app, Hl. f_equal. apply list_fmap_ext. intros i x Hx.
    apply list_elem_of_lookup_2 in Hx. symmetry. apply Ho. intros Hin. apply (Hdis x Hin).
    rewrite Hst. apply elem_of_app. by right.
Qed.

Definition sockets_example : sockets :=
  Sockets {[ 16 := Socket 3 4 2 [] 0 [] 32; 32 := Socket 3 4 1 [] 0 [Message 100 5] 16 ]} [].
(** A memory whose byte at an address is that address. *)
Definition identity_memory (x : Z) : Z := x mod 256.
Lemma local_socket_stream_witness :
  (exists s' o, local_socket_send sockets_example 16 200 3 = Some s' /\ sk_store s' !! 32 = Some o
     /\ stream_bytes identity_memory o = [100; 101; 102; 103; 104; 200; 201; 202])
  /\ exists o m, local_socket_recv identity_memory (Socket 3 4 1 [] 0 [Message 100 5] 16) 200 3 = Ret (o, m, 3)
     /\ [100; 101; 102; 103; 104] = load m 200 3 ++ stream_bytes m o.
Proof.
  destruct (local_socket_stream sockets_example (Socket 3 4 2 [] 0 [] 32) (Socket 3 4 1 [] 0 [Message 100 5] 16) 16 200 3
    identity_memory) as [(s'&o&H1&H2&_&H3) Hr]; [done..|by repeat constructor|done|done|done|].
  split; [exists s', o; by rewrite H3|].
  destruct Hr as (o'&m'&Hr&_&Hb&_).
  { intros x Hx. change (stream _) with (seqZ 100 5 ++ []). rewrite app_nil_r, elem_of_seqZ. simpl in Hx. lia. }
  exists o', m'. split; [exact Hr|exact Hb].
Defined.

(** The bytes are not copied when they are sent: what the sender's buffer, or
    the receiver's memory at that address, holds later is what is received. *)
Example local_socket_late_bytes :
  let m := store identity_memory 200 [7; 7; 7] in
  exists s' o o' m', local_socket_send sockets_example 16 200 3 = Some s' /\ sk_store s' !! 32 = Some o
    /\ local_socket_recv m (with_messages (tail (messages o)) o) 300 3 = Ret (o', m', 3)
    /\ load identity_memory 200 3 = [200; 201; 202] /\ load m' 300 3 = [7; 7; 7].
Proof.
  eexists _, _, _, _. split; [done|]. split; [done|]. split; [done|].
  split; vm_compute; reflexivity.
Qed.
