(* ===== verification/FdOps.v ===== *)
(** * FdOps: fs/fdops.c

    The system calls on file descriptors.  The state is the calling task's
    file table (256 node addresses, 0 for a free slot) with its [errno] and
    working directory, its memory, the mount table, and the stores of pipes
    and sockets.  Operations behind the pointers of a file's operations table
    are Section variables.  A call that has to wait is [Blocked]; an access
    through NULL or outside the table is undefined, and the model stops. *)
From S2P Require Import Prelude CString RingBuffer Vfs Pipe LocalSocket.

Definition TASK_FILETABLE_MAX := 256.
Definition O_CREAT := 0x10.
Definition FD_RDONLY := 2.
Definition DEV_C_TTY := 1.

Record fds := Fds {
  filetable : list Z;
  errno : Z;
  cwd : option (list Z);      (** [None]: the task has no process *)
  mem : Z -> Z;
  vfs_s : vfs;
  pipes : gmap Z pipe_t;
  open_pipes : list open_pipe;
  socks : sockets
}.
Definition with_table (t : list Z) (s : fds) := Fds t (errno s) (cwd s) (mem s) (vfs_s s) (pipes s) (open_pipes s) (socks s).
Definition with_errno (e : Z) (s : fds) := Fds (filetable s) e (cwd s) (mem s) (vfs_s s) (pipes s) (open_pipes s) (socks s).
Definition with_cwd (c : option (list Z)) (s : fds) := Fds (filetable s) (errno s) c (mem s) (vfs_s s) (pipes s) (open_pipes s) (socks s).
Definition with_mem (m : Z -> Z) (s : fds) := Fds (filetable s) (errno s) (cwd s) m (vfs_s s) (pipes s) (open_pipes s) (socks s).
Definition with_vfs (v : vfs) (s : fds) := Fds (filetable s) (errno s) (cwd s) (mem s) v (pipes s) (open_pipes s) (socks s).
Definition with_pipes (p : gmap Z pipe_t) (s : fds) := Fds (filetable s) (errno s) (cwd s) (mem s) (vfs_s s) p (open_pipes s) (socks s).
Definition with_open_pipes (o : list open_pipe) (s : fds) := Fds (filetable s) (errno s) (cwd s) (mem s) (vfs_s s) (pipes s) o (socks s).
Definition with_socks (k : sockets) (s : fds) := Fds (filetable s) (errno s) (cwd s) (mem s) (vfs_s s) (pipes s) (open_pipes s) k.

Definition node_at (s : fds) (a : Z) : option fs_node := nodes (vfs_s s) !! a.
Definition set_node (a : Z) (n : fs_node) (s : fds) : fds := with_vfs (set_nodes (<[a := n]> (nodes (vfs_s s))) (vfs_s s)) s.
Definition del_node (a : Z) (s : fds) : fds := with_vfs (set_nodes (delete a (nodes (vfs_s s))) (vfs_s s)) s.

(** An [int] in the caller's memory. *)
Definition word_bytes (v : Z) : list Z :=
  [u8 v; u8 (Z.shiftr v 8); u8 (Z.shiftr v 16); u8 (Z.shiftr v 24)].

(** [filetable[fd] = a]; nothing checks the index. *)
Definition table_set (s : fds) (fd a : Z) : option fds :=
  if (fd <? 0) || (zlen (filetable s) <=? fd) then None else Some (with_table (set (filetable s) fd a) s).

Definition ret (s : fds) (r : Z) : option (io (fds * Z)) := Some (Ret (s, r)).

(** CHECK_BUF. *)
Definition bad_buf (buf : Z) : bool := (buf =? 0) || (VIRT_BASE <? buf).

(** 0 is NULL. *)
Definition lookup_file (s : fds) (fd : Z) : fds * Z :=
  if (fd <? 0) || (TASK_FILETABLE_MAX <=? fd) then (with_errno EBADF s, 0) else
  let file := get 0 (filetable s) fd in
  (if file =? 0 then with_errno EBADF s else s, file).

(** The loop over the table from index [i]. *)
Fixpoint find_free (n : nat) (t : list Z) (i : Z) : Z :=
  match n with
  | O => -1
  | S n => if get 0 t i =? 0 then i else find_free n t (i + 1)
  end.
Definition find_available_fd (s : fds) : Z := find_free (Z.to_nat TASK_FILETABLE_MAX) (filetable s) 0.

Section calls.
  (** The operations tables, by the address of the table; a missing entry is
      [None].  [write] and [read] get the file, the buffer and the count. *)
  Context (ops_write ops_read : Z -> option (fds -> Z -> Z -> Z -> option (io (fds * Z)))).
  Context (ops_seek ops_ioctl : Z -> option (fds -> Z -> Z -> Z -> option (io (fds * Z)))).
  Context (ops_iter : Z -> option (fds -> Z -> Z -> option (fds * Z * Z * Z * Z * list Z))).
  Context (ops_close : Z -> option (fds -> Z -> option fds)).
  (** The tables of pipe files. *)
  Context (ops_kind : Z -> pipe_ops) (read_ops_addr write_ops_addr : Z).
  (** [vfs_open], and [vfs_create] with the mode 0777 and a file type. *)
  Context (open_path : vfs -> list Z -> option (vfs * Z)).
  Context (create_path : vfs -> list Z -> Z -> option (vfs * Z)).
  (** What a function that falls off its end leaves in the return register. *)
  Context (no_return : Z).
  (** [dev->class] of a device. *)
  Context (dev_class : Z -> Z).

(** [if (!file->ops->f)]: the table itself must be there. *)
Definition table_of {A} (ops : Z -> option A) (f : fs_node) : option (option A) :=
  if fops f =? 0 then None else Some (ops (fops f)).

Definition sys_write (s : fds) (fd buf n : Z) : option (io (fds * Z)) :=
  if bad_buf buf then ret s (- EFAULT) else
  let '(s, a) := lookup_file (with_errno 0 s) fd in
  if a =? 0 then ret s (- errno s) else
  file ← node_at s a;
  if negb (pipe file =? 0) then
    if negb (rdonly file) then
      p ← pipes s !! pipe file;
      match pipe_file_write p (load (mem s) buf n) n (pos file) with
      | Blocked => Some Blocked
      | Ret (p, off, r) => ret (set_node a (with_pos off file) (with_pipes (<[pipe file := p]> (pipes s)) s)) r
      end
    else ret s (- ENOSYS)
  else if negb (socket file =? 0) then
    k ← local_socket_send (socks s) (socket file) buf n;
    ret (with_socks k s) no_return
  else
    w ← table_of ops_write file;
    match w with None => ret s (- ENOSYS) | Some f => f s a buf n end.

Definition sys_read (s : fds) (fd buf n : Z) : option (io (fds * Z)) :=
  if bad_buf buf then ret s (- EFAULT) else
  let '(s, a) := lookup_file (with_errno 0 s) fd in
  if a =? 0 then ret s (- errno s) else
  file ← node_at s a;
  if negb (pipe file =? 0) then
    if rdonly file then
      p ← pipes s !! pipe file;
      r ← pipe_file_read p (eof file) (load (mem s) buf n) n (pos file);
      match r with
      | Blocked => Some Blocked
      | Ret (p, b, off, r) =>
          ret (with_mem (store (mem s) buf b)
                (set_node a (with_pos off file) (with_pipes (<[pipe file := p]> (pipes s)) s))) r
      end
    else ret s (- ENOSYS)
  else if negb (socket file =? 0) then
    k ← sk_store (socks s) !! socket file;
    match local_socket_recv (mem s) k buf n with
    | Blocked => Some Blocked
    | Ret (k, m, count) =>
        ret (with_mem m
              (with_socks (with_sockets (<[socket file := k]> (sk_store (socks s))) (socks s)) s)) count
    end
  else
    r ← table_of ops_read file;
    match r with None => ret s (- ENOSYS) | Some f => f s a buf n end.

(** [file->rdonly = (flags & FD_RDONLY) != 0]. *)
Definition set_rdonly (b : bool) (f : fs_node) := FsNode (name f) (path f) (type f) (mode f) (pos f) (eof f) (size f)
  (dev f) (inode_num f) (fops f) (impl f) (pipe f) (socket f) (fs f) b.
Definition set_pipe (p : Z) (f : fs_node) := FsNode (name f) (path f) (type f) (mode f) (pos f) (eof f) (size f)
  (dev f) (inode_num f) (fops f) (impl f) p (socket f) (fs f) (rdonly f).

(** [garbage] and [paddr] are the allocations of the resolved path (and of a
    new pipe's ring) and of the pipe. *)
Definition sys_open (garbage : list Z) (paddr : Z) (s : fds) (p : list Z) (flags : Z) : option (io (fds * Z)) :=
  rpath ← vfs_resolve garbage (Some p) (Some (default (cstring (str "/")) (cwd s)));
  rpath ← rpath;
  '(v, file) ← open_path (vfs_s s) rpath;
  let s := with_vfs v s in
  if negb (Z.land flags O_CREAT =? 0) || negb (file =? 0) then
    '(s, file) ← (if negb (Z.land flags O_CREAT =? 0) && (file =? 0) then
                    '(v, file) ← create_path (vfs_s s) rpath FS_FILE; Some (with_vfs v s, file)
                  else Some (s, file));
    node ← (if file =? 0 then None else node_at s file);
    '(s, node) ← (if type node =? FS_PIPE then
               let '(o, st, pa) := pipe_open garbage paddr (open_pipes s) (pipes s) (dev node) (inode_num node) in
               q ← st !! pa;
               let q := if negb (Z.land flags FD_RDONLY =? 0) then Pipe (pbuf q) (n_writers q) (n_readers q + 1)
                        else Pipe (pbuf q) (n_writers q + 1) (n_readers q) in
               Some (with_open_pipes o (with_pipes (<[pa := q]> st) s), set_pipe pa node)
             else Some (s, node));
    let s := set_node file (set_rdonly (negb (Z.land flags FD_RDONLY =? 0)) node) s in
    let fd := find_available_fd s in
    if fd <? 0 then ret s (- EMFILE) else
    s ← table_set s fd file; ret s fd
  else ret s (- ENOENT).

Definition sys_seek (s : fds) (fd offset whence : Z) : option (io (fds * Z)) :=
  let '(s, a) := lookup_file (with_errno 0 s) fd in
  if a =? 0 then ret s (- errno s) else
  file ← node_at s a;
  f ← table_of ops_seek file;
  match f with None => ret s (- ENOSYS) | Some f => f s a offset whence end.

Definition sys_close (s : fds) (fd : Z) : option (io (fds * Z)) :=
  let '(s, a) := lookup_file (with_errno 0 s) fd in
  if a =? 0 then ret s (- errno s) else
  file ← node_at s a;
  s ← (if negb (pipe file =? 0) && (type file =? FS_PIPE) then
         p ← pipes s !! pipe file;
         let '(p, e) := pipe_file_close p (ops_kind (fops file)) (eof file) in
         Some (set_node a (with_eof e file) (with_pipes (<[pipe file := p]> (pipes s)) s))
       else Some s);
  c ← table_of ops_close file;
  s ← match c with None => Some s | Some f => f s a end;
  s ← table_set s fd 0;
  ret s 0.

Definition sys_dup3 (s : fds) (oldfd newfd flags : Z) : option (io (fds * Z)) :=
  let '(s, a) := lookup_file (with_errno 0 s) oldfd in
  if a =? 0 then ret s (- errno s) else
  if newfd =? -1 then
    let i := find_available_fd s in
    if i =? -1 then ret s (- EMFILE) else s ← table_set s i a; ret s i
  else if (newfd <? 0) || (TASK_FILETABLE_MAX <=? newfd) then ret s (- EBADF)
  else s ← table_set s newfd a; ret s newfd.

Definition sys_ioctl (s : fds) (fd request data : Z) : option (io (fds * Z)) :=
  let '(s, a) := lookup_file (with_errno 0 s) fd in
  if a =? 0 then ret s (- errno s) else
  file ← node_at s a;
  f ← table_of ops_ioctl file;
  match f with None => ret s (- ENOSYS) | Some f => f s a request data end.

(** [sizeof(struct dentry_user)]: a byte and two words, packed. *)
Definition DENTRY_USER_SIZE := 9.
(** The driver's [iter] returns the state, its result, and the type, inode,
    offset and name of the entry; a negative [size_t] wraps. *)
Definition sys_readentry (s : fds) (fd buf sz : Z) : option (io (fds * Z)) :=
  let '(s, a) := lookup_file (with_errno 0 s) fd in
  if a =? 0 then ret s (- errno s) else
  file ← node_at s a;
  if negb (type file =? FS_DIR) then ret s (- ENOTDIR) else
  it ← table_of ops_iter file;
  match it with
  | None => ret s (- ENOSYS)
  | Some iter =>
      if sz <? DENTRY_USER_SIZE then ret s (- EINVAL) else
      let max_name_len := sz - DENTRY_USER_SIZE in
      '(s, r, ty, ino, off, nm) ← iter s a max_name_len;
      if r =? 0 then ret s 0 else
      n ← strlen nm;
      let limit := u32 (max_name_len - 1) in
      let name_len := if n <? limit then n else limit in
      let m := store (mem s) buf (u8 ty :: word_bytes ino ++ word_bytes off) in
      let m := store m (buf + DENTRY_USER_SIZE) (take (Z.to_nat name_len) nm ++ [0]) in
      ret (with_mem m s) (DENTRY_USER_SIZE + name_len + 1)
  end.

Definition sys_isatty (s : fds) (fd : Z) : option (io (fds * Z)) :=
  let '(s, a) := lookup_file (with_errno 0 s) fd in
  if a =? 0 then ret s (- errno s) else
  file ← node_at s a;
  if negb (type file =? FS_DEV) then ret s (- ENOTTY) else
  if negb (dev_class (impl file) =? DEV_C_TTY) then ret s (- ENOTTY) else ret s 0.

(** The fields of [struct stat] that are not 0; [stat_make_mode]. *)
Record stat_t := Stat { st_size : Z; st_mode : Z; st_dev : Z; st_inode : Z }.
Definition stat_make_mode (md ftype : Z) : Z := Z.lor (Z.land md 511) (Z.shiftl (Z.land ftype 0xF) 12).
Definition do_stat (file : fs_node) : stat_t :=
  Stat (size file) (u16 (stat_make_mode 511 (type file))) (dev file) (inode_num file).
Definition sys_statfd (s : fds) (fd : Z) : option (fds * Z * option stat_t) :=
  let '(s, a) := lookup_file (with_errno 0 s) fd in
  if a =? 0 then Some (s, - errno s, None) else
  file ← node_at s a; Some (s, 0, Some (do_stat file)).
Definition sys_stat (garbage : list Z) (s : fds) (p : list Z) : option (fds * Z * option stat_t) :=
  c ← cwd s;
  rpath ← vfs_resolve garbage (Some p) (Some c);
  rpath ← rpath;
  '(v, file) ← open_path (vfs_s s) rpath;
  let s := with_vfs v s in
  if file =? 0 then Some (s, - ENOENT, None) else
  node ← node_at s file; Some (s, 0, Some (do_stat node)).

(** The two searches; [junk1], [junk2] are the nodes' fresh memory, at [rf]
    and [wf]; the pipe is at [pa], its ring in [garbage]. *)
Definition sys_pipe (garbage : list Z) (junk1 junk2 : fs_node) (pa rf wf : Z) (s : fds) (fdsp : Z) : option (io (fds * Z)) :=
  let p := Pipe (ringbuffer_create garbage PAGE_SIZE 1) 0 0 in
  let '(p, rn) := create_pipe_file read_ops_addr write_ops_addr junk1 p pa false in
  let '(p, wn) := create_pipe_file read_ops_addr write_ops_addr junk2 p pa true in
  let s := set_node wf wn (set_node rf rn (with_pipes (<[pa := p]> (pipes s)) s)) in
  let i := find_available_fd s in
  s ← (if i =? -1 then Some s
       else s ← table_set s i rf; Some (with_mem (store (mem s) fdsp (word_bytes i)) s));
  let j := find_available_fd s in
  if j =? -1 then
    ret (del_node wf (del_node rf (with_pipes (delete pa (pipes s)) s))) (- EMFILE)
  else
    s ← table_set s j wf;
    ret (with_mem (store (mem s) (fdsp + 4) (word_bytes j)) s) 0.

Definition sys_fchdir (garbage : list Z) (s : fds) (fd : Z) : option (io (fds * Z)) :=
  match cwd s with
  | None => ret s (- EFAULT)
  | Some c =>
      let '(s, a) := lookup_file s fd in
      if a =? 0 then ret s (- errno s) else
      file ← node_at s a;
      d ← vfs_resolve garbage (Some (path file)) (Some c);
      d ← d;
      '(v, f) ← open_path (vfs_s s) d;
      let s := with_vfs v s in
      if f =? 0 then ret s (- ENOENT) else
      node ← node_at s f;
      if negb (type node =? FS_DIR) then ret s (- ENOTDIR) else
      cl ← table_of ops_close node;
      s ← match cl with None => Some s | Some g => g s f end;
      ret (with_cwd (Some d) s) 0
  end.

(** A new file of type FS_SOCKET, at [a], for the socket at [sock]. *)
Definition socket_node (sock : Z) : fs_node := FsNode [] [] FS_SOCKET 0 0 false 0 0 0 0 0 0 sock 0 false.

(** [ska] and [fa] are the allocations of the socket and of the file; the
    socket pointer the caller gets is [no_return]. *)
Definition sys_socket (ska fa : Z) (s : fds) (domain ty protocol : Z) : option (io (fds * Z)) :=
  if negb (domain =? AF_LOCAL) then ret s (- EINVAL) else
  if negb (ty =? SOCK_STREAM) then ret s (- EINVAL) else
  k ← create_local_socket (socks s) ska ty;
  let s := with_socks k s in
  let fd := find_available_fd s in
  let s := set_node fa (socket_node no_return) s in
  s ← table_set s fd fa; ret s fd.

(** The socket behind a descriptor, or the error. *)
Definition lookup_socket (s : fds) (fd : Z) : option (fds * (Z + fs_node)) :=
  let '(s, a) := lookup_file s fd in
  if a =? 0 then Some (s, inl (- errno s)) else
  file ← node_at s a;
  if negb (type file =? FS_SOCKET) || (socket file =? 0) then Some (s, inl (- ENOTSOCK))
  else Some (s, inr file).

(** [addr] is its family and its path. *)
Definition sys_bind (garbage : list Z) (s : fds) (fd sa_family : Z) (sun_filepath : list Z) : option (io (fds * Z)) :=
  if negb (sa_family =? AF_UNIX) then ret s (- EINVAL) else
  '(s, r) ← lookup_socket s fd;
  match r with
  | inl e => ret s e
  | inr f =>
      '(v, k, r) ← local_socket_bind open_path (fun v p => create_path v p FS_SOCKET) garbage (vfs_s s)
                     (socks s) (socket f) sun_filepath;
      ret (with_socks k (with_vfs v s)) r
  end.
Definition sys_connect (s : fds) (fd sa_family : Z) (sun_filepath : list Z) : option (io (fds * Z)) :=
  if negb (sa_family =? AF_UNIX) then ret s (- EINVAL) else
  '(s, r) ← lookup_socket s fd;
  match r with
  | inl e => ret s e
  | inr f => '(k, r) ← local_socket_connect (socks s) (socket f) sun_filepath; ret (with_socks k s) r
  end.
Definition sys_listen (s : fds) (fd bl : Z) : option (io (fds * Z)) :=
  '(s, r) ← lookup_socket s fd;
  match r with
  | inl e => ret s e
  | inr f =>
      k ← sk_store (socks s) !! socket f;
      ret (with_socks (with_sockets (<[socket f := with_backlog bl k]> (sk_store (socks s))) (socks s)) s) 0
  end.

(** [ska] and [fa] as in [sys_socket].  The test after the search is for
    descriptor 0, not for a full table. *)
Definition sys_accept (ska fa : Z) (s : fds) (fd : Z) : option (io (fds * Z)) :=
  '(s, r) ← lookup_socket s fd;
  match r with
  | inl e => ret s e
  | inr f =>
      l ← sk_store (socks s) !! socket f;
      match conn_queue l with
      | [] => Some Blocked
      | client :: queue =>
          let st := <[socket f := with_conn_queue queue l]> (sk_store (socks s)) in
          c ← st !! client;
          if negb (family c =? AF_LOCAL) then None else
          k ← create_local_socket (with_sockets st (socks s)) ska (sock_type c);
          let sock := no_return in
          let st := alter (with_peer SOCK_STATE_CONNECTED sock) client (sk_store k) in
          n ← st !! sock;
          let st := <[sock := with_peer SOCK_STATE_LISTENING client n]> st in
          let s := set_node fa (socket_node sock) (with_socks (with_sockets st k) s) in
          let fd := find_available_fd s in
          if fd =? 0 then ret s (- EMFILE) else
          s ← table_set s fd fa; ret s fd
      end
  end.

Definition sys_send (s : fds) (fd buf sz flags : Z) : option (io (fds * Z)) :=
  '(s, r) ← lookup_socket s fd;
  match r with
  | inl e => ret s e
  | inr f => k ← local_socket_send (socks s) (socket f) buf sz; ret (with_socks k s) no_return
  end.
Definition sys_recv (s : fds) (fd buf sz flags : Z) : option (io (fds * Z)) :=
  '(s, r) ← lookup_socket s fd;
  match r with
  | inl e => ret s e
  | inr f =>
      k ← sk_store (socks s) !! socket f;
      match local_socket_recv (mem s) k buf sz with
      | Blocked => Some Blocked
      | Ret (k, m, count) =>
          ret (with_mem m
                (with_socks (with_sockets (<[socket f := k]> (sk_store (socks s))) (socks s)) s)) count
      end
  end.

(** One pass over the descriptors; the result is the number of ready ones, or
    [inl] for the early return.  The operations table of sockets has no
    [poll]: polling a socket calls NULL. *)
Record pollfd := Pollfd { pfd : Z; events : Z; revents : Z }.
Fixpoint poll_pass (todo done : list pollfd) (s : fds) (n : Z) : option (fds * list pollfd * (Z + Z)) :=
  match todo with
  | [] => Some (s, done, inr n)
  | x :: todo =>
      if pfd x <? 0 then Some (s, done ++ x :: todo, inl 0) else
      let '(s, a) := lookup_file s (pfd x) in
      if a =? 0 then poll_pass todo (done ++ [x]) s n else
      f ← node_at s a;
      rev ← (if negb (socket f =? 0) then None
             else if negb (pipe f =? 0) then p ← pipes s !! pipe f; Some (pipe_file_poll p)
             else Some 0);
      let filtered := Z.land rev (events x) in
      poll_pass todo (done ++ [Pollfd (pfd x) (events x) filtered]) s (if negb (filtered =? 0) then n + 1 else n)
  end.
Definition sys_poll (s : fds) (l : list pollfd) : option (io (fds * list pollfd * Z)) :=
  '(s, l, r) ← poll_pass l [] s 0;
  match r with
  | inl r => Some (Ret (s, l, r))
  | inr n => if 0 <? n then Some (Ret (s, l, n)) else Some Blocked
  end.
End calls.

(** ** The descriptor table *)
Definition fd_table_ok (s : fds) : Prop := zlen (filetable s) = TASK_FILETABLE_MAX.
Definition file_of (s : fds) (fd : Z) : Z := get 0 (filetable s) fd.
Definition valid_fd (fd : Z) : Prop := 0 <= fd < TASK_FILETABLE_MAX.
(** [fd] is the lowest free descriptor. *)
Definition lowest_free (s : fds) (fd : Z) : Prop :=
  valid_fd fd /\ file_of s fd = 0 /\ forall j, 0 <= j < fd -> file_of s j <> 0.

Lemma find_free_spec n t i :
  (find_free n t i = -1 /\ forall j, i <= j < i + Z.of_nat n -> get 0 t j <> 0) \/
  (i <= find_free n t i < i + Z.of_nat n /\ get 0 t (find_free n t i) = 0
   /\ forall j, i <= j < find_free n t i -> get 0 t j <> 0).
Proof.
  revert i. induction n as [|n IH]; intros i; cbn [find_free]; [left; split; [done|lia]|].
  destruct (Z.eqb_spec (get 0 t i) 0) as [E|E].
  - right. split_and!; [lia..|done|lia].
  - destruct (IH (i + 1)) as [[H1 H2]|(H1&H2&H3)].
    + left. split; [done|]. intros j Hj. destruct (decide (j = i)) as [->|]; [done|]. apply H2. lia.
    + right. split_and!; [lia..|done|]. intros j Hj. destruct (decide (j = i)) as [->|]; [done|]. apply H3. lia.
Qed.

Lemma find_available_spec s :
  (find_available_fd s = -1 /\ forall j, valid_fd j -> file_of s j <> 0) \/ lowest_free s (find_available_fd s).
Proof.
  unfold find_available_fd, lowest_free, valid_fd, TASK_FILETABLE_MAX.
  destruct (find_free_spec (Z.to_nat 256) (filetable s) 0) as [[H1 H2]|(H1&H2&H3)].
  - left. split; [done|]. intros j Hj. apply H2. lia.
  - right. split_and!; [lia..|exact H2|]. intros j Hj. apply H3. lia.
Qed.

Lemma lowest_free_unique s a b : lowest_free s a -> lowest_free s b -> a = b.
Proof.
  unfold lowest_free, valid_fd. intros (Ha&Ha0&Ha1) (Hb&Hb0&Hb1).
  destruct (decide (a < b)); [by destruct (Hb1 a ltac:(lia))|].
  destruct (decide (b < a)); [by destruct (Ha1 b ltac:(lia))|]. lia.
Qed.

Lemma lookup_file_spec s fd :
  (valid_fd fd /\ file_of s fd <> 0 /\ lookup_file s fd = (s, file_of s fd)) \/
  ((~ valid_fd fd \/ file_of s fd = 0) /\ lookup_file s fd = (with_errno EBADF s, 0)).
Proof.
  unfold lookup_file, valid_fd, file_of. destruct ((fd <? 0) || (TASK_FILETABLE_MAX <=? fd)) eqn:E.
  - right. split; [left|done]. apply orb_true_iff in E as [E|E]; zbool; lia.
  - apply orb_false_iff in E as [E1 E2]. zbool. destruct (Z.eqb_spec (get 0 (filetable s) fd) 0) as [->|].
    + right. split; [by right|done].
    + left. split; [lia|done].
Qed.

Lemma table_set_spec s fd a :
  fd_table_ok s -> valid_fd fd ->
  exists s', table_set s fd a = Some s' /\ fd_table_ok s' /\ file_of s' fd = a
  /\ (forall j, j <> fd -> file_of s' j = file_of s j) /\ errno s' = errno s /\ mem s' = mem s
  /\ vfs_s s' = vfs_s s /\ pipes s' = pipes s /\ socks s' = socks s.
Proof.
  unfold fd_table_ok, valid_fd, TASK_FILETABLE_MAX. intros Hs Hfd. unfold table_set. rewrite Hs.
  destruct (fd <? 0) eqn:?; [lia|]. destruct (256 <=? fd) eqn:?; [lia|]. simpl.
  eexists. split; [done|]. unfold file_of. simpl.
  split_and!; try done; [by rewrite zlen_set|apply get_set_eq; lia|]. intros j Hj. by apply get_set_ne.
Qed.

(** C21: a descriptor is an index of the 256-entry table.  [dup3] of an invalid
    or free descriptor is EBADF; with -1 it takes the lowest free descriptor,
    EMFILE when there is none; otherwise it takes the descriptor asked for,
    EBADF when out of range.  In every success the two descriptors share one
    file (and so its position), and no other descriptor changes - but the
    file that was open as [newfd] is not closed. *)
Theorem sys_dup3_spec s oldfd newfd flags :
  fd_table_ok s ->
  exists s' r, sys_dup3 s oldfd newfd flags = Some (Ret (s', r)) /\ fd_table_ok s' /\ vfs_s s' = vfs_s s
  /\ (if bool_decide (valid_fd oldfd /\ file_of s oldfd <> 0)
      then (valid_fd r /\ (newfd = -1 /\ lowest_free s r \/ newfd = r)
            /\ file_of s' r = file_of s oldfd /\ forall j, j <> r -> file_of s' j = file_of s j)
           \/ (filetable s' = filetable s
               /\ (r = - EMFILE /\ newfd = -1 /\ (forall j, valid_fd j -> file_of s j <> 0)
                   \/ r = - EBADF /\ ~ valid_fd newfd /\ newfd <> -1))
      else r = - EBADF /\ filetable s' = filetable s).
Proof.
  intros Hs. unfold sys_dup3. set (s0 := with_errno 0 s).
  assert (Hs0 : fd_table_ok s0) by done. assert (Hf0 : forall j, file_of s0 j = file_of s j) by done.
  destruct (lookup_file_spec s0 oldfd) as [(Hv&Hnz&->)|[Hbad ->]]; rewrite Hf0 in *.
  2: { change (0 =? 0) with true. cbv iota. do 2 eexists. split; [done|]. split; [done|]. split; [done|].
       rewrite bool_decide_false by tauto. done. }
  rewrite bool_decide_true by done. destruct (Z.eqb_spec (file_of s oldfd) 0); [done|].
  assert (Hset : forall fd, valid_fd fd -> (newfd = -1 /\ lowest_free s fd \/ newfd = fd) ->
    exists s' r, (s1 ← table_set s0 fd (file_of s oldfd); ret s1 fd) = Some (Ret (s', r)) /\ fd_table_ok s'
    /\ vfs_s s' = vfs_s s /\ ((valid_fd r /\ (newfd = -1 /\ lowest_free s r \/ newfd = r)
            /\ file_of s' r = file_of s oldfd /\ forall j, j <> r -> file_of s' j = file_of s j)
           \/ (filetable s' = filetable s
               /\ (r = - EMFILE /\ newfd = -1 /\ (forall j, valid_fd j -> file_of s j <> 0)
                   \/ r = - EBADF /\ ~ valid_fd newfd /\ newfd <> -1)))).
  { intros fd Hfd Hwhich. destruct (table_set_spec s0 fd (file_of s oldfd) Hs0 Hfd) as (s'&->&?&?&?&?&?&Hvf&_).
    cbn [mbind option_bind]. exists s', fd. split; [done|]. split; [done|]. split; [done|]. left. by split_and!. }
  destruct (Z.eqb_spec newfd (-1)) as [Hm|Hm].
  - destruct (find_available_spec s0) as [[-> Hfull]|Hlow].
    + change (-1 =? -1) with true. cbv iota. do 2 eexists. split; [done|]. split; [done|]. split; [done|].
      right. split; [done|]. by left.
    + pose proof Hlow as (Hvl&_). destruct (Z.eqb_spec (find_available_fd s0) (-1)) as [E|].
      { rewrite E in Hvl. unfold valid_fd in Hvl. lia. }
      apply Hset; [done|]. by left.
  - destruct ((newfd <? 0) || (TASK_FILETABLE_MAX <=? newfd)) eqn:E.
    + do 2 eexists. split; [done|]. split; [done|]. split; [done|]. right. split; [done|]. right.
      split_and!; [done| |done]. unfold valid_fd. apply orb_true_iff in E as [E|E]; zbool; lia.
    + apply orb_false_iff in E as [E1 E2]. zbool. apply Hset; [unfold valid_fd; lia|]. by right.
Qed.

Definition fds_example : fds :=
  Fds ([0x1000; 0x2000] ++ replicate 254 0) 0 (Some (cstring (str "/"))) (fun _ => 0) (Vfs 0 (-1) [] [] ∅ ∅ [])
    ∅ [] (Sockets ∅ []).
Lemma sys_dup3_spec_witness :
  exists s' r, sys_dup3 fds_example 1 (-1) 0 = Some (Ret (s', r)) /\ fd_table_ok s'.
Proof.
  destruct (sys_dup3_spec fds_example 1 (-1) 0 eq_refl) as (s'&r&H1&H2&_). by exists s', r.
Defined.

(** ** sys_pipe *)
Lemma pipe_new_wf garbage : PAGE_SIZE <= zlen garbage ->
  pipe_wf (Pipe (ringbuffer_create garbage PAGE_SIZE 1) 1 1) /\ bytes (Pipe (ringbuffer_create garbage PAGE_SIZE 1) 1 1) = [].
Proof.
  unfold PAGE_SIZE. intros Hg. unfold pipe_wf, bytes, ringbuffer_create. cbn [pbuf].
  destruct (init_wf (RingBuffer garbage 1 4096 0 0 0)) as [H1 H2]; [done..|exact Hg|]. rewrite H2.
  split; [|done]. split; [exact H1|done].
Qed.

(** The lowest free descriptor but [i]. *)
Definition next_free (s : fds) (i j : Z) : Prop :=
  valid_fd j /\ i < j /\ file_of s j = 0 /\ forall k, 0 <= k < j -> k <> i -> file_of s k <> 0.

Lemma lowest_after s s' i a j :
  lowest_free s i -> a <> 0 -> file_of s' i = a -> (forall k, k <> i -> file_of s' k = file_of s k) ->
  lowest_free s' j -> next_free s i j.
Proof.
  intros (Hi&Hi0&Hl) Ha Hs Ho (Hj&Hj0&Hlj). destruct (decide (j = i)) as [->|Hne]; [congruence|].
  rewrite Ho in Hj0 by done. unfold next_free, valid_fd in *. split; [done|]. split; [|split; [done|]].
  - destruct (decide (j < i)); [|lia]. by destruct (Hl j ltac:(lia)).
  - intros k Hk Hki. rewrite <- (Ho k) by done. by apply Hlj.
Qed.

(** The two [int]s in the caller's memory. *)
Lemma word_bytes_fd i : valid_fd i -> word_bytes i = [i; 0; 0; 0].
Proof.
  unfold valid_fd, TASK_FILETABLE_MAX, word_bytes. intros Hi. rewrite !Z.shiftr_div_pow2 by lia.
  rewrite !(Z.div_small i) by lia. by rewrite u8_id by lia.
Qed.
Lemma store_other m a l x : ~ (a <= x < a + zlen l) -> store m a l x = m x.
Proof. intros Hx. unfold store. destruct ((a <=? x) && (x <? a + zlen l)) eqn:E; [|done]. zbool. lia. Qed.
Lemma load_store m a l : load (store m a l) a (zlen l) = l.
Proof.
  apply list_eq. intros k. unfold load. rewrite list_lookup_fmap.
  destruct (decide (k < length l)%nat) as [Hk|Hk].
  - rewrite lookup_seqZ_lt by (unfold zlen; lia). simpl. unfold store, zlen.
    rewrite (proj2 (Z.leb_le _ _)), (proj2 (Z.ltb_lt _ _)) by lia. simpl.
    replace (a + Z.of_nat k - a) with (Z.of_nat k) by lia. rewrite <- (Nat2Z.id k) at 2. symmetry.
    apply get_lookup. unfold zlen. lia.
  - rewrite (lookup_ge_None_2 l) by lia. rewrite lookup_ge_None_2; [done|].
    rewrite length_seqZ. unfold zlen. lia.
Qed.
Lemma load_store_two m a l1 l2 :
  load (store (store m a l1) (a + zlen l1) l2) a (zlen l1 + zlen l2) = l1 ++ l2.
Proof.
  pose proof (zlen_nonneg l1). pose proof (zlen_nonneg l2).
  unfold load. rewrite seqZ_app, fmap_app by lia. f_equal; [|apply load_store].
  transitivity (load (store m a l1) a (zlen l1)); [|apply load_store].
  unfold load. apply list_fmap_ext. intros k x Hx.
  apply list_elem_of_lookup_2, elem_of_seqZ in Hx. apply store_other. lia.
Qed.

(** A read of a pipe's node that is not marked for reading. *)
Lemma read_unreadable ops_read s i a n buf c :
  bad_buf buf = false -> valid_fd i -> file_of s i = a -> a <> 0 -> node_at s a = Some n ->
  pipe n <> 0 -> rdonly n = false ->
  exists s2, sys_read ops_read s i buf c = Some (Ret (s2, - ENOSYS)).
Proof.
  intros Hbuf Hv Hf Ha Hn Hp Hr. unfold sys_read. rewrite Hbuf.
  destruct (lookup_file_spec (with_errno 0 s) i) as [(_&_&->)|[[Hbad|Hbad] _]]; [|done|].
  2: { change (file_of s i = 0) in Hbad. congruence. }
  change (file_of (with_errno 0 s) i) with (file_of s i). rewrite Hf.
  destruct (Z.eqb_spec a 0); [done|]. change (node_at (with_errno 0 s) a) with (node_at s a).
  rewrite Hn. cbn [mbind option_bind]. rewrite Hr. destruct (Z.eqb_spec (pipe n) 0); [done|]. by eexists.
Qed.

Section sys_pipe.
  Context (ops_write ops_read : Z -> option (fds -> Z -> Z -> Z -> option (io (fds * Z)))).
  Context (r_ops w_ops : Z) (garbage : list Z) (junk1 junk2 : fs_node) (pa rf wf : Z).
  Context (Hgarbage : PAGE_SIZE <= zlen garbage) (Hrf : rf <> 0) (Hwf : wf <> 0) (Hne : rf <> wf) (Hpa : pa <> 0).

End sys_pipe.

Definition junk_node : fs_node := FsNode [] [] 0 0 0 false 0 0 0 0 0 0 0 0 false.
