(* ===== verification/Initrd.v ===== *)
(** * Initrd: fs/file.c, fs/initrd.c and include/depthos/initrd.h

    Generic file operations and the read-only file system in the initial
    memory disk: a table of headers and the bytes behind it. *)
From S2P Require Import Prelude CString Pmm Paging Vmm Vfs Words.

Definition INITRD_PATH_LENGTH := 60.
Record initrd_header := Header { hd_name : list Z; hd_length : Z; hd_offset : Z }.
(** [initrd_nheaders] is the length of [initrd_headers]; [initrd_data] are the
    bytes from there to the end of memory. *)
Record initrd := Initrd { initrd_headers : list initrd_header; initrd_data : list Z }.
Definition HEADER_SIZE := INITRD_PATH_LENGTH + 8.


(** [image] is the memory from [module->start] on. *)
Definition initrd_init (image : list Z) : initrd :=
  let n := le16 image 0 in
  Initrd ((fun i => let o := 2 + i * HEADER_SIZE in
                    Header (slice image o INITRD_PATH_LENGTH) (le32 image (o + INITRD_PATH_LENGTH))
                      (le32 image (o + INITRD_PATH_LENGTH + 4))) <$> seqZ 0 n)
    (drop (Z.to_nat (2 + n * HEADER_SIZE)) image).

(** The copy of [initrdfs_read]: the test is on unsigned numbers, so it also
    holds for an offset beyond the file.  A byte outside memory stops the
    model. *)
Fixpoint initrd_copy (fuel : nat) (data : list Z) (h : initrd_header) (buffer : list Z) (nbytes off i : Z)
  : option (list Z * Z) :=
  match fuel with
  | O => None
  | S fuel =>
      if (i <? u32 (hd_length h - off)) && (i <? nbytes) then
        b ← data !! Z.to_nat (u32 (hd_offset h + i + off));
        initrd_copy fuel data h (set buffer i b) nbytes off (i + 1)
      else Some (buffer, i)
  end.
(** [inode] is [INODE(file->impl)]; the results are the buffer, [*offset],
    [eof] and the count. *)
Definition initrdfs_read (d : initrd) (inode : Z) (feof : bool) (buffer : list Z) (nbytes off : Z)
  : option (list Z * Z * bool * Z) :=
  h ← initrd_headers d !! Z.to_nat inode;
  '(buffer, i) ← initrd_copy (S (Z.to_nat nbytes)) (initrd_data d) h buffer nbytes off 0;
  Some (buffer, u32 (off + i), if i =? 0 then true else feof, i).

Definition generic_file_seek_size (f : fs_node) (p sz whence : Z) : fs_node * Z :=
  if whence =? SEEK_END then vfs_setpos f (s32 (p + sz)) (s32 sz)
  else if whence =? SEEK_CUR then
    if p =? 0 then (f, s32 (pos f)) else vfs_setpos f (s32 (p + pos f)) (s32 sz)
  else vfs_setpos f p (s32 sz).

Definition initrdfs_seek (d : initrd) (inode : Z) (f : fs_node) (p whence : Z) : option (fs_node * Z) :=
  h ← initrd_headers d !! Z.to_nat inode;
  Some (generic_file_seek_size f p (u32 (hd_length h - 1)) whence).

(** [initrdfs_open]: the number of the first header with this name. *)
Fixpoint initrd_find (hs : list initrd_header) (p : list Z) (i : Z) : option Z :=
  match hs with
  | [] => Some (-1)
  | h :: hs => e ← streq (hd_name h) p; if (e : bool) then Some i else initrd_find hs p (i + 1)
  end.
(** [a] and [ia] are the allocations of the node and of its number, the node's
    memory being [junk] and its operations table at [ops_addr]. *)
Definition initrdfs_open (junk : fs_node) (ops_addr a ia : Z) (d : initrd) (s : vfs) (inodes : gmap Z Z) (p : list Z)
  : option (vfs * gmap Z Z * Z) :=
  i ← initrd_find (initrd_headers d) p 0;
  if i =? -1 then Some (s, inodes, 0) else
  Some (set_nodes (<[a := FsNode (name junk) (path junk) FS_FILE (mode junk) 0 (eof junk) (size junk) (dev junk)
                            (inode_num junk) ops_addr ia (pipe junk) (socket junk) (fs junk) (rdonly junk)]>
                     (nodes s)) s, <[ia := i]> inodes, a).
Definition initrdfs_close (inodes : gmap Z Z) (f : fs_node) : gmap Z Z := delete (impl f) inodes.

(** [read] is the file's operation, on a buffer of a page; writing the page
    goes through its frame. *)
Definition generic_file_load_mapped_page (read : option (list Z -> Z -> option (list Z * Z * Z)))
  (garbage : list Z) (kernel_pgd_addr : Z) (s : vmm) (area vaddr offset : Z) : option (vmm * vm_fault_kind) :=
  let aligned_offset := PG_RND_DOWN offset in
  match read with
  | None => Some (s, VM_FAULT_CRASH)
  | Some read =>
      '(buf, aligned_offset, n) ← read garbage aligned_offset;
      if aligned_offset <=? offset then Some (s, VM_FAULT_BUSERROR) else
      a ← vm_store s !! area;
      '(p, _) ← map_addr (vm_pages s) (va_pgd a) vaddr 1 (negb (va_pgd a =? kernel_pgd_addr)) true;
      let frame := get_phys_addr p true (va_pgd a) vaddr in
      old ← ps_frames p !! frame;
      Some (with_pages (with_frames (<[frame := blit old 0 (take (Z.to_nat n) buf)]> (ps_frames p)) p) s, VM_FAULT_IGNORE)
  end.

(** ** The contents of a file *)
Definition header_ok (d : initrd) (h : initrd_header) : Prop :=
  0 <= hd_length h < 2 ^ 31 /\ 0 <= hd_offset h /\ hd_offset h + hd_length h <= zlen (initrd_data d)
  /\ zlen (initrd_data d) < 2 ^ 31.
Definition file_bytes (d : initrd) (h : initrd_header) : list Z :=
  slice (initrd_data d) (hd_offset h) (hd_length h).

Lemma initrd_copy_spec fuel d h buffer nbytes off i :
  header_ok d h -> 0 <= off <= hd_length h -> 0 <= i -> i <= Z.min nbytes (hd_length h - off) ->
  nbytes <= zlen buffer -> nbytes - i < Z.of_nat fuel ->
  let n := Z.min nbytes (hd_length h - off) in
  initrd_copy fuel (initrd_data d) h buffer nbytes off i
  = Some (blit buffer i (slice (file_bytes d h) (off + i) (n - i)), n).
Proof.
  intros (Hl&Ho&Hfit&Hz) Hoff. revert buffer i. induction fuel as [|fuel IH]; intros buffer i Hi Hin Hb Hf n; [lia|].
  assert (Hfl : zlen (file_bytes d h) = hd_length h) by (unfold file_bytes; rewrite zlen_slice; lia).
  cbn [initrd_copy]. rewrite (u32_id (hd_length h - off)) by lia.
  destruct ((i <? hd_length h - off) && (i <? nbytes)) eqn:E.
  - apply andb_true_iff in E as [E1 E2]. zbool. rewrite u32_id by lia.
    destruct (lookup_lt_is_Some_2 (initrd_data d) (Z.to_nat (hd_offset h + i + off))) as [b Hbyte];
      [unfold zlen in *; lia|].
    rewrite Hbyte. cbn [mbind option_bind]. rewrite IH by (rewrite ?zlen_set; lia). f_equal. f_equal.
    assert (Hs : slice (file_bytes d h) (off + i) (n - i) = b :: slice (file_bytes d h) (off + (i + 1)) (n - (i + 1))).
    { rewrite (slice_cons _ _ _ b); [f_equal; f_equal; lia|lia|lia|].
      unfold file_bytes. rewrite lookup_slice by lia. rewrite <- Hbyte. f_equal. lia. }
    rewrite Hs. change (b :: ?l) with ([b] ++ l).
    rewrite <- (blit_app buffer i [b]); [|lia|].
    + by f_equal.
    + change (zlen [b]) with 1. rewrite zlen_slice; lia.
  - assert (i = n) as -> by (apply andb_false_iff in E as [E|E]; zbool; lia).
    rewrite Z.sub_diag. unfold slice.
    change (Z.to_nat 0) with 0%nat. by rewrite take_0, blit_nil.
Qed.

(** A read of an initrd file copies the next bytes of the file, as many as
    asked for and left, advances the offset by the count it returns, and sets
    the end-of-file mark exactly when it copied nothing. *)
Lemma initrdfs_read_spec d inode h e buffer nbytes off :
  initrd_headers d !! Z.to_nat inode = Some h -> header_ok d h -> 0 <= off <= hd_length h ->
  0 <= nbytes <= zlen buffer ->
  let n := Z.min nbytes (hd_length h - off) in
  initrdfs_read d inode e buffer nbytes off
  = Some (blit buffer 0 (slice (file_bytes d h) off n), off + n, bool_decide (n = 0) || e, n).
Proof.
  intros Hh Hok Hoff Hn n. unfold initrdfs_read. rewrite Hh. cbn [mbind option_bind].
  pose proof Hok as (Hl&_). rewrite initrd_copy_spec by (done || lia). cbn [mbind option_bind]. fold n.
  rewrite Z.add_0_r, Z.sub_0_r, u32_id by lia. do 2 f_equal. f_equal.
  case_bool_decide as Hz; [by rewrite Hz|]. by destruct (Z.eqb_spec n 0).
Qed.

Definition initrd_example : initrd := Initrd [Header (cstring (str "/hi")) 3 2] [9; 9; 104; 105; 33; 9].
Lemma initrdfs_read_spec_witness :
  initrdfs_read initrd_example 0 false [0; 0; 0; 0] 4 1 = Some ([105; 33; 0; 0], 3, false, 2).
Proof.
  apply (initrdfs_read_spec initrd_example 0 (Header (cstring (str "/hi")) 3 2) false [0; 0; 0; 0] 4 1);
    [done|by vm_compute|done|done].
Defined.

(** Past the end of the file the unsigned test lets the copy run on. *)
Lemma initrdfs_read_past_end :
  initrdfs_read initrd_example 0 false [0] 1 (3 + 0) = Some ([0], 3, true, 0)
  /\ initrdfs_read (Initrd [Header (cstring (str "/hi")) 1 2] [9; 9; 104; 105; 33; 9]) 0 false [0] 1 2
     = Some ([33], 3, false, 1).
Proof. split; reflexivity. Qed.
