(* ===== verification/Ksymbols.v ===== *)
(** * Ksymbols: kernel/ksymbols.c and include/depthos/ksymbols.h

    The table of kernel symbols, loaded from a map file read byte by byte, and
    the symbol of an address.  The file is reached through an interface,
    [ByteFile], that the memory disk implements. *)
From Stdlib Require Import Sorted.
From S2P Require Import Prelude CString Vfs Initrd.

Definition MAX_KERNEL_SYMBOLS := 1024 * 3.
Record kernel_symbol := Symbol { ks_address : Z; ks_type : Z; ks_name : list Z }.

(** A [char] converted to [int]; [None] sets [errno]. *)
Definition parse_hex (sym : Z) : option Z :=
  if (sym <? 48) || (102 <? sym) then None
  else Some (if 97 <=? sym then 10 + sym - 97 else sym - 48).

Section load.
  (** [vfs_read] of one byte, from the mark and the position: the byte or
      nothing, and the new mark and position.  [vfs_seek] to the start. *)
  Context (read1 : bool -> Z -> option (option Z * (bool * Z))) (rewind : bool * Z -> bool * Z).

(** The digits up to a space; [inr]: the [goto stop]. *)
Fixpoint read_address (fuel : nat) (f : bool * Z) (address : Z) : option ((bool * Z) * Z + unit) :=
  match fuel with
  | O => None
  | S fuel =>
      '(b, f) ← read1 f.1 f.2;
      match b with
      | None => Some (inl (f, address))
      | Some b =>
          if b =? 32 then Some (inl (f, address)) else
          match parse_hex (s8 b) with
          | None => Some (inr tt)
          | Some v => read_address fuel f (u32 (u32 (Z.shiftl address 4) + v))
          end
      end
  end.
(** The characters up to a newline, [ptr - buffer] of them so far; writing
    behind the 256 bytes of the buffer stops the model. *)
Fixpoint read_name (fuel : nat) (f : bool * Z) (buffer : list Z) : option ((bool * Z) * list Z) :=
  match fuel with
  | O => None
  | S fuel =>
      if 256 <=? zlen buffer then None else
      '(b, f) ← read1 f.1 f.2;
      match b with
      | None => Some (f, buffer)
      | Some b => if b =? 10 then Some (f, buffer) else read_name fuel f (buffer ++ [b])
      end
  end.
(** The table so far is extended until the end of the file or an error. *)
Fixpoint load_loop (fuel : nat) (f : bool * Z) (kernel_symbols : list kernel_symbol) : option (list kernel_symbol) :=
  match fuel with
  | O => None
  | S fuel' =>
      if MAX_KERNEL_SYMBOLS <=? zlen kernel_symbols then None else
      r ← read_address fuel f 0;
      match r with
      | inr _ => Some kernel_symbols
      | inl (f, address) =>
          if (f.1 : bool) then Some kernel_symbols else
          '(t, f) ← read1 f.1 f.2;
          match t with
          | None => Some kernel_symbols
          | Some t =>
              '(f, buffer) ← read_name fuel (f.1, u32 (f.2 + 1)) [];
              name ← strdup (cstring buffer) (cstring buffer);
              let kernel_symbols := kernel_symbols ++ [Symbol address (s8 t) name] in
              if (f.1 : bool) then Some kernel_symbols else load_loop fuel' f kernel_symbols
          end
      end
  end.
(** [map_file] is what [vfs_open] gives; the result is the table and the
    return value.  Without the file the table stays. *)
Definition ksymbols_load_file (fuel : nat) (map_file : option (bool * Z)) (kernel_symbols : list kernel_symbol)
  : option (list kernel_symbol * Z) :=
  match map_file with
  | None => Some (kernel_symbols, - ENOENT)
  | Some f => l ← load_loop fuel (rewind f) []; Some (l, zlen l)
  end.
End load.

(** The loop from the last symbol down. *)
Definition ksymbols_lookup (kernel_symbols : list kernel_symbol) (addr : Z) (precise : bool) : option kernel_symbol :=
  snd <$> list_find (fun s => (addr =? ks_address s) || (negb precise && (ks_address s <? addr)) = true)
            (reverse kernel_symbols).

(** ** Files read byte by byte *)
Class ByteFile (read1 : bool -> Z -> option (option Z * (bool * Z))) (content : list Z) : Prop := {
  byte_at : forall e p b, 0 <= p -> content !! Z.to_nat p = Some b -> read1 e p = Some (Some b, (e, p + 1));
  byte_end : forall e, read1 e (zlen content) = Some (None, (true, zlen content));
  byte_size : zlen content < 2 ^ 31
}.
(** [vfs_read] of one byte of a file of the memory disk. *)
Definition initrd_read1 (d : initrd) (inode : Z) (e : bool) (p : Z) : option (option Z * (bool * Z)) :=
  '(buffer, p, e, n) ← initrdfs_read d inode e [0] 1 p;
  Some (if n =? 0 then None else Some (get 0 buffer 0), (e, p)).

(** The file from a position on. *)
Definition rest (content : list Z) (p : Z) (l : list Z) : Prop := exists pre, content = pre ++ l /\ p = zlen pre.

Section spec.
  Context (read1 : bool -> Z -> option (option Z * (bool * Z))) (content : list Z) `{!ByteFile read1 content}.
Lemma read_byte e p b l : rest content p (b :: l) -> read1 e p = Some (Some b, (e, p + 1)) /\ rest content (p + 1) l.
Proof.
  intros (pre&->&->). split.
  - eapply byte_at; [apply zlen_nonneg|]. unfold zlen. rewrite Nat2Z.id. by rewrite list_lookup_middle.
  - exists (pre ++ [b]). rewrite <- app_assoc, zlen_app. done.
Qed.
Lemma read_end e p : rest content p [] -> read1 e p = Some (None, (true, p)).
Proof. intros (pre&Hc&->). rewrite app_nil_r in Hc. subst pre. apply byte_end. Qed.
Lemma rest_bound p l : rest content p l -> 0 <= p /\ p + zlen l < 2 ^ 31.
Proof. intros (pre&Hc&->). pose proof byte_size as H. rewrite Hc, zlen_app in H. pose proof (zlen_nonneg pre). lia. Qed.

(** A line of the map: eight digits, the type and the name. *)
Definition hex_digit (v : Z) : Z := if v <? 10 then 48 + v else 87 + v.
Definition nibble (a i : Z) : Z := a / 16 ^ i mod 16.
Definition digits8 (a : Z) : list Z := nibble a <$> [7; 6; 5; 4; 3; 2; 1; 0].
Definition symbol_line (s : kernel_symbol) : list Z :=
  (hex_digit <$> digits8 (ks_address s)) ++ [32; ks_type s; 32] ++ removelast (ks_name s) ++ [10].
Record symbol_ok (s : kernel_symbol) : Prop := {
  address_range : 0 <= ks_address s < 2 ^ 32; type_range : 0 <= ks_type s < 128;
  name_cstring : exists n, ks_name s = cstring n /\ nonul n /\ 10 ∉ n /\ zlen n < 256
}.

Definition add_digit (a v : Z) : Z := u32 (u32 (Z.shiftl a 4) + v).
Lemma parse_hex_digit v : 0 <= v < 16 -> parse_hex (s8 (hex_digit v)) = Some v /\ hex_digit v <> 32.
Proof.
  intros Hv. assert (H : v = 0 \/ v = 1 \/ v = 2 \/ v = 3 \/ v = 4 \/ v = 5 \/ v = 6 \/ v = 7 \/ v = 8 \/ v = 9 \/ v = 10
    \/ v = 11 \/ v = 12 \/ v = 13 \/ v = 14 \/ v = 15) by lia.
  repeat (destruct H as [->|H]; [split; [reflexivity|discriminate]|]). subst. split; [reflexivity|discriminate].
Qed.
Lemma read_address_spec vs : Forall (fun v => 0 <= v < 16) vs -> forall fuel e p l acc,
  rest content p ((hex_digit <$> vs) ++ 32 :: l) -> (length vs < fuel)%nat ->
  read_address read1 fuel (e, p) acc = Some (inl ((e, p + zlen vs + 1), foldl add_digit acc vs))
  /\ rest content (p + zlen vs + 1) l.
Proof.
  induction 1 as [|v vs Hv _ IH]; intros fuel e p l acc Hr Hf; (destruct fuel as [|fuel]; [simpl in Hf; lia|]);
    cbn [read_address fst snd].
  - simpl in Hr. destruct (read_byte e p 32 l Hr) as [-> Hr']. change (zlen []) with 0. by rewrite Z.add_0_r.
  - destruct (read_byte e p _ _ Hr) as [-> Hr']. destruct (parse_hex_digit v Hv) as [Hp Hne].
    cbn [mbind option_bind]. rewrite (proj2 (Z.eqb_neq _ _) Hne), Hp.
    destruct (IH fuel e (p + 1) l (add_digit acc v) Hr') as [Hs Hr2]; [simpl in Hf; lia|].
    rewrite zlen_cons. replace (p + (zlen vs + 1) + 1) with (p + 1 + zlen vs + 1) by lia. by split.
Qed.
Lemma add_nibble a j i : j = i + 1 -> 0 <= i -> 0 <= a < 2 ^ 32 ->
  add_digit (a / 16 ^ j) (nibble a i) = a / 16 ^ i.
Proof.
  intros -> Hi Ha. unfold add_digit, nibble. rewrite Z.shiftl_mul_pow2 by lia. change (2 ^ 4) with 16.
  rewrite Z.pow_add_r, <- Z.div_div by lia. change (16 ^ 1) with 16.
  assert (0 <= a / 16 ^ i <= a).
  { split; [apply Z.div_pos; lia|]. apply Z.div_le_upper_bound; nia. }
  set (q := a / 16 ^ i) in *. pose proof (Z.div_mod q 16 ltac:(lia)). pose proof (Z.mod_pos_bound q 16 ltac:(lia)).
  rewrite (u32_id (q / 16 * 16)), u32_id by lia. lia.
Qed.
Lemma digits8_value a : 0 <= a < 2 ^ 32 -> foldl add_digit 0 (digits8 a) = a.
Proof.
  intros Ha. unfold digits8. cbn [fmap list_fmap foldl].
  replace (add_digit 0 (nibble a 7)) with (add_digit (a / 16 ^ 8) (nibble a 7)).
  - rewrite (add_nibble a 8 7), (add_nibble a 7 6), (add_nibble a 6 5), (add_nibble a 5 4), (add_nibble a 4 3),
      (add_nibble a 3 2), (add_nibble a 2 1), (add_nibble a 1 0) by lia. apply Z.div_1_r.
  - f_equal. apply Z.div_small. lia.
Qed.

Lemma read_name_spec n : 10 ∉ n -> forall fuel e p l buffer,
  rest content p (n ++ 10 :: l) -> (length n < fuel)%nat -> zlen buffer + zlen n < 256 ->
  read_name read1 fuel (e, p) buffer = Some ((e, p + zlen n + 1), buffer ++ n) /\ rest content (p + zlen n + 1) l.
Proof.
  induction n as [|b n IH]; intros Hn fuel e p l buffer Hr Hf Hz; (destruct fuel as [|fuel]; [simpl in Hf; lia|]);
    cbn [read_name fst snd]; rewrite ?zlen_cons in *;
    (destruct (Z.leb_spec 256 (zlen buffer)); [pose proof (zlen_nonneg (A := Z)) as Hnn; specialize (Hnn n) || specialize (Hnn []); lia|]).
  - simpl in Hr. destruct (read_byte e p 10 l Hr) as [-> Hr']. change (zlen []) with 0. by rewrite Z.add_0_r, app_nil_r.
  - destruct (read_byte e p _ _ Hr) as [-> Hr']. apply not_elem_of_cons in Hn as [Hb Hn].
    cbn [mbind option_bind]. rewrite (proj2 (Z.eqb_neq b 10)) by congruence.
    destruct (IH Hn fuel e (p + 1) l (buffer ++ [b]) Hr') as [Hs Hr2];
      [simpl in Hf; lia|rewrite zlen_app; change (zlen [b]) with 1; lia|].
    replace (p + (zlen n + 1) + 1) with (p + 1 + zlen n + 1) by lia. rewrite <- app_assoc in Hs. by split.
Qed.

Lemma s8_ascii c : 0 <= c < 128 -> s8 c = c.
Proof. intros. unfold s8, u8. rewrite Z.mod_small by lia. cbv zeta. destruct (c <? 0x80) eqn:E; lia. Qed.
Lemma strdup_name n : nonul n -> strdup (cstring n) (cstring n) = Some (cstring n).
Proof.
  intros Hn. assert (Hl : length (cstring n) = S (length n)) by (unfold cstring; rewrite length_app; simpl; lia).
  pose proof (strdup_cstring (cstring n) n [] Hn ltac:(lia)) as H.
  rewrite <- Hl, drop_all, !app_nil_r in H. exact H.
Qed.
Lemma symbol_line_length s n : ks_name s = cstring n -> zlen (symbol_line s) = zlen n + 12.
Proof.
  intros Hn. unfold symbol_line. rewrite Hn. unfold cstring. rewrite removelast_last, !zlen_app.
  change (zlen (hex_digit <$> digits8 (ks_address s))) with 8. change (zlen [32; ks_type s; 32]) with 3.
  change (zlen [10]) with 1. lia.
Qed.
(** One turn of the loop reads one line. *)
Lemma load_loop_line s l fuel p acc : symbol_ok s -> rest content p (symbol_line s ++ l) ->
  zlen (symbol_line s) <= Z.of_nat fuel -> zlen acc < MAX_KERNEL_SYMBOLS ->
  exists p', rest content p' l
    /\ load_loop read1 (S fuel) (false, p) acc = load_loop read1 fuel (false, p') (acc ++ [s]).
Proof.
  intros [Ha Ht (n&Hn&Hnn&H10&Hlen)] Hr Hf Hacc. rewrite (symbol_line_length s n Hn) in Hf.
  unfold symbol_line in Hr. rewrite Hn in Hr. unfold cstring in Hr. rewrite removelast_last in Hr.
  rewrite <- !app_assoc in Hr. simpl app in Hr. rewrite <- app_comm_cons in Hr || idtac.
  assert (H16 : Forall (fun v => 0 <= v < 16) (digits8 (ks_address s))).
  { unfold digits8, nibble. repeat constructor; apply Z.mod_pos_bound; lia. }
  pose proof (zlen_nonneg n).
  destruct (read_address_spec _ H16 (S fuel) false p _ 0 Hr) as [Hra Hr1]; [change (length _) with 8%nat; lia|].
  change (zlen (digits8 _)) with 8 in Hra, Hr1. rewrite digits8_value in Hra by done.
  destruct (read_byte false _ _ _ Hr1) as [Ht1 Hr2].
  destruct (read_byte false _ _ _ Hr2) as [_ Hr3]. pose proof (rest_bound _ _ Hr3) as [Hb1 Hb2].
  pose proof (zlen_nonneg (n ++ 10 :: l)).
  destruct (read_name_spec n H10 (S fuel) false _ l [] Hr3) as [Hrn Hr4]; [unfold zlen in *; lia|done|].
  eexists. split; [exact Hr4|]. cbn [load_loop]. destruct (Z.leb_spec MAX_KERNEL_SYMBOLS (zlen acc)); [lia|].
  rewrite Hra. cbn [mbind option_bind fst snd]. rewrite Ht1. cbn [mbind option_bind fst snd].
  rewrite u32_id by lia. rewrite Hrn. cbn [mbind option_bind fst snd app].
  rewrite strdup_name by done. cbn [mbind option_bind]. rewrite (s8_ascii (ks_type s)) by lia.
  rewrite <- Hn. by destruct s.
Qed.
Lemma load_loop_spec syms : Forall symbol_ok syms -> forall fuel p acc,
  rest content p (concat (symbol_line <$> syms)) -> zlen (concat (symbol_line <$> syms)) < Z.of_nat fuel ->
  zlen acc + zlen syms < MAX_KERNEL_SYMBOLS -> load_loop read1 fuel (false, p) acc = Some (acc ++ syms).
Proof.
  induction 1 as [|s syms Hs _ IH]; intros fuel p acc Hr Hf Hz.
  - destruct fuel as [|fuel]; [change (zlen _) with 0 in Hf; lia|]. cbn [load_loop].
    change (zlen []) with 0 in Hz. destruct (Z.leb_spec MAX_KERNEL_SYMBOLS (zlen acc)); [lia|].
    cbn [read_address fst snd]. rewrite (read_end false p Hr). cbn [mbind option_bind fst]. by rewrite app_nil_r.
  - rewrite fmap_cons in Hr, Hf. cbn [concat] in Hr, Hf. rewrite zlen_app in Hf. rewrite zlen_cons in Hz.
    pose proof (name_cstring s Hs) as (n&Hn&_). pose proof (symbol_line_length s n Hn). pose proof (zlen_nonneg n).
    pose proof (zlen_nonneg syms). pose proof (zlen_nonneg (concat (symbol_line <$> syms))).
    destruct fuel as [|fuel]; [lia|].
    destruct (load_loop_line s (concat (symbol_line <$> syms)) fuel p acc) as (p'&Hr'&->); [done..|lia|lia|].
    rewrite IH; [by rewrite <- app_assoc|done|lia|rewrite zlen_app; change (zlen [s]) with 1; lia].
Qed.
End spec.

#[export] Instance initrd_byte_file d inode h :
  initrd_headers d !! Z.to_nat inode = Some h -> header_ok d h -> ByteFile (initrd_read1 d inode) (file_bytes d h).
Proof.
  intros Hh Hok. pose proof Hok as (Hl&Ho&Hfit&Hz).
  assert (Hfl : zlen (file_bytes d h) = hd_length h) by (unfold file_bytes; rewrite zlen_slice; lia).
  assert (Hread : forall e p, 0 <= p <= hd_length h -> initrd_read1 d inode e p =
    let n := Z.min 1 (hd_length h - p) in
    Some (if n =? 0 then None else Some (get 0 (blit [0] 0 (slice (file_bytes d h) p n)) 0),
          (if n =? 0 then true else e, p + n))).
  { intros e p Hp. unfold initrd_read1, initrdfs_read. rewrite Hh. cbn [mbind option_bind].
    rewrite initrd_copy_spec by (done || lia || (change (zlen [0]) with 1; lia)). cbn [mbind option_bind].
    rewrite Z.add_0_r, Z.sub_0_r, u32_id by lia. done. }
  constructor.
  - intros e p b Hp Hb. assert (p < hd_length h) by (apply lookup_lt_Some in Hb; unfold zlen in *; lia).
    rewrite Hread by lia. rewrite Z.min_l by lia. cbv zeta. change (1 =? 0) with false. cbv iota.
    assert (Hs : slice (file_bytes d h) p 1 = [b]).
    { rewrite (slice_cons _ _ _ b) by (done || lia). done. }
    by rewrite Hs.
  - intros e. rewrite Hfl, Hread by lia. rewrite Z.sub_diag. cbv zeta. change (Z.min 1 0) with 0. by rewrite Z.add_0_r.
  - lia.
Qed.

(** ** The symbol of an address *)
Definition by_address (a b : kernel_symbol) : Prop := ks_address a <= ks_address b.
Lemma lookup_scan (P : kernel_symbol -> bool) l :
  match snd <$> list_find (fun s => P s = true) (reverse l) with
  | None => Forall (fun s => P s = false) l
  | Some s => exists l1 l2, l = l1 ++ s :: l2 /\ P s = true /\ Forall (fun s => P s = false) l2
  end.
Proof.
  destruct (list_find _ (reverse l)) as [[i s]|] eqn:E; simpl.
  - apply list_find_Some in E as (Hi&Hs&Hb). apply list_elem_of_split_length in Hi as (r1&r2&Hr&Hlen).
    exists (reverse r2), (reverse r1). assert (Hl : l = reverse (r1 ++ s :: r2)) by (by rewrite <- Hr, reverse_involutive).
    split; [by rewrite Hl, reverse_app, reverse_cons, <- app_assoc|]. split; [done|].
    apply Forall_reverse, Forall_forall. intros x Hx. apply list_elem_of_lookup in Hx as [j Hj].
    apply not_true_iff_false. apply (Hb j x); [|apply lookup_lt_Some in Hj; lia].
    rewrite Hr. by apply lookup_app_l_Some.
  - apply list_find_None in E. apply Forall_reverse in E. rewrite reverse_involutive in E.
    eapply Forall_impl; [exact E|]. intros x Hx. by apply not_true_iff_false.
Qed.
Lemma ksymbols_lookup_nearest syms addr : StronglySorted by_address syms ->
  match ksymbols_lookup syms addr false with
  | None => Forall (fun s => addr < ks_address s) syms
  | Some s => s ∈ syms /\ ks_address s <= addr
      /\ forall x, x ∈ syms -> ks_address x <= addr -> ks_address x <= ks_address s
  end.
Proof.
  intros Hsort. unfold ksymbols_lookup. cbn [negb andb].
  set (P := fun s => (addr =? ks_address s) || (ks_address s <? addr)).
  pose proof (lookup_scan P syms) as H. destruct (snd <$> _) as [s|].
  - destruct H as (l1&l2&->&Hs&Hl2). split; [apply elem_of_app; right; left|].
    unfold P in Hs. apply orb_true_iff in Hs. split; [zbool; lia|]. intros x Hx Hle.
    apply elem_of_app in Hx as [Hx|Hx].
    + apply StronglySorted_app in Hsort as (_&H2&_) || idtac.
      clear Hl2 Hs. induction l1 as [|y l1 IH]; [by apply elem_of_nil in Hx|].
      apply StronglySorted_inv in Hsort as [Hsort Hall]. apply elem_of_cons in Hx as [->|Hx]; [|by apply IH].
      rewrite Forall_forall in Hall. apply (Hall s). apply elem_of_app. right. left.
    + apply elem_of_cons in Hx as [->|Hx]; [lia|]. rewrite Forall_forall in Hl2. apply Hl2 in Hx.
      unfold P in Hx. apply orb_false_iff in Hx as [??]. zbool. lia.
  - eapply Forall_impl; [exact H|]. intros s Hs. unfold P in Hs. apply orb_false_iff in Hs as [??]. zbool. lia.
Qed.
Lemma ksymbols_lookup_precise syms addr :
  match ksymbols_lookup syms addr true with
  | None => Forall (fun s => ks_address s <> addr) syms
  | Some s => s ∈ syms /\ ks_address s = addr
  end.
Proof.
  unfold ksymbols_lookup. cbn [negb andb].
  pose proof (lookup_scan (fun s => (addr =? ks_address s) || false) syms) as H. destruct (snd <$> _) as [s|].
  - destruct H as (l1&l2&->&Hs&_). split; [apply elem_of_app; right; left|]. rewrite orb_false_r in Hs. zbool. lia.
  - eapply Forall_impl; [exact H|]. simpl. intros s Hs. rewrite orb_false_r in Hs. zbool. lia.
Qed.

(** C31: a map file in the memory disk, a line of eight hexadecimal digits, type
    and name for each symbol, loads to exactly its symbols; in a map sorted by
    address an address is then resolved to the nearest symbol at or below it,
    and precisely to a symbol of that address, if there is one. *)
Theorem ksymbols_resolve d inode h syms rewind fuel p old :
  initrd_headers d !! Z.to_nat inode = Some h -> header_ok d h ->
  file_bytes d h = concat (symbol_line <$> syms) -> Forall symbol_ok syms -> zlen syms < MAX_KERNEL_SYMBOLS ->
  StronglySorted by_address syms -> rewind (false, p) = (false, 0) -> hd_length h < Z.of_nat fuel ->
  ksymbols_load_file (initrd_read1 d inode) rewind fuel (Some (false, p)) old = Some (syms, zlen syms)
  /\ forall addr,
     match ksymbols_lookup syms addr false with
     | None => Forall (fun s => addr < ks_address s) syms
     | Some s => s ∈ syms /\ ks_address s <= addr
         /\ forall x, x ∈ syms -> ks_address x <= addr -> ks_address x <= ks_address s
     end
     /\ match ksymbols_lookup syms addr true with
        | None => Forall (fun s => ks_address s <> addr) syms
        | Some s => s ∈ syms /\ ks_address s = addr
        end.
Proof.
  intros Hh Hok Hc Hsyms Hlen Hsort Hrew Hf. split.
  - unfold ksymbols_load_file. rewrite Hrew. pose proof (initrd_byte_file d inode h Hh Hok) as Hb.
    assert (Hl : zlen (file_bytes d h) = hd_length h).
    { destruct Hok as (?&?&?&?). unfold file_bytes. rewrite zlen_slice; lia. }
    rewrite (load_loop_spec _ (file_bytes d h) syms Hsyms fuel 0 []); [done| | |done].
    + exists []. by rewrite Hc.
    + rewrite <- Hc. lia.
  - intros addr. split; [by apply ksymbols_lookup_nearest|apply ksymbols_lookup_precise].
Qed.

Definition map_example : list kernel_symbol :=
  [Symbol 0xC0100000 84 (cstring (str "_start")); Symbol 0xC0100A40 84 (cstring (str "kmain"))].
Definition map_disk : initrd :=
  Initrd [Header (cstring (str "/kernel.map")) 35 0] (concat (symbol_line <$> map_example)).
Lemma map_example_ok : Forall symbol_ok map_example.
Proof.
  assert (H : forall a t n, 0 <= a < 2 ^ 32 -> 0 <= t < 128 -> nonul n -> bool_decide (10 ∉ n) = true -> zlen n < 256 ->
    symbol_ok (Symbol a t (cstring n))).
  { intros a t n Ha Ht Hn H10 Hl. constructor; [done..|]. exists n. split_and!; [done..| |done].
    by apply bool_decide_eq_true in H10. }
  apply Forall_cons. split; [|apply Forall_singleton]; (apply H; [lia|lia| |reflexivity|reflexivity]);
    repeat constructor; discriminate.
Qed.
Lemma ksymbols_resolve_witness :
  ksymbols_load_file (initrd_read1 map_disk 0) (fun f => (f.1, 0)) 100 (Some (false, 0)) [] = Some (map_example, 2)
  /\ ksymbols_lookup map_example 0xC0100A53 false = Some (Symbol 0xC0100A40 84 (cstring (str "kmain"))).
Proof.
  split; [|reflexivity].
  apply (ksymbols_resolve map_disk 0 (Header (cstring (str "/kernel.map")) 35 0) map_example (fun f => (f.1, 0)) 100 0 []).
  - reflexivity.
  - vm_compute. intuition congruence.
  - reflexivity.
  - exact map_example_ok.
  - reflexivity.
  - repeat constructor. vm_compute. discriminate.
  - reflexivity.
  - reflexivity.
Defined.
