(* ===== verification/Devfs.v ===== *)
(** * Devfs: fs/devfs.c, kernel/devices.c and include/depthos/dev.h

    The device table and the file system that shows it.  Devices are named by
    their address; their entry points are Section variables. *)
From S2P Require Import Prelude CString Vfs.

Definition MAX_DEVICES := 1024.

(** What the code reads and writes of a device itself. *)
Record device := Device { d_name : list Z; d_class : Z; d_idx : Z }.
Definition with_idx (i : Z) (d : device) := Device (d_name d) (d_class d) i.

(** [devices] are the addresses in [devices[0 .. device_count)];
    [devfs_files] those in use of the static array of nodes. *)
Record devs := Devs { devices : list Z; dev_store : gmap Z device; devfs_files : list fs_node }.

Section devfs_calls.
  Context {S : Type}.
  (** A device's entry point, applied to its arguments; [None] is NULL. *)
  Implicit Types op : option (S -> option (S * Z)).
Definition devfs_read op (s : S) : option (S * Z) := match op with None => Some (s, - ENIMPL) | Some f => f s end.
Definition devfs_write op (s : S) : option (S * Z) := match op with None => Some (s, - ENIMPL) | Some f => f s end.
Definition devfs_ioctl op (s : S) : option (S * Z) := match op with None => Some (s, - ENIMPL) | Some f => f s end.
Definition devfs_seek op (s : S) : option (S * Z) := match op with None => Some (s, - ENIMPL) | Some f => f s end.
Definition devfs_mmap op (s : S) : option (S * Z) := match op with Some f => f s | None => Some (s, ENIMPL) end.
End devfs_calls.

(** The index of the file with this name, -1 for none; [path] begins with the
    separator that is skipped. *)
Fixpoint devfs_find (fs : list fs_node) (p : list Z) (i : Z) : option Z :=
  match fs with
  | [] => Some (-1)
  | f :: fs => e ← streq (name f) p; if (e : bool) then Some i else devfs_find fs p (i + 1)
  end.
Definition devfs_open (s : devs) (p : list Z) : option Z := devfs_find (devfs_files s) (tail p) 0.

(** The copy of "/dev/" and the name, in the allocation [garbage]. *)
Definition devfs_path (garbage n : list Z) : option (list Z) :=
  l ← strlen n;
  d ← memcpy garbage (str "/dev/") 5;
  at_off (fun d => memcpy d n (Z.to_nat (l + 1))) d 5.
Definition devfs_register (garbage : list Z) (ops_addr : Z) (s : devs) (n : list Z) (d : Z) : option devs :=
  if MAX_DEVICES <=? zlen (devfs_files s) then Some s else
  p ← devfs_path garbage n;
  Some (Devs (devices s) (dev_store s)
          (devfs_files s ++ [FsNode n p FS_DEV 0 0 false 0 0 0 ops_addr d 0 0 0 false])).

(** The results are the buffer, [*off] and the count. *)
Definition null_write (n off : Z) : Z * Z := (u32 (off + n), 0).
Definition null_read (buffer : list Z) (n off : Z) : option (list Z * Z * Z) :=
  b ← memset buffer 0 (Z.to_nat n); Some (b, u32 (off + n), n).

(** The number of registered devices of a class. *)
Fixpoint count_class (l : list Z) (st : gmap Z device) (c : Z) : option Z :=
  match l with
  | [] => Some 0
  | a :: l => d ← st !! a; k ← count_class l st c; Some (k + b2z (d_class d =? c))
  end.
Definition register_device (garbage : list Z) (ops_addr : Z) (s : devs) (dev : Z) : option devs :=
  if MAX_DEVICES <=? zlen (devices s) then Some s else
  d ← dev_store s !! dev;
  idx ← count_class (devices s) (dev_store s) (d_class d);
  devfs_register garbage ops_addr
    (Devs (devices s ++ [dev]) (<[dev := with_idx (u16 idx) d]> (dev_store s)) (devfs_files s)) (d_name d) dev.

Fixpoint get_device_loop (l : list Z) (st : gmap Z device) (n : list Z) : option Z :=
  match l with
  | [] => Some 0
  | a :: l => d ← st !! a; e ← streq n (d_name d); if (e : bool) then Some a else get_device_loop l st n
  end.
Definition get_device (s : devs) (n : list Z) : option Z := get_device_loop (devices s) (dev_store s) n.

Definition dev_impl_seek_zero (whence p : Z) : Z * Z :=
  if (whence =? SEEK_SET) || (whence =? SEEK_CUR) || (whence =? SEEK_END) then (0, 0) else (p, - EINVAL).

(** ** Device numbers *)
Definition class_members (l : list Z) (st : gmap Z device) (c : Z) : list device :=
  filter (fun d => d_class d = c) (omap (fun a => st !! a) l).

(** Every device is there once, and those of a class are numbered in the
    order of their registration. *)
Record devs_ok (s : devs) : Prop := DevsOk {
  do_nodup : NoDup (devices s);
  do_store : forall a, a ∈ devices s -> is_Some (dev_store s !! a);
  do_count : zlen (devices s) <= MAX_DEVICES;
  do_files : zlen (devfs_files s) = zlen (devices s);
  do_numbers : forall c, d_idx <$> class_members (devices s) (dev_store s) c
                         = seqZ 0 (zlen (class_members (devices s) (dev_store s) c))
}.

Lemma count_class_spec l st c :
  (forall a, a ∈ l -> is_Some (st !! a)) -> count_class l st c = Some (zlen (class_members l st c)).
Proof.
  induction l as [|a l IH]; intros H; [done|]. simpl. destruct (H a) as [d Hd]; [set_solver|].
  rewrite Hd. cbn [mbind option_bind]. rewrite IH by set_solver. cbn [mbind option_bind].
  unfold class_members. simpl. rewrite Hd, filter_cons.
  destruct (Z.eqb_spec (d_class d) c), (decide (d_class d = c)); try done; f_equal;
    rewrite ?zlen_cons; change (list_omap Z device ?f l) with (omap (M:=list) f l); unfold b2z; lia.
Qed.

Lemma class_members_snoc l st c a d :
  a ∉ l -> class_members (l ++ [a]) (<[a := d]> st) c
  = class_members l st c ++ (if bool_decide (d_class d = c) then [d] else []).
Proof.
  intros Ha. unfold class_members. rewrite omap_app, filter_app. f_equal.
  - f_equal. clear -Ha. induction l as [|b l IH]; [done|]. simpl.
    rewrite lookup_insert_ne by set_solver. destruct (st !! b); [f_equal|]; apply IH; set_solver.
  - simpl. rewrite lookup_insert_eq, filter_cons. by case_bool_decide; destruct (decide _).
Qed.

Lemma class_members_length l st c : zlen (class_members l st c) <= zlen l.
Proof.
  unfold class_members, zlen. apply Nat2Z.inj_le. etransitivity; [apply length_filter|].
  induction l as [|a l IH]; [done|]. simpl.
  change (list_omap Z device ?f l) with (omap (M:=list) f l). destruct (st !! a); simpl; lia.
Qed.

(** Registering a device that is not registered yet gives it the number
    of its class's devices so far, shows it in the device file system, and
    keeps every device number unique within its class; a full table changes
    nothing. *)
Lemma register_device_numbers garbage ops_addr s dev d :
  devs_ok s -> dev ∉ devices s -> dev_store s !! dev = Some d ->
  (exists n, d_name d = cstring n /\ nonul n /\ zlen garbage = zlen n + 6) ->
  exists s', register_device garbage ops_addr s dev = Some s' /\ devs_ok s'
  /\ if zlen (devices s) =? MAX_DEVICES then s' = s
     else devices s' = devices s ++ [dev]
       /\ dev_store s' !! dev = Some (with_idx (zlen (class_members (devices s) (dev_store s) (d_class d))) d)
       /\ exists f, devfs_files s' = devfs_files s ++ [f] /\ name f = d_name d /\ impl f = dev /\ type f = FS_DEV
            /\ path f = str "/dev/" ++ d_name d.
Proof.
  intros [Hnd Hst Hc Hfl Hnum] Hnew Hd (n&Hn&Hnn&Hg). unfold register_device.
  destruct (MAX_DEVICES <=? zlen (devices s)) eqn:E; zbool.
  { exists s. split; [done|]. split; [by constructor|].
    destruct (Z.eqb_spec (zlen (devices s)) MAX_DEVICES); [done|lia]. }
  destruct (Z.eqb_spec (zlen (devices s)) MAX_DEVICES); [lia|].
  rewrite Hd. cbn [mbind option_bind]. rewrite count_class_spec by done. cbn [mbind option_bind].
  set (k := zlen (class_members (devices s) (dev_store s) (d_class d))).
  assert (Hk : u16 k = k).
  { pose proof (class_members_length (devices s) (dev_store s) (d_class d)).
    unfold u16, MAX_DEVICES in *. apply Z.mod_small. unfold k, zlen in *. lia. }
  rewrite Hk. unfold devfs_register. simpl. rewrite Hfl. destruct (MAX_DEVICES <=? _) eqn:?; [lia|].
  assert (Hp : devfs_path garbage (d_name d) = Some (str "/dev/" ++ d_name d)).
  { unfold devfs_path. rewrite Hn. pose proof (strlen_cstring n [] Hnn) as Hl. rewrite app_nil_r in Hl.
    rewrite Hl. cbn [mbind option_bind]. pose proof (zlen_nonneg n).
    rewrite memcpy_spec by (simpl; unfold zlen in *; lia). cbn [mbind option_bind].
    rewrite (at_off_row _ _ (cstring n)).
    - change 5 with (zlen (str "/dev/")). change (take 5 (str "/dev/")) with (str "/dev/").
      rewrite blit_at; [|unfold cstring, zlen in *; rewrite length_drop, length_app; simpl; lia].
      rewrite drop_ge, app_nil_r; [done|unfold cstring, zlen in *; rewrite length_drop, length_app; simpl; lia].
    - lia.
    - unfold cstring, zlen in *. rewrite !length_app, length_drop. simpl. lia.
    - intros x Hx. assert (Hlc : Z.to_nat (zlen n + 1) = length (cstring n))
        by (unfold cstring, zlen; rewrite length_app; simpl; lia).
      rewrite Hlc, memcpy_spec by lia. by rewrite take_ge. }
  rewrite Hp. cbn [mbind option_bind]. eexists. split; [done|]. split; [|simpl; rewrite lookup_insert_eq; eauto 10].
  constructor; simpl.
  - apply NoDup_app. split_and!; [done|set_solver|apply NoDup_singleton].
  - intros a Ha. destruct (decide (a = dev)) as [->|Hne]; [rewrite lookup_insert_eq; by eexists|].
    rewrite lookup_insert_ne by done. apply Hst. set_solver.
  - rewrite zlen_app. change (zlen [dev]) with 1. lia.
  - rewrite !zlen_app, Hfl. done.
  - intros c. rewrite class_members_snoc by done. rewrite fmap_app, zlen_app, Hnum. simpl.
    case_bool_decide as Hcl; simpl; [|by rewrite app_nil_r, Z.add_0_r].
    subst c. fold k. change (zlen [with_idx k d]) with 1. rewrite seqZ_app by (unfold k, zlen; lia).
    simpl. by rewrite Z.add_0_l.
Qed.

Definition devs_example : devs :=
  Devs [16] {[ 16 := Device (cstring (str "tty0")) 1 0; 32 := Device (cstring (str "tty1")) 1 7 ]}
    [FsNode (cstring (str "tty0")) (cstring (str "/dev/tty0")) FS_DEV 0 0 false 0 0 0 9 16 0 0 0 false].
Lemma devs_example_ok : devs_ok devs_example.
Proof.
  constructor; simpl; try done; [apply NoDup_singleton|intros a ->%list_elem_of_singleton; by eexists|].
  intros c. unfold class_members.
  change (omap _ _) with [Device (cstring (str "tty0")) 1 0]. rewrite filter_cons. by destruct (decide _).
Qed.
Lemma register_device_numbers_witness :
  exists s', register_device (replicate 10 9) 9 devs_example 32 = Some s'
    /\ dev_store s' !! 32 = Some (Device (cstring (str "tty1")) 1 1).
Proof.
  destruct (register_device_numbers (replicate 10 9) 9 devs_example 32 (Device (cstring (str "tty1")) 1 7)
    devs_example_ok) as (s'&Hr&_&_&Hs&_); [set_solver|done| |by exists s'].
  exists (str "tty1"). split_and!; [done|by repeat constructor|done].
Defined.
