(* ===== verification/Keyboard.v ===== *)
(** * Keyboard: drivers/keyboard.c and include/depthos/keyboard.h

    Keys, their texts, the scan code tables and the interpretation of scan
    codes.  A scan code behind the end of a table stops the model; an event is
    what the current handler is called with. *)
From S2P Require Import Prelude CString.

Inductive keycode :=
  | KEY_UNKNOWN | KEY_SPACE | KEY_0 | KEY_1 | KEY_2 | KEY_3 | KEY_4 | KEY_5 | KEY_6 | KEY_7 | KEY_8 | KEY_9
  | KEY_A | KEY_B | KEY_C | KEY_D | KEY_E | KEY_F | KEY_G | KEY_H | KEY_I | KEY_J | KEY_K | KEY_L | KEY_M
  | KEY_N | KEY_O | KEY_P | KEY_Q | KEY_R | KEY_S | KEY_T | KEY_U | KEY_V | KEY_W | KEY_X | KEY_Y | KEY_Z
  | KEY_DOT | KEY_COMMA | KEY_COLON | KEY_SEMICOLON | KEY_SLASH | KEY_BACKSLASH | KEY_PLUS | KEY_MINUS
  | KEY_ASTERISK | KEY_EXCLAMATION | KEY_QUESTION | KEY_QUOTEDOUBLE | KEY_QUOTE | KEY_EQUAL | KEY_HASH
  | KEY_PERCENT | KEY_AMPERSAND | KEY_UNDERSCORE | KEY_LEFTPARENTHESIS | KEY_RIGHTPARENTHESIS | KEY_LEFTBRACKET
  | KEY_RIGHTBRACKET | KEY_LEFTCURL | KEY_RIGHTCURL | KEY_DOLLAR | KEY_POUND | KEY_EURO | KEY_LESS
  | KEY_GREATER | KEY_BAR | KEY_GRAVE | KEY_TILDE | KEY_AT | KEY_CARRET | KEY_RETURN | KEY_ESCAPE
  | KEY_BACKSPACE | KEY_CARRIAGE_RETURN | KEY_UP | KEY_DOWN | KEY_LEFT | KEY_RIGHT | KEY_F1 | KEY_F2 | KEY_F3
  | KEY_F4 | KEY_F5 | KEY_F6 | KEY_F7 | KEY_F8 | KEY_F9 | KEY_F10 | KEY_F11 | KEY_F12 | KEY_F13 | KEY_F14
  | KEY_F15 | KEY_KP_0 | KEY_KP_1 | KEY_KP_2 | KEY_KP_3 | KEY_KP_4 | KEY_KP_5 | KEY_KP_6 | KEY_KP_7 | KEY_KP_8
  | KEY_KP_9 | KEY_KP_PLUS | KEY_KP_MINUS | KEY_KP_DECIMAL | KEY_KP_DIVIDE | KEY_KP_ASTERISK | KEY_KP_NUMLOCK
  | KEY_KP_ENTER | KEY_TAB | KEY_CAPSLOCK | KEY_LSHIFT | KEY_LCTRL | KEY_LALT | KEY_LSYS | KEY_RSHIFT
  | KEY_RCTRL | KEY_RALT | KEY_RSYS | KEY_INSERT | KEY_DELETE | KEY_HOME | KEY_END | KEY_PAGEUP | KEY_PAGEDOWN
  | KEY_SCROLLLOCK | KEY_PAUSE.
Definition all_keycodes : list keycode :=
  [KEY_UNKNOWN; KEY_SPACE; KEY_0; KEY_1; KEY_2; KEY_3; KEY_4; KEY_5; KEY_6; KEY_7; KEY_8; KEY_9; KEY_A; KEY_B;
   KEY_C; KEY_D; KEY_E; KEY_F; KEY_G; KEY_H; KEY_I; KEY_J; KEY_K; KEY_L; KEY_M; KEY_N; KEY_O; KEY_P; KEY_Q;
   KEY_R; KEY_S; KEY_T; KEY_U; KEY_V; KEY_W; KEY_X; KEY_Y; KEY_Z; KEY_DOT; KEY_COMMA; KEY_COLON; KEY_SEMICOLON;
   KEY_SLASH; KEY_BACKSLASH; KEY_PLUS; KEY_MINUS; KEY_ASTERISK; KEY_EXCLAMATION; KEY_QUESTION; KEY_QUOTEDOUBLE;
   KEY_QUOTE; KEY_EQUAL; KEY_HASH; KEY_PERCENT; KEY_AMPERSAND; KEY_UNDERSCORE; KEY_LEFTPARENTHESIS;
   KEY_RIGHTPARENTHESIS; KEY_LEFTBRACKET; KEY_RIGHTBRACKET; KEY_LEFTCURL; KEY_RIGHTCURL; KEY_DOLLAR; KEY_POUND;
   KEY_EURO; KEY_LESS; KEY_GREATER; KEY_BAR; KEY_GRAVE; KEY_TILDE; KEY_AT; KEY_CARRET; KEY_RETURN; KEY_ESCAPE;
   KEY_BACKSPACE; KEY_CARRIAGE_RETURN; KEY_UP; KEY_DOWN; KEY_LEFT; KEY_RIGHT; KEY_F1; KEY_F2; KEY_F3; KEY_F4;
   KEY_F5; KEY_F6; KEY_F7; KEY_F8; KEY_F9; KEY_F10; KEY_F11; KEY_F12; KEY_F13; KEY_F14; KEY_F15; KEY_KP_0;
   KEY_KP_1; KEY_KP_2; KEY_KP_3; KEY_KP_4; KEY_KP_5; KEY_KP_6; KEY_KP_7; KEY_KP_8; KEY_KP_9; KEY_KP_PLUS;
   KEY_KP_MINUS; KEY_KP_DECIMAL; KEY_KP_DIVIDE; KEY_KP_ASTERISK; KEY_KP_NUMLOCK; KEY_KP_ENTER; KEY_TAB;
   KEY_CAPSLOCK; KEY_LSHIFT; KEY_LCTRL; KEY_LALT; KEY_LSYS; KEY_RSHIFT; KEY_RCTRL; KEY_RALT; KEY_RSYS;
   KEY_INSERT; KEY_DELETE; KEY_HOME; KEY_END; KEY_PAGEUP; KEY_PAGEDOWN; KEY_SCROLLLOCK; KEY_PAUSE].

Definition KEYBOARD_MODIFIER_CTRL := 0x1.
Definition KEYBOARD_MODIFIER_ALT := 0x2.
Definition KEYBOARD_MODIFIER_SHIFT := 0x4.
Definition KEYBOARD_MODIFIER_CAPSLOCK := 0x8.
Record keyboard_event := KeyEvent { ev_keycode : keycode; pressed : bool; ev_modifiers : Z }.

(** The characters without the terminator. *)
Definition key_chars (k : keycode) : list Z :=
  match k with
  | KEY_UNKNOWN => str "Unknown"
  | KEY_SPACE => str " "
  | KEY_0 => str "0"
  | KEY_1 => str "1"
  | KEY_2 => str "2"
  | KEY_3 => str "3"
  | KEY_4 => str "4"
  | KEY_5 => str "5"
  | KEY_6 => str "6"
  | KEY_7 => str "7"
  | KEY_8 => str "8"
  | KEY_9 => str "9"
  | KEY_A => str "a"
  | KEY_B => str "b"
  | KEY_C => str "c"
  | KEY_D => str "d"
  | KEY_E => str "e"
  | KEY_F => str "f"
  | KEY_G => str "g"
  | KEY_H => str "h"
  | KEY_I => str "i"
  | KEY_J => str "j"
  | KEY_K => str "k"
  | KEY_L => str "l"
  | KEY_M => str "m"
  | KEY_N => str "n"
  | KEY_O => str "o"
  | KEY_P => str "p"
  | KEY_Q => str "q"
  | KEY_R => str "r"
  | KEY_S => str "s"
  | KEY_T => str "t"
  | KEY_U => str "u"
  | KEY_V => str "v"
  | KEY_W => str "w"
  | KEY_X => str "x"
  | KEY_Y => str "y"
  | KEY_Z => str "z"
  | KEY_DOT => str "."
  | KEY_COMMA => str ","
  | KEY_COLON => str ":"
  | KEY_SEMICOLON => str ";"
  | KEY_SLASH => str "/"
  | KEY_BACKSLASH => str "\"
  | KEY_PLUS => str "+"
  | KEY_MINUS => str "-"
  | KEY_ASTERISK => str "*"
  | KEY_EXCLAMATION => str "!"
  | KEY_QUESTION => str "?"
  | KEY_QUOTEDOUBLE => [34]
  | KEY_QUOTE => str "'"
  | KEY_EQUAL => str "="
  | KEY_HASH => str "#"
  | KEY_PERCENT => str "%"
  | KEY_AMPERSAND => str "&"
  | KEY_UNDERSCORE => str "_"
  | KEY_LEFTPARENTHESIS => str "("
  | KEY_RIGHTPARENTHESIS => str ")"
  | KEY_LEFTBRACKET => str "["
  | KEY_RIGHTBRACKET => str "]"
  | KEY_LEFTCURL => str "{"
  | KEY_RIGHTCURL => str "}"
  | KEY_DOLLAR => str "$"
  | KEY_POUND => str "$"
  | KEY_EURO => str "$"
  | KEY_LESS => str "<"
  | KEY_GREATER => str ">"
  | KEY_BAR => str "|"
  | KEY_GRAVE => str "`"
  | KEY_TILDE => str "~"
  | KEY_AT => str "@"
  | KEY_CARRET => str "^"
  | KEY_RETURN => [10]
  | KEY_ESCAPE => [27]
  | KEY_BACKSPACE => [8]
  | KEY_CARRIAGE_RETURN => [13]
  | KEY_UP => 27 :: str "[1A"
  | KEY_DOWN => 27 :: str "[1B"
  | KEY_LEFT => 27 :: str "[1C"
  | KEY_RIGHT => 27 :: str "[1D"
  | KEY_F1 => str "F1"
  | KEY_F2 => str "F2"
  | KEY_F3 => str "F3"
  | KEY_F4 => str "F4"
  | KEY_F5 => str "F5"
  | KEY_F6 => str "F6"
  | KEY_F7 => str "F7"
  | KEY_F8 => str "F8"
  | KEY_F9 => str "F9"
  | KEY_F10 => str "F10"
  | KEY_F11 => str "F11"
  | KEY_F12 => str "F12"
  | KEY_F13 => str "F13"
  | KEY_F14 => str "F14"
  | KEY_F15 => str "F15"
  | KEY_KP_0 => str "Numpad0"
  | KEY_KP_1 => str "Numpad1"
  | KEY_KP_2 => str "Numpad2"
  | KEY_KP_3 => str "Numpad3"
  | KEY_KP_4 => str "Numpad4"
  | KEY_KP_5 => str "Numpad5"
  | KEY_KP_6 => str "Numpad6"
  | KEY_KP_7 => str "Numpad7"
  | KEY_KP_8 => str "Numpad8"
  | KEY_KP_9 => str "Numpad9"
  | KEY_KP_PLUS => str "Numpad +"
  | KEY_KP_MINUS => str "Numpad -"
  | KEY_KP_DECIMAL => str "Numpad ."
  | KEY_KP_DIVIDE => str "Numpad /"
  | KEY_KP_ASTERISK => str "Numpad *"
  | KEY_KP_NUMLOCK => str "NumLock"
  | KEY_KP_ENTER => str "Enter"
  | KEY_TAB => [9]
  | KEY_CAPSLOCK => str "CapsLock"
  | KEY_LSHIFT => str "Shift"
  | KEY_LCTRL => str "Ctrl"
  | KEY_LALT => str "Alt"
  | KEY_LSYS => str "System"
  | KEY_RSHIFT => str "RShift"
  | KEY_RCTRL => str "RCtrl"
  | KEY_RALT => str "RAlt"
  | KEY_RSYS => str "RSystem"
  | KEY_INSERT => str "Insert"
  | KEY_DELETE => str "Delete"
  | KEY_HOME => str "Home"
  | KEY_END => str "End"
  | KEY_PAGEUP => str "PageUp"
  | KEY_PAGEDOWN => str "PageDown"
  | KEY_SCROLLLOCK => str "ScrollLock"
  | KEY_PAUSE => str "Pause"
  end.
Definition keycode_to_string (k : keycode) : list Z := cstring (key_chars k).

Definition scancode_set_1 : list keycode :=
  [KEY_UNKNOWN; KEY_ESCAPE; KEY_1; KEY_2; KEY_3; KEY_4; KEY_5; KEY_6; KEY_7; KEY_8; KEY_9; KEY_0; KEY_MINUS;
   KEY_EQUAL; KEY_BACKSPACE; KEY_TAB; KEY_Q; KEY_W; KEY_E; KEY_R; KEY_T; KEY_Y; KEY_U; KEY_I; KEY_O; KEY_P;
   KEY_LEFTBRACKET; KEY_RIGHTBRACKET; KEY_RETURN; KEY_LCTRL; KEY_A; KEY_S; KEY_D; KEY_F; KEY_G; KEY_H; KEY_J;
   KEY_K; KEY_L; KEY_SEMICOLON; KEY_QUOTE; KEY_GRAVE; KEY_LSHIFT; KEY_BACKSLASH; KEY_Z; KEY_X; KEY_C; KEY_V;
   KEY_B; KEY_N; KEY_M; KEY_COMMA; KEY_DOT; KEY_SLASH; KEY_RSHIFT; KEY_KP_ASTERISK; KEY_RALT; KEY_SPACE;
   KEY_CAPSLOCK; KEY_F1; KEY_F2; KEY_F3; KEY_F4; KEY_F5; KEY_F6; KEY_F7; KEY_F8; KEY_F9; KEY_F10;
   KEY_KP_NUMLOCK; KEY_SCROLLLOCK; KEY_KP_7; KEY_KP_8; KEY_KP_9; KEY_KP_MINUS; KEY_KP_4; KEY_KP_5; KEY_KP_6;
   KEY_KP_PLUS; KEY_KP_1; KEY_KP_2; KEY_KP_3; KEY_KP_0; KEY_KP_DECIMAL].
Definition scancode_set_1_shift : list keycode :=
  [KEY_UNKNOWN; KEY_ESCAPE; KEY_EXCLAMATION; KEY_AT; KEY_HASH; KEY_DOLLAR; KEY_PERCENT; KEY_CARRET;
   KEY_AMPERSAND; KEY_ASTERISK; KEY_LEFTPARENTHESIS; KEY_RIGHTPARENTHESIS; KEY_UNDERSCORE; KEY_PLUS;
   KEY_BACKSPACE; KEY_TAB; KEY_Q; KEY_W; KEY_E; KEY_R; KEY_T; KEY_Y; KEY_U; KEY_I; KEY_O; KEY_P; KEY_LEFTCURL;
   KEY_RIGHTCURL; KEY_RETURN; KEY_LCTRL; KEY_A; KEY_S; KEY_D; KEY_F; KEY_G; KEY_H; KEY_J; KEY_K; KEY_L;
   KEY_COLON; KEY_QUOTEDOUBLE; KEY_TILDE; KEY_LSHIFT; KEY_BAR; KEY_Z; KEY_X; KEY_C; KEY_V; KEY_B; KEY_N; KEY_M;
   KEY_LESS; KEY_GREATER; KEY_QUESTION; KEY_RSHIFT; KEY_KP_ASTERISK; KEY_RALT; KEY_SPACE; KEY_CAPSLOCK; KEY_F1;
   KEY_F2; KEY_F3; KEY_F4; KEY_F5; KEY_F6; KEY_F7; KEY_F8; KEY_F9; KEY_F10; KEY_KP_NUMLOCK; KEY_SCROLLLOCK;
   KEY_HOME; KEY_KP_8; KEY_PAGEUP; KEY_KP_2; KEY_KP_3; KEY_KP_0; KEY_KP_DECIMAL; KEY_UNKNOWN; KEY_UNKNOWN;
   KEY_UNKNOWN; KEY_F11; KEY_F12].

Definition upd_modifier (m : Z) (p : bool) (mods : Z) : Z :=
  if p then u8 (Z.lor mods m) else u8 (Z.land mods (Z.lnot m)).
Definition has_modifier (m mods : Z) : bool := negb (Z.land mods m =? 0).
Definition ps2_keyboard_handle_scancode (payload mods : Z) : option (Z * option keyboard_event) :=
  let scancode := Z.land payload 0x7F in
  let p := Z.land payload 0x80 =? 0 in
  keycode ← (if has_modifier KEYBOARD_MODIFIER_SHIFT mods then scancode_set_1_shift else scancode_set_1)
              !! Z.to_nat scancode;
  match keycode with
  | KEY_LALT | KEY_RALT => Some (upd_modifier KEYBOARD_MODIFIER_ALT p mods, None)
  | KEY_LCTRL | KEY_RCTRL => Some (upd_modifier KEYBOARD_MODIFIER_CTRL p mods, None)
  | KEY_LSHIFT | KEY_RSHIFT => Some (upd_modifier KEYBOARD_MODIFIER_SHIFT p mods, None)
  | KEY_CAPSLOCK => Some (if p then u8 (Z.lxor mods KEYBOARD_MODIFIER_CAPSLOCK) else mods, None)
  | _ => Some (mods, Some (KeyEvent keycode p mods))
  end.
(** [status] and [data] are what the controller's two ports answer. *)
Definition ps2_keyboard_irq_handler (status data mods : Z) : option (Z * option keyboard_event) :=
  if Z.land status 0x01 =? 0 then Some (mods, None) else ps2_keyboard_handle_scancode data mods.

Definition keycode_from_codepoint (codepoint : Z) : keycode :=
  match codepoint with
  | 65 | 97 => KEY_A
  | 66 | 98 => KEY_B
  | 67 | 99 => KEY_C
  | 68 | 100 => KEY_D
  | 69 | 101 => KEY_E
  | 70 | 102 => KEY_F
  | 71 | 103 => KEY_G
  | 72 | 104 => KEY_H
  | 73 | 105 => KEY_I
  | 74 | 106 => KEY_J
  | 75 | 107 => KEY_K
  | 76 | 108 => KEY_L
  | 77 | 109 => KEY_M
  | 78 | 110 => KEY_N
  | 79 | 111 => KEY_O
  | 80 | 112 => KEY_P
  | 81 | 113 => KEY_Q
  | 82 | 114 => KEY_R
  | 83 | 115 => KEY_S
  | 84 | 116 => KEY_T
  | 85 | 117 => KEY_U
  | 86 | 118 => KEY_V
  | 87 | 119 => KEY_W
  | 88 | 120 => KEY_X
  | 89 | 121 => KEY_Y
  | 90 | 122 => KEY_Z
  | 48 => KEY_0
  | 49 => KEY_1
  | 50 => KEY_2
  | 51 => KEY_3
  | 52 => KEY_4
  | 53 => KEY_5
  | 54 => KEY_6
  | 55 => KEY_7
  | 56 => KEY_8
  | 57 => KEY_9
  | 32 => KEY_SPACE
  | 46 => KEY_DOT
  | 44 => KEY_COMMA
  | 58 => KEY_COLON
  | 59 => KEY_SEMICOLON
  | 47 => KEY_SLASH
  | 92 => KEY_BACKSLASH
  | 43 => KEY_PLUS
  | 45 => KEY_MINUS
  | 42 => KEY_ASTERISK
  | 33 => KEY_EXCLAMATION
  | 63 => KEY_QUESTION
  | 34 => KEY_QUOTEDOUBLE
  | 39 => KEY_QUOTE
  | 61 => KEY_EQUAL
  | 35 => KEY_HASH
  | 37 => KEY_PERCENT
  | 38 => KEY_AMPERSAND
  | 95 => KEY_UNDERSCORE
  | 40 => KEY_LEFTPARENTHESIS
  | 41 => KEY_RIGHTPARENTHESIS
  | 91 => KEY_LEFTBRACKET
  | 93 => KEY_RIGHTBRACKET
  | 123 => KEY_LEFTCURL
  | 125 => KEY_RIGHTCURL
  | 36 => KEY_DOLLAR
  | 60 => KEY_LESS
  | 62 => KEY_GREATER
  | 124 => KEY_BAR
  | 96 => KEY_GRAVE
  | 126 => KEY_TILDE
  | 64 => KEY_AT
  | 94 => KEY_CARRET
  | 10 => KEY_RETURN
  | 8 => KEY_BACKSPACE
  | 13 => KEY_CARRIAGE_RETURN
  | _ => KEY_UNKNOWN
  end.

(** The handler in use stays when NULL is given. *)
Definition keyboard_set_handler {H} (handler : option H) (current : H) : H := default current handler.
