(* ===== verification/Tty.v ===== *)
(** * Tty: kernel/tty.c

    The terminal: what is typed goes to the screen and into a ring of 100
    characters that readers take from.  Writing is [putk], here to the text
    console. *)
From S2P Require Import Prelude CString RingBuffer Console Pipe Keyboard.

Definition TTY_BUFFER_SIZE := 100.
Record tty := Tty { tty_buffer : ringbuffer; tty_console : console; tty_modifiers : Z }.
#[export] Instance eta_tty : Eta tty := fun t => Tty (tty_buffer t) (tty_console t) (tty_modifiers t).

(** The start of a clear sequence is swallowed with what follows it. *)
Definition is_escape (buffer : list Z) : bool :=
  match buffer with 27 :: 91 :: 93 :: _ => true | _ => false end.
Definition tty_write (buffer : list Z) (t : tty) : option (tty * Z) :=
  c ← (if is_escape buffer then Some (tty_console t) else console_output buffer (tty_console t));
  Some (t <| tty_console := c |>, s32 (zlen buffer)).

(** The [read_more] loop: what is there, up to [n] characters. *)
Fixpoint read_more (n : nat) (rb : ringbuffer) : ringbuffer * list Z :=
  match n with
  | O => (rb, [])
  | S n =>
      match ringbuffer_pop rb with
      | (rb', Some off) => let '(rb', l) := read_more n rb' in (rb', get 0 (rb_data rb) off :: l)
      | (rb', None) => (rb', [])
      end
  end.
(** Waiting yields to the other tasks and reads again: [Blocked]. *)
Definition tty_read (nbytes : Z) (t : tty) : io (tty * list Z) :=
  if nbytes =? 0 then Ret (t, []) else
  match read_more (Z.to_nat nbytes) (tty_buffer t) with
  | (_, []) => Blocked
  | (rb, l) => Ret (t <| tty_buffer := rb |>, l)
  end.
Definition tty_ioctl (request : Z) : Z := - ENOSYS.

Definition shift_keycode (event : keyboard_event) : option bool :=
  if xorb (has_modifier KEYBOARD_MODIFIER_SHIFT (ev_modifiers event))
          (has_modifier KEYBOARD_MODIFIER_CAPSLOCK (ev_modifiers event)) then
    let s := keycode_to_string (ev_keycode event) in
    n ← strlen s;
    Some ((n =? 1) && (97 <=? get 0 s 0) && (get 0 s 0 <=? 122))
  else Some false.

(** The string of an event. *)
Definition event_string (event : keyboard_event) : option (list Z) :=
  match ev_keycode event with
  | KEY_KP_8 => Some (cstring (str "[[^"))
  | k =>
      s ← strdup (keycode_to_string k) (keycode_to_string k);
      shift ← shift_keycode event;
      Some (if (shift : bool) then set s 0 (get 0 s 0 - 32) else s)
  end.
(** The characters of the string, one push each. *)
Fixpoint push_chars (s : list Z) (rb : ringbuffer) : option ringbuffer :=
  match s with
  | [] => None
  | c :: s => if c =? 0 then Some rb else push_chars s (ringbuffer_push rb [c]).1
  end.
Definition tty_keyboard_handler (event : keyboard_event) (t : tty) : option tty :=
  if negb (pressed event) then Some t else
  s ← event_string event;
  n ← strlen s;
  '(t, _) ← (if get 0 s 0 =? 8 then tty_write [8; 32; 8] t else tty_write (take (Z.to_nat n) s) t);
  rb ← push_chars s (tty_buffer t);
  Some (t <| tty_buffer := rb |>).

Definition tty_init (data : list Z) (t : tty) : tty :=
  t <| tty_buffer := ringbuffer_init (RingBuffer data 1 TTY_BUFFER_SIZE 0 0 0) true |>.

(** A scan code from the controller to the terminal. *)
Definition tty_scancode (payload : Z) (t : tty) : option tty :=
  '(mods, event) ← ps2_keyboard_handle_scancode payload (tty_modifiers t);
  let t := t <| tty_modifiers := mods |> in
  match event with None => Some t | Some event => tty_keyboard_handler event t end.
Fixpoint tty_scancodes (payloads : list Z) (t : tty) : option tty :=
  match payloads with
  | [] => Some t
  | p :: ps => t ← tty_scancode p t; tty_scancodes ps t
  end.

(** ** What is typed can be read *)
(** The characters that wait to be read. *)
Definition queue (rb : ringbuffer) : list Z := concat (contents rb).
(** The text of an event, and of the events of a sequence of scan codes. *)
Definition event_chars (e : keyboard_event) : list Z :=
  match ev_keycode e, key_chars (ev_keycode e) with
  | KEY_KP_8, _ => str "[[^"
  | _, [c] => if xorb (has_modifier KEYBOARD_MODIFIER_SHIFT (ev_modifiers e)) (has_modifier KEYBOARD_MODIFIER_CAPSLOCK (ev_modifiers e))
                 && (97 <=? c) && (c <=? 122) then [c - 32] else [c]
  | _, s => s
  end.
Definition event_text (e : option keyboard_event) : list Z :=
  match e with Some e => if pressed e then event_chars e else [] | None => [] end.
Fixpoint events_text (payloads : list Z) (mods : Z) : option (Z * list Z) :=
  match payloads with
  | [] => Some (mods, [])
  | p :: ps =>
      '(mods, e) ← ps2_keyboard_handle_scancode p mods;
      '(mods, text) ← events_text ps mods;
      Some (mods, event_text e ++ text)
  end.

Lemma event_string_chars e :
  event_string e = Some (cstring (event_chars e)) /\ nonul (event_chars e).
Proof.
  destruct e as [k p m]. unfold event_string, shift_keycode, event_chars. cbn [ev_keycode ev_modifiers].
  generalize (xorb (has_modifier KEYBOARD_MODIFIER_SHIFT m) (has_modifier KEYBOARD_MODIFIER_CAPSLOCK m)). intros b.
  destruct k, b; vm_compute; (split; [reflexivity|]); repeat constructor; discriminate.
Qed.

(** A ring of single characters. *)
Definition char_ring (rb : ringbuffer) : Prop :=
  rb_wf rb /\ rb_elem_size rb = 1 /\ rb_max_size rb = TTY_BUFFER_SIZE.
Lemma slot_one rb i : char_ring rb -> 0 <= i < rb_max_size rb ->
  slot_at rb (ringbuffer_at rb i) = [get 0 (rb_data rb) (ringbuffer_at rb i)].
Proof.
  intros (Hwf&He&_) Hi. destruct (slot_bounds rb i Hwf Hi) as (Ha&Hb1&Hb2). rewrite He in *.
  unfold slot_at. rewrite He. set (o := ringbuffer_at rb i) in *.
  assert (Hz : zlen (slice (rb_data rb) o 1) = 1) by (apply zlen_slice; lia).
  destruct (slice (rb_data rb) o 1) as [|x [|]] eqn:E; [done| |rewrite !zlen_cons in Hz; pose proof (zlen_nonneg l); lia].
  f_equal. rewrite <- (Z.add_0_r o), <- (get_slice 0 _ _ 1) by lia. by rewrite E.
Qed.
Lemma queue_length rb : char_ring rb -> zlen (queue rb) = rb_size rb.
Proof.
  intros Hr. pose proof Hr as (Hwf&He&_). rewrite <- (contents_zlen rb Hwf). unfold queue.
  assert (H : Forall (fun s => zlen s = 1) (contents rb)).
  { unfold contents. apply Forall_fmap, Forall_forall. intros k _. simpl. rewrite slot_one; [done|done|].
    apply Z.mod_pos_bound. apply Hwf. }
  induction H as [|s l Hs _ IH]; [done|]. simpl. rewrite zlen_app, zlen_cons, IH, Hs. lia.
Qed.
Lemma push_char rb c : char_ring rb -> zlen (queue rb) < TTY_BUFFER_SIZE ->
  char_ring (ringbuffer_push rb [c]).1 /\ queue (ringbuffer_push rb [c]).1 = queue rb ++ [c].
Proof.
  intros Hr Hq. rewrite queue_length in Hq by done. destruct Hr as (Hwf&He&Hm). split.
  - split; [apply push_wf; done || lia|done].
  - unfold queue. rewrite push_contents, concat_app by (done || lia). done.
Qed.
Lemma push_chars_spec s : nonul s -> forall rb, char_ring rb -> zlen (queue rb) + zlen s <= TTY_BUFFER_SIZE ->
  exists rb', push_chars (cstring s) rb = Some rb' /\ char_ring rb' /\ queue rb' = queue rb ++ s.
Proof.
  induction s as [|c s IH]; intros Hs rb Hr Hroom; unfold cstring; cbn [app push_chars].
  - exists rb. rewrite app_nil_r. by split.
  - apply nonul_cons in Hs as [Hc Hs]. fold (cstring s). rewrite (proj2 (Z.eqb_neq c 0) Hc). rewrite zlen_cons in Hroom.
    pose proof (zlen_nonneg s). destruct (push_char rb c Hr) as [Hr1 Hq1]; [lia|].
    destruct (IH Hs _ Hr1) as (rb'&->&Hr'&Hq'); [rewrite Hq1, zlen_app; change (zlen [c]) with 1; lia|].
    exists rb'. split; [done|]. split; [done|]. rewrite Hq', Hq1. by rewrite <- app_assoc.
Qed.
Lemma pop_char rb : char_ring rb ->
  match queue rb with
  | [] => ringbuffer_pop rb = (rb, None)
  | c :: q => exists rb' off, ringbuffer_pop rb = (rb', Some off) /\ get 0 (rb_data rb) off = c
                /\ char_ring rb' /\ queue rb' = q
  end.
Proof.
  intros Hr. pose proof (queue_length rb Hr) as Hl. pose proof Hr as (Hwf&He&Hm).
  destruct (decide (rb_size rb = 0)) as [H0|Hn].
  - unfold ringbuffer_pop, ringbuffer_empty. rewrite H0. simpl.
    destruct (queue rb); [done|]. rewrite zlen_cons, H0 in Hl. pose proof (zlen_nonneg l). lia.
  - assert (Hpos : 0 < rb_size rb) by (pose proof (zlen_nonneg (queue rb)); lia).
    destruct (pop_contents rb Hwf Hpos) as (off&Hoff&Hc). pose proof (pop_wf rb Hwf Hpos) as Hwf'.
    assert (Hs : slot_at rb off = [get 0 (rb_data rb) off]).
    { unfold ringbuffer_pop, ringbuffer_empty in Hoff. destruct (rb_size rb =? 0); [done|]. injection Hoff as <-.
      apply slot_one; [done|apply Hwf]. }
    unfold queue at 1. rewrite Hc, Hs. simpl.
    assert (Hch : char_ring (ringbuffer_pop rb).1).
    { split; [done|]. unfold ringbuffer_pop, ringbuffer_empty. by destruct (rb_size rb =? 0). }
    destruct (ringbuffer_pop rb) as [rb' o]. simpl in *. subst o. by exists rb', off.
Qed.
Lemma read_more_spec n : forall rb, char_ring rb ->
  exists rb', read_more n rb = (rb', take n (queue rb)) /\ char_ring rb' /\ queue rb' = drop n (queue rb).
Proof.
  induction n as [|n IH]; intros rb Hr; simpl; [by exists rb|].
  pose proof (pop_char rb Hr) as Hp. destruct (queue rb) as [|c q] eqn:Hq.
  - rewrite Hp. exists rb. by rewrite Hq.
  - destruct Hp as (rb1&off&->&->&Hr1&<-). destruct (IH rb1 Hr1) as (rb'&->&Hr'&Hq'). by exists rb'.
Qed.

Definition tty_ok (t : tty) : Prop := char_ring (tty_buffer t) /\ con_ok (tty_console t).
Lemma tty_write_total b t : con_ok (tty_console t) ->
  exists c, tty_write b t = Some (t <| tty_console := c |>, s32 (zlen b)) /\ con_ok c.
Proof.
  intros Hc. unfold tty_write. destruct (is_escape b).
  - by exists (tty_console t).
  - destruct (console_output_total b _ Hc) as (c&->&Hc'). by exists c.
Qed.
Lemma tty_keyboard_handler_spec e t :
  tty_ok t -> zlen (queue (tty_buffer t)) + zlen (event_text (Some e)) <= TTY_BUFFER_SIZE ->
  exists t', tty_keyboard_handler e t = Some t' /\ tty_ok t' /\ tty_modifiers t' = tty_modifiers t
    /\ queue (tty_buffer t') = queue (tty_buffer t) ++ event_text (Some e).
Proof.
  intros [Hr Hc] Hroom. unfold tty_keyboard_handler, event_text in *. destruct (pressed e); simpl negb; cbv iota.
  2:{ exists t. rewrite app_nil_r. done. }
  destruct (event_string_chars e) as [-> Hn]. cbn [mbind option_bind].
  assert (Hlen : strlen (cstring (event_chars e)) = Some (zlen (event_chars e))).
  { rewrite <- (app_nil_r (cstring _)). by apply strlen_cstring. }
  rewrite Hlen. cbn [mbind option_bind].
  assert (Hw : exists c, (if get 0 (cstring (event_chars e)) 0 =? 8 then tty_write [8; 32; 8] t
                          else tty_write (take (Z.to_nat (zlen (event_chars e))) (cstring (event_chars e))) t)
                         = Some (t <| tty_console := c |>, s32 (if get 0 (cstring (event_chars e)) 0 =? 8 then 3
                             else zlen (take (Z.to_nat (zlen (event_chars e))) (cstring (event_chars e))))) /\ con_ok c).
  { destruct (_ =? 8).
    - destruct (tty_write_total [8; 32; 8] t Hc) as (c&->&?). by exists c.
    - destruct (tty_write_total (take (Z.to_nat (zlen (event_chars e))) (cstring (event_chars e))) t Hc) as (c&->&?). by exists c. }
  destruct Hw as (c&->&Hc'). cbn [mbind option_bind].
  destruct (push_chars_spec (event_chars e) Hn (tty_buffer t) Hr Hroom) as (rb&Hp&Hr'&Hq).
  change (tty_buffer (t <| tty_console := c |>)) with (tty_buffer t). rewrite Hp. cbn [mbind option_bind].
  eexists. split; [reflexivity|]. done.
Qed.

Lemma tty_scancodes_spec ps : forall t mods text,
  tty_ok t -> events_text ps (tty_modifiers t) = Some (mods, text) ->
  zlen (queue (tty_buffer t)) + zlen text <= TTY_BUFFER_SIZE ->
  exists t', tty_scancodes ps t = Some t' /\ tty_ok t' /\ tty_modifiers t' = mods
    /\ queue (tty_buffer t') = queue (tty_buffer t) ++ text.
Proof.
  induction ps as [|p ps IH]; intros t mods text Ht Hty Hroom.
  { injection Hty as <- <-. exists t. rewrite app_nil_r. done. }
  cbn [events_text tty_scancodes] in *. unfold tty_scancode.
  destruct (ps2_keyboard_handle_scancode p (tty_modifiers t)) as [[m e]|]; [|done]. cbn [mbind option_bind] in *.
  destruct (events_text ps m) as [[m' text']|] eqn:Et; [|done]. injection Hty as -> <-. rewrite zlen_app in Hroom.
  pose proof (zlen_nonneg text'). pose (t1 := t <| tty_modifiers := m |>).
  assert (H1 : exists t2, (match e with None => Some t1 | Some e => tty_keyboard_handler e t1 end) = Some t2 /\ tty_ok t2
     /\ tty_modifiers t2 = m /\ queue (tty_buffer t2) = queue (tty_buffer t) ++ event_text e).
  { destruct e as [e|].
    - destruct (tty_keyboard_handler_spec e t1) as (t2&?&?&?&?); [done|change (tty_buffer t1) with (tty_buffer t); lia|]. by exists t2.
    - exists t1. simpl. by rewrite app_nil_r. }
  destruct H1 as (t2&H1&Hok&Hm&Hq). fold t1. rewrite H1. cbn [mbind option_bind].
  destruct (IH t2 mods text' Hok) as (t'&?&?&?&Hq'); [by rewrite Hm|rewrite Hq, zlen_app; lia|].
  exists t'. split_and!; [done..|]. rewrite Hq', Hq. by rewrite app_assoc.
Qed.

(** ** The keyboard as its user knows it *)
Module Us.
(** The keys held down, and caps lock. *)
Record held := Held { shift : bool; ctrl : bool; alt : bool; caps : bool }.

(** The four rows of character keys of a US keyboard: the scan code of the
    first key, what the keys give alone, what with shift (letters aside). *)
Definition rows : list (Z * list Z * list Z) :=
  [(2, str "1234567890-=", str "!@#$%^&*()_+");
   (16, str "qwertyuiop[]", str "qwertyuiop{}");
   (30, str "asdfghjkl;'`", str "asdfghjkl:" ++ [34] ++ str "~");
   (43, str "\zxcvbnm,./", str "|zxcvbnm<>?")].
(** The other keys; some are only named.  [None]: no key with this code. *)
Definition named (shifted : bool) (code : Z) : option (list Z) :=
  match code with
  | 0 => Some (str "Unknown") | 1 => Some [27] | 14 => Some [8] | 15 => Some [9] | 28 => Some [10]
  | 55 => Some (str "Numpad *") | 57 => Some (str " ")
  | 59 => Some (str "F1") | 60 => Some (str "F2") | 61 => Some (str "F3") | 62 => Some (str "F4")
  | 63 => Some (str "F5") | 64 => Some (str "F6") | 65 => Some (str "F7") | 66 => Some (str "F8")
  | 67 => Some (str "F9") | 68 => Some (str "F10") | 69 => Some (str "NumLock") | 70 => Some (str "ScrollLock")
  | 72 => Some (str "[[^")
  | _ =>
      option_map snd (List.find (fun x => x.1 =? code)
        (if shifted then
           [(71, str "Home"); (73, str "PageUp"); (74, str "Numpad2"); (75, str "Numpad3"); (76, str "Numpad0");
            (77, str "Numpad ."); (78, str "Unknown"); (79, str "Unknown"); (80, str "Unknown"); (81, str "F11");
            (82, str "F12")]
         else
           [(71, str "Numpad7"); (73, str "Numpad9"); (74, str "Numpad -"); (75, str "Numpad4"); (76, str "Numpad5");
            (77, str "Numpad6"); (78, str "Numpad +"); (79, str "Numpad1"); (80, str "Numpad2"); (81, str "Numpad3");
            (82, str "Numpad0"); (83, str "Numpad .")]))
  end.
Fixpoint in_rows (l : list (Z * list Z * list Z)) (shifted : bool) (code : Z) : option Z :=
  match l with
  | [] => None
  | (start, alone, with_shift) :: l =>
      if (start <=? code) && (code <? start + zlen alone)
      then (if shifted then with_shift else alone) !! Z.to_nat (code - start)
      else in_rows l shifted code
  end.
(** What a key press types: a letter is a capital when just one of shift and
    caps lock is on, another key gives its upper character with shift. *)
Definition key_text (code : Z) (h : held) : option (list Z) :=
  match in_rows rows (shift h) code with
  | Some c => Some [if (97 <=? c) && (c <=? 122) && xorb (shift h) (caps h) then c - 32 else c]
  | None => named (shift h) code
  end.
(** A scan code: 128 more is the key's release. *)
Definition press (p : Z) (h : held) : option (held * list Z) :=
  let down := p <? 128 in
  let code := p mod 128 in
  match code with
  | 42 | 54 => Some (Held down (ctrl h) (alt h) (caps h), [])
  | 29 => Some (Held (shift h) down (alt h) (caps h), [])
  | 56 => Some (Held (shift h) (ctrl h) down (caps h), [])
  | 58 => Some (Held (shift h) (ctrl h) (alt h) (if down then negb (caps h) else caps h), [])
  | _ => text ← key_text code h; Some (h, if down then text else [])
  end.
(** The text of a sequence of scan codes, and the keys held after it. *)
Fixpoint typed (ps : list Z) (h : held) : option (held * list Z) :=
  match ps with
  | [] => Some (h, [])
  | p :: ps => '(h, t) ← press p h; '(h, ts) ← typed ps h; Some (h, t ++ ts)
  end.
(** The driver's modifier byte for it. *)
Definition modifiers (h : held) : Z := b2z (ctrl h) + 2 * b2z (alt h) + 4 * b2z (shift h) + 8 * b2z (caps h).
End Us.

(** The driver and its tables against it, on every byte and every state. *)
Definition agrees (p : Z) (h : Us.held) : bool :=
  match Us.press p h, ps2_keyboard_handle_scancode p (Us.modifiers h) with
  | Some (h', text), Some (m, e) => (m =? Us.modifiers h') && bool_decide (event_text e = text)
  | None, None => true
  | _, _ => false
  end.
Definition all_held : list Us.held :=
  a ← [false; true]; b ← [false; true]; c ← [false; true]; d ← [false; true]; [Us.Held a b c d].
Lemma agrees_all : forallb (fun p => forallb (agrees p) all_held) (seqZ 0 256) = true.
Proof. vm_compute. reflexivity. Qed.

Lemma agrees_always p h : 0 <= p < 256 -> agrees p h = true.
Proof.
  intros Hp. pose proof (proj1 (forallb_forall _ _) agrees_all p) as H.
  assert (Hin : In p (seqZ 0 256)) by (apply list_elem_of_In, elem_of_seqZ; lia).
  specialize (H Hin). apply (proj1 (forallb_forall _ _) H).
  destruct h as [[] [] [] []]; simpl; tauto.
Qed.

Lemma typed_events ps : forall h h' text,
  Forall (fun p => 0 <= p < 256) ps -> Us.typed ps h = Some (h', text) ->
  events_text ps (Us.modifiers h) = Some (Us.modifiers h', text).
Proof.
  induction ps as [|p ps IH]; intros h h' text Hb Ht; simpl in *; [by injection Ht as <- <-|].
  inversion Hb as [|? ? Hp Hb']; subst. pose proof (agrees_always p h Hp) as Ha. unfold agrees in Ha.
  destruct (Us.press p h) as [[h1 t1]|]; [|done]. cbn [mbind option_bind] in Ht.
  destruct (ps2_keyboard_handle_scancode p (Us.modifiers h)) as [[m e]|]; [|done].
  apply andb_true_iff in Ha as [->%Z.eqb_eq He%bool_decide_eq_true]. cbn [mbind option_bind].
  destruct (Us.typed ps h1) as [[h2 t2]|] eqn:E2; [|done]. cbn [mbind option_bind] in Ht. injection Ht as <- <-.
  by rewrite (IH h1 h2 t2 Hb' E2), He.
Qed.


(** Shift down, [h], shift up, caps lock, [i], [1], return; each key released. *)
Definition tty_example : tty := tty_init (replicate 100 0) (Tty (RingBuffer [] 0 0 0 0 0) con_example 0).
Definition tty_example_keys : list Z :=
  [0x2A; 0x23; 0xA3; 0xAA; 0x3A; 0xBA; 0x17; 0x97; 0x02; 0x82; 0x1C; 0x9C].
