(* ===== verification/Gdt.v ===== *)
(** * Gdt: arch/x86/gdt.c, arch/x86/tss.c and the headers x86/gdt.h, x86/asm/gdt.h

    Segment descriptors and their table.  Loading the table and the segment
    registers is assembly and not part of the model. *)
From S2P Require Import Prelude Words.

Definition GDT_SIZE := 10.
Definition GDT_ACCESS_ACCESSED := 1.
Definition GDT_ACCESS_TYPE_R := 0x002.
Definition GDT_ACCESS_TYPE_W := 0x002.
Definition GDT_ACCESS_DC := 0x004.
Definition GDT_ACCESS_TYPE_X := 0x008.
Definition GDT_ACCESS_S := 0x010.
Definition GDT_ACCESS_DPL (v : Z) : Z := Z.shiftl (Z.land v 0x3) 5.
Definition GDT_ACCESS_PRESENT := 0x080.
Definition GDT_FLAGS_LONG := 0x02.
Definition GDT_FLAGS_32 := 0x04.
Definition GDT_FLAGS_G := 0x08.
Definition GDT_DESC_BASE_LOW_MASK := 0xFFFF0000.
Definition GDT_DESC_BASE_LOW (v : Z) : Z := u32 (Z.shiftl (Z.land v 0x0000FFFF) 16).
Definition GDT_DESC_LIMIT_LOW (v : Z) : Z := Z.land v 0x0000FFFF.
Definition GDT_DESC_LIMIT_HIGH_MASK := 0x000F0000.
Definition GDT_DESC_LIMIT_HIGH (v : Z) : Z := Z.land v GDT_DESC_LIMIT_HIGH_MASK.
Definition GDT_DESC_BASE_MIDHIGH_MASK := 0xFF0000FF.
Definition GDT_DESC_BASE_MIDHIGH (v : Z) : Z :=
  Z.lor (Z.land v 0xFF000000) (Z.shiftr (Z.land v 0x00FF0000) 16).
Definition GDT_DESC_ACCESS (v : Z) : Z := Z.shiftl (Z.land v 0xFF) 8.
Definition GDT_DESC_FLAGS (v : Z) : Z := Z.shiftl (Z.land v 0xF) 20.
Definition GDT_LIMIT := 0xFFFFF.

(** Selectors: the index into the table, the table, the privilege asked for. *)
Definition GDT_SEL (idx tb rpl : Z) : Z :=
  Z.lor (Z.lor (Z.land rpl 3) (Z.shiftl (Z.land tb 1) 2)) (Z.shiftl (Z.land idx 0x1FF) 3).
Definition GDT_KERNEL_CODE_SEL := 0x8.
Definition GDT_KERNEL_DATA_SEL := 0x10.
Definition GDT_USER_CODE_SEL := 0x1B.
Definition GDT_USER_DATA_SEL := 0x23.
Definition GDT_TSS_SEL := 0x28.
Definition GDT_GSBASE_SEL (rpl : Z) : Z := GDT_SEL 6 0 rpl.
Definition GDT_FSBASE_SEL (rpl : Z) : Z := GDT_SEL 7 0 rpl.
Definition GDT_SEL_IDX (sel : Z) : Z := Z.land (Z.shiftr sel 3) 0x1FF.

Record gdt_entry := GdtEntry { g_base : Z; g_limit : Z; g_flags : Z; g_access : Z }.

Definition when (b : bool) (v : Z) : Z := if b then v else 0.
Definition make_gdt_access (dpl : Z) (type dc rw exec : bool) : Z :=
  Z.lor (Z.lor (Z.lor (Z.lor (Z.lor (Z.lor 0x0 GDT_ACCESS_PRESENT) (GDT_ACCESS_DPL (u8 dpl)))
    (when type GDT_ACCESS_S)) (when dc GDT_ACCESS_DC))
    (when rw (Z.lor GDT_ACCESS_TYPE_R GDT_ACCESS_TYPE_W))) (when exec GDT_ACCESS_TYPE_X).
Definition make_gdt_flags (long_mode bit32 g : bool) : Z :=
  Z.lor (Z.lor (Z.lor 0x0 (when long_mode GDT_FLAGS_LONG)) (when bit32 GDT_FLAGS_32)) (when g GDT_FLAGS_G).
Definition make_gdt_flags16 (g : bool) : Z := make_gdt_flags false false g.
Definition make_gdt_flags32 (g : bool) : Z := make_gdt_flags false true g.
Definition make_gdt_flags64 (g : bool) : Z := make_gdt_flags true false g.
Definition make_gdt_entry_code (base limit dpl : Z) (conform g : bool) : gdt_entry :=
  GdtEntry base limit (make_gdt_flags32 g) (make_gdt_access dpl true conform true true).
Definition make_gdt_entry_data (base limit dpl : Z) (down g : bool) : gdt_entry :=
  GdtEntry base limit (make_gdt_flags32 g) (make_gdt_access dpl true down true false).
Definition TSS_SIZE := 104.
Definition make_gdt_entry_tss (addr dpl : Z) : gdt_entry :=
  GdtEntry addr TSS_SIZE 0x0
    (Z.lor (Z.lor (Z.lor GDT_ACCESS_PRESENT (GDT_ACCESS_DPL dpl)) GDT_ACCESS_TYPE_X) GDT_ACCESS_ACCESSED).

Definition make_gdt_desc (base limit flags access : Z) : Z :=
  let b1 := Z.lor (GDT_DESC_BASE_LOW base) (GDT_DESC_LIMIT_LOW limit) in
  let b2 := Z.lor (Z.lor (Z.lor (GDT_DESC_BASE_MIDHIGH base) (GDT_DESC_LIMIT_HIGH limit)) (GDT_DESC_ACCESS access))
              (GDT_DESC_FLAGS flags) in
  Z.lor (Z.shiftl b2 32) b1.

(** The index is unsigned. *)
Definition set_desc (entries : list Z) (idx d : Z) : list Z :=
  if GDT_SIZE <=? idx then entries else set entries idx d.
Definition x86_gdt_set_entry (entries : list Z) (idx : Z) (e : gdt_entry) : list Z :=
  set_desc entries idx (make_gdt_desc (g_base e) (g_limit e) (g_flags e) (g_access e)).
(** Both halves are taken from the low word of the old descriptor: [b2] is a
    [uint32_t] computed from the whole of it. *)
Definition with_base (e base : Z) : Z :=
  let b1 := Z.lor (u32 (Z.land e (u32 (Z.lnot GDT_DESC_BASE_LOW_MASK)))) (GDT_DESC_BASE_LOW base) in
  let b2 := Z.lor (u32 (Z.land e (u32 (Z.lnot GDT_DESC_BASE_MIDHIGH_MASK)))) (GDT_DESC_BASE_MIDHIGH base) in
  Z.lor (Z.shiftl b2 32) b1.
Definition x86_gdt_set_base (entries : list Z) (idx base : Z) : list Z :=
  set_desc entries idx (with_base (get 0 entries idx) base).

(** [x86_gdt_init], before the table is loaded; [kernel_tss] is an address. *)
Definition x86_gdt_init (kernel_tss : Z) : list Z :=
  let t := replicate 10 0 in
  let t := x86_gdt_set_entry t 0x0 (GdtEntry 0x0 0x0 0x0 0x0) in
  let t := x86_gdt_set_entry t 1 (make_gdt_entry_code 0 GDT_LIMIT 0 false true) in
  let t := x86_gdt_set_entry t 2 (make_gdt_entry_data 0 GDT_LIMIT 0 false true) in
  let t := x86_gdt_set_entry t 3 (make_gdt_entry_code 0 GDT_LIMIT 0x3 false true) in
  let t := x86_gdt_set_entry t 4 (make_gdt_entry_data 0 GDT_LIMIT 0x3 false true) in
  let t := x86_gdt_set_entry t 5 (make_gdt_entry_tss kernel_tss 0x0) in
  let t := x86_gdt_set_entry t 6 (make_gdt_entry_data 0x0 0xFFFFF 0x3 false true) in
  x86_gdt_set_entry t 7 (make_gdt_entry_data 0x0 0xFFFFF 0x3 false true).
Definition make_gdtr (base limit : Z) : Z := Z.lor (u16 limit) (u64 (Z.shiftl base 16)).

(** The task state segment: the members that are set. *)
Record tss := Tss { ss0 : Z; esp0 : Z }.
Definition tss_init : tss := Tss 0 0.
Definition tss_set_stack (stack : Z) (t : tss) : tss := Tss GDT_KERNEL_DATA_SEL stack.

(** ** Reading a descriptor as the processor does *)
Definition desc_base (d : Z) : Z :=
  Z.lor (Z.lor (Z.land (Z.shiftr d 16) 0xFFFF) (Z.shiftl (Z.land (Z.shiftr d 32) 0xFF) 16))
        (Z.shiftl (Z.land (Z.shiftr d 56) 0xFF) 24).
Definition desc_limit (d : Z) : Z := Z.lor (Z.land d 0xFFFF) (Z.shiftl (Z.land (Z.shiftr d 48) 0xF) 16).
Definition desc_access (d : Z) : Z := Z.land (Z.shiftr d 40) 0xFF.
Definition desc_flags (d : Z) : Z := Z.land (Z.shiftr d 52) 0xF.

Ltac desc_bits :=
  unfold desc_base, desc_limit, desc_access, desc_flags, make_gdt_desc, GDT_DESC_BASE_LOW, GDT_DESC_LIMIT_LOW,
    GDT_DESC_BASE_MIDHIGH, GDT_DESC_LIMIT_HIGH, GDT_DESC_LIMIT_HIGH_MASK, GDT_DESC_ACCESS, GDT_DESC_FLAGS;
  same_bits.

Lemma desc_base_make base limit flags access :
  0 <= base < 2 ^ 32 -> desc_base (make_gdt_desc base limit flags access) = base.
Proof. intros Hb. desc_bits. Qed.
Lemma desc_limit_make base limit flags access :
  0 <= limit < 2 ^ 20 -> desc_limit (make_gdt_desc base limit flags access) = limit.
Proof. intros Hb. desc_bits. Qed.
Lemma desc_access_make base limit flags access :
  0 <= access < 2 ^ 8 -> desc_access (make_gdt_desc base limit flags access) = access.
Proof. intros Hb. desc_bits. Qed.
Lemma desc_flags_make base limit flags access :
  0 <= flags < 2 ^ 4 -> desc_flags (make_gdt_desc base limit flags access) = flags.
Proof. intros Hb. desc_bits. Qed.

(** After [x86_gdt_set_base] the base is right, and access, flags and the high
    part of the limit are bits of the old descriptor's low word. *)
Lemma with_base_fields e base : 0 <= base < 2 ^ 32 ->
  desc_base (with_base e base) = base
  /\ desc_access (with_base e base) = Z.land (Z.shiftr e 8) 0xFF
  /\ desc_flags (with_base e base) = Z.land (Z.shiftr e 20) 0xF
  /\ desc_limit (with_base e base) = Z.lor (Z.land e 0xFFFF) (Z.shiftl (Z.land (Z.shiftr e 16) 0xF) 16).
Proof.
  intros Hb. unfold with_base. change (u32 (Z.lnot GDT_DESC_BASE_LOW_MASK)) with (bits 0 16).
  change (u32 (Z.lnot GDT_DESC_BASE_MIDHIGH_MASK)) with (bits 8 16). split_and!; desc_bits.
Qed.

(** A segment as the processor sees it: all of the address space, 32-bit, for
    privilege [dpl], executable or writable data. *)
Definition flat_segment (d dpl : Z) (exec : bool) : Prop :=
  desc_base d = 0 /\ desc_flags d = Z.lor GDT_FLAGS_G GDT_FLAGS_32 /\ (desc_limit d + 1) * 4096 = 2 ^ 32
  /\ desc_access d = Z.lor (Z.lor GDT_ACCESS_PRESENT GDT_ACCESS_S)
       (Z.lor (GDT_ACCESS_DPL dpl) (Z.lor GDT_ACCESS_TYPE_R (if exec then GDT_ACCESS_TYPE_X else 0))).

