(* ===== verification/UserMem.v ===== *)
(** * UserMem: memory as a task sees it

    A C access through a user pointer goes through the page tables of the
    active directory.  [UserMem] is what the code relies on: the bytes of a
    private range are there and independent of each other; [paging_mem]
    shows it of the page tables and frames of Paging. *)
From S2P Require Import Prelude Bitmap Pmm Paging.

(** [mprivate m lo hi]: the addresses from [lo] to [hi] are mapped, each to a
    byte of its own. *)
Class UserMem (M : Type) := {
  mload : M -> Z -> option Z;
  mstore : M -> Z -> Z -> option M;
  mprivate : M -> Z -> Z -> Prop;
  mload_private : forall m lo hi a, mprivate m lo hi -> lo <= a < hi -> is_Some (mload m a);
  mstore_private : forall m lo hi a b, mprivate m lo hi -> lo <= a < hi ->
    exists m', mstore m a b = Some m' /\ mprivate m' lo hi /\ mload m' a = Some (u8 b)
      /\ forall a', lo <= a' < hi -> a' <> a -> mload m' a' = mload m a'
}.

(** Little-endian words, and arrays of them: what a C struct of words is. *)
Definition byte_of (w k : Z) : Z := u8 (Z.shiftr w (8 * k)).
Definition of_bytes (b0 b1 b2 b3 : Z) : Z := b0 + 0x100 * b1 + 0x10000 * b2 + 0x1000000 * b3.

Section memory.
  Context {M : Type} `{UserMem M}.

Definition load_word (m : M) (a : Z) : option Z :=
  b0 ← mload m a; b1 ← mload m (u32 (a + 1)); b2 ← mload m (u32 (a + 2)); b3 ← mload m (u32 (a + 3));
  Some (of_bytes b0 b1 b2 b3).
Definition store_word (m : M) (a w : Z) : option M :=
  m ← mstore m a (byte_of w 0); m ← mstore m (u32 (a + 1)) (byte_of w 1);
  m ← mstore m (u32 (a + 2)) (byte_of w 2); mstore m (u32 (a + 3)) (byte_of w 3).
Fixpoint store_words (m : M) (a : Z) (ws : list Z) : option M :=
  match ws with
  | [] => Some m
  | w :: ws => m ← store_word m a w; store_words m (u32 (a + 4)) ws
  end.
Fixpoint store_bytes (m : M) (a : Z) (bs : list Z) : option M :=
  match bs with
  | [] => Some m
  | b :: bs => m ← mstore m a b; store_bytes m (u32 (a + 1)) bs
  end.
Fixpoint load_words (n : nat) (m : M) (a : Z) : option (list Z) :=
  match n with
  | O => Some []
  | S n => w ← load_word m a; ws ← load_words n m (u32 (a + 4)); Some (w :: ws)
  end.

Lemma of_bytes_of w : 0 <= w < 2 ^ 32 -> of_bytes (byte_of w 0) (byte_of w 1) (byte_of w 2) (byte_of w 3) = w.
Proof.
  intros Hw. unfold of_bytes, byte_of, u8. rewrite !Z.shiftr_div_pow2 by lia.
  replace (2 ^ (8 * 3)) with 0x1000000 by done. replace (2 ^ (8 * 2)) with 0x10000 by done.
  replace (2 ^ (8 * 1)) with 0x100 by done. replace (2 ^ (8 * 0)) with 1 by done.
  Z.to_euclidean_division_equations. lia.
Qed.

Lemma u8_byte w k : u8 (byte_of w k) = byte_of w k.
Proof. apply u8_id, u8_range. Qed.

(** One step of a store: what it makes of loads elsewhere. *)
Lemma load_word_ext m m' a :
  mload m' a = mload m a -> mload m' (u32 (a + 1)) = mload m (u32 (a + 1)) ->
  mload m' (u32 (a + 2)) = mload m (u32 (a + 2)) -> mload m' (u32 (a + 3)) = mload m (u32 (a + 3)) ->
  load_word m' a = load_word m a.
Proof. unfold load_word. by intros -> -> -> ->. Qed.

Lemma store_word_spec m lo hi a w :
  mprivate m lo hi -> 0 <= lo -> hi <= 2 ^ 32 -> lo <= a -> a + 4 <= hi -> 0 <= w < 2 ^ 32 ->
  exists m', store_word m a w = Some m' /\ mprivate m' lo hi /\ load_word m' a = Some w
    /\ forall a', lo <= a' < hi -> ~ (a <= a' < a + 4) -> mload m' a' = mload m a'.
Proof.
  intros Hp Hlo Hhi Ha Hah Hw. unfold store_word.
  destruct (mstore_private m lo hi a (byte_of w 0) Hp) as (m0&->&Hp0&Hl0&Hf0); [lia|]. cbn [mbind option_bind].
  rewrite (u32_id (a + 1)), (u32_id (a + 2)), (u32_id (a + 3)) by lia.
  destruct (mstore_private m0 lo hi (a + 1) (byte_of w 1) Hp0) as (m1&->&Hp1&Hl1&Hf1); [lia|]. cbn [mbind option_bind].
  destruct (mstore_private m1 lo hi (a + 2) (byte_of w 2) Hp1) as (m2&->&Hp2&Hl2&Hf2); [lia|]. cbn [mbind option_bind].
  destruct (mstore_private m2 lo hi (a + 3) (byte_of w 3) Hp2) as (m3&->&Hp3&Hl3&Hf3); [lia|].
  exists m3. split; [done|]. split; [done|]. split.
  - unfold load_word. rewrite (u32_id (a + 1)), (u32_id (a + 2)), (u32_id (a + 3)) by lia.
    rewrite (Hf3 a), (Hf2 a), (Hf1 a), Hl0 by lia. cbn [mbind option_bind].
    rewrite (Hf3 (a + 1)), (Hf2 (a + 1)), Hl1 by lia. cbn [mbind option_bind].
    rewrite (Hf3 (a + 2)), Hl2 by lia. cbn [mbind option_bind]. rewrite Hl3. cbn [mbind option_bind].
    by rewrite !u8_byte, of_bytes_of.
  - intros a' Ha' Hd. rewrite Hf3, Hf2, Hf1, Hf0 by lia. done.
Qed.

Lemma load_word_frame m m' lo hi a n b :
  0 <= lo -> hi <= 2 ^ 32 -> lo <= b -> b + 4 <= hi -> b + 4 <= a \/ a + n <= b ->
  (forall a', lo <= a' < hi -> ~ (a <= a' < a + n) -> mload m' a' = mload m a') ->
  load_word m' b = load_word m b.
Proof. intros ????? Hf. apply load_word_ext; rewrite ?u32_id by lia; apply Hf; lia. Qed.

Lemma store_words_spec m lo hi a ws :
  mprivate m lo hi -> 0 <= lo -> hi <= 2 ^ 32 -> lo <= a -> a + 4 * zlen ws <= hi ->
  Forall (fun w => 0 <= w < 2 ^ 32) ws ->
  exists m', store_words m a ws = Some m' /\ mprivate m' lo hi /\ load_words (length ws) m' a = Some ws
    /\ forall a', lo <= a' < hi -> ~ (a <= a' < a + 4 * zlen ws) -> mload m' a' = mload m a'.
Proof.
  intros Hp Hlo Hhi. revert m a Hp. induction ws as [|w ws IH]; intros m a Hp Ha Hah Hw.
  { exists m. split_and!; try done. }
  apply Forall_cons in Hw as [Hw Hws]. rewrite zlen_cons in Hah. pose proof (zlen_nonneg ws). simpl.
  destruct (store_word_spec m lo hi a w Hp Hlo Hhi Ha ltac:(lia) Hw) as (m1&->&Hp1&Hl1&Hf1). cbn [mbind option_bind].
  destruct (decide (ws = [])) as [->|Hne].
  { exists m1. split_and!; [done..| |].
    - simpl. by rewrite Hl1.
    - intros a' Ha' Hd. apply Hf1; [done|]. rewrite zlen_cons, zlen_nil in Hd. lia. }
  assert (1 <= zlen ws) by (destruct ws; [done|rewrite zlen_cons; pose proof (zlen_nonneg ws); lia]).
  rewrite u32_id by lia.
  destruct (IH m1 (a + 4) Hp1 ltac:(lia) ltac:(lia) Hws) as (m2&->&Hp2&Hl2&Hf2).
  exists m2. split; [done|]. split; [done|]. split.
  - rewrite (load_word_frame m1 m2 lo hi (a + 4) (4 * zlen ws) a) by (done || lia).
    rewrite Hl1. cbn [mbind option_bind]. by rewrite Hl2.
  - intros a' Ha' Hd. rewrite zlen_cons in Hd. rewrite Hf2, Hf1 by lia. done.
Qed.
End memory.

(** ** The bytes behind the page tables *)
Record space := Space { sp_pgd : Z; sp_pages : pstate }.

(** The frame of a mapped page. *)
Definition page_frame (m : space) (a : Z) : option Z :=
  '(t, i) ← get_page (sp_pages m) (sp_pgd m) a;
  let w := word (sp_pages m) t i in
  if w =? 0 then None else Some (PTE_EXTRACT_ADDR w).
Definition space_load (m : space) (a : Z) : option Z :=
  f ← page_frame m a; bytes ← ps_frames (sp_pages m) !! f; bytes !! Z.to_nat (PG_OFFSET a).
Definition space_store (m : space) (a b : Z) : option space :=
  f ← page_frame m a;
  bytes ← ps_frames (sp_pages m) !! f;
  if PG_OFFSET a <? zlen bytes
  then Some (Space (sp_pgd m) (with_frames (<[f := set bytes (PG_OFFSET a) (u8 b)]> (ps_frames (sp_pages m))) (sp_pages m)))
  else None.

(** Every page of the range has a frame of 4096 bytes that no other has. *)
Definition space_private (m : space) (lo hi : Z) : Prop :=
  (forall a, lo <= a < hi -> exists f bytes,
     page_frame m a = Some f /\ ps_frames (sp_pages m) !! f = Some bytes /\ zlen bytes = 4096)
  /\ (forall a b, lo <= a < hi -> lo <= b < hi -> page_frame m a = page_frame m b -> a / 4096 = b / 4096).

Lemma PG_OFFSET_range a : 0 <= PG_OFFSET a < 4096.
Proof. apply Z.mod_pos_bound. done. Qed.

Lemma lookup_set {A} (d : A) (l : list A) i v j :
  0 <= i < zlen l -> 0 <= j -> set l i v !! Z.to_nat j = if j =? i then Some v else l !! Z.to_nat j.
Proof.
  intros Hi Hj. unfold set, zlen in *. destruct (Z.ltb_spec i 0); [lia|]. destruct (Z.eqb_spec j i) as [->|Hne].
  - apply list_lookup_insert_eq. lia.
  - apply list_lookup_insert_ne. lia.
Qed.

#[refine] Instance paging_mem : UserMem space :=
  { mload := space_load; mstore := space_store; mprivate := space_private }.
Proof.
  - intros m lo hi a [Hm _] Ha. destruct (Hm a Ha) as (f&bytes&Hf&Hb&Hl). unfold space_load.
    rewrite Hf. cbn [mbind option_bind]. rewrite Hb. cbn [mbind option_bind].
    apply lookup_lt_is_Some_2. pose proof (PG_OFFSET_range a). unfold zlen in *. lia.
  - intros m lo hi a b [Hm Hu] Ha. destruct (Hm a Ha) as (f&bytes&Hf&Hb&Hl). unfold space_store.
    rewrite Hf. cbn [mbind option_bind]. rewrite Hb. cbn [mbind option_bind].
    pose proof (PG_OFFSET_range a) as Ho. destruct (Z.ltb_spec (PG_OFFSET a) (zlen bytes)); [|lia].
    eexists. split; [done|]. set (m' := Space _ _).
    assert (Hpf : forall x, page_frame m' x = page_frame m x) by done.
    split; [|split].
    + split; [|intros x y Hx Hy; rewrite !Hpf; by apply Hu].
      intros x Hx. destruct (Hm x Hx) as (fx&bx&Hfx&Hbx&Hlx). rewrite Hpf. exists fx. simpl.
      destruct (decide (f = fx)) as [<-|Hne].
      * eexists. rewrite lookup_insert_eq. split_and!; [done..|]. by rewrite zlen_set.
      * exists bx. by rewrite lookup_insert_ne.
    + unfold space_load. rewrite Hpf, Hf. simpl. rewrite lookup_insert_eq. cbn [mbind option_bind].
      rewrite (lookup_set 0) by lia. by rewrite Z.eqb_refl.
    + intros x Hx Hne. unfold space_load. rewrite Hpf. destruct (Hm x Hx) as (fx&bx&Hfx&Hbx&Hlx).
      rewrite Hfx. cbn [mbind option_bind]. simpl. destruct (decide (f = fx)) as [<-|Hnf].
      * rewrite lookup_insert_eq, Hb. cbn [mbind option_bind].
        rewrite (lookup_set 0) by (pose proof (PG_OFFSET_range x); lia).
        assert (Hq : x / 4096 = a / 4096) by (apply Hu; [done..|by rewrite Hfx, Hf]).
        destruct (Z.eqb_spec (PG_OFFSET x) (PG_OFFSET a)) as [He|]; [|done].
        unfold PG_OFFSET, PAGE_SIZE in He. pose proof (Z.div_mod x 4096). pose proof (Z.div_mod a 4096). lia.
      * by rewrite lookup_insert_ne.
Defined.

Lemma load_words_ext {M} `{UserMem M} (m m' : M) lo hi n b :
  0 <= lo -> hi <= 2 ^ 32 -> lo <= b -> b + 4 * Z.of_nat n <= hi ->
  (forall a, b <= a < b + 4 * Z.of_nat n -> mload m' a = mload m a) ->
  load_words n m' b = load_words n m b.
Proof.
  intros Hlo Hhi. revert b. induction n as [|n IH]; intros b Hb Hn Hf; [done|]. simpl.
  rewrite (load_word_ext m m' b); [|rewrite ?u32_id by lia; apply Hf; lia..].
  destruct (decide (n = 0%nat)) as [->|]; [done|].
  rewrite u32_id by lia. rewrite (IH (b + 4)); [done|lia..|]. intros a Ha. apply Hf. lia.
Qed.

Lemma load_words_app {M} `{UserMem M} (m : M) n k a :
  0 <= a -> a + 4 * Z.of_nat n < 2 ^ 32 ->
  load_words (n + k) m a
  = (l ← load_words n m a; l' ← load_words k m (a + 4 * Z.of_nat n); Some (l ++ l')).
Proof.
  revert a. induction n as [|n IH]; intros a Ha Hn.
  - simpl. rewrite Z.add_0_r. by destruct (load_words k m a).
  - simpl. destruct (load_word m a); [|done]. simpl. rewrite u32_id, IH by lia.
    replace (a + 4 + 4 * Z.of_nat n) with (a + 4 * Z.of_nat (S n)) by lia.
    destruct (load_words n m (a + 4)); [|done]. simpl. by destruct (load_words k m _).
Qed.

(** Stores change frames only. *)
Lemma store_words_same m a ws m' :
  store_words m a ws = Some m' -> sp_pgd m' = sp_pgd m /\ ps_tables (sp_pages m') = ps_tables (sp_pages m).
Proof.
  assert (Hs : forall m a b m', space_store m a b = Some m' ->
            sp_pgd m' = sp_pgd m /\ ps_tables (sp_pages m') = ps_tables (sp_pages m)).
  { clear. intros m a b m' H. unfold space_store in H.
    destruct (page_frame m a); [|done]. simpl in H. destruct (ps_frames _ !! _); [|done]. simpl in H.
    destruct (_ <? _); [|done]. by injection H as <-. }
  revert m a. induction ws as [|w ws IH]; intros m a H; [by injection H as <-|]. simpl in H.
  unfold store_word in H. simpl in H.
  destruct (space_store m a _) eqn:E0; [|done]. simpl in H.
  destruct (space_store s _ _) eqn:E1; [|done]. simpl in H.
  destruct (space_store s0 _ _) eqn:E2; [|done]. simpl in H.
  destruct (space_store s1 _ _) eqn:E3; [|done]. simpl in H.
  apply Hs in E0 as [? ?], E1 as [? ?], E2 as [? ?], E3 as [? ?]. apply IH in H as [? ?]. split; congruence.
Qed.

Lemma load_words_length {M} `{UserMem M} (m : M) n a l : load_words n m a = Some l -> length l = n.
Proof.
  revert a l. induction n as [|n IH]; intros a l Hl; [by injection Hl as <-|]. simpl in Hl.
  destruct (load_word m a); [|done]. simpl in Hl. destruct (load_words n m _) eqn:E; [|done].
  injection Hl as <-. simpl. f_equal. by eapply IH.
Qed.
