(* ===== verification/UserSpace.v ===== *)
(** * UserSpace: the memory of a task, page tables and frames together

    The invariant of an address space that the kernel fills: well-formed
    tables, a frame allocator whose used frames include every frame that is
    mapped, no frame mapped twice, and content behind every frame.  Mapping a
    page keeps it and never shows the memory of another page; a store through
    a mapped address changes that byte and no other. *)
From S2P Require Import Prelude Bitmap Pmm Paging UserMem.

(** Below the kernel: the addresses of the task itself. *)
Definition user_addr (a : Z) : Prop := 0 <= a < VIRT_BASE.

Record task_space (s : pstate) (d : Z) : Prop := TaskSpace {
  us_pgd : pgd_ok s d;
  us_fresh : fresh_ok s;
  us_pmm : pmm_wf (ps_pmm s);
  us_memory : forall k, 0 <= k < bm_size (ps_pmm s) ->
    exists bytes, ps_frames s !! (4096 * k) = Some bytes /\ zlen bytes = 4096;
  us_used : forall a, user_addr a -> entry s d a <> 0 ->
    exists k, PTE_EXTRACT_ADDR (entry s d a) = 4096 * k /\ frame_used (ps_pmm s) k;
  us_inj : forall a b, user_addr a -> user_addr b -> entry s d a <> 0 -> entry s d b <> 0 ->
    PTE_EXTRACT_ADDR (entry s d a) = PTE_EXTRACT_ADDR (entry s d b) -> a / 4096 = b / 4096
}.

(** At least [n] frames are free. *)
Definition frames_left (pmm : bitmap) (n : Z) : Prop :=
  exists l, NoDup l /\ (forall k, k ∈ l -> frame_free pmm k) /\ n <= zlen l.

(** ** Entries *)
Lemma page_frame_entry s d a :
  0 <= a < 2 ^ 32 ->
  page_frame (Space d s) a = if entry s d a =? 0 then None else Some (PTE_EXTRACT_ADDR (entry s d a)).
Proof.
  intros Ha. unfold page_frame, entry, ent. cbn [sp_pages sp_pgd]. rewrite get_page_eq by done.
  destruct (Z.eqb_spec (table_of s d (pde_index a)) 0); [done|]. reflexivity.
Qed.

Lemma entry_same_page s d a b :
  0 <= a -> 0 <= b -> a / 4096 = b / 4096 -> entry s d a = entry s d b.
Proof. intros Ha Hb E. apply index_page in E as [E1 E2]; [|done..]. unfold entry. by rewrite E1, E2. Qed.

Lemma user_addr_range a : user_addr a -> 0 <= a < 2 ^ 32.
Proof. unfold user_addr, VIRT_BASE. lia. Qed.
#[export] Hint Resolve user_addr_range : kernel.

(** ** One byte *)
Definition with_byte (s : pstate) (d a b : Z) : pstate :=
  let f := PTE_EXTRACT_ADDR (entry s d a) in
  with_frames (alter (fun bytes => set bytes (PG_OFFSET a) (u8 b)) f (ps_frames s)) s.

Lemma mapped_bytes s d a :
  task_space s d -> user_addr a -> entry s d a <> 0 ->
  exists bytes, ps_frames s !! PTE_EXTRACT_ADDR (entry s d a) = Some bytes /\ zlen bytes = 4096.
Proof.
  intros H Ha He. destruct (us_used _ _ H a Ha He) as (k&->&Hk&_). by apply (us_memory _ _ H).
Qed.

Lemma space_load_mapped s d a bytes :
  0 <= a < 2 ^ 32 -> entry s d a <> 0 -> ps_frames s !! PTE_EXTRACT_ADDR (entry s d a) = Some bytes ->
  space_load (Space d s) a = bytes !! Z.to_nat (PG_OFFSET a).
Proof.
  intros Ha He Hb. unfold space_load. rewrite page_frame_entry by done.
  destruct (Z.eqb_spec (entry s d a) 0); [done|]. cbn [mbind option_bind sp_pages]. by rewrite Hb.
Qed.

Lemma space_load_unmapped s d a : 0 <= a < 2 ^ 32 -> entry s d a = 0 -> space_load (Space d s) a = None.
Proof. intros Ha He. unfold space_load. rewrite page_frame_entry by done. by rewrite He. Qed.

(** Changing the bytes of a frame, not their number, keeps the invariant. *)
Lemma task_space_frames s d f bytes bytes' :
  task_space s d -> ps_frames s !! f = Some bytes -> zlen bytes' = zlen bytes ->
  task_space (with_frames (<[f := bytes']> (ps_frames s)) s) d.
Proof.
  intros [H1 H2 H3 H4 H5 H6] Hf Hl. constructor; try done.
  - by destruct H1.
  - intros k Hk. simpl. destruct (H4 k Hk) as (b&Hb&Hbl). destruct (decide (f = 4096 * k)) as [->|].
    + exists bytes'. rewrite lookup_insert_eq. split; [done|]. rewrite Hl. congruence.
    + exists b. by rewrite lookup_insert_ne.
Qed.

Lemma space_store_spec s d a b :
  task_space s d -> user_addr a -> entry s d a <> 0 ->
  exists f, space_store (Space d s) a b = Some (Space d (with_frames f s))
    /\ task_space (with_frames f s) d
    /\ forall x, user_addr x ->
         space_load (Space d (with_frames f s)) x = if x =? a then Some (u8 b) else space_load (Space d s) x.
Proof.
  intros H Ha He. destruct (mapped_bytes s d a H Ha He) as (bytes&Hb&Hl).
  pose proof (PG_OFFSET_range a) as Ho. unfold space_store. rewrite page_frame_entry by auto with kernel.
  destruct (Z.eqb_spec (entry s d a) 0); [done|]. cbn [mbind option_bind sp_pages sp_pgd]. rewrite Hb.
  cbn [mbind option_bind]. destruct (Z.ltb_spec (PG_OFFSET a) (zlen bytes)); [|lia].
  eexists. split; [done|]. split; [by eapply task_space_frames; [done..|apply zlen_set]|].
  intros x Hx. destruct (Z.eqb_spec (entry s d x) 0) as [E|E].
  { rewrite !space_load_unmapped by auto with kernel. destruct (Z.eqb_spec x a) as [->|]; done. }
  destruct (mapped_bytes s d x H Hx E) as (bx&Hbx&Hlx).
  rewrite (space_load_mapped s d x bx) by auto with kernel.
  destruct (decide (PTE_EXTRACT_ADDR (entry s d a) = PTE_EXTRACT_ADDR (entry s d x))) as [Ef|Ef].
  - erewrite space_load_mapped; [|by auto with kernel|exact E|cbn; rewrite Ef; apply lookup_insert_eq].
    rewrite Ef in Hb. rewrite Hb in Hbx. injection Hbx as ->.
    assert (Hp : a / 4096 = x / 4096) by (by apply (us_inj _ _ H)).
    rewrite (lookup_set 0) by (pose proof (PG_OFFSET_range x); lia).
    destruct (Z.eqb_spec (PG_OFFSET x) (PG_OFFSET a)) as [Eo|Eo], (Z.eqb_spec x a) as [Ex|Ex]; try done; exfalso.
    + apply Ex. unfold PG_OFFSET, PAGE_SIZE in Eo. pose proof (Z.div_mod x 4096). pose proof (Z.div_mod a 4096). lia.
    + by subst.
  - erewrite space_load_mapped; [|by auto with kernel|exact E|cbn; by rewrite lookup_insert_ne].
    destruct (Z.eqb_spec x a); [by subst|done].
Qed.

(** ** A run of bytes *)
Lemma store_bytes_spec s d a bs :
  task_space s d -> 0 <= a -> a + zlen bs <= VIRT_BASE ->
  (forall x, a <= x < a + zlen bs -> entry s d x <> 0) ->
  exists f, store_bytes (Space d s) a bs = Some (Space d (with_frames f s))
    /\ task_space (with_frames f s) d
    /\ forall x, user_addr x ->
         space_load (Space d (with_frames f s)) x
         = if (a <=? x) && (x <? a + zlen bs) then Some (u8 (get 0 bs (x - a))) else space_load (Space d s) x.
Proof.
  revert s a. induction bs as [|b bs IH]; intros s a H Ha Hhi Hm.
  { exists (ps_frames s). replace (with_frames (ps_frames s) s) with s by (by destruct s). split_and!; [done..|].
    intros x Hx. rewrite zlen_nil. destruct (a <=? x) eqn:?, (x <? a + 0) eqn:?; try done; lia. }
  rewrite zlen_cons in Hhi, Hm. pose proof (zlen_nonneg bs). cbn [store_bytes].
  destruct (space_store_spec s d a b H) as (f&Hs&H1&Hl1); [split; lia|apply Hm; lia|].
  change (mstore (Space d s) a b) with (space_store (Space d s) a b). rewrite Hs. cbn [mbind option_bind].
  destruct (decide (bs = [])) as [->|Hne].
  { exists f. split_and!; [done..|]. intros x Hx. rewrite Hl1 by done. change (zlen [b]) with 1.
    destruct (Z.eqb_spec x a) as [->|]; [rewrite Z.sub_diag|]; cmp; simpl; try done; lia. }
  assert (1 <= zlen bs) by (destruct bs; [done|rewrite zlen_cons; pose proof (zlen_nonneg bs); lia]).
  rewrite u32_id by (unfold VIRT_BASE in *; lia).
  destruct (IH (with_frames f s) (a + 1) H1) as (f'&Hs'&Hu2&Hl2); [lia..| |].
  { intros x Hx. apply (Hm x). lia. }
  change (with_frames f' (with_frames f s)) with (with_frames f' s) in *. rewrite Hs'.
  exists f'. split_and!; [done..|]. intros x Hx. rewrite (Hl2 x Hx), Hl1 by done. rewrite zlen_cons.
  destruct (Z.eqb_spec x a) as [->|Hxa].
  - rewrite Z.sub_diag. cmp; simpl; try done; lia.
  - replace (get 0 (b :: bs) (x - a)) with (get 0 ([b] ++ bs) (x - a)) by done.
    destruct ((a + 1 <=? x) && (x <? a + 1 + zlen bs)) eqn:E1.
    + apply andb_true_iff in E1 as [? ?]. zbool. rewrite get_app_r by (change (zlen [b]) with 1; lia).
      change (zlen [b]) with 1. replace (x - a - 1) with (x - (a + 1)) by lia. cmp; simpl; try done; lia.
    + destruct ((a <=? x) && (x <? a + (zlen bs + 1))) eqn:E2; [|done].
      apply andb_true_iff in E2 as [? ?]. apply andb_false_iff in E1 as [?|?]; zbool; lia.
Qed.

(** ** One page *)
Lemma frames_left_scan pmm n :
  pmm_wf pmm -> frames_left pmm n -> 0 < n -> bitmap_scan pmm 0 1 false <> - EBITMAP.
Proof.
  intros [(Hs0&Hs1&_) Hs] (l&_&Hl&Hn) Hpos E. destruct l as [|k l]; [rewrite zlen_nil in Hn; lia|].
  destruct (Hl k) as [Hk Hf]; [set_solver|].
  destruct (bitmap_scan_spec pmm 0 1 false) as [[_ Hno]|[H0 _]]; [lia..| |rewrite E in H0; by unfold EBITMAP in H0].
  apply (Hno k); [lia..|]. intros j Hj. rewrite u32_id by lia. by replace (0 + (k + j)) with k by lia.
Qed.

Lemma frames_left_take pmm pmm' k n :
  frames_left pmm n -> bm_size pmm' = bm_size pmm ->
  (forall j, 0 <= j -> j <> k -> bitmap_test pmm' j = bitmap_test pmm j) -> frames_left pmm' (n - 1).
Proof.
  intros (l&Hnd&Hl&Hn) Hsz Ht. exists (filter (fun j => j <> k) l). split_and!.
  - by apply NoDup_filter.
  - intros j [Hj Hin]%list_elem_of_filter. destruct (Hl j Hin) as [Hr Hf]. split; [lia|]. by rewrite Ht by lia.
  - enough (zlen l <= zlen (filter (fun j => j <> k) l) + 1) by lia. clear -Hnd.
    induction l as [|x l IH]; [rewrite zlen_nil; pose proof (zlen_nonneg (filter (fun j => j <> k) [])); lia|].
    apply NoDup_cons in Hnd as [Hx Hnd]. rewrite zlen_cons, filter_cons.
    destruct (decide (x <> k)) as [Hne|Heq]; [rewrite zlen_cons; specialize (IH Hnd); lia|].
    apply dec_stable in Heq as ->. 
    replace (filter (fun j => j <> k) l) with l; [lia|]. clear -Hx. induction l as [|y l IH]; [done|].
    rewrite filter_cons. rewrite decide_True by set_solver. f_equal. apply IH. set_solver.
Qed.

(** Mapping one page: it gets a free frame and a table if it has none of its
    own; a page that is mapped stays as it is.  No other byte changes. *)
Lemma map_one_page s d a n user :
  task_space s d -> user_addr a -> 0x400000 <= a -> frames_left (ps_pmm s) n -> 0 < n -> 1 <= zlen (ps_fresh s) ->
  exists s' r, map_addr s d a 1 user false = Some (s', r) /\ task_space s' d /\ ps_frames s' = ps_frames s
    /\ frames_left (ps_pmm s') (n - 1) /\ zlen (ps_fresh s) <= zlen (ps_fresh s') + 1
    /\ entry s' d a <> 0
    /\ forall x, 0 <= x < 2 ^ 32 -> entry s' d x = if same_page x a && (entry s d a =? 0) then entry s' d a else entry s d x.
Proof.
  intros H Ha Hlo Hfl Hn Hfr. destruct (user_addr_range a Ha) as [Ha0 Ha1].
  destruct H as [Hpgd Hfresh Hw Hmem Hused Hinj].
  pose proof (frames_left_scan _ _ Hw Hfl Hn) as Hscan. pose proof Hw as [_ Hsz].
  destruct (pmm_alloc_cases (ps_pmm s) 1 Hw ltac:(lia)) as (pmm'&frame&Hrun&Hw'&Hsz'&[Hc|(_&?&_)]); [|done].
  destruct Hc as (k&->&_&Hk&Hkn&Hfree&Ht). specialize (Hfree k ltac:(lia)).
  assert (Ht' : forall j, 0 <= j -> j <> k -> bitmap_test pmm' j = bitmap_test (ps_pmm s) j).
  { intros j Hj Hjk. rewrite Ht by lia. destruct (k <=? j) eqn:?, (j <? k + 1) eqn:?; try done; lia. }
  assert (Hk' : bitmap_test pmm' k = true) by (rewrite Ht by lia; destruct (k <=? k) eqn:?, (k <? k + 1) eqn:?; done || lia).
  destruct (PG_RND_DOWN_eq a ltac:(lia)) as [Hb Hbr]. set (base := PG_RND_DOWN a) in *.
  assert (Hbb : PG_RND_DOWN base = base).
  { destruct (PG_RND_DOWN_eq base ltac:(lia)) as [-> _]. clearbody base. subst base.
    rewrite (Z.mul_comm 4096 (a / 4096)), Z.div_mul by lia. lia. }
  assert (Hba : base / 4096 = a / 4096)
    by (clearbody base; subst base; rewrite (Z.mul_comm 4096 (a / 4096)), Z.div_mul; lia).
  assert (Hblo : 0x400000 <= base).
  { rewrite Hb. pose proof (Z.div_le_mono 0x400000 a 4096 ltac:(lia) Hlo) as Hq. change (0x400000 / 4096) with 1024 in Hq. lia. }
  unfold map_addr. fold base. rewrite Hrun. destruct (4096 * k <? 0) eqn:?; [lia|].
  unfold map_addr_fixed. rewrite Hbb. change (Z.to_nat 1) with 1%nat. cbn [map_addr_fixed_loop].
  rewrite Z.mul_0_l, !Z.add_0_r, !u32_id by lia. set (s1 := with_pmm pmm' s).
  assert (H1 : pgd_ok s1 d) by (destruct Hpgd; by constructor).
  rewrite page_set_entry by lia. change (entry s1 d base) with (entry s d base).
  rewrite (entry_same_page s d base a) by lia.
  assert (Hold : forall x, user_addr x -> entry s d x <> 0 ->
            exists j, PTE_EXTRACT_ADDR (entry s d x) = 4096 * j /\ frame_used pmm' j /\ j <> k).
  { intros x Hx Hne. destruct (Hused x Hx Hne) as (j&Hj&Hjr&Hjt). assert (j <> k) by (intros ->; congruence).
    exists j. split_and!; [done| |done]. split; [lia|]. by rewrite Ht' by lia. }
  destruct (Z.eqb_spec (entry s d a) 0) as [E0|E0]; cbn [negb andb].
  - destruct (map_page_spec s1 d base (4096 * k) user H1 Hfresh) as (s'&Hr&Hok&Hf'&Hfrm&Hpm&Hfs&_&_&He); [lia..| |].
    { right. split; [apply pde_index_nonzero; lia|]. simpl. intros En. rewrite En, zlen_nil in Hfr. lia. }
    rewrite Hr. cbn [mbind option_bind]. exists s', (4096 * k).
    set (pte := make_pte (4096 * k) true user) in *.
    assert (Hpte : 0 < pte < 2 ^ 32) by (apply make_pte_range; lia).
    assert (Hpx : PTE_EXTRACT_ADDR pte = 4096 * k).
    { unfold pte. rewrite extract_make by lia. rewrite (Z.mul_comm 4096 k), Z.div_mul by lia. lia. }
    assert (He' : forall x, 0 <= x < 2 ^ 32 -> entry s' d x = if same_page x a then pte else entry s d x).
    { intros x Hx. rewrite He by done. unfold same_page. by rewrite Hba. }
    assert (Hea : entry s' d a = pte) by (rewrite He' by lia; unfold same_page; by rewrite Z.eqb_refl).
    split_and!; try done.
    + constructor; [done|done|by rewrite Hpm| | |].
      * intros j Hj. rewrite Hfrm. apply Hmem. rewrite Hpm in Hj. simpl in Hj. lia.
      * intros x Hx Hne. rewrite He' in * by auto with kernel. rewrite Hpm. destruct (same_page x a).
        -- exists k. split; [done|]. split; [simpl; lia|done].
        -- destruct (Hold x Hx Hne) as (j&?&?&_). by exists j.
      * intros x y Hx Hy. rewrite !He' by auto with kernel. unfold same_page.
        destruct (Z.eqb_spec (x / 4096) (a / 4096)) as [Ex|Ex], (Z.eqb_spec (y / 4096) (a / 4096)) as [Ey|Ey];
          intros Hnx Hny Heq; [lia| | |by apply Hinj].
        -- destruct (Hold y Hy Hny) as (j&Hj&_&Hjk). lia.
        -- destruct (Hold x Hx Hnx) as (j&Hj&_&Hjk). lia.
    + rewrite Hpm. simpl. by apply (frames_left_take (ps_pmm s) _ k).
    + destruct Hfs as [Hfs|[z Hfs]]; simpl in Hfs; rewrite Hfs; rewrite ?zlen_cons; lia.
    + rewrite Hea. lia.
    + intros x Hx. rewrite Hea, He' by done. by rewrite andb_true_r.
  - cbn [mbind option_bind]. exists s1, (4096 * k). split_and!; try done.
    + constructor; try done. intros j Hj. apply Hmem. simpl in Hj. lia.
      intros x Hx Hne. destruct (Hold x Hx Hne) as (j&?&?&_). by exists j.
    + simpl. by apply (frames_left_take (ps_pmm s) _ k).
    + simpl. lia.
    + intros x Hx. by rewrite andb_false_r.
Qed.

(** ** A new address space *)
(** What [create_pgd] starts from: the kernel's own directory. *)
Record kernel_space (s : pstate) (kpgd : Z) : Prop := KernelSpace {
  ks_pgd : pgd_ok s kpgd;
  ks_fresh : fresh_ok s;
  ks_pmm : pmm_wf (ps_pmm s);
  ks_memory : forall k, 0 <= k < bm_size (ps_pmm s) ->
    exists bytes, ps_frames s !! (4096 * k) = Some bytes /\ zlen bytes = 4096
}.

(** Room for [n] more pages, each with a table of its own at worst. *)
Record room (s : pstate) (n : Z) : Prop := Room {
  room_frames : frames_left (ps_pmm s) n;
  room_tables : n <= zlen (ps_fresh s)
}.

Lemma frames_left_le pmm n k : frames_left pmm n -> k <= n -> frames_left pmm k.
Proof. intros (l&?&?&?) Hk. exists l. split_and!; [done..|lia]. Qed.

(** The new directory has the kernel's tables and no other. *)
Definition kernel_half (kernel : list Z) : list Z := blit zero_table 768 (slice kernel 768 256).
Lemma kernel_half_get kernel i :
  zlen kernel = 1024 -> 0 <= i < 1024 -> get 0 (kernel_half kernel) i = if i <? 768 then 0 else get 0 kernel i.
Proof.
  intros Hl Hi. unfold kernel_half. rewrite get_blit, zlen_slice by lia. change (zlen zero_table) with 1024.
  destruct (768 <=? i) eqn:E1, (i <? 768 + 256) eqn:E2, (i <? 1024) eqn:E3, (i <? 768) eqn:E4; try lia; cbn [andb].
  - rewrite get_slice by lia. f_equal. lia.
  - apply get_replicate.
Qed.
Lemma kernel_half_ok kernel :
  Forall (fun w => 0 <= w < 2 ^ 32) kernel ->
  zlen (kernel_half kernel) = 1024 /\ Forall (fun w => 0 <= w < 2 ^ 32) (kernel_half kernel).
Proof.
  intros Hkr. split; [unfold kernel_half; by rewrite zlen_blit|]. unfold kernel_half, blit, slice.
  change (768 <? 0) with false. cbv iota. rewrite Forall_forall in *. intros w Hwi.
  apply list_elem_of_lookup in Hwi as [j Hj]. apply list_lookup_inserts_Some in Hj as [(_&Hj)|(_&_&Hj)].
  - apply list_elem_of_lookup_2 in Hj. unfold zero_table in Hj. apply elem_of_replicate in Hj as [-> _]. lia.
  - apply list_elem_of_lookup_2 in Hj. apply Hkr. eapply elem_of_submseteq; [exact Hj|]. apply sublist_submseteq.
    etrans; [apply sublist_take|apply sublist_drop].
Qed.
#[global] Arguments kernel_half : simpl never.
Lemma create_pgd_eq s kpgd kernel :
  fresh_ok s -> ps_tables s !! kpgd = Some kernel -> 1 <= zlen (ps_fresh s) ->
  exists d rest, ps_fresh s = d :: rest
    /\ create_pgd s kpgd = Some (PState (<[d := kernel_half kernel]> (ps_tables s)) rest (ps_frames s) (ps_pmm s), d).
Proof.
  intros [_ Hf] Hk Hn. destruct (ps_fresh s) as [|d rest] eqn:E; [rewrite zlen_nil in Hn; lia|].
  exists d, rest. split; [done|]. destruct (Hf d) as (Hd&_&Hnone); [set_solver|].
  unfold create_pgd, new_table. rewrite E. destruct (Z.eqb_spec d 0); [unfold VIRT_BASE in Hd; lia|].
  cbn [mbind option_bind ps_tables]. rewrite lookup_insert_ne by congruence. rewrite Hk.
  unfold with_tables. cbn [ps_tables ps_fresh ps_frames ps_pmm]. by rewrite insert_insert_eq.
Qed.

Lemma create_pgd_space s kpgd n :
  kernel_space s kpgd -> room s (1 + n) -> 0 <= n ->
  exists s' d, create_pgd s kpgd = Some (s', d) /\ task_space s' d /\ room s' n
    /\ (forall x, user_addr x -> entry s' d x = 0).
Proof.
  intros [Hk Hf Hw Hm] [Hfl Htb] Hn. pose proof (po_pgd _ _ Hk) as Hkt. destruct Hkt as (Hka&Hkm&kernel&Hkl&Hlen&Hkr).
  destruct (create_pgd_eq s kpgd kernel Hf Hkl ltac:(lia)) as (d&rest&Hfr&Hrun).
  rewrite Hrun. eexists _, d. split; [done|]. set (s' := PState _ _ _ _).
  destruct Hf as [Hnd Hf]. destruct (Hf d) as (Hd&Hdm&Hnone); [rewrite Hfr; set_solver|].
  assert (Hword : forall i, word s' d i = if (0 <=? i) && (i <? 768) then 0 else word s kpgd i).
  { intros i. unfold word, s'. cbn [ps_tables]. rewrite lookup_insert_eq, Hkl. cbn [default]. unfold id.
    assert (Hhl : zlen (kernel_half kernel) = 1024) by (unfold kernel_half; by rewrite zlen_blit).
    destruct (decide (0 <= i < 1024)).
    - rewrite kernel_half_get by done. destruct (0 <=? i) eqn:?; [done|lia].
    - rewrite !get_out by lia. by destruct (_ && _). }
  assert (Htab : forall i, table_of s' d i = if (0 <=? i) && (i <? 768) then 0 else table_of s kpgd i).
  { intros i. unfold table_of. rewrite Hword. by destruct (_ && _). }
  assert (Hmono : forall a, table_ok s a -> table_ok s' a).
  { intros a Ha. apply (table_ok_mono s); [|done]. intros t Ht. unfold s'. cbn. rewrite lookup_insert_ne; [done|]. congruence. }
  assert (Hpgd : pgd_ok s' d).
  { constructor.
    - split; [done|]. split; [done|]. exists (kernel_half kernel). cbn [ps_tables s']. rewrite lookup_insert_eq.
      split; [done|]. by apply kernel_half_ok.
    - intros i Hi. rewrite Htab. destruct (_ && _); [done|]. intros Hz. destruct (po_tables _ _ Hk i Hi Hz) as [Hok _].
      split; [by apply Hmono|]. intros Heq. rewrite Heq in Hok. destruct Hok as (_&_&t&Ht&_). congruence.
    - intros i j Hi Hj. rewrite !Htab. destruct ((0 <=? i) && (i <? 768)); [done|].
      destruct ((0 <=? j) && (j <? 768)); [done|]. by apply (po_inj _ _ Hk).
    - intros i. rewrite Hword. destruct (_ && _); [done|]. apply (po_low _ _ Hk). }
  assert (He : forall x, user_addr x -> entry s' d x = 0).
  { intros x Hx. unfold entry, ent. rewrite Htab. unfold user_addr, VIRT_BASE in Hx.
    destruct (index_ranges x ltac:(lia)) as [Hi _]. unfold pde_index, PAGE_SIZE, PAGE_TABLE_SIZE in *.
    assert (x / (4096 * 1024) < 768) by (apply Z.div_lt_upper_bound; lia).
    destruct (0 <=? _) eqn:E1, (_ <? 768) eqn:E2; try lia. done. }
  split; [|split; [|done]].
  - constructor; try done.
    + split; [by rewrite Hfr in Hnd; apply NoDup_cons in Hnd as [_ ?]|]. intros a Ha. cbn in Ha.
      destruct (Hf a) as (?&?&?); [rewrite Hfr; set_solver|]. split_and!; try done; try lia. cbn.
      rewrite lookup_insert_ne; [done|]. intros ->. rewrite Hfr in Hnd. apply NoDup_cons in Hnd as [? _]. done.
    + intros x Hx Hne. by rewrite He in Hne.
    + intros x y Hx _ Hne. by rewrite He in Hne.
  - constructor; cbn; [by apply (frames_left_le _ (1 + n)); [|lia]|]. rewrite Hfr, zlen_cons in Htb. lia.
Qed.

(** Mapping a run of pages afresh, over whatever is there. *)
Lemma map_addr_space s d a n user :
  task_space s d -> a mod 4096 = 0 -> 0x400000 <= a -> a + n * 4096 <= VIRT_BASE -> 0 < n < 2 ^ 20 ->
  n <= zlen (ps_fresh s) -> bitmap_scan (ps_pmm s) 0 n false <> - EBITMAP ->
  exists s' k, map_addr s d a n user true = Some (s', 4096 * k) /\ task_space s' d /\ ps_frames s' = ps_frames s
    /\ (forall j, k <= j < k + n -> frame_free (ps_pmm s) j)
    /\ forall x, 0 <= x < 2 ^ 32 ->
         entry s' d x = if in_range a n x then make_pte (4096 * (k + (x / 4096 - a / 4096))) true user else entry s d x.
Proof.
  intros [Hpgd Hfresh Hw Hmem Hused Hinj] Ham Hlo Hhi Hn Hfr Hscan. unfold VIRT_BASE in Hhi. pose proof Hw as [_ Hsz].
  destruct (pmm_alloc_cases (ps_pmm s) n Hw ltac:(lia)) as (pmm'&frame&Hrun&Hw'&Hsz'&[Hc|(_&?&_)]); [|done].
  destruct Hc as (k&->&_&Hk&Hkn&Hfree&Ht).
  assert (Ha : a = 4096 * (a / 4096)) by (pose proof (Z.div_mod a 4096); lia). set (q := a / 4096) in *.
  assert (Hb : PG_RND_DOWN a = a) by (destruct (PG_RND_DOWN_eq a ltac:(lia)) as [-> _]; fold q; lia).
  unfold map_addr. rewrite Hb, Hrun. destruct (4096 * k <? 0) eqn:?; [lia|]. unfold map_addr_fixed. rewrite Hb.
  set (s1 := with_pmm pmm' s). assert (H1 : pgd_ok s1 d) by (destruct Hpgd; by constructor).
  destruct (map_addr_fixed_loop_spec (Z.to_nat n) s1 d a (4096 * k) 0 user true H1 Hfresh)
    as (s'&Hr&Hok&Hfo&Hfrm&Hpm&He); rewrite ?Z2Nat.id, ?Z.add_0_l in * by lia; try done; try lia.
  rewrite Hr. cbn [mbind option_bind]. exists s', k.
  set (pte x := make_pte (4096 * (k + (x / 4096 - q))) true user).
  assert (He' : forall x, 0 <= x < 2 ^ 32 -> entry s' d x = if in_range a n x then pte x else entry s d x).
  { intros x Hx. rewrite He by done. rewrite Z.add_0_r, andb_true_r.
    destruct (in_range a n x); [|done]. unfold pte. f_equal. lia. }
  assert (Hpte : forall x, in_range a n x = true -> 0 <= x < 2 ^ 32 ->
     pte x <> 0 /\ PTE_EXTRACT_ADDR (pte x) = 4096 * (k + (x / 4096 - q)) /\ 0 <= x / 4096 - q < n).
  { intros x Hin Hx. unfold in_range in Hin. apply andb_true_iff in Hin as [? ?]. zbool.
    assert (0 <= x / 4096 - q < n).
    { pose proof (Z.div_mod x 4096 ltac:(lia)). pose proof (Z.mod_pos_bound x 4096 ltac:(lia)). lia. }
    assert (Hfrange : 0 <= 4096 * (k + (x / 4096 - q)) < 2 ^ 32) by lia.
    pose proof (make_pte_range _ true user Hfrange). unfold pte. split; [lia|]. split; [|done].
    rewrite extract_make by done. set (y := k + _). rewrite (Z.mul_comm 4096 y), Z.div_mul by lia. lia. }
  assert (Hnew : forall j, k <= j < k + n -> bitmap_test pmm' j = true).
  { intros j Hj. rewrite Ht by lia. destruct (k <=? j) eqn:?, (j <? k + n) eqn:?; done || lia. }
  assert (Hold : forall x, user_addr x -> entry s d x <> 0 -> exists j, PTE_EXTRACT_ADDR (entry s d x) = 4096 * j
            /\ frame_used pmm' j /\ ~ (k <= j < k + n)).
  { intros x Hx Hne. destruct (Hused x Hx Hne) as (j&Hj&Hjr&Hjt). exists j. split; [done|].
    assert (~ (k <= j < k + n)) by (intros Hjk; rewrite Hfree in Hjt; done). split; [|done]. split; [lia|].
    rewrite Ht by lia. destruct (k <=? j) eqn:?, (j <? k + n) eqn:?; cbn [andb]; done || lia. }
  split; [done|]. split; [|split; [done|split; [|done]]].
  - constructor; [done|done|by rewrite Hpm| | |].
    + intros j Hj. rewrite Hfrm. apply Hmem. rewrite Hpm in Hj. simpl in Hj. lia.
    + intros x Hx Hne. rewrite He' in * by auto with kernel. rewrite Hpm. destruct (in_range a n x) eqn:Ein.
      * destruct (Hpte x Ein ltac:(auto with kernel)) as (_&->&Hq). eexists. split; [done|]. split; [simpl; lia|].
        apply Hnew. lia.
      * destruct (Hold x Hx Hne) as (j&?&?&_). by exists j.
    + intros x y Hx Hy. rewrite !He' by auto with kernel.
      destruct (in_range a n x) eqn:Ex, (in_range a n y) eqn:Ey; intros Hnx Hny Heq; [| | |by apply Hinj].
      * destruct (Hpte x Ex ltac:(auto with kernel)) as (_&Hx'&_), (Hpte y Ey ltac:(auto with kernel)) as (_&Hy'&_). lia.
      * destruct (Hpte x Ex ltac:(auto with kernel)) as (_&Hx'&Hq). destruct (Hold y Hy Hny) as (j&Hj&_&Hjk). lia.
      * destruct (Hpte y Ey ltac:(auto with kernel)) as (_&Hy'&Hq). destruct (Hold x Hx Hnx) as (j&Hj&_&Hjk). lia.
  - intros j Hj. split; [lia|]. by apply Hfree.
Qed.

(** ** An address space to begin with *)
Definition frame_example : list Z := replicate 4096 7.
Definition memory_example : pstate :=
  PState {[ 0xC0001000 := zero_table ]} [0xC0002000; 0xC0003000; 0xC0004000; 0xC0005000]
    (gset_to_gmap frame_example (list_to_set ((fun k => 4096 * k) <$> seqZ 0 24))) pmm_example.
Lemma memory_example_ok : kernel_space memory_example 0xC0001000 /\ room memory_example 4.
Proof.
  split.
  - constructor; [by apply zero_pgd_ok| |exact pmm_example_wf|].
    + split; [repeat constructor; set_solver|]. apply Forall_forall. repeat constructor.
    + intros k Hk. exists frame_example. split; [|by unfold frame_example; rewrite zlen_replicate].
      apply lookup_gset_to_gmap_Some. split; [|done].
      apply elem_of_list_to_set, list_elem_of_fmap. exists k. split; [done|]. apply elem_of_seqZ. exact Hk.
  - constructor; [|done]. exists [13; 14; 15; 16]. split_and!; [repeat constructor; set_solver| |done].
    intros f Hf. assert (f = 13 \/ f = 14 \/ f = 15 \/ f = 16) as Hc by set_solver. destruct Hc as [->|[->|[->| ->]]]; by split.
Qed.
Lemma memory_example_entry x : entry memory_example 0xC0001000 x = 0.
Proof.
  destruct (zero_pgd_ok memory_example 0xC0001000) as [_ H]; try done. unfold entry, ent. by rewrite H.
Qed.
Lemma memory_example_space : task_space memory_example 0xC0001000.
Proof.
  destruct memory_example_ok as [[H1 H2 H3 H4] _].
  constructor; try done; intros x; [|intros y _]; intros _; by rewrite memory_example_entry.
Qed.
