(* ===== verification/Fork.v ===== *)
(** * Fork: what clone_pgd of mm/paging.c gives a child

    The copy of an address space: every page of the original is copied to a
    frame of its own, the original is not touched, and the kernel's tables are
    shared. *)
From S2P Require Import Prelude Bitmap Strconv Pmm Paging UserMem UserSpace.

(** [s] is [s0] with more tables and frames: what was there is unchanged. *)
Record grown (s0 s : pstate) : Prop := Grown {
  g_tables : forall a t, ps_tables s0 !! a = Some t -> ps_tables s !! a = Some t;
  g_frames : forall k, frame_used (ps_pmm s0) k -> ps_frames s !! (4096 * k) = ps_frames s0 !! (4096 * k);
  g_used : forall k, frame_used (ps_pmm s0) k -> frame_used (ps_pmm s) k;
  g_pmm : pmm_wf (ps_pmm s);
  g_size : bm_size (ps_pmm s) = bm_size (ps_pmm s0);
  g_memory : forall k, 0 <= k < bm_size (ps_pmm s) -> exists bytes, ps_frames s !! (4096 * k) = Some bytes /\ zlen bytes = 4096;
  g_fresh : fresh_ok s
}.

(** The entry of a page and its copy: the same permissions, a frame that was
    free, the same bytes. *)
Definition page_copied (s0 s : pstate) (e e' : Z) : Prop :=
  if e =? 0 then e' = 0
  else exists f, e' = make_pte (4096 * f) (getbit e PTE_RW_SHIFT =? 1) (getbit e PTE_USER_SHIFT =? 1)
    /\ frame_used (ps_pmm s) f /\ ~ frame_used (ps_pmm s0) f
    /\ ps_frames s !! (4096 * f) = ps_frames s0 !! PTE_EXTRACT_ADDR e.

Section clone.
  Context (s0 : pstate) (original : Z).
  Context (Hspace : task_space s0 original).
  (** A directory entry of the task has a table. *)
  Context (Hdirs : forall k, 0 <= k < 768 -> word s0 original k <> 0 -> table_of s0 original k <> 0).

(** The slots of the directory that are copied. *)
Definition slot (k : Z) : Prop := 0 <= k < 768 /\ word s0 original k <> 0.
Definition old_word (k j : Z) : Z := word s0 (table_of s0 original k) j.

(** The child's directory [d], the slots below [i] replaced and the pages
    below [q] copied. *)
Record child (s : pstate) (d i q : Z) : Prop := Child {
  c_grown : grown s0 s;
  c_dir : table_ok s d /\ ps_tables s0 !! d = None;
  c_word : forall k, ~ (slot k /\ k < i) -> word s d k = word s0 original k;
  c_new : forall k, slot k -> k < i -> table_ok s (table_of s d k) /\ ps_tables s0 !! table_of s d k = None
    /\ table_of s d k <> d /\ PDE_EXTRACT_ADDR (word s d k) < 2 ^ 32 - VIRT_BASE;
  c_inj : forall k k', slot k -> slot k' -> k < i -> k' < i -> table_of s d k = table_of s d k' -> k = k';
  c_page : forall k j, slot k -> k < i -> 0 <= j < 1024 ->
    if k * 1024 + j <? q then page_copied s0 s (old_word k j) (word s (table_of s d k) j)
    else word s (table_of s d k) j = 0;
  c_frame : forall k j k' j', slot k -> slot k' -> k < i -> k' < i -> 0 <= j < 1024 -> 0 <= j' < 1024 ->
    word s (table_of s d k) j <> 0 -> word s (table_of s d k') j' <> 0 ->
    PTE_EXTRACT_ADDR (word s (table_of s d k) j) = PTE_EXTRACT_ADDR (word s (table_of s d k') j') -> k = k' /\ j = j'
}.

Lemma grown_refl : grown s0 s0.
Proof. destruct Hspace. by constructor. Qed.
Lemma grown_table_ok s a : grown s0 s -> table_ok s0 a -> table_ok s a.
Proof. intros H. apply table_ok_mono, (g_tables _ _ H). Qed.
Lemma grown_word s a j : grown s0 s -> is_Some (ps_tables s0 !! a) -> word s a j = word s0 a j.
Proof. intros H [t Ht]. unfold word. by rewrite Ht, (g_tables _ _ H a t Ht). Qed.
Lemma original_some : is_Some (ps_tables s0 !! original).
Proof. destruct (po_pgd _ _ (us_pgd _ _ Hspace)) as (_&_&t&Ht&_). by exists t. Qed.
Lemma original_word s k : grown s0 s -> word s original k = word s0 original k.
Proof. intros H. apply grown_word; [done|apply original_some]. Qed.
Lemma original_table s k : grown s0 s -> table_of s original k = table_of s0 original k.
Proof. intros H. unfold table_of. by rewrite original_word. Qed.
Lemma slot_table k : slot k -> table_ok s0 (table_of s0 original k) /\ table_of s0 original k <> 0.
Proof.
  intros [Hk Hw]. pose proof (Hdirs k Hk Hw) as Hnz. split; [|done].
  by apply (po_tables _ _ (us_pgd _ _ Hspace)); [lia|].
Qed.
Lemma old_word_keep s k j : grown s0 s -> slot k -> word s (table_of s0 original k) j = old_word k j.
Proof. intros H Hs. apply grown_word; [done|]. destruct (slot_table k Hs) as [(_&_&t&Ht&_) _]. by exists t. Qed.

(** The entry of a page by its slot and its place in the table. *)
Lemma old_word_entry k j : slot k -> 0 <= j < 1024 ->
  let x := (k * 1024 + j) * 4096 in user_addr x /\ entry s0 original x = old_word k j.
Proof.
  intros [Hk Hw] Hj x. assert (Hx : user_addr x) by (unfold user_addr, VIRT_BASE, x; lia). split; [done|].
  assert (Hpi : pde_index x = k).
  { unfold pde_index, PAGE_SIZE, PAGE_TABLE_SIZE. symmetry. apply Z.div_unique with (j * 4096); unfold x; lia. }
  assert (Hpj : pte_index x = j).
  { unfold pte_index, PAGE_SIZE, PAGE_TABLE_SIZE, x. rewrite Z.div_mul by lia. symmetry. apply Z.mod_unique with k; lia. }
  unfold entry, ent. rewrite Hpi, Hpj. destruct (Z.eqb_spec (table_of s0 original k) 0) as [E|]; [|done].
  by apply Hdirs in E.
Qed.
(** The frame behind an entry of the original. *)
Lemma old_frame k j : slot k -> 0 <= j < 1024 -> old_word k j <> 0 ->
  exists f, PTE_EXTRACT_ADDR (old_word k j) = 4096 * f /\ frame_used (ps_pmm s0) f.
Proof.
  intros Hs Hj Hne. destruct (old_word_entry k j Hs Hj) as [Hx He].
  rewrite <- He in *. by apply (us_used _ _ Hspace).
Qed.

(** ** A new table *)
Lemma run_new_table s : fresh_ok s -> 1 <= zlen (ps_fresh s) ->
  exists a rest, ps_fresh s = a :: rest /\ new_table s = Some (PState (<[a := zero_table]> (ps_tables s)) rest (ps_frames s) (ps_pmm s), a)
    /\ VIRT_BASE < a < 2 ^ 32 /\ a mod 4096 = 0 /\ ps_tables s !! a = None
    /\ fresh_ok (PState (<[a := zero_table]> (ps_tables s)) rest (ps_frames s) (ps_pmm s)).
Proof.
  intros [Hnd Hf] Hn. destruct (ps_fresh s) as [|a rest] eqn:E; [rewrite zlen_nil in Hn; lia|]. exists a, rest.
  destruct (Hf a) as (Ha&Hm&Hnone); [set_solver|]. apply NoDup_cons in Hnd as [Har Hnd]. split; [done|].
  split; [|do 3 (split; [done|]); split; [done|]].
  - unfold new_table. rewrite E. destruct (Z.eqb_spec a 0); [unfold VIRT_BASE in Ha; lia|done].
  - intros b Hb. cbn in Hb. destruct (Hf b) as (?&?&?); [set_solver|]. split_and!; try done; try lia. cbn.
    rewrite lookup_insert_ne; [done|]. by intros ->.
Qed.
Lemma grown_new_table s a t rest : grown s0 s -> ps_tables s !! a = None ->
  fresh_ok (PState (<[a := t]> (ps_tables s)) rest (ps_frames s) (ps_pmm s)) ->
  grown s0 (PState (<[a := t]> (ps_tables s)) rest (ps_frames s) (ps_pmm s)).
Proof.
  intros [H1 H2 H3 H4 H5 H6 H7] Ha Hf. constructor; try done. intros b u Hb. cbn.
  rewrite lookup_insert_ne; [by apply H1|]. intros ->. apply H1 in Hb. congruence.
Qed.
Lemma grown_set_word s a j v : grown s0 s -> ps_tables s0 !! a = None -> grown s0 (set_word a j v s).
Proof.
  intros [H1 H2 H3 H4 H5 H6 H7] Ha. constructor; try done; [|by apply fresh_ok_set]. intros b u Hb. cbn.
  rewrite lookup_alter_ne; [by apply H1|]. intros ->. congruence.
Qed.

(** ** The outer loop: a table for a slot *)
Lemma child_tables_known s d i q k : child s d i q -> slot k -> k < i -> is_Some (ps_tables s !! table_of s d k).
Proof. intros Hc Hs Hk. destruct (c_new _ _ _ _ Hc k Hs Hk) as [(_&_&t&Ht&_) _]. by exists t. Qed.

Lemma child_skip_slot s d i : child s d i (i * 1024) -> ~ slot i -> child s d (i + 1) ((i + 1) * 1024).
Proof.
  intros [H1 H2 H3 H4 H5 H6 H7] Hns. assert (Hlt : forall k, slot k -> k < i + 1 -> k < i).
  { intros k Hk Hki. destruct (decide (k = i)) as [->|]; [done|lia]. }
  constructor; auto.
  - intros k Hk. apply H3. intros [? ?]. apply Hk. split; [done|lia].
  - intros k j Hk Hki Hj. specialize (H6 k j Hk (Hlt k Hk Hki) Hj). specialize (Hlt k Hk Hki).
    destruct (k * 1024 + j <? i * 1024) eqn:?; [|lia]. destruct (k * 1024 + j <? (i + 1) * 1024) eqn:?; [done|lia].
Qed.

(** [pgd[i] = make_pde(...)] for a new zeroed table. *)
Definition install (s : pstate) (d i a : Z) (rest : list Z) (write user : bool) : pstate :=
  set_word d i (make_pde (ADDR_TO_PHYS a) write user)
    (PState (<[a := zero_table]> (ps_tables s)) rest (ps_frames s) (ps_pmm s)).

Lemma child_install s d i a rest write user :
  child s d i (i * 1024) -> slot i -> ps_tables s !! a = None -> VIRT_BASE < a < 2 ^ 32 -> a mod 4096 = 0 ->
  fresh_ok (PState (<[a := zero_table]> (ps_tables s)) rest (ps_frames s) (ps_pmm s)) ->
  let s' := install s d i a rest write user in
  child s' d (i + 1) (i * 1024) /\ table_of s' d i = a.
Proof.
  intros Hc Hsl Ha Har Ham Hf s'. pose proof (c_dir _ _ _ _ Hc) as [Hd Hd0].
  pose proof (c_grown _ _ _ _ Hc) as Hg. destruct (frame_virt a Har Ham) as (Hp&Hpa&Hv).
  set (s1 := PState _ rest _ _) in *. set (pde := make_pde (ADDR_TO_PHYS a) write user).
  assert (Hpde : 0 < pde < 2 ^ 32) by (apply make_pte_range; lia).
  assert (Hg1 : grown s0 s1) by (by apply grown_new_table).
  assert (Hg' : grown s0 s') by (by apply grown_set_word).
  assert (Hda : d <> a) by (intros ->; destruct Hd as (_&_&t&Ht&_); congruence).
  assert (Hmono : forall b t, ps_tables s !! b = Some t -> ps_tables s1 !! b = Some t).
  { intros b t Hb. cbn. rewrite lookup_insert_ne; [done|]. intros ->. congruence. }
  assert (Hok : forall b, table_ok s b -> table_ok s' b).
  { intros b Hb. apply table_ok_set; [lia|]. apply (table_ok_mono s s1); [intros t; apply Hmono|done]. }
  assert (Hw : forall b j, b <> d -> b <> a -> word s' b j = word s b j).
  { intros b j Hbd Hba. unfold s', install. rewrite word_set_other by congruence. unfold word, s1. cbn.
    by rewrite lookup_insert_ne. }
  assert (Hwd : forall k, k <> i -> word s' d k = word s d k).
  { intros k Hk. unfold s', install. rewrite word_set_other by congruence. unfold word, s1. cbn.
    by rewrite lookup_insert_ne. }
  assert (Hwi : word s' d i = pde).
  { destruct Hd as (_&_&t&Ht&Hl&_). unfold s', install. destruct Hsl as [Hi _].
    apply (word_set_same _ _ _ _ t); [by apply Hmono|lia]. }
  assert (Hext : PDE_EXTRACT_ADDR pde = ADDR_TO_PHYS a).
  { unfold PDE_EXTRACT_ADDR, pde, make_pde. by rewrite extract_make, Hpa by lia. }
  assert (Hti : table_of s' d i = a).
  { unfold table_of. rewrite Hwi, Hext. destruct (Z.eqb_spec (ADDR_TO_PHYS a) 0); [lia|done]. }
  assert (Htk : forall k, k <> i -> table_of s' d k = table_of s d k) by (intros k Hk; unfold table_of; by rewrite Hwd).
  assert (Hta : forall k, slot k -> k < i -> table_of s d k <> a).
  { intros k Hk Hki Heq. destruct (child_tables_known _ _ _ _ k Hc Hk Hki) as [t Ht]. congruence. }
  assert (Hza : forall j, word s' a j = 0).
  { intros j. unfold s', install. rewrite word_set_other by congruence. apply zero_table_word. cbn. apply lookup_insert_eq. }
  split; [|done]. constructor; [done| | | | | |].
  - split; [by apply Hok|done].
  - intros k Hk. destruct (decide (k = i)) as [->|Hki]; [exfalso; apply Hk; split; [done|lia]|].
    rewrite Hwd by done. apply (c_word _ _ _ _ Hc). intros [? ?]. apply Hk. split; [done|lia].
  - intros k Hk Hki. destruct (decide (k = i)) as [->|Hne].
    + rewrite Hti, Hwi, Hext. split; [|split; [|split]].
      * split; [done|]. split; [done|]. exists zero_table. unfold s', install. cbn. rewrite lookup_alter_ne by done.
        rewrite lookup_insert_eq. split; [done|]. split; [done|]. apply Forall_replicate. lia.
      * destruct (ps_tables s0 !! a) eqn:E; [|done]. apply (g_tables _ _ Hg) in E. congruence.
      * congruence.
      * unfold ADDR_TO_PHYS, VIRT_BASE in *. rewrite u32_id; lia.
    + rewrite Htk, Hwd by done. destruct (c_new _ _ _ _ Hc k Hk ltac:(lia)) as (?&?&?&?). split; [by apply Hok|done].
  - intros k k' Hk Hk' Hki Hki' Heq. destruct (decide (k = i)) as [->|Hne], (decide (k' = i)) as [->|Hne']; [done| | |].
    + rewrite Hti, Htk in Heq by done. exfalso. apply (Hta k' Hk'); [lia|done].
    + rewrite Hti, Htk in Heq by done. exfalso. apply (Hta k Hk); [lia|done].
    + rewrite !Htk in Heq by done. apply (c_inj _ _ _ _ Hc); done || lia.
  - intros k j Hk Hki Hj. destruct (decide (k = i)) as [->|Hne].
    + rewrite Hti, Hza. by destruct (i * 1024 + j <? i * 1024) eqn:?; [lia|].
    + pose proof (c_page _ _ _ _ Hc k j Hk ltac:(lia) Hj) as Hpg. destruct (c_new _ _ _ _ Hc k Hk ltac:(lia)) as (_&_&Htd&_).
      rewrite Htk, Hw by (done || (apply Hta; done || lia)). destruct (k * 1024 + j <? i * 1024); [|done].
      exact Hpg.
  - intros k j k' j' Hk Hk' Hki Hki' Hj Hj' Hnz Hnz' Heq.
    destruct (decide (k = i)) as [->|Hne]; [by rewrite Hti, Hza in Hnz|].
    destruct (decide (k' = i)) as [->|Hne']; [by rewrite Hti, Hza in Hnz'|].
    destruct (c_new _ _ _ _ Hc k Hk ltac:(lia)) as (_&_&Htd&_). destruct (c_new _ _ _ _ Hc k' Hk' ltac:(lia)) as (_&_&Htd'&_).
    rewrite Htk, Hw in Hnz by (done || (apply Hta; done || lia)). rewrite Htk, Hw in Hnz' by (done || (apply Hta; done || lia)).
    rewrite !Htk, !Hw in Heq by (done || (apply Hta; done || lia)). apply (c_frame _ _ _ _ Hc); done || lia.
Qed.

(** ** The inner loop: a page *)
Lemma page_index_lt k j i j' : 0 <= j < 1024 -> 0 <= j' < 1024 -> k < i + 1 ->
  (k * 1024 + j <? i * 1024 + j' + 1) = (k * 1024 + j <? i * 1024 + j') || ((k =? i) && (j =? j')).
Proof.
  intros Hj Hj' Hk. apply eq_true_iff_eq. rewrite orb_true_iff, andb_true_iff, !Z.ltb_lt, !Z.eqb_eq. nia.
Qed.

Lemma child_skip_page s d i j : child s d (i + 1) (i * 1024 + j) -> slot i -> 0 <= j < 1024 -> old_word i j = 0 ->
  child s d (i + 1) (i * 1024 + j + 1).
Proof.
  intros [H1 H2 H3 H4 H5 H6 H7] Hs Hj H0. constructor; auto. intros k j' Hk Hki Hj'.
  specialize (H6 k j' Hk Hki Hj'). rewrite page_index_lt by done.
  destruct (k * 1024 + j' <? i * 1024 + j); [done|]. cbn [orb].
  destruct (Z.eqb_spec k i) as [->|], (Z.eqb_spec j' j) as [->|]; cbn [andb]; try done.
  unfold page_copied. rewrite H0. done.
Qed.

(** The state with the page's copy: frame [f] of the allocator [pmm]. *)
Definition copy_page (s : pstate) (d i j f : Z) (pmm : bitmap) (buffer : list Z) : pstate :=
  let pte := make_pte (4096 * f) (getbit (old_word i j) PTE_RW_SHIFT =? 1) (getbit (old_word i j) PTE_USER_SHIFT =? 1) in
  let s' := set_word (table_of s d i) j pte (with_pmm pmm s) in
  with_frames (<[4096 * f := buffer]> (ps_frames s')) s'.

Lemma child_copy_page s d i j f pmm buffer :
  child s d (i + 1) (i * 1024 + j) -> slot i -> 0 <= j < 1024 -> old_word i j <> 0 ->
  pmm_wf pmm -> bm_size pmm = bm_size (ps_pmm s) -> 0 <= f < bm_size pmm -> bitmap_test (ps_pmm s) f = false ->
  (forall k, 0 <= k -> bitmap_test pmm k = if k =? f then true else bitmap_test (ps_pmm s) k) ->
  ps_frames s !! PTE_EXTRACT_ADDR (old_word i j) = Some buffer ->
  child (copy_page s d i j f pmm buffer) d (i + 1) (i * 1024 + j + 1).
Proof.
  intros Hc Hs Hj Hne Hpw Hsz Hf Hfree Ht Hbuf. pose proof (c_grown _ _ _ _ Hc) as Hg.
  destruct (old_frame i j Hs Hj Hne) as (fo&Hfo&Hfou). pose proof (g_used _ _ Hg fo Hfou) as [Hfor Hfot].
  assert (Hff : f <> fo) by (intros ->; congruence).
  destruct (c_new _ _ _ _ Hc i Hs ltac:(lia)) as (Hti&Hti0&Htid&_). set (t := table_of s d i) in *.
  set (pte := make_pte (4096 * f) (getbit (old_word i j) PTE_RW_SHIFT =? 1) (getbit (old_word i j) PTE_USER_SHIFT =? 1)).
  set (s1 := with_pmm pmm s). set (s2 := set_word t j pte s1). set (s' := copy_page s d i j f pmm buffer).
  assert (Hs' : s' = with_frames (<[4096 * f := buffer]> (ps_frames s2)) s2) by done.
  pose proof (g_pmm _ _ Hg) as [_ Hpsz].
  assert (Hfr : 0 <= 4096 * f < 2 ^ 32) by lia.
  assert (Hpte : 0 < pte < 2 ^ 32) by (by apply make_pte_range).
  assert (Hext : PTE_EXTRACT_ADDR pte = 4096 * f).
  { unfold pte. rewrite extract_make by done. rewrite (Z.mul_comm 4096 f), Z.div_mul by lia. lia. }
  assert (Hnew : ~ frame_used (ps_pmm s0) f).
  { intros Hu. destruct (g_used _ _ Hg f Hu) as [_ Hu']. congruence. }
  assert (Hused : forall k, frame_used (ps_pmm s) k -> frame_used pmm k).
  { intros k [Hk Hkt]. split; [lia|]. rewrite Ht by lia. by destruct (k =? f). }
  assert (Hoth : forall k, frame_used (ps_pmm s) k -> ps_frames s' !! (4096 * k) = ps_frames s !! (4096 * k)).
  { intros k [Hk Hkt]. rewrite Hs'. cbn. rewrite lookup_insert_ne; [done|]. intros E. assert (k = f) as -> by lia. congruence. }
  assert (Hword : forall b k, word s' b k = if (b =? t) && (k =? j) then pte else word s b k).
  { intros b k. change (word s' b k) with (word s2 b k). unfold s2.
    destruct (Z.eqb_spec b t) as [->|], (Z.eqb_spec k j) as [->|]; cbn [andb];
      try (rewrite word_set_other by congruence; done).
    destruct Hti as (_&_&tb&Htb&Hl&_). apply (word_set_same _ _ _ _ tb); [done|lia]. }
  assert (Hdw : forall k, word s' d k = word s d k).
  { intros k. rewrite Hword. by destruct (Z.eqb_spec d t); [congruence|]. }
  assert (Htab : forall k, table_of s' d k = table_of s d k) by (intros k; unfold table_of; by rewrite Hdw).
  assert (Hok : forall b, table_ok s b -> table_ok s' b).
  { intros b Hb. change (table_ok s2 b). apply table_ok_set; [lia|]. exact Hb. }
  assert (Htw : forall k j', slot k -> k < i + 1 -> 0 <= j' < 1024 ->
            word s' (table_of s d k) j' = if (k =? i) && (j' =? j) then pte else word s (table_of s d k) j').
  { intros k j' Hk Hki Hj'. rewrite Hword. destruct (Z.eqb_spec k i) as [->|Hki']; [by rewrite Z.eqb_refl|].
    destruct (Z.eqb_spec (table_of s d k) t) as [E|]; [|done].
    exfalso. apply Hki', (c_inj _ _ _ _ Hc); done || lia. }
  assert (Hfresh_page : forall k j', slot k -> k < i + 1 -> 0 <= j' < 1024 -> word s (table_of s d k) j' <> 0 ->
            exists g, PTE_EXTRACT_ADDR (word s (table_of s d k) j') = 4096 * g /\ frame_used (ps_pmm s) g).
  { intros k j' Hk Hki Hj' Hnz. pose proof (c_page _ _ _ _ Hc k j' Hk Hki Hj') as Hp.
    destruct (k * 1024 + j' <? i * 1024 + j); [|done]. unfold page_copied in Hp.
    destruct (old_word k j' =? 0); [done|]. destruct Hp as (g&->&Hgu&_). exists g. split; [|done].
    destruct Hgu as [Hgr _]. rewrite extract_make by lia. rewrite (Z.mul_comm 4096 g), Z.div_mul by lia. lia. }
  constructor.
  - destruct Hg as [H1 H2 H3 H4 H5 H6 H7]. constructor.
    + intros a tb Ha. rewrite Hs'. cbn. rewrite lookup_alter_ne; [by apply H1|]. intros E. fold t in E. congruence.
    + intros k Hk. rewrite Hoth by auto. by apply H2.
    + intros k Hk. apply Hused. by apply H3.
    + exact Hpw.
    + rewrite <- H5. exact Hsz.
    + intros k Hk. change (bm_size (ps_pmm s')) with (bm_size pmm) in Hk. rewrite Hs'. cbn.
      destruct (decide (k = f)) as [->|].
      * exists buffer. rewrite lookup_insert_eq. split; [done|]. rewrite Hfo in Hbuf.
        destruct (H6 fo ltac:(lia)) as (b&Hb&Hbl). congruence.
      * rewrite lookup_insert_ne by lia. apply H6. lia.
    + by apply (fresh_ok_set s1).
  - destruct (c_dir _ _ _ _ Hc). split; [by apply Hok|done].
  - intros k Hk. rewrite Hdw. by apply (c_word _ _ _ _ Hc).
  - intros k Hk Hki. rewrite Htab, Hdw. destruct (c_new _ _ _ _ Hc k Hk Hki) as (?&?&?&?).
    split; [by apply Hok|]. by split_and!.
  - intros k k' Hk Hk' Hki Hki'. rewrite !Htab. by apply (c_inj _ _ _ _ Hc).
  - intros k j' Hk Hki Hj'. rewrite Htab, Htw by done. rewrite page_index_lt by done.
    pose proof (c_page _ _ _ _ Hc k j' Hk Hki Hj') as Hp.
    destruct ((k =? i) && (j' =? j)) eqn:E.
    + apply andb_true_iff in E as [->%Z.eqb_eq ->%Z.eqb_eq]. rewrite orb_true_r. unfold page_copied.
      destruct (Z.eqb_spec (old_word i j) 0); [done|]. exists f. split; [done|]. split; [|split; [done|]].
      * split; [exact Hf|]. change (ps_pmm s') with pmm. rewrite Ht by lia. by rewrite Z.eqb_refl.
      * rewrite Hs'. cbn. rewrite lookup_insert_eq, <- Hbuf, Hfo. by apply (g_frames _ _ Hg).
    + rewrite orb_false_r. destruct (k * 1024 + j' <? i * 1024 + j); [|done]. unfold page_copied in *.
      destruct (old_word k j' =? 0); [done|]. destruct Hp as (g&Hge&Hgu&Hgn&Hgf). exists g. split; [done|].
      split; [by apply Hused|]. split; [done|]. by rewrite Hoth.
  - intros k j1 k' j2 Hk Hk' Hki Hki' Hj1 Hj2. rewrite !Htab, !Htw by done.
    destruct ((k =? i) && (j1 =? j)) eqn:E1, ((k' =? i) && (j2 =? j)) eqn:E2; intros Hnz Hnz' Heq.
    + apply andb_true_iff in E1 as [?%Z.eqb_eq ?%Z.eqb_eq], E2 as [?%Z.eqb_eq ?%Z.eqb_eq]. lia.
    + exfalso. rewrite Hext in Heq. destruct (Hfresh_page k' j2 Hk' Hki' Hj2 Hnz') as (g&Hge&_&Hgt).
      assert (g = f) as -> by lia. congruence.
    + exfalso. rewrite Hext in Heq. destruct (Hfresh_page k j1 Hk Hki Hj1 Hnz) as (g&Hge&_&Hgt).
      assert (g = f) as -> by lia. congruence.
    + by apply (c_frame _ _ _ _ Hc).
Qed.

Lemma copy_page_table s d i j f pmm buffer : table_of s d i <> d ->
  table_of (copy_page s d i j f pmm buffer) d i = table_of s d i.
Proof.
  intros Hne. unfold table_of at 1. f_equal.
  change (word (copy_page s d i j f pmm buffer) d i)
    with (word (set_word (table_of s d i) j (make_pte (4096 * f) (getbit (old_word i j) PTE_RW_SHIFT =? 1)
            (getbit (old_word i j) PTE_USER_SHIFT =? 1)) (with_pmm pmm s)) d i).
  by rewrite word_set_other by congruence.
Qed.

(** ** The loops *)
(** The pages that are mapped, and the slots that are used. *)
Context (pages slots : list Z).
Context (Hpages : forall k j, slot k -> 0 <= j < 1024 -> old_word k j <> 0 -> k * 1024 + j ∈ pages).
Context (Hslots : forall k, slot k -> k ∈ slots).
Definition left_from (l : list Z) (q : Z) : Z := zlen (filter (fun p => q <= p) l).

Lemma left_from_step l q : left_from l (q + 1) <= left_from l q /\ (q ∈ l -> left_from l (q + 1) + 1 <= left_from l q).
Proof.
  unfold left_from. clear. induction l as [|x l [IH1 IH2]]; [split; [done|by intros ?%not_elem_of_nil]|].
  rewrite !filter_cons. destruct (decide (q + 1 <= x)), (decide (q <= x)); try lia; rewrite ?zlen_cons.
  - split; [lia|]. intros [->|Hin]%elem_of_cons; [lia|]. specialize (IH2 Hin). lia.
  - assert (x = q) as -> by lia. split; [lia|]. lia.
  - split; [lia|]. intros [->|Hin]%elem_of_cons; [lia|]. by apply IH2.
Qed.

Lemma page_address i j : 0 <= i < 768 -> 0 <= j < 1024 ->
  let x := u32 (i * 1024 * 4096 + j * 4096) in 0 <= x < 2 ^ 32 /\ pde_index x = i /\ pte_index x = j.
Proof.
  intros Hi Hj. cbv zeta. rewrite u32_id by lia. split; [lia|].
  unfold pde_index, pte_index, PAGE_SIZE, PAGE_TABLE_SIZE. change (4096 * 1024) with 0x400000. split.
  - symmetry. apply Z.div_unique with (j * 4096); lia.
  - replace (i * 1024 * 4096 + j * 4096) with ((i * 1024 + j) * 4096) by lia. rewrite Z.div_mul by lia.
    symmetry. apply Z.mod_unique with i; lia.
Qed.

Lemma clone_pages_spec n s d i j t :
  child s d (i + 1) (i * 1024 + j) -> slot i -> 0 <= j -> j + Z.of_nat n = 1024 -> table_of s d i = t ->
  frames_left (ps_pmm s) (left_from pages (i * 1024 + j)) ->
  exists s', clone_pages n s original t i j = Some s' /\ child s' d (i + 1) ((i + 1) * 1024)
    /\ ps_fresh s' = ps_fresh s /\ frames_left (ps_pmm s') (left_from pages ((i + 1) * 1024)).
Proof.
  revert s j. induction n as [|n IH]; intros s j Hc Hs Hj Hn Ht Hfl.
  { assert (j = 1024) as -> by lia. replace (i * 1024 + 1024) with ((i + 1) * 1024) in * by lia. by exists s. }
  rewrite Nat2Z.inj_succ in Hn. pose proof (c_grown _ _ _ _ Hc) as Hg.
  destruct (page_address i j (proj1 Hs) ltac:(lia)) as (Hx&Hpi&Hpj). cbn [clone_pages].
  rewrite get_page_eq, Hpi, Hpj, original_table by done.
  destruct (slot_table i Hs) as [_ Hnz]. destruct (Z.eqb_spec (table_of s0 original i) 0); [done|].
  cbn [mbind option_bind]. rewrite old_word_keep by done.
  destruct (left_from_step pages (i * 1024 + j)) as [Hl1 Hl2].
  destruct (Z.eqb_spec (old_word i j) 0) as [E|E].
  - cbn [mbind option_bind]. apply (IH s (j + 1)); try done; try lia.
    + replace (i * 1024 + (j + 1)) with (i * 1024 + j + 1) by lia. apply child_skip_page; done || lia.
    + replace (i * 1024 + (j + 1)) with (i * 1024 + j + 1) by lia. by eapply frames_left_le.
  - specialize (Hl2 (Hpages i j Hs ltac:(lia) E)). pose proof (g_pmm _ _ Hg) as Hw.
    assert (Hpos : 0 < left_from pages (i * 1024 + j)) by (unfold left_from in *; pose proof (zlen_nonneg (filter (fun p => i * 1024 + j + 1 <= p) pages)); lia).
    pose proof (frames_left_scan _ _ Hw Hfl Hpos) as Hscan.
    destruct (pmm_alloc_cases (ps_pmm s) 1 Hw ltac:(lia)) as (pmm'&frame&->&Hw'&Hsz'&[Hcase|(_&?&_)]); [|done].
    destruct Hcase as (f&->&_&Hf&Hfn&Hfree&Htest). specialize (Hfree f ltac:(lia)).
    assert (Htest' : forall k, 0 <= k -> bitmap_test pmm' k = if k =? f then true else bitmap_test (ps_pmm s) k).
    { intros k Hk. rewrite Htest by done. destruct (f <=? k) eqn:?, (k <? f + 1) eqn:?, (Z.eqb_spec k f); try done; lia. }
    destruct (old_frame i j Hs ltac:(lia) E) as (fo&Hfo&Hfou).
    destruct (g_memory _ _ Hg fo) as (buffer&Hbuf&_); [by apply (g_used _ _ Hg fo)|].
    rewrite Hfo. cbn [ps_frames set_word with_tables with_pmm]. rewrite Hbuf. cbn [mbind option_bind].
    set (pte := make_pte _ _ _).
    assert (Hext : PTE_EXTRACT_ADDR pte = 4096 * f).
    { destruct Hw' as [_ Hsz]. unfold pte. rewrite extract_make by lia. rewrite (Z.mul_comm 4096 f), Z.div_mul by lia. lia. }
    rewrite Hext. subst t. destruct (c_new _ _ _ _ Hc i Hs ltac:(lia)) as (_&_&Htd&_).
    set (s1 := with_frames _ _). change s1 with (copy_page s d i j f pmm' buffer) in *. clear s1.
    destruct (IH (copy_page s d i j f pmm' buffer) (j + 1)) as (s'&Hrun&Hc'&Hfr'&Hfl'); try done; try lia.
    + replace (i * 1024 + (j + 1)) with (i * 1024 + j + 1) by lia.
      apply child_copy_page; try done; try lia. by rewrite Hfo.
    + by apply copy_page_table.
    + replace (i * 1024 + (j + 1)) with (i * 1024 + j + 1) by lia.
      change (ps_pmm (copy_page s d i j f pmm' buffer)) with pmm'.
      apply (frames_left_le _ (left_from pages (i * 1024 + j) - 1)); [|lia].
      apply (frames_left_take (ps_pmm s) _ f); [done|done|]. intros k Hk Hkf. rewrite Htest' by done.
      by destruct (Z.eqb_spec k f).
    + exists s'. split_and!; done.
Qed.

Lemma clone_tables_spec n s d i :
  child s d i (i * 1024) -> 0 <= i -> i + Z.of_nat n = 1024 -> frames_left (ps_pmm s) (left_from pages (i * 1024)) ->
  left_from slots i <= zlen (ps_fresh s) ->
  exists s', clone_tables n s original d i = Some s' /\ child s' d 1024 (1024 * 1024).
Proof.
  revert s i. induction n as [|n IH]; intros s i Hc Hi Hn Hfl Hfr.
  { assert (i = 1024) as -> by lia. by exists s. }
  rewrite Nat2Z.inj_succ in Hn. pose proof (c_grown _ _ _ _ Hc) as Hg. cbn [clone_tables].
  rewrite original_word, u32_id by (done || lia). destruct (left_from_step slots i) as [Hl1 Hl2].
  assert (Hns : (word s0 original i =? 0) || (VIRT_BASE <=? i * 1024 * 4096) = true -> ~ slot i).
  { intros E [Hk Hw]. apply orb_true_iff in E as [E|E]; zbool; [done|]. unfold VIRT_BASE in E. lia. }
  destruct ((word s0 original i =? 0) || (VIRT_BASE <=? i * 1024 * 4096)) eqn:E.
  - cbn [mbind option_bind]. apply (IH s (i + 1)); try done; try lia.
    + by apply child_skip_slot; [|apply Hns].
    + apply (frames_left_le _ (left_from pages (i * 1024))); [done|].
      assert (Hm : forall m q, left_from pages (q + Z.of_nat m) <= left_from pages q).
      { intros m. induction m as [|m IHm]; intros q; [by rewrite Z.add_0_r|].
        destruct (left_from_step pages q) as [? _]. specialize (IHm (q + 1)).
        replace (q + Z.of_nat (S m)) with (q + 1 + Z.of_nat m) by lia. lia. }
      specialize (Hm 1024%nat (i * 1024)). by replace ((i + 1) * 1024) with (i * 1024 + Z.of_nat 1024) by lia.
  - apply orb_false_iff in E as [E1 E2]. zbool.
    assert (Hs : slot i) by (split; [unfold VIRT_BASE in E2; lia|done]). specialize (Hl2 (Hslots i Hs)).
    assert (0 <= left_from slots (i + 1)) by apply zlen_nonneg.
    destruct (run_new_table s (g_fresh _ _ Hg) ltac:(lia)) as (a&rest&Hf&Hrun&Ha&Ham&Hnone&Hfo).
    rewrite Hrun. cbn [mbind option_bind]. set (write := negb _). set (user := negb _).
    destruct (child_install s d i a rest write user Hc Hs Hnone Ha Ham Hfo) as [Hc1 Ht1].
    fold (install s d i a rest write user). set (s1 := install s d i a rest write user) in *.
    destruct (clone_pages_spec 1024 s1 d i 0 a) as (s2&Hrun2&Hc2&Hfr2&Hfl2); rewrite ?Z.add_0_r; try done.
    rewrite Hrun2. cbn [mbind option_bind]. apply (IH s2 (i + 1)); try done; try lia.
    rewrite Hfr2. unfold s1, install. cbn. rewrite Hf, zlen_cons in Hfr. lia.
Qed.

(** ** The child *)
Lemma child_start : left_from slots 0 + 1 <= zlen (ps_fresh s0) ->
  exists s d, dup_pgd s0 original = Some (s, d) /\ child s d 0 0 /\ ps_pmm s = ps_pmm s0
    /\ left_from slots 0 <= zlen (ps_fresh s).
Proof.
  intros Hfr. assert (0 <= left_from slots 0) by apply zlen_nonneg.
  destruct (run_new_table s0 (us_fresh _ _ Hspace) ltac:(lia)) as (d&rest&Hf&Hrun&Hd&Hdm&Hnone&Hfo).
  destruct (po_pgd _ _ (us_pgd _ _ Hspace)) as (Ho1&Ho2&t&Ht&Hl&Hall).
  assert (Hne : original <> d) by (intros ->; congruence).
  unfold dup_pgd. rewrite Hrun. cbn [mbind option_bind ps_tables]. rewrite lookup_insert_ne, Ht by done. cbn [default].
  unfold id, with_tables. cbn [ps_tables ps_fresh ps_frames ps_pmm]. rewrite insert_insert_eq.
  do 2 eexists. split; [done|]. set (s := PState _ rest _ _).
  assert (Hfs : fresh_ok s).
  { destruct Hfo as [Hnd Hx]. split; [done|]. intros b Hb. destruct (Hx b Hb) as (?&?&Hnb). split; [done|]. split; [done|].
    cbn in *. destruct (decide (b = d)) as [->|]; [by rewrite lookup_insert_eq in Hnb|]. by rewrite lookup_insert_ne in *. }
  assert (Hwd : forall k, word s d k = word s0 original k).
  { intros k. unfold word, s. cbn. by rewrite lookup_insert_eq, Ht. }
  split; [|split; [done|cbn; rewrite Hf, zlen_cons in Hfr; lia]].
  constructor.
  - apply (grown_new_table s0); [apply grown_refl|done|done].
  - split; [|done]. split; [done|]. split; [done|]. exists t. cbn. by rewrite lookup_insert_eq.
  - intros k _. apply Hwd.
  - intros k [? _]. lia.
  - intros k k' [? _]. lia.
  - intros k j [? _]. lia.
  - intros k j k' j' [? _]. lia.
Qed.

Lemma clone_pgd_child :
  left_from slots 0 + 1 <= zlen (ps_fresh s0) -> frames_left (ps_pmm s0) (left_from pages 0) ->
  exists s d, clone_pgd s0 original = Some (s, d) /\ child s d 1024 (1024 * 1024).
Proof.
  intros Hfr Hfl. destruct (child_start Hfr) as (s&d&Hrun&Hc&Hpm&Hfs).
  unfold clone_pgd. rewrite Hrun. cbn [mbind option_bind].
  destruct (clone_tables_spec 1024 s d 0) as (s'&Hrun'&Hc'); try done; [by rewrite Hpm|].
  rewrite Hrun'. cbn [mbind option_bind]. by exists s', d.
Qed.

Section result.
  Context (s : pstate) (d : Z) (Hc : child s d 1024 (1024 * 1024)).

Lemma slot_decide k : 0 <= k < 1024 -> slot k \/ ~ slot k.
Proof. intros Hk. unfold slot. destruct (decide (word s0 original k = 0)), (decide (k < 768)); lia. Qed.
Lemma child_word_old k : ~ slot k -> word s d k = word s0 original k /\ table_of s d k = table_of s0 original k.
Proof.
  intros Hk. assert (Hw : word s d k = word s0 original k) by (apply (c_word _ _ _ _ Hc); tauto).
  split; [done|]. unfold table_of. by rewrite Hw.
Qed.

Lemma child_pgd_ok : pgd_ok s d.
Proof.
  pose proof (c_grown _ _ _ _ Hc) as Hg. pose proof (us_pgd _ _ Hspace) as Ho. destruct (c_dir _ _ _ _ Hc) as [Hd Hd0].
  assert (Hold : forall k, 0 <= k < 1024 -> table_of s0 original k <> 0 -> is_Some (ps_tables s0 !! table_of s0 original k)).
  { intros k Hk Hnz. destruct (po_tables _ _ Ho k Hk Hnz) as [(_&_&t&Ht&_) _]. by exists t. }
  constructor; [done| | |].
  - intros k Hk Hnz. destruct (slot_decide k Hk) as [Hs|Hs].
    + destruct (c_new _ _ _ _ Hc k Hs ltac:(lia)) as (?&_&?&_). done.
    + destruct (child_word_old k Hs) as [_ ->]. destruct (child_word_old k Hs) as [_ Ht]. rewrite Ht in Hnz.
      destruct (po_tables _ _ Ho k Hk Hnz) as [Hok _]. split; [by apply grown_table_ok|].
      intros E. destruct (Hold k Hk Hnz) as [t Htb]. congruence.
  - intros k k' Hk Hk' Hnz Heq. destruct (slot_decide k Hk) as [Hs|Hs], (slot_decide k' Hk') as [Hs'|Hs'].
    + apply (c_inj _ _ _ _ Hc); done || lia.
    + exfalso. destruct (child_word_old k' Hs') as [_ Ht]. rewrite Ht in Heq.
      destruct (c_new _ _ _ _ Hc k Hs ltac:(lia)) as (_&Hn&_). destruct (Hold k' Hk') as [t Htb]; [congruence|]. congruence.
    + exfalso. destruct (child_word_old k Hs) as [_ Ht]. rewrite Ht in Heq, Hnz.
      destruct (c_new _ _ _ _ Hc k' Hs' ltac:(lia)) as (_&Hn&_). destruct (Hold k Hk Hnz) as [t Htb]. congruence.
    + destruct (child_word_old k Hs) as [_ Ht], (child_word_old k' Hs') as [_ Ht']. rewrite Ht in *. rewrite Ht' in *.
      by apply (po_inj _ _ Ho).
  - intros k. destruct (decide (0 <= k < 1024)) as [Hk|Hk]; [destruct (slot_decide k Hk) as [Hs|Hs]|].
    + by destruct (c_new _ _ _ _ Hc k Hs ltac:(lia)) as (_&_&_&?).
    + destruct (child_word_old k Hs) as [-> _]. apply (po_low _ _ Ho).
    + destruct (child_word_old k) as [-> _]; [unfold slot; lia|]. apply (po_low _ _ Ho).
Qed.

(** The entries of the child, page by page. *)
Lemma child_entry x : user_addr x -> page_copied s0 s (entry s0 original x) (entry s d x).
Proof.
  intros Hx. unfold user_addr, VIRT_BASE in Hx. destruct (index_ranges x ltac:(lia)) as [Hi Hj].
  assert (Hi' : pde_index x < 768) by (unfold pde_index, PAGE_SIZE, PAGE_TABLE_SIZE; apply Z.div_lt_upper_bound; lia).
  unfold entry, ent. set (k := pde_index x) in *. set (j := pte_index x) in *.
  destruct (slot_decide k Hi) as [Hs|Hs].
  - destruct (slot_table k Hs) as [_ Hnz]. destruct (Z.eqb_spec (table_of s0 original k) 0); [done|].
    destruct (c_new _ _ _ _ Hc k Hs ltac:(lia)) as ((Ht&_)&_). unfold VIRT_BASE in Ht.
    destruct (Z.eqb_spec (table_of s d k) 0); [lia|]. pose proof (c_page _ _ _ _ Hc k j Hs ltac:(lia) Hj) as Hp.
    destruct (k * 1024 + j <? 1024 * 1024) eqn:?; [exact Hp|lia].
  - destruct (child_word_old k Hs) as [Hw Ht].
    assert (Hz : word s0 original k = 0) by (destruct (decide (word s0 original k = 0)); [done|by exfalso; apply Hs; split; [lia|]]).
    assert (Htz : table_of s0 original k = 0) by (unfold table_of; by rewrite Hz).
    rewrite Ht, Htz. done.
Qed.
Lemma child_entry_frame x : user_addr x -> entry s d x <> 0 ->
  exists f, PTE_EXTRACT_ADDR (entry s d x) = 4096 * f /\ frame_used (ps_pmm s) f /\ ~ frame_used (ps_pmm s0) f
    /\ entry s0 original x <> 0 /\ ps_frames s !! (4096 * f) = ps_frames s0 !! PTE_EXTRACT_ADDR (entry s0 original x).
Proof.
  intros Hx Hne. pose proof (child_entry x Hx) as Hp. unfold page_copied in Hp.
  destruct (Z.eqb_spec (entry s0 original x) 0); [done|]. destruct Hp as (f&->&Hu&Hn&Hf). exists f.
  destruct (g_pmm _ _ (c_grown _ _ _ _ Hc)) as [_ Hsz]. destruct Hu as [Hfr Hft]. split_and!; try done.
  rewrite extract_make by lia. rewrite (Z.mul_comm 4096 f), Z.div_mul by lia. lia.
Qed.

Lemma original_entry x : user_addr x -> entry s original x = entry s0 original x.
Proof.
  intros Hx. pose proof (c_grown _ _ _ _ Hc) as Hg. unfold user_addr, VIRT_BASE in Hx.
  destruct (index_ranges x ltac:(lia)) as [Hi _]. unfold entry, ent. rewrite original_table by done.
  destruct (Z.eqb_spec (table_of s0 original (pde_index x)) 0) as [|Hnz]; [done|]. apply grown_word; [done|].
  destruct (po_tables _ _ (us_pgd _ _ Hspace) _ Hi Hnz) as [(_&_&t&Ht&_) _]. by exists t.
Qed.

Lemma child_task_space : task_space s d.
Proof.
  pose proof (c_grown _ _ _ _ Hc) as Hg. constructor; [exact child_pgd_ok|apply Hg|apply Hg|apply Hg| |].
  - intros x Hx Hne. destruct (child_entry_frame x Hx Hne) as (f&?&?&_). by exists f.
  - intros x y Hx Hy Hnx Hny Heq. unfold user_addr, VIRT_BASE in *.
    destruct (index_ranges x ltac:(lia)) as [Hi Hj], (index_ranges y ltac:(lia)) as [Hi' Hj'].
    assert (Hp : forall z, 0 <= z < 0xC0000000 -> entry s d z <> 0 -> slot (pde_index z)).
    { intros z Hz Hnz. destruct (index_ranges z ltac:(lia)) as [Hzi _].
      assert (pde_index z < 768) by (unfold pde_index, PAGE_SIZE, PAGE_TABLE_SIZE; apply Z.div_lt_upper_bound; lia).
      split; [lia|]. intros Hw. apply Hnz. unfold entry, ent. destruct (child_word_old (pde_index z)) as [_ Ht].
      { intros [_ Hs]. done. }
      rewrite Ht. unfold table_of. by rewrite Hw. }
    apply index_page; [lia|lia|]. pose proof (Hp x Hx Hnx) as Hsx. pose proof (Hp y Hy Hny) as Hsy.
    unfold entry, ent in *. destruct (table_of s d (pde_index x) =? 0); [done|]. destruct (table_of s d (pde_index y) =? 0); [done|].
    by apply (c_frame _ _ _ _ Hc); [..|lia|lia| | | | |].
Qed.
Lemma original_task_space : task_space s original.
Proof.
  pose proof (c_grown _ _ _ _ Hc) as Hg. destruct Hspace as [H1 H2 H3 H4 H5 H6]. constructor; try apply Hg.
  - destruct H1 as [P1 P2 P3 P4]. constructor.
    + by apply grown_table_ok.
    + intros k Hk. rewrite original_table by done. intros Hnz. destruct (P2 k Hk Hnz). split; [by apply grown_table_ok|done].
    + intros k k'. rewrite (original_table s k Hg), (original_table s k' Hg). apply P3.
    + intros k. rewrite original_word by done. apply P4.
  - intros x Hx. rewrite original_entry by done. intros Hne. destruct (H5 x Hx Hne) as (f&?&?). exists f. split; [done|].
    by apply (g_used _ _ Hg).
  - intros x y Hx Hy. rewrite !original_entry by done. by apply H6.
Qed.

Lemma child_load x : user_addr x -> space_load (Space d s) x = space_load (Space original s0) x.
Proof.
  intros Hx. unfold space_load. rewrite !page_frame_entry by auto with kernel. cbn [sp_pages].
  pose proof (child_entry x Hx) as Hp. unfold page_copied in Hp.
  destruct (Z.eqb_spec (entry s0 original x) 0) as [E|E]; [by rewrite Hp|].
  assert (Hne : entry s d x <> 0).
  { destruct Hp as (f&->&[Hfr _]&_). destruct (g_pmm _ _ (c_grown _ _ _ _ Hc)) as [_ Hsz].
    match goal with |- make_pte ?a ?b ?c <> 0 => pose proof (make_pte_range a b c ltac:(lia)); lia end. }
  destruct (Z.eqb_spec (entry s d x) 0); [done|]. cbn [mbind option_bind].
  destruct (child_entry_frame x Hx Hne) as (f&->&_&_&_&->). done.
Qed.
Lemma original_load x : user_addr x -> space_load (Space original s) x = space_load (Space original s0) x.
Proof.
  intros Hx. unfold space_load. rewrite !page_frame_entry by auto with kernel. cbn [sp_pages].
  rewrite original_entry by done. destruct (Z.eqb_spec (entry s0 original x) 0); [done|]. cbn [mbind option_bind].
  destruct (us_used _ _ Hspace x Hx ltac:(done)) as (f&->&Hf). by rewrite (g_frames _ _ (c_grown _ _ _ _ Hc)).
Qed.
Lemma frames_apart x y : user_addr x -> user_addr y -> entry s d x <> 0 -> entry s original y <> 0 ->
  PTE_EXTRACT_ADDR (entry s d x) <> PTE_EXTRACT_ADDR (entry s original y).
Proof.
  intros Hx Hy Hnx. rewrite original_entry by done. intros Hny Heq.
  destruct (child_entry_frame x Hx Hnx) as (f&Hf&_&Hn&_). destruct (us_used _ _ Hspace y Hy Hny) as (g&Hg&Hgu).
  assert (f = g) as -> by lia. done.
Qed.
End result.
End clone.

(** ** Two address spaces without a common frame *)
Lemma store_apart s d e x b m' :
  (forall y, user_addr y -> entry s d x <> 0 -> entry s e y <> 0 ->
     PTE_EXTRACT_ADDR (entry s d x) <> PTE_EXTRACT_ADDR (entry s e y)) ->
  user_addr x -> space_store (Space d s) x b = Some m' ->
  forall y, user_addr y -> space_load (Space e (sp_pages m')) y = space_load (Space e s) y.
Proof.
  intros Hap Hx Hst y Hy. unfold space_store in Hst. rewrite page_frame_entry in Hst by auto with kernel.
  destruct (Z.eqb_spec (entry s d x) 0) as [|Hnx]; [done|]. cbn [mbind option_bind sp_pages] in Hst.
  destruct (ps_frames s !! _) as [bytes|]; [|done]. cbn [mbind option_bind] in Hst.
  destruct (_ <? _); [|done]. apply Some_inj in Hst. subst m'. cbn [sp_pages]. unfold space_load.
  rewrite !page_frame_entry by auto with kernel. cbn [sp_pages sp_pgd].
  change (entry (with_frames _ s) e y) with (entry s e y).
  destruct (Z.eqb_spec (entry s e y) 0); [done|]. cbn [mbind option_bind ps_frames with_frames].
  rewrite lookup_insert_ne; [done|]. by apply Hap.
Qed.

Lemma left_from_all l q : left_from l q <= zlen l.
Proof.
  unfold left_from. induction l as [|x l IH]; [done|]. rewrite filter_cons. destruct (decide (q <= x)); rewrite !zlen_cons; lia.
Qed.
Lemma getbit_bool e n : getbit e n = b2z (getbit e n =? 1).
Proof.
  unfold getbit. change 1 with (Z.ones 1). rewrite Z.land_ones by done. change (Z.ones 1) with 1.
  pose proof (Z.mod_pos_bound (Z.shiftr e n) (2 ^ 1) ltac:(done)). change (2 ^ 1) with 2 in *.
  destruct (Z.eqb_spec (Z.shiftr e n mod 2) 1) as [->|]; [done|]. cbn. lia.
Qed.
Lemma page_copied_flags s0 s e e' : bm_size (ps_pmm s) <= 2 ^ 20 -> page_copied s0 s e e' ->
  getbit e' PTE_RW_SHIFT = getbit e PTE_RW_SHIFT /\ getbit e' PTE_USER_SHIFT = getbit e PTE_USER_SHIFT.
Proof.
  intros Hsz. unfold page_copied. destruct (Z.eqb_spec e 0) as [->|]; [by intros ->|].
  intros (f&->&[Hf _]&_).
  destruct (make_pte_roundtrip (4096 * f) (getbit e PTE_RW_SHIFT =? 1) (getbit e PTE_USER_SHIFT =? 1)) as (_&_&->&->&_); [lia|].
  by rewrite <- !getbit_bool.
Qed.

(** [clone_pgd] copies an address space, as fork needs it.  With enough
    memory it succeeds; the child reads the same byte as the original at every
    address, page by page with the same write and user permission; the
    original is unchanged; both are well-formed, the kernel's part is shared;
    and from then on a store through either is not seen through the other. *)
Lemma clone_pgd_copies s0 original pages slots :
  task_space s0 original ->
  (forall k, 0 <= k < 768 -> word s0 original k <> 0 -> table_of s0 original k <> 0) ->
  (forall x, user_addr x -> entry s0 original x <> 0 -> x / 4096 ∈ pages) ->
  (forall k, 0 <= k < 768 -> word s0 original k <> 0 -> k ∈ slots) ->
  zlen slots + 1 <= zlen (ps_fresh s0) -> frames_left (ps_pmm s0) (zlen pages) ->
  exists s d, clone_pgd s0 original = Some (s, d) /\ task_space s d /\ task_space s original
    /\ (forall x, user_addr x ->
         space_load (Space d s) x = space_load (Space original s0) x
         /\ space_load (Space original s) x = space_load (Space original s0) x
         /\ getbit (entry s d x) PTE_RW_SHIFT = getbit (entry s0 original x) PTE_RW_SHIFT
         /\ getbit (entry s d x) PTE_USER_SHIFT = getbit (entry s0 original x) PTE_USER_SHIFT)
    /\ (forall k, 768 <= k < 1024 -> word s d k = word s0 original k)
    /\ (forall x y b m, user_addr x -> user_addr y ->
         (space_store (Space d s) x b = Some m -> space_load (Space original (sp_pages m)) y = space_load (Space original s) y)
         /\ (space_store (Space original s) x b = Some m -> space_load (Space d (sp_pages m)) y = space_load (Space d s) y)).
Proof.
  intros Hsp Hd Hp Hs Hfr Hfl.
  assert (Hp' : forall k j, slot s0 original k -> 0 <= j < 1024 -> old_word s0 original k j <> 0 -> k * 1024 + j ∈ pages).
  { intros k j Hk Hj Hne. destruct (old_word_entry s0 original Hd k j Hk Hj) as [Hx He].
    specialize (Hp _ Hx). rewrite He, Z.div_mul in Hp by lia. by apply Hp. }
  pose proof (left_from_all slots 0). pose proof (left_from_all pages 0).
  destruct (clone_pgd_child s0 original Hsp Hd pages slots Hp') as (s&d&Hrun&Hc).
  { intros k [Hk Hw]. by apply Hs. }
  { lia. }
  { by apply (frames_left_le _ (zlen pages)). }
  exists s, d. split; [done|]. split; [by eapply child_task_space|]. split; [by eapply original_task_space|].
  split; [|split].
  - intros x Hx. split; [by eapply child_load|]. split; [by eapply original_load|].
    destruct (g_pmm _ _ (c_grown _ _ _ _ _ _ Hc)) as [_ Hsz].
    eapply page_copied_flags; [exact Hsz|]. by eapply child_entry.
  - intros k Hk. eapply child_word_old; [exact Hc|]. unfold slot. lia.
  - intros x y b m Hx Hy. split; intros Hst; (eapply store_apart; [|exact Hx|exact Hst|exact Hy]); intros z Hz Hn1 Hn2.
    + by eapply frames_apart.
    + intros Heq. symmetry in Heq. revert Heq. by eapply frames_apart.
Qed.

(** A task with one page mapped. *)
Definition fork_example : pstate :=
  match map_addr memory_example 0xC0001000 0x401000 1 true false with Some (s, _) => s | None => memory_example end.
Lemma fork_example_space :
  task_space fork_example 0xC0001000 /\ frames_left (ps_pmm fork_example) 1 /\ 2 <= zlen (ps_fresh fork_example)
  /\ (forall x, user_addr x -> entry fork_example 0xC0001000 x <> 0 -> x / 4096 ∈ [0x401]).
Proof.
  destruct memory_example_ok as [_ [Hfl Hfr]].
  destruct (map_one_page memory_example 0xC0001000 0x401000 4 true) as (s&r&Hrun&Hsp&_&Hfl'&Hfr'&_&He); try done.
  { exact memory_example_space. }
  unfold fork_example. rewrite Hrun. split_and!; try done.
  - by apply (frames_left_le _ _ _ Hfl').
  - change (zlen (ps_fresh memory_example)) with 4 in *. lia.
  - intros x Hx. unfold user_addr, VIRT_BASE in Hx. rewrite He by lia. rewrite !memory_example_entry.
    unfold same_page. change (0x401000 / 4096) with 0x401.
    destruct (Z.eqb_spec (x / 4096) 0x401) as [->|]; [intros _; apply list_elem_of_here|by intros []].
Qed.
Lemma fork_example_slots k : 0 <= k < 768 ->
  word fork_example 0xC0001000 k <> 0 -> table_of fork_example 0xC0001000 k <> 0 /\ k ∈ [1].
Proof.
  intros Hk Hw.
  assert (Hall : forallb (fun k => (word fork_example 0xC0001000 k =? 0)
    || (negb (table_of fork_example 0xC0001000 k =? 0) && (k =? 1))) (seqZ 0 768) = true) by (vm_compute; reflexivity).
  rewrite forallb_forall in Hall. specialize (Hall k). cbv beta in Hall.
  destruct (Z.eqb_spec (word fork_example 0xC0001000 k) 0); [done|].
  destruct (Z.eqb_spec (table_of fork_example 0xC0001000 k) 0), (Z.eqb_spec k 1) as [->|];
    try (discriminate Hall; apply list_elem_of_In, elem_of_seqZ; lia).
  split; [done|apply list_elem_of_here].
Qed.
