(* ===== verification/Kernel.v ===== *)
(** * Kernel: include/depthos/proc.h, signal.h and kernel.h

    The data of tasks, processes and signals, the state that the process code
    works on, and the monad it is written in.  Structures live in stores
    indexed by address; lists are the sequences of their values, with the
    entries' addresses where the code keeps them.  A function that gives up
    the processor does not return: it ends in [Reschedule] or [RescheduleTo]. *)
From S2P Require Import Prelude DList Pmm Paging Vmm Vfs UserMem.

(** ** Registers on the kernel stack (struct registers) *)
Inductive register :=
  | fs | gs | es | ds | edi | esi | ebp | esp | ebx | edx | ecx | eax
  | int_num | err_code | trace_frame | eip | cs | eflags | useresp | ss.
Definition all_registers : list register :=
  [fs; gs; es; ds; edi; esi; ebp; esp; ebx; edx; ecx; eax; int_num; err_code; trace_frame; eip; cs; eflags;
   useresp; ss].
#[global] Instance register_eq_dec : EqDecision register.
Proof. solve_decision. Defined.
(** The offset of a member of the packed structure. *)
Definition reg_offset (r : register) : Z :=
  match r with
  | fs => 0 | gs => 4 | es => 8 | ds => 12 | edi => 16 | esi => 20 | ebp => 24 | esp => 28 | ebx => 32
  | edx => 36 | ecx => 40 | eax => 44 | int_num => 48 | err_code => 52 | trace_frame => 56 | eip => 60
  | cs => 64 | eflags => 68 | useresp => 72 | ss => 76
  end.
Definition REGISTERS_SIZE := 80.

(** ** Signals *)
Definition SIGKILL := 9.
Definition SIGCHLD := 17.
Definition SIGSTOP := 19.
Definition SIGURG := 23.
Definition SIGWINCH := 28.
Definition NSIG := 34.
Definition SIGNAL_DEFAULT_ACTION := 0.
Definition SIGNAL_IGNORE_ACTION := 0xFFFFFFFF.
Definition SIGNAL_MAX_QUEUE_SIZE := 1024.
Record signal := Signal {
  number : Z; code : Z; sig_errno : Z; sig_pid : Z; uid : Z; fault_addr : Z; status : Z; band : Z; queue_val : Z
}.
Record signal_handler := Handler { h_entry : Z; restorer : Z; h_flags : Z; h_mask : Z }.
Definition no_handler := Handler 0 0 0 0.

(** ** Processes and tasks *)
Definition TASK_FILETABLE_MAX := 256.
Definition KSTACK_SIZE := PAGE_SIZE * 10.
Definition STACK_SIZE := PAGE_SIZE * 100.
Inductive process_state := PROCESS_STARTING | PROCESS_RUNNING | PROCESS_SUSPENDED | PROCESS_EXITED | PROCESS_DEAD.
Inductive task_state := TASK_STARTING | TASK_RUNNING | TASK_SUSPENDED | TASK_SLEEPING | TASK_DYING.
#[global] Instance process_state_eq_dec : EqDecision process_state.
Proof. solve_decision. Defined.
#[global] Instance task_state_eq_dec : EqDecision task_state.
Proof. solve_decision. Defined.

(** [children]: an entry and a process each; [threads]: tasks. *)
Record process := Process {
  p_pid : Z; p_filepath : list Z; p_cwd : list Z; p_argv : Z; p_envp : Z; p_state : process_state;
  exit_code : Z; p_signal : Z; p_parent : Z; parent_entry : Z; children : list (Z * Z); threads : list Z;
  p_filetable : Z
}.
#[export] Instance eta_process : Eta process := fun p =>
  Process (p_pid p) (p_filepath p) (p_cwd p) (p_argv p) (p_envp p) (p_state p) (exit_code p) (p_signal p)
    (p_parent p) (parent_entry p) (children p) (threads p) (p_filetable p).

(** [signal_queue] and [t_filetable] are addresses: tasks share them. *)
Record task := Task {
  t_name : list Z; t_state : task_state; thid : Z; kernel_stack : Z; kernel_esp : Z; t_stack : Z; t_pgd : Z;
  t_mmap_bump_idx : Z; t_regs : Z; gs_base : Z; fs_base : Z; running_time : Z; wake_time : Z; t_entry : Z;
  t_filetable : Z; t_vm_areas : option clist; signal_handlers : list signal_handler;
  signal_mask_current : Z; signal_mask : Z; signal_queue : Z; t_parent : Z; t_process : Z; sched_entry : Z
}.
#[export] Instance eta_task : Eta task := fun t =>
  Task (t_name t) (t_state t) (thid t) (kernel_stack t) (kernel_esp t) (t_stack t) (t_pgd t)
    (t_mmap_bump_idx t) (t_regs t) (gs_base t) (fs_base t) (running_time t) (wake_time t) (t_entry t)
    (t_filetable t) (t_vm_areas t) (signal_handlers t) (signal_mask_current t) (signal_mask t)
    (signal_queue t) (t_parent t) (t_process t) (sched_entry t).

(** [k_stacks] are the words of the kernel stacks; [tasklist]: an entry and a
    task each; [cr3] is the active directory; [cpu_gs], [cpu_fs] and
    [cpu_esp0] the bases and the kernel stack set for the processor;
    [k_fresh] the addresses that the next [kmalloc]s return. *)
Record kstate := KState {
  k_tasks : gmap Z task; k_procs : gmap Z process; k_stacks : gmap Z Z; k_queues : gmap Z (list signal);
  k_ftables : gmap Z (list Z); k_entries : gmap Z list_entry; k_areas : gmap Z vm_area; k_pages : pstate;
  cr3 : Z; k_vfs : vfs; tasklist : list (Z * Z); current_entry : Z; current_task : Z; sched_preempt : bool;
  pit_ticks : Z; current_pid : Z; free_pid : list Z; k_errno : Z; cpu_gs : Z; cpu_fs : Z; cpu_esp0 : Z;
  k_fresh : list Z
}.
#[export] Instance eta_kstate : Eta kstate := fun s =>
  KState (k_tasks s) (k_procs s) (k_stacks s) (k_queues s) (k_ftables s) (k_entries s) (k_areas s) (k_pages s)
    (cr3 s) (k_vfs s) (tasklist s) (current_entry s) (current_task s) (sched_preempt s) (pit_ticks s)
    (current_pid s) (free_pid s) (k_errno s) (cpu_gs s) (cpu_fs s) (cpu_esp0 s) (k_fresh s).

(** ** The monad *)
Inductive ctl (A : Type) := Return (a : A) | Reschedule | RescheduleTo (t : Z).
Arguments Return {A} a.
Arguments Reschedule {A}.
Arguments RescheduleTo {A} t.
Definition K (A : Type) := kstate -> option (ctl A * kstate).
#[global] Instance K_ret : MRet K := fun A a s => Some (Return a, s).
#[global] Instance K_bind : MBind K := fun A B f m s =>
  match m s with
  | Some (Return a, s) => f a s
  | Some (Reschedule, s) => Some (Reschedule, s)
  | Some (RescheduleTo t, s) => Some (RescheduleTo t, s)
  | None => None
  end.
(** Undefined behaviour and panics. *)
Definition undefined {A} : K A := fun _ => None.
Definition get_state : K kstate := fun s => Some (Return s, s).
Definition modify (f : kstate -> kstate) : K unit := fun s => Some (Return tt, f s).
Definition opt {A} (o : option A) : K A := fun s => match o with Some a => Some (Return a, s) | None => None end.
Definition reads {A} (f : kstate -> option A) : K A := fun s => opt (f s) s.
Definition reschedule_now {A} : K A := fun s => Some (Reschedule, s).
Definition reschedule_to_now {A} (t : Z) : K A := fun s => Some (RescheduleTo t, s).

Definition get_task (t : Z) : K task := reads (fun s => k_tasks s !! t).
Definition put_task (t : Z) (x : task) : K unit := modify (fun s => s <| k_tasks := <[t := x]> (k_tasks s) |>).
Definition on_task (t : Z) (f : task -> task) : K unit := x ← get_task t; put_task t (f x).
Definition get_proc (p : Z) : K process := reads (fun s => k_procs s !! p).
Definition put_proc (p : Z) (x : process) : K unit := modify (fun s => s <| k_procs := <[p := x]> (k_procs s) |>).
Definition on_proc (p : Z) (f : process -> process) : K unit := x ← get_proc p; put_proc p (f x).
Definition current : K Z := reads (fun s => Some (current_task s)).
Definition get_queue (q : Z) : K (list signal) := reads (fun s => k_queues s !! q).
Definition put_queue (q : Z) (l : list signal) : K unit :=
  modify (fun s => s <| k_queues := <[q := l]> (k_queues s) |>).
(** [kmalloc]: the next fresh address. *)
Definition new_addr : K Z := fun s =>
  match k_fresh s with [] => None | a :: rest => Some (Return a, s <| k_fresh := rest |>) end.

(** A word of a kernel stack, and a member of the registers at an address. *)
Definition stack_word (a : Z) : K Z := reads (fun s => k_stacks s !! a).
Definition put_stack_word (a v : Z) : K unit := modify (fun s => s <| k_stacks := <[a := v]> (k_stacks s) |>).
Definition get_reg (regs : Z) (r : register) : K Z := stack_word (regs + reg_offset r).
Definition put_reg (regs : Z) (r : register) (v : Z) : K unit := put_stack_word (regs + reg_offset r) v.

(** Words at a user address, under the active directory. *)
Definition user_words (n : nat) (a : Z) : K (list Z) :=
  reads (fun s => load_words n (Space (cr3 s) (k_pages s)) a).
Definition put_user_words (a : Z) (ws : list Z) : K unit :=
  s ← get_state;
  m ← opt (store_words (Space (cr3 s) (k_pages s)) a ws);
  modify (fun s => s <| k_pages := sp_pages m |>).
Definition put_user_bytes (a : Z) (bs : list Z) : K unit :=
  s ← get_state;
  m ← opt (store_bytes (Space (cr3 s) (k_pages s)) a bs);
  modify (fun s => s <| k_pages := sp_pages m |>).
Definition activate_pgd (d : Z) : K unit := modify (fun s => s <| cr3 := d |>).

(** [for (x in l) f(x)]. *)
Fixpoint for_each {A} (l : list A) (f : A -> K unit) : K unit :=
  match l with [] => mret tt | x :: l => _ ← f x; for_each l f end.

(** ** Running the monad *)
Lemma run_bind {A B} (m : K A) (f : A -> K B) s a s' :
  m s = Some (Return a, s') -> (m ≫= f) s = f a s'.
Proof. intros H. unfold mbind, K_bind. by rewrite H. Qed.
Lemma run_reads {A} (f : kstate -> option A) s a : f s = Some a -> reads f s = Some (Return a, s).
Proof. intros H. unfold reads. by rewrite H. Qed.
Lemma run_opt {A} (o : option A) s a : o = Some a -> opt o s = Some (Return a, s).
Proof. by intros ->. Qed.
Lemma run_on_task t f s x :
  k_tasks s !! t = Some x -> on_task t f s = Some (Return tt, s <| k_tasks := <[t := f x]> (k_tasks s) |>).
Proof. intros H. unfold on_task. by erewrite run_bind by (by apply run_reads). Qed.
Lemma run_on_proc p f s x :
  k_procs s !! p = Some x -> on_proc p f s = Some (Return tt, s <| k_procs := <[p := f x]> (k_procs s) |>).
Proof. intros H. unfold on_proc. by erewrite run_bind by (by apply run_reads). Qed.

(** Runs the next operation, its result known from the context. *)
Ltac kstep :=
  erewrite run_bind by (first [ by apply run_reads | by apply run_opt | by apply run_on_task | by apply run_on_proc
                              | reflexivity ]); cbv beta iota.
