(* ===== verification/Thread.v ===== *)
(** * Thread: the scheduler's task list and the end of threads and processes

    sched_add and sched_remove of kernel/sched.c; process numbers,
    thread_destroy, process_kill and process_delete of kernel/proc.c. *)
From S2P Require Import Prelude CString Paging Kernel.

Definition sched_add (t : Z) : K unit :=
  e ← new_addr;
  _ ← modify (fun s => s <| tasklist := tasklist s ++ [(e, t)] |>);
  on_task t (fun x => x <| t_state := TASK_STARTING |> <| sched_entry := e |>).

(** The list without the entry; no such entry: the pointer is not of the list. *)
Definition remove_entry (l : list (Z * Z)) (e : Z) : option (list (Z * Z)) :=
  if decide (e ∈ l.*1) then Some (filter (fun x => x.1 <> e) l) else None.
Definition sched_remove (t : Z) : K unit :=
  x ← get_task t;
  s ← get_state;
  l ← opt (remove_entry (tasklist s) (sched_entry x));
  _ ← modify (fun s => s <| tasklist := l |>);
  on_task t (fun x => x <| sched_entry := 0 |>).

Definition generate_pid : K Z :=
  s ← get_state;
  match free_pid s with
  | pid :: rest => _ ← modify (fun s => s <| free_pid := rest |>); mret pid
  | [] => _ ← modify (fun s => s <| current_pid := s32 (current_pid s + 1) |>); mret (current_pid s)
  end.

(** The page directory is freed with every thread: it must still be there. *)
Definition free_pgd (d : Z) : K unit :=
  s ← get_state;
  _ ← opt (ps_tables (k_pages s) !! d);
  modify (fun s => s <| k_pages := with_tables (delete d (ps_tables (k_pages s))) (k_pages s) |>).
Definition thread_destroy (t : Z) : K unit :=
  _ ← sched_remove t;
  x ← get_task t;
  _ ← opt (strlen (t_name x));
  _ ← free_pgd (t_pgd x);
  modify (fun s => s <| k_tasks := delete t (k_tasks s) |>).

(** Killing a process without parent is a panic. *)
Definition kill_thread (t : Z) : K unit :=
  c ← current;
  if c =? t then on_task c (fun x => x <| t_state := TASK_DYING |>) else thread_destroy t.
Definition process_kill (p : Z) : K unit :=
  pr ← get_proc p;
  _ ← for_each (threads pr) kill_thread;
  if p_parent pr =? 0 then undefined else
  _ ← opt (strlen (p_filepath pr));
  c ← current;
  x ← get_task c;
  if t_process x =? p then reschedule_now else mret tt.

Definition process_delete (p : Z) : K unit :=
  pr ← get_proc p;
  pa ← get_proc (p_parent pr);
  l ← opt (remove_entry (children pa) (parent_entry pr));
  _ ← put_proc (p_parent pr) (pa <| children := l |>);
  _ ← modify (fun s => s <| free_pid := free_pid s ++ [p_pid pr] |>);
  modify (fun s => s <| k_procs := delete p (k_procs s) |>).
