(* ===== verification/Signal.v ===== *)
(** * Signal: kernel/signal.c

    Registering, sending, queueing, delivering signals and returning from
    their handlers.  A delivery builds a frame on the user stack: the signal,
    the interrupted context, a signal_frame that points to both, and the
    address the handler returns to. *)
From S2P Require Import Prelude Pmm Paging Vfs UserMem Kernel Thread.

(** [1 << number], an [int] converted to the 64-bit mask; shifts of 32 and
    more are undefined. *)
Definition sigbit (n : Z) : option Z :=
  if (0 <=? n) && (n <? 32) then Some (u64 (s32 (Z.shiftl 1 n))) else None.
Definition masked (t : task) (m : Z) : bool :=
  negb (Z.land (signal_mask_current t) m =? 0) || negb (Z.land (signal_mask t) m =? 0).

(** A handler is four members in five words. *)
Definition handler_words (h : signal_handler) : list Z :=
  [h_entry h; restorer h; u32 (h_flags h); u32 (h_mask h); u32 (Z.shiftr (h_mask h) 32)].
Definition handler_of_words (ws : list Z) : option signal_handler :=
  match ws with
  | [e; r; f; lo; hi] => Some (Handler e r (s32 f) (Z.lor lo (Z.shiftl hi 32)))
  | _ => None
  end.
(** [num] is at most [NSIG], one more than the table has: the model stops. *)
Definition sys_sigaction (num new old : Z) : K Z :=
  if (num <? 1) || (NSIG <? num) then mret (- EINVAL) else
  if (num =? SIGKILL) || (num =? SIGSTOP) then mret (- EINVAL) else
  c ← current;
  _ ← (if old =? 0 then mret tt
       else t ← get_task c; h ← opt (signal_handlers t !! Z.to_nat num); put_user_words old (handler_words h));
  _ ← (if new =? 0 then mret tt
       else ws ← user_words 5 new; h ← opt (handler_of_words ws);
            t ← get_task c; _ ← opt (signal_handlers t !! Z.to_nat num);
            put_task c (t <| signal_handlers := set (signal_handlers t) num h |>));
  t ← get_task c; _ ← opt (signal_handlers t !! Z.to_nat num);
  mret 0.

(** SIGNAL_TASK_CONTEXT_REGS: the saved registers in the order of the
    structure. *)
Definition context_regs : list register :=
  [eax; ecx; ebx; edx; ebp; esi; edi; eip; useresp; eflags; cs; ds; ss; es; fs; gs].
(** [struct signal_context]: the mask and [old_mask] in two words each, and
    the registers. *)
Definition CONTEXT_WORDS : nat := 20.
Definition CONTEXT_SIZE := 80.
Definition context_reg (ws : list Z) (i : nat) : Z := default 0 (ws !! (4 + i)%nat).

(** What [sigrestore] puts into each register: the segments are those of
    [regs], the flags are masked. *)
Definition restored (ws : list Z) (own : register -> Z) (i : nat) (r : register) : Z :=
  match r with
  | eflags => Z.land (context_reg ws i) 0x218DFF
  | cs | ds | ss | es | fs | gs => own r
  | _ => context_reg ws i
  end.
Definition sys_sigrestore (ctx : Z) : K unit :=
  c ← current;
  t ← get_task c;
  let regs := t_regs t in
  ws ← user_words CONTEXT_WORDS ctx;
  s ← get_state;
  let own r := default 0 (k_stacks s !! (regs + reg_offset r)) in
  let vs := imap (restored ws own) context_regs in
  _ ← put_user_words (u32 (ctx + 16)) vs;
  _ ← for_each (zip context_regs vs) (fun rv => put_reg regs rv.1 rv.2);
  on_task c (fun t => t <| signal_mask_current := Z.lor (default 0 (ws !! 2%nat)) (Z.shiftl (default 0 (ws !! 3%nat)) 32) |>).

Definition kill_with_signal (task num : Z) : K unit :=
  t ← get_task task;
  if negb (t_process t =? 0) then
    _ ← on_proc (t_process t) (fun p => p <| p_state := PROCESS_DEAD |> <| p_signal := num |>);
    process_kill (t_process t)
  else
    _ ← put_task task (t <| t_state := TASK_DYING |>);
    c ← current;
    if task =? c then reschedule_now else mret tt.

Definition default_signal_handler (task : Z) (s : signal) : K unit :=
  if (number s =? SIGCHLD) || (number s =? SIGURG) || (number s =? SIGWINCH) then mret tt
  else kill_with_signal task (number s).

Definition signal_words (s : signal) : list Z :=
  u32 <$> [number s; code s; sig_errno s; sig_pid s; uid s; fault_addr s; status s; band s; queue_val s].
Definition mask_words (m : Z) : list Z := [u32 m; u32 (Z.shiftr m 32)].

(** [PUSH]: the stack pointer below the value. *)
Definition push (sp : Z) (ws : list Z) : K Z :=
  let sp := u32 (sp - 4 * zlen ws) in _ ← put_user_words sp ws; mret sp.

(** The signal and then the context are pushed: the order in which the
    compiler evaluates the initialisers of the frame.  [old_mask] of the
    context has no initialiser: it is 0. *)
Definition signal_exec (kernel_pgd task : Z) (s : signal) : K unit :=
  t ← get_task task;
  if t_pgd t =? kernel_pgd then mret tt else
  if number s =? SIGKILL then kill_with_signal task (number s) else
  if number s =? SIGSTOP then put_task task (t <| t_state := TASK_SUSPENDED |>) else
  h ← opt (signal_handlers t !! Z.to_nat (number s));
  if h_entry h =? SIGNAL_DEFAULT_ACTION then default_signal_handler task s else
  if h_entry h =? SIGNAL_IGNORE_ACTION then mret tt else
  let regs := t_regs t in
  st ← get_state;
  bit ← opt (sigbit (number s));
  vs ← opt (mapM (fun r => k_stacks st !! (regs + reg_offset r)) context_regs);
  let mask := Z.lor (Z.lor (h_mask h) bit) (signal_mask t) in
  let pgd := cr3 st in
  sp ← get_reg regs useresp;
  _ ← activate_pgd (t_pgd t);
  info ← push sp (signal_words s);
  ctx ← push info (mask_words mask ++ mask_words 0 ++ vs);
  frame ← push ctx [u32 (number s); info; ctx];
  sp ← push frame [restorer h];
  _ ← activate_pgd pgd;
  _ ← put_reg regs useresp sp;
  _ ← put_reg regs eip (h_entry h);
  on_task task (fun t => t <| signal_mask_current := Z.lor (h_mask h) bit |>).

(** The first signal of the queue that is not blocked, and the queue without
    it. *)
Fixpoint fetch_loop (t : task) (before l : list signal) : option (option signal * list signal) :=
  match l with
  | [] => Some (None, before)
  | curr :: l =>
      m ← sigbit (number curr);
      if masked t m then fetch_loop t (before ++ [curr]) l else Some (Some curr, before ++ l)
  end.
Definition signal_fetch (task : Z) : K (option signal) :=
  t ← get_task task;
  q ← get_queue (signal_queue t);
  '(r, q) ← opt (fetch_loop t [] q);
  _ ← put_queue (signal_queue t) q;
  mret r.

(** A full queue fails an assertion. *)
Definition signal_send (kernel_pgd task : Z) (sig : signal) : K unit :=
  if (NSIG <? number sig) || (number sig <? 1) then mret tt else
  t ← get_task task;
  m ← opt (sigbit (number sig));
  if masked t m then
    q ← get_queue (signal_queue t);
    if zlen q =? SIGNAL_MAX_QUEUE_SIZE then undefined else put_queue (signal_queue t) (q ++ [sig])
  else signal_exec kernel_pgd task sig.

Definition signal_of_words (ws : list Z) : option signal :=
  match ws with
  | [n; c; e; p; u; f; st; b; v] => Some (Signal (s32 n) (s32 c) (s32 e) (s32 p) (s32 u) f (s32 st) (s32 b) v)
  | _ => None
  end.
Definition sys_sigselfsend (kernel_pgd s : Z) : K unit :=
  if s =? 0 then mret tt else
  ws ← user_words 9 s; sig ← opt (signal_of_words ws); c ← current; signal_send kernel_pgd c sig.

(** ** Frames on the user stack *)
Definition user_space (s : kstate) : space := Space (cr3 s) (k_pages s).

Lemma push_spec s sp ws lo hi :
  mprivate (user_space s) lo hi -> 0 <= lo -> hi <= 2 ^ 32 -> lo <= sp - 4 * zlen ws -> sp <= hi -> sp < 2 ^ 32 ->
  Forall (fun w => 0 <= w < 2 ^ 32) ws ->
  exists pg, push sp ws s = Some (Return (sp - 4 * zlen ws), s <| k_pages := pg |>)
    /\ mprivate (Space (cr3 s) pg) lo hi
    /\ forall n l, sp + 4 * Z.of_nat n <= hi -> load_words n (user_space s) sp = Some l ->
         load_words (length ws + n) (Space (cr3 s) pg) (sp - 4 * zlen ws) = Some (ws ++ l).
Proof.
  intros Hp Hlo Hhi Hsp Hsp' Hsp32 Hw. pose proof (zlen_nonneg ws).
  unfold push. rewrite (u32_id (sp - _)) by lia.
  destruct (store_words_spec (user_space s) lo hi (sp - 4 * zlen ws) ws Hp Hlo Hhi Hsp ltac:(lia) Hw)
    as (m&Hm&Hpm&Hl&Hf).
  destruct (store_words_same _ _ _ _ Hm) as [Hd _]. destruct m as [d pg]. simpl in Hd. subst d.
  exists pg. split.
  { erewrite run_bind; [|unfold put_user_words; kstep; kstep; reflexivity]. done. }
  split; [done|]. intros n l Hn Hload. fold (zlen ws) in *.
  rewrite load_words_app by (unfold zlen in *; lia). rewrite Hl. cbn [mbind option_bind].
  replace (sp - 4 * zlen ws + 4 * Z.of_nat (length ws)) with sp by (unfold zlen; lia).
  rewrite (load_words_ext (user_space s) _ lo hi), Hload by (lia || (intros; apply Hf; lia)). done.
Qed.

(** The registers at an address. *)
Definition regs_at (m : gmap Z Z) (base : Z) (v : register -> Z) : Prop :=
  forall r, m !! (base + reg_offset r) = Some (v r).

Lemma reg_offset_inj r r' : reg_offset r = reg_offset r' -> r = r'.
Proof. by destruct r, r'. Qed.

Lemma regs_at_put m base v r w :
  regs_at m base v -> regs_at (<[base + reg_offset r := w]> m) base (fun r' => if decide (r' = r) then w else v r').
Proof.
  intros H r'. destruct (decide (r' = r)) as [->|Hne]; [by rewrite lookup_insert_eq|].
  rewrite lookup_insert_ne; [apply H|]. intros He. apply Hne, reg_offset_inj. lia.
Qed.

Lemma regs_at_ext m base v v' : regs_at m base v -> (forall r, v r = v' r) -> regs_at m base v'.
Proof. intros H He r. rewrite <- He. apply H. Qed.

Lemma regs_at_mapM m base v l :
  regs_at m base v -> mapM (fun r => m !! (base + reg_offset r)) l = Some (v <$> l).
Proof. intros H. induction l as [|r l IH]; [done|]. simpl. by rewrite H, IH. Qed.

(** A signal that is delivered to a handler of its own. *)
Record delivers (kernel_pgd : Z) (t : task) (sig : signal) (h : signal_handler) (bit : Z) : Prop := Delivers {
  dv_user : t_pgd t <> kernel_pgd;
  dv_number : number sig <> SIGKILL /\ number sig <> SIGSTOP;
  dv_handler : signal_handlers t !! Z.to_nat (number sig) = Some h;
  dv_entry : h_entry h <> SIGNAL_DEFAULT_ACTION /\ h_entry h <> SIGNAL_IGNORE_ACTION;
  dv_bit : sigbit (number sig) = Some bit;
  dv_restorer : 0 <= restorer h < 2 ^ 32
}.
(** The context saved by a delivery. *)
Definition context_words (t : task) (h : signal_handler) (bit : Z) (v : register -> Z) : list Z :=
  mask_words (Z.lor (Z.lor (h_mask h) bit) (signal_mask t)) ++ mask_words 0 ++ (v <$> context_regs).
Definition FRAME_SIZE := 132.

Lemma words_range (l : list Z) : Forall (fun w => 0 <= w < 2 ^ 32) (u32 <$> l).
Proof. apply Forall_fmap, Forall_forall. intros x _. apply u32_range. Qed.
Lemma mask_words_range m : Forall (fun w => 0 <= w < 2 ^ 32) (mask_words m).
Proof. apply (words_range [m; Z.shiftr m 32]). Qed.

Lemma signal_exec_frame kernel_pgd t T sig h bit s v lo hi :
  k_tasks s !! t = Some T -> delivers kernel_pgd T sig h bit ->
  regs_at (k_stacks s) (t_regs T) v -> (forall r, 0 <= v r < 2 ^ 32) ->
  mprivate (Space (t_pgd T) (k_pages s)) lo hi -> 0 <= lo -> hi <= 2 ^ 32 ->
  lo <= v useresp - FRAME_SIZE -> v useresp <= hi ->
  exists s', signal_exec kernel_pgd t sig s = Some (Return tt, s')
    /\ k_tasks s' = <[t := T <| signal_mask_current := Z.lor (h_mask h) bit |>]> (k_tasks s)
    /\ cr3 s' = cr3 s /\ current_task s' = current_task s
    /\ regs_at (k_stacks s') (t_regs T) (fun r => match r with useresp => v useresp - FRAME_SIZE | eip => h_entry h | _ => v r end)
    /\ mprivate (Space (t_pgd T) (k_pages s')) lo hi
    /\ load_words 33 (Space (t_pgd T) (k_pages s')) (v useresp - FRAME_SIZE)
       = Some ([restorer h] ++ [u32 (number sig); v useresp - 36; v useresp - 116]
               ++ context_words T h bit v ++ signal_words sig).
Proof.
  intros HT [Hu [Hk Hs] Hh [He1 He2] Hb Hr] Hregs Hv Hp Hlo Hhi Hsp1 Hsp2. unfold FRAME_SIZE in *.
  unfold signal_exec. kstep. rewrite (proj2 (Z.eqb_neq _ _) Hu), (proj2 (Z.eqb_neq _ _) Hk), (proj2 (Z.eqb_neq _ _) Hs).
  kstep. rewrite (proj2 (Z.eqb_neq _ _) He1), (proj2 (Z.eqb_neq _ _) He2). kstep. kstep.
  erewrite run_bind by (by apply run_opt, regs_at_mapM). cbv beta.
  erewrite run_bind; [|apply run_reads, Hregs]. cbv beta zeta. kstep.
  set (s0 := s <| cr3 := t_pgd T |>).
  pose proof (Hv useresp) as Hvu.
  destruct (push_spec s0 (v useresp) (signal_words sig) lo hi) as (p1&E1&P1&L1);
    [done|done|done|change (zlen (signal_words sig)) with 9; lia|lia|lia|apply words_range|].
  erewrite run_bind by exact E1. cbv beta. change (zlen (signal_words sig)) with 9 in *.
  replace (v useresp - 4 * 9) with (v useresp - 36) in * by lia.
  set (s1 := s0 <| k_pages := p1 |>).
  fold (context_words T h bit v).
  assert (Hcw : Forall (fun w => 0 <= w < 2 ^ 32) (context_words T h bit v)).
  { unfold context_words. rewrite !Forall_app. split_and!; [apply mask_words_range..|].
    apply Forall_fmap, Forall_forall. intros r _. apply Hv. }
  destruct (push_spec s1 (v useresp - 36) (context_words T h bit v) lo hi) as (p2&E2&P2&L2);
    [done|done|done|change (zlen (context_words T h bit v)) with 20; lia|lia|lia|done|].
  erewrite run_bind by exact E2. cbv beta. change (zlen (context_words T h bit v)) with 20 in *.
  replace (v useresp - 36 - 4 * 20) with (v useresp - 116) in * by lia.
  set (s2 := s1 <| k_pages := p2 |>).
  destruct (push_spec s2 (v useresp - 116) [u32 (number sig); v useresp - 36; v useresp - 116] lo hi) as (p3&E3&P3&L3);
    [done|done|done|change (zlen _) with 3; lia|lia|lia| |].
  { constructor; [apply u32_range|constructor; [lia|constructor; [lia|constructor]]]. }
  erewrite run_bind by exact E3. cbv beta. change (zlen [_; _; _]) with 3 in *.
  replace (v useresp - 116 - 4 * 3) with (v useresp - 128) in * by lia.
  set (s3 := s2 <| k_pages := p3 |>).
  destruct (push_spec s3 (v useresp - 128) [restorer h] lo hi) as (p4&E4&P4&L4);
    [done|done|done|change (zlen _) with 1; lia|lia|lia|by apply Forall_singleton|].
  erewrite run_bind by exact E4. cbv beta. change (zlen [_]) with 1 in *.
  replace (v useresp - 128 - 4 * 1) with (v useresp - 132) in * by lia.
  kstep. kstep. kstep.
  eexists. split; [by apply run_on_task|]. split; [reflexivity|]. split; [reflexivity|]. split; [reflexivity|].
  split; [|split; [exact P4|]].
  - refine (regs_at_ext _ _ _ _ (regs_at_put _ _ _ eip (h_entry h)
      (regs_at_put _ _ _ useresp (v useresp - 132) Hregs)) _). by intros [].
  - pose proof (L1 0%nat [] ltac:(lia) eq_refl) as Hl. rewrite app_nil_r in Hl. apply L2 in Hl; [|simpl; lia].
    apply L3 in Hl; [|simpl; lia]. apply L4 in Hl; [|simpl; lia]. exact Hl.
Qed.

Lemma run_put_regs base l s :
  for_each l (fun rv : register * Z => put_reg base rv.1 rv.2) s
  = Some (Return tt, s <| k_stacks := foldl (fun m rv => <[base + reg_offset rv.1 := rv.2]> m) (k_stacks s) l |>).
Proof.
  revert s. induction l as [|[r w] l IH]; intros s; [by destruct s|]. cbn [for_each].
  erewrite run_bind by reflexivity. rewrite IH. reflexivity.
Qed.

Lemma regs_at_fold base l : forall m v, regs_at m base v ->
  regs_at (foldl (fun m (rv : register * Z) => <[base + reg_offset rv.1 := rv.2]> m) m l) base
    (foldl (fun v (rv : register * Z) r => if decide (r = rv.1) then rv.2 else v r) v l).
Proof. induction l as [|[r w] l IH]; intros m v H; [done|]. simpl. by apply IH, regs_at_put. Qed.

(** The registers after [sigrestore] from a context that saved [v]. *)
Definition resumed (v own : register -> Z) (r : register) : Z :=
  match r with
  | eflags => Z.land (v eflags) 0x218DFF
  | cs | ds | ss | es | fs | gs | int_num | err_code | trace_frame | esp => own r
  | _ => v r
  end.

Lemma land_range x m : 0 <= x -> 0 <= m < 2 ^ 32 -> 0 <= Z.land x m < 2 ^ 32.
Proof.
  intros Hx Hm. split; [apply Z.land_nonneg; lia|].
  rewrite <- (Z.mod_small m (2 ^ 32)) by lia. rewrite <- Z.land_ones, Z.land_assoc, Z.land_ones by lia.
  apply Z.mod_pos_bound. lia.
Qed.

Lemma join_words m : 0 <= m < 2 ^ 64 -> Z.lor (u32 m) (Z.shiftl (u32 (Z.shiftr m 32)) 32) = m.
Proof.
  intros Hm. apply Z.bits_inj'. intros n Hn. rewrite Z.lor_spec. destruct (decide (n < 32)).
  - rewrite testbit_u32, Z.shiftl_spec_low by lia. apply orb_false_r.
  - rewrite testbit_u32_high, Z.shiftl_spec by lia. simpl. destruct (decide (n < 64)).
    + rewrite testbit_u32, Z.shiftr_spec by lia. f_equal. lia.
    + rewrite testbit_u32_high by lia. symmetry. rewrite <- (Z.mod_small m (2 ^ 64)) by lia.
      apply Z.mod_pow2_bits_high. lia.
Qed.

Lemma sigrestore_spec s t T mask old v own lo hi ctx :
  current_task s = t -> k_tasks s !! t = Some T -> regs_at (k_stacks s) (t_regs T) own ->
  (forall r, 0 <= v r < 2 ^ 32) -> (forall r, 0 <= own r < 2 ^ 32) -> 0 <= old < 2 ^ 64 ->
  mprivate (user_space s) lo hi -> 0 <= lo -> hi <= 2 ^ 32 -> lo <= ctx -> ctx + CONTEXT_SIZE <= hi ->
  load_words 20 (user_space s) ctx = Some (mask_words mask ++ mask_words old ++ (v <$> context_regs)) ->
  exists s', sys_sigrestore ctx s = Some (Return tt, s')
    /\ k_tasks s' = <[t := T <| signal_mask_current := old |>]> (k_tasks s)
    /\ regs_at (k_stacks s') (t_regs T) (resumed v own).
Proof.
  unfold CONTEXT_SIZE. intros Ht HT Hregs Hv Hown Hold Hp Hlo Hhi Hc1 Hc2 Hload.
  unfold sys_sigrestore. kstep. rewrite Ht. kstep.
  erewrite run_bind by (by apply run_reads). cbv beta. kstep. cbv zeta.
  set (vs := imap _ context_regs).
  assert (Hvs : vs = resumed v own <$> context_regs).
  { unfold vs, context_regs, restored. cbn [imap fmap list_fmap compose].
    rewrite (Hregs cs), (Hregs ds), (Hregs ss), (Hregs es), (Hregs fs), (Hregs gs). reflexivity. }
  clearbody vs. subst vs.
  assert (Hr : forall r, 0 <= resumed v own r < 2 ^ 32).
  { intros []; try apply Hv; try apply Hown. apply land_range; [apply Hv|lia]. }
  rewrite u32_id by lia.
  destruct (store_words_spec (user_space s) lo hi (ctx + 16) (resumed v own <$> context_regs) Hp Hlo Hhi)
    as (m&Hm&_); [lia|change (zlen _) with 16; lia|by apply Forall_fmap, Forall_forall; intros r _; apply Hr|].
  erewrite run_bind; [|unfold put_user_words; kstep; kstep; reflexivity]. cbv beta.
  erewrite run_bind by apply run_put_regs. cbv beta.
  eexists. split; [by apply run_on_task|]. split.
  - change (<[t := T <| signal_mask_current := Z.lor (u32 old) (Z.shiftl (u32 (Z.shiftr old 32)) 32) |>]> (k_tasks s)
            = <[t := T <| signal_mask_current := old |>]> (k_tasks s)).
    by rewrite join_words.
  - refine (regs_at_ext _ _ _ _ (regs_at_fold _ _ _ _ Hregs) _). by intros [].
Qed.

(** C23: a delivered signal enters its handler on a frame that holds the
    handler's return address, the signal's number and the signal and the
    interrupted context it points to; when the handler's [sigrestore] gets
    that context back, every saved register is what it was, the flags masked,
    the segments being the handler's own, and no mask of an outer handler is
    left.  This is [sigrestore] itself: [exec_syscall] afterwards stores the
    result of the call in [eax]. *)
Theorem signal_roundtrip kernel_pgd t T sig h bit s v lo hi :
  k_tasks s !! t = Some T -> delivers kernel_pgd T sig h bit ->
  regs_at (k_stacks s) (t_regs T) v -> (forall r, 0 <= v r < 2 ^ 32) ->
  mprivate (Space (t_pgd T) (k_pages s)) lo hi -> 0 <= lo -> hi <= 2 ^ 32 ->
  lo <= v useresp - FRAME_SIZE -> v useresp <= hi ->
  let ctx := v useresp - 116 in
  exists s1, signal_exec kernel_pgd t sig s = Some (Return tt, s1)
    /\ regs_at (k_stacks s1) (t_regs T)
         (fun r => match r with useresp => v useresp - FRAME_SIZE | eip => h_entry h | _ => v r end)
    /\ load_words 33 (Space (t_pgd T) (k_pages s1)) (v useresp - FRAME_SIZE)
       = Some ([restorer h] ++ [u32 (number sig); v useresp - 36; ctx]
               ++ context_words T h bit v ++ signal_words sig)
    /\ k_tasks s1 = <[t := T <| signal_mask_current := Z.lor (h_mask h) bit |>]> (k_tasks s)
    /\ current_task s1 = current_task s /\ mprivate (Space (t_pgd T) (k_pages s1)) lo hi
    /\ forall s2 T2 own,
         current_task s2 = t -> k_tasks s2 !! t = Some T2 -> t_regs T2 = t_regs T -> cr3 s2 = t_pgd T ->
         regs_at (k_stacks s2) (t_regs T) own -> (forall r, 0 <= own r < 2 ^ 32) ->
         mprivate (user_space s2) lo hi ->
         load_words 20 (user_space s2) ctx = load_words 20 (Space (t_pgd T) (k_pages s1)) ctx ->
         exists s3, sys_sigrestore ctx s2 = Some (Return tt, s3)
           /\ k_tasks s3 = <[t := T2 <| signal_mask_current := 0 |>]> (k_tasks s2)
           /\ regs_at (k_stacks s3) (t_regs T) (resumed v own).
Proof.
  intros HT Hd Hregs Hv Hp Hlo Hhi Hsp1 Hsp2 ctx. unfold FRAME_SIZE in *.
  destruct (signal_exec_frame _ _ _ _ _ _ _ _ lo hi HT Hd Hregs Hv Hp Hlo Hhi Hsp1 Hsp2)
    as (s1&He&Ht1&_&Hc1&Hr1&Hp1&Hl1). unfold FRAME_SIZE in *.
  exists s1. split; [done|]. split; [done|]. split; [done|]. split; [done|]. split; [done|]. split; [done|].
  intros s2 T2 own Hc2 HT2 Hb2 Hcr2 Hregs2 Hown Hp2 Hl2. pose proof (Hv useresp).
  assert (Hctx : load_words 20 (Space (t_pgd T) (k_pages s1)) ctx = Some (context_words T h bit v)).
  { change 33%nat with (4 + (20 + 9))%nat in Hl1. rewrite !load_words_app in Hl1 by lia.
    apply bind_Some in Hl1 as (l1&E1&Hl1).
    replace (v useresp - 132 + 4 * Z.of_nat 4) with ctx in Hl1 by (unfold ctx; lia).
    apply bind_Some in Hl1 as (l23&E23&Hl1). apply bind_Some in E23 as (l2&E2&E23).
    apply bind_Some in E23 as (l3&E3&E23). apply (inj Some) in E23 as <-. rewrite E2.
    apply (inj Some) in Hl1. f_equal. apply load_words_length in E1, E2.
    assert (Hd4 : drop 4 (l1 ++ l2 ++ l3) = l2 ++ l3) by (rewrite <- E1; apply drop_app_length).
    rewrite Hl1 in Hd4. assert (Ht : take 20 (l2 ++ l3) = l2) by (rewrite <- E2; apply take_app_length).
    rewrite <- Hd4 in Ht. exact (eq_sym Ht). }
  rewrite Hctx in Hl2. rewrite <- Hb2 in Hregs2 |- *.
  destruct (sigrestore_spec s2 t T2 (Z.lor (Z.lor (h_mask h) bit) (signal_mask T)) 0 v own lo hi ctx Hc2 HT2 Hregs2 Hv Hown) as (s3&Hs3&Ht3&Hr3);
    [lia|done|done|done|unfold ctx; lia|unfold ctx, CONTEXT_SIZE; lia|exact Hl2|].
  by exists s3.
Qed.

(** A task whose stack page is 0x400000, with a handler for SIGINT (2). *)
Definition example_regs (r : register) : Z := match r with useresp => 0x400800 | eip => 0x8048000 | _ => reg_offset r end.
Definition example_handler := Handler 0x8049000 0x8049100 0 0.
Definition example_task : task :=
  Task [] TASK_RUNNING 0 0 0 0 0xC0001000 0 0xC0100000 0 0 0 0 0 0 None
    (<[2%nat := example_handler]> (replicate 34 no_handler)) 0 0 0 0 0 0.
Definition example_pages : pstate :=
  PState {[ 0xC0001000 := set (replicate 1024 0) 1 (make_pde 0x2000 true true);
            0xC0002000 := set (replicate 1024 0) 0 (make_pte 0x5000 true true) ]} []
    {[ 0x5000 := replicate 4096 0 ]} (Bitmap.Bitmap [] 0).
Definition example_stacks : gmap Z Z :=
  foldr (fun r m => <[0xC0100000 + reg_offset r := example_regs r]> m) empty all_registers.
Definition example_state : kstate :=
  KState {[ 16 := example_task ]} empty example_stacks empty empty empty empty example_pages 0 (Vfs 0 0 [] [] empty empty [])
    [] 0 16 true 0 0 [] 0 0 0 0 [].
Definition example_signal := Signal 2 0 0 0 0 0 0 0 0.

Lemma example_private : mprivate (Space 0xC0001000 example_pages) 0x400000 0x401000.
Proof.
  assert (Hd : forall a, 0x400000 <= a < 0x401000 -> a / 4096 = 1024).
  { intros a Ha. symmetry. apply Z.div_unique with (a - 0x400000); lia. }
  assert (Hf : forall a, 0x400000 <= a < 0x401000 -> page_frame (Space 0xC0001000 example_pages) a = Some 0x5000).
  { intros a Ha. assert (H1 : pde_index a = 1).
    { unfold pde_index. symmetry. apply Z.div_unique with (a - 0x400000); unfold PAGE_SIZE, PAGE_TABLE_SIZE; lia. }
    assert (H2 : pte_index a = 0).
    { unfold pte_index, PAGE_SIZE, PAGE_TABLE_SIZE. by rewrite Hd. }
    unfold page_frame, get_page, get_pagetable. rewrite H1, H2. by vm_compute. }
  split.
  - intros a Ha. exists 0x5000, (replicate 4096 0). split; [by apply Hf|]. by split.
  - intros a b Ha Hb _. by rewrite !Hd.
Qed.
Lemma example_regs_at : regs_at (k_stacks example_state) 0xC0100000 example_regs.
Proof. intros []; by vm_compute. Qed.
Lemma example_regs_range r : 0 <= example_regs r < 2 ^ 32.
Proof. by destruct r. Qed.
Lemma example_delivers : delivers 0xC0500000 example_task example_signal example_handler 4.
Proof. constructor; vm_compute; done. Qed.
Lemma signal_roundtrip_witness :
  exists s1 s3, signal_exec 0xC0500000 16 example_signal example_state = Some (Return tt, s1)
    /\ sys_sigrestore (0x400800 - 116) (s1 <| cr3 := 0xC0001000 |>) = Some (Return tt, s3)
    /\ k_stacks s3 !! (0xC0100000 + 60) = Some 0x8048000.
Proof.
  destruct (signal_roundtrip 0xC0500000 16 example_task example_signal example_handler 4 example_state example_regs
    0x400000 0x401000 eq_refl example_delivers example_regs_at example_regs_range example_private)
    as (s1&He&Hr1&_&Ht1&Hc1&Hp1&Hres); [vm_compute; congruence..|].
  pose (s2 := s1 <| cr3 := 0xC0001000 |>).
  destruct (Hres s2 (example_task <| signal_mask_current := 4 |>)
      (fun r => match r with useresp => 0x400800 - FRAME_SIZE | eip => 0x8049000 | _ => example_regs r end)
      Hc1) as (s3&Hs3&_&Hr3);
    [|reflexivity|reflexivity|exact Hr1|intros []; vm_compute; split; congruence|exact Hp1|reflexivity|].
  - change (k_tasks s1 !! 16 = Some (example_task <| signal_mask_current := 4 |>)). rewrite Ht1. reflexivity.
  - exists s1, s3. split; [exact He|]. split; [exact Hs3|]. apply (Hr3 eip).
Defined.
