(* ===== verification/Sched.v ===== *)
(** * Sched: kernel/sched.c

    Choosing the next task and switching to it.  A switch ends in the new
    task's registers: [Return] here means that [current_task] runs.  The
    bases of the thread segments, the kernel stack and the directory are
    those set for the processor. *)
From S2P Require Import Prelude Pmm Paging Vfs UserMem Kernel Thread Signal.

(** The entry after [e], the first at the end. *)
Fixpoint entry_after (l : list (Z * Z)) (e : Z) : option (option (Z * Z)) :=
  match l with
  | [] => None
  | x :: l => if x.1 =? e then Some (head l) else entry_after l e
  end.
Definition next_entry (l : list (Z * Z)) (e : Z) : option (Z * Z) :=
  n ← entry_after l e; match n with Some x => Some x | None => head l end.

(** [pick_next_task], from the entry [e]; when every task sleeps it goes round
    for ever: the model gives up after one round. *)
Fixpoint pick_loop (fuel : nat) (e : Z) : K Z :=
  match fuel with
  | O => undefined
  | S fuel =>
      s ← get_state;
      '(e, t) ← opt (next_entry (tasklist s) e);
      x ← get_task t;
      if decide (t_state x = TASK_SLEEPING) then
        if wake_time x <=? pit_ticks s then _ ← put_task t (x <| t_state := TASK_RUNNING |>); mret e
        else pick_loop fuel e
      else mret e
  end.
Definition pick_next_task : K Z :=
  s ← get_state; pick_loop (length (tasklist s)) (current_entry s).

Definition list_item (e : Z) : K Z :=
  reads (fun s => '(_, x) ← list_find (fun x => x.1 = e) (tasklist s); Some x.2).

Section switching.
  (** The address of the kernel's page directory. *)
  Context (kernel_pgd : Z).

Definition reschedule_to (t : Z) : K unit :=
  x ← get_task t;
  _ ← modify (fun s => s <| current_task := t |> <| cpu_gs := gs_base x |> <| cpu_fs := fs_base x |>
                         <| cpu_esp0 := kernel_esp x |>);
  _ ← (if t_pgd x =? 0 then mret tt else activate_pgd (t_pgd x));
  q ← get_queue (signal_queue x);
  if 0 <? zlen q then
    s ← signal_fetch t;
    match s with Some s => signal_exec kernel_pgd t s | None => mret tt end
  else mret tt.

Definition reschedule : K unit :=
  s ← get_state;
  if negb (sched_preempt s) then reschedule_to (current_task s) else
  next ← pick_next_task;
  c ← get_task (current_task s);
  _ ← (if decide (t_state c = TASK_DYING) then thread_destroy (current_task s) else mret tt);
  _ ← modify (fun s => s <| current_entry := next |>);
  t ← list_item next;
  reschedule_to t.

(** What runs after a function of the kernel: a switch may lead to another,
    when a signal that is delivered kills the task it is for. *)
Fixpoint dispatch (fuel : nat) (r : option (ctl unit * kstate)) : option kstate :=
  match fuel with
  | O => None
  | S fuel =>
      match r with
      | None => None
      | Some (Return _, s) => Some s
      | Some (Reschedule, s) => dispatch fuel (reschedule s)
      | Some (RescheduleTo t, s) => dispatch fuel (reschedule_to t s)
      end
  end.

Definition _sched_yield (regs : Z) : K unit :=
  c ← current; _ ← on_task c (fun t => t <| t_regs := regs |>); reschedule.
Definition sched_ticker (regs : Z) : K unit :=
  c ← current; _ ← on_task c (fun t => t <| running_time := u32 (running_time t + 1) |>); _sched_yield regs.
End switching.

(** ** Round robin *)

(** The entries from the one after [e], cyclically, [e] last. *)
Definition rotation (l r : list (Z * Z)) (e : Z) : Prop :=
  exists l1 x l2, l = l1 ++ x :: l2 /\ x.1 = e /\ r = l2 ++ l1 ++ [x].

Lemma entry_after_spec l1 x l2 : x.1 ∉ l1.*1 -> entry_after (l1 ++ x :: l2) x.1 = Some (head l2).
Proof.
  induction l1 as [|y l1 IH]; intros H; simpl; [by rewrite Z.eqb_refl|].
  rewrite fmap_cons, not_elem_of_cons in H. destruct H as [Hne H].
  destruct (Z.eqb_spec y.1 x.1); [congruence|]. by apply IH.
Qed.

Lemma next_entry_spec l r e : NoDup l.*1 -> rotation l r e -> next_entry l e = head r.
Proof.
  intros Hnd (l1&x&l2&->&<-&->). unfold next_entry. rewrite entry_after_spec.
  - simpl. by destruct l2, l1.
  - rewrite fmap_app, fmap_cons in Hnd. apply NoDup_app in Hnd as (_&Hn&_). intros Hin.
    by apply (Hn _ Hin), elem_of_cons; left.
Qed.

Lemma rotation_next l r e ra x rb : rotation l r e -> r = ra ++ x :: rb -> rotation l (rb ++ ra ++ [x]) x.1.
Proof.
  intros (l1&y&l2&->&<-&->) Heq. symmetry in Heq.
  assert (HA : forall k, ra = l2 ++ k -> l1 ++ [y] = k ++ x :: rb -> rotation (l1 ++ y :: l2) (rb ++ ra ++ [x]) x.1).
  { intros k -> Hk. apply app_eq_inv in Hk as [(k'&->&Hk)|(k'&->&Hk)].
    - destruct k' as [|z k']; simpl in Hk.
      + injection Hk as -> ->. rewrite app_nil_r. exists k, y, l2. split_and!; [done..|]. by rewrite <- app_assoc.
      + injection Hk as -> ->. exists k, z, (k' ++ y :: l2). split_and!; [by rewrite <- !app_assoc|done|].
        by rewrite <- !app_assoc.
    - destruct k' as [|z k']; simpl in Hk; [|by destruct k']. injection Hk as -> <-.
      exists l1, x, l2. rewrite app_nil_r, <- app_assoc. by split_and!. }
  apply app_eq_inv in Heq as [(k&Hra&Hk)|(k&->&Hk)].
  - by apply (HA k).
  - destruct k as [|z k]; simpl in Hk; [apply (HA []); by rewrite ?app_nil_r|].
    injection Hk as -> ->. exists (l1 ++ y :: ra), z, k. split_and!; [by rewrite <- !app_assoc|done|].
    by rewrite <- !app_assoc.
Qed.

Definition ready (s : kstate) (t : Z) : Prop :=
  exists x, k_tasks s !! t = Some x /\ (t_state x <> TASK_SLEEPING \/ wake_time x <= pit_ticks s).
Definition asleep (s : kstate) (t : Z) : Prop :=
  exists x, k_tasks s !! t = Some x /\ t_state x = TASK_SLEEPING /\ pit_ticks s < wake_time x.
Lemma not_asleep_ready s t x :
  k_tasks s !! t = Some x -> ~ (t_state x = TASK_SLEEPING /\ pit_ticks s < wake_time x) -> ready s t.
Proof.
  intros Hx Hn. exists x. split; [done|]. destruct (decide (t_state x = TASK_SLEEPING)); [right|by left].
  apply Z.le_ngt. intros ?. by apply Hn.
Qed.
(** A sleeping task that is picked runs. *)
Definition woken (t : Z) (s : kstate) : kstate :=
  match k_tasks s !! t with
  | Some x => if decide (t_state x = TASK_SLEEPING)
              then s <| k_tasks := <[t := x <| t_state := TASK_RUNNING |>]> (k_tasks s) |> else s
  | None => s
  end.

Lemma pick_ready fuel s e x :
  next_entry (tasklist s) e = Some x -> ready s x.2 -> pick_loop (S fuel) e s = Some (Return x.1, woken x.2 s).
Proof.
  destruct x as [e' t]. intros Hn (x&Hx&Hr). cbn [fst snd] in *. unfold woken. rewrite Hx.
  cbn [pick_loop]. kstep. erewrite run_bind by (apply run_opt, Hn). cbv beta iota. kstep.
  destruct (decide (t_state x = TASK_SLEEPING)); [|done].
  destruct (Z.leb_spec (wake_time x) (pit_ticks s)); [|destruct Hr; [done|lia]]. by kstep.
Qed.
Lemma pick_asleep fuel s e x :
  next_entry (tasklist s) e = Some x -> asleep s x.2 -> pick_loop (S fuel) e s = pick_loop fuel x.1 s.
Proof.
  destruct x as [e' t]. intros Hn (x&Hx&Hs&Hw). cbn [fst snd] in *.
  cbn [pick_loop]. kstep. erewrite run_bind by (apply run_opt, Hn). cbv beta iota. kstep.
  rewrite decide_True by done. by rewrite (proj2 (Z.leb_gt _ _) Hw).
Qed.

Lemma pick_loop_spec fuel s e ra x rb :
  NoDup (tasklist s).*1 -> rotation (tasklist s) (ra ++ x :: rb) e ->
  Forall (fun y => asleep s y.2) ra -> ready s x.2 -> (length ra < fuel)%nat ->
  pick_loop fuel e s = Some (Return x.1, woken x.2 s).
Proof.
  intros Hnd Hrot Ha Hr Hf. revert e rb fuel Hrot Hf. induction Ha as [|y ra Hy Ha IH]; intros e rb fuel Hrot Hf;
    (destruct fuel as [|fuel]; [simpl in Hf; lia|]); pose proof (next_entry_spec _ _ _ Hnd Hrot) as Hn.
  - by apply pick_ready.
  - rewrite (pick_asleep fuel s e y) by done. apply (rotation_next _ _ _ [] y (ra ++ x :: rb)) in Hrot; [|done].
    apply (IH _ (rb ++ [y])); [by rewrite <- app_assoc in Hrot|simpl in Hf; lia].
Qed.

(** What is picked is not behind a ready task. *)
Lemma pick_loop_inv fuel s e xs y ys n s' :
  NoDup (tasklist s).*1 -> rotation (tasklist s) (xs ++ y :: ys) e -> ready s y.2 ->
  pick_loop fuel e s = Some (Return n, s') ->
  exists xa x xb, xs ++ [y] = xa ++ x :: xb /\ n = x.1 /\ s' = woken x.2 s.
Proof.
  intros Hnd Hrot Hr. revert e ys fuel Hrot. induction xs as [|z xs IH]; intros e ys fuel Hrot Hp;
    (destruct fuel as [|fuel]; [done|]); pose proof (next_entry_spec _ _ _ Hnd Hrot) as Hn; simpl in Hn.
  - rewrite (pick_ready fuel s e y) in Hp by done. injection Hp as <- <-. by exists [], y, [].
  - destruct (k_tasks s !! z.2) as [x|] eqn:Hz.
    + destruct (decide (t_state x = TASK_SLEEPING /\ pit_ticks s < wake_time x)) as [[Hs Hw]|Hn'].
      * rewrite (pick_asleep fuel s e z) in Hp by (done || by exists x).
        apply (rotation_next _ _ _ [] z (xs ++ y :: ys)) in Hrot; [|done].
        destruct (IH _ (ys ++ [z]) fuel ltac:(by rewrite <- app_assoc in Hrot) Hp) as (xa&x'&xb&Heq&Hx).
        exists (z :: xa), x', xb. simpl. by rewrite Heq.
      * rewrite (pick_ready fuel s e z) in Hp; [|done|].
        { injection Hp as <- <-. by exists [], z, (xs ++ [y]). }
        by apply not_asleep_ready with x.
    + exfalso. destruct z as [e' t]. cbn [fst snd pick_loop] in *.
      erewrite run_bind in Hp by reflexivity. erewrite run_bind in Hp by (apply run_opt, Hn). cbv beta iota in Hp.
      unfold mbind, K_bind, get_task, reads, opt in Hp. simpl in Hp. by rewrite Hz in Hp.
Qed.

(** What runs between two choices may do anything to the machine; of the task
    list it keeps the entries [kept], in their order, with the current one and
    the one of [t] among them, and appends [added] ([sched_add] appends,
    [sched_remove] drops an entry). *)
Definition list_changed (e t : Z) (added : list (Z * Z)) (s s1 : kstate) : Prop :=
  exists kept, kept `sublist_of` tasklist s /\ (e, t) ∈ kept /\ current_entry s ∈ kept.*1
    /\ tasklist s1 = kept ++ added /\ NoDup (tasklist s1).*1 /\ current_entry s1 = current_entry s.

(** The task [t] at [e] is ready each of the [n] times that another is picked;
    meanwhile [k] tasks are added. *)
Inductive passed_over (e t : Z) : nat -> nat -> kstate -> kstate -> Prop :=
  | passed_none s : passed_over e t 0 0 s s
  | passed_again n k s s1 added next s2 s' :
      list_changed e t added s s1 -> ready s1 t ->
      pick_next_task s1 = Some (Return next, s2) -> next <> e ->
      passed_over e t n k (s2 <| current_entry := next |>) s' ->
      passed_over e t (S n) (length added + k) s s'.

Lemma woken_tasklist t s : tasklist (woken t s) = tasklist s.
Proof. unfold woken. by destruct (k_tasks s !! t); [destruct (decide _)|]. Qed.

(** The place of an element in a part of a list. *)
Lemma sublist_position {A} (r' xs ys : list A) y :
  NoDup (xs ++ y :: ys) -> r' `sublist_of` xs ++ y :: ys -> y ∈ r' ->
  exists xs' ys', r' = xs' ++ y :: ys' /\ (length xs' <= length xs)%nat.
Proof.
  intros Hnd (a&b&->&Ha&Hb)%sublist_app_r Hy.
  apply NoDup_app in Hnd as (_&Hn&[Hys _]%NoDup_cons).
  apply sublist_cons_r in Hb as [Hb|(b'&->&Hb)].
  - exfalso. apply elem_of_app in Hy as [Hy|Hy].
    + apply (Hn y); [by apply (elem_of_sublist a)|by left].
    + apply Hys. by apply (elem_of_sublist b).
  - exists a, b'. split; [done|by apply sublist_length].
Qed.

(** Putting [l] into the list moves an element by at most its length. *)
Lemma insert_position {A} (a b l xs ys : list A) y :
  a ++ b = xs ++ y :: ys ->
  exists xs' ys', a ++ l ++ b = xs' ++ y :: ys' /\ (length xs' <= length xs + length l)%nat.
Proof.
  intros [(k&->&Hk)|(k&->&->)]%app_eq_inv.
  - destruct k as [|z k]; simpl in Hk.
    + subst b. exists (xs ++ l), ys. rewrite app_nil_r, <- app_assoc, length_app. split; [done|lia].
    + injection Hk as <- ->. exists xs, (k ++ l ++ b). rewrite <- app_assoc. split; [done|lia].
  - exists (a ++ l ++ k), ys. rewrite <- !app_assoc, !length_app. split; [done|lia].
Qed.

Lemma rotation_NoDup l r c : rotation l r c -> NoDup l.*1 -> NoDup r.
Proof.
  intros (l1&x&l2&->&_&->) Hnd. apply NoDup_fmap_1 in Hnd. revert Hnd.
  rewrite (Permutation_app_comm l2), <- app_assoc. done.
Qed.

(** After a change of the list, the entries before [y] in the round are those
    that were before it, or new. *)
Lemma changed_rotation l kept added xs y ys c :
  NoDup l.*1 -> rotation l (xs ++ y :: ys) c -> kept `sublist_of` l -> y ∈ kept -> c ∈ kept.*1 ->
  exists xs' ys', rotation (kept ++ added) (xs' ++ y :: ys') c
    /\ (length xs' <= length xs + length added)%nat.
Proof.
  intros Hnd Hrot Hsub Hy Hc. pose proof (rotation_NoDup _ _ _ Hrot Hnd) as Hndr.
  destruct Hrot as (l1&x&l2&->&Hx&Hr). apply sublist_app_r in Hsub as (k1&k'&->&H1&H').
  assert (exists k2, k' = x :: k2 /\ k2 `sublist_of` l2) as (k2&->&H2).
  { apply sublist_cons_r in H' as [H'|(k2&->&H2)]; [exfalso|by exists k2].
    apply list_elem_of_fmap in Hc as (z&Hz&Hin). rewrite fmap_app, fmap_cons in Hnd.
    apply NoDup_app in Hnd as (_&Hn1&[Hn2 _]%NoDup_cons). rewrite <- Hx in Hz.
    apply elem_of_app in Hin as [Hin|Hin].
    - apply (Hn1 x.1); [|by left]. rewrite Hz. apply list_elem_of_fmap_2. by apply (elem_of_sublist k1).
    - apply Hn2. rewrite Hz. apply list_elem_of_fmap_2. by apply (elem_of_sublist k'). }
  destruct (sublist_position (k2 ++ k1 ++ [x]) xs ys y) as (xs1&ys1&E1&Hl1); [done| | |].
  - rewrite Hr. by repeat apply sublist_app.
  - clear -Hy. set_solver.
  - destruct (insert_position k2 (k1 ++ [x]) added xs1 ys1 y E1) as (xs2&ys2&E2&Hl2).
    exists xs2, ys2. split; [|lia]. exists k1, x, (k2 ++ added).
    split_and!; [by rewrite <- app_assoc|done|]. by rewrite <- E2, <- app_assoc.
Qed.

Lemma passed_over_bound e t n k s s' xs ys :
  passed_over e t n k s s' -> NoDup (tasklist s).*1 -> rotation (tasklist s) (xs ++ (e, t) :: ys) (current_entry s) ->
  (n <= length xs + k)%nat.
Proof.
  intros Hp. revert xs ys.
  induction Hp as [s|n k s s1 added next s2 s' Hch Hr Hpk Hne Hp IH]; intros xs ys Hnd Hrot; [lia|].
  destruct Hch as (kept&Hsub&Hin&Hce&Hl&Hnd1&Hc1).
  destruct (changed_rotation _ kept added _ _ _ _ Hnd Hrot Hsub Hin Hce) as (xs1&ys1&Hrot1&Hlen).
  rewrite <- Hl, <- Hc1 in Hrot1.
  unfold pick_next_task in Hpk. erewrite run_bind in Hpk by reflexivity.
  destruct (pick_loop_inv _ _ _ _ _ _ _ _ Hnd1 Hrot1 Hr Hpk) as (xa&x&xb&Heq&->&->).
  destruct (decide (xb = [])) as [->|Hxb].
  { apply app_inj_2 in Heq as [_ Heq]; [|done]. injection Heq as <-. done. }
  destruct (exists_last Hxb) as (xb'&z&->). rewrite app_comm_cons, app_assoc in Heq.
  apply app_inj_2 in Heq as [-> Heq]; [|done].
  apply (rotation_next _ _ _ xa x (xb' ++ (e, t) :: ys1)) in Hrot1; [|by rewrite <- app_assoc].
  rewrite <- app_assoc in Hrot1. simpl in Hrot1.
  specialize (IH xb' (ys1 ++ xa ++ [x])). simpl in IH. rewrite woken_tasklist in IH.
  specialize (IH Hnd1 Hrot1). rewrite length_app in Hlen. simpl in Hlen. lia.
Qed.

(** A new task goes to the end of the list, so it is such a change; and so is
    the end of a task whose entry is neither the current one nor [t]'s. *)
Lemma sched_add_changes e t u x e' rest s :
  k_tasks s !! u = Some x -> k_fresh s = e' :: rest -> e' ∉ (tasklist s).*1 ->
  NoDup (tasklist s).*1 -> (e, t) ∈ tasklist s -> current_entry s ∈ (tasklist s).*1 ->
  exists s1, sched_add u s = Some (Return tt, s1) /\ list_changed e t [(e', u)] s s1.
Proof.
  intros Hu Hf Hn Hnd Hin Hc. unfold sched_add, new_addr.
  erewrite run_bind by (rewrite Hf; reflexivity). kstep. erewrite run_on_task by exact Hu.
  eexists. split; [done|]. exists (tasklist s). split_and!; try done.
  simpl. rewrite fmap_app. apply NoDup_app. split; [done|]. split; [|apply NoDup_singleton]. set_solver.
Qed.

Lemma sched_remove_changes e t u x s :
  k_tasks s !! u = Some x -> sched_entry x ∈ (tasklist s).*1 ->
  sched_entry x <> e -> sched_entry x <> current_entry s ->
  NoDup (tasklist s).*1 -> (e, t) ∈ tasklist s -> current_entry s ∈ (tasklist s).*1 ->
  exists s1, sched_remove u s = Some (Return tt, s1) /\ list_changed e t [] s s1.
Proof.
  intros Hu Hx He Hce Hnd Hin Hc. unfold sched_remove. kstep. kstep.
  set (l := filter (fun y : Z * Z => y.1 <> sched_entry x) (tasklist s)).
  assert (Hl : remove_entry (tasklist s) (sched_entry x) = Some l) by (unfold remove_entry; by rewrite decide_True).
  erewrite run_bind by (apply run_opt, Hl). kstep. erewrite run_on_task by exact Hu.
  eexists. split; [done|]. exists l. rewrite app_nil_r. split_and!; try done.
  - apply sublist_filter.
  - by apply list_elem_of_filter.
  - apply list_elem_of_fmap in Hc as (y&Hy&Hyin). apply list_elem_of_fmap. exists y. split; [done|].
    apply list_elem_of_filter. split; [congruence|done].
  - simpl. eapply sublist_NoDup; [exact Hnd|]. by apply fmap_sublist, sublist_filter.
Qed.

Lemma first_ready s (l : list (Z * Z)) :
  (exists y, y ∈ l /\ ready s y.2) -> (forall x, x ∈ l -> is_Some (k_tasks s !! x.2)) ->
  exists ra x rb, l = ra ++ x :: rb /\ Forall (fun y => asleep s y.2) ra /\ ready s x.2.
Proof.
  induction l as [|z l IH]; intros (y&Hy&Hyr) Hl; [by apply elem_of_nil in Hy|].
  destruct (Hl z) as [x Hx]; [by left|].
  destruct (decide (t_state x = TASK_SLEEPING /\ pit_ticks s < wake_time x)) as [[Hs Hw]|Hn].
  - apply elem_of_cons in Hy as [->|Hy].
    { destruct Hyr as (x'&Hx'&Hor). rewrite Hx in Hx'. injection Hx' as <-. destruct Hor; [done|lia]. }
    destruct IH as (ra&w&rb&->&Ha&Hw'); [by exists y|intros; apply Hl; by right|].
    exists (z :: ra), w, rb. split_and!; [done| |done]. constructor; [by exists x|done].
  - exists [], z, l. split_and!; [done..|]. by apply not_asleep_ready with x.
Qed.

(** C24: the scheduler is fair: as long as some task of the list is ready, a
    choice is made, of the first ready task after the current one in the
    order of the list, sleepers whose time has not come being passed; and
    whatever runs in between - tasks may be added and removed, the current one
    and this one staying - a task that is ready at each choice is passed over
    fewer times than there are tasks and tasks added meanwhile. *)
Theorem scheduler_no_starvation s e t r :
  NoDup (tasklist s).*1 -> rotation (tasklist s) r (current_entry s) -> (e, t) ∈ tasklist s -> ready s t ->
  (forall x, x ∈ tasklist s -> is_Some (k_tasks s !! x.2)) ->
  (exists ra x rb, r = ra ++ x :: rb /\ Forall (fun y => asleep s y.2) ra /\ ready s x.2
     /\ pick_next_task s = Some (Return x.1, woken x.2 s))
  /\ (forall n k s', passed_over e t n k s s' -> (n < length (tasklist s) + k)%nat).
Proof.
  intros Hnd Hrot Hin Hr Hall.
  assert (Hperm : r ≡ₚ tasklist s).
  { destruct Hrot as (l1&x&l2&->&_&->). rewrite (Permutation_app_comm l2). by rewrite <- app_assoc. }
  split.
  - unfold pick_next_task.
    destruct (first_ready s r) as (ra&x&rb&->&Ha&Hx).
    { exists (e, t). by rewrite Hperm. }
    { intros x. rewrite Hperm. apply Hall. }
    exists ra, x, rb. split_and!; [done..|]. erewrite run_bind by reflexivity.
    eapply pick_loop_spec; [done..|]. rewrite <- Hperm, length_app. simpl. lia.
  - intros n k s' Hp. rewrite <- Hperm in Hin |- *. apply list_elem_of_split in Hin as (xs&ys&->).
    pose proof (passed_over_bound _ _ _ _ _ _ _ _ Hp Hnd Hrot). rewrite length_app. simpl. lia.
Qed.

Definition sleeper (st : task_state) (wake : Z) : task :=
  Task [] st 0 0 0 0 0 0 0 0 0 0 wake 0 0 None [] 0 0 0 0 0 0.
Definition sched_example : kstate :=
  KState {[ 1 := sleeper TASK_RUNNING 0; 2 := sleeper TASK_SLEEPING 50; 3 := sleeper TASK_STARTING 0 ]}
    empty empty empty empty empty empty (PState empty [] empty (Bitmap.Bitmap [] 0)) 0
    (Vfs 0 0 [] [] empty empty []) [(100, 1); (101, 2); (102, 3)] 100 1 true 10 0 [] 0 0 0 0 [].
(** A task is added; 102 and then the new task at 103 are picked before the
    one at 100, while 101 sleeps. *)
Definition sched_added : kstate :=
  sched_example <| tasklist := tasklist sched_example ++ [(103, 4)] |>
                <| k_tasks := <[4 := sleeper TASK_STARTING 0]> (k_tasks sched_example) |>.
Lemma passed_example : exists s', passed_over 100 1 2 1 sched_example s'.
Proof.
  assert (Hl : forall s, tasklist s = [(100, 1); (101, 2); (102, 3); (103, 4)] ->
    (100, 1) ∈ tasklist s /\ NoDup (tasklist s).*1).
  { intros s ->. split; [by left|]. simpl. repeat constructor; set_solver. }
  eexists. apply (passed_again _ _ 1 0 _ sched_added [(103, 4)] 102 (woken 3 sched_added)).
  - exists (tasklist sched_example). split_and!; [done|by left|by left|done|by apply Hl|done].
  - eexists. split; [done|by left].
  - vm_compute. reflexivity.
  - done.
  - set (s2 := woken 3 sched_added <| current_entry := 102 |>).
    assert (E2 : tasklist s2 = [(100, 1); (101, 2); (102, 3); (103, 4)]) by (vm_compute; reflexivity).
    apply (passed_again _ _ 0 0 _ s2 [] 103 (woken 4 s2)).
    + exists (tasklist s2). rewrite app_nil_r. split_and!; [done|by apply Hl| |done|by apply Hl|done].
      rewrite E2. change (current_entry s2) with 102. simpl. set_solver.
    + eexists. split; [done|by left].
    + vm_compute. reflexivity.
    + done.
    + apply passed_none.
Qed.

Lemma scheduler_no_starvation_witness :
  (exists x s', pick_next_task sched_example = Some (Return x, s'))
  /\ (forall n k s', passed_over 102 3 n k sched_example s' -> (n < 3 + k)%nat)
  /\ exists s', passed_over 100 1 2 1 sched_example s' /\ (2 < 3 + 1)%nat.
Proof.
  destruct passed_example as [s' Hs'].
  assert (Hnd : NoDup (tasklist sched_example).*1) by (simpl; repeat constructor; set_solver).
  assert (Hrot : rotation (tasklist sched_example) [(101, 2); (102, 3); (100, 1)] 100)
    by (by exists [], (100, 1), [(101, 2); (102, 3)]).
  assert (Hall : forall x, x ∈ tasklist sched_example -> is_Some (k_tasks sched_example !! x.2)).
  { intros x Hx. simpl in Hx. rewrite !elem_of_cons, elem_of_nil in Hx.
    destruct Hx as [->|[->|[->|[]]]]; by eexists. }
  destruct (scheduler_no_starvation sched_example 102 3 _ Hnd Hrot) as [(ra&x&rb&_&_&_&Hp) H2];
    [simpl; set_solver|exists (sleeper TASK_STARTING 0); by split; [|left]|exact Hall|].
  destruct (scheduler_no_starvation sched_example 100 1 _ Hnd Hrot) as [_ H3];
    [simpl; set_solver|exists (sleeper TASK_RUNNING 0); by split; [|left]|exact Hall|].
  split; [by eexists _, _|]. split; [exact H2|]. exists s'. split; [exact Hs'|exact (H3 2%nat 1%nat s' Hs')].
Defined.
