(* ===== verification/Ext2.v ===== *)
(** * Ext2: fs/ext2.c and include/depthos/ext2.h

    Reading of ext2: superblock, group descriptors, inodes, the blocks of a
    file through its direct, singly and doubly indirect tables, directories
    and paths.  Structures on the disk are decoded from their bytes.  The
    block device's [read] and what [kmalloc]ed memory holds are Section
    variables. *)
From S2P Require Import Prelude CString Words Vfs Vmm Initrd.

Definition EXT2_SIGNATURE := 0xEF53.
Definition EXT2_ROOT_INODE := 2.
Definition EXT2_INODE_T_FIFO := 0x1000.
Definition EXT2_INODE_T_DIR := 0x4000.
Definition EXT2_INODE_T_FILE := 0x8000.
Definition EXT2_INODE_T_SOCKET := 0xC000.
Definition EXT2_INODE_DBLOCKS_COUNT := 12.

(** The members that the code uses of the structures on the disk. *)
Record ext2_superblock := Superblock {
  total_blocks : Z; log_block_size : Z; blocks_per_blk_group : Z; inodes_per_blk_group : Z; signature : Z;
  inode_size : Z
}.
Definition superblock_of (b : list Z) : ext2_superblock :=
  Superblock (le32 b 4) (le32 b 24) (le32 b 32) (le32 b 40) (le16 b 56) (le32 b 88).
Definition GROUP_DESCRIPTOR_SIZE := 32.
Definition inode_table_addr (b : list Z) (group : Z) : Z := le32 b (GROUP_DESCRIPTOR_SIZE * group + 8).
Record ext2_inode := Inode {
  type_permissions : Z; size_lo : Z; dblocks : list Z; single_idblock_ptr : Z; double_idblock_ptr : Z
}.
Definition EXT2_INODE_BYTES := 128.
(** An array of little-endian words. *)
Definition le_words (b : list Z) (o : Z) (n : Z) : list Z := (fun i => le32 b (o + 4 * i)) <$> seqZ 0 n.
Definition inode_of (b : list Z) : ext2_inode :=
  Inode (le16 b 0) (le32 b 4) (le_words b 40 EXT2_INODE_DBLOCKS_COUNT) (le32 b 88) (le32 b 92).
Record ext2_dentry := Dentry { de_inode : Z; de_size : Z; de_name_length : Z; de_type : Z }.
Definition DENTRY_SIZE := 8.
Definition dentry_of (b : list Z) (o : Z) : ext2_dentry :=
  Dentry (le32 b o) (le16 b (o + 4)) (get 0 b (o + 6)) (get 0 b (o + 7)).
(** struct dentry of the VFS. *)
Record dentry := VDentry { dt_type : Z; dt_inode : Z; dt_offset : Z; dt_name : list Z }.

Record ext2_private := Ext2 { super : ext2_superblock; bgdt : list Z; root : ext2_inode; bgdt_block : Z;
                              num_block_groups : Z; block_size : Z }.

Section ext2.
  (** [dev->block_size], and [dev->read]: buffer, sectors and [*offset] to
      buffer, [*offset] and the result. *)
  Context (dev_block_size : Z) (dev_read : list Z -> Z -> Z -> option (list Z * Z * Z)).
  (** The bytes of a new allocation of a size. *)
  Context (junk : Z -> list Z).
  Context (p : ext2_private).

(** The buffer and whether every sector was read. *)
Definition ext2_read_block (buf : list Z) (block : Z) : option (list Z * bool) :=
  let sector := u32 (block * block_size p) / dev_block_size in
  let n_sectors := u32 (ceil_div (block_size p) dev_block_size) in
  '(buf, _, read_sectors) ← dev_read buf n_sectors sector;
  Some (buf, read_sectors =? n_sectors).

(** [memcpy(buf + o, src, ...)] in bounds. *)
Definition copy_to (buf : list Z) (o : Z) (src : list Z) : option (list Z) :=
  if (0 <=? o) && (o + zlen src <=? zlen buf) then Some (blit buf o src) else None.

(** [inode_data] is the first sector's beginning, wherever in it the inode
    is: an assertion keeps to inodes of 512 bytes. *)
Definition ext2_get_inode (inode : Z) : option ext2_inode :=
  let inode := u32 (inode - 1) in
  let group_idx := inode / inodes_per_blk_group (super p) in
  let isz := inode_size (super p) in
  let bs := block_size p in
  let index := inode mod inodes_per_blk_group (super p) in
  if negb (isz =? 512) then None else
  let block := u32 (inode_table_addr (bgdt p) group_idx + u32 (index * isz) / bs) in
  let offset := u32 (index * isz) mod bs in
  let lba := u32 (block * bs + offset) / dev_block_size in
  let sectors := CEIL_DIV isz dev_block_size in
  buf ← memset (junk (sectors * dev_block_size)) 0 (Z.to_nat (sectors * dev_block_size));
  '(buf, _, _) ← dev_read buf sectors lba;
  Some (inode_of (slice buf 0 EXT2_INODE_BYTES)).

(** The loop of [ext2_sync_direct_blocks]: [base] is where in [buf] the
    destination begins.  Writing is not implemented: nothing is transferred
    and nothing counted. *)
Fixpoint sync_direct_loop (fuel : nat) (blocks : list Z) (nblocks : Z) (blockbuf buf : list Z) (base nbytes : Z)
  (write : bool) (i byte_offset r : Z) : option (list Z * Z) :=
  match fuel with
  | O => Some (buf, r)
  | S fuel =>
      if (i <? nblocks) && (r <=? nbytes) then
        b ← blocks !! Z.to_nat i;
        if b =? 0 then sync_direct_loop fuel blocks nblocks blockbuf buf base nbytes write (i + 1) byte_offset r
        else
          let k := Z.min (nbytes - r) (block_size p - byte_offset) in
          if write then sync_direct_loop fuel blocks nblocks blockbuf buf base nbytes write (i + 1) 0 r
          else
            '(blockbuf, _) ← ext2_read_block blockbuf b;
            buf ← copy_to buf (base + r) (slice blockbuf byte_offset k);
            sync_direct_loop fuel blocks nblocks blockbuf buf base nbytes write (i + 1) 0 (r + k)
      else Some (buf, r)
  end.
Definition ext2_sync_direct_blocks (blocks : list Z) (nblocks offset : Z) (buf : list Z) (base nbytes : Z) (write : bool)
  : option (list Z * Z) :=
  let block_offset := offset / block_size p in
  sync_direct_loop (Z.to_nat (nblocks - block_offset)) blocks nblocks (junk (block_size p)) buf base nbytes write
    block_offset (offset mod block_size p) 0.

Definition EXT2_INODE_IDBLOCKS_COUNT : Z := block_size p / 4.
Definition EXT2_INODE_DIDBLOCKS_COUNT : Z := block_size p / 4.

Definition ext2_sync_indirect_blocks (pointer_block offset : Z) (buf : list Z) (base nbytes : Z) (write : bool)
  : option (list Z * Z) :=
  '(idbuf, _) ← ext2_read_block (junk (block_size p)) pointer_block;
  ext2_sync_direct_blocks (le_words idbuf 0 EXT2_INODE_IDBLOCKS_COUNT) EXT2_INODE_IDBLOCKS_COUNT offset buf base nbytes
    write.

Fixpoint sync_doubly_loop (fuel : nat) (idbuf : list Z) (idx offset : Z) (buf : list Z) (base nbytes : Z)
  (write : bool) (i r : Z) : option (list Z * Z) :=
  match fuel with
  | O => Some (buf, r)
  | S fuel =>
      if (i <? EXT2_INODE_DIDBLOCKS_COUNT) && (0 <? nbytes) then
        first ← idbuf !! Z.to_nat idx;
        if first =? 0 then Some (buf, r) else
        b ← idbuf !! Z.to_nat i;
        '(buf, dr) ← ext2_sync_indirect_blocks b offset buf base nbytes write;
        sync_doubly_loop fuel idbuf idx 0 buf (base + dr) (nbytes - dr) write (i + 1) (r + dr)
      else Some (buf, r)
  end.
Definition ext2_sync_doubly_indirect_blocks (pointer_block offset : Z) (buf : list Z) (base nbytes : Z) (write : bool)
  : option (list Z * Z) :=
  '(idbuf, _) ← ext2_read_block (junk (block_size p)) pointer_block;
  let block_offset := offset / block_size p in
  let idx := block_offset / EXT2_INODE_IDBLOCKS_COUNT in
  let offset := u32 (offset - idx * EXT2_INODE_IDBLOCKS_COUNT * block_size p) in
  sync_doubly_loop (Z.to_nat (EXT2_INODE_DIDBLOCKS_COUNT - idx)) (le_words idbuf 0 EXT2_INODE_DIDBLOCKS_COUNT) idx
    offset buf base nbytes write idx 0.

(** The last stage of [ext2_sync_inode_data]: the doubly indirect blocks. *)
Definition sync_double (inode : ext2_inode) (block_offset offset : Z) (buf : list Z) (base nbytes r : Z) (write : bool)
  : option (list Z * Z) :=
  let P := EXT2_INODE_IDBLOCKS_COUNT in
  if (block_offset <? EXT2_INODE_DBLOCKS_COUNT + P + EXT2_INODE_DIDBLOCKS_COUNT * P)
     && negb (double_idblock_ptr inode =? 0) then
    '(buf, dr) ← ext2_sync_doubly_indirect_blocks (double_idblock_ptr inode) offset buf base nbytes write;
    Some (buf, r + dr)
  else Some (buf, r).
(** The middle stage: the singly indirect blocks. *)
Definition sync_single (inode : ext2_inode) (block_offset offset : Z) (buf : list Z) (base nbytes r : Z) (write : bool)
  : option (list Z * Z) :=
  let P := EXT2_INODE_IDBLOCKS_COUNT in
  if (block_offset <? EXT2_INODE_DBLOCKS_COUNT + P) && negb (single_idblock_ptr inode =? 0) then
    '(buf, dr) ← ext2_sync_indirect_blocks (single_idblock_ptr inode) offset buf base nbytes write;
    let r := r + dr in
    if r =? nbytes then Some (buf, r)
    else sync_double inode block_offset 0 buf (base + dr) (u32 (nbytes - dr)) r write
  else sync_double inode block_offset (u32 (offset - P * block_size p)) buf base nbytes r write.
Definition ext2_sync_inode_data (inode : ext2_inode) (offset : Z) (buf : list Z) (base nbytes : Z) (write : bool)
  : option (list Z * Z) :=
  let block_offset := offset / block_size p in
  if negb write && (size_lo inode <=? offset) then Some (buf, 0) else
  let nbytes := if size_lo inode <? u32 (offset + nbytes) then u32 (size_lo inode - offset) else nbytes in
  if block_offset <? EXT2_INODE_DBLOCKS_COUNT then
    '(buf, r) ← ext2_sync_direct_blocks (dblocks inode) EXT2_INODE_DBLOCKS_COUNT offset buf base nbytes write;
    if r =? nbytes then Some (buf, r)
    else sync_single inode block_offset 0 buf (base + r) (u32 (nbytes - r)) r write
  else sync_single inode block_offset (u32 (offset - EXT2_INODE_DBLOCKS_COUNT * block_size p)) buf base nbytes 0 write.

(** The results are the buffer, [*offset], [eof] and the count. *)
Definition ext2_read (cached : ext2_inode) (feof : bool) (buf : list Z) (n off : Z) : option (list Z * Z * bool * Z) :=
  '(buf, r) ← ext2_sync_inode_data cached off buf 0 n false;
  Some (buf, u32 (off + r), if u32 (off + n) =? size_lo cached then true else feof, r).
Definition ext2_write (cached : ext2_inode) (buf : list Z) (n off : Z) : option (Z * Z) :=
  '(_, r) ← ext2_sync_inode_data cached off buf 0 n true; Some (u32 (off + r), r).

(** [dst] is uninitialised where the result is 0; [namebuf] is the caller's
    buffer.  The results are the entry, [*offset] and the count. *)
Definition ext2_iter (cached : ext2_inode) (namebuf : list Z) (max_name_len off : Z) : option (option dentry * Z * Z) :=
  '(raw, tmpoff, _, r) ← ext2_read cached false (junk DENTRY_SIZE) DENTRY_SIZE off;
  if r <? DENTRY_SIZE then Some (None, off, 0) else
  let d := dentry_of raw 0 in
  let len := if de_name_length d <? max_name_len - 1 then de_name_length d else max_name_len - 1 in
  '(nm, _, _, nr) ← ext2_read cached false namebuf len tmpoff;
  nm ← copy_to nm nr [0];
  Some (Some (VDentry (de_type d) (de_inode d) off nm), u32 (off + de_size d), r + nr).

Definition ext2_seek (cached : ext2_inode) (f : fs_node) (pos whence : Z) : fs_node * Z :=
  generic_file_seek_size f pos (u32 (size_lo cached - 1)) whence.
Definition ext2_mmap (mmap_ops : Z) (a : vm_area) : vm_area * Z :=
  (VmArea (n_proc a) (addr a) (va_size a) (limit a) (n_pages a) (phys_addr a) (va_pgd a) (flags a) (file a)
     (file_off a) mmap_ops, 0).

(** The loop of [ext2_read_dentries]; [d] is the entry seen last.  An entry
    of inode 0 is counted but not filled in: [None]. *)
Fixpoint dentries_loop (fuel : nat) (blkbuf : list Z) (d : ext2_dentry) (i j n : Z) : option (list (option dentry)) :=
  match fuel with
  | O => None
  | S fuel =>
      if (i <? block_size p) && (j <? n) && (negb (de_size d =? 0) || negb (de_name_length d =? 0)) then
        let d := dentry_of blkbuf i in
        if de_inode d =? 0 then l ← dentries_loop fuel blkbuf d (i + de_size d) (j + 1) n; Some (None :: l)
        else if de_size d =? 0 then Some []
        else
          let nm := slice blkbuf (i + DENTRY_SIZE) (de_name_length d) ++ [0] in
          l ← dentries_loop fuel blkbuf d (i + de_size d) (j + 1) n;
          Some (Some (VDentry (de_type d) (de_inode d) i nm) :: l)
      else Some []
  end.
(** Only the first block of a directory is read. *)
Definition ext2_read_dentries (inode : ext2_inode) (n : Z) : option (list (option dentry)) :=
  blkbuf ← memset (junk (block_size p)) 0 (Z.to_nat (block_size p));
  '(blkbuf, _) ← ext2_sync_inode_data inode 0 blkbuf 0 (block_size p) false;
  dentries_loop (S (Z.to_nat n)) blkbuf (dentry_of blkbuf 0) 0 0 n.

(** The inode number of the entry with this name; 0 for none.  An entry that
    was not filled in stops the model. *)
Fixpoint find_dentry (ds : list (option dentry)) (frag : list Z) : option Z :=
  match ds with
  | [] => Some 0
  | d :: ds => d ← d; e ← streq frag (dt_name d); if (e : bool) then Some (dt_inode d) else find_dentry ds frag
  end.
(** The loop over the fragments of [ext2_open]: the inode and its number.
    The test for directories compares [EXT2_INODE_T_DIR == 0] first: it never
    holds. *)
Fixpoint open_loop (fuel : nat) (pfrag : list Z) (n_pfrag i : Z) (curr : ext2_inode) (icurr : Z)
  : option (option (ext2_inode * Z)) :=
  match fuel with
  | O => Some (Some (curr, icurr))
  | S fuel =>
      if i <? n_pfrag then
        if negb (Z.land (type_permissions curr) (b2z (EXT2_INODE_T_DIR =? 0)) =? 0)
        then open_loop fuel pfrag n_pfrag (i + 1) curr icurr else
        let frag := slice pfrag (256 * i) 256 in
        l ← strlen frag;
        if l =? 0 then open_loop fuel pfrag n_pfrag (i + 1) curr icurr else
        ds ← ext2_read_dentries curr 1024;
        ino ← find_dentry ds frag;
        if ino =? 0 then Some None else
        next ← ext2_get_inode ino;
        open_loop fuel pfrag n_pfrag (i + 1) next ino
      else Some (Some (curr, icurr))
  end.
(** The type that [ext2_open] gives the node: the last test that holds. *)
Definition ext2_node_type (junk_type tp : Z) : Z :=
  let t := if negb (Z.land tp EXT2_INODE_T_FIFO =? 0) then FS_PIPE else junk_type in
  let t := if negb (Z.land tp EXT2_INODE_T_SOCKET =? 0) then FS_SOCKET else t in
  let t := if negb (Z.land tp EXT2_INODE_T_DIR =? 0) then FS_DIR else t in
  if negb (Z.land tp EXT2_INODE_T_FILE =? 0) then FS_FILE else t.
(** The node, of memory [node], and its cached inode; [None] is NULL. *)
Definition ext2_open (file_ops impl_addr : Z) (node : fs_node) (path : list Z) : option (option (fs_node * ext2_inode)) :=
  '(pfrag, n_pfrag) ← strsplt path (junk 25600) 256 100 47;
  c ← head path;
  r ← open_loop (Z.to_nat n_pfrag) pfrag n_pfrag (if c =? 47 then 1 else 0) (root p) EXT2_ROOT_INODE;
  match r with
  | None => Some None
  | Some (curr, icurr) =>
      inode ← ext2_get_inode icurr;
      Some (Some (FsNode (name node) (Vfs.path node) (ext2_node_type (type node) (type_permissions curr)) (mode node)
                    (pos node) (eof node) (size_lo inode) (dev node) icurr file_ops impl_addr (pipe node) (socket node)
                    (fs node) (rdonly node), inode))
  end.
End ext2.

(** [None] is also the panic on a wrong signature. *)
Definition ext2_mount (dev_block_size : Z) (dev_read : list Z -> Z -> Z -> option (list Z * Z * Z)) (junk : Z -> list Z)
  : option ext2_private :=
  '(sb, _, _) ← dev_read (junk 1024) 2 2;
  let super := superblock_of sb in
  if negb (signature super =? EXT2_SIGNATURE) then None else
  let bs := u32 (Z.shiftl 1024 (log_block_size super)) in
  let bgdt_block := if bs =? 1024 then 2 else 1 in
  let groups := ceil_div (total_blocks super) (blocks_per_blk_group super) in
  let sectors := ceil_div (GROUP_DESCRIPTOR_SIZE * groups) dev_block_size in
  '(bgdt, _, _) ← dev_read (junk (sectors * dev_block_size)) sectors (u32 (bgdt_block * bs) / dev_block_size);
  let bgdt := slice bgdt 0 (GROUP_DESCRIPTOR_SIZE * groups) in
  let p := Ext2 super bgdt (Inode 0 0 [] 0 0) bgdt_block groups bs in
  root ← ext2_get_inode dev_block_size dev_read junk p EXT2_ROOT_INODE;
  Some (Ext2 super bgdt root bgdt_block groups bs).

(** ** Slices of equal blocks *)
Lemma slice_app_l {A} (a b : list A) o k : 0 <= o -> 0 <= k -> o + k <= zlen a -> slice (a ++ b) o k = slice a o k.
Proof.
  unfold slice, zlen. intros. rewrite drop_app_le by lia. rewrite take_app_le; [done|]. rewrite length_drop. lia.
Qed.
Lemma slice_app_r {A} (a b : list A) o k : 0 <= k -> zlen a <= o -> slice (a ++ b) o k = slice b (o - zlen a) k.
Proof. unfold slice, zlen. intros. rewrite drop_app_ge by lia. do 2 f_equal. lia. Qed.
Lemma slice_split {A} (l : list A) o a b : 0 <= o -> 0 <= a -> 0 <= b -> slice l o (a + b) = slice l o a ++ slice l (o + a) b.
Proof.
  unfold slice. intros. rewrite <- (take_drop (Z.to_nat a) (take (Z.to_nat (a + b)) _)).
  rewrite take_take, Nat.min_l by lia. f_equal. rewrite skipn_firstn_comm, drop_drop. f_equal; [lia|f_equal; lia].
Qed.
Lemma slice_all {A} (l : list A) : slice l 0 (zlen l) = l.
Proof. unfold slice, zlen. rewrite drop_0. apply take_ge. lia. Qed.
Lemma slice_zero {A} (l : list A) o : slice l o 0 = [].
Proof. done. Qed.
Lemma blit_full {A} (l src : list A) : zlen src = zlen l -> blit l 0 src = src.
Proof.
  intros H. rewrite blit_eq by lia. unfold zlen in *. simpl. rewrite drop_ge by lia. apply app_nil_r.
Qed.
(** Two transfers in a row. *)
Lemma blit_slices {A} (buf c : list A) base off a b :
  0 <= base -> 0 <= off -> 0 <= a -> 0 <= b -> off + a + b <= zlen c -> base + a + b <= zlen buf ->
  blit (blit buf base (slice c off a)) (base + a) (slice c (off + a) b) = blit buf base (slice c off (a + b)).
Proof.
  intros. rewrite slice_split by lia. pose proof (zlen_slice c off a ltac:(lia) ltac:(lia) ltac:(lia)) as Ha.
  rewrite <- Ha at 2. apply blit_app; [lia|]. rewrite Ha, zlen_slice by lia. lia.
Qed.

Section concat.
  Context {A : Type} (w : Z).
Lemma zlen_concat (ls : list (list A)) : Forall (fun l => zlen l = w) ls -> zlen (concat ls) = zlen ls * w.
Proof. induction 1 as [|l ls Hl _ IH]; [done|]. simpl. rewrite zlen_app, zlen_cons, Hl, IH. ring. Qed.
Lemma slice_concat (ls : list (list A)) i l o k :
  Forall (fun l => zlen l = w) ls -> ls !! i = Some l -> 0 <= o -> 0 <= k -> o + k <= w ->
  slice (concat ls) (Z.of_nat i * w + o) k = slice l o k.
Proof.
  intros Hls Hi Ho Hk Hok. revert i Hi. induction Hls as [|x ls Hx _ IH]; intros i Hi; [done|].
  destruct i as [|i]; simpl.
  - injection Hi as ->. rewrite slice_app_l by lia. f_equal.
  - assert (0 <= Z.of_nat i * w) by nia. rewrite slice_app_r by lia. rewrite Hx. replace (Z.of_nat (S i) * w + o - w) with (Z.of_nat i * w + o) by lia.
    by apply IH.
Qed.
End concat.

(** ** The disk and the files on it *)

(** A device that holds [disk]: a read within it fills the buffer. *)
Record holds (dbs : Z) (dev_read : list Z -> Z -> Z -> option (list Z * Z * Z)) (disk : list Z) : Prop := Holds {
  hd_pos : 0 < dbs;
  hd_size : zlen disk <= 2 ^ 32;
  hd_read : forall buf n sec, 0 <= sec -> 0 <= n -> n * dbs <= zlen buf -> (sec + n) * dbs <= zlen disk ->
    dev_read buf n sec = Some (blit buf 0 (slice disk (sec * dbs) (n * dbs)), sec + n, n)
}.

Section reading.
  Context (dbs : Z) (dev_read : list Z -> Z -> Z -> option (list Z * Z * Z)) (junk : Z -> list Z) (p : ext2_private).
  Context (disk : list Z).
  Notation bs := (block_size p).
  Notation P := (EXT2_INODE_IDBLOCKS_COUNT p).
  Hypothesis Hdev : holds dbs dev_read disk.
  Hypothesis Hbs : 0 < bs < 2 ^ 31 /\ (dbs | bs) /\ (4 | bs).
  Hypothesis Hjunk : forall n, 0 <= n -> zlen (junk n) = n.

(** A block of the disk; a missing one is all zeros. *)
Definition block_ok (b : Z) : Prop := 0 < b /\ (b + 1) * bs <= zlen disk.
Definition block (b : Z) : list Z :=
  if (0 <? b) && ((b + 1) * bs <=? zlen disk) then slice disk (b * bs) bs else replicate (Z.to_nat bs) 0.
Definition content (t : list Z) : list Z := concat (block <$> t).
(** Every block of a table is missing or on the disk. *)
Definition table_ok (t : list Z) : Prop := Forall (fun b => b = 0 \/ block_ok b) t.

Lemma block_eq b : block_ok b -> block b = slice disk (b * bs) bs.
Proof. intros [??]. unfold block. rewrite (proj2 (Z.ltb_lt _ _)), (proj2 (Z.leb_le _ _)) by lia. done. Qed.
Lemma block_length b : zlen (block b) = bs.
Proof.
  destruct Hbs. unfold block. destruct (Z.ltb_spec 0 b), (Z.leb_spec ((b + 1) * bs) (zlen disk)); simpl;
    rewrite ?zlen_slice, ?zlen_replicate; nia.
Qed.
Lemma read_block_spec buf b : block_ok b -> zlen buf = bs -> ext2_read_block dbs dev_read p buf b = Some (block b, true).
Proof.
  intros Hok Hl. rewrite block_eq by done. destruct Hok as [Hb0 Hb].
  destruct Hdev as [Hpos Hsz Hr], Hbs as (Hb1&[q Hq]&_). unfold ext2_read_block.
  assert (0 < q) by nia. assert (dbs <= bs /\ q <= bs) as [] by nia. assert (0 <= b * bs < 2 ^ 32) by nia.
  rewrite (u32_id (b * bs)), ceil_div_small by lia. rewrite Hq. replace (b * (q * dbs)) with (b * q * dbs) by lia.
  rewrite Z.div_mul, Z.quot_mul, Z.rem_mul by lia. simpl. rewrite Z.add_0_r, u32_id by lia.
  rewrite Hr by nia. cbn [mbind option_bind]. rewrite Z.eqb_refl.
  replace (b * q * dbs) with (b * (q * dbs)) by lia. do 2 f_equal.
  apply blit_full. rewrite zlen_slice by nia. lia.
Qed.

Lemma table_in t i b : table_ok t -> t !! i = Some b -> b <> 0 -> block_ok b.
Proof. intros Ht Hi Hb. apply (Forall_lookup_1 _ _ _ _ Ht) in Hi as [?|?]; done. Qed.
Lemma blocks_full t : Forall (fun l => zlen l = bs) (block <$> t).
Proof. apply Forall_fmap, Forall_forall. intros b _. apply block_length. Qed.
Lemma content_length t : zlen (content t) = zlen t * bs.
Proof. unfold content. by rewrite (zlen_concat bs), zlen_fmap by apply blocks_full. Qed.

Lemma sync_direct_loop_spec t n off base fuel : forall i bo r blockbuf buf,
  table_ok t ->
  fuel = Z.to_nat (zlen t - i) -> 0 <= i <= zlen t -> zlen blockbuf = bs ->
  let m := Z.min n (zlen (content t) - off) in
  0 <= r <= m -> 0 <= bo < bs -> 0 <= off ->
  r = n \/ (i * bs + bo = off + r /\ (i < zlen t \/ bo = 0)) ->
  (forall j b, i <= j < zlen t -> j * bs < off + n -> t !! Z.to_nat j = Some b -> b <> 0) ->
  0 <= base -> base + n <= zlen buf ->
  sync_direct_loop dbs dev_read p fuel t (zlen t) blockbuf buf base n false i bo r
  = Some (blit buf (base + r) (slice (content t) (off + r) (m - r)), m).
Proof.
  induction fuel as [|fuel IH]; intros i bo r blockbuf buf Ht Hf Hi Hbb m Hr Hbo Hoff Hpos Hnz Hbase Hbuf;
    pose proof (content_length t) as Hc; destruct Hbs as (Hb1&_&_).
  - assert (i = zlen t) as -> by lia. assert (r = m) as ->.
    { unfold m in *. rewrite Hc in *. destruct Hpos as [->|[Hp [?| ->]]]; lia. }
    rewrite Z.sub_diag, slice_zero, blit_nil. done.
  - cbn [sync_direct_loop]. rewrite (proj2 (Z.ltb_lt i (zlen t))) by lia. rewrite (proj2 (Z.leb_le r n)) by lia. simpl.
    destruct (lookup_lt_is_Some_2 t (Z.to_nat i)) as [b Hb]; [unfold zlen in *; lia|]. rewrite Hb. cbn [mbind option_bind].
    destruct (Z.eqb_spec b 0) as [->|Hb0].
    { assert (Hin : ~ i * bs < off + n) by (intros Hlt; by apply (Hnz i 0); [lia|..]).
      assert (r = n) as -> by (destruct Hpos as [?|[??]]; lia).
      apply IH; try done; try lia. intros j b' Hj. apply Hnz. lia. }
    assert (Hok : block_ok b) by (by eapply table_in).
    rewrite read_block_spec by done. cbn [mbind option_bind].
    set (k := Z.min (n - r) (bs - bo)).
    assert (Hik : (i + 1) * bs <= zlen t * bs) by (apply Z.mul_le_mono_nonneg_r; lia).
    assert (Hkm : r + k <= m) by (unfold m, k; rewrite Hc; destruct Hpos as [->|[??]]; lia).
    pose proof (block_length b) as Hbl.
    assert (Hsl : slice (block b) bo k = slice (content t) (off + r) k).
    { destruct (decide (k = 0)) as [->|Hk0]; [done|]. destruct Hpos as [->|[Hp _]]; [lia|].
      rewrite <- Hp. unfold content. rewrite <- (Z2Nat.id i) at 1 by lia. symmetry. apply slice_concat; try lia.
      - apply blocks_full.
      - rewrite list_lookup_fmap, Hb. done. }
    unfold copy_to. rewrite Hsl, zlen_slice by lia.
    rewrite (proj2 (Z.leb_le 0 _)), (proj2 (Z.leb_le (base + r + k) _)) by lia. cbn [andb mbind option_bind].
    rewrite IH; try done; try lia; rewrite ?zlen_blit; try lia.
    + fold m. replace (m - r) with (k + (m - (r + k))) by lia. rewrite <- blit_slices by lia.
      replace (base + (r + k)) with (base + r + k) by lia. by replace (off + (r + k)) with (off + r + k) by lia.
    + intros j b' Hj. apply Hnz. lia.
Qed.

(** What a transfer of the bytes of [c] leaves in the buffer. *)
Definition got (c buf : list Z) (base off m : Z) : option (list Z * Z) := Some (blit buf base (slice c off m), m).
(** No block of a table is missing before a position. *)
Definition no_holes (t : list Z) (stop : Z) : Prop :=
  forall j b, 0 <= j -> j * bs < stop -> t !! Z.to_nat j = Some b -> b <> 0.

Lemma sync_direct_spec t off n buf base :
  table_ok t -> 0 <= off <= zlen t * bs -> 0 <= n -> no_holes t (off + n) ->
  0 <= base -> base + n <= zlen buf ->
  ext2_sync_direct_blocks dbs dev_read junk p t (zlen t) off buf base n false
  = got (content t) buf base off (Z.min n (zlen t * bs - off)).
Proof.
  intros Ht Hoff Hn Hh Hbase Hbuf. pose proof (content_length t) as Hc.
  destruct Hbs as (Hb1&_&_). unfold ext2_sync_direct_blocks, got.
  pose proof (Z.div_mod off bs ltac:(lia)) as Hdm. pose proof (Z.mod_pos_bound off bs (proj1 Hb1)) as Hmod.
  assert (Hq : 0 <= off / bs <= zlen t).
  { split; [apply Z.div_pos; lia|]. apply Z.div_le_upper_bound; lia. }
  rewrite (sync_direct_loop_spec t n off base); try done; try lia.
  - rewrite Hc, !Z.add_0_r, Z.sub_0_r. done.
  - apply Hjunk. lia.
  - right. split; [lia|]. destruct (decide (off / bs < zlen t)); [by left|right]. nia.
  - intros j b Hj. apply Hh. lia.
Qed.

(** The table in a block. *)
Definition table (b : Z) : list Z := le_words (block b) 0 P.
Lemma table_length b : zlen (table b) = P.
Proof.
  unfold table, le_words, EXT2_INODE_IDBLOCKS_COUNT. rewrite zlen_fmap. unfold zlen. rewrite length_seqZ.
  destruct Hbs. assert (0 <= bs / 4) by (apply Z.div_pos; lia). lia.
Qed.

Lemma sync_indirect_spec ptr off n buf base :
  block_ok ptr -> table_ok (table ptr) -> 0 <= off <= P * bs -> 0 <= n -> no_holes (table ptr) (off + n) ->
  0 <= base -> base + n <= zlen buf ->
  ext2_sync_indirect_blocks dbs dev_read junk p ptr off buf base n false
  = got (content (table ptr)) buf base off (Z.min n (P * bs - off)).
Proof.
  intros Hp Ht Hoff Hn Hh Hbase Hbuf. unfold ext2_sync_indirect_blocks.
  rewrite read_block_spec by (done || (apply Hjunk; destruct Hbs; lia)). cbn [mbind option_bind].
  fold (table ptr). rewrite <- (table_length ptr) in Hoff |- *. by apply sync_direct_spec.
Qed.

(** The blocks behind a table of tables. *)
Definition tables (T : list Z) : list Z := concat (table <$> T).
Lemma content_tables T : content (tables T) = concat (content ∘ table <$> T).
Proof.
  unfold content, tables. induction T as [|b T IH]; [done|].
  cbn [fmap list_fmap concat]. rewrite fmap_app, concat_app. by f_equal.
Qed.
(** The pointers that a read up to [stop] needs. *)
Definition tables_ok (T : list Z) (stop : Z) : Prop :=
  forall j b, 0 <= j -> j * (P * bs) < stop -> T !! Z.to_nat j = Some b -> b <> 0 /\ block_ok b /\ table_ok (table b).

Lemma tables_full T : Forall (fun l => zlen l = P * bs) (content ∘ table <$> T).
Proof. apply Forall_fmap, Forall_forall. intros b _. simpl. by rewrite content_length, table_length. Qed.

(** A table of a table of tables is a part of it. *)
Lemma no_holes_table T i b stop :
  0 <= i -> T !! Z.to_nat i = Some b -> no_holes (tables T) stop -> no_holes (table b) (stop - i * (P * bs)).
Proof.
  intros Hi Hb Hh j x Hj Hjs Hx. apply (Hh (i * P + j)); [pose proof (table_length b); pose proof (zlen_nonneg (table b)); nia|lia|].
  pose proof (lookup_lt_Some _ _ _ Hx) as Hlt. pose proof (table_length b) as Hl. unfold zlen in Hl.
  assert (H1 : slice (tables T) (i * P + j) 1 = slice (table b) j 1).
  { unfold tables. rewrite <- (Z2Nat.id i) at 1 by lia. apply slice_concat; try lia.
    - apply Forall_fmap, Forall_forall. intros y _. apply table_length.
    - rewrite list_lookup_fmap, Hb. done. }
  rewrite (slice_cons (table b) j 1 x) in H1 by (done || lia). unfold slice in H1.
  destruct (drop (Z.to_nat (i * P + j)) (tables T)) as [|y l] eqn:E; [done|].
  simpl in H1. injection H1 as ->. rewrite <- (Nat.add_0_r (Z.to_nat _)), <- lookup_drop, E. done.
Qed.

Lemma sync_doubly_loop_spec T idx first stop fuel : forall i o n r base buf,
  zlen T = P -> T !! Z.to_nat idx = Some first -> first <> 0 ->
  fuel = Z.to_nat (P - i) -> 0 <= i <= P -> 0 <= o <= P * bs -> 0 <= n ->
  n = 0 \/ i * (P * bs) + o + n = stop -> stop <= P * (P * bs) ->
  tables_ok T stop -> no_holes (tables T) stop -> 0 <= base -> base + n <= zlen buf -> (o < P * bs) ->
  sync_doubly_loop dbs dev_read junk p fuel T idx o buf base n false i r
  = Some (blit buf base (slice (content (tables T)) (i * (P * bs) + o) n), r + n).
Proof.
  induction fuel as [|fuel IH]; intros i o n r base buf HT Hfirst Hf0 Hf Hi Ho Hn Hpos Hstop Htok Hh Hbase Hbuf Ho'.
  - assert (i = P) as -> by lia. assert (n = 0) as -> by (destruct Hpos; [done|nia]).
    simpl. by rewrite slice_zero, blit_nil, Z.add_0_r.
  - cbn [sync_doubly_loop]. fold P. unfold EXT2_INODE_DIDBLOCKS_COUNT. fold P.
    rewrite (proj2 (Z.ltb_lt i P)) by lia. cbn [andb].
    destruct (Z.ltb_spec 0 n) as [Hn0|]; cycle 1.
    { assert (n = 0) as -> by lia. by rewrite slice_zero, blit_nil, Z.add_0_r. }
    destruct Hpos as [?|Hpos]; [lia|].
    rewrite Hfirst. cbn [mbind option_bind]. rewrite (proj2 (Z.eqb_neq _ _) Hf0).
    destruct (lookup_lt_is_Some_2 T (Z.to_nat i)) as [b Hb]; [unfold zlen in HT; lia|]. rewrite Hb. cbn [mbind option_bind].
    destruct (Htok i b) as (Hb0&Hbok&Hbt); [lia|lia|done|].
    rewrite (sync_indirect_spec b o n); try done; try lia; cycle 1.
    { pose proof (no_holes_table T i b stop ltac:(lia) Hb Hh) as Hh'. by replace (o + n) with (stop - i * (P * bs)) by lia. }
    unfold got. cbn [mbind option_bind]. set (dr := Z.min n (P * bs - o)).
    assert (Hcl : zlen (content (tables T)) = P * (P * bs)).
    { rewrite content_tables, (zlen_concat (P * bs)) by apply tables_full. by rewrite zlen_fmap, HT. }
    assert (Hsl : slice (content (table b)) o dr = slice (content (tables T)) (i * (P * bs) + o) dr).
    { rewrite content_tables. rewrite <- (Z2Nat.id i) at 1 by lia. symmetry. apply slice_concat; try lia.
      - apply tables_full.
      - by rewrite list_lookup_fmap, Hb. }
    rewrite Hsl. rewrite IH; try done; try lia; rewrite ?zlen_blit; try lia.
    destruct (decide (dr = n)) as [->|Hne]; [by rewrite Z.sub_diag, slice_zero, blit_nil, Z.add_0_r|].
    assert (dr = P * bs - o) by lia. assert (0 <= i * (P * bs)) by (apply Z.mul_nonneg_nonneg; lia).
    replace ((i + 1) * (P * bs) + 0) with (i * (P * bs) + o + dr) by lia.
    rewrite blit_slices by lia. replace (dr + (n - dr)) with n by lia. f_equal. f_equal. lia.
Qed.

Lemma P_pos : 0 < P /\ 0 < P * bs.
Proof.
  destruct Hbs as (Hb&_&[k Hk]). unfold EXT2_INODE_IDBLOCKS_COUNT. rewrite Hk, Z.div_mul by lia. nia.
Qed.

Lemma sync_doubly_spec ptr off n buf base :
  block_ok ptr -> tables_ok (table ptr) (off + n) -> no_holes (tables (table ptr)) (off + n) ->
  0 <= off < P * (P * bs) -> off < 2 ^ 32 -> 0 <= n -> off + n <= P * (P * bs) -> 0 <= base -> base + n <= zlen buf ->
  ext2_sync_doubly_indirect_blocks dbs dev_read junk p ptr off buf base n false
  = got (content (tables (table ptr))) buf base off n.
Proof.
  intros Hp Htok Hh Hoff Hoff32 Hn Hle Hbase Hbuf. destruct P_pos as [HP HPb]. pose proof Hbs as (Hb1&_&_).
  unfold ext2_sync_doubly_indirect_blocks, got.
  rewrite read_block_spec by (done || (apply Hjunk; lia)). cbn [mbind option_bind].
  unfold EXT2_INODE_DIDBLOCKS_COUNT. fold P. fold (table ptr).
  rewrite Z.div_div by lia. rewrite (Z.mul_comm bs P). set (idx := off / (P * bs)).
  pose proof (Z.div_mod off (P * bs) ltac:(lia)) as Hdm. pose proof (Z.mod_pos_bound off (P * bs) HPb) as Hmod. fold idx in Hdm.
  assert (Hidx : 0 <= idx < P) by (split; [apply Z.div_pos; lia|apply Z.div_lt_upper_bound; lia]).
  replace (off - idx * P * bs) with (off mod (P * bs)) by lia. rewrite u32_id by lia.
  destruct (decide (n = 0)) as [->|Hn0].
  { rewrite slice_zero, blit_nil. destruct (Z.to_nat (P - idx)); [done|]. cbn [sync_doubly_loop].
    by rewrite andb_false_r. }
  destruct (lookup_lt_is_Some_2 (table ptr) (Z.to_nat idx)) as [first Hf].
  { pose proof (table_length ptr). unfold zlen in *. lia. }
  destruct (Htok idx first) as (Hf0&_); [lia|lia|done|].
  rewrite (sync_doubly_loop_spec (table ptr) idx first (off + n)); try done; try lia.
  - by replace (idx * (P * bs) + off mod (P * bs)) with off by lia.
  - apply table_length.
Qed.

(** ** The content of a file *)
Definition file_table (ino : ext2_inode) : list Z :=
  dblocks ino ++ (if single_idblock_ptr ino =? 0 then [] else table (single_idblock_ptr ino))
  ++ (if double_idblock_ptr ino =? 0 then [] else tables (table (double_idblock_ptr ino))).
Definition ext2_content (ino : ext2_inode) : list Z := content (file_table ino).

(** A file whose blocks, tables included, are all on the disk, and which has
    no holes. *)
Record file_ok (ino : ext2_inode) : Prop := FileOk {
  fo_direct : zlen (dblocks ino) = EXT2_INODE_DBLOCKS_COUNT /\ table_ok (dblocks ino);
  fo_single : single_idblock_ptr ino <> 0 ->
    block_ok (single_idblock_ptr ino) /\ table_ok (table (single_idblock_ptr ino));
  fo_double : double_idblock_ptr ino <> 0 -> single_idblock_ptr ino <> 0 /\ block_ok (double_idblock_ptr ino)
    /\ tables_ok (table (double_idblock_ptr ino)) (size_lo ino - (12 + P) * bs);
  fo_size : 0 <= size_lo ino < 2 ^ 32 /\ size_lo ino <= zlen (ext2_content ino);
  fo_holes : no_holes (file_table ino) (size_lo ino)
}.

Lemma content_app a b : content (a ++ b) = content a ++ content b.
Proof. unfold content. by rewrite fmap_app, concat_app. Qed.
Lemma no_holes_le t s s' : s' <= s -> no_holes t s -> no_holes t s'.
Proof. intros H Hh j b Hj Hjs. apply Hh; [done|lia]. Qed.
Lemma no_holes_app_l a b s : no_holes (a ++ b) s -> no_holes a s.
Proof. intros H j x Hj Hjs Hx. apply (H j); [done|done|]. by apply lookup_app_l_Some. Qed.
Lemma no_holes_app_r a b s : no_holes (a ++ b) s -> no_holes b (s - zlen a * bs).
Proof.
  intros H j x Hj Hjs Hx. pose proof (zlen_nonneg a). apply (H (zlen a + j)); [lia|lia|].
  rewrite lookup_app_r by (unfold zlen in *; lia). rewrite <- Hx. f_equal. unfold zlen. lia.
Qed.

Section file.
  Context (ino : ext2_inode).
  Hypothesis Hok : file_ok ino.
  Notation C := (ext2_content ino).
  Notation sz := (size_lo ino).

Lemma direct_content : C = content (dblocks ino) ++ content (drop 12 (file_table ino)).
Proof.
  destruct Hok as [[Hd _] _ _ _ _]. unfold ext2_content. rewrite <- content_app. f_equal.
  unfold file_table. unfold zlen, EXT2_INODE_DBLOCKS_COUNT in Hd.
  rewrite drop_app_ge by lia. by replace (12 - length (dblocks ino))%nat with 0%nat by lia.
Qed.
Lemma direct_length : zlen (content (dblocks ino)) = 12 * bs.
Proof. destruct Hok as [[Hd _] _ _ _ _]. by rewrite content_length, Hd. Qed.

(** The part of the content behind each pointer. *)
Lemma single_slice o k :
  single_idblock_ptr ino <> 0 -> 0 <= o -> 0 <= k -> o + k <= P * bs ->
  slice (content (table (single_idblock_ptr ino))) o k = slice C (12 * bs + o) k.
Proof.
  intros Hs Ho Hk Hle. unfold ext2_content, file_table. rewrite (proj2 (Z.eqb_neq _ _) Hs), !content_app.
  rewrite slice_app_r by (rewrite ?direct_length; lia). rewrite direct_length.
  replace (12 * bs + o - 12 * bs) with o by lia.
  rewrite slice_app_l by (rewrite ?content_length, ?table_length; lia). done.
Qed.
Lemma double_slice o k :
  double_idblock_ptr ino <> 0 -> 0 <= o -> 0 <= k ->
  slice (content (tables (table (double_idblock_ptr ino)))) o k = slice C ((12 + P) * bs + o) k.
Proof.
  intros Hs Ho Hk. destruct Hok as [_ _ Hd _ _]. destruct (Hd Hs) as (Hs1&_).
  unfold ext2_content, file_table. rewrite (proj2 (Z.eqb_neq _ _) Hs), (proj2 (Z.eqb_neq _ _) Hs1), !content_app.
  destruct P_pos. rewrite !slice_app_r; rewrite ?direct_length, ?content_length, ?table_length; try lia.
  f_equal. lia.
Qed.

Lemma size_single o n : 0 <= o -> 0 < n -> 12 * bs + o + n <= sz -> single_idblock_ptr ino <> 0.
Proof.
  intros Ho Hn Hle Hs. destruct Hok as [_ _ Hd [_ Hsz] _].
  assert (double_idblock_ptr ino = 0) as Hd0 by (destruct (decide (double_idblock_ptr ino = 0)) as [|Hne]; [done|by destruct (Hd Hne)]).
  unfold ext2_content, file_table in Hsz. rewrite Hs, Hd0 in Hsz. simpl in Hsz. rewrite app_nil_r, direct_length in Hsz. lia.
Qed.
Lemma size_double o n : 0 <= o -> 0 < n -> (12 + P) * bs + o + n <= sz -> double_idblock_ptr ino <> 0 /\ o + n <= P * (P * bs).
Proof.
  intros Ho Hn Hle. destruct P_pos. assert (Hs : single_idblock_ptr ino <> 0) by (apply (size_single (P * bs + o) n); lia).
  destruct Hok as [_ _ _ [_ Hsz] _]. unfold ext2_content, file_table in Hsz.
  rewrite (proj2 (Z.eqb_neq _ _) Hs), !content_app, !zlen_app, direct_length, !content_length, table_length in Hsz.
  destruct (Z.eqb_spec (double_idblock_ptr ino) 0); [change (zlen []) with 0 in Hsz; exfalso; lia|]. split; [done|].
  assert (Hl : zlen (tables (table (double_idblock_ptr ino))) = P * P).
  { unfold tables. rewrite (zlen_concat P), zlen_fmap, table_length; [done|].
    apply Forall_fmap, Forall_forall. intros b _. apply table_length. }
  rewrite Hl in Hsz. lia.
Qed.

Lemma sync_double_spec bo o n r base buf :
  bo < 12 + P + P * P -> (0 < n -> (12 + P) * bs + o + n <= sz) -> 0 <= o < P * (P * bs) -> o < 2 ^ 32 -> 0 <= n ->
  0 <= base -> base + n <= zlen buf ->
  sync_double dbs dev_read junk p ino bo o buf base n r false
  = Some (blit buf base (slice C ((12 + P) * bs + o) n), r + n).
Proof.
  intros Hbo Hn Ho Ho32 Hn0 Hbase Hbuf. unfold sync_double, EXT2_INODE_DIDBLOCKS_COUNT, EXT2_INODE_DBLOCKS_COUNT. fold P.
  rewrite (proj2 (Z.ltb_lt _ _) Hbo). cbn [andb].
  destruct (Z.eqb_spec (double_idblock_ptr ino) 0) as [Hz|Hnz]; cbn [negb].
  - destruct (decide (n = 0)) as [->|]; [by rewrite slice_zero, blit_nil, Z.add_0_r|].
    destruct (size_double o n) as [? _]; [lia|lia|by apply Hn; lia|done].
  - destruct Hok as [_ _ Hd _ Hh]. destruct (Hd Hnz) as (Hs&Hb&Ht).
    assert (Hle : o + n <= P * (P * bs)).
    { destruct (decide (n = 0)) as [->|]; [lia|]. apply size_double; [lia|lia|apply Hn; lia]. }
    assert (Hht : no_holes (tables (table (double_idblock_ptr ino))) (sz - (12 + P) * bs)).
    { unfold file_table in Hh. rewrite (proj2 (Z.eqb_neq _ _) Hs), (proj2 (Z.eqb_neq _ _) Hnz) in Hh.
      apply no_holes_app_r, no_holes_app_r in Hh. rewrite table_length in Hh. destruct Hok as [[Hdl _] _ _ _ _].
      rewrite Hdl in Hh. eapply no_holes_le; [|exact Hh]. unfold EXT2_INODE_DBLOCKS_COUNT. lia. }
    destruct (decide (n = 0)) as [->|Hnn].
    + rewrite slice_zero, blit_nil. unfold ext2_sync_doubly_indirect_blocks.
      rewrite read_block_spec by (done || (apply Hjunk; destruct Hbs; lia)). cbn [mbind option_bind].
      destruct (Z.to_nat _); simpl; rewrite ?andb_false_r; done.
    + rewrite sync_doubly_spec; try done; try lia.
      * unfold got. cbn [mbind option_bind]. by rewrite double_slice by lia.
      * intros j b Hj Hjs. apply Ht; [done|]. specialize (Hn ltac:(lia)). lia.
      * eapply no_holes_le; [|exact Hht]. specialize (Hn ltac:(lia)). lia.
Qed.

(** The count of the middle stage: it stops early when what it has counted
    equals what it was asked for. *)
Definition single_count (r o n : Z) : Z :=
  let dr := Z.min n (P * bs - o) in if r + dr =? n then dr else n.

Lemma sync_single_spec bo o n r base buf :
  0 <= bo < 12 + P -> 0 <= n -> 12 * bs + o < sz -> 12 * bs + o + n <= sz -> 0 <= o < P * bs -> 0 <= base -> base + n <= zlen buf ->
  sync_single dbs dev_read junk p ino bo o buf base n r false
  = Some (blit buf base (slice C (12 * bs + o) (single_count r o n)), r + single_count r o n).
Proof.
  intros Hbo Hn Hlt Hle Ho Hbase Hbuf. destruct P_pos. pose proof (size_single o 1 ltac:(lia) ltac:(lia) ltac:(lia)) as Hs.
  destruct Hok as [_ Hsi _ [Hsz32 Hszc] Hh]. destruct (Hsi Hs) as [Hsb Hst].
  unfold sync_single, EXT2_INODE_DBLOCKS_COUNT. fold P. rewrite (proj2 (Z.ltb_lt _ _)) by lia.
  rewrite (proj2 (Z.eqb_neq _ _) Hs). cbn [andb negb].
  assert (Hht : no_holes (table (single_idblock_ptr ino)) (o + n)).
  { unfold file_table in Hh. rewrite (proj2 (Z.eqb_neq _ _) Hs) in Hh.
    apply no_holes_app_r, no_holes_app_l in Hh. destruct Hok as [[Hdl _] _ _ _ _]. rewrite Hdl in Hh.
    eapply no_holes_le; [|exact Hh]. unfold EXT2_INODE_DBLOCKS_COUNT. lia. }
  rewrite sync_indirect_spec by (done || lia). unfold got. cbn [mbind option_bind]. unfold single_count.
  set (dr := Z.min n (P * bs - o)). rewrite single_slice by lia.
  destruct (Z.eqb_spec (r + dr) n) as [|Hne]; [done|].
  rewrite u32_id by lia. rewrite sync_double_spec; rewrite ?zlen_blit; try lia; [|nia..].
  destruct (decide (dr = n)) as [Hdn|Hdn].
  - rewrite Hdn, Z.sub_diag, slice_zero, blit_nil. by rewrite Z.add_0_r.
  - replace ((12 + P) * bs + 0) with (12 * bs + o + dr) by lia.
    pose proof (zlen_nonneg buf). rewrite blit_slices by (destruct Hbs; nia).
    replace (dr + (n - dr)) with n by lia. f_equal. f_equal. lia.
Qed.

Lemma sync_single_skip bo o n base buf :
  12 + P <= bo < 12 + P + P * P -> P * bs <= o < P * bs + P * (P * bs) -> o < 2 ^ 32 -> 0 <= n ->
  12 * bs + o + n <= sz -> 0 <= base -> base + n <= zlen buf ->
  sync_single dbs dev_read junk p ino bo o buf base n 0 false = Some (blit buf base (slice C (12 * bs + o) n), n).
Proof.
  intros Hbo Ho Ho32 Hn Hle Hbase Hbuf. destruct P_pos. unfold sync_single, EXT2_INODE_DBLOCKS_COUNT. fold P.
  rewrite (proj2 (Z.ltb_ge bo (12 + P))) by lia. cbn [andb]. rewrite u32_id by lia.
  rewrite sync_double_spec by lia. do 3 f_equal. f_equal. lia.
Qed.

(** The bytes that a read of [n] at [off] transfers: all that the file has of
    them, but for one length. *)
Definition read_count (off n : Z) : Z :=
  let m := Z.min n (sz - off) in
  let direct := 12 * bs - off in
  if (0 <? direct) && (m =? 2 * direct + P * bs) then direct + P * bs else m.

Lemma sync_inode_data_spec off n base buf :
  0 <= off < sz -> 0 <= n -> off + n < 2 ^ 32 -> 0 <= base -> base + n <= zlen buf ->
  ext2_sync_inode_data dbs dev_read junk p ino off buf base n false = got C buf base off (read_count off n).
Proof.
  intros Hoff Hn Hno Hbase Hbuf. destruct P_pos as [HP HPb]. pose proof Hbs as (Hb1&_&_).
  pose proof Hok as [[Hdl Hdt] _ _ [Hsz32 Hszc] Hh].
  unfold ext2_sync_inode_data, got. cbn [negb andb]. rewrite (proj2 (Z.leb_gt sz off)) by lia. rewrite (u32_id (off + n)) by lia.
  set (m := Z.min n (sz - off)).
  replace (if sz <? off + n then u32 (sz - off) else n) with m
    by (unfold m; destruct (Z.ltb_spec sz (off + n)); rewrite ?u32_id; lia).
  pose proof (Z.div_mod off bs ltac:(lia)) as Hdm. pose proof (Z.mod_pos_bound off bs (proj1 Hb1)) as Hmod.
  assert (Hbo : 0 <= off / bs) by (apply Z.div_pos; lia).
  unfold read_count, EXT2_INODE_DBLOCKS_COUNT in *. fold m.
  destruct (Z.ltb_spec (off / bs) 12) as [Hlt|Hge].
  - assert (Hd : off < 12 * bs) by nia. rewrite (proj2 (Z.ltb_lt 0 (12 * bs - off))) by lia. cbn [andb].
    pose proof (sync_direct_spec (dblocks ino) off m buf base Hdt) as Hds. rewrite Hdl in Hds.
    rewrite Hds; [|lia|lia|eapply no_holes_le; [|eapply no_holes_app_l; exact Hh]; lia|lia|lia]. unfold got. cbn [mbind option_bind]. set (m1 := Z.min m (12 * bs - off)).
    assert (Hsl : slice (content (dblocks ino)) off m1 = slice C off m1).
    { rewrite direct_content, slice_app_l; [done|lia|lia|]. rewrite direct_length. lia. }
    rewrite Hsl. destruct (Z.eqb_spec m1 m) as [Hm|Hm].
    + destruct (Z.eqb_spec m (2 * (12 * bs - off) + P * bs)); [lia|]. by rewrite Hm.
    + rewrite u32_id by lia. assert (Hm1 : m1 = 12 * bs - off) by lia.
      rewrite sync_single_spec; rewrite ?zlen_blit; try lia.
      replace (12 * bs + 0) with (off + m1) by lia. unfold single_count.
      rewrite Z.sub_0_r. rewrite <- Hm1.
      assert (Hiff : (m1 + Z.min (m - m1) (P * bs) =? m - m1) = (m =? 2 * m1 + P * bs)).
      { apply eq_true_iff_eq. rewrite !Z.eqb_eq. lia. }
      rewrite Hiff. destruct (Z.eqb_spec m (2 * m1 + P * bs)) as [He|He];
        rewrite blit_slices by lia; do 2 f_equal; try lia; do 2 f_equal; lia.
  - assert (Hd : 12 * bs <= off) by nia.
    rewrite (proj2 (Z.ltb_ge 0 (12 * bs - off))) by lia. cbn [andb]. rewrite u32_id by lia.
    destruct (decide (off / bs < 12 + P)) as [Hp|Hp].
    + assert (off < 12 * bs + P * bs) by nia. rewrite sync_single_spec by lia.
      unfold single_count. rewrite Z.add_0_l. replace (12 * bs + (off - 12 * bs)) with off by lia.
      assert (Hc : (if Z.min m (P * bs - (off - 12 * bs)) =? m then Z.min m (P * bs - (off - 12 * bs)) else m) = m)
        by (destruct (Z.eqb_spec (Z.min m (P * bs - (off - 12 * bs))) m); lia).
      by rewrite Hc.
    + assert (12 * bs + P * bs <= off) by nia.
      destruct (size_double (off - (12 + P) * bs) 1) as [_ Hdd]; [lia|lia|lia|].
      rewrite sync_single_skip; [|nia|nia|lia|lia|lia|lia|lia].
      by replace (12 * bs + (off - 12 * bs)) with off by lia.
Qed.
End file.
End reading.

(** C25: reading a file without holes gives the bytes of its content from the
    offset on, as many as asked for and as the file has, through direct,
    singly and doubly indirect blocks; the offset advances by as many, and
    [eof] is set when the read ends at the end of the file.  For one length
    the read is short: when what lies behind the singly indirect blocks is as
    long as what was read directly. *)
Theorem ext2_read_spec dbs dev_read junk p disk ino feof buf n off :
  holds dbs dev_read disk -> 0 < block_size p < 2 ^ 31 /\ (dbs | block_size p) /\ (4 | block_size p) ->
  (forall n, 0 <= n -> zlen (junk n) = n) -> file_ok p disk ino ->
  0 <= off -> 0 <= n -> off + n < 2 ^ 32 -> n <= zlen buf ->
  let eof := if off + n =? size_lo ino then true else feof in
  ext2_read dbs dev_read junk p ino feof buf n off
  = if size_lo ino <=? off then Some (buf, off, eof, 0)
    else let c := read_count p ino off n in
         Some (blit buf 0 (slice (ext2_content p disk ino) off c), off + c, eof, c).
Proof.
  intros Hdev Hbs Hjunk Hok Hoff Hn Hno Hbuf eof. unfold ext2_read. rewrite (u32_id (off + n)) by lia. fold eof.
  destruct (Z.leb_spec (size_lo ino) off) as [Hle|Hlt].
  - unfold ext2_sync_inode_data. cbn [negb andb]. rewrite (proj2 (Z.leb_le _ _) Hle). cbn [mbind option_bind].
    by rewrite Z.add_0_r, u32_id by lia.
  - rewrite (sync_inode_data_spec dbs dev_read junk p disk Hdev Hbs Hjunk ino Hok) by lia. unfold got. cbn [mbind option_bind].
    pose proof (P_pos dbs p Hbs). assert (0 <= read_count p ino off n <= n).
    { unfold read_count. destruct (Z.ltb_spec 0 (12 * block_size p - off)); cbn [andb]; [|lia].
      destruct (Z.eqb_spec (Z.min n (size_lo ino - off)) (2 * (12 * block_size p - off) + EXT2_INODE_IDBLOCKS_COUNT p * block_size p)); lia. }
    by rewrite u32_id by lia.
Qed.

(** Blocks of four bytes: twelve direct ones, and one behind the table in
    block 13. *)
Definition ext2_disk : list Z := replicate 4 0 ++ seqZ 100 48 ++ [14; 0; 0; 0; 1; 2; 3; 4].
Definition ext2_disk_read (buf : list Z) (n sec : Z) : option (list Z * Z * Z) :=
  Some (blit buf 0 (slice ext2_disk (sec * 2) (n * 2)), sec + n, n).
Definition ext2_example_inode : ext2_inode := Inode 0x8000 50 (seqZ 1 12) 13 0.
Definition ext2_example : ext2_private := Ext2 (Superblock 16 0 16 16 EXT2_SIGNATURE 512) [] ext2_example_inode 1 1 4.
Definition zeros (n : Z) : list Z := replicate (Z.to_nat n) 0.
Lemma ext2_example_ok : file_ok ext2_example ext2_disk ext2_example_inode.
Proof.
  assert (Hb : forall b, (0 <? b) && (b <? 15) = true -> block_ok ext2_example ext2_disk b).
  { intros b [H1 H2]%andb_true_iff. zbool. split; [lia|]. change (zlen ext2_disk) with 60.
    change (block_size ext2_example) with 4. lia. }
  assert (Ht : forall t, forallb (fun b => (0 <? b) && (b <? 15)) t = true -> table_ok ext2_example ext2_disk t).
  { intros t. unfold table_ok. induction t as [|b t IH]; [by constructor|]. intros [H1 H2]%andb_true_iff. constructor; [right; by apply Hb|by apply IH]. }
  constructor.
  - split; [done|]. by apply Ht.
  - intros _. split; [by apply Hb|by apply Ht].
  - done.
  - split; [done|]. vm_compute. congruence.
  - intros j b _ _ Hl. assert (Hall : Forall (fun b => b <> 0) (file_table ext2_example ext2_disk ext2_example_inode)).
    { change (file_table _ _ _) with (seqZ 1 12 ++ [14]). apply Forall_app. split; [|by repeat constructor].
      apply Forall_forall. intros x Hx%elem_of_seqZ. lia. }
    by apply (Forall_lookup_1 _ _ _ _ Hall) in Hl.
Qed.
Lemma ext2_read_spec_witness :
  ext2_read 2 ext2_disk_read zeros ext2_example ext2_example_inode false (zeros 6) 6 45
  = Some ([145; 146; 147; 1; 2; 0], 50, false, 5).
Proof.
  rewrite (ext2_read_spec 2 ext2_disk_read zeros ext2_example ext2_disk ext2_example_inode false (zeros 6) 6 45).
  - reflexivity.
  - by constructor.
  - split_and!; [done|done|by exists 2|by exists 1].
  - intros n Hn. unfold zeros. rewrite zlen_replicate. lia.
  - apply ext2_example_ok.
  - lia.
  - lia.
  - lia.
  - vm_compute. congruence.
Defined.
