(* ===== verification/Elf.v ===== *)
(** * Elf: kernel/elf.c and include/depthos/elf.h

    Recognising an executable, loading its segments into a new address space
    and entering it.  The read and seek operations of the file are reached
    through its operations table and are Section variables: [file_read] gives
    the bytes that the operation stores and what it returns.  [FileOps] are
    the laws the loader needs of them; [initrd_file_ops] shows them of the
    memory disk. *)
From S2P Require Import Prelude Words Bitmap CString Pmm Paging Vfs UserMem UserSpace Initrd Kernel Thread.

Definition ELF_PHEADER_LOAD := 1.
Record elf_header := ElfHeader {
  e_entry : Z; pheader_offset : Z; sheader_offset : Z; phentry_size : Z; pheader_num : Z; shentry_size : Z;
  sheader_num : Z; shstrndx : Z
}.
Definition ELF_HEADER_SIZE := 52.
Definition elf_header_of (b : list Z) : elf_header :=
  ElfHeader (le32 b 24) (le32 b 28) (le32 b 32) (le16 b 42) (le16 b 44) (le16 b 46) (le16 b 48) (le16 b 50).
Record elf_program_header := ProgramHeader { ph_type : Z; ph_offset : Z; ph_vaddr : Z; ph_filesz : Z; ph_memsz : Z }.
Definition PROGRAM_HEADER_SIZE := 32.
Definition program_header_of (b : list Z) (i : Z) : elf_program_header :=
  let o := i * PROGRAM_HEADER_SIZE in
  ProgramHeader (le32 b o) (le32 b (o + 4)) (le32 b (o + 8)) (le32 b (o + 16)) (le32 b (o + 20)).
(** Name and offset of a section header. *)
Definition SECTION_HEADER_SIZE := 40.
Definition sh_name (b : list Z) (i : Z) : Z := le32 b (i * SECTION_HEADER_SIZE).
Definition sh_offset (b : list Z) (i : Z) : Z := le32 b (i * SECTION_HEADER_SIZE + 16).

(** [create_pgd], and [map_addr] in a directory. *)
Definition new_pgd (kernel_pgd : Z) : K Z :=
  s ← get_state;
  '(pg, d) ← opt (create_pgd (k_pages s) kernel_pgd);
  _ ← modify (fun s => s <| k_pages := pg |>); mret d.
Definition map_pages (d vaddr npages : Z) (user overwrite : bool) : K unit :=
  s ← get_state;
  '(pg, _) ← opt (map_addr (k_pages s) d vaddr npages user overwrite);
  modify (fun s => s <| k_pages := pg |>).
(** A counted loop. *)
Fixpoint for_count (n : nat) (i : Z) (f : Z -> K unit) : K unit :=
  match n with O => mret tt | S n => _ ← f i; for_count n (i + 1) f end.

Section elf.
  Context (file_read : Z -> Z -> K (list Z * Z)) (file_seek : Z -> Z -> Z -> K Z).
  (** [vfs_open] and [vfs_close]. *)
  Context (open_path : vfs -> list Z -> option (vfs * Z)) (close_file : Z -> K unit).
  (** What the stack array and the byte behind it hold; what allocations
      hold. *)
  Context (stack_junk : list Z) (junk : Z -> list Z).
  Context (kernel_pgd : Z).

Definition open_file (p : list Z) : K Z :=
  s ← get_state; '(v, a) ← opt (open_path (k_vfs s) p); _ ← modify (fun s => s <| k_vfs := v |>); mret a.

(** [char magic[4]]: the terminator of a full read is written behind it. *)
Definition elf_probef (file : Z) : K bool :=
  _ ← file_seek file 0 SEEK_SET;
  '(bytes, b) ← file_read file 4;
  magic ← opt (if (0 <=? b) && (b <=? 4) then Some (set (blit stack_junk 0 bytes) b 0) else None);
  if get 0 magic 0 =? 0x7F then opt (streq (tail magic) (cstring (str "ELF"))) else mret false.
Definition elf_probe (path : list Z) : K bool :=
  file ← open_file path;
  if file =? 0 then _ ← modify (fun s => s <| k_errno := ENOENT |>); mret false
  else elf_probef file.

(** A short read is a panic. *)
Definition elf_load_segment (task file : Z) (segment : elf_program_header) : K unit :=
  if negb (ph_type segment =? ELF_PHEADER_LOAD) then mret tt else
  if VIRT_BASE <=? u32 (ph_vaddr segment + ph_memsz segment) then mret tt else
  _ ← file_seek file (ph_offset segment) SEEK_SET;
  t ← get_task task;
  _ ← for_count (Z.to_nat (PG_RND_UP (ph_memsz segment) / PAGE_SIZE)) 0
        (fun i => map_pages (t_pgd t) (u32 (ph_vaddr segment + i * PAGE_SIZE)) 1 true false);
  '(bytes, b) ← file_read file (ph_filesz segment);
  _ ← put_user_bytes (ph_vaddr segment) bytes;
  if negb (u32 b =? ph_filesz segment) then undefined else
  if ph_filesz segment <? ph_memsz segment
  then put_user_bytes (u32 (ph_vaddr segment + ph_filesz segment))
         (replicate (Z.to_nat (ph_memsz segment - ph_filesz segment)) 0)
  else mret tt.

(** A read into a new allocation of [n] bytes. *)
Definition read_alloc (file n : Z) : K (list Z) :=
  '(bytes, _) ← file_read file n; mret (blit (junk n) 0 bytes).

Definition elf_loadf (tsk file : Z) : K unit :=
  ok ← elf_probef file;
  if negb ok then mret tt else
  _ ← file_seek file 0 SEEK_SET;
  '(hb, _) ← file_read file ELF_HEADER_SIZE;
  let header := elf_header_of (blit (junk ELF_HEADER_SIZE) 0 hb) in
  _ ← file_seek file (pheader_offset header) SEEK_SET;
  segments ← read_alloc file (phentry_size header * pheader_num header);
  _ ← file_seek file (sheader_offset header) SEEK_SET;
  sections ← read_alloc file (shentry_size header * sheader_num header);
  _ ← for_count (Z.to_nat (sheader_num header)) 0 (fun i =>
        _ ← file_seek file (u32 (sh_offset sections (shstrndx header) + sh_name sections i)) SEEK_SET;
        _ ← file_read file 50; mret tt);
  t ← get_task tsk;
  _ ← (if t_pgd t =? 0 then mret tt else _ ← activate_pgd kernel_pgd; free_pgd (t_pgd t));
  d ← new_pgd kernel_pgd;
  _ ← on_task tsk (fun t => t <| t_pgd := d |>);
  s ← get_state;
  let pgd := cr3 s in
  _ ← activate_pgd d;
  tmp ← file_seek file 0 SEEK_CUR;
  _ ← file_seek file 0 SEEK_END;
  _ ← file_seek file tmp SEEK_SET;
  _ ← for_count (Z.to_nat (pheader_num header)) 0 (fun i => elf_load_segment tsk file (program_header_of segments i));
  _ ← activate_pgd pgd;
  s ← get_state;
  f ← opt (nodes (k_vfs s) !! file);
  on_task tsk (fun t => t <| t_entry := e_entry header |> <| t_name := path f |>).

Definition elf_load (tsk : Z) (p : list Z) : K unit :=
  file ← open_file p; _ ← elf_loadf tsk file; close_file file.
End elf.

(** [elf_exec]: the registers that [iret] leaves, and its frame below the
    kernel; the segment registers and [esp] of the frame are the user's. *)
Definition USER_DATA_SEL := Z.lor (4 * 8) 3.
Definition USER_CODE_SEL := Z.lor (3 * 8) 3.
Definition elf_exec (tsk : Z) : K (register -> option Z) :=
  t ← get_task tsk;
  _ ← activate_pgd (t_pgd t);
  _ ← put_user_words (VIRT_BASE - 20) [t_entry t; USER_CODE_SEL; 0x202; VIRT_BASE; USER_DATA_SEL];
  mret (fun r => match r with
                 | ds | es | fs | gs | ss => Some USER_DATA_SEL
                 | eax | useresp => Some VIRT_BASE | ebx | eip => Some (t_entry t)
                 | ebp => Some 0 | cs => Some USER_CODE_SEL | eflags => Some 0x202 | _ => None
                 end).

(** ** Files of the memory disk
    [vfs_read] and [vfs_seek] of a node of the initrd: the operation gets the
    node's own position. *)
Definition initrd_file_read (d : initrd) (inode : Z) (file n : Z) : K (list Z * Z) :=
  s ← get_state;
  f ← opt (nodes (k_vfs s) !! file);
  '(buffer, off, e, r) ← opt (initrdfs_read d inode (eof f) (replicate (Z.to_nat n) 0) n (pos f));
  _ ← modify (fun s => s <| k_vfs := set_nodes (<[file := with_eof e (with_pos off f)]> (nodes (k_vfs s))) (k_vfs s) |>);
  mret (take (Z.to_nat r) buffer, r).
Definition initrd_file_seek (d : initrd) (inode : Z) (file off whence : Z) : K Z :=
  s ← get_state;
  f ← opt (nodes (k_vfs s) !! file);
  '(f, r) ← opt (initrdfs_seek d inode f off whence);
  _ ← modify (fun s => s <| k_vfs := set_nodes (<[file := f]> (nodes (k_vfs s))) (k_vfs s) |>);
  mret r.

(** ** What the loader needs of a file
    A file with a content and a position: reads return the next bytes, seeks
    from the start move to a place inside the content, and neither touches
    anything but the file system's own state. *)
Definition vfs_only (s s' : kstate) : Prop := s' = s <| k_vfs := k_vfs s' |>.
Class FileOps (file_read : Z -> Z -> K (list Z * Z)) (file_seek : Z -> Z -> Z -> K Z) (file : Z)
    (content file_path : list Z) (file_at : kstate -> Z -> Prop) : Prop := {
  file_pos : forall s p, file_at s p -> 0 <= p <= zlen content;
  file_vfs : forall s s' p, k_vfs s' = k_vfs s -> file_at s p -> file_at s' p;
  file_node : forall s p, file_at s p -> exists f, nodes (k_vfs s) !! file = Some f /\ path f = file_path;
  file_reads : forall s p n, file_at s p -> 0 <= n < 2 ^ 32 -> exists s',
    file_read file n s = Some (Return (slice content p n, zlen (slice content p n)), s')
    /\ file_at s' (p + zlen (slice content p n)) /\ vfs_only s s';
  file_seeks : forall s p off whence, file_at s p -> exists s' r p',
    file_seek file off whence s = Some (Return r, s') /\ file_at s' p' /\ vfs_only s s'
    /\ (whence = SEEK_SET -> 0 <= off < zlen content -> p' = off)
}.

(** ** Running the loader's steps *)
(** Only the file system and the page tables change. *)
Definition loader_frame (s s' : kstate) : Prop := s' = s <| k_vfs := k_vfs s' |> <| k_pages := k_pages s' |>.
Lemma loader_frame_refl s : loader_frame s s.
Proof. by destruct s. Qed.
Lemma loader_frame_trans s1 s2 s3 : loader_frame s1 s2 -> loader_frame s2 s3 -> loader_frame s1 s3.
Proof. unfold loader_frame. intros H1 H2. rewrite H2, H1. by destruct s1. Qed.
Lemma loader_frame_vfs s s' : vfs_only s s' -> loader_frame s s' /\ k_pages s' = k_pages s.
Proof. unfold vfs_only, loader_frame. intros H. split; rewrite H; by destruct s. Qed.
Lemma loader_frame_pages s pg : loader_frame s (s <| k_pages := pg |>).
Proof. by destruct s. Qed.
Lemma loader_frame_same s s' :
  loader_frame s s' -> k_tasks s' = k_tasks s /\ cr3 s' = cr3 s.
Proof. intros H. rewrite H. by destruct s. Qed.

Lemma run_map_pages d v n user ow s pg r :
  map_addr (k_pages s) d v n user ow = Some (pg, r) -> map_pages d v n user ow s = Some (Return tt, s <| k_pages := pg |>).
Proof. intros H. unfold map_pages. kstep. by erewrite run_bind by (by apply run_opt). Qed.
Lemma run_put_user_bytes a bs s m :
  store_bytes (Space (cr3 s) (k_pages s)) a bs = Some m ->
  put_user_bytes a bs s = Some (Return tt, s <| k_pages := sp_pages m |>).
Proof. intros H. unfold put_user_bytes. kstep. by erewrite run_bind by (by apply run_opt). Qed.

(** ** Pages of a segment *)
Lemma space_load_keep s s' d x v :
  ps_frames s' = ps_frames s -> user_addr x -> (entry s d x <> 0 -> entry s' d x = entry s d x) ->
  space_load (Space d s) x = Some v -> space_load (Space d s') x = Some v.
Proof.
  intros Hf Hx He Hl. unfold space_load in *. rewrite page_frame_entry in * by auto with kernel.
  destruct (Z.eqb_spec (entry s d x) 0) as [|Hne]; [done|]. rewrite He by done.
  destruct (Z.eqb_spec (entry s d x) 0); [done|]. cbn [sp_pages] in *. by rewrite Hf.
Qed.

Lemma segment_pages_spec d vaddr n i m s :
  let base := PG_RND_DOWN vaddr in
  task_space (k_pages s) d -> 0 <= vaddr < 2 ^ 32 -> 0x400000 <= base -> 0 <= i -> base + (i + Z.of_nat n) * 4096 <= VIRT_BASE ->
  frames_left (ps_pmm (k_pages s)) m -> Z.of_nat n <= m -> Z.of_nat n <= zlen (ps_fresh (k_pages s)) ->
  exists pg, for_count n i (fun i => map_pages d (u32 (vaddr + i * PAGE_SIZE)) 1 true false) s
             = Some (Return tt, s <| k_pages := pg |>)
    /\ task_space pg d /\ ps_frames pg = ps_frames (k_pages s)
    /\ frames_left (ps_pmm pg) (m - Z.of_nat n) /\ zlen (ps_fresh (k_pages s)) <= zlen (ps_fresh pg) + Z.of_nat n
    /\ (forall x, base + i * 4096 <= x < base + (i + Z.of_nat n) * 4096 -> entry pg d x <> 0)
    /\ (forall x, user_addr x -> entry (k_pages s) d x <> 0 -> entry pg d x = entry (k_pages s) d x).
Proof.
  intros base. revert s i m. induction n as [|n IH]; intros s i m Hu Hv Hlo Hi Hhi Hfl Hm Hfr.
  { exists (k_pages s). split_and!; try done; [by destruct s|by rewrite Z.sub_0_r|lia|intros x Hx; lia]. }
  rewrite Nat2Z.inj_succ in *. cbn [for_count].
  destruct (PG_RND_DOWN_eq vaddr ltac:(lia)) as [Hb Hbr]. fold base in Hb, Hbr.
  pose proof (Z.div_mod vaddr 4096 ltac:(lia)) as Hdm. pose proof (Z.mod_pos_bound vaddr 4096 ltac:(lia)) as Hmb.
  unfold PAGE_SIZE. unfold VIRT_BASE in Hhi. rewrite u32_id by lia. set (a := vaddr + i * 4096) in *.
  assert (Hpage : forall x, base + i * 4096 <= x < base + (i + 1) * 4096 -> same_page x a = true).
  { intros x Hx. unfold same_page. apply Z.eqb_eq. transitivity (vaddr / 4096 + i); [|unfold a; by rewrite Z.div_add].
    symmetry. apply Z.div_unique with (x - (base + i * 4096)); lia. }
  destruct (map_one_page (k_pages s) d a m true Hu) as (pg1&r&Hr&Hu1&Hf1&Hl1&Hfr1&Hne1&He1); try done; try lia;
    [unfold user_addr, VIRT_BASE; lia|].
  erewrite run_bind by (by eapply run_map_pages).
  destruct (IH (s <| k_pages := pg1 |>) (i + 1) (m - 1)) as (pg&Hrun&Hu2&Hf2&Hl2&Hfr2&Hne2&He2); try done; cbn in *;
    try (unfold VIRT_BASE; lia).
  exists pg. split_and!; [exact Hrun|done|congruence| |lia| |].
  - by replace (m - Z.succ (Z.of_nat n)) with (m - 1 - Z.of_nat n) by lia.
  - intros x Hx. destruct (decide (x < base + (i + 1) * 4096)) as [Hlt|]; [|apply Hne2; lia].
    assert (Hux : user_addr x) by (unfold user_addr, VIRT_BASE; lia).
    assert (Hnx : entry pg1 d x <> 0).
    { rewrite (entry_same_page pg1 d x a); [done|lia..|]. by apply Z.eqb_eq, Hpage; lia. }
    by rewrite He2.
  - intros x Hx Hnx. assert (E : entry pg1 d x = entry (k_pages s) d x).
    { rewrite He1 by auto with kernel. destruct (same_page x a && _) eqn:E; [|done].
      apply andb_true_iff in E as [E1 E2]. zbool. unfold same_page in E1. apply Z.eqb_eq in E1.
      rewrite (entry_same_page _ d x a) in Hnx by (done || (destruct Hx; lia)). done. }
    rewrite He2 by (done || congruence). done.
Qed.

(** ** Loading a segment *)

(** A segment inside the file and inside a task's part of memory, from 4 MiB
    (the tables below belong to the kernel) to the kernel. *)
Definition PT_LOAD_ok (content : list Z) (ph : elf_program_header) : Prop :=
  ph_type ph = ELF_PHEADER_LOAD /\ 0 <= ph_filesz ph <= ph_memsz ph /\ 0 <= ph_offset ph
  /\ ph_offset ph + ph_filesz ph <= zlen content /\ 0 <= ph_vaddr ph /\ ph_vaddr ph + ph_memsz ph < VIRT_BASE
  /\ 0x400000 <= PG_RND_DOWN (ph_vaddr ph).
Definition segment_pages (ph : elf_program_header) : Z := PG_RND_UP (ph_memsz ph) / PAGE_SIZE.
Definition in_segment (ph : elf_program_header) (x : Z) : Prop := ph_vaddr ph <= x < ph_vaddr ph + ph_memsz ph.
(** The pages that [elf_load_segment] maps for a segment: its size rounded up to
    pages, from the page of its address on.  A segment that does not begin at
    the start of a page can reach past them. *)
Definition in_segment_pages (ph : elf_program_header) (x : Z) : Prop :=
  PG_RND_DOWN (ph_vaddr ph) <= x < PG_RND_DOWN (ph_vaddr ph) + segment_pages ph * 4096.
(** The byte of a segment in memory: from the file, then zeroes. *)
Definition segment_byte (content : list Z) (ph : elf_program_header) (x : Z) : Z :=
  if x - ph_vaddr ph <? ph_filesz ph then u8 (get 0 content (ph_offset ph + (x - ph_vaddr ph))) else 0.
Definition segment_loaded (content : list Z) (s : pstate) (d : Z) (ph : elf_program_header) : Prop :=
  forall x, in_segment ph x -> space_load (Space d s) x = Some (segment_byte content ph x).

(** What a loader step keeps: the bytes outside [P] that are mapped. *)
Definition keeps_bytes (d : Z) (P : Z -> Prop) (s s' : pstate) : Prop :=
  forall x v, user_addr x -> ~ P x -> space_load (Space d s) x = Some v -> space_load (Space d s') x = Some v.
Lemma keeps_bytes_trans d P s1 s2 s3 : keeps_bytes d P s1 s2 -> keeps_bytes d P s2 s3 -> keeps_bytes d P s1 s3.
Proof. intros H1 H2 x v Hx Hp Hl. apply H2; [done..|]. by apply H1. Qed.

Lemma segment_pages_bytes content ph :
  PT_LOAD_ok content ph -> 0 <= segment_pages ph /\ PG_RND_UP (ph_memsz ph) = segment_pages ph * 4096.
Proof.
  intros (_&Hfs&_&_&Hv&Hend&_). unfold VIRT_BASE in Hend. unfold segment_pages, PG_RND_UP, PAGE_SIZE.
  destruct (ROUND_UP_eq (ph_memsz ph) 4096) as [Hr Hm]; [lia..|].
  pose proof (Z.div_mod (ROUND_UP (ph_memsz ph) 4096) 4096). lia.
Qed.

Lemma segment_pages_fit content ph :
  PT_LOAD_ok content ph -> PG_RND_DOWN (ph_vaddr ph) + segment_pages ph * 4096 <= VIRT_BASE.
Proof.
  intros Hok. destruct (segment_pages_bytes content ph Hok) as [_ <-]. destruct Hok as (_&Hfs&_&_&Hv&Hend&_).
  unfold VIRT_BASE in *. destruct (PG_RND_DOWN_eq (ph_vaddr ph) ltac:(lia)) as [Hb Hr].
  pose proof (Z.div_mod (ph_vaddr ph) 4096 ltac:(lia)) as Hdm. pose proof (Z.mod_pos_bound (ph_vaddr ph) 4096 ltac:(lia)).
  unfold PG_RND_UP, PAGE_SIZE. destruct (ROUND_UP_eq (ph_memsz ph) 4096) as [Hu Hm]; [lia..|].
  apply Z.mod_divide in Hm as [k Hk]; [|done]. rewrite Hk in *. lia.
Qed.

Lemma store_run s d a bs :
  task_space (k_pages s) d -> cr3 s = d -> 0 <= a -> a + zlen bs <= VIRT_BASE ->
  (forall x, a <= x < a + zlen bs -> entry (k_pages s) d x <> 0) ->
  exists f, let pg := with_frames f (k_pages s) in
    put_user_bytes a bs s = Some (Return tt, s <| k_pages := pg |>) /\ task_space pg d
    /\ (forall x, entry pg d x = entry (k_pages s) d x)
    /\ keeps_bytes d (fun x => a <= x < a + zlen bs) (k_pages s) pg
    /\ forall x, a <= x < a + zlen bs -> space_load (Space d pg) x = Some (u8 (get 0 bs (x - a))).
Proof.
  intros Hu Hc Ha Hhi Hm. destruct (store_bytes_spec (k_pages s) d a bs Hu Ha Hhi Hm) as (f&Hs&Hu'&Hl).
  exists f. cbv zeta. split_and!; [|done|done| |].
  - erewrite run_put_user_bytes by (rewrite Hc; exact Hs). done.
  - intros x v Hx Hp Hv. rewrite Hl by done. destruct ((a <=? x) && (x <? a + zlen bs)) eqn:E; [|done].
    apply andb_true_iff in E as [? ?]. zbool. lia.
  - intros x Hx. rewrite Hl by (split; lia). cmp; simpl; done || lia.
Qed.

Section spec.
  Context {file_read : Z -> Z -> K (list Z * Z)} {file_seek : Z -> Z -> Z -> K Z}.
  Context {file : Z} {content file_path : list Z} {file_at : kstate -> Z -> Prop}.
  Context `{!FileOps file_read file_seek file content file_path file_at}.
  Context (tsk : Z).

(** The state of the loader between its steps. *)
Record loading (s : kstate) (d m : Z) : Prop := Loading {
  ld_space : task_space (k_pages s) d;
  ld_room : room (k_pages s) m;
  ld_cr3 : cr3 s = d;
  ld_task : exists t, k_tasks s !! tsk = Some t /\ t_pgd t = d;
  ld_file : exists p, file_at s p
}.

Lemma loading_pages s d m pg m' :
  loading s d m -> task_space pg d -> room pg m' -> loading (s <| k_pages := pg |>) d m'.
Proof.
  intros [_ _ H3 H4 [p H5]] Hu Hr. constructor; try done. exists p. by eapply file_vfs; [|exact H5].
Qed.
Lemma loading_vfs s s' d m p : loading s d m -> vfs_only s s' -> file_at s' p -> loading s' d m.
Proof.
  intros [H1 H2 H3 H4 _] Hv Hf. destruct (loader_frame_vfs _ _ Hv) as [Hfr Hp].
  destruct (loader_frame_same _ _ Hfr) as [Ht Hc]. constructor; rewrite ?Hp, ?Hc, ?Ht; try done. by exists p.
Qed.

Lemma keeps_bytes_weaken d (P Q : Z -> Prop) u u' :
  (forall x, P x -> Q x) -> keeps_bytes d P u u' -> keeps_bytes d Q u u'.
Proof. intros HP Hk x v Hx Hnp. apply Hk; [done|]. intros Hpx. by apply Hnp, HP. Qed.

(** The bytes of a segment, its pages being there. *)
Lemma segment_contents_spec s d m ph :
  loading s d m -> PT_LOAD_ok content ph -> (forall x, in_segment ph x -> entry (k_pages s) d x <> 0) ->
  exists s', (_ ← put_user_bytes (ph_vaddr ph) (slice content (ph_offset ph) (ph_filesz ph));
              if negb (u32 (ph_filesz ph) =? ph_filesz ph) then undefined else
              if ph_filesz ph <? ph_memsz ph
              then put_user_bytes (u32 (ph_vaddr ph + ph_filesz ph))
                     (replicate (Z.to_nat (ph_memsz ph - ph_filesz ph)) 0)
              else mret tt) s = Some (Return tt, s')
    /\ loader_frame s s' /\ loading s' d m /\ (forall x, entry (k_pages s') d x = entry (k_pages s) d x)
    /\ segment_loaded content (k_pages s') d ph /\ keeps_bytes d (in_segment ph) (k_pages s) (k_pages s').
Proof.
  intros Hld (_&Hfs&Ho&Hoc&Hv&Hend&_) Hmapped. unfold VIRT_BASE in Hend. unfold in_segment in Hmapped.
  set (bytes := slice content (ph_offset ph) (ph_filesz ph)).
  assert (Hlen : zlen bytes = ph_filesz ph) by (unfold bytes; rewrite zlen_slice; lia).
  destruct (store_run s d (ph_vaddr ph) bytes) as (f1&Hrun1&Hu1&He1&Hk1&Hl1);
    [exact (ld_space _ _ _ Hld)|exact (ld_cr3 _ _ _ Hld)|lia|unfold VIRT_BASE; lia|intros x Hx; apply Hmapped; lia|].
  erewrite run_bind by exact Hrun1. rewrite (u32_id (ph_filesz ph)), Z.eqb_refl by lia. cbn [negb].
  set (s1 := s <| k_pages := with_frames f1 (k_pages s) |>).
  assert (Hroom : forall f, room (with_frames f (k_pages s)) m) by (intros f; constructor; apply (ld_room _ _ _ Hld)).
  assert (Hld1 : loading s1 d m) by (by apply (loading_pages _ _ m)).
  assert (Hfile : forall x, ph_vaddr ph <= x < ph_vaddr ph + ph_filesz ph ->
            space_load (Space d (k_pages s1)) x = Some (segment_byte content ph x)).
  { intros x Hx. cbn. rewrite Hl1 by lia. unfold segment_byte. destruct (Z.ltb_spec (x - ph_vaddr ph) (ph_filesz ph)); [|lia].
    unfold bytes. by rewrite get_slice by lia. }
  assert (Hk1' : keeps_bytes d (in_segment ph) (k_pages s) (k_pages s1)).
  { eapply keeps_bytes_weaken; [|exact Hk1]. unfold in_segment. intros x. lia. }
  destruct (Z.ltb_spec (ph_filesz ph) (ph_memsz ph)) as [Hz|Hz].
  2: { exists s1. split; [done|]. split; [apply loader_frame_pages|]. split; [done|]. split; [exact He1|]. split; [|done].
       intros x Hx. apply Hfile. unfold in_segment in Hx. lia. }
  rewrite u32_id by lia. set (zeros := replicate _ 0).
  assert (Hzl : zlen zeros = ph_memsz ph - ph_filesz ph) by (unfold zeros; rewrite zlen_replicate; lia).
  destruct (store_run s1 d (ph_vaddr ph + ph_filesz ph) zeros) as (f2&Hrun2&Hu2&He2&Hk2&Hl2);
    [exact (ld_space _ _ _ Hld1)|exact (ld_cr3 _ _ _ Hld1)|lia|unfold VIRT_BASE; lia|intros x Hx; apply Hmapped; lia|].
  eexists. split; [exact Hrun2|]. split; [|split; [|split; [|split]]].
  - eapply loader_frame_trans; apply loader_frame_pages.
  - apply (loading_pages _ _ m); [done..|apply Hroom].
  - intros x. cbn in He1, He2 |- *. by rewrite He2, He1.
  - intros x Hx. unfold in_segment in Hx. destruct (decide (x < ph_vaddr ph + ph_filesz ph)) as [Hlt|Hge].
    + apply Hk2; [split; unfold VIRT_BASE; lia|lia|]. apply Hfile. lia.
    + cbn. rewrite Hl2 by lia. unfold zeros, segment_byte. rewrite get_replicate.
      by destruct (Z.ltb_spec (x - ph_vaddr ph) (ph_filesz ph)); [lia|].
  - eapply keeps_bytes_trans; [exact Hk1'|]. eapply keeps_bytes_weaken; [|exact Hk2]. unfold in_segment. intros x. lia.
Qed.

Lemma elf_load_segment_spec s d m ph :
  loading s d m -> PT_LOAD_ok content ph -> segment_pages ph <= m ->
  (forall x, in_segment ph x -> entry (k_pages s) d x <> 0 \/ in_segment_pages ph x) ->
  exists s', elf_load_segment file_read file_seek tsk file ph s = Some (Return tt, s')
    /\ loader_frame s s' /\ loading s' d (m - segment_pages ph)
    /\ (forall x, user_addr x -> entry (k_pages s) d x <> 0 \/ in_segment_pages ph x -> entry (k_pages s') d x <> 0)
    /\ segment_loaded content (k_pages s') d ph /\ keeps_bytes d (in_segment ph) (k_pages s) (k_pages s').
Proof.
  intros Hld Hok Hm Hcov. destruct (segment_pages_bytes content ph Hok) as [Hsp Hru].
  pose proof (segment_pages_fit content ph Hok) as Hfit2.
  pose proof Hok as (Hty&Hfs&Ho&Hoc&Hv&Hend&Hlo). unfold elf_load_segment.
  rewrite Hty. cbn [negb Z.eqb Pos.eqb ELF_PHEADER_LOAD]. unfold VIRT_BASE in Hend.
  rewrite (u32_id (ph_vaddr ph + ph_memsz ph)) by lia.
  destruct (Z.leb_spec VIRT_BASE (ph_vaddr ph + ph_memsz ph)) as [Hbad|_]; [unfold VIRT_BASE in Hbad; lia|].
  destruct (ld_file _ _ _ Hld) as [p0 Hp0].
  destruct (file_seeks s p0 (ph_offset ph) SEEK_SET Hp0) as (s1&r1&p1&Hrun1&Hp1&Hvo1&Hpos1).
  erewrite run_bind by exact Hrun1. pose proof (loading_vfs _ _ _ _ _ Hld Hvo1 Hp1) as Hld1.
  destruct (loader_frame_vfs _ _ Hvo1) as [Hfr1 Hpg1].
  destruct (ld_task _ _ _ Hld1) as (t&Ht&Hpgd). kstep. rewrite Hpgd.
  destruct (ld_room _ _ _ Hld1) as [Hfl Htb].
  destruct (segment_pages_spec d (ph_vaddr ph) (Z.to_nat (segment_pages ph)) 0 m s1)
    as (pg&Hrun2&Hu2&Hf2&Hl2&Hfr2&Hne2&He2); try done; try lia; [apply Hld1|]. rewrite Z2Nat.id, Z.add_0_l in * by lia.
  fold (segment_pages ph). erewrite run_bind by exact Hrun2. clear Hrun2.
  set (s2 := s1 <| k_pages := pg |>).
  assert (Hld2 : loading s2 d (m - segment_pages ph)) by (apply (loading_pages _ _ m); [done..|constructor; [done|lia]]).
  assert (Hp2 : file_at s2 p1) by (by eapply file_vfs; [|exact Hp1]).
  assert (Hbytes : slice content p1 (ph_filesz ph) = slice content (ph_offset ph) (ph_filesz ph)).
  { destruct (decide (ph_filesz ph = 0)) as [->|]; [done|]. by rewrite Hpos1 by (done || lia). }
  assert (Hlen : zlen (slice content (ph_offset ph) (ph_filesz ph)) = ph_filesz ph) by (rewrite zlen_slice; lia).
  destruct (file_reads s2 p1 (ph_filesz ph) Hp2 ltac:(lia)) as (s3&Hrun3&Hp3&Hvo3).
  rewrite Hbytes, Hlen in Hrun3, Hp3. erewrite run_bind by exact Hrun3. cbv beta iota.
  pose proof (loading_vfs _ _ _ _ _ Hld2 Hvo3 Hp3) as Hld3. destruct (loader_frame_vfs _ _ Hvo3) as [Hfr3 Hpg3].
  destruct (PG_RND_DOWN_eq (ph_vaddr ph) ltac:(lia)) as [_ Hbr].
  assert (Hmapped : forall x, user_addr x -> entry (k_pages s) d x <> 0 \/ in_segment_pages ph x ->
            entry (k_pages s3) d x <> 0).
  { intros x Hx [Hne|Hin]; rewrite Hpg3; [|apply Hne2; unfold in_segment_pages in Hin; lia].
    rewrite He2; rewrite ?Hpg1; done. }
  destruct (segment_contents_spec s3 d (m - segment_pages ph) ph Hld3 Hok) as (s4&Hrun4&Hfr4&Hld4&He4&Hload&Hk4).
  { intros x Hx. pose proof (Hcov x Hx). unfold in_segment in Hx. apply Hmapped; [split; unfold VIRT_BASE; lia|done]. }
  exists s4. split; [exact Hrun4|]. split; [|split; [done|split; [|split; [done|]]]].
  - apply (loader_frame_trans _ s1); [done|]. apply (loader_frame_trans _ s2); [apply loader_frame_pages|].
    by apply (loader_frame_trans _ s3).
  - intros x Hx Hor. rewrite He4. by apply Hmapped.
  - eapply keeps_bytes_trans; [|exact Hk4]. intros x v Hx _ Hlx. rewrite Hpg3. rewrite <- Hpg1 in Hlx.
    apply (space_load_keep (k_pages s1)); auto.
Qed.

(** A program header that the loader passes over. *)
Definition not_loaded (ph : elf_program_header) : Prop :=
  ph_type ph <> ELF_PHEADER_LOAD \/ VIRT_BASE <= u32 (ph_vaddr ph + ph_memsz ph).
Lemma elf_load_segment_skips s ph :
  not_loaded ph -> elf_load_segment file_read file_seek tsk file ph s = Some (Return tt, s).
Proof.
  unfold not_loaded, elf_load_segment. intros Hn. destruct (Z.eqb_spec (ph_type ph) ELF_PHEADER_LOAD); [|done].
  destruct Hn as [|Hn]; [done|]. cbn [negb]. by destruct (Z.leb_spec VIRT_BASE (u32 (ph_vaddr ph + ph_memsz ph))); [|lia].
Qed.

(** ** Loading them all *)
Definition segment_ok (ph : elf_program_header) : Prop := PT_LOAD_ok content ph \/ not_loaded ph.
Definition loadable (ph : elf_program_header) : bool :=
  (ph_type ph =? ELF_PHEADER_LOAD) && (u32 (ph_vaddr ph + ph_memsz ph) <? VIRT_BASE).
Definition pages_needed (phs : list elf_program_header) : Z :=
  foldr (fun ph n => (if loadable ph then segment_pages ph else 0) + n) 0 phs.
(** No two segments share a byte. *)
Definition disjoint (a b : elf_program_header) : Prop :=
  loadable a = true -> loadable b = true -> forall x, in_segment a x -> ~ in_segment b x.

(** Every byte of a loadable segment lies in the pages mapped for it or for an
    earlier one, [mapped] being those mapped before. *)
Fixpoint covered (mapped : Z -> Prop) (phs : list elf_program_header) : Prop :=
  match phs with
  | [] => True
  | ph :: phs =>
      if loadable ph then
        (forall x, in_segment ph x -> mapped x \/ in_segment_pages ph x)
        /\ covered (fun x => mapped x \/ in_segment_pages ph x) phs
      else covered mapped phs
  end.

Lemma segment_ok_cases ph :
  segment_ok ph -> if loadable ph then PT_LOAD_ok content ph else not_loaded ph.
Proof.
  unfold segment_ok, loadable, not_loaded. intros [Hok|Hn].
  - pose proof Hok as (Hty&Hfs&_&_&Hv&Hend&_). unfold VIRT_BASE in *. rewrite Hty, Z.eqb_refl, u32_id by lia.
    destruct (Z.ltb_spec (ph_vaddr ph + ph_memsz ph) 0xC0000000); [done|lia].
  - destruct (Z.eqb_spec (ph_type ph) ELF_PHEADER_LOAD), (Z.ltb_spec (u32 (ph_vaddr ph + ph_memsz ph)) VIRT_BASE);
      simpl; try tauto; try lia.
Qed.
Lemma pages_needed_nonneg phs : Forall segment_ok phs -> 0 <= pages_needed phs.
Proof.
  induction 1 as [|ph phs Hok _ IH]; simpl; [lia|]. apply segment_ok_cases in Hok.
  destruct (loadable ph); [apply segment_pages_bytes in Hok|]; lia.
Qed.

Lemma covered_ext (M N : Z -> Prop) phs : (forall x, M x <-> N x) -> covered M phs -> covered N phs.
Proof.
  revert M N. induction phs as [|ph phs IH]; intros M N HMN; [done|]. cbn [covered].
  destruct (loadable ph); [|by apply IH]. intros [H1 H2]. split.
  - intros x Hx. rewrite <- HMN. by apply H1.
  - revert H2. apply IH. intros x. by rewrite HMN.
Qed.
Lemma covered_cons mapped ph phs :
  covered mapped (ph :: phs) ->
  (loadable ph = true -> forall x, in_segment ph x -> mapped x \/ in_segment_pages ph x)
  /\ covered (fun x => mapped x \/ loadable ph = true /\ in_segment_pages ph x) phs.
Proof.
  cbn [covered]. destruct (loadable ph).
  - intros [H1 H2]. split; [done|]. revert H2. apply covered_ext. intros x. tauto.
  - intros H. split; [done|]. revert H. apply covered_ext. intros x. split; [by left|intros [?|[? _]]; done].
Qed.

(** One header, loaded or passed over. *)
Lemma header_spec s d m ph mapped :
  let n := if loadable ph then segment_pages ph else 0 in
  loading s d m -> (if loadable ph then PT_LOAD_ok content ph else not_loaded ph) -> n <= m ->
  (loadable ph = true -> forall x, in_segment ph x -> mapped x \/ in_segment_pages ph x) ->
  (forall x, user_addr x -> mapped x -> entry (k_pages s) d x <> 0) ->
  exists s1, elf_load_segment file_read file_seek tsk file ph s = Some (Return tt, s1)
    /\ loader_frame s s1 /\ loading s1 d (m - n)
    /\ (forall x, user_addr x -> (mapped x \/ loadable ph = true /\ in_segment_pages ph x) -> entry (k_pages s1) d x <> 0)
    /\ (loadable ph = true -> segment_loaded content (k_pages s1) d ph)
    /\ keeps_bytes d (fun x => loadable ph = true /\ in_segment ph x) (k_pages s) (k_pages s1).
Proof.
  intros n Hld Hph Hm Hcov Hmap. unfold n in *. destruct (loadable ph).
  - destruct (elf_load_segment_spec s d m ph Hld Hph ltac:(lia)) as (s1&?&?&?&He&?&Hk).
    { intros x Hx. destruct (Hcov eq_refl x Hx) as [Hm1|]; [left|by right].
      apply Hmap; [|done]. destruct Hph as (_&_&_&_&?&?&?). unfold in_segment in Hx. unfold VIRT_BASE in *.
      destruct (PG_RND_DOWN_eq (ph_vaddr ph)) as [_ ?]; [lia|]. unfold user_addr, VIRT_BASE. lia. }
    exists s1. do 3 (split; [done|]). split; [|split; [done|]].
    + intros x Hx [Hm1|[_ Hin]]; apply He; auto.
    + eapply keeps_bytes_weaken; [|exact Hk]. done.
  - exists s. rewrite elf_load_segment_skips by done. rewrite Z.sub_0_r.
    split; [done|]. split; [apply loader_frame_refl|].
    split; [done|]. split; [intros x Hx [|[? _]]; [auto|done]|]. split; [done|]. by intros x v _ _ Hv.
Qed.

Lemma load_segments_spec s d m phs i segs mapped :
  loading s d m -> Forall segment_ok phs -> ForallOrdPairs disjoint phs -> pages_needed phs <= m ->
  covered mapped phs -> (forall x, user_addr x -> mapped x -> entry (k_pages s) d x <> 0) ->
  (forall k ph, phs !! k = Some ph -> program_header_of segs (i + Z.of_nat k) = ph) ->
  exists s', for_count (length phs) i
      (fun i => elf_load_segment file_read file_seek tsk file (program_header_of segs i)) s = Some (Return tt, s')
    /\ loader_frame s s' /\ loading s' d (m - pages_needed phs)
    /\ Forall (fun ph => loadable ph = true -> segment_loaded content (k_pages s') d ph) phs
    /\ keeps_bytes d (fun x => exists ph, ph ∈ phs /\ loadable ph = true /\ in_segment ph x) (k_pages s) (k_pages s').
Proof.
  revert s m i mapped. induction phs as [|ph phs IH]; intros s m i mapped Hld Hok Hdis Hm Hcov Hmap Hsegs.
  { exists s. split; [done|]. split; [apply loader_frame_refl|]. rewrite Z.sub_0_r. split; [done|]. split; [done|].
    by intros x v _ _ Hl. }
  inversion Hok as [|? ? Hph Hok']; subst. inversion Hdis as [|? ? Hd Hdis']; subst.
  pose proof (pages_needed_nonneg phs Hok') as Hnn. cbn [pages_needed foldr] in Hm. fold (pages_needed phs) in Hm.
  pose proof (Hsegs 0%nat ph eq_refl) as H0. rewrite Z.add_0_r in H0.
  cbn [for_count length]. rewrite H0. apply segment_ok_cases in Hph. apply covered_cons in Hcov as [Hc1 Hc2].
  destruct (header_spec s d m ph mapped Hld Hph ltac:(lia) Hc1 Hmap) as (s1&Hrun1&Hfr1&Hld1&He1&Hload1&Hk1).
  erewrite run_bind by exact Hrun1. set (n := if loadable ph then segment_pages ph else 0) in *.
  destruct (IH s1 (m - n) (i + 1) _ Hld1 Hok' Hdis' ltac:(lia) Hc2 He1) as (s2&Hrun2&Hfr2&Hld2&Hload2&Hk2).
  { intros k q Hk. rewrite <- (Hsegs (S k) q) by done. f_equal. lia. }
  exists s2. split; [exact Hrun2|]. split; [by eapply loader_frame_trans|]. split; [|split].
  - replace (m - pages_needed (ph :: phs)) with (m - n - pages_needed phs) by (simpl; fold (pages_needed phs); lia). done.
  - constructor; [|done]. intros Hl x Hx. rewrite Hl in Hph. apply Hk2; [|intros (q&Hq&Hlq&Hqx)|by apply Hload1].
    + destruct Hph as (_&_&_&_&?&?&_). unfold in_segment in Hx. split; lia.
    + rewrite Forall_forall in Hd. by apply (Hd q Hq Hl Hlq x).
  - intros x v Hx Hnp Hv. apply Hk2; [done| |apply Hk1; [done| |done]].
    + intros (q&Hq&?&?). apply Hnp. exists q. split; [by right|done].
    + intros [? ?]. apply Hnp. exists ph. split; [by left|done].
Qed.

(** ** The whole file *)
Lemma elf_magic junk5 : 5 <= zlen junk5 ->
  let magic := set (blit junk5 0 [0x7F; 69; 76; 70]) 4 0 in
  get 0 magic 0 = 0x7F /\ streq (tail magic) (cstring (str "ELF")) = Some true.
Proof.
  intros Hj. destruct junk5 as [|j0 [|j1 [|j2 [|j3 [|j4 rest]]]]]; try (rewrite ?zlen_cons, zlen_nil in Hj; lia).
  by split.
Qed.

Lemma elf_probef_spec stack_junk s p :
  file_at s p -> 5 <= zlen stack_junk -> slice content 0 4 = [0x7F; 69; 76; 70] ->
  exists s' p', elf_probef file_read file_seek stack_junk file s = Some (Return true, s')
    /\ vfs_only s s' /\ file_at s' p'.
Proof.
  intros Hp Hj Hm.
  assert (Hlen : 4 <= zlen content).
  { assert (zlen (slice content 0 4) = 4) as H4 by (by rewrite Hm).
    unfold slice, zlen in H4. rewrite length_take, length_drop in H4. unfold zlen. lia. }
  destruct (file_seeks s p 0 SEEK_SET Hp) as (s1&r1&p1&Hrun1&Hp1&Hv1&Hpos). rewrite Hpos in Hp1 by (done || lia).
  destruct (file_reads s1 0 4 Hp1 ltac:(lia)) as (s2&Hrun2&Hp2&Hv2). rewrite Hm in Hrun2, Hp2.
  destruct (elf_magic stack_junk Hj) as [H0 He].
  exists s2. eexists. split; [|split; [|exact Hp2]].
  - unfold elf_probef. erewrite run_bind by exact Hrun1. erewrite run_bind by exact Hrun2. cbv beta iota.
    change (zlen [0x7F; 69; 76; 70]) with 4. cbn [Z.leb Z.compare Pos.compare Pos.compare_cont andb]. kstep.
    rewrite H0. change (0x7F =? 0x7F) with true. cbv iota. by apply run_opt.
  - unfold vfs_only in *. rewrite Hv2, Hv1. by destruct s.
Qed.

Lemma vfs_only_trans s1 s2 s3 : vfs_only s1 s2 -> vfs_only s2 s3 -> vfs_only s1 s3.
Proof. unfold vfs_only. intros H1 H2. rewrite H2, H1. by destruct s1. Qed.

(** Reading an array that lies in the file into memory of its size. *)
Lemma read_array_spec (memory : list Z) s p off n :
  file_at s p -> 0 <= off < zlen content -> 0 <= n < 2 ^ 32 -> off + n <= zlen content -> zlen memory = n ->
  exists s1 s' r k p', file_seek file off SEEK_SET s = Some (Return r, s1)
    /\ file_read file n s1 = Some (Return (slice content off n, k), s')
    /\ blit memory 0 (slice content off n) = slice content off n /\ vfs_only s s' /\ file_at s' p'.
Proof.
  intros Hp Hoff Hn Hfit Hj. destruct (file_seeks s p off SEEK_SET Hp) as (s1&r1&p1&Hrun1&Hp1&Hv1&Hpos).
  rewrite Hpos in Hp1 by (done || lia). destruct (file_reads s1 off n Hp1 Hn) as (s2&Hrun2&Hp2&Hv2).
  exists s1, s2, r1. do 2 eexists. split; [done|]. split; [done|]. split; [|split; [by eapply vfs_only_trans|exact Hp2]].
  assert (Hl : zlen (slice content off n) = n) by (by apply zlen_slice; lia).
  rewrite blit_eq by lia. change (Z.to_nat 0) with 0%nat. rewrite take_0, drop_ge, app_nil_r; [done|].
  unfold zlen in *. lia.
Qed.
Lemma run_read_alloc junk s n bytes k s' :
  file_read file n s = Some (Return (bytes, k), s') ->
  read_alloc file_read junk file n s = Some (Return (blit (junk n) 0 bytes), s').
Proof. intros H. unfold read_alloc. by erewrite run_bind by exact H. Qed.

(** The log of the section names reads around in the file. *)
Lemma section_names_spec (offset : Z -> Z) n i s p :
  file_at s p ->
  exists s' p', for_count n i (fun i => _ ← file_seek file (offset i) SEEK_SET; _ ← file_read file 50; mret tt) s
    = Some (Return tt, s') /\ vfs_only s s' /\ file_at s' p'.
Proof.
  revert s p i. induction n as [|n IH]; intros s p i Hp; cbn [for_count].
  { exists s, p. split; [done|]. split; [by destruct s|done]. }
  destruct (file_seeks s p (offset i) SEEK_SET Hp) as (s1&r1&p1&Hrun1&Hp1&Hv1&_).
  destruct (file_reads s1 p1 50 Hp1 ltac:(lia)) as (s2&Hrun2&Hp2&Hv2).
  destruct (IH s2 _ (i + 1) Hp2) as (s3&p3&Hrun3&Hv3&Hp3). exists s3, p3. split; [|split; [|done]].
  - rewrite <- Hrun3. unfold mbind, K_bind. rewrite Hrun1. by rewrite Hrun2.
  - by do 2 (eapply vfs_only_trans; [done|]).
Qed.

Definition file_header : elf_header := elf_header_of (slice content 0 ELF_HEADER_SIZE).
Definition file_segments : list Z :=
  slice content (pheader_offset file_header) (PROGRAM_HEADER_SIZE * pheader_num file_header).
Definition file_phs : list elf_program_header := program_header_of file_segments <$> seqZ 0 (pheader_num file_header).

(** A 32-bit executable: the magic number, the header and the table of
    segments are there; what is loaded lies between 4 MiB and the kernel, no
    two segments share a byte, and the pages that the loader maps cover them. *)
Record elf_file : Prop := ElfFile {
  ef_bytes : forall i, 0 <= get 0 content i < 256;
  ef_magic : slice content 0 4 = [0x7F; 69; 76; 70];
  ef_header : ELF_HEADER_SIZE <= zlen content;
  ef_entry_size : phentry_size file_header = PROGRAM_HEADER_SIZE;
  ef_table : pheader_offset file_header < zlen content
    /\ pheader_offset file_header + PROGRAM_HEADER_SIZE * pheader_num file_header <= zlen content;
  ef_segments : Forall segment_ok file_phs;
  ef_disjoint : ForallOrdPairs disjoint file_phs;
  ef_covered : covered (fun _ => False) file_phs
}.

Lemma file_header_range : elf_file -> 
  0 <= pheader_offset file_header /\ 0 <= pheader_num file_header < 2 ^ 16
  /\ 0 <= sheader_offset file_header /\ 0 <= shentry_size file_header * sheader_num file_header < 2 ^ 32.
Proof.
  intros H. assert (Hb : forall i, 0 <= get 0 (slice content 0 ELF_HEADER_SIZE) i < 256).
  { intros i. destruct (decide (0 <= i < ELF_HEADER_SIZE)) as [Hi|Hi].
    - rewrite get_slice by lia. apply (ef_bytes H).
    - rewrite get_out; [lia|]. rewrite zlen_slice; [done|unfold ELF_HEADER_SIZE; lia..|]. apply (ef_header H). }
  unfold file_header, elf_header_of. cbn [pheader_offset pheader_num sheader_offset shentry_size sheader_num].
  pose proof (le32_range _ 28 Hb). pose proof (le32_range _ 32 Hb). pose proof (le16_range _ 44 Hb).
  pose proof (le16_range _ 46 Hb). pose proof (le16_range _ 48 Hb). nia.
Qed.

(** The pages once the old directory is freed. *)
Definition freed_pages (t : task) (s : pstate) : pstate :=
  if t_pgd t =? 0 then s else with_tables (delete (t_pgd t) (ps_tables s)) s.

Lemma free_old_pgd kernel_pgd s t :
  (t_pgd t <> 0 -> is_Some (ps_tables (k_pages s) !! t_pgd t)) ->
  (if t_pgd t =? 0 then mret tt else _ ← activate_pgd kernel_pgd; free_pgd (t_pgd t)) s
  = Some (Return tt, s <| cr3 := (if t_pgd t =? 0 then cr3 s else kernel_pgd) |> <| k_pages := freed_pages t (k_pages s) |>).
Proof.
  intros Hd. unfold freed_pages. destruct (Z.eqb_spec (t_pgd t) 0) as [E|E]; [by destruct s|].
  unfold activate_pgd. kstep. unfold free_pgd. kstep. destruct (Hd E) as [tb Htb].
  erewrite run_bind by (apply run_opt; exact Htb). by destruct s.
Qed.

Lemma run_new_pgd kernel_pgd s pg d :
  create_pgd (k_pages s) kernel_pgd = Some (pg, d) ->
  new_pgd kernel_pgd s = Some (Return d, s <| k_pages := pg |>).
Proof. intros H. unfold new_pgd. kstep. by erewrite run_bind by (by apply run_opt). Qed.

Context (stack_junk : list Z) (junk : Z -> list Z) (kernel_pgd : Z).

(** The part of [elf_loadf] behind the reading of the headers. *)
Definition load_program (header : elf_header) (segments : list Z) : K unit :=
  t ← get_task tsk;
  _ ← (if t_pgd t =? 0 then mret tt else _ ← activate_pgd kernel_pgd; free_pgd (t_pgd t));
  d ← new_pgd kernel_pgd;
  _ ← on_task tsk (fun t => t <| t_pgd := d |>);
  s ← get_state;
  let pgd := cr3 s in
  _ ← activate_pgd d;
  tmp ← file_seek file 0 SEEK_CUR;
  _ ← file_seek file 0 SEEK_END;
  _ ← file_seek file tmp SEEK_SET;
  _ ← for_count (Z.to_nat (pheader_num header)) 0
        (fun i => elf_load_segment file_read file_seek tsk file (program_header_of segments i));
  _ ← activate_pgd pgd;
  s ← get_state;
  f ← opt (nodes (k_vfs s) !! file);
  on_task tsk (fun t => t <| t_entry := e_entry header |> <| t_name := path f |>).

Lemma elf_headers_spec s p :
  elf_file -> file_at s p -> 5 <= zlen stack_junk -> (forall n, 0 <= n -> zlen (junk n) = n) ->
  exists s' p', vfs_only s s' /\ file_at s' p'
    /\ elf_loadf file_read file_seek stack_junk junk kernel_pgd tsk file s = load_program file_header file_segments s'.
Proof.
  intros He Hp Hsj Hj. destruct (file_header_range He) as (Hpo&Hpn&Hso&Hsn). destruct (ef_table He) as [Ht1 Ht2].
  pose proof (ef_header He) as Hlen. unfold ELF_HEADER_SIZE, PROGRAM_HEADER_SIZE in *.
  destruct (elf_probef_spec stack_junk s p Hp Hsj (ef_magic He)) as (s1&p1&Hrun1&Hv1&Hp1).
  destruct (read_array_spec (junk 52) s1 p1 0 52 Hp1) as (s1'&s2&r2&k2&p2&Hseek2&Hread2&Hb2&Hv2&Hp2); try lia; [by apply Hj|].
  destruct (read_array_spec (junk (32 * pheader_num file_header)) s2 p2 (pheader_offset file_header)
    (32 * pheader_num file_header) Hp2) as (s2'&s3&r3&k3&p3&Hseek3&Hread3&Hb3&Hv3&Hp3); try lia; [apply Hj; lia|].
  destruct (file_seeks s3 p3 (sheader_offset file_header) SEEK_SET Hp3) as (s4&r4&p4&Hrun4&Hp4&Hv4&_).
  destruct (file_reads s4 p4 (shentry_size file_header * sheader_num file_header) Hp4 Hsn) as (s5&Hrun5&Hp5&Hv5).
  set (sections := blit (junk (shentry_size file_header * sheader_num file_header)) 0
                     (slice content p4 (shentry_size file_header * sheader_num file_header))).
  destruct (section_names_spec (fun i => u32 (sh_offset sections (shstrndx file_header) + sh_name sections i))
    (Z.to_nat (sheader_num file_header)) 0 s5 _ Hp5) as (s6&p6&Hrun6&Hv6&Hp6).
  exists s6, p6. split; [by do 5 (eapply vfs_only_trans; [done|])|]. split; [done|].
  unfold elf_loadf, ELF_HEADER_SIZE. erewrite run_bind by exact Hrun1. cbn [negb].
  erewrite run_bind by exact Hseek2. erewrite run_bind by exact Hread2. cbv beta iota. rewrite Hb2.
  change (elf_header_of (slice content 0 52)) with file_header. erewrite run_bind by exact Hseek3. rewrite (ef_entry_size He). unfold PROGRAM_HEADER_SIZE.
  erewrite run_bind by (by eapply run_read_alloc). rewrite Hb3.
  change (slice content (pheader_offset file_header) (32 * pheader_num file_header)) with file_segments.
  erewrite run_bind by exact Hrun4. erewrite run_bind by (by eapply run_read_alloc).
  fold sections. by erewrite run_bind by exact Hrun6.
Qed.

Lemma file_phs_length : length file_phs = Z.to_nat (pheader_num file_header).
Proof. unfold file_phs. by rewrite length_fmap, length_seqZ. Qed.
Lemma file_phs_lookup k ph : file_phs !! k = Some ph -> program_header_of file_segments (0 + Z.of_nat k) = ph.
Proof. unfold file_phs. rewrite list_lookup_fmap_Some. intros (i&->&[-> _]%lookup_seqZ). done. Qed.

(** The task in its new, empty address space. *)
Lemma enter_space_spec s t p m :
  file_at s p -> k_tasks s !! tsk = Some t -> (t_pgd t <> 0 -> is_Some (ps_tables (k_pages s) !! t_pgd t)) ->
  kernel_space (freed_pages t (k_pages s)) kernel_pgd -> room (freed_pages t (k_pages s)) (1 + m) -> 0 <= m ->
  exists s1 s2 d,
    (forall A (f : Z -> K A), (_ ← (if t_pgd t =? 0 then mret tt else _ ← activate_pgd kernel_pgd; free_pgd (t_pgd t));
       d ← new_pgd kernel_pgd; _ ← on_task tsk (fun t => t <| t_pgd := d |>); f d) s = f d s1)
    /\ activate_pgd d s1 = Some (Return tt, s2) /\ loading s2 d m
    /\ k_tasks s2 = <[tsk := t <| t_pgd := d |>]> (k_tasks s)
    /\ cr3 s1 = (if t_pgd t =? 0 then cr3 s else kernel_pgd).
Proof.
  intros Hp Ht Hd Hks Hroom Hm. pose proof (free_old_pgd kernel_pgd s t Hd) as Hfree.
  destruct (create_pgd_space _ _ _ Hks Hroom Hm) as (pg&d&Hrun&Hu&Hr&_).
  set (s0 := s <| cr3 := _ |> <| k_pages := freed_pages t (k_pages s) |>) in Hfree.
  assert (Ht0 : k_tasks s0 !! tsk = Some t) by done.
  do 3 eexists. split; [|split; [reflexivity|]].
  - intros A k. erewrite run_bind by exact Hfree. erewrite run_bind by (apply run_new_pgd; exact Hrun).
    erewrite run_bind by (apply run_on_task; exact Ht0). reflexivity.
  - split; [|by split]. constructor; try done.
    + exists (t <| t_pgd := d |>). cbn. by rewrite lookup_insert_eq.
    + exists p. by eapply file_vfs; [|exact Hp].
Qed.

Lemma load_program_spec s t p :
  elf_file -> file_at s p -> k_tasks s !! tsk = Some t ->
  (t_pgd t <> 0 -> is_Some (ps_tables (k_pages s) !! t_pgd t)) ->
  kernel_space (freed_pages t (k_pages s)) kernel_pgd ->
  room (freed_pages t (k_pages s)) (1 + pages_needed file_phs) ->
  exists s' d, load_program file_header file_segments s = Some (Return tt, s')
    /\ k_tasks s' = <[tsk := t <| t_pgd := d |> <| t_entry := e_entry file_header |> <| t_name := file_path |>]> (k_tasks s)
    /\ cr3 s' = (if t_pgd t =? 0 then cr3 s else kernel_pgd)
    /\ task_space (k_pages s') d
    /\ forall ph, ph ∈ file_phs -> loadable ph = true -> segment_loaded content (k_pages s') d ph.
Proof.
  intros He Hp Ht Hd Hks Hroom. pose proof (pages_needed_nonneg _ (ef_segments He)) as Hnn.
  destruct (enter_space_spec s t p _ Hp Ht Hd Hks Hroom Hnn) as (s1&s2&d&Hrun1&Hact&Hld&Htasks&Hcr).
  destruct (ld_file _ _ _ Hld) as [p2 Hp2].
  destruct (file_seeks s2 p2 0 SEEK_CUR Hp2) as (s3&tmp&p3&Hrun3&Hp3&Hv3&_).
  destruct (file_seeks s3 p3 0 SEEK_END Hp3) as (s4&r4&p4&Hrun4&Hp4&Hv4&_).
  destruct (file_seeks s4 p4 tmp SEEK_SET Hp4) as (s5&r5&p5&Hrun5&Hp5&Hv5&_).
  assert (Hv : vfs_only s2 s5) by (by do 2 (eapply vfs_only_trans; [done|])).
  pose proof (loading_vfs _ _ _ _ _ Hld Hv Hp5) as Hld5.
  destruct (load_segments_spec s5 d (pages_needed file_phs) file_phs 0 file_segments (fun _ => False) Hld5 (ef_segments He)
    (ef_disjoint He) ltac:(lia) (ef_covered He) ltac:(done) file_phs_lookup) as (s6&Hrun6&Hfr6&Hld6&Hload&_).
  rewrite file_phs_length in Hrun6.
  destruct (ld_file _ _ _ Hld6) as [p6 Hp6].
  destruct (loader_frame_same _ _ Hfr6) as [Ht6 _]. destruct (loader_frame_vfs _ _ Hv) as [Hfr5 _].
  destruct (loader_frame_same _ _ Hfr5) as [Ht5 _].
  set (s7 := s6 <| cr3 := cr3 s1 |>).
  assert (Ht7 : k_tasks s7 = <[tsk := t <| t_pgd := d |>]> (k_tasks s)) by (change (k_tasks s7) with (k_tasks s6); congruence).
  assert (Hp7 : file_at s7 p6) by (by eapply file_vfs; [|exact Hp6]).
  destruct (file_node s7 p6 Hp7) as (f&Hf&Hpath).
  exists (s7 <| k_tasks := <[tsk := t <| t_pgd := d |> <| t_entry := e_entry file_header |> <| t_name := file_path |>]> (k_tasks s) |>), d.
  split; [|split_and!; try done].
  - unfold load_program. erewrite run_bind by (by apply run_reads). rewrite Hrun1. kstep.
    erewrite run_bind by exact Hact. erewrite run_bind by exact Hrun3. erewrite run_bind by exact Hrun4.
    erewrite run_bind by exact Hrun5. erewrite run_bind by exact Hrun6.
    erewrite run_bind by reflexivity. kstep. fold s7. erewrite run_bind by (apply run_opt; exact Hf).
    erewrite run_on_task by (rewrite Ht7; apply lookup_insert_eq). rewrite Ht7, insert_insert_eq, Hpath. done.
  - apply (ld_space _ _ _ Hld6).
  - rewrite Forall_forall in Hload. exact Hload.
Qed.
End spec.

(** ** A file of the memory disk is such a file *)
Definition initrd_file_at (file : Z) (file_path : list Z) (len : Z) (s : kstate) (p : Z) : Prop :=
  exists f, nodes (k_vfs s) !! file = Some f /\ path f = file_path /\ pos f = p /\ 0 <= p <= len.

Lemma initrd_seek_cases d inode h f off whence :
  initrd_headers d !! Z.to_nat inode = Some h -> header_ok d h -> 0 < hd_length h -> 0 <= pos f <= hd_length h ->
  exists f' r, initrdfs_seek d inode f off whence = Some (f', r) /\ path f' = path f /\ 0 <= pos f' <= hd_length h
    /\ (whence = SEEK_SET -> 0 <= off < hd_length h -> pos f' = off).
Proof.
  intros Hh (Hl&_) Hpos Hp. unfold initrdfs_seek. rewrite Hh. cbn [mbind option_bind].
  unfold generic_file_seek_size. rewrite (u32_id (hd_length h - 1)), (s32_id (hd_length h - 1)) by lia.
  assert (Hset : forall o, exists f' r, vfs_setpos f o (hd_length h - 1) = (f', r) /\ path f' = path f
    /\ 0 <= pos f' <= hd_length h /\ (0 <= o < hd_length h -> pos f' = o)).
  { intros o. unfold vfs_setpos. destruct (Z.ltb_spec o 0); [|destruct (Z.ltb_spec (hd_length h - 1) o)];
      do 2 eexists; (split; [done|split; [done|split; simpl; lia]]). }
  destruct (Z.eqb_spec whence SEEK_END) as [->|]; [|destruct (Z.eqb_spec whence SEEK_CUR) as [->|]].
  - destruct (Hset (s32 (off + (hd_length h - 1)))) as (f'&r&->&?&?&_). by exists f', r.
  - destruct (off =? 0); [by exists f, (s32 (pos f))|].
    destruct (Hset (s32 (off + pos f))) as (f'&r&->&?&?&_). by exists f', r.
  - destruct (Hset off) as (f'&r&->&?&?&?). exists f', r. split_and!; try done; lia.
Qed.

Lemma initrd_file_ops d inode h file file_path :
  initrd_headers d !! Z.to_nat inode = Some h -> header_ok d h -> 0 < hd_length h ->
  FileOps (initrd_file_read d inode) (initrd_file_seek d inode) file (file_bytes d h) file_path
    (initrd_file_at file file_path (hd_length h)).
Proof.
  intros Hh Hok Hpos.
  assert (Hlen : zlen (file_bytes d h) = hd_length h).
  { pose proof Hok as (?&?&?&?). unfold file_bytes. rewrite zlen_slice; lia. }
  constructor.
  - intros s p (f&_&_&_&Hp). lia.
  - intros s s' p Hv (f&Hf&?). exists f. by rewrite Hv.
  - intros s p (f&Hf&?&_). by exists f.
  - intros s p n (f&Hf&Hpath&<-&Hp) Hn.
    assert (Hrep : zlen (replicate (Z.to_nat n) 0) = n) by (rewrite zlen_replicate; lia).
    pose proof (initrdfs_read_spec d inode h (eof f) (replicate (Z.to_nat n) 0) n (pos f) Hh Hok ltac:(lia) ltac:(lia)) as Hr.
    set (k := Z.min n (hd_length h - pos f)) in Hr.
    assert (Hsl : slice (file_bytes d h) (pos f) n = slice (file_bytes d h) (pos f) k).
    { unfold slice. destruct (Z.min_spec n (hd_length h - pos f)) as [[_ E]|[_ E]]; fold k in E; rewrite E; [done|].
      rewrite !take_ge; [done|..]; rewrite length_drop; unfold zlen in Hlen; lia. }
    assert (Hk : zlen (slice (file_bytes d h) (pos f) k) = k) by (rewrite zlen_slice; lia).
    rewrite Hsl, Hk. eexists. split; [|split].
    + unfold initrd_file_read. kstep. erewrite run_bind by (apply run_opt; exact Hf).
      erewrite run_bind by (apply run_opt; exact Hr). cbv beta iota. kstep.
      rewrite blit_eq by lia. change (Z.to_nat 0) with 0%nat. rewrite take_0, app_nil_l.
      rewrite take_app_length' by (unfold zlen in Hk; lia). reflexivity.
    + eexists. cbn. rewrite lookup_insert_eq. split; [done|]. split; [done|]. split; [done|lia].
    + by destruct s.
  - intros s p off whence (f&Hf&Hpath&<-&Hp).
    destruct (initrd_seek_cases d inode h f off whence Hh Hok Hpos Hp) as (f'&r&Hr&Hpa&Hpo&Hset).
    eexists _, r, (pos f'). split; [|split; [|split]].
    + unfold initrd_file_seek. kstep. erewrite run_bind by (apply run_opt; exact Hf).
      erewrite run_bind by (apply run_opt; exact Hr). cbv beta iota. kstep. reflexivity.
    + exists f'. cbn. rewrite lookup_insert_eq. split; [done|]. split; [congruence|done].
    + by destruct s.
    + rewrite Hlen. exact Hset.
Qed.

(** C26: loading an executable gives the task a new address space that holds
    every loadable segment, its file bytes followed by zeroes, whatever the
    segments' pages share, and sets the task's entry point and name; the
    address space that was active stays active, unless the task's old one is
    freed, and then the kernel's is.  The file is any whose reads and seeks
    keep the laws of [FileOps], and an executable in the sense of [elf_file]:
    its loadable segments lie between 4 MiB and the kernel, share no byte, and
    each byte lies in the pages that are mapped for its segment or an earlier
    one.  These are only as many as the segment's size needs, from the page of
    its address on: a segment that does not begin with a page may reach past
    them, and then the load faults ([elf_segment_underpaged]). *)
Theorem elf_loadf_loads file_read file_seek file content file_path file_at tsk stack_junk junk kernel_pgd s t p :
  FileOps file_read file_seek file content file_path file_at ->
  elf_file (content := content) -> file_at s p -> k_tasks s !! tsk = Some t ->
  5 <= zlen stack_junk -> (forall n, 0 <= n -> zlen (junk n) = n) ->
  (t_pgd t <> 0 -> is_Some (ps_tables (k_pages s) !! t_pgd t)) ->
  kernel_space (freed_pages t (k_pages s)) kernel_pgd ->
  room (freed_pages t (k_pages s)) (1 + pages_needed (file_phs (content := content))) ->
  exists s' d, elf_loadf file_read file_seek stack_junk junk kernel_pgd tsk file s = Some (Return tt, s')
    /\ k_tasks s' = <[tsk := t <| t_pgd := d |> <| t_entry := e_entry (file_header (content := content)) |>
                               <| t_name := file_path |>]> (k_tasks s)
    /\ cr3 s' = (if t_pgd t =? 0 then cr3 s else kernel_pgd)
    /\ task_space (k_pages s') d
    /\ forall ph, ph ∈ file_phs (content := content) -> loadable ph = true -> segment_loaded content (k_pages s') d ph.
Proof.
  intros Hops He Hp Ht Hsj Hj Hd Hks Hroom.
  destruct (elf_headers_spec (file_path := file_path) tsk stack_junk junk kernel_pgd s p He Hp Hsj Hj) as (s1&p1&Hv&Hp1&->).
  destruct (loader_frame_vfs _ _ Hv) as [Hfr Hpg]. destruct (loader_frame_same _ _ Hfr) as [Htk Hcr].
  destruct (load_program_spec tsk kernel_pgd s1 t p1 He Hp1) as (s2&d&?&?&?&?&?); rewrite ?Htk, ?Hpg in *; try done.
  exists s2, d. rewrite <- Hcr. by split_and!.
Qed.

(** ** An executable in the memory disk *)
Definition word_le (w : Z) : list Z := [u8 w; u8 (Z.shiftr w 8); u8 (Z.shiftr w 16); u8 (Z.shiftr w 24)].
Definition half_le (w : Z) : list Z := [u8 w; u8 (Z.shiftr w 8)].
(** The header, one segment at [v] of four bytes from the file and eight in
    memory, and the four bytes. *)
Definition elf_image (v : Z) : list Z :=
  [0x7F; 69; 76; 70] ++ replicate 12 0 ++ half_le 2 ++ half_le 3 ++ word_le 1 ++ word_le v ++ word_le 52
  ++ word_le 0 ++ word_le 0 ++ half_le 52 ++ half_le 32 ++ half_le 1 ++ half_le 40 ++ half_le 0 ++ half_le 0
  ++ word_le 1 ++ word_le 84 ++ word_le v ++ word_le 0 ++ word_le 4 ++ word_le 8 ++ word_le 7 ++ word_le 0x1000
  ++ [0x90; 0xCD; 0x80; 0xC3].
Definition elf_example : list Z := elf_image 0x08048100.
Definition elf_disk : initrd := Initrd [Header (cstring (str "/init")) 88 0] elf_example.
Definition elf_task : task :=
  Task [0] TASK_STARTING 1 0 0 0 0 0 0 0 0 0 0 0 0 None [] 0 0 0 0 0 0.
Definition elf_state : kstate :=
  KState {[ 1 := elf_task ]} ∅ ∅ ∅ ∅ ∅ ∅ memory_example 0xC0001000
    (Vfs 0 0 [] [] ∅ {[ 9 := FsNode [] (cstring (str "/init")) FS_FILE 0 0 false 88 0 0 0 0 0 0 0 true ]} [])
    [] 0 1 false 0 1 [] 0 0 0 0 [].
Lemma elf_example_ok : elf_file (content := elf_example).
Proof.
  constructor; [|by vm_compute|by vm_compute|by vm_compute|by vm_compute| | |].
  - intros i. destruct (decide (0 <= i < zlen elf_example)) as [Hi|Hi]; [|rewrite get_out by done; lia].
    pose proof (get_lookup 0 elf_example i Hi) as Hl.
    assert (Hall : Forall (fun b => 0 <= b < 256) elf_example) by (apply (bool_decide_unpack _); by vm_compute).
    exact (Forall_lookup_1 _ _ _ _ Hall Hl).
  - apply Forall_cons. split; [|by constructor]. left. by vm_compute.
  - repeat constructor.
  - change (file_phs (content := elf_example)) with [ProgramHeader 1 84 0x08048100 4 8].
    split; [|done]. intros x Hx. right. unfold in_segment, in_segment_pages in *. simpl in Hx.
    change (PG_RND_DOWN _) with 0x08048000. change (segment_pages _) with 1. lia.
Qed.

(** The same segment two bytes before the end of a page: its size is one page,
    so one page is mapped, and writing the rest faults in the kernel. *)
Example elf_segment_underpaged :
  let disk := Initrd [Header (cstring (str "/init")) 88 0] (elf_image 0x08048FFE) in
  let ph := ProgramHeader 1 84 0x08048FFE 4 8 in
  program_header_of (file_segments (content := elf_image 0x08048FFE)) 0 = ph
  /\ in_segment ph 0x08049000 /\ ~ in_segment_pages ph 0x08049000
  /\ elf_loadf (initrd_file_read disk 0) (initrd_file_seek disk 0) (replicate 5 1)
       (fun n => replicate (Z.to_nat n) 2) 0xC0001000 1 9 elf_state = None.
Proof.
  intros disk ph. split; [by vm_compute|]. split; [unfold in_segment; simpl; lia|].
  split; [|vm_compute; reflexivity]. unfold in_segment_pages.
  change (PG_RND_DOWN (ph_vaddr ph)) with 0x08048000. change (segment_pages ph) with 1. lia.
Qed.

Lemma elf_loadf_loads_witness :
  exists s' d, elf_loadf (initrd_file_read elf_disk 0) (initrd_file_seek elf_disk 0) (replicate 5 1)
                 (fun n => replicate (Z.to_nat n) 2) 0xC0001000 1 9 elf_state = Some (Return tt, s')
    /\ (t_entry <$> k_tasks s' !! 1) = Some 0x08048100
    /\ space_load (Space d (k_pages s')) 0x08048101 = Some 0xCD /\ space_load (Space d (k_pages s')) 0x08048106 = Some 0.
Proof.
  destruct memory_example_ok as [Hk [Hr Ht]].
  destruct (elf_loadf_loads (initrd_file_read elf_disk 0) (initrd_file_seek elf_disk 0) 9 elf_example (cstring (str "/init"))
    (initrd_file_at 9 (cstring (str "/init")) 88) 1 (replicate 5 1) (fun n => replicate (Z.to_nat n) 2) 0xC0001000
    elf_state elf_task 0) as (s'&d&Hrun&Hst&_&_&Hload).
  - apply (initrd_file_ops elf_disk 0 (Header (cstring (str "/init")) 88 0)); [done| |done]. by vm_compute.
  - exact elf_example_ok.
  - eexists. by split_and!.
  - done.
  - done.
  - intros n Hn. rewrite zlen_replicate. lia.
  - done.
  - exact Hk.
  - constructor; [by apply (frames_left_le _ 4)|done].
  - exists s', d. split; [exact Hrun|]. rewrite Hst. split; [done|].
    assert (Hin : ProgramHeader 1 84 0x08048100 4 8 ∈ file_phs (content := elf_example)) by (by left).
    specialize (Hload _ Hin ltac:(by vm_compute)). 
    split; (rewrite Hload by (unfold in_segment; simpl; lia); by vm_compute).
Defined.
