(* ===== verification/Proc.v ===== *)
(** * Proc: kernel/proc.c and include/depthos/proc.h

    Creation of tasks, threads and processes, their stacks, and the system
    calls on them.  Allocations whose address the state keeps take it from
    [k_fresh]; uninitialised structures are [junk_task] and [junk_process]. *)
From S2P Require Import Prelude CString DList Pmm Paging Vmm Vfs Pipe Gdt UserMem Kernel Thread Signal Sched Elf.

Definition WAIT_EXIT (ec : Z) : Z := Z.shiftl (Z.land ec 0xFF) 8.
Definition WAIT_SIG (sig : Z) : Z := Z.land sig 0x7F.
Definition PRCTL_SET_GS := 0x1.
Definition PRCTL_SET_FS := 0x2.

(** [*--kstack = v], for a list of values: the last pointer. *)
Fixpoint kpush (kstack : Z) (vs : list Z) : K Z :=
  match vs with
  | [] => mret kstack
  | v :: vs => _ ← put_stack_word (kstack - 4) (u32 v); kpush (kstack - 4) vs
  end.
(** What is pushed for a task that starts at [entry] with stack [sp]: the
    interrupt frame, then the registers; [kstack] is the top. *)
Definition kstack_frame (kstack entry sp selcode seldata selgs selfs : Z) : list Z :=
  [seldata; sp; 0x202; selcode; entry; 0; 0; 0] ++
  [0; 0; 0; 0; kstack - 32; 0; 0; 0; seldata; seldata; selgs; selfs].
Definition _task_init_kstack (task selcode seldata selgs selfs sp : Z) : K unit :=
  t ← get_task task;
  k ← kpush (kernel_esp t) (kstack_frame (kernel_esp t) (t_entry t) sp selcode seldata selgs selfs);
  on_task task (fun t => t <| t_regs := k |> <| t_stack := k |>).
Definition task_init_kstack (task sp : Z) : K unit :=
  _task_init_kstack task GDT_USER_CODE_SEL GDT_USER_DATA_SEL (GDT_GSBASE_SEL 3) (GDT_FSBASE_SEL 3) sp.
Definition kernel_task_init_kstack (task sp : Z) : K unit :=
  _task_init_kstack task GDT_KERNEL_CODE_SEL GDT_KERNEL_DATA_SEL (GDT_GSBASE_SEL 0) (GDT_FSBASE_SEL 0) sp.

Definition alloc_kernel_stack (task : Z) : K unit :=
  a ← new_addr;
  on_task task (fun t => t <| kernel_stack := a |> <| kernel_esp := u32 (a + KSTACK_SIZE) |>).

(** A function of vmm.c on a task. *)
Definition on_vmm {A} (task : Z) (f : vmm -> option (vmm * A)) : K A :=
  s ← get_state;
  t ← get_task task;
  '(v, a) ← opt (f (Vmm (k_entries s) (t_vm_areas t) (k_areas s) (k_fresh s) (k_errno s) (t_mmap_bump_idx t) (t_pgd t)
                     (default [] (k_ftables s !! t_filetable t)) (k_pages s)));
  _ ← modify (fun s => s <| k_entries := vm_entries v |> <| k_areas := vm_store v |> <| k_fresh := vm_fresh v |>
                         <| k_errno := errno v |> <| k_pages := vm_pages v |>);
  _ ← on_task task (fun t => t <| t_vm_areas := vm_areas v |> <| t_mmap_bump_idx := mmap_bump_idx v |>);
  mret a.
(** [vma_create] is given the number of pages as the size. *)
Definition alloc_stack (task stack sz : Z) (user : bool) : K unit :=
  _ ← on_vmm task (fun v => vma_create v stack (PG_RND_UP sz / PAGE_SIZE) 0);
  t ← get_task task;
  map_pages (t_pgd t) stack (PG_RND_UP sz / PAGE_SIZE) user true.

(** ** File tables *)
Definition put_ftable (ft : Z) (l : list Z) : K unit :=
  modify (fun s => s <| k_ftables := <[ft := l]> (k_ftables s) |>).
Definition clone_files (dst src : list Z) : list Z := zip_with (fun d s => if s =? 0 then d else s) dst src.
Definition task_clone_filetable (dst src : Z) : K unit :=
  s ← get_state;
  d ← opt (k_ftables s !! dst);
  l ← opt (k_ftables s !! src);
  put_ftable dst (clone_files d l).

(** The words of a kernel stack: those that are there are copied. *)
Fixpoint copy_words (n : nat) (m : gmap Z Z) (dst src : Z) : gmap Z Z :=
  match n with
  | O => m
  | S n => copy_words n (match m !! src with Some v => <[dst := v]> m | None => delete dst m end) (dst + 4) (src + 4)
  end.
Definition copy_kstack (dst src : Z) : K unit :=
  modify (fun s => s <| k_stacks := copy_words (Z.to_nat (KSTACK_SIZE / 4)) (k_stacks s) dst src |>).

(** The values of the entries of a list, in order. *)
Fixpoint list_values (fuel : nat) (h : gmap Z list_entry) (a : Z) : option (list Z) :=
  match fuel with
  | O => None
  | S fuel => if a =? 0 then Some [] else e ← h !! a; l ← list_values fuel h (le_next e); Some (le_value e :: l)
  end.
Definition push_area (task v : Z) : K unit :=
  on_vmm task (fun s =>
    l ← vm_areas s;
    match vm_fresh s with
    | [] => None
    | e :: rest => '(h, l, _) ← list_push (vm_entries s) l v e;
                   Some (Vmm h (Some l) (vm_store s) rest (errno s) (mmap_bump_idx s) (pgd s) (filetable s) (vm_pages s), tt)
    end).

Section proc.
  Context (file_read : Z -> Z -> K (list Z * Z)) (file_seek : Z -> Z -> Z -> K Z).
  Context (open_path : vfs -> list Z -> option (vfs * Z)) (close_file : Z -> K unit).
  Context (stack_junk : list Z) (junk : Z -> list Z) (junk_task : task) (junk_process : process).
  Context (kernel_pgd : Z).

Definition task_setup_filetable (ft : Z) : K unit :=
  tty ← open_file open_path (cstring (str "/dev/tty0"));
  put_ftable ft ([tty; tty; tty] ++ replicate 253 0).
Definition new_filetable : K Z := ft ← new_addr; _ ← task_setup_filetable ft; mret ft.

Definition create_dummy_task : K Z :=
  a ← new_addr;
  q ← new_addr;
  _ ← put_queue q [];
  _ ← put_task a (junk_task <| gs_base := 0 |> <| fs_base := 0 |> <| t_vm_areas := Some list_init |> <| signal_queue := q |>
                            <| signal_mask := 0 |> <| signal_mask_current := 0 |>
                            <| signal_handlers := replicate 34 no_handler |> <| t_mmap_bump_idx := 0 |>);
  _ ← alloc_kernel_stack a;
  mret a.

Definition create_task (entry pgd : Z) (kernel : bool) (sp stack_size : Z) : K Z :=
  a ← create_dummy_task;
  _ ← on_task a (fun t => t <| t_pgd := pgd |> <| t_entry := entry |>);
  _ ← alloc_stack a (u32 (sp - stack_size)) stack_size (negb kernel);
  _ ← (if kernel then kernel_task_init_kstack a sp else task_init_kstack a sp);
  mret a.

(** Without [do_stack] nothing is returned: the model stops. *)
Definition create_kernel_task (entry : Z) (do_stack : bool) : K Z :=
  a ← create_dummy_task;
  _ ← on_task a (fun t => t <| t_pgd := kernel_pgd |> <| gs_base := 0 |> <| fs_base := 0 |> <| t_entry := entry |>);
  ft ← new_filetable;
  _ ← on_task a (fun t => t <| t_filetable := ft |>);
  if negb do_stack then undefined else
  t ← get_task a;
  k ← kpush (kernel_esp t) (kstack_frame (kernel_esp t) entry 0 0x08 0x10 (GDT_GSBASE_SEL 0) (GDT_FSBASE_SEL 0));
  _ ← on_task a (fun t => t <| t_regs := k |> <| t_stack := k |>);
  mret a.

(** The signal queue and the areas themselves are shared with the parent. *)
Definition fork_task (parent : Z) : K Z :=
  a ← create_dummy_task;
  p ← get_task parent;
  s ← get_state;
  '(pg, d) ← opt (clone_pgd (k_pages s) (t_pgd p));
  _ ← modify (fun s => s <| k_pages := pg |>);
  _ ← on_task a (fun t => t <| t_name := t_name p |> <| t_state := t_state p |> <| thid := thid p |> <| t_pgd := d |>
                            <| t_entry := t_entry p |> <| t_process := t_process p |> <| sched_entry := 0 |>
                            <| t_vm_areas := Some list_init |>);
  s ← get_state;
  l ← opt (t_vm_areas p);
  vs ← opt (list_values (S (base.size (k_entries s))) (k_entries s) (l_first l));
  _ ← for_each vs (push_area a);
  _ ← on_task a (fun t => t <| t_mmap_bump_idx := t_mmap_bump_idx p |> <| signal_mask := signal_mask p |>
                            <| signal_queue := signal_queue p |> <| signal_mask_current := signal_mask_current p |>
                            <| signal_handlers := signal_handlers p |> <| t_parent := parent |>);
  ft ← new_filetable;
  _ ← on_task a (fun t => t <| t_filetable := ft |>);
  _ ← task_clone_filetable ft (t_filetable p);
  t ← get_task a;
  _ ← copy_kstack (kernel_stack t) (kernel_stack p);
  let regs := kernel_esp t - (kernel_esp p - t_regs p) in
  _ ← on_task a (fun t => t <| t_regs := regs |> <| fs_base := fs_base p |> <| gs_base := gs_base p |>);
  _ ← put_reg regs eax 0;
  mret a.

(** The new thread's stack ends a page above [stack]. *)
Definition thread_create (entry stack pgd ft : Z) : K Z :=
  a ← create_task entry pgd false (u32 (stack + PAGE_SIZE)) STACK_SIZE;
  c ← current;
  me ← get_task c;
  pr ← get_proc (t_process me);
  l ← opt (last (threads pr));
  lt ← get_task l;
  _ ← on_task a (fun t => t <| t_filetable := ft |> <| thid := s32 (thid lt + 1) |> <| t_process := t_process me |>);
  _ ← on_proc (t_process me) (fun pr => pr <| threads := threads pr ++ [a] |>);
  mret a.

(** ** The user stack of a new program *)

(** A string below [sp]; the result is its address. *)
Definition push_string (sp : Z) (s : list Z) : K Z :=
  n ← opt (strlen s);
  let sp := u32 (sp - (n + 1)) in
  _ ← put_user_bytes sp (take (Z.to_nat (n + 1)) s); mret sp.
Fixpoint push_strings (sp : Z) (strs : list (list Z)) : K (Z * list Z) :=
  match strs with
  | [] => mret (sp, [])
  | s :: strs => sp ← push_string sp s; '(sp', ps) ← push_strings sp strs; mret (sp', sp :: ps)
  end.
Fixpoint push_user (sp : Z) (vs : list Z) : K Z :=
  match vs with
  | [] => mret sp
  | v :: vs => let sp := u32 (sp - 4) in _ ← put_user_words sp [u32 v]; push_user sp vs
  end.
(** A missing list is [None].  The arrays get the strings' new addresses:
    they are the second part of the result. *)
Definition task_init_stack (task : Z) (argv envp : option (list (list Z))) : K (list Z * list Z) :=
  s ← get_state;
  t ← get_task task;
  _ ← activate_pgd (t_pgd t);
  sp ← get_reg (t_regs t) useresp;
  '(sp, envs) ← push_strings sp (default [] envp);
  '(sp, args) ← push_strings sp (default [] argv);
  sp ← push_user sp ([0; 0; 0] ++ (match envp with Some _ => envs | None => [0] end) ++ [0]
                     ++ reverse args ++ [zlen args]);
  _ ← put_reg (t_regs t) useresp sp;
  _ ← activate_pgd (cr3 s);
  mret (args, envs).

Definition process_spawn (filepath : list Z) (parent : Z) (argv envp : option (list (list Z))) : K Z :=
  file ← open_file open_path filepath;
  if file =? 0 then mret 0 else
  p ← new_addr;
  pid ← generate_pid;
  _ ← put_proc p (junk_process <| p_pid := pid |> <| p_filepath := filepath |> <| p_cwd := cstring (str "/") |>
                     <| p_state := PROCESS_RUNNING |> <| p_parent := parent |>);
  m ← create_dummy_task;
  _ ← on_task m (fun t => t <| thid := 0 |> <| t_process := p |> <| t_parent := 0 |> <| sched_entry := 0 |>);
  ft ← new_filetable;
  _ ← on_proc p (fun pr => pr <| p_filetable := ft |>);
  _ ← on_task m (fun t => t <| t_filetable := ft |>);
  _ ← elf_loadf file_read file_seek stack_junk junk kernel_pgd m file;
  _ ← alloc_stack m (VIRT_BASE - STACK_SIZE) STACK_SIZE true;
  _ ← task_init_kstack m VIRT_BASE;
  _ ← task_init_stack m argv envp;
  _ ← sched_add m;
  _ ← on_proc p (fun pr => pr <| threads := [m] |> <| children := [] |>);
  _ ← (if parent =? 0 then mret tt
       else e ← new_addr;
            _ ← on_proc parent (fun pr => pr <| children := children pr ++ [(e, p)] |>);
            on_proc p (fun pr => pr <| parent_entry := e |>));
  mret p.

(** ** System calls *)
Fixpoint find_exited (s : kstate) (l : list (Z * Z)) : option (option (Z * process)) :=
  match l with
  | [] => Some None
  | (_, c) :: l =>
      pr ← k_procs s !! c;
      match p_state pr with PROCESS_EXITED | PROCESS_DEAD => Some (Some (c, pr)) | _ => find_exited s l end
  end.
Definition wait_status (pr : process) : Z :=
  match p_state pr with PROCESS_EXITED => WAIT_EXIT (exit_code pr) | _ => WAIT_SIG (p_signal pr) end.
(** Waiting yields to the other tasks and looks again: [Blocked]. *)
Definition sys_waitpid (pid wstatus flags : Z) : K (io Z) :=
  if negb (pid =? -1) then mret (Ret (- ENOSYS)) else
  if wstatus =? 0 then mret (Ret (- EFAULT)) else
  c ← current;
  me ← get_task c;
  pr ← get_proc (t_process me);
  s ← get_state;
  r ← opt (find_exited s (children pr));
  match r with
  | None => mret Blocked
  | Some (child, ch) =>
      _ ← put_user_words wstatus [u32 (wait_status ch)];
      _ ← process_delete child;
      mret (Ret (p_pid ch))
  end.

Definition sys_exit (status : Z) : K unit :=
  c ← current;
  t ← get_task c;
  if t_process t =? 0 then
    _ ← put_task c (t <| t_state := TASK_DYING |>); reschedule_now
  else
    _ ← on_proc (t_process t) (fun p => p <| p_state := PROCESS_EXITED |> <| exit_code := status |>);
    process_kill (t_process t).

Definition sys_fork : K Z :=
  c ← current;
  m ← fork_task c;
  me ← get_task c;
  p ← new_addr;
  _ ← on_task m (fun t => t <| t_process := p |>);
  pid ← generate_pid;
  t ← get_task m;
  pa ← get_proc (t_process me);
  e ← new_addr;
  _ ← put_proc p (junk_process <| p_pid := pid |> <| p_state := PROCESS_RUNNING |> <| p_filetable := t_filetable t |>
                     <| threads := [m] |> <| children := [] |> <| p_filepath := p_filepath pa |> <| p_cwd := p_cwd pa |>
                     <| p_parent := t_process me |> <| parent_entry := e |>);
  _ ← on_proc (t_process me) (fun pa => pa <| children := children pa ++ [(e, p)] |>);
  _ ← sched_add m;
  _ ← put_reg (t_regs t) eax 0;
  mret pid.

(** The parameters, copied from user memory: flags, join, stack and entry. *)
Definition sys_thcreate (params : Z) : K Z :=
  c ← current;
  me ← get_task c;
  if t_process me =? 0 then mret (-1) else
  ws ← user_words 4 params;
  pr ← get_proc (t_process me);
  a ← thread_create (get 0 ws 3) (get 0 ws 2) (t_pgd me) (p_filetable pr);
  _ ← (if u8 (get 0 ws 1) =? 0 then sched_add a else mret tt);
  t ← get_task a;
  mret (thid t).

(** The walk over the threads ends without a return statement: [None] is an
    indeterminate result. *)
Definition sys_thkill (id : Z) : K (option Z) :=
  c ← current;
  me ← get_task c;
  if t_process me =? 0 then mret (Some (-1)) else
  pr ← get_proc (t_process me);
  _ ← (if zlen (threads pr) =? 1 then process_kill (t_process me) else mret tt);
  _ ← for_each (threads pr) (fun th =>
    t ← get_task th;
    if thid t =? id then
      _ ← on_proc (t_process me) (fun pr => pr <| threads := filter (fun x => x <> th) (threads pr) |>);
      if thid me =? id then _ ← on_task c (fun t => t <| t_state := TASK_DYING |>); reschedule_now
      else thread_destroy th
    else mret tt);
  mret None.
Definition sys_thjoin : K (option Z) :=
  c ← current; me ← get_task c; mret (if t_process me =? 0 then Some (-1) else None).

(** The bytes of a user string, terminator included, and a list of strings
    up to its NULL.  [fuel] bounds both: user memory that ends neither runs
    the kernel on. *)
Fixpoint user_string (fuel : nat) (a : Z) : K (list Z) :=
  match fuel with
  | O => undefined
  | S fuel =>
      b ← reads (fun s => mload (Space (cr3 s) (k_pages s)) a);
      if b =? 0 then mret [0] else l ← user_string fuel (u32 (a + 1)); mret (b :: l)
  end.
Fixpoint user_strings (fuel : nat) (a : Z) : K (list (list Z)) :=
  match fuel with
  | O => undefined
  | S fuel =>
      ws ← user_words 1 a;
      let p := get 0 ws 0 in
      if p =? 0 then mret [] else
      s ← user_string fuel p; l ← user_strings fuel (u32 (a + 4)); mret (s :: l)
  end.
(** A NULL list leaves the task's directory active. *)
Definition copy_userspace_null_str_list (fuel : nat) (task src : Z) : K (option (list (list Z))) :=
  s ← get_state;
  t ← get_task task;
  _ ← activate_pgd (t_pgd t);
  if src =? 0 then mret None else
  l ← user_strings fuel src;
  _ ← activate_pgd (cr3 s);
  mret (Some l).

Definition sys_execve (fuel : nat) (file : list Z) (argv envp : Z) : K Z :=
  v ← elf_probe file_read file_seek open_path stack_junk file;
  if negb v then s ← get_state; if negb (k_errno s =? 0) then mret (- k_errno s) else mret (- ENOEXEC) else
  if (argv =? 0) || (envp =? 0) then mret (- EFAULT) else
  c ← current;
  me ← get_task c;
  args ← copy_userspace_null_str_list fuel c argv;
  a ← new_addr;
  _ ← on_proc (t_process me) (fun p => p <| p_argv := a |>);
  envs ← copy_userspace_null_str_list fuel c envp;
  e ← new_addr;
  _ ← on_proc (t_process me) (fun p => p <| p_envp := e |>);
  _ ← elf_load file_read file_seek open_path close_file stack_junk junk kernel_pgd c file;
  t ← get_task c;
  _ ← on_proc (t_process me) (fun p => p <| p_filepath := t_name t |>);
  _ ← task_init_kstack c VIRT_BASE;
  _ ← alloc_stack c (VIRT_BASE - STACK_SIZE) STACK_SIZE true;
  q ← new_addr;
  _ ← put_queue q [];
  _ ← on_task c (fun t => t <| t_vm_areas := Some list_init |> <| signal_queue := q |>
                            <| signal_handlers := replicate 34 no_handler |>);
  _ ← task_init_stack c args envs;
  reschedule_to_now c.

(** [pit_ticks + seconds * 1e3 + nanos / 1e6], truncated; beyond 32 bits the
    conversion is undefined. *)
Definition sys_sleep (seconds nanos : Z) : K unit :=
  c ← current;
  s ← get_state;
  let wake := pit_ticks s + seconds * 1000 + nanos / 1000000 in
  if 0x100000000 <=? wake then undefined else
  _ ← on_task c (fun t => t <| t_state := TASK_SLEEPING |> <| wake_time := wake |>);
  reschedule_now.

Definition sys_prctl (option address : Z) : K unit :=
  c ← current;
  if option =? PRCTL_SET_GS then _ ← on_task c (fun t => t <| gs_base := address |>); reschedule_to_now c
  else if option =? PRCTL_SET_FS then _ ← on_task c (fun t => t <| fs_base := address |>); reschedule_to_now c
  else mret tt.

Definition sys_getpid : K Z := c ← current; me ← get_task c; pr ← get_proc (t_process me); mret (p_pid pr).
Definition sys_getppid : K Z :=
  c ← current; me ← get_task c;
  if t_parent me =? 0 then mret 0 else
  pr ← get_proc (t_process me); pa ← get_proc (p_parent pr); mret (p_pid pa).

Definition sys_chdir (p : list Z) : K Z :=
  c ← current; me ← get_task c;
  if t_process me =? 0 then mret (- EFAULT) else
  pr ← get_proc (t_process me);
  n ← opt (strlen p); m ← opt (strlen (p_cwd pr));
  r ← opt (vfs_resolve (junk (n + m + 2)) (Some p) (Some (p_cwd pr)));
  cwd ← opt r;
  f ← open_file open_path cwd;
  if f =? 0 then mret (- ENOENT) else
  s ← get_state;
  node ← opt (nodes (k_vfs s) !! f);
  if negb (type node =? FS_DIR) then mret (- ENOTDIR) else
  _ ← close_file f;
  _ ← on_proc (t_process me) (fun pr => pr <| p_cwd := cwd |>);
  mret 0.

Definition sys_getcwd (buf sz : Z) : K Z :=
  c ← current; me ← get_task c;
  if t_process me =? 0 then mret (- EFAULT) else
  if (buf =? 0) || (VIRT_BASE <=? buf) || (sz =? 0) then mret (- EFAULT) else
  pr ← get_proc (t_process me);
  n ← opt (strlen (p_cwd pr));
  if sz <? n + 1 then mret (- ERANGE) else
  _ ← put_user_bytes buf (take (Z.to_nat (n + 1)) (p_cwd pr));
  mret 0.

(** [sched_init] of kernel/sched.c: the idle task is the first of the list.  The
    handler of vector 0x30 and [pit_sched_enable], which it sets too, are of
    Idt and Pit. *)
Definition sched_init (idle_entry : Z) : K unit :=
  _ ← modify (fun s => s <| tasklist := [] |>);
  a ← create_kernel_task idle_entry true;
  _ ← on_task a (fun t => t <| t_name := cstring (str "idle") |> <| t_pgd := kernel_pgd |> <| t_process := 0 |>
                            <| thid := 0 |>);
  _ ← sched_add a;
  modify (fun s => s <| current_entry := (from_option fst 0 (head (tasklist s))) |> <| current_task := a |>).
End proc.

(** ** The first registers of a task *)
Fixpoint stack_fill (m : gmap Z Z) (k : Z) (vs : list Z) : gmap Z Z :=
  match vs with [] => m | v :: vs => stack_fill (<[k - 4 := u32 v]> m) (k - 4) vs end.
Lemma kpush_spec vs : forall k s,
  kpush k vs s = Some (Return (k - 4 * zlen vs), s <| k_stacks := stack_fill (k_stacks s) k vs |>).
Proof.
  induction vs as [|v vs IH]; intros k s; cbn [kpush].
  - change (zlen []) with 0. rewrite Z.sub_0_r. by destruct s.
  - kstep. rewrite IH, zlen_cons. by replace (k - 4 - 4 * zlen vs) with (k - 4 * (zlen vs + 1)) by lia.
Qed.
Lemma stack_fill_other vs : forall m k x, ~ (k - 4 * zlen vs <= x < k) -> stack_fill m k vs !! x = m !! x.
Proof.
  induction vs as [|v vs IH]; intros m k x Hx; [done|]. rewrite zlen_cons in Hx. pose proof (zlen_nonneg vs). simpl.
  rewrite IH by lia. apply lookup_insert_ne. lia.
Qed.
Lemma stack_fill_at vs : forall m k i v,
  vs !! i = Some v -> stack_fill m k vs !! (k - 4 * (Z.of_nat i + 1)) = Some (u32 v).
Proof.
  induction vs as [|w vs IH]; intros m k i v Hi; [done|]. destruct i as [|i]; simpl in Hi |- *.
  - injection Hi as ->. rewrite stack_fill_other by lia. replace (k - 4 * (0 + 1)) with (k - 4) by lia.
    apply lookup_insert_eq.
  - replace (k - 4 * (Z.of_nat (S i) + 1)) with (k - 4 - 4 * (Z.of_nat i + 1)) by lia. by apply IH.
Qed.

(** The registers that the first switch to a task loads. *)
Definition initial_regs (kstack entry sp selcode seldata selgs selfs : Z) (r : register) : Z :=
  match r with
  | fs => selfs | gs => selgs | es | ds | ss => seldata | esp => kstack - 32
  | eip => entry | cs => selcode | eflags => 0x202 | useresp => sp | _ => 0
  end.

Lemma kstack_frame_regs m k entry sp selcode seldata selgs selfs :
  regs_at (stack_fill m k (kstack_frame k entry sp selcode seldata selgs selfs)) (k - 80)
    (fun r => u32 (initial_regs k entry sp selcode seldata selgs selfs r)).
Proof.
  intros r. set (i := Z.to_nat (19 - reg_offset r / 4)).
  assert (Hi : 4 * Z.of_nat i = 76 - reg_offset r) by (by destruct r).
  replace (k - 80 + reg_offset r) with (k - 4 * (Z.of_nat i + 1)) by lia.
  apply stack_fill_at. unfold i. by destruct r.
Qed.

(** A task prepared for its first switch has its registers at the top of
    its kernel stack: user code and data segments with user privilege, the
    entry point, the given stack and interrupts enabled, everything else 0;
    no other word changes, and nothing else of the task but the pointers to
    them. *)
Lemma task_init_kstack_frame task T sp s :
  k_tasks s !! task = Some T ->
  let base := kernel_esp T - 80 in
  exists s', task_init_kstack task sp s = Some (Return tt, s')
  /\ k_tasks s' = <[task := T <| t_regs := base |> <| t_stack := base |>]> (k_tasks s)
  /\ regs_at (k_stacks s') base
       (fun r => u32 (initial_regs (kernel_esp T) (t_entry T) sp 0x1B 0x23 0x33 0x3B r))
  /\ (forall x, ~ (base <= x < kernel_esp T) -> k_stacks s' !! x = k_stacks s !! x).
Proof.
  intros HT base. unfold task_init_kstack, _task_init_kstack. kstep. erewrite run_bind by apply kpush_spec. cbv beta.
  eexists. split; [by apply run_on_task|]. split; [reflexivity|]. split.
  - apply kstack_frame_regs.
  - intros x Hx. by apply stack_fill_other.
Qed.
Lemma task_init_kstack_frame_witness :
  exists s', task_init_kstack 16 0xC0000000 example_state = Some (Return tt, s')
    /\ k_stacks s' !! (0 - 80 + 72) = Some 0xC0000000.
Proof.
  destruct (task_init_kstack_frame 16 example_task 0xC0000000 example_state eq_refl) as (s'&Hr&_&Hregs&_).
  exists s'. split; [exact Hr|]. exact (Hregs useresp).
Defined.

(** ** Waiting for a child *)
Definition terminated (pr : process) : bool :=
  match p_state pr with PROCESS_EXITED | PROCESS_DEAD => true | _ => false end.
(** An element of a list of children whose process is still there to run. *)
Definition alive (s : kstate) (x : Z * Z) : Prop := exists pr, k_procs s !! x.2 = Some pr /\ terminated pr = false.

Lemma find_exited_step s e c pr l :
  k_procs s !! c = Some pr ->
  find_exited s ((e, c) :: l) = if terminated pr then Some (Some (c, pr)) else find_exited s l.
Proof. intros Hp. simpl. rewrite Hp. unfold terminated. simpl. by destruct (p_state pr). Qed.
Lemma find_exited_alive s l : Forall (alive s) l -> forall l', find_exited s (l ++ l') = find_exited s l'.
Proof.
  induction 1 as [|[e c] l (pr&Hp&Ht) _ IH]; intros l'; [done|]. cbn [app].
  by rewrite (find_exited_step _ _ _ pr), Ht.
Qed.
(** Of processes that are there, none has ended or there is a first. *)
Lemma first_terminated s l : (forall e c, (e, c) ∈ l -> is_Some (k_procs s !! c)) ->
  Forall (alive s) l
  \/ exists l1 e c ch l2, l = l1 ++ (e, c) :: l2 /\ k_procs s !! c = Some ch /\ terminated ch = true /\ Forall (alive s) l1.
Proof.
  induction l as [|[e c] l IH]; intros H; [by left|].
  destruct (H e c) as [ch Hc]; [by left|].
  destruct (terminated ch) eqn:Et; [right; by exists [], e, c, ch, l|].
  assert (Ha : alive s (e, c)) by by exists ch.
  destruct IH as [IH|(l1&e'&c'&ch'&l2&->&?&?&?)]; [intros; apply (H e0); by right|left|right].
  - by constructor.
  - exists ((e, c) :: l1), e', c', ch', l2. split_and!; [done..|by constructor].
Qed.

(** The status word: the low byte of the exit code in bits 8 to 15, or the
    signal's number, below 128, in the bits under it. *)
Lemma wait_status_word pr :
  (p_state pr = PROCESS_EXITED -> u32 (wait_status pr) = 256 * (exit_code pr mod 256))
  /\ (p_state pr = PROCESS_DEAD -> u32 (wait_status pr) = p_signal pr mod 128).
Proof.
  unfold wait_status. split; intros ->.
  - unfold WAIT_EXIT. change 0xFF with (Z.ones 8). rewrite Z.land_ones, Z.shiftl_mul_pow2 by lia.
    change (2 ^ 8) with 256. pose proof (Z.mod_pos_bound (exit_code pr) 256 ltac:(lia)). rewrite u32_id by lia. lia.
  - unfold WAIT_SIG. change 0x7F with (Z.ones 7). rewrite Z.land_ones by lia. change (2 ^ 7) with 128.
    pose proof (Z.mod_pos_bound (p_signal pr) 128 ltac:(lia)). by rewrite u32_id by lia.
Qed.

(** The children of [p]: all there, with their own entries. *)
Definition children_ok (s : kstate) (p : Z) (pr : process) : Prop :=
  NoDup (children pr).*1 /\ forall e c, (e, c) ∈ children pr ->
    c <> p /\ exists ch, k_procs s !! c = Some ch /\ p_parent ch = p /\ parent_entry ch = e.

Lemma remove_entry_split (l1 l2 : list (Z * Z)) e c :
  NoDup (l1 ++ (e, c) :: l2).*1 -> remove_entry (l1 ++ (e, c) :: l2) e = Some (l1 ++ l2).
Proof.
  intros Hnd. unfold remove_entry.
  rewrite decide_True by (rewrite fmap_app, fmap_cons; apply elem_of_app; right; left). f_equal.
  rewrite fmap_app, fmap_cons in Hnd. apply NoDup_app in Hnd as (_&H1&H2). apply NoDup_cons in H2 as [H2 _].
  assert (Hk : forall l : list (Z * Z), e ∉ l.*1 -> filter (fun x => x.1 <> e) l = l).
  { induction l as [|x l IH]; intros Hx; [done|]. rewrite fmap_cons, not_elem_of_cons in Hx. destruct Hx.
    rewrite filter_cons_True by congruence. f_equal. by apply IH. }
  rewrite filter_app, Hk, filter_cons_False, Hk; [done|done|by intros ?|]. intros Hin. apply (H1 e Hin). set_solver.
Qed.

Lemma sys_waitpid_start me T p pr wstatus fl s :
  current_task s = me -> k_tasks s !! me = Some T -> t_process T = p -> k_procs s !! p = Some pr -> wstatus <> 0 ->
  sys_waitpid (-1) wstatus fl s =
    match find_exited s (children pr) with
    | None => None
    | Some None => Some (Return Blocked, s)
    | Some (Some (c, ch)) =>
        (_ ← put_user_words wstatus [u32 (wait_status ch)]; _ ← process_delete c; mret (Ret (p_pid ch))) s
    end.
Proof.
  intros Hme HT Hp Hpr Hw. unfold sys_waitpid. change (negb (-1 =? -1)) with false. cbv iota.
  rewrite (proj2 (Z.eqb_neq wstatus 0) Hw). kstep. rewrite Hme. kstep. rewrite Hp. kstep. kstep.
  destruct (find_exited s (children pr)) as [[[c ch]|]|] eqn:E; [..|].
  - by erewrite run_bind by by apply run_opt.
  - by erewrite run_bind by by apply run_opt.
  - done.
Qed.

Lemma process_delete_spec p pr c ch l1 e l2 s :
  k_procs s !! p = Some pr -> children pr = l1 ++ (e, c) :: l2 -> NoDup (children pr).*1 ->
  k_procs s !! c = Some ch -> p_parent ch = p -> parent_entry ch = e ->
  exists s', process_delete c s = Some (Return tt, s')
    /\ k_procs s' = delete c (<[p := pr <| children := l1 ++ l2 |>]> (k_procs s))
    /\ free_pid s' = free_pid s ++ [p_pid ch] /\ current_pid s' = current_pid s /\ user_space s' = user_space s.
Proof.
  intros Hpr Heq Hnd Hc Hpar Hent. rewrite Heq in Hnd. unfold process_delete. kstep. rewrite Hpar. kstep.
  erewrite run_bind by (apply run_opt; rewrite Heq, Hent; by apply remove_entry_split). cbv beta.
  kstep. kstep. eexists. split; [reflexivity|]. done.
Qed.

(** The part of the system call on a child that has ended. *)
Lemma reap_spec p pr wstatus lo hi c ch l1 e l2 s :
  k_procs s !! p = Some pr -> children pr = l1 ++ (e, c) :: l2 -> NoDup (children pr).*1 ->
  k_procs s !! c = Some ch -> p_parent ch = p -> parent_entry ch = e ->
  mprivate (user_space s) lo hi -> 0 <= lo -> hi <= 2 ^ 32 -> lo <= wstatus -> wstatus + 4 <= hi ->
  exists s', (_ ← put_user_words wstatus [u32 (wait_status ch)]; _ ← process_delete c; mret (Ret (p_pid ch))) s
       = Some (Return (Ret (p_pid ch)), s')
     /\ load_words 1 (user_space s') wstatus = Some [u32 (wait_status ch)]
     /\ k_procs s' = delete c (<[p := pr <| children := l1 ++ l2 |>]> (k_procs s))
     /\ free_pid s' = free_pid s ++ [p_pid ch] /\ current_pid s' = current_pid s.
Proof.
  intros Hpr Heq Hnd Hc Hpar Hent Hpriv Hlo Hhi Hw1 Hw2.
  destruct (store_words_spec (user_space s) lo hi wstatus [u32 (wait_status ch)] Hpriv Hlo Hhi Hw1) as (m&Hm&_&Hl&_);
    [change (zlen _) with 1; lia|constructor; [apply u32_range|done]|].
  destruct (store_words_same _ _ _ _ Hm) as [Hd _]. destruct m as [d pg]. simpl in Hd. subst d.
  pose (s1 := s <| k_pages := pg |>).
  assert (Hput : put_user_words wstatus [u32 (wait_status ch)] s = Some (Return tt, s1)).
  { unfold put_user_words. kstep. kstep. reflexivity. }
  destruct (process_delete_spec p pr c ch l1 e l2 s1) as (s'&Hdel&H1&H2&H3&H4); [done..|].
  exists s'. split; [|split_and!; [|done..]].
  - erewrite run_bind by exact Hput. cbv beta. erewrite run_bind by exact Hdel. reflexivity.
  - rewrite H4. exact Hl.
Qed.

(** C27: [waitpid(-1)] reaps the first child, in the order of their creation,
    that has exited or was killed: it gives the child's number and writes the
    status word, 256 times the low byte of the exit code for a child that
    exited, the low seven bits of the signal's number for one that was killed;
    the child leaves the list and the store, and its number may be used again;
    with no such child the caller waits. *)
Theorem sys_waitpid_reaps me T p pr wstatus fl lo hi s :
  current_task s = me -> k_tasks s !! me = Some T -> t_process T = p -> k_procs s !! p = Some pr ->
  children_ok s p pr -> wstatus <> 0 ->
  mprivate (user_space s) lo hi -> 0 <= lo -> hi <= 2 ^ 32 -> lo <= wstatus -> wstatus + 4 <= hi ->
  (Forall (alive s) (children pr) /\ sys_waitpid (-1) wstatus fl s = Some (Return Blocked, s))
  \/ exists l1 e c ch l2 s', children pr = l1 ++ (e, c) :: l2 /\ k_procs s !! c = Some ch /\ terminated ch = true
     /\ Forall (alive s) l1
     /\ sys_waitpid (-1) wstatus fl s = Some (Return (Ret (p_pid ch)), s')
     /\ (exists w, load_words 1 (user_space s') wstatus = Some [w]
          /\ (p_state ch = PROCESS_EXITED /\ w = 256 * (exit_code ch mod 256)
              \/ p_state ch = PROCESS_DEAD /\ w = p_signal ch mod 128))
     /\ k_procs s' = delete c (<[p := pr <| children := l1 ++ l2 |>]> (k_procs s))
     /\ free_pid s' = free_pid s ++ [p_pid ch] /\ current_pid s' = current_pid s.
Proof.
  intros Hme HT Hp Hpr [Hnd Hch] Hw Hpriv Hlo Hhi Hw1 Hw2.
  rewrite (sys_waitpid_start me T p pr) by done.
  destruct (first_terminated s (children pr)) as [Hnone|(l1&e&c&ch&l2&Heq&Hc&Ht&Hl1)].
  { intros e c Hin. destruct (Hch e c Hin) as (_&ch&?&_). by exists ch. }
  - left. split; [done|]. by rewrite <- (app_nil_r (children pr)), find_exited_alive.
  - right. destruct (Hch e c) as (Hcp&ch'&Hc'&Hpar&Hent); [rewrite Heq; apply elem_of_app; right; left|].
    rewrite Hc in Hc'. injection Hc' as <-.
    destruct (reap_spec p pr wstatus lo hi c ch l1 e l2 s) as (s'&Hrun&Hld&?&?&?); [done..|].
    exists l1, e, c, ch, l2, s'. split_and!; [done..| | |done|done|done].
    + by rewrite Heq, find_exited_alive, (find_exited_step _ _ _ ch), Ht.
    + eexists. split; [exact Hld|]. destruct (wait_status_word ch) as [He Hd].
      unfold terminated in Ht. destruct (p_state ch); try done; [left|right]; auto.
Qed.

(** A parent at 32 and its child at 48, which called [exit(7)]. *)
Definition example_parent : process :=
  Process 1 [] (cstring (str "/")) 0 0 PROCESS_RUNNING 0 0 0 0 [(64, 48)] [16] 0.
Definition example_child : process :=
  Process 2 [] (cstring (str "/")) 0 0 PROCESS_EXITED 7 0 32 64 [] [] 0.
Definition waiting_state : kstate :=
  example_state <| k_tasks := {[ 16 := example_task <| t_process := 32 |> ]} |>
                <| k_procs := {[ 32 := example_parent; 48 := example_child ]} |> <| cr3 := 0xC0001000 |>.
Lemma sys_waitpid_reaps_witness :
  exists s', sys_waitpid (-1) 0x400100 0 waiting_state = Some (Return (Ret 2), s')
    /\ load_words 1 (user_space s') 0x400100 = Some [0x700] /\ k_procs s' !! 48 = None /\ free_pid s' = [2].
Proof.
  destruct (sys_waitpid_reaps 16 (example_task <| t_process := 32 |>) 32 example_parent 0x400100 0 0x400000 0x401000 waiting_state)
    as [[Hal _]|(l1&e&c&ch&l2&s'&Heq&Hc&_&_&Hrun&Hload&Hprocs&Hfree&_)];
    [reflexivity|reflexivity|reflexivity|reflexivity| |discriminate|exact example_private|lia|lia|lia|lia| |].
  - split; [apply NoDup_singleton|]. intros e c Hin. apply list_elem_of_singleton in Hin. injection Hin as -> ->.
    split; [discriminate|]. exists example_child. repeat split.
  - apply Forall_cons in Hal as [(pr&Hp&Ht) _]. injection Hp as <-. discriminate.
  - destruct l1 as [|? [|]]; [|discriminate|discriminate]. injection Heq as <- <- <-. injection Hc as <-.
    exists s'. split; [exact Hrun|]. destruct Hload as (w&Hload&[[_ ->]|[? _]]); [|discriminate].
    split; [exact Hload|]. split; [|exact Hfree].
    rewrite Hprocs. apply lookup_delete_eq.
Defined.
