(* ===== verification/Pids.v ===== *)
(** * Pids: the numbers of processes

    The operations of kernel/proc.c that create and delete processes keep
    their numbers apart; everything else leaves them alone.  A small program
    logic over the monad of Kernel: [keeps] for operations that touch neither
    the numbers nor the addresses in use, [triple] for the others. *)
From S2P Require Import Prelude CString DList Pmm Paging Vmm Vfs Pipe UserMem Kernel Thread Signal Sched Elf Proc.

(** ** What the numbers depend on *)
Definition pids (s : kstate) : gmap Z Z := p_pid <$> k_procs s.
Record same_pids (s s' : kstate) : Prop := {
  same_numbers : pids s' = pids s;
  same_free : free_pid s' = free_pid s;
  same_next : current_pid s' = current_pid s;
  same_fresh : k_fresh s' `suffix_of` k_fresh s
}.
#[export] Instance same_pids_preorder : PreOrder same_pids.
Proof.
  split; [by constructor|]. intros s1 s2 s3 [] []. constructor; [congruence..|by etrans].
Qed.

Record pids_ok (s : kstate) : Prop := {
  pid_unique : forall p q n, pids s !! p = Some n -> pids s !! q = Some n -> p = q;
  pid_range : forall p n, pids s !! p = Some n -> 0 <= n < current_pid s;
  pid_not_free : forall p n, pids s !! p = Some n -> n ∉ free_pid s;
  free_range : Forall (fun n => 0 <= n < current_pid s) (free_pid s);
  free_nodup : NoDup (free_pid s);
  fresh_unused : forall a, a ∈ k_fresh s -> pids s !! a = None;
  fresh_nodup : NoDup (k_fresh s);
  next_nonneg : 0 <= current_pid s
}.
(** A new process' address is taken; its number too. *)
Record has_addr (p : Z) (s : kstate) : Prop := {
  addr_ok : pids_ok s; addr_unused : pids s !! p = None; addr_taken : p ∉ k_fresh s
}.
Record has_pid (p n : Z) (s : kstate) : Prop := {
  num_addr : has_addr p s; num_range : 0 <= n < current_pid s;
  num_unused : forall q, pids s !! q <> Some n; num_taken : n ∉ free_pid s
}.

Lemma pids_ok_same s s' : same_pids s s' -> pids_ok s -> pids_ok s'.
Proof.
  intros [Hn Hf Hc [l Hl]] []. rewrite Hl in *. constructor; rewrite ?Hn, ?Hf, ?Hc in *; try done.
  - intros a Ha. apply fresh_unused0. set_solver.
  - by apply NoDup_app in fresh_nodup0 as (_&_&?).
Qed.
Lemma has_addr_same p s s' : same_pids s s' -> has_addr p s -> has_addr p s'.
Proof.
  intros H []. constructor; [by eapply pids_ok_same| |]; destruct H as [Hn _ _ [l Hl]].
  - by rewrite Hn.
  - rewrite Hl in *. set_solver.
Qed.
Lemma has_pid_same p n s s' : same_pids s s' -> has_pid p n s -> has_pid p n s'.
Proof.
  intros H []. constructor; [by eapply has_addr_same|..]; destruct H as [Hn Hf Hc _]; by rewrite ?Hn, ?Hf, ?Hc.
Qed.

(** ** Operations that keep the numbers *)
Definition keeps {A} (m : K A) : Prop := forall s r s', m s = Some (r, s') -> same_pids s s'.

Section keeps.
  Context {A B : Type}.
Lemma keeps_ret (a : A) : keeps (mret a).
Proof. intros s r s' [= <- <-]. reflexivity. Qed.
Lemma keeps_bind (m : K A) (f : A -> K B) : keeps m -> (forall a, keeps (f a)) -> keeps (m ≫= f).
Proof.
  intros Hm Hf s r s' H. unfold mbind, K_bind in H. destruct (m s) as [[[a| |t] s1]|] eqn:E; [|simplify_eq..].
  - etrans; [by eapply Hm|by eapply Hf].
  - by eapply Hm.
  - by eapply Hm.
Qed.
Lemma keeps_undefined : keeps (undefined : K A).
Proof. by intros s r s'. Qed.
Lemma keeps_opt (o : option A) : keeps (opt o).
Proof. intros s r s'. destruct o; [|done]. intros [= <- <-]. reflexivity. Qed.
Lemma keeps_reads (f : kstate -> option A) : keeps (reads f).
Proof. intros s. apply keeps_opt. Qed.
Lemma keeps_reschedule : keeps (reschedule_now : K A).
Proof. intros s r s' [= <- <-]. reflexivity. Qed.
Lemma keeps_reschedule_to t : keeps (reschedule_to_now t : K A).
Proof. intros s r s' [= <- <-]. reflexivity. Qed.
End keeps.
Lemma keeps_get : keeps get_state.
Proof. intros s r s' [= <- <-]. reflexivity. Qed.
Lemma keeps_modify f : (forall s, same_pids s (f s)) -> keeps (modify f).
Proof. intros H s r s' [= <- <-]. apply H. Qed.
Lemma keeps_for_each {A} (l : list A) f : (forall x, keeps (f x)) -> keeps (for_each l f).
Proof. intros H. induction l as [|x l IH]; [apply keeps_ret|]. apply keeps_bind; [apply H|intros; apply IH]. Qed.
Lemma keeps_for_count n f : (forall i, keeps (f i)) -> forall i, keeps (for_count n i f).
Proof. intros H. induction n as [|n IH]; intros i; [apply keeps_ret|]. apply keeps_bind; [apply H|intros; apply IH]. Qed.
Lemma keeps_new_addr : keeps new_addr.
Proof.
  intros s r s' H. unfold new_addr in H. destruct (k_fresh s) as [|a l] eqn:E; [done|]. injection H as <- <-.
  constructor; [done..|]. rewrite E. by exists [a].
Qed.
Lemma keeps_on_proc p f : (forall x, p_pid (f x) = p_pid x) -> keeps (on_proc p f).
Proof.
  intros Hf s r s' H. unfold on_proc, get_proc, mbind, K_bind, reads in H.
  destruct (k_procs s !! p) as [x|] eqn:E; [|done]. injection H as <- <-. constructor; [|done..].
  unfold pids. simpl. rewrite fmap_insert, Hf. apply insert_id. by rewrite lookup_fmap, E.
Qed.

Create HintDb keeps.
#[export] Hint Resolve keeps_ret keeps_undefined keeps_opt keeps_reads keeps_reschedule keeps_reschedule_to keeps_get
  keeps_new_addr : keeps.
(** Follows the structure of an operation; what it calls is in the database. *)
Ltac keep :=
  intros; lazymatch goal with
  | |- keeps (_ ≫= _) => apply keeps_bind; [keep|keep]
  | |- keeps (modify _) => apply keeps_modify; intros; by constructor
  | |- keeps (on_proc _ _) => apply keeps_on_proc; done
  | |- keeps (for_each _ _) => apply keeps_for_each; keep
  | |- keeps (for_count _ _ _) => apply keeps_for_count; keep
  | |- keeps (match ?x with _ => _ end) => destruct x; keep
  | |- _ => eauto with keeps
  end.

(** ** The operations of the kernel that keep them *)
Lemma keeps_get_task t : keeps (get_task t). Proof. apply keeps_reads. Qed.
Lemma keeps_get_proc p : keeps (get_proc p). Proof. apply keeps_reads. Qed.
Lemma keeps_put_task t x : keeps (put_task t x). Proof. unfold put_task. keep. Qed.
Lemma keeps_current : keeps current. Proof. apply keeps_reads. Qed.
Lemma keeps_get_queue q : keeps (get_queue q). Proof. apply keeps_reads. Qed.
Lemma keeps_put_queue q l : keeps (put_queue q l). Proof. unfold put_queue. keep. Qed.
Lemma keeps_get_reg a r : keeps (get_reg a r). Proof. apply keeps_reads. Qed.
Lemma keeps_put_stack_word a v : keeps (put_stack_word a v). Proof. unfold put_stack_word. keep. Qed.
Lemma keeps_put_reg a r v : keeps (put_reg a r v). Proof. apply keeps_put_stack_word. Qed.
Lemma keeps_user_words n a : keeps (user_words n a). Proof. apply keeps_reads. Qed.
Lemma keeps_put_user_words a l : keeps (put_user_words a l). Proof. unfold put_user_words. keep. Qed.
Lemma keeps_put_user_bytes a l : keeps (put_user_bytes a l). Proof. unfold put_user_bytes. keep. Qed.
Lemma keeps_activate_pgd d : keeps (activate_pgd d). Proof. unfold activate_pgd. keep. Qed.
Lemma keeps_put_ftable a l : keeps (put_ftable a l). Proof. unfold put_ftable. keep. Qed.
Lemma keeps_copy_kstack a b : keeps (copy_kstack a b). Proof. unfold copy_kstack. keep. Qed.
#[export] Hint Resolve keeps_get_task keeps_get_proc keeps_put_task keeps_current keeps_get_queue keeps_put_queue
  keeps_get_reg keeps_put_stack_word keeps_put_reg keeps_user_words keeps_put_user_words keeps_put_user_bytes
  keeps_activate_pgd keeps_put_ftable keeps_copy_kstack : keeps.
Lemma keeps_on_task t f : keeps (on_task t f). Proof. unfold on_task. keep. Qed.
#[export] Hint Resolve keeps_on_task : keeps.

Lemma keeps_sched_add t : keeps (sched_add t). Proof. unfold sched_add. keep. Qed.
Lemma keeps_sched_remove t : keeps (sched_remove t). Proof. unfold sched_remove. keep. Qed.
Lemma keeps_free_pgd d : keeps (free_pgd d). Proof. unfold free_pgd. keep. Qed.
#[export] Hint Resolve keeps_sched_add keeps_sched_remove keeps_free_pgd : keeps.
Lemma keeps_thread_destroy t : keeps (thread_destroy t). Proof. unfold thread_destroy. keep. Qed.
#[export] Hint Resolve keeps_thread_destroy : keeps.
Lemma keeps_kill_thread t : keeps (kill_thread t). Proof. unfold kill_thread. keep. Qed.
#[export] Hint Resolve keeps_kill_thread : keeps.
Lemma keeps_process_kill p : keeps (process_kill p). Proof. unfold process_kill. keep. Qed.
Lemma keeps_map_pages d a n u o : keeps (map_pages d a n u o). Proof. unfold map_pages. keep. Qed.
#[export] Hint Resolve keeps_process_kill keeps_map_pages : keeps.

Lemma keeps_kpush vs : forall k, keeps (kpush k vs).
Proof. induction vs; intros k; cbn [kpush]; keep. Qed.
#[export] Hint Resolve keeps_kpush : keeps.
Lemma keeps_init_kstack a b c d e f : keeps (_task_init_kstack a b c d e f). Proof. unfold _task_init_kstack. keep. Qed.
Lemma keeps_task_init_kstack a b : keeps (task_init_kstack a b). Proof. apply keeps_init_kstack. Qed.
Lemma keeps_kernel_task_init_kstack a b : keeps (kernel_task_init_kstack a b). Proof. apply keeps_init_kstack. Qed.
Lemma keeps_alloc_kernel_stack t : keeps (alloc_kernel_stack t). Proof. unfold alloc_kernel_stack. keep. Qed.
Lemma keeps_task_clone_filetable a b : keeps (task_clone_filetable a b). Proof. unfold task_clone_filetable. keep. Qed.
#[export] Hint Resolve keeps_task_init_kstack keeps_kernel_task_init_kstack keeps_alloc_kernel_stack
  keeps_task_clone_filetable : keeps.

(** A function on the areas of a task takes its addresses from the front. *)
Lemma keeps_on_vmm {A} t (f : vmm -> option (vmm * A)) :
  (forall v v' a, f v = Some (v', a) -> vm_fresh v' `suffix_of` vm_fresh v) -> keeps (on_vmm t f).
Proof.
  intros Hf s r s' H. unfold on_vmm, get_state, get_task, reads, mbind, K_bind in H.
  destruct (k_tasks s !! t) as [x|]; [|done]. cbn [opt] in H.
  destruct (f _) as [[v a]|] eqn:E; [|done]. apply Hf in E. simpl in E. cbn [opt modify] in H.
  set (s1 := s <| k_entries := vm_entries v |> <| k_areas := vm_store v |> <| k_fresh := vm_fresh v |>
               <| k_errno := errno v |> <| k_pages := vm_pages v |>) in H.
  assert (H1 : same_pids s s1) by (by constructor). etrans; [exact H1|].
  assert (Hk : keeps (_ ← on_task t (fun t => t <| t_vm_areas := vm_areas v |> <| t_mmap_bump_idx := mmap_bump_idx v |>);
                      mret a)) by keep.
  eapply Hk. exact H.
Qed.
Lemma fresh_addr_suffix v v' a : fresh_addr v = Some (v', a) -> vm_fresh v' `suffix_of` vm_fresh v.
Proof. unfold fresh_addr. destruct (vm_fresh v) as [|x l] eqn:E; [done|]. intros [= <- <-]. by exists [x]. Qed.
Lemma vma_create_walk_suffix fuel : forall v l area item v' a,
  vma_create_walk fuel v l area item = Some (v', a) -> vm_fresh v' `suffix_of` vm_fresh v.
Proof.
  induction fuel as [|fuel IH]; intros v l area item v' a H; [done|]. cbn [vma_create_walk] in H.
  destruct (item =? 0).
  - destruct (fresh_addr v) as [[v1 e]|] eqn:E; [|done]. apply fresh_addr_suffix in E. simpl in H.
    destruct (list_push _ _ _ _) as [[[h l'] ?]|]; [|done]. by injection H as <- <-.
  - destruct (vm_entries v !! item) as [en|]; [|done]. simpl in H.
    destruct (vm_store v !! le_value en) as [ar|]; [|done]. simpl in H.
    destruct (vm_store v !! area) as [nw|]; [|done]. simpl in H.
    destruct (vma_overlap ar nw); [unfold fail in H; by injection H as <- <-|].
    destruct (addr nw <? addr ar); [|by eapply IH].
    destruct (fresh_addr v) as [[v1 e]|] eqn:E; [|done]. apply fresh_addr_suffix in E. simpl in H.
    destruct (list_insert_value _ _ _ _ _ _) as [[[h l'] ?]|]; [|done]. by injection H as <- <-.
Qed.
Lemma vma_create_suffix v a sz fl v' x : vma_create v a sz fl = Some (v', x) -> vm_fresh v' `suffix_of` vm_fresh v.
Proof.
  unfold vma_create. destruct (negb _); [intros [= <- <-]; reflexivity|].
  destruct (fresh_addr v) as [[v1 vma]|] eqn:E; [|done]. apply fresh_addr_suffix in E. cbn [mbind option_bind].
  assert (Hs : forall st, vm_areas (with_store st v1) = vm_areas v1) by done. rewrite Hs.
  destruct (vm_areas v1) as [l|].
  - intros H. apply vma_create_walk_suffix in H. by etrans.
  - intros H. destruct (fresh_addr _) as [[v2 e]|] eqn:E2; [|done]. apply fresh_addr_suffix in E2. simpl in H.
    destruct (list_push _ _ _ _) as [[[h l'] ?]|]; [|done]. injection H as <- <-. simpl in *. by etrans.
Qed.
Lemma keeps_alloc_stack t a sz u : keeps (alloc_stack t a sz u).
Proof.
  unfold alloc_stack. apply keeps_bind; [|keep]. apply keeps_on_vmm. intros v v' x. apply vma_create_suffix.
Qed.
Lemma keeps_push_area t v : keeps (push_area t v).
Proof.
  apply keeps_on_vmm. intros s s' a H. destruct (vm_areas s) as [l|]; [|done]. simpl in H.
  destruct (vm_fresh s) as [|e rest] eqn:E; [done|].
  destruct (list_push _ _ _ _) as [[[h l'] ?]|]; [|done]. injection H as <- <-. simpl. by exists [e].
Qed.
#[export] Hint Resolve keeps_alloc_stack keeps_push_area : keeps.

(** ** Triples: what holds after an operation; a switch to another task needs
    the numbers in order. *)
Definition triple {A} (P : kstate -> Prop) (m : K A) (Q : A -> kstate -> Prop) : Prop :=
  forall s r s', P s -> m s = Some (r, s') -> match r with Return a => Q a s' | _ => pids_ok s' end.
Lemma triple_bind {A B} P (m : K A) (f : A -> K B) Q R :
  triple P m Q -> (forall a, triple (Q a) (f a) R) -> triple P (m ≫= f) R.
Proof.
  intros Hm Hf s r s' HP H. unfold mbind, K_bind in H. destruct (m s) as [[[a| |t] s1]|] eqn:E; [|simplify_eq..].
  - eapply Hf; [|done]. by apply (Hm s (Return a) s1).
  - exact (Hm s Reschedule s' HP E).
  - exact (Hm s (RescheduleTo t) s' HP E).
Qed.
(** Conditions that the other operations keep, and that hold in order. *)
Class Stable (P : kstate -> Prop) : Prop := {
  stable_same : forall s s', same_pids s s' -> P s -> P s';
  stable_ok : forall s, P s -> pids_ok s
}.
#[export] Instance pids_ok_stable : Stable pids_ok.
Proof. split; [exact pids_ok_same|done]. Qed.
#[export] Instance has_addr_stable p : Stable (has_addr p).
Proof. split; [exact (has_addr_same p)|by intros s []]. Qed.
#[export] Instance has_pid_stable p n : Stable (has_pid p n).
Proof. split; [exact (has_pid_same p n)|by intros s [[]]]. Qed.
Lemma triple_keeps {A} P `{!Stable P} (m : K A) : keeps m -> triple P m (fun _ => P).
Proof.
  intros Hm s r s' HP H. apply Hm in H. pose proof (stable_same _ _ H HP) as HP'.
  destruct r; [done|by eapply stable_ok..].
Qed.
Lemma triple_step {A B} P `{!Stable P} (m : K A) (f : A -> K B) Q :
  keeps m -> (forall a, triple P (f a) Q) -> triple P (m ≫= f) Q.
Proof. intros Hm Hf. eapply triple_bind; [by apply triple_keeps|exact Hf]. Qed.
Ltac tstep := apply triple_step; [apply _|keep|].
Ltac tkeep := apply triple_keeps; [apply _|keep].

Lemma new_addr_triple : triple pids_ok new_addr has_addr.
Proof.
  intros s r s' [] H. unfold new_addr in H. destruct (k_fresh s) as [|a l] eqn:E; [done|]. injection H as <- <-.
  apply NoDup_cons in fresh_nodup0 as [Ha Hl]. constructor; [constructor; try done| |done].
  - intros b Hb. apply fresh_unused0. by right.
  - apply (fresh_unused0 a). by left.
Qed.
(** With room for another number. *)
Definition room (s : kstate) : Prop := current_pid s < 2 ^ 31 - 1.
#[export] Instance room_stable P `{!Stable P} : Stable (fun s => P s /\ room s).
Proof.
  split; [|intros s []; by eapply stable_ok]. intros s s' H [HP Hr]. split; [by eapply stable_same|].
  unfold room in *. by destruct H as [_ _ -> _].
Qed.
Lemma new_addr_room : triple (fun s => pids_ok s /\ room s) new_addr (fun p s => has_addr p s /\ room s).
Proof.
  intros s r s' [HP Hr] H. pose proof (new_addr_triple _ _ _ HP H) as HQ. destruct r; [split; [done|]|done..].
  unfold room in *. by destruct (keeps_new_addr _ _ _ H) as [_ _ -> _].
Qed.
(** A new number is one that was given back, the first, or the next. *)
Lemma generate_pid_triple p : triple (fun s => has_addr p s /\ room s) generate_pid (has_pid p).
Proof.
  intros s r s' [[[] Hu Ht] Hr] H. unfold room in Hr. unfold generate_pid, get_state, mbind, K_bind, modify in H.
  destruct (free_pid s) as [|n l] eqn:E; injection H as <- <-.
  - assert (Hc : s32 (current_pid s + 1) = current_pid s + 1) by (apply s32_id; lia).
    assert (Hin : forall q n, pids s !! q = Some n -> 0 <= n < current_pid s + 1).
    { intros q n Hq. apply pid_range0 in Hq. lia. }
    constructor; [constructor; [constructor|..]|..]; simpl; rewrite ?Hc, ?E; try done; try lia; try constructor.
    + intros q Hq%pid_range0. lia.
    + apply not_elem_of_nil.
  - apply Forall_cons in free_range0 as [Hn Hl]. apply NoDup_cons in free_nodup0 as [Hni Hnd].
    constructor; [constructor; [constructor|..]|..]; simpl; try done.
    + intros p' m Hm Hin. apply (pid_not_free0 p' m Hm). by right.
    + intros q Hq. apply (pid_not_free0 q n Hq). by left.
Qed.
Lemma put_proc_triple p n x : p_pid x = n -> triple (has_pid p n) (put_proc p x) (fun _ => pids_ok).
Proof.
  intros Hx s r s' [[[] Hu Ht] Hr Hn Hf] H.
  assert (pids s' = <[p := n]> (pids s) /\ free_pid s' = free_pid s /\ current_pid s' = current_pid s
          /\ k_fresh s' = k_fresh s /\ r = Return tt) as (Hp&Hfr&Hcu&Hfs&->).
  { injection H as <- <-. split_and!; [|done..]. unfold pids. simpl. by rewrite fmap_insert, Hx. }
  clear H. constructor; rewrite ?Hp, ?Hfr, ?Hcu, ?Hfs; try done.
  - intros q1 q2 m. rewrite !lookup_insert_Some. intros [[<- <-]|[? H1]] [[<- ?]|[? H2]]; try done; try congruence.
    by eapply pid_unique0.
  - intros q m. rewrite lookup_insert_Some. intros [[<- <-]|[? H1]]; [done|by eapply pid_range0].
  - intros q m. rewrite lookup_insert_Some. intros [[<- <-]|[? H1]]; [done|by eapply pid_not_free0].
  - intros a Ha. rewrite lookup_insert_ne by (by intros ->). by apply fresh_unused0.
Qed.

Lemma process_delete_pids c s r s' :
  process_delete c s = Some (r, s') ->
  r = Return tt /\ current_pid s' = current_pid s /\ k_fresh s' = k_fresh s
  /\ exists n, pids s !! c = Some n /\ pids s' = delete c (pids s) /\ free_pid s' = free_pid s ++ [n].
Proof.
  intros H. unfold process_delete, get_proc, reads, put_proc, modify, opt, mbind, K_bind in H.
  destruct (k_procs s !! c) as [pr|] eqn:Ec; [|done]. destruct (k_procs s !! p_parent pr) as [pa|] eqn:Ep; [|done].
  destruct (remove_entry _ _) as [l|]; [|done]. injection H as <- <-. split_and!; [done..|].
  exists (p_pid pr). unfold pids. simpl. split_and!; [by rewrite lookup_fmap, Ec| |done].
  rewrite fmap_delete, fmap_insert, insert_id; [done|]. by rewrite lookup_fmap, Ep.
Qed.
Lemma process_delete_triple c : triple pids_ok (process_delete c) (fun _ => pids_ok).
Proof.
  intros s r s' [] H. apply process_delete_pids in H as (->&Hc&Hf&n&Hn&Hp&Hfr).
  constructor; rewrite ?Hp, ?Hfr, ?Hc, ?Hf; try done.
  - intros p q m [_ H1]%lookup_delete_Some [_ H2]%lookup_delete_Some. by eapply pid_unique0.
  - intros p m [_ H1]%lookup_delete_Some. by eapply pid_range0.
  - intros p m [Hne H1]%lookup_delete_Some Hin. apply elem_of_app in Hin as [Hin|Hin].
    + by eapply pid_not_free0.
    + apply list_elem_of_singleton in Hin as ->. by apply Hne, (pid_unique0 _ _ n).
  - apply Forall_app. split; [done|]. constructor; [by eapply pid_range0|done].
  - apply NoDup_app. split_and!; [done| |apply NoDup_singleton].
    intros m Hin ->%list_elem_of_singleton. by eapply pid_not_free0.
  - intros a Ha. apply lookup_delete_None. right. by apply fresh_unused0.
Qed.

Section calls.
  Context (file_read : Z -> Z -> K (list Z * Z)) (file_seek : Z -> Z -> Z -> K Z).
  Context (open_path : vfs -> list Z -> option (vfs * Z)) (close_file : Z -> K unit).
  Context (stack_junk : list Z) (junk : Z -> list Z) (junk_task : task) (junk_process : process).
  Context (kernel_pgd : Z).
  (** The operations of the file systems are not about processes. *)
  Hypothesis read_keeps : forall f n, keeps (file_read f n).
  Hypothesis seek_keeps : forall f p w, keeps (file_seek f p w).
  Hypothesis close_keeps : forall f, keeps (close_file f).
  #[local] Hint Resolve read_keeps seek_keeps close_keeps : keeps.

Lemma keeps_open_file p : keeps (open_file open_path p). Proof. unfold open_file. keep. Qed.
#[local] Hint Resolve keeps_open_file : keeps.
Lemma keeps_new_filetable : keeps (new_filetable open_path).
Proof. unfold new_filetable, task_setup_filetable. keep. Qed.
Lemma keeps_create_dummy_task : keeps (create_dummy_task junk_task). Proof. unfold create_dummy_task. keep. Qed.
#[local] Hint Resolve keeps_new_filetable keeps_create_dummy_task : keeps.
Lemma keeps_create_task a b c d e : keeps (create_task junk_task a b c d e). Proof. unfold create_task. keep. Qed.
#[local] Hint Resolve keeps_create_task : keeps.
Lemma keeps_fork_task t : keeps (fork_task open_path junk_task t). Proof. unfold fork_task. keep. Qed.
#[local] Hint Resolve keeps_fork_task : keeps.
Lemma keeps_thread_create a b c d : keeps (thread_create junk_task a b c d).
Proof. unfold thread_create. keep. Qed.
#[local] Hint Resolve keeps_thread_create : keeps.
Lemma keeps_push_string sp s : keeps (push_string sp s). Proof. unfold push_string. keep. Qed.
#[local] Hint Resolve keeps_push_string : keeps.
Lemma keeps_push_strings l : forall sp, keeps (push_strings sp l).
Proof. induction l; intros sp; cbn [push_strings]; keep. Qed.
Lemma keeps_push_user l : forall sp, keeps (push_user sp l).
Proof. induction l; intros sp; cbn [push_user]; keep. Qed.
#[local] Hint Resolve keeps_push_strings keeps_push_user : keeps.
Lemma keeps_task_init_stack t a e : keeps (task_init_stack t a e). Proof. unfold task_init_stack. keep. Qed.
#[local] Hint Resolve keeps_task_init_stack : keeps.

Lemma keeps_elf_probef f : keeps (elf_probef file_read file_seek stack_junk f).
Proof. unfold elf_probef. keep. Qed.
#[local] Hint Resolve keeps_elf_probef : keeps.
Lemma keeps_elf_probe p : keeps (elf_probe file_read file_seek open_path stack_junk p).
Proof. unfold elf_probe. keep. Qed.
Lemma keeps_elf_load_segment t f h : keeps (elf_load_segment file_read file_seek t f h).
Proof. unfold elf_load_segment. keep. Qed.
Lemma keeps_read_alloc f n : keeps (read_alloc file_read junk f n). Proof. unfold read_alloc. keep. Qed.
Lemma keeps_new_pgd d : keeps (new_pgd d). Proof. unfold new_pgd. keep. Qed.
#[local] Hint Resolve keeps_elf_probe keeps_elf_load_segment keeps_read_alloc keeps_new_pgd : keeps.
Lemma keeps_elf_loadf t f : keeps (elf_loadf file_read file_seek stack_junk junk kernel_pgd t f).
Proof. unfold elf_loadf. keep. Qed.
#[local] Hint Resolve keeps_elf_loadf : keeps.
Lemma keeps_elf_load t p : keeps (elf_load file_read file_seek open_path close_file stack_junk junk kernel_pgd t p).
Proof. unfold elf_load. keep. Qed.
#[local] Hint Resolve keeps_elf_load : keeps.

(** The system calls that neither create nor delete a process. *)
Lemma keeps_sys_exit n : keeps (sys_exit n). Proof. unfold sys_exit. keep. Qed.
Lemma keeps_sys_thcreate a : keeps (sys_thcreate junk_task a). Proof. unfold sys_thcreate. keep. Qed.
Lemma keeps_sys_thkill n : keeps (sys_thkill n). Proof. unfold sys_thkill. keep. Qed.
Lemma keeps_user_string fuel : forall a, keeps (user_string fuel a).
Proof. induction fuel; intros a; cbn [user_string]; keep. Qed.
#[local] Hint Resolve keeps_user_string : keeps.
Lemma keeps_user_strings fuel : forall a, keeps (user_strings fuel a).
Proof. induction fuel; intros a; cbn [user_strings]; keep. Qed.
#[local] Hint Resolve keeps_user_strings : keeps.
Lemma keeps_copy_list fuel t a : keeps (copy_userspace_null_str_list fuel t a).
Proof. unfold copy_userspace_null_str_list. keep. Qed.
#[local] Hint Resolve keeps_copy_list : keeps.
Lemma keeps_sys_execve fuel p a e :
  keeps (sys_execve file_read file_seek open_path close_file stack_junk junk kernel_pgd fuel p a e).
Proof. unfold sys_execve. keep. Qed.
Lemma keeps_sys_sleep a b : keeps (sys_sleep a b). Proof. unfold sys_sleep. keep. Qed.
Lemma keeps_sys_prctl a b : keeps (sys_prctl a b). Proof. unfold sys_prctl. keep. Qed.
Lemma keeps_sys_getpid : keeps sys_getpid. Proof. unfold sys_getpid. keep. Qed.
Lemma keeps_sys_getppid : keeps sys_getppid. Proof. unfold sys_getppid. keep. Qed.
Lemma keeps_sys_chdir p : keeps (sys_chdir open_path close_file junk p). Proof. unfold sys_chdir. keep. Qed.
Lemma keeps_sys_getcwd a n : keeps (sys_getcwd a n). Proof. unfold sys_getcwd. keep. Qed.

(** ** Fork, spawn and wait *)
Lemma sys_fork_triple :
  triple (fun s => pids_ok s /\ room s) (sys_fork open_path junk_task junk_process) (fun _ => pids_ok).
Proof.
  unfold sys_fork.
  tstep; intros c.
  tstep; intros m.
  tstep; intros me.
  eapply triple_bind; [apply new_addr_room|intros p; cbv beta].
  tstep; intros _.
  eapply triple_bind; [apply generate_pid_triple|intros pid; cbv beta].
  tstep; intros t.
  tstep; intros pa.
  tstep; intros e.
  eapply triple_bind; [by apply put_proc_triple|intros ?; cbv beta].
  tkeep.
Qed.
Lemma process_spawn_triple p parent a e :
  triple (fun s => pids_ok s /\ room s)
    (process_spawn file_read file_seek open_path stack_junk junk junk_task junk_process kernel_pgd p parent a e)
    (fun _ => pids_ok).
Proof.
  unfold process_spawn.
  tstep; intros f.
  destruct (f =? 0).
  { intros s r s' [] [= <- <-]. done. }
  eapply triple_bind; [apply new_addr_room|intros a'; cbv beta].
  eapply triple_bind; [apply generate_pid_triple|intros pid; cbv beta].
  eapply triple_bind; [by apply put_proc_triple|intros ?; cbv beta].
  tkeep.
Qed.
Lemma sys_waitpid_triple p w f : triple pids_ok (sys_waitpid p w f) (fun _ => pids_ok).
Proof.
  unfold sys_waitpid. destruct (negb _); [tkeep|].
  destruct (w =? 0); [tkeep|].
  tstep; intros c.
  tstep; intros me.
  tstep; intros pr.
  tstep; intros s.
  tstep; intros r.
  destruct r as [[child ch]|]; [|tkeep].
  tstep; intros _.
  eapply triple_bind; [apply process_delete_triple|intros ?; cbv beta].
  tkeep.
Qed.

(** ** Signals and switches *)
Lemma keeps_kill_with_signal t n : keeps (kill_with_signal t n). Proof. unfold kill_with_signal. keep. Qed.
#[local] Hint Resolve keeps_kill_with_signal : keeps.
Lemma keeps_default_signal_handler t s : keeps (default_signal_handler t s).
Proof. unfold default_signal_handler. keep. Qed.
Lemma keeps_push sp l : keeps (push sp l). Proof. unfold push. keep. Qed.
#[local] Hint Resolve keeps_default_signal_handler keeps_push : keeps.
Lemma keeps_signal_exec t s : keeps (signal_exec kernel_pgd t s). Proof. unfold signal_exec. keep. Qed.
Lemma keeps_signal_fetch t : keeps (signal_fetch t). Proof. unfold signal_fetch. keep. Qed.
#[local] Hint Resolve keeps_signal_exec keeps_signal_fetch : keeps.
Lemma keeps_signal_send t s : keeps (signal_send kernel_pgd t s). Proof. unfold signal_send. keep. Qed.
Lemma keeps_sys_sigrestore a : keeps (sys_sigrestore a). Proof. unfold sys_sigrestore. keep. Qed.
Lemma keeps_sys_sigaction n a b : keeps (sys_sigaction n a b). Proof. unfold sys_sigaction. keep. Qed.
Lemma keeps_reschedule_to' t : keeps (reschedule_to kernel_pgd t). Proof. unfold reschedule_to. keep. Qed.
Lemma keeps_pick_loop n : forall e, keeps (pick_loop n e).
Proof. induction n; intros e; cbn [pick_loop]; keep. Qed.
Lemma keeps_list_item e : keeps (list_item e). Proof. apply keeps_reads. Qed.
#[local] Hint Resolve keeps_reschedule_to' keeps_pick_loop keeps_list_item keeps_signal_send : keeps.
Lemma keeps_pick_next_task : keeps pick_next_task. Proof. unfold pick_next_task. keep. Qed.
#[local] Hint Resolve keeps_pick_next_task : keeps.
Lemma keeps_reschedule' : keeps (reschedule kernel_pgd). Proof. unfold reschedule. keep. Qed.
#[local] Hint Resolve keeps_reschedule' : keeps.
Lemma keeps_sched_ticker r : keeps (sched_ticker kernel_pgd r). Proof. unfold sched_ticker, _sched_yield. keep. Qed.

(** ** Any sequence of calls, switches and ticks *)
Inductive kernel_entry : forall A, K A -> Prop :=
  | entry_fork : kernel_entry _ (sys_fork open_path junk_task junk_process)
  | entry_spawn p parent a e :
      kernel_entry _ (process_spawn file_read file_seek open_path stack_junk junk junk_task junk_process kernel_pgd p parent a e)
  | entry_waitpid p w f : kernel_entry _ (sys_waitpid p w f)
  | entry_execve fuel p a e :
      kernel_entry _ (sys_execve file_read file_seek open_path close_file stack_junk junk kernel_pgd fuel p a e)
  | entry_exit n : kernel_entry _ (sys_exit n)
  | entry_thcreate a : kernel_entry _ (sys_thcreate junk_task a)
  | entry_thkill n : kernel_entry _ (sys_thkill n)
  | entry_sleep a b : kernel_entry _ (sys_sleep a b)
  | entry_prctl a b : kernel_entry _ (sys_prctl a b)
  | entry_getpid : kernel_entry _ sys_getpid
  | entry_getppid : kernel_entry _ sys_getppid
  | entry_chdir p : kernel_entry _ (sys_chdir open_path close_file junk p)
  | entry_getcwd a n : kernel_entry _ (sys_getcwd a n)
  | entry_sigaction n a b : kernel_entry _ (sys_sigaction n a b)
  | entry_sigrestore a : kernel_entry _ (sys_sigrestore a)
  | entry_signal t s : kernel_entry _ (signal_send kernel_pgd t s)
  | entry_reschedule : kernel_entry _ (reschedule kernel_pgd)
  | entry_reschedule_to t : kernel_entry _ (reschedule_to kernel_pgd t)
  | entry_tick r : kernel_entry _ (sched_ticker kernel_pgd r).
Definition kernel_step (s s' : kstate) : Prop :=
  room s /\ exists A (m : K A) r, kernel_entry A m /\ m s = Some (r, s').

Lemma triple_room {A} (m : K A) Q : triple pids_ok m Q -> triple (fun s => pids_ok s /\ room s) m Q.
Proof. intros H s r s' [Hp _]. by apply H. Qed.
Lemma entry_triple A (m : K A) : kernel_entry A m -> triple (fun s => pids_ok s /\ room s) m (fun _ => pids_ok).
Proof.
  destruct 1; [apply sys_fork_triple|apply process_spawn_triple|apply triple_room, sys_waitpid_triple|..];
    apply triple_room, triple_keeps; try apply _;
    eauto using keeps_sys_execve, keeps_sys_exit, keeps_sys_thcreate, keeps_sys_thkill, keeps_sys_sleep, keeps_sys_prctl,
      keeps_sys_getpid, keeps_sys_getppid, keeps_sys_chdir, keeps_sys_getcwd, keeps_sys_sigaction, keeps_sys_sigrestore,
      keeps_sched_ticker with keeps.
Qed.
(** C28: in every run of calls, signals, switches and timer ticks, with fork,
    spawn and wait among them, no two processes have the same number, and no
    number in use is free to be given to another. *)
Theorem process_numbers_unique s s' : pids_ok s -> rtc kernel_step s s' -> pids_ok s'.
Proof.
  intros Hs Hrun. revert Hs. induction Hrun as [|s s1 s2 (Hr&A&m&r&He&Hm) _ IH]; [done|]. intros Hs. apply IH.
  pose proof (entry_triple A m He s r s1 (conj Hs Hr) Hm) as H. by destruct r.
Qed.
End calls.

(** The state of the witness of [waitpid], ready for a fork. *)
Definition numbered_state : kstate :=
  waiting_state <| current_pid := 3 |> <| k_fresh := [0x1000; 0x1010; 0x1020; 0x1030; 0x1040; 0x1050; 0x1060; 0x1070] |>
    <| k_ftables := {[ 0 := replicate 256 0 ]} |>
    <| k_pages := PState (ps_tables example_pages) [0xC0010000; 0xC0011000; 0xC0012000] (ps_frames example_pages)
                    (Bitmap.Bitmap (replicate 16 0) 128) |>
    <| k_tasks := {[ 16 := example_task <| t_process := 32 |> <| t_vm_areas := Some list_init |>
                             <| kernel_stack := 0xC0100000 |> <| kernel_esp := 0xC0100000 + KSTACK_SIZE |> ]} |>.
Definition only_tty (v : vfs) (p : list Z) : option (vfs * Z) := Some (v, 1).
Definition returned {A} (r : option (ctl A * kstate)) : option A :=
  match r with Some (Return a, _) => Some a | _ => None end.
Lemma returned_run {A} (r : option (ctl A * kstate)) a : returned r = Some a -> exists s, r = Some (Return a, s).
Proof. destruct r as [[[]]|]; simpl; intros [= ->]. by eexists. Qed.

Lemma numbered_state_ok : pids_ok numbered_state.
Proof.
  assert (Hp : pids numbered_state = <[32 := 1]> {[48 := 2]}) by (apply map_eq; intros i; by vm_compute).
  assert (Hl : forall p n, pids numbered_state !! p = Some n -> (p = 32 /\ n = 1) \/ (p = 48 /\ n = 2)).
  { intros p n. rewrite Hp, lookup_insert_Some, lookup_singleton_Some. naive_solver. }
  constructor.
  - intros p q n H1%Hl H2%Hl. naive_solver lia.
  - intros p n H%Hl. change (current_pid numbered_state) with 3. naive_solver lia.
  - intros p n _ H. by apply elem_of_nil in H.
  - constructor.
  - constructor.
  - intros a Ha. rewrite Hp. change (k_fresh numbered_state) with [0x1000; 0x1010; 0x1020; 0x1030; 0x1040; 0x1050; 0x1060; 0x1070] in Ha.
    rewrite !elem_of_cons, elem_of_nil in Ha. naive_solver.
  - vm_compute. repeat (apply NoDup_cons; split; [rewrite ?elem_of_cons, elem_of_nil; naive_solver|]). constructor.
  - by vm_compute.
Qed.
(** The child is reaped and its number given to the next one. *)
Lemma process_numbers_unique_witness :
  exists s1 s2, sys_waitpid (-1) 0x400100 0 numbered_state = Some (Return (Ret 2), s1)
    /\ sys_fork only_tty example_task example_parent s1 = Some (Return 2, s2) /\ pids_ok s2.
Proof.
  destruct (returned_run (sys_waitpid (-1) 0x400100 0 numbered_state) (Ret 2)) as [s1 H1].
  { vm_compute. reflexivity. }
  assert (Hb : returned ((_ ← sys_waitpid (-1) 0x400100 0; sys_fork only_tty example_task example_parent) numbered_state) = Some 2
    /\ (current_pid <$> (snd <$> sys_waitpid (-1) 0x400100 0 numbered_state)) = Some 3).
  { vm_compute. split; reflexivity. }
  destruct Hb as [Hb Hc]. rewrite H1 in Hc. injection Hc as Hc.
  erewrite run_bind in Hb by exact H1. apply returned_run in Hb as [s2 H2].
  exists s1, s2. split; [exact H1|]. split; [exact H2|].
  apply (process_numbers_unique (fun _ _ => undefined) (fun _ _ _ => undefined) only_tty (fun _ => mret tt) [] (fun _ => [])
           example_task example_parent 0 (fun f n => keeps_undefined) (fun f p w => keeps_undefined) (fun f => keeps_ret tt)
           numbered_state s2 numbered_state_ok).
  apply (rtc_l _ _ s1); [|apply (rtc_l _ _ s2); [|apply rtc_refl]].
  - split; [vm_compute; reflexivity|]. eexists _, _, _. split; [apply (entry_waitpid _ _ _ _ _ _ _ _ _ (-1) 0x400100 0)|exact H1].
  - split; [unfold room; rewrite Hc; vm_compute; reflexivity|]. eexists _, _, _. split; [apply entry_fork|exact H2].
Defined.
