(* ===== verification/Fault.v ===== *)
(** * Fault: page faults, from the processor to the task

    pagefault_handler of mm/paging.c: the fault is first offered to the memory
    areas of the running task (Vmm); for one they do not resolve the stack
    frames are printed, which reads memory that the faulting program chose; then
    a kernel fault ends in a panic and a user task is sent SIGSEGV (Signal).
    The text of the report is in Trace. *)
From S2P Require Import Prelude Bitmap CString DList Pmm Paging Vmm UserMem UserSpace Kernel Thread Signal Proc.

Definition SIGSEGV := 11.

(** A word of a stack frame: of a kernel stack or of the active space. *)
Definition frame_word (s : kstate) (a : Z) : option Z :=
  match k_stacks s !! a with Some v => Some v | None => load_word (user_space s) a end.
(** The address at which the processor faults when it reads the word at [a]:
    its first byte, or its first byte on the second page. *)
Definition fault_byte (s : kstate) (a : Z) : Z :=
  match space_load (user_space s) a with Some _ => PG_RND_DOWN (u32 (a + 3)) | None => a end.
(** [trace(3, -1)] skips the frames of [trace], of the handler and of its
    caller; the first of the [UINT_MAX] that it prints is the frame of the
    entry stub. *)
Definition max_frames : nat := Z.to_nat (u32 (-1) - 1).
#[global] Arguments max_frames : simpl never.

Section fault.
  (** [load_page] of an area, by its operations table. *)
  Context (load_page : Z -> option (vmm -> Z -> Z -> Z -> option (vmm * vm_fault_kind))).
  Context (kernel_pgd : Z).

(** The first half of the handler. *)
Definition vma_verdict (err cr2 : Z) : K vm_fault_kind :=
  c ← current;
  has_areas ← (if c =? 0 then mret false
               else t ← get_task c; mret (match t_vm_areas t with Some _ => true | None => false end));
  if (has_areas : bool) then on_vmm c (fun v => vma_pagefault_handler load_page v kernel_pgd err cr2)
  else mret VM_FAULT_CRASH.

(** A read of the word at [a] by the kernel.  A page that is not there faults
    again, in the kernel: the areas may bring it, and the read is repeated; a
    word lies on two pages at most.  Otherwise the handler prints a report of
    this fault in turn, whose frames lead back to the same word: it faults
    without end. *)
Fixpoint read_frame (n : nat) (a : Z) : K Z :=
  s ← get_state;
  match frame_word s a with
  | Some v => mret v
  | None =>
      match n with
      | O => undefined
      | S n =>
          if VIRT_BASE <=? a then undefined else
          res ← vma_verdict 0 (fault_byte s a);
          match res with VM_FAULT_IGNORE => read_frame n a | _ => undefined end
      end
  end.
(** What [trace] reads: of each frame the return address, then the next. *)
Fixpoint trace_reads (n : nat) (ebp : Z) : K unit :=
  match n with
  | O => mret tt
  | S n =>
      if ebp =? 0 then mret tt else
      _ ← read_frame 2 (u32 (ebp + 4));
      next ← read_frame 2 ebp;
      trace_reads n next
  end.
(** The line that names the task. *)
Definition trace_reads_task : K unit :=
  c ← current;
  if c =? 0 then mret tt else
  t ← get_task c;
  if t_process t =? 0 then mret tt else p ← get_proc (t_process t); mret tt.

Definition _do_kernel_pgf : K unit := undefined.
Definition segv (t : task) (cr2 : Z) : signal := Signal SIGSEGV 0 0xDEAD (thid t) 0 cr2 0 0 0.
Definition _do_user_pgf (cr2 : Z) : K unit :=
  c ← current; t ← get_task c; signal_send kernel_pgd c (segv t cr2).

(** [task_eip] and [err] are members of the saved registers; [saved_ebp] is the
    [ebp] of the interrupted program, which the entry stub links as the frame
    after its own; [cr2] is the address.  [status] keeps its initial value: a
    bus error is treated as a crash too. *)
Definition pagefault_handler (err task_eip saved_ebp cr2 : Z) : K unit :=
  res ← vma_verdict err cr2;
  match res with
  | VM_FAULT_IGNORE => mret tt
  | _ =>
      _ ← trace_reads max_frames saved_ebp;
      _ ← trace_reads_task;
      if VIRT_BASE <=? task_eip then _do_kernel_pgf else _do_user_pgf cr2
  end.
End fault.

(** ** Chains of frames *)
(** The frames from [ebp] to the last: the address and the return address. *)
Fixpoint stack_chain (rd : Z -> option Z) (ebp : Z) (frames : list (Z * Z)) : Prop :=
  match frames with
  | [] => ebp = 0
  | (a, ret) :: frames => ebp = a /\ a <> 0 /\ rd (u32 (a + 4)) = Some ret /\ 0 <= ret < 2 ^ 32
      /\ exists next, rd a = Some next /\ stack_chain rd next frames
  end.
(** Frames that can be read, and after them one that cannot, at [bad]. *)
Fixpoint stack_broken (rd : Z -> option Z) (ebp : Z) (frames : list (Z * Z)) (bad : Z) : Prop :=
  match frames with
  | [] => ebp <> 0 /\ rd bad = None /\ (bad = u32 (ebp + 4) \/ is_Some (rd (u32 (ebp + 4))) /\ bad = ebp)
  | (a, ret) :: frames => ebp = a /\ a <> 0 /\ rd (u32 (a + 4)) = Some ret
      /\ exists next, rd a = Some next /\ stack_broken rd next frames bad
  end.

(** ** The areas of a task *)
Definition task_vmm (s : kstate) (t : task) : vmm :=
  Vmm (k_entries s) (t_vm_areas t) (k_areas s) (k_fresh s) (k_errno s) (t_mmap_bump_idx t) (t_pgd t)
    (default [] (k_ftables s !! t_filetable t)) (k_pages s).

(** A function of vmm.c that changes the pages only. *)
Lemma on_vmm_pages {A} c t (f : vmm -> option (vmm * A)) s pg r :
  k_tasks s !! c = Some t -> f (task_vmm s t) = Some (with_pages pg (task_vmm s t), r) ->
  on_vmm c f s = Some (Return r, s <| k_pages := pg |>).
Proof.
  intros Ht Hf. unfold on_vmm. kstep. kstep. erewrite run_bind by (apply run_opt; exact Hf). cbv beta iota.
  kstep. cbn [vm_entries vm_store vm_fresh errno vm_pages vm_areas mmap_bump_idx with_pages task_vmm].
  erewrite run_bind by (by apply run_on_task). unfold mret, K_ret. do 2 f_equal.
  assert (Hid : (t <| t_vm_areas := t_vm_areas t |> <| t_mmap_bump_idx := t_mmap_bump_idx t |>) = t) by (by destruct t).
  destruct s; cbn in *. rewrite Hid. by rewrite insert_id.
Qed.

Section spec.
  Context (load_page : Z -> option (vmm -> Z -> Z -> Z -> option (vmm * vm_fault_kind))).
  Context (kernel_pgd : Z).

(** The verdict of the areas. *)
Lemma run_verdict s c t l err cr2 pg r :
  current_task s = c -> c <> 0 -> k_tasks s !! c = Some t -> t_vm_areas t = Some l ->
  vma_pagefault_handler load_page (task_vmm s t) kernel_pgd err cr2 = Some (with_pages pg (task_vmm s t), r) ->
  vma_verdict load_page kernel_pgd err cr2 s = Some (Return r, s <| k_pages := pg |>).
Proof.
  intros Hc Hc0 Ht Hl Hv. unfold vma_verdict. kstep. rewrite Hc. destruct (Z.eqb_spec c 0); [done|].
  erewrite run_bind; [|erewrite run_bind by (apply run_reads; exact Ht); rewrite Hl; reflexivity].
  by eapply on_vmm_pages.
Qed.
Lemma verdict_outside s c t l xs areas err cr2 :
  current_task s = c -> c <> 0 -> k_tasks s !! c = Some t -> t_vm_areas t = Some l ->
  areas_rep (task_vmm s t) xs areas -> (forall a, a ∈ areas -> in_area cr2 a = false) ->
  vma_verdict load_page kernel_pgd err cr2 s = Some (Return VM_FAULT_CRASH, s).
Proof.
  intros Hc Hc0 Ht Hl Hrep Hno.
  pose proof (vma_pagefault_outside load_page (task_vmm s t) xs areas kernel_pgd err cr2 l Hrep Hl Hno) as Hrun.
  erewrite (run_verdict s c t l err cr2 (k_pages s)); [|done..|by rewrite Hrun; destruct s]. by destruct s.
Qed.

(** ** The frames that the report reads *)
Lemma read_frame_readable s n a v : frame_word s a = Some v ->
  read_frame load_page kernel_pgd n a s = Some (Return v, s).
Proof. intros Hv. destruct n; cbn [read_frame]; kstep; by rewrite Hv. Qed.
Lemma trace_reads_chain s n : forall frames ebp, stack_chain (frame_word s) ebp frames ->
  trace_reads load_page kernel_pgd n ebp s = Some (Return tt, s).
Proof.
  induction n as [|n IH]; [done|]. intros [|[a ret] frames] ebp Hch; cbn [trace_reads].
  - cbn in Hch. by subst ebp.
  - destruct Hch as (->&Ha&Hr&_&next&Hn&Hch). destruct (Z.eqb_spec a 0); [done|].
    erewrite run_bind by (by apply read_frame_readable). cbv beta.
    erewrite run_bind by (by apply read_frame_readable). by apply (IH frames).
Qed.
Lemma trace_reads_broken s bad :
  bad < VIRT_BASE -> vma_verdict load_page kernel_pgd 0 (fault_byte s bad) s = Some (Return VM_FAULT_CRASH, s) ->
  forall n frames ebp, (length frames < n)%nat -> stack_broken (frame_word s) ebp frames bad ->
  trace_reads load_page kernel_pgd n ebp s = None.
Proof.
  intros Hlow Hv.
  assert (Hbad : frame_word s bad = None -> read_frame load_page kernel_pgd 2 bad s = None).
  { intros Hb. cbn [read_frame]. kstep. rewrite Hb. destruct (Z.leb_spec VIRT_BASE bad); [lia|].
    by erewrite run_bind by exact Hv. }
  induction n as [|n IH]; intros frames ebp Hlen Hch; [lia|]. cbn [trace_reads].
  destruct frames as [|[a ret] frames]; cbn [stack_broken] in Hch.
  - destruct Hch as (Hne&Hb&Hcase). destruct (Z.eqb_spec ebp 0); [done|]. destruct Hcase as [->|[[v Hr] ->]].
    + unfold mbind at 1, K_bind at 1. by rewrite Hbad.
    + erewrite run_bind by (by apply read_frame_readable). cbv beta. unfold mbind, K_bind. by rewrite Hbad.
  - destruct Hch as (->&Ha&Hr&next&Hn&Hch). destruct (Z.eqb_spec a 0); [done|].
    erewrite run_bind by (by apply read_frame_readable). cbv beta.
    erewrite run_bind by (by apply read_frame_readable). apply (IH frames); [cbn in Hlen; lia|done].
Qed.
Lemma run_task_line s c t :
  current_task s = c -> c <> 0 -> k_tasks s !! c = Some t -> t_process t = 0 \/ is_Some (k_procs s !! t_process t) ->
  trace_reads_task s = Some (Return tt, s).
Proof.
  intros Hc Hc0 Ht Hp. unfold trace_reads_task. kstep. rewrite Hc. destruct (Z.eqb_spec c 0); [done|]. kstep.
  destruct (Z.eqb_spec (t_process t) 0); [done|]. destruct Hp as [|[p Hp]]; [done|]. by kstep.
Qed.

Lemma frames_bound {A} (l : list A) : zlen l < 2 ^ 32 - 2 -> (length l < max_frames)%nat.
Proof.
  unfold zlen. intros H. apply Nat2Z.inj_lt. unfold max_frames. rewrite Z2Nat.id by (by vm_compute).
  replace (u32 (-1) - 1) with (2 ^ 32 - 2) by (by vm_compute). done.
Qed.

(** What only reads, or fails. *)
Definition returns {A} (m : K A) : Prop := forall s r s', m s = Some (r, s') -> exists a, r = Return a.
Lemma returns_ret {A} (a : A) : returns (mret a). Proof. intros s r s' H. injection H as <- <-. eauto. Qed.
Lemma returns_undefined {A} : returns (undefined : K A). Proof. done. Qed.
Lemma returns_reads {A} (f : kstate -> option A) : returns (reads f).
Proof. intros s r s'. unfold reads, opt. destruct (f s); [|done]. intros H. injection H as <- <-. eauto. Qed.
Lemma returns_state : returns get_state. Proof. intros s r s' H. injection H as <- <-. eauto. Qed.
Lemma returns_modify f : returns (modify f). Proof. intros s r s' H. injection H as <- <-. eauto. Qed.
Lemma returns_opt {A} (o : option A) : returns (opt o). Proof. apply (returns_reads (fun _ => o)). Qed.
Lemma returns_bind {A B} (m : K A) (f : A -> K B) : returns m -> (forall a, returns (f a)) -> returns (m ≫= f).
Proof.
  intros Hm Hf s r s'. unfold mbind, K_bind. destruct (m s) as [[r0 s0]|] eqn:E; [|done].
  destruct (Hm s r0 s0 E) as [a ->]. apply Hf.
Qed.
Ltac returns := repeat first [ apply returns_ret | apply returns_undefined | apply returns_reads | apply returns_modify | apply returns_state
  | apply returns_opt | assumption | (apply returns_bind; [|intros ?]) | case_match ].
Lemma returns_verdict err cr2 : returns (vma_verdict load_page kernel_pgd err cr2).
Proof. unfold vma_verdict, current, get_task, on_vmm, on_task, put_task. returns. Qed.
Lemma returns_frame n : forall a, returns (read_frame load_page kernel_pgd n a).
Proof. pose proof returns_verdict. induction n; intros a; cbn [read_frame]; returns; auto. Qed.
Lemma returns_trace n : forall ebp, returns (trace_reads load_page kernel_pgd n ebp).
Proof. pose proof returns_frame. induction n; intros a; cbn [trace_reads]; returns; auto. Qed.
Lemma returns_line : returns trace_reads_task.
Proof. unfold trace_reads_task, current, get_task, get_proc. returns. Qed.

(** What the handler does with a fault that no area resolves. *)
Lemma pagefault_unresolved s err task_eip saved_ebp cr2 :
  vma_verdict load_page kernel_pgd err cr2 s = Some (Return VM_FAULT_CRASH, s) ->
  trace_reads load_page kernel_pgd max_frames saved_ebp s = Some (Return tt, s) -> trace_reads_task s = Some (Return tt, s) ->
  task_eip < VIRT_BASE ->
  pagefault_handler load_page kernel_pgd err task_eip saved_ebp cr2 s = _do_user_pgf kernel_pgd cr2 s.
Proof.
  intros Hv Ht Hl He. unfold pagefault_handler. erewrite run_bind by exact Hv. cbv beta iota.
  erewrite run_bind by exact Ht. erewrite run_bind by exact Hl. by destruct (Z.leb_spec VIRT_BASE task_eip); [lia|].
Qed.
Lemma pagefault_panics s err task_eip saved_ebp cr2 :
  vma_verdict load_page kernel_pgd err cr2 s = Some (Return VM_FAULT_CRASH, s) -> VIRT_BASE <= task_eip ->
  pagefault_handler load_page kernel_pgd err task_eip saved_ebp cr2 s = None.
Proof.
  intros Hv He. unfold pagefault_handler. erewrite run_bind by exact Hv. cbv beta iota.
  destruct (Z.leb_spec VIRT_BASE task_eip); [|lia]. unfold mbind, K_bind.
  destruct (trace_reads _ _ _ _ s) as [[r s1]|] eqn:Et; [|done]. destruct (returns_trace _ _ _ _ _ Et) as [? ->].
  destruct (trace_reads_task s1) as [[r s2]|] eqn:El; [|done]. by destruct (returns_line _ _ _ El) as [? ->].
Qed.

(** ** A fault in an anonymous area *)
Lemma zeroed_area s d a n user s1 k f :
  0 < n -> a mod 4096 = 0 -> 0 <= a -> a + n * 4096 <= VIRT_BASE -> task_space s d -> task_space s1 d ->
  ps_frames s1 = ps_frames s -> (forall j, k <= j < k + n -> frame_free (ps_pmm s) j) -> 0 <= k -> k + n <= 2 ^ 20 ->
  (forall x, 0 <= x < 2 ^ 32 -> entry s1 d x
     = if in_range a n x then make_pte (4096 * (k + (x / 4096 - a / 4096))) true user else entry s d x) ->
  zero_pages s1 d a n = with_frames f s1 ->
  (forall i, 0 <= i < n -> f !! get_phys_addr s1 true d (u32 (a + i * PAGE_SIZE)) = Some zero_frame) ->
  (forall q, (forall i, 0 <= i < n -> q <> get_phys_addr s1 true d (u32 (a + i * PAGE_SIZE))) -> f !! q = ps_frames s1 !! q) ->
  task_space (with_frames f s1) d
  /\ forall x, user_addr x -> space_load (Space d (with_frames f s1)) x
       = if in_range a n x then Some 0 else space_load (Space d s) x.
Proof.
  intros Hn Ham Ha Hhi Hu Hu1 Hfr Hfree Hk Hkn He Hz Hzf Hzo. unfold VIRT_BASE in Hhi.
  assert (Hphys : forall i, 0 <= i < n -> get_phys_addr s1 true d (u32 (a + i * PAGE_SIZE)) = 4096 * (k + i)).
  { intros i Hi. unfold PAGE_SIZE. rewrite u32_id by lia.
    assert (Hdiv : (a + i * 4096) / 4096 - a / 4096 = i) by (rewrite Z.div_add by lia; lia).
    rewrite (get_phys_entry s1 d (a + i * 4096) (4096 * (k + i)) true user); try lia.
    - rewrite Z.mod_add, Ham by lia. lia.
    - rewrite Z.mul_comm. by apply Z.mod_mul.
    - rewrite Z.mod_add, Ham by lia. lia.
    - rewrite He by lia. unfold in_range. destruct (a <=? a + i * 4096) eqn:?, (a + i * 4096 <? a + n * 4096) eqn:?; try lia.
      cbn [andb]. by rewrite Hdiv. }
  assert (Hnew : forall j, k <= j < k + n -> f !! (4096 * j) = Some zero_frame).
  { intros j Hj. rewrite <- (Hzf (j - k)) by lia. rewrite Hphys by lia. f_equal. lia. }
  assert (Hother : forall q, (forall j, k <= j < k + n -> q <> 4096 * j) -> f !! q = ps_frames s !! q).
  { intros q Hq. rewrite Hzo, Hfr; [done|]. intros i Hi. rewrite Hphys by done. apply Hq. lia. }
  split.
  - destruct Hu1 as [H1 H2 H3 H4 H5 H6]. constructor; try done; [by destruct H1|]. intros j Hj. cbn [ps_frames with_frames].
    destruct (decide (k <= j < k + n)) as [Hin|Hout].
    + exists zero_frame. rewrite Hnew by done. by split.
    + rewrite Hother by (intros j' Hj'; lia). rewrite <- Hfr. by apply H4.
  - intros x Hx. destruct (in_range a n x) eqn:Ein.
    + assert (Hxe : entry s1 d x = make_pte (4096 * (k + (x / 4096 - a / 4096))) true user) by (rewrite He, Ein by auto with kernel; done).
      unfold in_range in Ein. apply andb_true_iff in Ein as [? ?]. zbool.
      assert (Hq : 0 <= x / 4096 - a / 4096 < n).
      { pose proof (Z.div_mod x 4096 ltac:(lia)). pose proof (Z.mod_pos_bound x 4096 ltac:(lia)).
        pose proof (Z.div_mod a 4096 ltac:(lia)). lia. }
      assert (Hfrange : 0 <= 4096 * (k + (x / 4096 - a / 4096)) < 2 ^ 32) by lia.
      assert (Hpx : PTE_EXTRACT_ADDR (entry s1 d x) = 4096 * (k + (x / 4096 - a / 4096))).
      { rewrite Hxe, extract_make by done. set (y := k + _). rewrite (Z.mul_comm 4096 y), Z.div_mul by lia. lia. }
      erewrite (space_load_mapped (with_frames f s1) d x); [|by auto with kernel| |].
      2: { change (entry s1 d x <> 0). rewrite Hxe. pose proof (make_pte_range _ true user Hfrange). lia. }
      2: { change (entry (with_frames f s1) d x) with (entry s1 d x). rewrite Hpx. apply Hnew. lia. }
      unfold zero_frame. apply lookup_replicate. split; [done|]. pose proof (PG_OFFSET_range x). lia.
    + assert (Hxe : entry s1 d x = entry s d x) by (rewrite He, Ein by auto with kernel; done).
      unfold space_load. rewrite !page_frame_entry by auto with kernel.
      change (entry (with_frames f s1) d x) with (entry s1 d x). rewrite Hxe.
      destruct (Z.eqb_spec (entry s d x) 0) as [|Hne]; [done|]. cbn [mbind option_bind sp_pages with_frames ps_frames].
      rewrite Hother; [done|]. intros j Hj Heq. destruct (us_used _ _ Hu x Hx Hne) as (j'&Hj'&_&Hused).
      destruct (Hfree j Hj) as [_ Hf]. assert (j' = j) as -> by lia. congruence.
Qed.

Lemma made_frame y user : 0 <= y < 2 ^ 20 -> PTE_EXTRACT_ADDR (make_pte (4096 * y) true user) = 4096 * y.
Proof. intros Hy. rewrite extract_make by lia. rewrite (Z.mul_comm 4096 y), Z.div_mul by lia. lia. Qed.
(** The pages of an area, in consecutive frames from [k] on. *)
Definition area_frames (pg : pstate) (d k : Z) (a : vm_area) : Prop :=
  forall x, in_area x a = true -> PTE_EXTRACT_ADDR (entry pg d x) = 4096 * (k + (x / 4096 - addr a / 4096)).

Lemma pagefault_resolves s c t l xs areas err task_eip saved_ebp cr2 a :
  current_task s = c -> c <> 0 -> k_tasks s !! c = Some t -> t_vm_areas t = Some l ->
  areas_rep (task_vmm s t) xs areas -> task_space (k_pages s) (t_pgd t) -> Z.land err 1 = 0 ->
  a ∈ areas -> in_area cr2 a = true -> anonymous load_page a -> 0x400000 <= addr a ->
  n_pages a <= zlen (ps_fresh (k_pages s)) -> n_pages a < 2 ^ 20 ->
  bitmap_scan (ps_pmm (k_pages s)) 0 (n_pages a) false <> - EBITMAP ->
  exists pg k, pagefault_handler load_page kernel_pgd err task_eip saved_ebp cr2 s = Some (Return tt, s <| k_pages := pg |>)
    /\ task_space pg (t_pgd t) /\ areas_rep (task_vmm (s <| k_pages := pg |>) t) xs areas
    /\ (forall x, user_addr x -> space_load (Space (t_pgd t) pg) x
         = if in_area x a then Some 0 else space_load (Space (t_pgd t) (k_pages s)) x)
    /\ (forall j, k <= j < k + n_pages a -> frame_free (ps_pmm (k_pages s)) j) /\ area_frames pg (t_pgd t) k a.
Proof.
  intros Hc Hc0 Ht Hl Hrep Hu Herr Ha Hin Han Hlo Hfr Hn Hscan.
  pose proof (vma_pagefault_in_area load_page (task_vmm s t) xs areas kernel_pgd err cr2 l a Hrep Hl Herr Ha Hin Han) as Hrun.
  pose proof (ar_valid _ _ _ Hrep) as Hval. rewrite Forall_forall in Hval. destruct (Hval a Ha) as (Ha0&Ham&Hsz&Hend).
  destruct Han as (_&_&_&_&Hnp).
  cbn [vm_pages pgd task_vmm] in Hrun.
  destruct (map_addr_space (k_pages s) (t_pgd t) (addr a) (n_pages a) (negb (t_pgd t =? kernel_pgd)) Hu Ham Hlo)
    as (s1&k&Hmap&Hu1&Hf1&Hfree&He1); [lia|lia|done|done|].
  rewrite Hmap in Hrun. cbn [mbind option_bind] in Hrun.
  destruct (zero_pages_spec s1 (t_pgd t) (addr a) (n_pages a) ltac:(lia)) as (f&Hz&Hzf&Hzo).
  assert (Hk : 0 <= k /\ k + n_pages a <= 2 ^ 20).
  { destruct (us_pmm _ _ Hu) as [_ Hs]. destruct (Hfree k ltac:(lia)) as [? _].
    destruct (Hfree (k + n_pages a - 1) ltac:(lia)) as [? _]. lia. }
  destruct (zeroed_area (k_pages s) (t_pgd t) (addr a) (n_pages a) _ s1 k f ltac:(lia) Ham Ha0 ltac:(lia) Hu Hu1 Hf1 Hfree
    ltac:(lia) ltac:(lia) He1 Hz Hzf Hzo) as [Hu2 Hl2].
  exists (with_frames f s1), k. rewrite Hz in Hrun. split_and!; [|done|by destruct Hrep| |done|].
  - unfold pagefault_handler. by erewrite run_bind by (by eapply run_verdict).
  - intros x Hx. rewrite Hl2 by done. unfold in_range, in_area. by rewrite Hnp.
  - intros x Hx. change (entry (with_frames f s1) (t_pgd t) x) with (entry s1 (t_pgd t) x). unfold in_area in Hx.
    assert (Hr : in_range (addr a) (n_pages a) x = true) by (unfold in_range; by rewrite Hnp).
    apply andb_true_iff in Hx as [? ?]. zbool. unfold VIRT_BASE in Hend. rewrite He1, Hr by lia. apply made_frame.
    pose proof (Z.div_mod x 4096 ltac:(lia)). pose proof (Z.mod_pos_bound x 4096 ltac:(lia)).
    pose proof (Z.div_mod (addr a) 4096 ltac:(lia)). lia.
Qed.

(** ** A fault outside every area *)
Lemma segv_bit : sigbit SIGSEGV = Some (2 ^ 11).
Proof. reflexivity. Qed.
Lemma segv_blocked s c t q cr2 :
  k_tasks s !! c = Some t -> masked t (2 ^ 11) = true -> k_queues s !! signal_queue t = Some q ->
  zlen q < SIGNAL_MAX_QUEUE_SIZE ->
  signal_send kernel_pgd c (segv t cr2) s
  = Some (Return tt, s <| k_queues := <[signal_queue t := q ++ [segv t cr2]]> (k_queues s) |>).
Proof.
  intros Ht Hm Hq Hlen. unfold signal_send. cbn [number segv]. change ((NSIG <? SIGSEGV) || (SIGSEGV <? 1)) with false.
  cbv iota. kstep. rewrite segv_bit. kstep. rewrite Hm. erewrite run_bind by (apply run_reads; exact Hq).
  destruct (Z.eqb_spec (zlen q) SIGNAL_MAX_QUEUE_SIZE); [lia|]. reflexivity.
Qed.
Lemma segv_unblocked s c t h cr2 :
  k_tasks s !! c = Some t -> masked t (2 ^ 11) = false -> t_pgd t <> kernel_pgd ->
  signal_handlers t !! Z.to_nat SIGSEGV = Some h ->
  (h_entry h = SIGNAL_DEFAULT_ACTION -> signal_send kernel_pgd c (segv t cr2) s = kill_with_signal c SIGSEGV s)
  /\ (h_entry h = SIGNAL_IGNORE_ACTION -> signal_send kernel_pgd c (segv t cr2) s = Some (Return tt, s)).
Proof.
  intros Ht Hm Hk Hh.
  split; intros He; unfold signal_send; cbn [number segv]; change ((NSIG <? SIGSEGV) || (SIGSEGV <? 1)) with false;
    cbv iota; kstep; rewrite segv_bit; kstep; rewrite Hm; unfold signal_exec; kstep;
    (destruct (Z.eqb_spec (t_pgd t) kernel_pgd); [done|]); cbn [number segv];
    change (SIGSEGV =? SIGKILL) with false; change (SIGSEGV =? SIGSTOP) with false; cbv iota;
    erewrite run_bind by (apply run_opt; exact Hh); rewrite He; reflexivity.
Qed.

(** The end of the running task. *)
Lemma kill_kernel_thread s c t n : current_task s = c -> k_tasks s !! c = Some t -> t_process t = 0 ->
  kill_with_signal c n s = Some (Reschedule, s <| k_tasks := <[c := t <| t_state := TASK_DYING |>]> (k_tasks s) |>).
Proof.
  intros Hc Ht Hp. unfold kill_with_signal. kstep. rewrite Hp. cbn [Z.eqb negb]. unfold put_task. kstep. kstep.
  change (current_task (_ s)) with (current_task s). by rewrite Hc, Z.eqb_refl.
Qed.
Lemma kill_one_thread s c t n p pr path : current_task s = c -> k_tasks s !! c = Some t -> t_process t = p -> p <> 0 ->
  k_procs s !! p = Some pr -> threads pr = [c] -> p_parent pr <> 0 -> strlen (p_filepath pr) = Some path ->
  kill_with_signal c n s
  = Some (Reschedule, s <| k_procs := <[p := pr <| p_state := PROCESS_DEAD |> <| p_signal := n |>]> (k_procs s) |>
                        <| k_tasks := <[c := t <| t_state := TASK_DYING |>]> (k_tasks s) |>).
Proof.
  intros <- Ht <- Hp0 Hpr Hth Hpa Hpath. unfold kill_with_signal. kstep.
  destruct (Z.eqb_spec (t_process t) 0); [done|]. cbn [negb]. kstep. unfold process_kill.
  erewrite run_bind by (apply run_reads; cbn; by rewrite lookup_insert_eq). cbv beta. set (s1 := s <| k_procs := _ |>).
  assert (Hloop : for_each [current_task s] kill_thread s1
    = Some (Return tt, s1 <| k_tasks := <[current_task s := t <| t_state := TASK_DYING |>]> (k_tasks s) |>)).
  { cbn [for_each]. unfold kill_thread. erewrite run_bind; [|kstep; cbn; rewrite Z.eqb_refl; by apply run_on_task]. done. }
  erewrite run_bind by (cbn [threads]; rewrite Hth; exact Hloop).
  cbv beta. cbn [p_parent p_filepath]. destruct (Z.eqb_spec (p_parent pr) 0); [done|]. kstep. kstep.
  erewrite run_bind by (apply run_reads; cbn; by rewrite lookup_insert_eq). cbv beta.
  match goal with |- (if ?b then _ else _) _ = _ => replace b with true by (symmetry; by apply Z.eqb_eq) end. done.
Qed.
End spec.


(** A kernel thread with one area, its SIGSEGV blocked or not, and a frame on
    its stack. *)
Definition faulting_task (mask : Z) : task :=
  Task [0] TASK_RUNNING 5 0 0 0 0xC0001000 0 0 0 0 0 0 0 0 (Some (CList 0xC0500040 0xC0500040 1)) (replicate 32 no_handler)
    0 mask 7 0 0 0.
Definition faulting_state (mask : Z) : kstate :=
  KState {[ 16 := faulting_task mask ]} ∅ {[ 0xC0809000 := 0; 0xC0809004 := 0x8048010 ]} {[ 7 := [] ]} ∅
    {[ 0xC0500040 := ListEntry 0xC0500000 0 0 ]}
    {[ 0xC0500000 := area_example ]} memory_example 0xC0001000 (Vfs.Vfs 0 0 [] [] ∅ ∅ []) [] 0 16 true 0 1 [] 0 0 0 0
    [0xC0500080].
Lemma faulting_areas mask : areas_rep (task_vmm (faulting_state mask) (faulting_task mask)) [(0xC0500040, 0xC0500000)] [area_example].
Proof. destruct task_mapped_rep as [H1 H2 H3 H4 H5 H6]. by constructor. Qed.
