(* ===== verification/SysFork.v ===== *)
(** * SysFork: the fork system call, from the call to the child

    sys_fork and fork_task of kernel/proc.c put together: the child's memory
    (Fork), areas (Vmm), registers, files, signals and place in the tree of
    processes and in the scheduler's list. *)
From S2P Require Import Prelude CString DList Bitmap Pmm Paging Vmm Vfs Pipe.
From S2P Require Import UserMem UserSpace Fork Kernel Thread Signal Sched Elf Proc Fault.

(** ** Words of a stack that are copied *)
Lemma copy_words_out n : forall m dst src a,
  (forall k, 0 <= k < Z.of_nat n -> a <> dst + 4 * k) -> copy_words n m dst src !! a = m !! a.
Proof.
  induction n as [|n IH]; intros m dst src a Ha; [done|]. cbn [copy_words].
  rewrite IH by (intros k Hk; specialize (Ha (k + 1)); lia). specialize (Ha 0).
  destruct (m !! src); [apply lookup_insert_ne|apply lookup_delete_ne]; lia.
Qed.
Lemma copy_words_in n : forall m dst src k,
  (forall k j, 0 <= k < Z.of_nat n -> 0 <= j < Z.of_nat n -> dst + 4 * k <> src + 4 * j) ->
  0 <= k < Z.of_nat n -> copy_words n m dst src !! (dst + 4 * k) = m !! (src + 4 * k).
Proof.
  induction n as [|n IH]; intros m dst src k Hap Hk; [lia|]. cbn [copy_words].
  set (m' := match m !! src with Some v => <[dst := v]> m | None => delete dst m end).
  assert (Hm : forall a, m' !! a = if decide (a = dst) then m !! src else m !! a).
  { intros a. unfold m'. destruct (decide (a = dst)) as [->|], (m !! src).
    - apply lookup_insert_eq.
    - apply lookup_delete_eq.
    - by apply lookup_insert_ne.
    - by apply lookup_delete_ne. }
  destruct (decide (k = 0)) as [->|].
  - rewrite copy_words_out by lia. rewrite Hm, !Z.add_0_r. by destruct (decide (dst = dst)).
  - replace (dst + 4 * k) with (dst + 4 + 4 * (k - 1)) by lia. rewrite IH; [|intros i j Hi Hj; specialize (Hap (i + 1) (j + 1)); lia|lia].
    rewrite Hm. destruct (decide (src + 4 + 4 * (k - 1) = dst)) as [E|].
    + exfalso. apply (Hap 0 k); lia.
    + f_equal. lia.
Qed.

(** ** Areas that are pushed *)
Lemma run_push_area c t v e rest l ys s :
  k_tasks s !! c = Some t -> t_vm_areas t = Some l -> is_list (k_entries s) l ys ->
  k_fresh s = e :: rest -> e <> 0 -> e ∉ ys.*1 ->
  exists h l', push_area c v s = Some (Return tt, s <| k_entries := h |> <| k_fresh := rest |>
      <| k_tasks := <[c := t <| t_vm_areas := Some l' |>]> (k_tasks s) |>)
    /\ is_list h l' (ys ++ [(e, v)]) /\ forall b, b ∉ e :: ys.*1 -> h !! b = k_entries s !! b.
Proof.
  intros Ht Hl Hli Hf He Hni. destruct (push_is_list _ _ _ e v Hli He Hni) as (h&l'&Hp&Hli'&Ho).
  exists h, l'. split; [|done]. unfold push_area, on_vmm. kstep. kstep. cbn [vm_areas vm_fresh vm_entries].
  rewrite Hl, Hf. cbn [mbind option_bind]. rewrite Hp. cbn [mbind option_bind].
  kstep. kstep. cbn [vm_entries vm_store vm_fresh errno vm_pages vm_areas mmap_bump_idx].
  erewrite run_bind by (by apply run_on_task). unfold mret, K_ret. done.
Qed.
Lemma run_push_areas c vs : forall es t l ys s rest,
  k_tasks s !! c = Some t -> t_vm_areas t = Some l -> is_list (k_entries s) l ys ->
  k_fresh s = es ++ rest -> length es = length vs -> NoDup es -> (forall e, e ∈ es -> e <> 0 /\ e ∉ ys.*1) ->
  exists h l', for_each vs (push_area c) s = Some (Return tt, s <| k_entries := h |> <| k_fresh := rest |>
      <| k_tasks := <[c := t <| t_vm_areas := Some l' |>]> (k_tasks s) |>)
    /\ is_list h l' (ys ++ zip es vs) /\ forall b, b ∉ es -> b ∉ ys.*1 -> h !! b = k_entries s !! b.
Proof.
  induction vs as [|v vs IH]; intros [|e es] t l ys s rest Ht Hl Hli Hf Hlen Hnd Hes; try done.
  - exists (k_entries s), l. rewrite app_nil_r. split_and!; [|done|done]. cbn [for_each]. unfold mret, K_ret. do 2 f_equal.
    assert (t <| t_vm_areas := Some l |> = t) as -> by (by destruct t; cbn in *; subst).
    destruct s; cbn in *. subst. by rewrite insert_id.
  - apply NoDup_cons in Hnd as [Hne Hnd]. destruct (Hes e) as [He0 Hni]; [by left|].
    destruct (run_push_area c t v e (es ++ rest) l ys s) as (h&l1&Hrun&Hli1&Ho1); try done.
    cbn [for_each]. erewrite run_bind by exact Hrun.
    set (s1 := _ <| k_tasks := _ |>) in *. set (t1 := t <| t_vm_areas := Some l1 |>) in *.
    destruct (IH es t1 l1 (ys ++ [(e, v)]) s1 rest) as (h'&l'&Hrun'&Hli'&Ho'); try done.
    + unfold s1. apply lookup_insert_eq.
    + by injection Hlen.
    + intros e' He'. destruct (Hes e') as [? Hn]; [by right|]. split; [done|]. rewrite fmap_app.
      intros [?|Hin]%elem_of_app; [done|]. apply list_elem_of_singleton in Hin as ->. done.
    + exists h', l'. rewrite <- app_assoc in Hli'. split_and!; [|done|].
      * rewrite Hrun'. do 2 f_equal. unfold s1, t1. destruct s, t; cbn. by rewrite insert_insert_eq.
      * intros b Hb1 Hb2. rewrite Ho'; [|by intros ?; apply Hb1; right|].
        -- apply Ho1. intros [->|?]%elem_of_cons; [apply Hb1; by left|done].
        -- rewrite fmap_app. intros [?|Hin]%elem_of_app; [done|]. apply list_elem_of_singleton in Hin as ->. apply Hb1. by left.
Qed.

Lemma run_new_addr s a rest : k_fresh s = a :: rest -> new_addr s = Some (Return a, s <| k_fresh := rest |>).
Proof. intros H. unfold new_addr. by rewrite H. Qed.
Lemma list_values_chain h xs : forall fuel p, chain h p xs 0 -> (length xs < fuel)%nat -> list_values fuel h (hd_or 0 xs) = Some xs.*2.
Proof.
  induction xs as [|[a v] xs IH]; intros [|fuel] p Hc Hf; simpl in Hf; try lia; [done|].
  destruct Hc as (Ha&Hh&Hc). cbn [list_values hd_or]. destruct (Z.eqb_spec a 0); [done|]. rewrite Hh.
  cbn [mbind option_bind le_next le_value]. rewrite (IH fuel a Hc ltac:(lia)). done.
Qed.
Lemma run_bind_assoc {A B C} (x : K A) (f : A -> K B) (g : B -> K C) s : ((x ≫= f) ≫= g) s = (x ≫= fun a => f a ≫= g) s.
Proof. unfold mbind, K_bind. destruct (x s) as [[[]?]|]; done. Qed.

(** The areas of a task whose entries are untouched, and those of a task with
    entries of its own for the same areas. *)
Lemma areas_rep_frame v v' xs areas :
  areas_rep v xs areas -> vm_areas v' = vm_areas v -> (forall b, b ∈ xs.*1 -> vm_entries v' !! b = vm_entries v !! b) ->
  vm_store v' = vm_store v -> NoDup (vm_fresh v') -> (forall b, b ∈ vm_fresh v' -> b ∈ vm_fresh v) -> areas_rep v' xs areas.
Proof.
  intros [H1 H2 H3 H4 H5 [_ H6]] Ha He Hs Hnd Hf. constructor; rewrite ?Ha, ?Hs; try done.
  - destruct (vm_areas v); [|done]. destruct H1 as (Hc&?). split; [|done]. by eapply chain_ext.
  - split; [done|]. intros b Hb. by apply H6, Hf.
Qed.
Lemma areas_rep_copied v v' xs es areas l :
  areas_rep v xs areas -> vm_areas v' = Some l -> is_list (vm_entries v') l (zip es xs.*2) -> length es = length xs ->
  vm_store v' = vm_store v -> NoDup (vm_fresh v') ->
  (forall b, b ∈ vm_fresh v' -> b ∈ vm_fresh v /\ b ∉ es) -> areas_rep v' (zip es xs.*2) areas.
Proof.
  intros [H1 H2 H3 H4 H5 [_ H6]] Ha (Hc&Hnd&Hf&Hla&_) Hlen Hs Hndf Hfr.
  assert (E1 : (zip es xs.*2).*1 = es) by (apply fst_zip; rewrite length_fmap; lia).
  assert (E2 : (zip es xs.*2).*2 = xs.*2) by (apply snd_zip; rewrite length_fmap; lia).
  constructor; rewrite ?Hs, ?E2; try done.
  - rewrite Ha. by split_and!.
  - assert (Hst : Forall2 (fun b a => vm_store v !! b = Some a) xs.*2 areas) by (by apply Forall2_fmap_l).
    rewrite <- E2 in Hst. by apply Forall2_fmap_l in Hst.
  - rewrite E1. split; [done|]. intros b Hb. destruct (Hfr b Hb) as [Hb1 Hb2]. by destruct (H6 b Hb1) as (?&?&?).
Qed.

(** ** The child *)
Section fork.
  Context (open_path : vfs -> list Z -> option (vfs * Z)) (junk_task : task) (junk_process : process).
  (** The addresses that are allocated: the task, its signal queue, its kernel
      stack, an entry for each area, the file table, the process, its entry in
      its parent and the task's entry in the scheduler. *)
  Context (m q stk : Z) (es : list Z) (ft p e e2 : Z).

Definition forked_regs (me : task) : Z := u32 (stk + KSTACK_SIZE) - (kernel_esp me - t_regs me).
Definition forked (me : task) (parent d : Z) (l : clist) : task :=
  Task (t_name me) (t_state me) (thid me) stk (u32 (stk + KSTACK_SIZE)) (t_stack junk_task) d (t_mmap_bump_idx me)
    (forked_regs me) (gs_base me) (fs_base me) (running_time junk_task) (wake_time junk_task) (t_entry me) ft (Some l)
    (signal_handlers me) (signal_mask_current me) (signal_mask me) (signal_queue me) parent (t_process me) 0.
Definition fresh_files (tty : Z) (files : list Z) : list Z := clone_files ([tty; tty; tty] ++ replicate 253 0) files.

Definition dummy_task : task :=
  Task (t_name junk_task) (t_state junk_task) (thid junk_task) stk (u32 (stk + KSTACK_SIZE)) (t_stack junk_task) (t_pgd junk_task)
    0 (t_regs junk_task) 0 0 (running_time junk_task) (wake_time junk_task) (t_entry junk_task) (t_filetable junk_task)
    (Some list_init) (replicate 34 no_handler) 0 0 q (t_parent junk_task) (t_process junk_task) (sched_entry junk_task).
Lemma run_create_dummy_task s l : k_fresh s = m :: q :: stk :: l ->
  create_dummy_task junk_task s = Some (Return m,
    s <| k_fresh := l |> <| k_queues := <[q := []]> (k_queues s) |> <| k_tasks := <[m := dummy_task]> (k_tasks s) |>).
Proof.
  intros Hfr. unfold create_dummy_task, alloc_kernel_stack, put_queue, put_task.
  erewrite run_bind by (apply run_new_addr; exact Hfr).
  erewrite run_bind by (apply run_new_addr; reflexivity). kstep. kstep.
  rewrite !run_bind_assoc. erewrite run_bind by (apply run_new_addr; reflexivity).
  erewrite run_bind by (apply run_on_task, lookup_insert_eq). unfold mret, K_ret. do 2 f_equal.
  destruct s. cbn. by rewrite insert_insert_eq.
Qed.
Lemma run_new_filetable s l v tty : k_fresh s = ft :: l ->
  open_path (k_vfs s) (cstring (str "/dev/tty0")) = Some (v, tty) ->
  new_filetable open_path s = Some (Return ft,
    s <| k_fresh := l |> <| k_vfs := v |> <| k_ftables := <[ft := [tty; tty; tty] ++ replicate 253 0]> (k_ftables s) |>).
Proof.
  intros Hfr Hopen. unfold new_filetable. erewrite run_bind by (apply run_new_addr; exact Hfr).
  unfold task_setup_filetable, open_file. rewrite !run_bind_assoc. kstep.
  rewrite !run_bind_assoc. erewrite run_bind by (apply run_opt; exact Hopen). cbv beta iota.
  rewrite !run_bind_assoc. kstep. done.
Qed.

Lemma run_fork_task rest s c me v tty files l xs pg d :
  k_tasks s !! c = Some me -> m <> c ->
  k_fresh s = m :: q :: stk :: es ++ ft :: rest ->
  open_path (k_vfs s) (cstring (str "/dev/tty0")) = Some (v, tty) ->
  k_ftables s !! t_filetable me = Some files -> t_filetable me <> ft ->
  t_vm_areas me = Some l -> is_chain (k_entries s) l xs -> length es = length xs ->
  NoDup es -> (forall b, b ∈ es -> b <> 0) ->
  clone_pgd (k_pages s) (t_pgd me) = Some (pg, d) ->
  exists h l', fork_task open_path junk_task c s = Some (Return m, s <| k_fresh := rest |> <| k_queues := <[q := []]> (k_queues s) |> <| k_pages := pg |> <| k_entries := h |>
        <| k_vfs := v |> <| k_ftables := <[ft := fresh_files tty files]> (<[ft := [tty; tty; tty] ++ replicate 253 0]> (k_ftables s)) |>
        <| k_stacks := <[forked_regs me + reg_offset eax := 0]>
             (copy_words (Z.to_nat (KSTACK_SIZE / 4)) (k_stacks s) stk (kernel_stack me)) |>
        <| k_tasks := <[m := forked me c d l']> (k_tasks s) |>)
    /\ is_list h l' (zip es xs.*2) /\ forall b, b ∉ es -> h !! b = k_entries s !! b.
Proof.
  intros Hme Hmc Hfr Hopen Hfiles Hft Hl (Hch&Hnd&Hfst&_) Hlen Hes Hes0 Hpgd.
  assert (Hvs : forall s', k_entries s' = k_entries s ->
    list_values (S (base.size (k_entries s'))) (k_entries s') (l_first l) = Some xs.*2).
  { intros s' ->. rewrite Hfst. apply (list_values_chain _ _ _ 0 Hch). pose proof (chain_size _ _ _ _ Hch Hnd). lia. }
  unfold fork_task. erewrite run_bind by (apply run_create_dummy_task; exact Hfr).
  erewrite run_bind by (apply run_reads; cbn; rewrite lookup_insert_ne by done; exact Hme). kstep.
  erewrite run_bind by (apply run_opt; exact Hpgd). cbv beta iota. kstep.
  erewrite run_bind by (apply run_on_task, lookup_insert_eq). kstep.
  erewrite run_bind by (apply run_opt; exact Hl).
  erewrite run_bind by (apply run_opt, Hvs; reflexivity).
  lazymatch goal with |- context [(for_each _ _ ≫= _) ?st] => set (s1 := st) end.
  destruct (run_push_areas m xs.*2 es (dummy_task <| t_name := t_name me |> <| t_state := t_state me |> <| thid := thid me |>
     <| t_pgd := d |> <| t_entry := t_entry me |> <| t_process := t_process me |> <| sched_entry := 0 |>
     <| t_vm_areas := Some list_init |>) list_init [] s1 (ft :: rest)) as (h&l'&Hrun&Hli&Ho); try done.
  { apply lookup_insert_eq. }
  { split_and!; [done|constructor|done..]. }
  { by rewrite length_fmap. }
  { intros b Hb. split; [by apply Hes0|apply not_elem_of_nil]. }
  exists h, l'. split; [|split; [exact Hli|]].
  2:{ intros b Hb. apply Ho; [done|apply not_elem_of_nil]. }
  erewrite run_bind by exact Hrun. erewrite run_bind by (apply run_on_task, lookup_insert_eq).
  erewrite run_bind by (eapply run_new_filetable; [reflexivity|exact Hopen]).
  erewrite run_bind by (apply run_on_task, lookup_insert_eq).
  unfold task_clone_filetable. rewrite !run_bind_assoc. kstep.
  rewrite !run_bind_assoc. erewrite run_bind by (apply run_opt, lookup_insert_eq).
  rewrite !run_bind_assoc. erewrite run_bind by (apply run_opt; etrans; [by apply lookup_insert_ne|exact Hfiles]).
  unfold put_ftable. kstep. 
  erewrite run_bind by (apply run_reads, lookup_insert_eq).
  unfold copy_kstack. kstep. erewrite run_bind by (apply run_on_task, lookup_insert_eq).
  unfold put_reg, put_stack_word. kstep. unfold mret, K_ret. unfold s1.
  generalize (Z.to_nat (KSTACK_SIZE / 4)). intros n. destruct s, me. cbn. rewrite !insert_insert_eq. reflexivity.
Qed.

(** ** The call *)
Definition next_pid (s : kstate) : Z := match free_pid s with pid :: _ => pid | [] => current_pid s end.
Definition pid_taken (s : kstate) : kstate :=
  s <| free_pid := tail (free_pid s) |>
    <| current_pid := match free_pid s with [] => s32 (current_pid s + 1) | _ => current_pid s end |>.
Lemma run_generate_pid s : generate_pid s = Some (Return (next_pid s), pid_taken s).
Proof.
  unfold generate_pid. kstep. unfold next_pid, pid_taken.
  destruct s as [? ? ? ? ? ? ? ? ? ? ? ? ? ? ? cp [|a fp] ? ? ? ? ?]; reflexivity.
Qed.
Definition child_process (me : task) (pa : process) (pid : Z) : process :=
  Process pid (p_filepath pa) (p_cwd pa) (p_argv junk_process) (p_envp junk_process) PROCESS_RUNNING (exit_code junk_process)
    (p_signal junk_process) (t_process me) e [] [m] ft.

Lemma run_sys_fork rest s me pa v tty files l xs pg d :
  k_tasks s !! current_task s = Some me -> m <> current_task s ->
  k_procs s !! t_process me = Some pa -> p <> t_process me ->
  k_fresh s = m :: q :: stk :: es ++ ft :: p :: e :: e2 :: rest ->
  open_path (k_vfs s) (cstring (str "/dev/tty0")) = Some (v, tty) ->
  k_ftables s !! t_filetable me = Some files -> t_filetable me <> ft ->
  t_vm_areas me = Some l -> is_chain (k_entries s) l xs -> length es = length xs ->
  NoDup es -> (forall b, b ∈ es -> b <> 0) ->
  clone_pgd (k_pages s) (t_pgd me) = Some (pg, d) ->
  exists h l', sys_fork open_path junk_task junk_process s = Some (Return (next_pid s),
      pid_taken s <| k_fresh := rest |> <| k_queues := <[q := []]> (k_queues s) |> <| k_pages := pg |> <| k_entries := h |>
        <| k_vfs := v |> <| k_ftables := <[ft := fresh_files tty files]> (<[ft := [tty; tty; tty] ++ replicate 253 0]> (k_ftables s)) |>
        <| k_stacks := <[forked_regs me + reg_offset eax := 0]>
             (copy_words (Z.to_nat (KSTACK_SIZE / 4)) (k_stacks s) stk (kernel_stack me)) |>
        <| k_procs := <[t_process me := pa <| children := children pa ++ [(e, p)] |>]>
             (<[p := child_process me pa (next_pid s)]> (k_procs s)) |>
        <| tasklist := tasklist s ++ [(e2, m)] |>
        <| k_tasks := <[m := (forked me (current_task s) d l') <| t_process := p |> <| t_state := TASK_STARTING |>
             <| sched_entry := e2 |>]> (k_tasks s) |>)
    /\ is_list h l' (zip es xs.*2) /\ forall b, b ∉ es -> h !! b = k_entries s !! b.
Proof.
  intros Hme Hmc Hpa Hpp Hfr Hopen Hfiles Hft Hl Hch Hlen Hes Hes0 Hpgd.
  destruct (run_fork_task (p :: e :: e2 :: rest) s (current_task s) me v tty files l xs pg d) as (h&l'&Hrun&Hli&Ho); try done.
  exists h, l'. split; [|done]. unfold sys_fork. kstep. erewrite run_bind by exact Hrun.
  erewrite run_bind by (apply run_reads; etrans; [by apply lookup_insert_ne|exact Hme]).
  erewrite run_bind by (apply run_new_addr; reflexivity).
  erewrite run_bind by (apply run_on_task, lookup_insert_eq). erewrite run_bind by apply run_generate_pid.
  erewrite run_bind by (apply run_reads, lookup_insert_eq).
  erewrite run_bind by (apply run_reads; exact Hpa).
  erewrite run_bind by (apply run_new_addr; reflexivity). unfold put_proc. kstep.
  erewrite run_bind by (apply run_on_proc; etrans; [by apply lookup_insert_ne|exact Hpa]).
  unfold sched_add. rewrite !run_bind_assoc. erewrite run_bind by (apply run_new_addr; reflexivity).
  rewrite !run_bind_assoc. kstep. erewrite run_bind by (apply run_on_task, lookup_insert_eq).
  unfold put_reg, put_stack_word. kstep. unfold mret, K_ret.
  generalize (Z.to_nat (KSTACK_SIZE / 4)). intros n. destruct s, me. cbn. rewrite !insert_insert_eq. reflexivity.
Qed.

(** ** Registers and files of the child *)
Lemma fresh_files_get tty files i : zlen files = TASK_FILETABLE_MAX -> 0 <= i < TASK_FILETABLE_MAX ->
  get 0 (fresh_files tty files) i = if get 0 files i =? 0 then (if i <? 3 then tty else 0) else get 0 files i.
Proof.
  unfold TASK_FILETABLE_MAX. intros Hl Hi. pose proof (get_lookup 0 files i ltac:(lia)) as Hf.
  set (dst := [tty; tty; tty] ++ replicate 253 0). assert (Hdl : zlen dst = 256) by done.
  pose proof (get_lookup 0 dst i ltac:(lia)) as Hd.
  assert (Hz : fresh_files tty files !! Z.to_nat i = Some (if get 0 files i =? 0 then get 0 dst i else get 0 files i))
    by (unfold fresh_files, clone_files; fold dst; by rewrite lookup_zip_with, Hf, Hd).
  assert (Hg : get 0 dst i = if i <? 3 then tty else 0).
  { unfold dst. destruct (i <? 3) eqn:E.
    - assert (i = 0 \/ i = 1 \/ i = 2) as [->|[->| ->]] by lia; done.
    - rewrite get_app_r by (change (zlen [tty; tty; tty]) with 3; lia). apply get_replicate. }
  rewrite <- Hg. assert (Hlt : 0 <= i < zlen (fresh_files tty files)).
  { split; [lia|]. apply lookup_lt_Some in Hz. unfold zlen. lia. }
  pose proof (get_lookup 0 _ i Hlt). congruence.
Qed.
Lemma forked_stack st me :
  kernel_esp me = kernel_stack me + KSTACK_SIZE -> 0 <= stk -> stk + KSTACK_SIZE < 2 ^ 32 ->
  (exists j, 0 <= j /\ t_regs me = kernel_stack me + 4 * j /\ t_regs me + REGISTERS_SIZE <= kernel_esp me) ->
  (stk + KSTACK_SIZE <= kernel_stack me \/ kernel_stack me + KSTACK_SIZE <= stk) ->
  let st' := <[forked_regs me + reg_offset eax := 0]> (copy_words (Z.to_nat (KSTACK_SIZE / 4)) st stk (kernel_stack me)) in
  (forall r, st' !! (forked_regs me + reg_offset r) = if decide (r = eax) then Some 0 else st !! (t_regs me + reg_offset r))
  /\ (forall a, a < stk \/ stk + KSTACK_SIZE <= a -> st' !! a = st !! a).
Proof.
  assert (Hks : KSTACK_SIZE = 40960) by done. unfold REGISTERS_SIZE. rewrite Hks.
  intros He Hs0 Hs1 (j&Hj&Hr&Hrl) Hd. set (n := Z.to_nat (40960 / 4)).
  assert (Hn : Z.of_nat n = 10240) by done. clearbody n.
  assert (Hfr : forked_regs me = stk + 4 * j) by (unfold forked_regs; rewrite Hks, u32_id by lia; lia).
  rewrite Hfr. split.
  - intros r. assert (Hro : exists k, reg_offset r = 4 * k /\ 0 <= k < 20).
    { exists (reg_offset r / 4). by destruct r. }
    destruct Hro as (k&Hk&Hkr). destruct (decide (r = eax)) as [->|Hne]; [apply lookup_insert_eq|].
    assert (reg_offset eax <> reg_offset r) by (by destruct r).
    rewrite lookup_insert_ne by lia. rewrite Hk. replace (stk + 4 * j + 4 * k) with (stk + 4 * (j + k)) by lia.
    rewrite copy_words_in by lia. f_equal. lia.
  - intros a Ha. rewrite lookup_insert_ne by (cbn [reg_offset]; lia). apply copy_words_out. lia.
Qed.

(** ** What fork needs *)
Record forkable (rest : list Z) (s : kstate) (me : task) (pa : process) (v : vfs) (tty : Z) (files : list Z) (l : clist)
    (xs : list (Z * Z)) (areas : list vm_area) (pages slots : list Z) : Prop := Forkable {
  fk_task : k_tasks s !! current_task s = Some me /\ m <> current_task s;
  fk_process : k_procs s !! t_process me = Some pa /\ p <> t_process me;
  fk_fresh : k_fresh s = m :: q :: stk :: es ++ ft :: p :: e :: e2 :: rest /\ NoDup (k_fresh s) /\ length es = length xs;
  fk_files : open_path (k_vfs s) (cstring (str "/dev/tty0")) = Some (v, tty)
    /\ k_ftables s !! t_filetable me = Some files /\ zlen files = TASK_FILETABLE_MAX /\ t_filetable me <> ft;
  fk_areas : t_vm_areas me = Some l /\ areas_rep (task_vmm s me) xs areas;
  (** The registers are in the kernel stack, the new one is another. *)
  fk_stack : kernel_esp me = kernel_stack me + KSTACK_SIZE /\ 0 <= stk /\ stk + KSTACK_SIZE < 2 ^ 32
    /\ (exists j, 0 <= j /\ t_regs me = kernel_stack me + 4 * j /\ t_regs me + REGISTERS_SIZE <= kernel_esp me)
    /\ (exists j, stk = kernel_stack me + 4 * j)
    /\ (stk + KSTACK_SIZE <= kernel_stack me \/ kernel_stack me + KSTACK_SIZE <= stk);
  (** The memory, and room for its copy. *)
  fk_space : task_space (k_pages s) (t_pgd me)
    /\ (forall k, 0 <= k < 768 -> word (k_pages s) (t_pgd me) k <> 0 -> table_of (k_pages s) (t_pgd me) k <> 0);
  fk_pages : forall x, user_addr x -> entry (k_pages s) (t_pgd me) x <> 0 -> x / 4096 ∈ pages;
  fk_slots : forall k, 0 <= k < 768 -> word (k_pages s) (t_pgd me) k <> 0 -> k ∈ slots;
  fk_room : zlen slots + 1 <= zlen (ps_fresh (k_pages s)) /\ frames_left (ps_pmm (k_pages s)) (zlen pages)
}.

(** ** What fork makes: [child] is a copy of [me], a process of its own *)
Record is_fork (s s' : kstate) (me child : task) (pa : process) (tty : Z) (files : list Z) (areas : list vm_area) (pid : Z) : Prop := IsFork {
  if_tasks : k_tasks s' !! m = Some child /\ k_tasks s' !! current_task s = Some me
    /\ current_task s' = current_task s /\ cr3 s' = cr3 s;
  (** The same memory, and from now on each its own. *)
  if_memory : forall x, user_addr x ->
    space_load (Space (t_pgd child) (k_pages s')) x = space_load (Space (t_pgd me) (k_pages s)) x
    /\ space_load (Space (t_pgd me) (k_pages s')) x = space_load (Space (t_pgd me) (k_pages s)) x;
  if_apart : forall x y b sp, user_addr x -> user_addr y ->
    (space_store (Space (t_pgd child) (k_pages s')) x b = Some sp ->
       space_load (Space (t_pgd me) (sp_pages sp)) y = space_load (Space (t_pgd me) (k_pages s')) y)
    /\ (space_store (Space (t_pgd me) (k_pages s')) x b = Some sp ->
       space_load (Space (t_pgd child) (sp_pages sp)) y = space_load (Space (t_pgd child) (k_pages s')) y);
  if_spaces : task_space (k_pages s') (t_pgd child) /\ task_space (k_pages s') (t_pgd me);
  (** The same registers but for the result; the stacks in use are unchanged. *)
  if_regs : forall r, k_stacks s' !! (t_regs child + reg_offset r)
    = if decide (r = eax) then Some 0 else k_stacks s !! (t_regs me + reg_offset r);
  if_stacks : forall a, a < stk \/ stk + KSTACK_SIZE <= a -> k_stacks s' !! a = k_stacks s !! a;
  if_areas : (exists xs', areas_rep (task_vmm s' child) xs' areas) /\ exists xs, areas_rep (task_vmm s' me) xs areas;
  (** The same files; of the first three, one that is closed becomes the terminal. *)
  if_files : exists files', k_ftables s' !! t_filetable child = Some files'
    /\ (forall i, 0 <= i < TASK_FILETABLE_MAX -> get 0 files' i
         = if get 0 files i =? 0 then (if i <? 3 then tty else 0) else get 0 files i)
    /\ k_ftables s' !! t_filetable me = Some files;
  if_signals : signal_handlers child = signal_handlers me /\ signal_mask child = signal_mask me
    /\ signal_mask_current child = signal_mask_current me /\ signal_queue child = signal_queue me;
  if_process : exists pr, k_procs s' !! t_process child = Some pr /\ p_pid pr = pid /\ p_state pr = PROCESS_RUNNING
    /\ p_parent pr = t_process me /\ threads pr = [m] /\ children pr = [] /\ p_cwd pr = p_cwd pa
    /\ p_filepath pr = p_filepath pa /\ p_filetable pr = t_filetable child
    /\ k_procs s' !! t_process me = Some (pa <| children := children pa ++ [(parent_entry pr, t_process child)] |>);
  if_scheduled : t_state child = TASK_STARTING /\ tasklist s' = tasklist s ++ [(sched_entry child, m)]
}.
End fork.

(** C37: [sys_fork] from a task in order and with memory left.  It returns the
    number of a new process, a running child of the caller with the caller's
    path, directory, files and signal handlers; its one task is scheduled, has
    the caller's registers with 0 for the result, the caller's memory areas,
    and memory that reads the same everywhere in the user's half; the caller
    and what it sees are unchanged, and no later store of one of them is seen
    by the other. *)
Theorem sys_fork_duplicates open_path junk_task junk_process m q stk es ft p e e2 rest s me pa v tty files l xs areas pages slots :
  forkable open_path m q stk es ft p e e2 rest s me pa v tty files l xs areas pages slots ->
  exists s' child, sys_fork open_path junk_task junk_process s = Some (Return (next_pid s), s')
    /\ is_fork m stk s s' me child pa tty files areas (next_pid s).
Proof.
  intros [[F1 F2] [F3 F4] (F5&F6&F7) (F8&F9&F10&F11) [F12 F13] (F14&F15&F16&F17&F18&F19) [F20 F21] F22 F23 [F24 F25]].
  pose proof (ar_list _ _ _ F13) as Hch. cbn [vm_areas task_vmm] in Hch. rewrite F12 in Hch. cbn [vm_entries task_vmm] in Hch.
  assert (Hnd : NoDup (es ++ ft :: p :: e :: e2 :: rest)).
  { rewrite F5 in F6. apply NoDup_cons in F6 as [_ F6]. apply NoDup_cons in F6 as [_ F6]. by apply NoDup_cons in F6 as [_ F6]. }
  assert (Hin : forall b, b ∈ es ++ ft :: p :: e :: e2 :: rest -> b ∈ k_fresh s) by (intros b Hb; rewrite F5; do 3 right; done).
  destruct (ar_fresh _ _ _ F13) as [_ Hfresh]. cbn [vm_fresh task_vmm] in Hfresh.
  pose proof Hnd as Hnd'. apply NoDup_app in Hnd' as (Hes&Hdis&Hrest).
  do 4 apply NoDup_cons in Hrest as [? Hrest].
  destruct (clone_pgd_copies (k_pages s) (t_pgd me) pages slots F20 F21 F22 F23 F24 F25)
    as (pg&d&Hpgd&Hsp1&Hsp2&Hmem&_&Hap).
  destruct (run_sys_fork open_path junk_task junk_process m q stk es ft p e e2 rest s me pa v tty files l xs pg d)
    as (h&l'&Hrun&Hli&Ho); try done.
  { intros b Hb. apply Hfresh, Hin, elem_of_app. by left. }
  destruct (forked_stack stk (k_stacks s) me F14 F15 F16 F17 F19) as [Hregs Hstacks].
  lazymatch type of Hrun with _ = Some (_, ?st) => exists st end.
  exists ((forked junk_task stk ft me (current_task s) d l') <| t_process := p |> <| t_state := TASK_STARTING |> <| sched_entry := e2 |>).
  split; [exact Hrun|]. clear Hrun. set (n := Z.to_nat (KSTACK_SIZE / 4)) in *. clearbody n.
  constructor.
  - split_and!; [apply lookup_insert_eq|etrans; [by apply lookup_insert_ne|exact F1]|done|done].
  - intros x Hx. by destruct (Hmem x Hx) as (?&?&_).
  - exact Hap.
  - done.
  - exact Hregs.
  - exact Hstacks.
  - split.
    + exists (zip es xs.*2). apply (areas_rep_copied (task_vmm s me) _ _ _ _ l'); try done; cbn [vm_fresh task_vmm].
      intros b Hb. assert (Hb' : b ∈ ft :: p :: e :: e2 :: rest) by (do 4 right; exact Hb).
      split; [apply Hin, elem_of_app; by right|]. intros Hbe. by apply (Hdis b).
    + exists xs. apply (areas_rep_frame (task_vmm s me)); try done; cbn [vm_fresh vm_entries task_vmm].
      * intros b Hb. apply Ho. intros Hbe. by destruct (Hfresh b) as (_&?&_); [apply Hin, elem_of_app; left|].
      * intros b Hb. apply Hin, elem_of_app. right. do 4 right. exact Hb.
  - exists (fresh_files tty files). split_and!.
    + apply lookup_insert_eq.
    + intros i Hi. by apply fresh_files_get.
    + etrans; [by apply lookup_insert_ne|]. etrans; [by apply lookup_insert_ne|exact F9].
  - done.
  - exists (child_process junk_process m ft e me pa (next_pid s)). split_and!; try done.
    + etrans; [by apply lookup_insert_ne|apply lookup_insert_eq].
    + apply lookup_insert_eq.
  - done.
Qed.

(** A task with a page and an area. *)
Definition forking_task : task :=
  Task [0] TASK_RUNNING 5 0xC0800000 0xC080A000 0 0xC0001000 0 0xC0809FB0 0 0 0 0 0 7
    (Some (CList 0xC0500040 0xC0500040 1)) [] 0 0 8 0 9 0.
Definition forking_process : process := Process 1 (cstring (str "/init")) [47; 0] 0 0 PROCESS_RUNNING 0 0 0 0 [] [16] 7.
Definition forking_state : kstate :=
  KState {[ 16 := forking_task ]} {[ 9 := forking_process ]} {[ 0xC0809FDC := 2; 0xC0809FEC := 0x401234 ]} ∅
    {[ 7 := 3 :: replicate 255 0 ]} {[ 0xC0500040 := ListEntry 0xC0500000 0 0 ]} {[ 0xC0500000 := area_example ]}
    fork_example 0xC0001000 (Vfs.Vfs 0 0 [] [] ∅ ∅ []) [] 0 16 true 0 2 [] 0 0 0 0 [20; 21; 0xC0900000; 22; 23; 24; 25; 26].
Lemma forking_ok : forkable (fun v _ => Some (v, 4)) 20 21 0xC0900000 [22] 23 24 25 26 [] forking_state forking_task
  forking_process (Vfs.Vfs 0 0 [] [] ∅ ∅ []) 4 (3 :: replicate 255 0) (CList 0xC0500040 0xC0500040 1)
  [(0xC0500040, 0xC0500000)] [area_example] [0x401] [1].
Proof.
  destruct fork_example_space as (Hsp&Hfl&Hfr&Hp).
  constructor.
  - done.
  - done.
  - split_and!; [done| |done]. apply (bool_decide_unpack _). by vm_compute.
  - done.
  - split; [done|]. destruct task_mapped_rep as [H1 H2 H3 H4 H5 H6]. constructor; try done.
    split; [apply (bool_decide_unpack _); by vm_compute|]. intros b Hb.
    assert (Hall : Forall (fun b => b <> 0 /\ b <> 0xC0500040 /\ b <> 0xC0500000) (k_fresh forking_state))
      by (apply (bool_decide_unpack _); by vm_compute).
    rewrite Forall_forall in Hall. destruct (Hall b Hb) as (?&?&?).
    split_and!; [done|by intros ->%list_elem_of_singleton..].
  - unfold REGISTERS_SIZE. change KSTACK_SIZE with 40960. cbn [kernel_esp kernel_stack t_regs forking_task].
    split_and!; try lia; [exists 10220; lia|exists 262144; lia].
  - split; [exact Hsp|]. intros k Hk Hw. exact (proj1 (fork_example_slots k Hk Hw)).
  - exact Hp.
  - intros k Hk Hw. exact (proj2 (fork_example_slots k Hk Hw)).
  - split; [exact Hfr|exact Hfl].
Qed.
Lemma sys_fork_duplicates_witness :
  exists s' child, sys_fork (fun v _ => Some (v, 4)) forking_task forking_process forking_state = Some (Return 2, s')
    /\ space_load (Space (t_pgd child) (k_pages s')) 0x401234 = Some 7
    /\ k_stacks s' !! (t_regs child + reg_offset eip) = Some 0x401234
    /\ k_stacks s' !! (t_regs child + reg_offset eax) = Some 0.
Proof.
  destruct (sys_fork_duplicates _ forking_task forking_process _ _ _ _ _ _ _ _ _ _ _ _ _ _ _ _ _ _ _ _ forking_ok)
    as (s'&child&Hrun&[_ H2 _ _ H5 _ _ _ _ _ _]).
  exists s', child. split; [exact Hrun|]. split_and!.
  - rewrite (proj1 (H2 0x401234 ltac:(unfold user_addr, VIRT_BASE; lia))). by vm_compute.
  - rewrite H5. by vm_compute.
  - rewrite H5. by vm_compute.
Defined.
