(* ===== verification/Ports.v ===== *)
(** * Ports: io/ports.c and include/depthos/ports.h

    The I/O ports of the processor.  What is behind a port is not part of the
    kernel: [PortDevice] gives the value that a read returns and what reads
    and writes do to the hardware.  A driver is a program of the monad [P]
    over any such device; what it relies on of its hardware is a class of laws
    beside the driver.  [None]: the kernel panicked, or a polling loop used
    up its fuel. *)
From S2P Require Import Prelude.

Inductive width := W8 | W16 | W32.
Definition trunc (w : width) (v : Z) : Z := match w with W8 => u8 v | W16 => u16 v | W32 => u32 v end.

Class PortDevice (D : Type) := {
  port_in : width -> Z -> D -> Z * D;
  port_out : width -> Z -> Z -> D -> D
}.

Definition P (D A : Type) := D -> option (A * D).
#[global] Instance P_ret {D} : MRet (P D) := fun A a d => Some (a, d).
#[global] Instance P_bind {D} : MBind (P D) := fun A B f m d => '(a, d) ← m d; f a d.
Definition panicf {D A} : P D A := fun _ => None.

Section ports.
  Context {D : Type} `{PortDevice D}.

Definition in_ (w : width) (port : Z) : P D Z := fun d => let '(v, d) := port_in w (u16 port) d in Some (trunc w v, d).
Definition out (w : width) (port v : Z) : P D unit := fun d => Some (tt, port_out w (u16 port) (trunc w v) d).
Definition inb := in_ W8.
Definition inw := in_ W16.
Definition inl := in_ W32.
Definition outb := out W8.
Definition outw := out W16.
Definition outl := out W32.

(** [for (i = 0; i < n; i++) body]. *)
Fixpoint repeat_p (n : nat) (body : P D unit) : P D unit :=
  match n with O => mret () | S n => body ≫= fun _ => repeat_p n body end.
Definition iowait (microseconds : Z) : P D unit := repeat_p (Z.to_nat (s32 microseconds)) (inb 0x80 ≫= fun _ => mret ()).

(** A table of writes, in order. *)
Fixpoint out_all (ws : list (Z * Z)) : P D unit :=
  match ws with [] => mret () | (port, v) :: ws => outb port v ≫= fun _ => out_all ws end.
End ports.
Arguments P_ret {D} A /.
Arguments P_bind {D} A B / f m.

(** ** Total correctness: the program returns, in a state of the postcondition *)
Definition returns {D A} (pre : D -> Prop) (m : P D A) (post : A -> D -> Prop) : Prop :=
  forall d, pre d -> exists a d', m d = Some (a, d') /\ post a d'.

Section returns.
  Context {D : Type} `{PortDevice D}.

Lemma r_ret {A} (a : A) (post : A -> D -> Prop) : returns (post a) (mret a) post.
Proof. intros d Hd. by exists a, d. Qed.
Lemma r_bind {A B} (m : P D A) (f : A -> P D B) pre mid post :
  returns pre m mid -> (forall a, returns (mid a) (f a) post) -> returns pre (m ≫= f) post.
Proof.
  intros Hm Hf d Hd. destruct (Hm d Hd) as (a & d1 & Em & H1).
  destruct (Hf a d1 H1) as (b & d2 & Ef & H2). exists b, d2. split; [|done].
  unfold mbind, P_bind. rewrite Em. exact Ef.
Qed.
Lemma r_weaken {A} (m : P D A) (pre pre' : D -> Prop) (post post' : A -> D -> Prop) :
  returns pre' m post' -> (forall d, pre d -> pre' d) -> (forall a d, post' a d -> post a d) -> returns pre m post.
Proof. intros Hm Hp Hq d Hd. destruct (Hm d (Hp d Hd)) as (a & d' & ? & ?). exists a, d'. eauto. Qed.
Lemma r_repeat n (body : P D unit) (I : D -> Prop) :
  returns I body (fun _ => I) -> returns I (repeat_p n body) (fun _ => I).
Proof.
  intros Hb. induction n as [|n IH]; simpl; [apply (r_ret () (fun _ => I))|].
  eapply r_bind; [exact Hb|]. intros []. exact IH.
Qed.
End returns.

(** ** A device that records what is written to it

    Reads are answered from a function of the port and of what was written
    before. *)
Record recorder := Recorder { answers : list (width * Z * Z) -> width -> Z -> Z; writes : list (width * Z * Z) }.
#[global] Instance recorder_ports : PortDevice recorder := {|
  port_in w p d := (answers d (writes d) w p, d);
  port_out w p v d := Recorder (answers d) (writes d ++ [(w, p, v)])
|}.
(** What the program writes on a device that answers every read with [f]. *)
Definition written {A} (f : list (width * Z * Z) -> width -> Z -> Z) (m : P recorder A) : option (A * list (width * Z * Z)) :=
  '(a, d) ← m (Recorder f []); Some (a, writes d).
