(* ===== verification/Pic.v ===== *)
(** * Pic: arch/x86/pic.c, include/depthos/pic.h

    The two interrupt controllers. *)
From S2P Require Import Prelude Ports.

Definition PIC_PRIMARY_CMD_PORT := 0x20.
Definition PIC_SECONDARY_CMD_PORT := 0xA0.
Definition PIC_PRIMARY_DATA_PORT := 0x21.
Definition PIC_SECONDARY_DATA_PORT := 0xA1.

Record pic_config := PicConfig {
  dirty_mask : bool; iowait_mode : bool; sfn_mode : bool; bufmode : bool; ps_bufmode : bool; auto_eoi : bool;
  mp_mode : bool; primary_offset : Z; secondary_offset : Z; sec_irq_line_num : Z; sconn_irq_line : Z; pic_mask : Z
}.

Section pic.
  Context {D : Type} `{PortDevice D}.

Definition pic_iowait : P D unit := outb 0x80 0.
Definition out_wait (cfg : pic_config) (port v : Z) : P D unit :=
  outb port v ≫= fun _ => if iowait_mode cfg then pic_iowait else mret ().

(** Bits of the last initialisation word. *)
Definition pic_icw4 (cfg : pic_config) : Z :=
  u8 (Z.lor (Z.lor (Z.lor (Z.lor (b2z (mp_mode cfg)) (Z.shiftl (b2z (auto_eoi cfg)) 1))
                     (Z.shiftl (b2z (bufmode cfg)) 2)) (Z.shiftl (b2z (ps_bufmode cfg)) 3))
        (Z.shiftl (b2z (sfn_mode cfg)) 4)).

(** The masks are [uint8_t]; [mask] is a [uint16_t] promoted to [int] before
    it is complemented. *)
Definition pic_masks (cfg : pic_config) : P D (Z * Z) :=
  if dirty_mask cfg then
    p ← inb PIC_PRIMARY_DATA_PORT;
    s ← inb PIC_SECONDARY_DATA_PORT;
    mret (u8 (Z.lor p (Z.land (Z.lnot (pic_mask cfg)) 0xFF)), u8 (Z.lor s (Z.shiftr (Z.lnot (pic_mask cfg)) 8)))
  else mret (u8 (Z.lnot (Z.land (pic_mask cfg) 0xFF)), u8 (Z.lnot (Z.shiftr (pic_mask cfg) 8))).

(** The result is the configuration that becomes [current_pic_config]. *)
Definition pic_init (cfg : pic_config) : P D pic_config :=
  '(primary_mask, secondary_mask) ← pic_masks cfg;
  _ ← out_wait cfg PIC_PRIMARY_CMD_PORT 0x11;
  _ ← out_wait cfg PIC_SECONDARY_CMD_PORT 0x11;
  _ ← out_wait cfg PIC_PRIMARY_DATA_PORT (primary_offset cfg);
  _ ← out_wait cfg PIC_SECONDARY_DATA_PORT (secondary_offset cfg);
  _ ← out_wait cfg PIC_PRIMARY_DATA_PORT (sconn_irq_line cfg);
  _ ← out_wait cfg PIC_SECONDARY_DATA_PORT (sec_irq_line_num cfg);
  _ ← out_wait cfg PIC_PRIMARY_DATA_PORT (pic_icw4 cfg);
  _ ← out_wait cfg PIC_SECONDARY_DATA_PORT (pic_icw4 cfg);
  _ ← out_wait cfg PIC_PRIMARY_DATA_PORT primary_mask;
  _ ← out_wait cfg PIC_SECONDARY_DATA_PORT secondary_mask;
  mret cfg.

Definition pic_eoi (current_pic_config : pic_config) (int_num : Z) : P D unit :=
  if auto_eoi current_pic_config then mret () else
  _ ← (if 40 <=? int_num then outb 0xA0 0x20 else mret ());
  outb 0x20 0x20.
End pic.

(** ** The controller as documented

    A controller in its initialisation sequence takes the words at its data
    port as the vector offset, the cascade and the mode; then the data port
    is the mask.  [isr] are the lines in service; a non-specific end of
    interrupt ends the one of the highest priority. *)
Inductive icw := Icw2 | Icw3 | Icw4 | Ready.
Record i8259 := I8259 { step : icw; vector : Z; cascade : Z; mode : Z; imr : Z; isr : list Z }.
Definition i8259_command (v : Z) (c : i8259) : i8259 :=
  if v =? 0x11 then I8259 Icw2 (vector c) (cascade c) (mode c) 0 []
  else if v =? 0x20 then I8259 (step c) (vector c) (cascade c) (mode c) (imr c) (tail (isr c)) else c.
Definition i8259_data (v : Z) (c : i8259) : i8259 :=
  match step c with
  | Icw2 => I8259 Icw3 v (cascade c) (mode c) (imr c) (isr c)
  | Icw3 => I8259 Icw4 (vector c) v (mode c) (imr c) (isr c)
  | Icw4 => I8259 Ready (vector c) (cascade c) v (imr c) (isr c)
  | Ready => I8259 Ready (vector c) (cascade c) (mode c) v (isr c)
  end.
Record pics := Pics { pic1 : i8259; pic2 : i8259 }.
#[global] Instance pics_ports : PortDevice pics := {|
  port_in _ p d :=
    if p =? PIC_PRIMARY_DATA_PORT then (imr (pic1 d), d)
    else if p =? PIC_SECONDARY_DATA_PORT then (imr (pic2 d), d) else (0, d);
  port_out _ p v d :=
    if p =? PIC_PRIMARY_CMD_PORT then Pics (i8259_command v (pic1 d)) (pic2 d)
    else if p =? PIC_SECONDARY_CMD_PORT then Pics (pic1 d) (i8259_command v (pic2 d))
    else if p =? PIC_PRIMARY_DATA_PORT then Pics (i8259_data v (pic1 d)) (pic2 d)
    else if p =? PIC_SECONDARY_DATA_PORT then Pics (pic1 d) (i8259_data v (pic2 d)) else d
|}.

(** Both controllers end up ready, with the offsets and the mask of the
    configuration: a line is enabled exactly if its bit of [pic_mask] is
    set. *)
Lemma mask_bit m n : 0 <= n < 8 -> Z.testbit (u8 (Z.lnot m)) n = negb (Z.testbit m n).
Proof. intros. rewrite testbit_u8 by lia. apply Z.lnot_spec. lia. Qed.
Lemma pic_init_ready cfg d c d' :
  dirty_mask cfg = false -> pic_init cfg d = Some (c, d') ->
  c = cfg
  /\ (step (pic1 d'), vector (pic1 d'), cascade (pic1 d')) = (Ready, u8 (primary_offset cfg), u8 (sconn_irq_line cfg))
  /\ (step (pic2 d'), vector (pic2 d'), cascade (pic2 d')) = (Ready, u8 (secondary_offset cfg), u8 (sec_irq_line_num cfg))
  /\ forall n, 0 <= n < 8 ->
       Z.testbit (imr (pic1 d')) n = negb (Z.testbit (pic_mask cfg) n)
       /\ Z.testbit (imr (pic2 d')) n = negb (Z.testbit (pic_mask cfg) (n + 8)).
Proof.
  intros Hd E. unfold pic_init, pic_masks in E. rewrite Hd in E. unfold out_wait in E.
  assert (d' = d' /\ c = cfg) as [_ ->].
  { destruct (iowait_mode cfg); cbn in E; by inversion E. }
  set (masks := (u8 (u8 (Z.lnot (Z.land (pic_mask cfg) 0xFF))), u8 (u8 (Z.lnot (Z.shiftr (pic_mask cfg) 8))))).
  assert (Hm : (imr (pic1 d'), imr (pic2 d')) = masks
            /\ (step (pic1 d'), vector (pic1 d'), cascade (pic1 d')) = (Ready, u8 (primary_offset cfg), u8 (sconn_irq_line cfg))
            /\ (step (pic2 d'), vector (pic2 d'), cascade (pic2 d')) = (Ready, u8 (secondary_offset cfg), u8 (sec_irq_line_num cfg))).
  { destruct (iowait_mode cfg); cbn in E; inversion E; done. }
  destruct Hm as (Hm&?&?). split; [done|]. repeat (split; [done|]). intros n Hn.
  injection Hm as -> ->. rewrite !(u8_id (u8 _)) by apply u8_range. rewrite !mask_bit by done. split; f_equal.
  - rewrite Z.land_spec. change 0xFF with (Z.ones 8). rewrite Z.ones_spec_low by lia. apply andb_true_r.
  - apply Z.shiftr_spec; lia.
Qed.

(** An interrupt is ended on the controllers that its line goes through. *)
Lemma pic_eoi_ends cfg int_num d :
  auto_eoi cfg = false ->
  exists d', pic_eoi cfg int_num d = Some (tt, d')
    /\ isr (pic1 d') = tail (isr (pic1 d))
    /\ isr (pic2 d') = if 40 <=? int_num then tail (isr (pic2 d)) else isr (pic2 d).
Proof.
  intros Ha. unfold pic_eoi. rewrite Ha. destruct (40 <=? int_num); eexists; (split; [reflexivity|]); done.
Qed.
