(* ===== verification/Pci.v ===== *)
(** * Pci: drivers/pci.c and include/depthos/pci.h

    Configuration space through the ports 0xCF8 and 0xCFC, the header of a
    function, and the enumeration of the buses. *)
From S2P Require Import Prelude Words Ports.

Definition PCI_CONF_ADDR_PORT := 0xCF8.
Definition PCI_CONF_DATA_PORT := 0xCFC.
Definition PCI_NUM_BUSES := 256.
Definition PCI_NUM_DEVICES := 32.
Definition PCI_INVALID_VENDOR := 0xFFFF.
Definition PCI_HEADER_GENERAL_DEV := 0.

Record pci_device := PciDev { bus : Z; slot : Z; func : Z }.
#[global] Instance pci_device_eq_dec : EqDecision pci_device.
Proof. solve_decision. Defined.

Record pci_header_general_dev := GeneralDev {
  bars : list Z; cardbus_cis_ptr : Z; subsystem_vendor_id : Z; subsystem_id : Z; expansion_rom_addr : Z;
  capabilities_ptr : Z; intr_line : Z; intr_pin : Z; min_grant : Z; max_latency : Z
}.
(** [general_device] is a member of a union: it is set for a general device. *)
Record pci_header := PciHeader {
  vendor_id : Z; device_id : Z; status_reg : Z; command_reg : Z; class_ : Z; subclass : Z; prog_iface : Z;
  revision_id : Z; bist : Z; header_type : Z; multifunction : bool; latency_timer : Z; cache_line_size : Z;
  general_device : option pci_header_general_dev
}.
(** [(struct pci_header){.vendor_id = PCI_INVALID_VENDOR}]. *)
Definition no_header := PciHeader PCI_INVALID_VENDOR 0 0 0 0 0 0 0 0 0 false 0 0 None.

(** The arguments are [uint8_t]. *)
Definition pci_conf_field_addr (bus slot func offset : Z) : Z :=
  u32 (Z.lor (Z.lor (Z.lor (Z.lor (Z.shiftl 1 31) (Z.shiftl (u8 bus) 16)) (Z.shiftl (Z.land (u8 slot) 0x1F) 11))
               (Z.shiftl (Z.land (u8 func) 7) 8)) (Z.land (u8 offset) 0xFC)).

Section pci.
  Context {D : Type} `{PortDevice D}.

Record pci_driver := PciDriver {
  d_vendor_id : Z; d_device_id : Z; d_init : pci_device -> pci_header -> P D unit
}.

Definition pci_select (dev : pci_device) (offset : Z) : P D unit :=
  outl PCI_CONF_ADDR_PORT (pci_conf_field_addr (bus dev) (slot dev) (func dev) offset).
Definition pci_conf_read8 (dev : pci_device) (offset : Z) : P D Z :=
  pci_select dev offset ≫= fun _ => inb (PCI_CONF_DATA_PORT + Z.land offset 3).
Definition pci_conf_read16 (dev : pci_device) (offset : Z) : P D Z :=
  pci_select dev offset ≫= fun _ => inw (PCI_CONF_DATA_PORT + Z.land offset 2).
Definition pci_conf_read32 (dev : pci_device) (offset : Z) : P D Z :=
  pci_select dev offset ≫= fun _ => inl PCI_CONF_DATA_PORT.
Definition pci_conf_write8 (dev : pci_device) (offset value : Z) : P D unit :=
  pci_select dev offset ≫= fun _ => outb (PCI_CONF_DATA_PORT + Z.land offset 3) value.
Definition pci_conf_write16 (dev : pci_device) (offset value : Z) : P D unit :=
  pci_select dev offset ≫= fun _ => outw (PCI_CONF_DATA_PORT + Z.land offset 2) value.
Definition pci_conf_write32 (dev : pci_device) (offset value : Z) : P D unit :=
  pci_select dev offset ≫= fun _ => outl PCI_CONF_DATA_PORT value.

Definition pci_get_general (dev : pci_device) : P D pci_header_general_dev :=
  b0 ← pci_conf_read32 dev 0x10; b1 ← pci_conf_read32 dev 0x14; b2 ← pci_conf_read32 dev 0x18;
  b3 ← pci_conf_read32 dev 0x1C; b4 ← pci_conf_read32 dev 0x20; b5 ← pci_conf_read32 dev 0x24;
  cis ← pci_conf_read32 dev 0x28;
  sv ← pci_conf_read16 dev 0x2C; si ← pci_conf_read16 dev 0x2E; rom ← pci_conf_read32 dev 0x30;
  cap ← pci_conf_read8 dev 0x34; line ← pci_conf_read8 dev 0x3C; pin ← pci_conf_read8 dev 0x3D;
  grant ← pci_conf_read8 dev 0x3E; lat ← pci_conf_read8 dev 0x3F;
  mret (GeneralDev [b0; b1; b2; b3; b4; b5] cis sv si rom cap line pin grant lat).

Definition pci_get_header (dev : pci_device) : P D pci_header :=
  vendor ← pci_conf_read16 dev 0x0;
  if vendor =? PCI_INVALID_VENDOR then mret no_header else
  device ← pci_conf_read16 dev 0x2; command ← pci_conf_read16 dev 0x4; status ← pci_conf_read16 dev 0x6;
  revision ← pci_conf_read8 dev 0x8; iface ← pci_conf_read8 dev 0x9; sub ← pci_conf_read8 dev 0xA;
  cls ← pci_conf_read8 dev 0xB; cache ← pci_conf_read8 dev 0xC; timer ← pci_conf_read8 dev 0xD;
  ty ← pci_conf_read8 dev 0xE; multi ← pci_conf_read8 dev 0xE; bi ← pci_conf_read8 dev 0xF;
  let ty := Z.land ty 3 in
  general ← (if ty =? PCI_HEADER_GENERAL_DEV then g ← pci_get_general dev; mret (Some g) else mret None);
  mret (PciHeader vendor device status command cls sub iface revision bi ty (negb (Z.land multi 0x80 =? 0)) timer cache
          general).

(** [pci_drivers] are the drivers registered; what is enumerated is logged:
    the result is the log. *)
Definition pci_register_driver (pci_drivers : list pci_driver) (d : pci_driver) : list pci_driver := pci_drivers ++ [d].
Definition driver_matches (h : pci_header) (d : pci_driver) : bool :=
  (d_vendor_id d =? vendor_id h) && (d_device_id d =? device_id h).
Fixpoint pci_init_drivers (pci_drivers : list pci_driver) (dev : pci_device) (h : pci_header) : P D unit :=
  match pci_drivers with
  | [] => mret ()
  | d :: ds => (if driver_matches h d then d_init d dev h else mret ()) ≫= fun _ => pci_init_drivers ds dev h
  end.
Definition pci_enum_func (pci_drivers : list pci_driver) (dev : pci_device) (h : pci_header) : P D (pci_device * pci_header) :=
  pci_init_drivers pci_drivers dev h ≫= fun _ => mret (dev, h).

Fixpoint pci_enum_funcs (pci_drivers : list pci_driver) (b s : Z) (funcs : list Z)
  : P D (list (pci_device * pci_header)) :=
  match funcs with
  | [] => mret []
  | f :: funcs =>
      let dev := PciDev b s f in
      h ← pci_get_header dev;
      if vendor_id h =? PCI_INVALID_VENDOR then pci_enum_funcs pci_drivers b s funcs else
      e ← pci_enum_func pci_drivers dev h;
      l ← pci_enum_funcs pci_drivers b s funcs;
      mret (e :: l)
  end.
Definition pci_enum_slot (pci_drivers : list pci_driver) (b s : Z) : P D (list (pci_device * pci_header)) :=
  let dev := PciDev b s 0 in
  h ← pci_get_header dev;
  if vendor_id h =? PCI_INVALID_VENDOR then mret [] else
  e ← pci_enum_func pci_drivers dev h;
  l ← (if multifunction h then pci_enum_funcs pci_drivers b s (seqZ 1 7) else mret []);
  mret (e :: l).
Fixpoint pci_enum_slots (pci_drivers : list pci_driver) (slots : list (Z * Z)) : P D (list (pci_device * pci_header)) :=
  match slots with
  | [] => mret []
  | (b, s) :: slots =>
      l ← pci_enum_slot pci_drivers b s; l' ← pci_enum_slots pci_drivers slots; mret (l ++ l')
  end.
(** Every bus, and every slot of it. *)
Definition pci_slots : list (Z * Z) := b ← seqZ 0 PCI_NUM_BUSES; s ← seqZ 0 PCI_NUM_DEVICES; [(b, s)].
Definition pci_enum (pci_drivers : list pci_driver) : P D (list (pci_device * pci_header)) :=
  pci_enum_slots pci_drivers pci_slots.
End pci.
Arguments pci_driver D : clear implicits.

(** ** Configuration mechanism 1, as documented

    The address port latches a function and a register of its 256 bytes of
    configuration; the data ports access the bytes of that word.  The bytes
    of a function that is not there read as ones. *)
Definition device_of (a : Z) : pci_device :=
  PciDev (Z.land (Z.shiftr a 16) 0xFF) (Z.land (Z.shiftr a 11) 0x1F) (Z.land (Z.shiftr a 8) 7).
Definition register_of (a : Z) : Z := Z.land a 0xFC.
Definition width_bytes (w : width) : Z := match w with W8 => 1 | W16 => 2 | W32 => 4 end.
Definition word (w : width) (b : list Z) (o : Z) : Z := match w with W8 => get 0 b o | W16 => le16 b o | W32 => le32 b o end.

Class PciHost (D : Type) `{PortDevice D} := {
  config : D -> pci_device -> list Z;
  address : D -> Z;
  config_bytes : forall d dev o, 0 <= get 0 (config d dev) o < 256;
  select_device : forall d a, 0 <= a < 2 ^ 32 ->
    address (port_out W32 PCI_CONF_ADDR_PORT a d) = a
    /\ forall dev, config (port_out W32 PCI_CONF_ADDR_PORT a d) dev = config d dev;
  data_in : forall d w k, 0 <= k -> k + width_bytes w <= 4 -> Z.testbit (address d) 31 = true ->
    exists d', port_in w (PCI_CONF_DATA_PORT + k) d
               = (word w (config d (device_of (address d))) (register_of (address d) + k), d')
      /\ forall dev, config d' dev = config d dev;
  data_out : forall d w k v dev, 0 <= k -> k + width_bytes w <= 4 -> Z.testbit (address d) 31 = true ->
    dev <> device_of (address d) -> config (port_out w (PCI_CONF_DATA_PORT + k) v d) dev = config d dev
}.

(** The functions of a bus. *)
Definition valid (dev : pci_device) : Prop := 0 <= bus dev < 256 /\ 0 <= slot dev < 32 /\ 0 <= func dev < 8.

Lemma conf_addr_fields b s f o :
  valid (PciDev b s f) -> 0 <= o < 256 ->
  let a := pci_conf_field_addr b s f o in
  device_of a = PciDev b s f /\ register_of a = Z.land o 0xFC /\ Z.testbit a 31 = true /\ 0 <= a < 2 ^ 32.
Proof.
  intros (Hb&Hs&Hf) Ho a. simpl in *. unfold a, pci_conf_field_addr. rewrite !u8_id by lia.
  change 256 with (2 ^ 8) in *. change 32 with (2 ^ 5) in Hs. change 8 with (2 ^ 3) in Hf.
  unfold device_of, register_of. change (Z.shiftl 1 31) with (bits 31 1).
  repeat match goal with
  | |- context [Z.land ?x 0x1F] => change (Z.land x 0x1F) with (Z.land x (bits 0 5))
  | |- context [Z.land ?x 7] => change (Z.land x 7) with (Z.land x (bits 0 3))
  | |- context [Z.land ?x 0xFC] => change (Z.land x 0xFC) with (Z.land x (bits 2 6))
  end.
  split; [f_equal; same_bits|].
  split; [same_bits|]. split; [|apply u32_range].
  change (Z.testbit (u32 (Z.lor (Z.lor (Z.lor (Z.lor (bits 31 1) (Z.shiftl b 16)) (Z.shiftl (Z.land s (bits 0 5)) 11))
    (Z.shiftl (Z.land f (bits 0 3)) 8)) (Z.land o (bits 2 6)))) 31 = true).
  rewrite testbit_u32, !Z.lor_spec, testbit_bits by lia. done.
Qed.

(** A fact about every offset below 256 is checked on each. *)
Lemma all_offsets (f : Z -> bool) : forallb f (seqZ 0 256) = true -> forall o, 0 <= o < 256 -> f o = true.
Proof. intros H o Ho. eapply forallb_forall in H; [exact H|]. apply list_elem_of_In, elem_of_seqZ. lia. Qed.
Lemma offset_split o : 0 <= o < 256 -> Z.land o 0xFC + Z.land o 3 = o /\ 0 <= Z.land o 3 <= 3.
Proof.
  intros Ho. pose proof (all_offsets (fun o => (Z.land o 0xFC + Z.land o 3 =? o) && (0 <=? Z.land o 3) && (Z.land o 3 <=? 3))
    eq_refl o Ho). cbv beta in *. lia.
Qed.
Lemma offset_split2 o : 0 <= o < 256 -> Z.even o = true -> Z.land o 0xFC + Z.land o 2 = o /\ 0 <= Z.land o 2 <= 2.
Proof.
  intros Ho He. pose proof (all_offsets (fun o => negb (Z.even o) || ((Z.land o 0xFC + Z.land o 2 =? o) && (0 <=? Z.land o 2)
    && (Z.land o 2 <=? 2))) eq_refl o Ho). cbv beta in *. rewrite He in *. simpl in *. lia.
Qed.

(** The header that 256 bytes of configuration describe. *)
Definition general_of (b : list Z) : pci_header_general_dev :=
  GeneralDev ((fun i => le32 b (0x10 + 4 * i)) <$> seqZ 0 6) (le32 b 0x28) (le16 b 0x2C) (le16 b 0x2E) (le32 b 0x30)
    (get 0 b 0x34) (get 0 b 0x3C) (get 0 b 0x3D) (get 0 b 0x3E) (get 0 b 0x3F).
Definition header_of (b : list Z) : pci_header :=
  if le16 b 0 =? PCI_INVALID_VENDOR then no_header else
  let ty := Z.land (get 0 b 0xE) 3 in
  PciHeader (le16 b 0) (le16 b 2) (le16 b 6) (le16 b 4) (get 0 b 0xB) (get 0 b 0xA) (get 0 b 9) (get 0 b 8) (get 0 b 0xF)
    ty (Z.testbit (get 0 b 0xE) 7) (get 0 b 0xD) (get 0 b 0xC)
    (if ty =? PCI_HEADER_GENERAL_DEV then Some (general_of b) else None).

(** The functions with their headers that configurations [c] describe, in the
    order of their addresses: a slot without function 0 is empty, and one
    whose function 0 is not a multifunction device has no other. *)
Definition present (e : pci_device * pci_header) : bool := negb (vendor_id (snd e) =? PCI_INVALID_VENDOR).
Definition with_header (c : pci_device -> list Z) (dev : pci_device) := (dev, header_of (c dev)).
Definition slot_functions (c : pci_device -> list Z) (bs : Z * Z) : list (pci_device * pci_header) :=
  let dev := PciDev (fst bs) (snd bs) 0 in
  if present (with_header c dev) then
    with_header c dev ::
      (if multifunction (header_of (c dev))
       then filter (fun e => present e) (with_header c <$> (PciDev (fst bs) (snd bs) <$> seqZ 1 7)) else [])
  else [].
Definition pci_functions (c : pci_device -> list Z) : list (pci_device * pci_header) := pci_slots ≫= slot_functions c.

Section enumeration.
  Context {D : Type} `{PciHost D}.
  Implicit Types (c : pci_device -> list Z) (todo : list pci_device).

(** The configuration of the functions of [todo] is what [c] says. *)
Definition agrees c todo (d : D) : Prop := forall dev, dev ∈ todo -> config d dev = c dev.
Lemma agrees_sub c todo todo' d : agrees c todo d -> todo' ⊆ todo -> agrees c todo' d.
Proof. intros Ha Hs dev Hd. apply Ha, Hs, Hd. Qed.

(** Programs that only read. *)
Definition reads {A} c todo (m : P D A) (x : A) : Prop := returns (agrees c todo) m (fun v d => v = x /\ agrees c todo d).
Lemma reads_ret {A} c todo (x : A) : reads c todo (mret x) x.
Proof. intros d Hd. by exists x, d. Qed.
Lemma reads_bind {A B} c todo (m : P D A) (x : A) (f : A -> P D B) (y : B) :
  reads c todo m x -> reads c todo (f x) y -> reads c todo (m ≫= f) y.
Proof. intros Hm Hf. eapply r_bind; [exact Hm|]. intros a d [-> Hd]. by apply Hf. Qed.

Lemma trunc_word w d dev o : trunc w (word w (config d dev) o) = word w (config d dev) o.
Proof.
  pose proof (config_bytes d dev) as Hb. destruct w; simpl;
    [apply u8_id, Hb|apply u16_id, (le16_range _ _ Hb)|apply u32_id, (le32_range _ _ Hb)].
Qed.
Lemma read_word c todo dev w k o :
  valid dev -> dev ∈ todo -> 0 <= o < 256 -> 0 <= k -> k + width_bytes w <= 4 -> Z.land o 0xFC + k = o ->
  reads c todo (pci_select dev o ≫= fun _ => in_ w (PCI_CONF_DATA_PORT + k)) (word w (c dev) o).
Proof.
  intros Hv Hin Ho Hk Hw Hr d Hd. destruct dev as [b s f].
  destruct (conf_addr_fields b s f o Hv Ho) as (Hdev&Hreg&H31&Hrange). simpl in *.
  set (a := pci_conf_field_addr b s f o) in *. set (d1 := port_out W32 PCI_CONF_ADDR_PORT a d).
  destruct (select_device d a Hrange) as [Ha Hc]. fold d1 in Ha, Hc.
  destruct (data_in d1 w k Hk Hw) as (d2&E&Hc2); [by rewrite Ha|].
  assert (Hw1 : 1 <= width_bytes w) by (destruct w; simpl; lia).
  exists (word w (c (PciDev b s f)) o), d2. split; [|split; [done|]].
  - unfold pci_select, outl, out, in_, mbind, P_bind. simpl bus. simpl slot. simpl func. fold a.
    change (u16 PCI_CONF_ADDR_PORT) with PCI_CONF_ADDR_PORT. change (trunc W32 a) with (u32 a). rewrite (u32_id a) by done. fold d1. cbn [mbind option_bind].
    rewrite u16_id by (unfold PCI_CONF_DATA_PORT; lia). rewrite E, trunc_word. rewrite Ha, Hdev, Hreg, Hr, Hc.
    by rewrite (Hd _ Hin).
  - intros dev Hin'. by rewrite Hc2, Hc, Hd.
Qed.
Lemma read8_spec c todo dev o :
  valid dev -> dev ∈ todo -> 0 <= o < 256 -> reads c todo (pci_conf_read8 dev o) (get 0 (c dev) o).
Proof. intros Hv Hin Ho. destruct (offset_split o Ho). apply (read_word c todo dev W8); simpl; done || lia. Qed.
Lemma read16_spec c todo dev o :
  valid dev -> dev ∈ todo -> 0 <= o < 256 -> Z.even o = true -> reads c todo (pci_conf_read16 dev o) (le16 (c dev) o).
Proof. intros Hv Hin Ho He. destruct (offset_split2 o Ho He). apply (read_word c todo dev W16); simpl; done || lia. Qed.
Lemma read32_spec c todo dev o :
  valid dev -> dev ∈ todo -> 0 <= o < 256 -> Z.land o 0xFC = o -> reads c todo (pci_conf_read32 dev o) (le32 (c dev) o).
Proof.
  intros Hv Hin Ho He. apply (read_word c todo dev W32 0 o); simpl; done || lia.
Qed.

Ltac read_step :=
  lazymatch goal with
  | |- reads _ _ (_ ≫= _) _ =>
      eapply reads_bind; [first [apply read8_spec|apply read16_spec|apply read32_spec]; done || lia|cbv beta]
  | |- reads _ _ (mret _) _ => apply reads_ret
  end.
Lemma get_general_spec c todo dev :
  valid dev -> dev ∈ todo -> reads c todo (pci_get_general dev) (general_of (c dev)).
Proof. intros Hv Hin. unfold pci_get_general. repeat read_step. Qed.
Lemma get_header_spec c todo dev :
  valid dev -> dev ∈ todo -> reads c todo (pci_get_header dev) (header_of (c dev)).
Proof.
  intros Hv Hin. unfold pci_get_header, header_of. read_step.
  destruct (le16 (c dev) 0 =? PCI_INVALID_VENDOR); [apply reads_ret|]. repeat read_step.
  eapply (reads_bind _ _ _ (if Z.land (get 0 (c dev) 14) 3 =? PCI_HEADER_GENERAL_DEV then Some (general_of (c dev)) else None)).
  - destruct (_ =? _); [|apply reads_ret]. eapply reads_bind; [by apply get_general_spec|apply reads_ret].
  - enough (negb (Z.land (get 0 (c dev) 14) 128 =? 0) = Z.testbit (get 0 (c dev) 14) 7) as -> by apply reads_ret.
    change 128 with (Z.shiftl 1 7). rewrite land_bit_test by lia. apply negb_involutive.
Qed.

(** A driver may write the configuration of its own function only. *)
Definition keeps_others (d : pci_driver D) : Prop :=
  forall c todo dev h, valid dev -> dev ∉ todo -> returns (agrees c todo) (d_init d dev h) (fun _ => agrees c todo).
Context (ds : list (pci_driver D)) (Hds : Forall keeps_others ds).
(** What a program finds, and that it leaves [todo] alone. *)
Definition finds c todo todo' (m : P D (list (pci_device * pci_header))) l : Prop :=
  returns (agrees c todo) m (fun l' d => l' = l /\ agrees c todo' d).

Lemma enum_func_spec c todo dev h : valid dev -> dev ∉ todo -> reads c todo (pci_enum_func ds dev h) (dev, h).
Proof.
  intros Hv Hn. apply (reads_bind _ _ _ tt); [|apply reads_ret].
  induction Hds as [|d l Hd Hl IH]; simpl; [apply reads_ret|].
  apply (reads_bind _ _ _ tt); [|by apply IH].
  destruct (driver_matches h d); [|apply reads_ret].
  eapply r_weaken; [by apply (Hd c todo dev h)|done|]. intros [] ?. done.
Qed.
Lemma finds_sub c todo1 todo todo' m l : todo ⊆ todo1 -> finds c todo todo' m l -> finds c todo1 todo' m l.
Proof. intros Hs Hf. eapply r_weaken; [exact Hf| |done]. intros d Hd. by eapply agrees_sub. Qed.
Lemma finds_read {A} c todo todo' (m : P D A) x f l :
  reads c todo m x -> finds c todo todo' (f x) l -> finds c todo todo' (m ≫= f) l.
Proof. intros Hm Hf. eapply r_bind; [exact Hm|]. intros a d [-> Hd]. by apply Hf. Qed.
Lemma finds_bind c todo todo1 todo2 m l f l' :
  finds c todo todo1 m l -> finds c todo1 todo2 (f l) l' -> finds c todo todo2 (m ≫= f) l'.
Proof. intros Hm Hf. eapply r_bind; [exact Hm|]. intros a d [-> Hd]. by apply Hf. Qed.
Lemma finds_ret c todo todo' l : todo' ⊆ todo -> finds c todo todo' (mret l) l.
Proof. intros Hs d Hd. exists l, d. split; [done|]. split; [done|]. by eapply agrees_sub. Qed.

Lemma enum_funcs_spec c b s todo fs :
  (forall f, f ∈ fs -> valid (PciDev b s f)) -> NoDup ((PciDev b s <$> fs) ++ todo) ->
  finds c ((PciDev b s <$> fs) ++ todo) todo (pci_enum_funcs ds b s fs)
    (filter (fun e => present e) (with_header c <$> (PciDev b s <$> fs))).
Proof.
  induction fs as [|f fs IH]; intros Hv Hnd; [by apply finds_ret|].
  cbn [pci_enum_funcs fmap list_fmap app] in *. apply NoDup_cons in Hnd as [Hn Hnd].
  set (dev := PciDev b s f) in *. assert (valid dev) by (apply Hv; left).
  specialize (IH ltac:(intros f' ?; apply Hv; by right) Hnd).
  eapply finds_read; [apply (get_header_spec c _ dev); [done|left]|].
  rewrite filter_cons.
  assert (Hp : present (with_header c dev) = negb (vendor_id (header_of (c dev)) =? PCI_INVALID_VENDOR)) by done.
  destruct (decide (present (with_header c dev))) as [Hd|Hd]; rewrite Hp in Hd;
    destruct (vendor_id (header_of (c dev)) =? PCI_INVALID_VENDOR); try done.
  - eapply finds_sub; [apply (list_subseteq_cons dev); reflexivity|].
    eapply finds_read; [by apply enum_func_spec|]. eapply finds_bind; [exact IH|]. by apply finds_ret.
  - eapply finds_sub; [apply (list_subseteq_cons dev); reflexivity|]. exact IH.
Qed.

Definition functions_of (bs : Z * Z) : list pci_device := PciDev (fst bs) (snd bs) <$> seqZ 0 8.
Lemma enum_slot_spec c bs todo :
  0 <= fst bs < 256 -> 0 <= snd bs < 32 -> NoDup (functions_of bs ++ todo) ->
  finds c (functions_of bs ++ todo) todo (pci_enum_slot ds (fst bs) (snd bs)) (slot_functions c bs).
Proof.
  destruct bs as [b s]. simpl fst. simpl snd. intros Hb Hs.
  change (functions_of (b, s)) with (PciDev b s 0 :: (PciDev b s <$> seqZ 1 7)).
  set (dev := PciDev b s 0). set (others := PciDev b s <$> seqZ 1 7). intros Hnd.
  cbn [app] in *. apply NoDup_cons in Hnd as [Hn Hnd]. assert (valid dev) by (repeat split; simpl; lia).
  unfold pci_enum_slot, slot_functions. simpl fst. simpl snd. fold dev. fold others.
  eapply finds_read; [apply (get_header_spec c _ dev); [done|left]|].
  unfold present at 1. cbn [with_header snd].
  destruct (vendor_id (header_of (c dev)) =? PCI_INVALID_VENDOR) eqn:E; simpl negb.
  - apply finds_ret. set_solver.
  - eapply finds_sub; [apply (list_subseteq_cons dev); reflexivity|].
    eapply finds_read; [by apply enum_func_spec|]. eapply finds_bind; [|apply finds_ret; reflexivity].
    destruct (multifunction _).
    + apply enum_funcs_spec; [|done]. intros f Hf%elem_of_seqZ. repeat split; simpl; lia.
    + apply finds_ret. set_solver.
Qed.
Lemma enum_slots_spec c slots :
  Forall (fun bs => 0 <= fst bs < 256 /\ 0 <= snd bs < 32) slots -> NoDup (slots ≫= functions_of) ->
  finds c (slots ≫= functions_of) [] (pci_enum_slots ds slots) (slots ≫= slot_functions c).
Proof.
  induction slots as [|[b s] slots IH]; intros Hv Hnd; [by apply finds_ret|].
  apply Forall_cons in Hv as [[Hb Hs] Hv]. cbn [pci_enum_slots mbind list_bind] in *.
  eapply finds_bind; [by apply (enum_slot_spec c (b, s))|].
  eapply finds_bind; [apply IH; [done|]|by apply finds_ret].
  by apply NoDup_app in Hnd as (_&_&?).
Qed.
End enumeration.

Section writing.
  Context {D : Type} `{PciHost D}.

Lemma write_word c todo dev w k o v :
  valid dev -> dev ∉ todo -> 0 <= o < 256 -> 0 <= k -> k + width_bytes w <= 4 ->
  returns (agrees c todo) (pci_select dev o ≫= fun _ => out w (PCI_CONF_DATA_PORT + k) v) (fun _ => agrees c todo).
Proof.
  intros Hv Hin Ho Hk Hw d Hd. destruct dev as [b s f].
  destruct (conf_addr_fields b s f o Hv Ho) as (Hdev&_&H31&Hrange).
  set (a := pci_conf_field_addr b s f o) in *. set (d1 := port_out W32 PCI_CONF_ADDR_PORT a d).
  destruct (select_device d a Hrange) as [Ha Hc]. fold d1 in Ha, Hc.
  assert (Hw1 : 1 <= width_bytes w) by (destruct w; simpl; lia).
  exists tt, (port_out w (PCI_CONF_DATA_PORT + k) (trunc w v) d1). split.
  - unfold pci_select, outl, out, mbind, P_bind. cbn [bus slot func]. fold a.
    change (u16 PCI_CONF_ADDR_PORT) with PCI_CONF_ADDR_PORT. change (trunc W32 a) with (u32 a).
    rewrite (u32_id a) by done. fold d1. cbn [mbind option_bind].
    by rewrite u16_id by (unfold PCI_CONF_DATA_PORT; lia).
  - intros dev Hin'. rewrite data_out; try done; [by rewrite Hc, Hd|by rewrite Ha|].
    rewrite Ha, Hdev. by intros ->.
Qed.
Lemma write16_keeps c todo dev o v :
  valid dev -> dev ∉ todo -> 0 <= o < 256 -> returns (agrees c todo) (pci_conf_write16 dev o v) (fun _ => agrees c todo).
Proof.
  intros Hv Hin Ho. apply write_word; try done.
  - by apply Z.land_nonneg; right.
  - simpl. assert (Z.land o 2 <= 2); [|lia].
    pose proof (all_offsets (fun o => Z.land o 2 <=? 2) eq_refl o Ho). cbv beta in *. lia.
Qed.
(** Reading and writing the configuration of a function that is done. *)
Lemma read16_keeps c todo dev o :
  valid dev -> 0 <= o < 256 -> Z.even o = true ->
  returns (agrees c todo) (pci_conf_read16 dev o) (fun _ => agrees c todo).
Proof.
  intros Hv Ho He d Hd. destruct (read16_spec (config d) (dev :: todo) dev o Hv ltac:(left) Ho He d) as (v&d'&E&_&Ha).
  { by intros ??. }
  exists v, d'. split; [done|]. intros dev' Hin. rewrite Ha by by right. by apply Hd.
Qed.
End writing.

(** The slots are those of the numbers below 8192, each once. *)
Definition slot_of (n : Z) : Z * Z := (n / 32, n mod 32).
Definition function_of (n : Z) : pci_device := PciDev (n / 256) (n / 8 mod 32) (n mod 8).
Lemma pci_slots_numbers : pci_slots = slot_of <$> seqZ 0 8192.
Proof. vm_compute. reflexivity. Qed.
Lemma slot_of_range : Forall (fun bs => 0 <= fst bs < 256 /\ 0 <= snd bs < 32) pci_slots.
Proof.
  rewrite pci_slots_numbers. apply Forall_fmap, Forall_forall. intros n Hn%elem_of_seqZ. unfold slot_of. simpl.
  Z.to_euclidean_division_equations. lia.
Qed.
Lemma pci_slots_functions : NoDup (pci_slots ≫= functions_of).
Proof.
  rewrite pci_slots_numbers. remember 8192 as m eqn:Em.
  assert (forall k n, (slot_of <$> seqZ n (Z.of_nat k)) ≫= functions_of = function_of <$> seqZ (8 * n) (8 * Z.of_nat k)).
  2: { specialize (H 8192%nat 0). subst m. change 8192 with (Z.of_nat 8192). rewrite H.
       apply NoDup_fmap_2_strong; [|apply NoDup_seqZ].
       intros x y _ _ Hxy. injection Hxy. intros. Z.to_euclidean_division_equations. lia. }
  clear. induction k as [|k IH]; intros n; [done|].
  rewrite seqZ_cons by lia. replace (Z.pred (Z.of_nat (S k))) with (Z.of_nat k) by lia.
  rewrite fmap_cons, bind_cons, IH.
  replace (8 * Z.of_nat (S k)) with (8 + 8 * Z.of_nat k) by lia. rewrite seqZ_app, fmap_app by lia.
  replace (8 * Z.succ n) with (8 * n + 8) by lia. f_equal.
  unfold functions_of, slot_of, function_of. simpl fst. simpl snd.
  replace (seqZ (8 * n) 8) with (Z.add (8 * n) <$> seqZ 0 8) by (rewrite fmap_add_seqZ; f_equal; lia).
  rewrite <- list_fmap_compose. apply list_fmap_ext. intros i f Hf. apply lookup_seqZ in Hf. simpl.
  f_equal; Z.to_euclidean_division_equations; lia.
Qed.

(** ** A host bridge *)
Record board := Board { cells : pci_device -> list Z; latch : Z }.
Definition board_config (d : board) (dev : pci_device) : list Z := u8 <$> cells d dev.
Definition value_bytes (w : width) (v : Z) : list Z := (fun i => Z.shiftr v (8 * i)) <$> seqZ 0 (width_bytes w).
Definition in_data (w : width) (p : Z) : bool :=
  (PCI_CONF_DATA_PORT <=? p) && (p + width_bytes w <=? PCI_CONF_DATA_PORT + 4).
#[global] Instance board_ports : PortDevice board := {|
  port_in w p d :=
    if in_data w p && Z.testbit (latch d) 31
    then (word w (board_config d (device_of (latch d))) (register_of (latch d) + (p - PCI_CONF_DATA_PORT)), d) else (0, d);
  port_out w p v d :=
    if (p =? PCI_CONF_ADDR_PORT) then Board (cells d) v
    else if in_data w p && Z.testbit (latch d) 31
    then Board (fun dev => if decide (dev = device_of (latch d))
                then blit (cells d dev) (register_of (latch d) + (p - PCI_CONF_DATA_PORT)) (value_bytes w v)
                else cells d dev) (latch d)
    else d
|}.
Lemma in_data_port w k : 0 <= k -> k + width_bytes w <= 4 -> in_data w (PCI_CONF_DATA_PORT + k) = true.
Proof. intros. unfold in_data. lia. Qed.
#[global, program] Instance board_host : PciHost board := {| config := board_config; address := latch |}.
Next Obligation.
  intros d dev o. unfold board_config, get. destruct (o <? 0); [simpl; lia|]. rewrite list_lookup_fmap.
  destruct (cells d dev !! Z.to_nat o); simpl; [apply u8_range|lia].
Qed.
Next Obligation. done. Qed.
Next Obligation.
  intros d w k Hk Hw Hb. exists d. split; [|done]. cbn [port_in board_ports].
  rewrite in_data_port, Hb by done. cbn [andb]. by replace (PCI_CONF_DATA_PORT + k - PCI_CONF_DATA_PORT) with k by lia.
Qed.
Next Obligation.
  intros d w k v dev Hk Hw Hb Hne. cbn [port_out board_ports].
  destruct (PCI_CONF_DATA_PORT + k =? PCI_CONF_ADDR_PORT) eqn:E; [by unfold board_config|].
  rewrite in_data_port, Hb by done. cbn [andb]. unfold board_config. cbn [cells]. by rewrite decide_False.
Qed.

(** ** Properties *)

(** C33: [pci_enum] finds exactly the functions that the configuration
    spaces describe, bus by bus, slot by slot and function by function, each
    once and with its header, and returns, provided that a driver that is
    started on a function writes no configuration but that function's. *)
Theorem pci_enum_finds {D} `{PciHost D} (ds : list (pci_driver D)) (d : D) :
  Forall keeps_others ds -> exists d', pci_enum ds d = Some (pci_functions (config d), d').
Proof.
  intros Hds. destruct (enum_slots_spec ds Hds (config d) pci_slots slot_of_range pci_slots_functions d) as (l&d'&E&->&_).
  - by intros ??.
  - by exists d'.
Qed.

(** An IDE controller at slot 1, function 1 of a multifunction device. *)
Definition ide_config : list Z :=
  [0x86; 0x80; 0x10; 0x70; 0; 0; 0; 0; 0; 0x80; 1; 1; 0; 0; 0; 0] ++ replicate 16 0 ++ [1; 0xC0; 0; 0] ++ replicate 220 0.
Definition bridge_config : list Z :=
  [0x86; 0x80; 0x00; 0x70; 0; 0; 0; 0; 0; 0; 1; 6; 0; 0; 0x80; 0] ++ replicate 240 0.
Definition pc : board :=
  Board (fun dev => if decide (dev = PciDev 0 1 0) then bridge_config
                    else if decide (dev = PciDev 0 1 1) then ide_config else replicate 256 0xFF) 0.
Definition busmaster_driver : pci_driver board :=
  PciDriver 0x8086 0x7010 (fun dev _ => cmd ← pci_conf_read16 dev 4; pci_conf_write16 dev 4 (Z.lor cmd 4)).
Lemma busmaster_keeps : keeps_others busmaster_driver.
Proof.
  intros c todo dev h Hv Hn. eapply r_bind; [by apply read16_keeps|]. intros cmd. by apply write16_keeps.
Qed.
Lemma pci_enum_finds_witness :
  (fst <$> pci_functions (config pc)) = [PciDev 0 1 0; PciDev 0 1 1]
  /\ exists d', pci_enum [busmaster_driver] pc = Some (pci_functions (config pc), d').
Proof.
  split; [vm_compute; reflexivity|]. apply (pci_enum_finds [busmaster_driver] pc).
  apply Forall_singleton, busmaster_keeps.
Defined.
