(* ===== verification/Ata.v ===== *)
(** * Ata: drivers/ata.c and include/depthos/ata.h

    The driver of ATA disks: identification, programmed and bus-master reads,
    writes.  The drive is what is behind the ports; [AtaDrive] states what the
    ATA specification says of one for the operations that read.  [fuel] bounds
    each polling loop. *)
From S2P Require Import Prelude CString Strconv Words Ports Pci.

Definition ATA_REG_DATA := 0.
Definition ATA_REG_SECTOR_COUNT := 2.
Definition ATA_REG_LBA_LOW := 3.
Definition ATA_REG_LBA_MID := 4.
Definition ATA_REG_LBA_HI := 5.
Definition ATA_REG_DRIVE_HEAD := 6.
Definition ATA_REG_STAT := 7.
Definition ATA_REG_CMD := 7.
Definition ATA_REG_DEV_CTL := 0.
Definition ATA_REG_ALT_STAT := 0.
Definition ATA_REG_BM_CMD := 0.
Definition ATA_REG_BM_STATUS := 2.
Definition ATA_REG_BM_PRDT := 4.
Definition ATA_BM_SECONDARY_OFFSET := 8.
Definition ATA_BM_STATUS_INTR := 4.
Definition ATA_BM_STATUS_ERR := 2.
Definition ATA_STATUS_BSY := 0x80.
Definition ATA_STATUS_DFA := 0x20.
Definition ATA_STATUS_DRQ := 8.
Definition ATA_STATUS_ERR := 1.
Definition ATA_CMD_IDENTIFY := 0xEC.
Definition ATA_CMD_FLUSH := 0xE7.
Definition ATA_CMD_READ := 0x20.
Definition ATA_CMD_WRITE := 0x30.
Definition ATA_CMD_READ_DMA := 0xC8.
Definition ATA_SECTOR := 512.

(** [dma_region] and [prdt] are addresses. *)
Record ata_port := AtaPort {
  io_base : Z; ctl_base : Z; dma : bool; busmaster : Z; dma_region : Z; prdt : Z
}.
(** The members of the packed 512 bytes of [ata_identify] that are used. *)
Definition ata_identify_data := list Z.
Definition IDENTIFY_SIZE := 512.
Definition serial_number_offset := 20.
Definition model_number_offset := 54.
Definition current_sector_capacity (info : ata_identify_data) : Z := le32 info 114.
Record ata_dev_impl := AtaDev { ad_port : ata_port; ad_info : ata_identify_data; ad_drive : Z }.

(** [v & m] as a condition. *)
Definition has (v m : Z) : bool := negb (Z.land v m =? 0).
(** [BOUNDS_CHECK]: [None] returns 0; otherwise the number of sectors.
    [sector] and [n] are unsigned: their sum wraps around. *)
Definition bounds_check (capacity sector n : Z) : option Z :=
  if capacity <=? sector then None
  else if capacity <=? u32 (sector + n) then Some (u32 (capacity - sector)) else Some n.

(** Swaps the bytes of each of the [sz / 2] words of [s]. *)
Fixpoint ata_reorder_string (s : list Z) : list Z :=
  match s with
  | lo :: hi :: s => hi :: lo :: ata_reorder_string s
  | s => s
  end.

(** The memory that a bus-master transfer and the processor share. *)
Class DmaMemory (D : Type) := {
  region_read : D -> Z -> Z -> list Z;
  set_prdt_nbytes : Z -> Z -> D -> D
}.

(** A port without bus mastering. [create_ata_port] leaves [dma], [dma_region]
    and [prdt] as the allocation has them: [junk]. *)
Definition create_ata_port (junk : ata_port) (ctl io : Z) : ata_port :=
  AtaPort io ctl (dma junk) 0 (dma_region junk) (prdt junk).
(** [prd] is the table's address and [region] the 64 KiB of frames, mapped at
    their kernel addresses. *)
Definition ata_dma_init (prd region busmaster : Z) (port : ata_port) : ata_port :=
  AtaPort (io_base port) (ctl_base port) true (u16 busmaster) (ADDR_TO_VIRT region) prd.

Section ata.
  Context {D : Type} `{PortDevice D} `{DmaMemory D}.
  Context (fuel : nat) (port : ata_port).

Definition stat_port (alternate : bool) : Z :=
  if alternate then ctl_base port + ATA_REG_ALT_STAT else io_base port + ATA_REG_STAT.
Definition ata_io_wait (alternate : bool) : P D unit := repeat_p 14 (inb (stat_port alternate) ≫= fun _ => mret ()).

Fixpoint ata_poll_loop (fuel : nat) (alternate data dma : bool) : P D unit :=
  match fuel with
  | O => panicf
  | S fuel =>
      v ← inb (stat_port alternate);
      dv ← (if dma then inb (busmaster port + ATA_REG_BM_STATUS) else mret 0);
      if (dma && has dv ATA_BM_STATUS_INTR && negb (has dv ATA_BM_STATUS_ERR))
         || ((has v ATA_STATUS_BSY || (data && negb (has v ATA_STATUS_DRQ)))
             && negb (has v ATA_STATUS_ERR) && negb (has v ATA_STATUS_DFA))
      then ata_poll_loop fuel alternate data dma
      else if dma && has dv ATA_BM_STATUS_ERR then panicf
      else if has v ATA_STATUS_ERR || has v ATA_STATUS_DFA then panicf
      else mret ()
  end.
Definition ata_poll (alternate data dma : bool) : P D unit := ata_poll_loop fuel alternate data dma.

Definition ata_drive_select (drive : Z) : P D unit :=
  outb (io_base port + ATA_REG_DRIVE_HEAD) (Z.lor 0xA0 (Z.shiftl (Z.land drive 1) 4)).
Definition ata_get_selected_drive : P D Z :=
  v ← inb (io_base port + ATA_REG_DRIVE_HEAD); mret (Z.land (Z.shiftr v 4) 1).

Definition ata_reset : P D unit :=
  _ ← outb (ctl_base port + ATA_REG_DEV_CTL) 4;
  _ ← repeat_p 12 (ata_io_wait false);
  _ ← outb (ctl_base port + ATA_REG_DEV_CTL) 0;
  ata_poll false false false.
Definition ata_send_command (command : Z) : P D unit := outb (io_base port + ATA_REG_CMD) command.
Definition ata_read_status (alternate : bool) : P D Z := inb (stat_port alternate).

(** [for (i = 0; i < n; i++) buf[k + i] = inw(data)], on the bytes of [buf]. *)
Definition set16 (buf : list Z) (k v : Z) : list Z := blit buf (2 * k) [u8 v; u8 (Z.shiftr v 8)].
Fixpoint read_words (n : nat) (buf : list Z) (k : Z) : P D (list Z) :=
  match n with
  | O => mret buf
  | S n => v ← inw (io_base port + ATA_REG_DATA); read_words n (set16 buf k v) (k + 1)
  end.

(** The loop of [ata_identify]: the last status, or [None] when the device is
    not ATA. *)
Fixpoint identify_loop (fuel : nat) (status : Z) : P D (option Z) :=
  match fuel with
  | O => panicf
  | S fuel =>
      if negb (has status ATA_STATUS_ERR) && negb (has status ATA_STATUS_DRQ) then
        mid ← inb (io_base port + ATA_REG_LBA_MID);
        if negb (mid =? 0) then mret None else
        hi ← inb (io_base port + ATA_REG_LBA_HI);
        if negb (hi =? 0) then mret None else
        status ← ata_read_status false;
        identify_loop fuel status
      else mret (Some status)
  end.
(** [reorder] of [n] bytes at [o]. *)
Definition reorder_at (data : list Z) (o n : Z) : list Z := blit data o (ata_reorder_string (slice data o n)).
Definition ata_identify (drive : Z) : P D (option ata_identify_data) :=
  _ ← ata_reset;
  _ ← ata_io_wait false;
  _ ← ata_drive_select drive;
  _ ← ata_poll false false false;
  _ ← outb (io_base port + ATA_REG_LBA_LOW) 0;
  _ ← outb (io_base port + ATA_REG_LBA_MID) 0;
  _ ← outb (io_base port + ATA_REG_LBA_HI) 0;
  _ ← ata_send_command ATA_CMD_IDENTIFY;
  status ← ata_read_status false;
  if status =? 0 then mret None else
  lba_lo ← inb (io_base port + ATA_REG_LBA_LOW);
  lba_hi ← inb (io_base port + ATA_REG_LBA_HI);
  if negb (lba_lo =? 0) || negb (lba_hi =? 0) then mret None else
  status ← ata_read_status false;
  r ← identify_loop fuel status;
  match r with
  | None => mret None
  | Some status =>
      if has status ATA_STATUS_ERR then mret None else
      data ← read_words 256 (replicate 512 0) 0;
      mret (Some (reorder_at (reorder_at data model_number_offset 40) serial_number_offset 20))
  end.

(** [sector_count] is a [uint8_t] here and in the transfers. *)
Definition ata_prepare_transfer (command lba sector_count : Z) : P D unit :=
  sel ← ata_get_selected_drive;
  _ ← outb (io_base port + ATA_REG_DRIVE_HEAD)
        (Z.lor (Z.lor (Z.shiftl sel 4) 0xE0) (u8 (Z.land (Z.shiftr lba 24) 0xF)));
  _ ← outb (io_base port + ATA_REG_SECTOR_COUNT) sector_count;
  _ ← outb (io_base port + ATA_REG_LBA_LOW) (Z.land lba 0xFF);
  _ ← outb (io_base port + ATA_REG_LBA_MID) (Z.land (Z.shiftr lba 8) 0xFF);
  _ ← outb (io_base port + ATA_REG_LBA_HI) (Z.land (Z.shiftr lba 16) 0xFF);
  _ ← ata_poll false false false;
  outb (io_base port + ATA_REG_CMD) command.

Fixpoint read_sectors (n : nat) (buf : list Z) (i : Z) : P D (list Z) :=
  match n with
  | O => mret buf
  | S n =>
      _ ← ata_poll false true false;
      buf ← read_words 256 buf (i * 256);
      read_sectors n buf (i + 1)
  end.
Definition ata_pio_read (buf : list Z) (lba sector_count : Z) : P D (list Z) :=
  _ ← ata_poll false false false;
  _ ← ata_prepare_transfer ATA_CMD_READ lba (u8 sector_count);
  read_sectors (Z.to_nat (u8 sector_count)) buf 0.

(** Waits for the interrupt bit of the bus master and the drive not busy. *)
Fixpoint dma_wait (fuel : nat) : P D unit :=
  match fuel with
  | O => panicf
  | S fuel =>
      dst ← inb (busmaster port + ATA_REG_BM_STATUS);
      st ← inb (io_base port + ATA_REG_STAT);
      if negb (has dst ATA_BM_STATUS_INTR) then dma_wait fuel
      else if has st ATA_STATUS_BSY then dma_wait fuel else mret ()
  end.
Definition reset_bm_status : P D unit :=
  s ← inb (busmaster port + ATA_REG_BM_STATUS);
  outb (busmaster port + ATA_REG_BM_STATUS) (Z.lor (Z.lor s ATA_BM_STATUS_INTR) ATA_BM_STATUS_ERR).
Definition ata_dma_read (buf : list Z) (lba sector_count : Z) : P D (list Z) :=
  let sector_count := u8 sector_count in
  if 128 <? sector_count then panicf else
  _ ← ata_poll false false false;
  _ ← (fun d => Some (tt, set_prdt_nbytes (prdt port) (u16 (sector_count * 512)) d));
  _ ← outb (busmaster port + ATA_REG_BM_CMD) 0;
  _ ← outl (busmaster port + ATA_REG_BM_PRDT) (ADDR_TO_PHYS (prdt port));
  _ ← reset_bm_status;
  _ ← outb (busmaster port + ATA_REG_BM_CMD) 8;
  _ ← ata_poll false false false;
  _ ← ata_prepare_transfer ATA_CMD_READ_DMA lba sector_count;
  _ ← ata_io_wait false;
  _ ← outb (busmaster port + ATA_REG_BM_CMD) 9;
  _ ← dma_wait fuel;
  buf ← (fun d => Some (blit buf 0 (region_read d (dma_region port) (sector_count * 512)), d));
  _ ← reset_bm_status;
  mret buf.

(** [for (j = 0; j < n; j++) outw(data, buf[k + j])]. *)
Fixpoint write_words (n : nat) (buf : list Z) (k : Z) : P D unit :=
  match n with
  | O => mret ()
  | S n => _ ← outw (io_base port + ATA_REG_DATA) (le16 buf (2 * k)); write_words n buf (k + 1)
  end.
Fixpoint write_sectors (n : nat) (buf : list Z) (i : Z) : P D unit :=
  match n with
  | O => mret ()
  | S n =>
      _ ← write_words 256 buf (i * 256);
      _ ← outb (io_base port + ATA_REG_CMD) ATA_CMD_FLUSH;
      _ ← ata_poll false false false;
      write_sectors n buf (i + 1)
  end.
Definition ata_pio_write (buf : list Z) (lba sector_count : Z) : P D unit :=
  _ ← ata_poll false false false;
  _ ← ata_prepare_transfer ATA_CMD_WRITE lba (u8 sector_count);
  _ ← ata_poll false false false;
  write_sectors (Z.to_nat (u8 sector_count)) buf 0.
End ata.

Section ata_device.
  Context {D : Type} `{PortDevice D} `{DmaMemory D} (fuel : nat).

(** [*offset] and the result. *)
Definition ata_write (dev : ata_dev_impl) (buf : list Z) (count offset : Z) : P D (Z * Z) :=
  match bounds_check (current_sector_capacity (ad_info dev)) offset count with
  | None => mret (offset, 0)
  | Some count =>
      if count =? 0 then mret (offset, 0) else
      _ ← ata_drive_select (ad_port dev) (ad_drive dev);
      _ ← ata_pio_write fuel (ad_port dev) buf offset count;
      mret (u32 (offset + count), s32 count)
  end.
(** The buffer, [*offset] and the result. *)
Definition ata_read (dev : ata_dev_impl) (buf : list Z) (count offset : Z) : P D (list Z * Z * Z) :=
  match bounds_check (current_sector_capacity (ad_info dev)) offset count with
  | None => mret (buf, offset, 0)
  | Some count =>
      if count =? 0 then mret (buf, offset, 0) else
      buf ← (if dma (ad_port dev) then ata_dma_read fuel (ad_port dev) buf offset count
             else ata_pio_read fuel (ad_port dev) buf offset count);
      mret (buf, u32 (offset + count), s32 count)
  end.

(** A device that is registered: its name, and [create_ata_device]. *)
Definition create_ata_device (port : ata_port) (drive : Z) (info : ata_identify_data) : ata_dev_impl :=
  AtaDev port info drive.
(** [ATA_REGDEV] for the drives in turn; [i] devices are registered. *)
Fixpoint ata_regdevs (drives : list (ata_port * Z)) (i : Z) : P D (list (list Z * ata_dev_impl)) :=
  match drives with
  | [] => mret []
  | (port, drive) :: drives =>
      info ← ata_identify fuel port drive;
      match info with
      | None => ata_regdevs drives i
      | Some info =>
          match itoa i 10 (replicate 5 0) with
          | None => panicf
          | Some digits =>
              l ← ata_regdevs drives (i + 1);
              mret ((str "ata" ++ digits, create_ata_device port drive info) :: l)
          end
      end
  end.
Definition ata_init (junk1 junk2 : ata_port) : P D (list (list Z * ata_dev_impl)) :=
  let ata_primary_port := create_ata_port junk1 0x3F6 0x1F0 in
  let ata_secondary_port := create_ata_port junk2 0x376 0x170 in
  ata_regdevs [(ata_primary_port, 0); (ata_primary_port, 1); (ata_secondary_port, 0); (ata_secondary_port, 1)] 0.

(** What [ata_pci_init] does to configuration space; [ports] of the header's
    fifth base address become bus masters by [ata_dma_init]. *)
Definition ata_pci_init (dev : pci_device) (h : pci_header) : P D unit :=
  cmd ← pci_conf_read16 dev 4; pci_conf_write16 dev 4 (Z.lor cmd 4).
Definition ata_busmasters (h : pci_header) : option (Z * Z) :=
  g ← general_device h; bar4 ← bars g !! 4%nat;
  let bar4 := Z.land bar4 (u32 (Z.lnot 3)) in Some (u16 bar4, u16 (u32 (bar4 + ATA_BM_SECONDARY_OFFSET))).
Definition ata_pci_driver : pci_driver D := PciDriver 0x8086 0x7010 ata_pci_init.
End ata_device.

(** ** An ATA drive, as specified

    [a_words] are the words that the drive has still to send, none when it is
    idle; [a_busy] how often its status will read as busy, at most [max_busy]
    times.  While it is not busy it takes the registers; the READ SECTORS
    command makes it send the sectors from the address of the registers on (a
    count of 0 is 256), one after another, and it may be busy before each. *)
Record drive := Drive {
  a_disk : list Z; a_words : list Z; a_busy : nat; a_head : Z; a_count : Z; a_low : Z; a_mid : Z; a_high : Z
}.
#[export] Instance eta_drive : Eta drive := fun v =>
  Drive (a_disk v) (a_words v) (a_busy v) (a_head v) (a_count v) (a_low v) (a_mid v) (a_high v).
Definition set_register (r x : Z) (v : drive) : drive :=
  if r =? ATA_REG_SECTOR_COUNT then v <| a_count := x |>
  else if r =? ATA_REG_LBA_LOW then v <| a_low := x |>
  else if r =? ATA_REG_LBA_MID then v <| a_mid := x |>
  else if r =? ATA_REG_LBA_HI then v <| a_high := x |> else v <| a_head := x |>.
Definition drive_lba (v : drive) : Z :=
  a_low v + 0x100 * a_mid v + 0x10000 * a_high v + 0x1000000 * Z.land (a_head v) 0xF.
Definition drive_count (v : drive) : Z := if a_count v =? 0 then 256 else a_count v.
Definition sector_words (disk : list Z) (lba n : Z) : list Z :=
  (fun i => le16 disk (2 * i)) <$> seqZ (lba * 256) (n * 256).
Definition same_drive (v v' : drive) : Prop :=
  a_disk v' = a_disk v /\ Z.testbit (a_head v') 4 = Z.testbit (a_head v) 4.

Class AtaDrive (D : Type) `{PortDevice D} (port : ata_port) := {
  view : D -> drive;
  max_busy : nat;
  view_ok : forall d, (a_busy (view d) <= max_busy)%nat /\ 0 <= a_head (view d) < 256
    /\ forall i, 0 <= get 0 (a_disk (view d)) i < 256;
  status_in : forall d, exists v d', port_in W8 (u16 (io_base port + ATA_REG_STAT)) d = (v, d')
    /\ 0 <= v < 256 /\ view d' = (view d) <| a_busy := pred (a_busy (view d)) |>
    /\ has v ATA_STATUS_BSY = negb (a_busy (view d) =? 0)%nat
    /\ has v ATA_STATUS_ERR = false /\ has v ATA_STATUS_DFA = false
    /\ (a_busy (view d) = 0%nat -> has v ATA_STATUS_DRQ = negb (bool_decide (a_words (view d) = [])));
  head_in : forall d, a_busy (view d) = 0%nat ->
    exists d', port_in W8 (u16 (io_base port + ATA_REG_DRIVE_HEAD)) d = (a_head (view d), d') /\ view d' = view d;
  register_out : forall d r v, a_busy (view d) = 0%nat -> a_words (view d) = [] -> 0 <= v < 256 ->
    ATA_REG_SECTOR_COUNT <= r <= ATA_REG_DRIVE_HEAD ->
    (r = ATA_REG_DRIVE_HEAD -> Z.testbit v 4 = Z.testbit (a_head (view d)) 4) ->
    view (port_out W8 (u16 (io_base port + r)) v d) = set_register r v (view d);
  read_command : forall d, a_busy (view d) = 0%nat -> a_words (view d) = [] -> Z.testbit (a_head (view d)) 6 = true ->
    (drive_lba (view d) + drive_count (view d)) * ATA_SECTOR <= zlen (a_disk (view d)) ->
    let v := view (port_out W8 (u16 (io_base port + ATA_REG_CMD)) ATA_CMD_READ d) in
    same_drive (view d) v /\ a_words v = sector_words (a_disk (view d)) (drive_lba (view d)) (drive_count (view d));
  data_in : forall d w ws, a_busy (view d) = 0%nat -> a_words (view d) = w :: ws ->
    exists d', port_in W16 (u16 (io_base port + ATA_REG_DATA)) d = (w, d') /\ same_drive (view d) (view d')
      /\ a_words (view d') = ws /\ ((length ws mod 256 <> 0)%nat -> a_busy (view d') = 0%nat)
}.

Lemma bind_eq {D A B} (m : P D A) (f : A -> P D B) d a d' : m d = Some (a, d') -> (m ≫= f) d = f a d'.
Proof. intros E. unfold mbind, P_bind. by rewrite E. Qed.
Lemma same_drive_trans v1 v2 v3 : same_drive v1 v2 -> same_drive v2 v3 -> same_drive v1 v3.
Proof. unfold same_drive. intros [-> ->] [-> ->]. done. Qed.

(** Words into a buffer, one after another. *)
Fixpoint put_words (buf : list Z) (k : Z) (ws : list Z) : list Z :=
  match ws with [] => buf | w :: ws => put_words (set16 buf k w) (k + 1) ws end.
Lemma put_words_app buf k a b : put_words buf k (a ++ b) = put_words (put_words buf k a) (k + zlen a) b.
Proof.
  revert buf k. induction a as [|w a IH]; intros buf k; simpl.
  - f_equal. unfold zlen. simpl. lia.
  - rewrite IH, zlen_cons. f_equal. lia.
Qed.
Lemma le16_bytes b o : (forall i, 0 <= get 0 b i < 256) -> [u8 (le16 b o); u8 (Z.shiftr (le16 b o) 8)] = [get 0 b o; get 0 b (o + 1)].
Proof.
  intros Hb. pose proof (Hb o) as H0. pose proof (Hb (o + 1)) as H1. unfold le16.
  generalize dependent (get 0 b (o + 1)). generalize dependent (get 0 b o). intros x Hx y Hy.
  change 256 with (2 ^ 8) in *. unfold u8. change 0x100 with (2 ^ 8). rewrite <- !Z.land_ones by lia.
  change (Z.ones 8) with (bits 0 8). do 2 f_equal; [|f_equal]; same_bits.
  rewrite (testbit_high x 8 (n + 8)) by lia. simpl. f_equal. lia.
Qed.
Lemma put_words_blit disk base n : forall buf k,
  (forall i, 0 <= get 0 disk i < 256) -> 0 <= base -> 0 <= k -> 2 * (base + Z.of_nat n) <= zlen disk ->
  2 * (k + Z.of_nat n) <= zlen buf ->
  put_words buf k ((fun i => le16 disk (2 * i)) <$> seqZ base (Z.of_nat n))
  = blit buf (2 * k) (slice disk (2 * base) (2 * Z.of_nat n)).
Proof.
  revert base. induction n as [|n IH]; intros base buf k Hb H0 Hk Hd Hl.
  { change (slice disk (2 * base) (2 * Z.of_nat 0)) with (@nil Z). by rewrite blit_nil. }
  rewrite seqZ_cons by lia. replace (Z.pred (Z.of_nat (S n))) with (Z.of_nat n) by lia.
  rewrite fmap_cons. cbn [put_words]. unfold set16. rewrite le16_bytes by done.
  rewrite <- Z.add_1_r. rewrite IH by (rewrite ?zlen_blit; done || lia).
  replace (2 * (k + 1)) with (2 * k + zlen [get 0 disk (2 * base); get 0 disk (2 * base + 1)]) by (unfold zlen; simpl; lia).
  rewrite blit_app; [f_equal|lia|rewrite zlen_slice by lia; unfold zlen in *; simpl; lia].
  rewrite (slice_cons disk (2 * base) _ (get 0 disk (2 * base))) by (try lia; apply get_lookup; lia).
  rewrite (slice_cons disk (2 * base + 1) _ (get 0 disk (2 * base + 1))) by (try lia; apply get_lookup; lia).
  cbn [app]. do 2 f_equal. f_equal; lia.
Qed.

Section reading.
  Context {D : Type} `{Hports : PortDevice D} {port : ata_port} `{Hdrive : !AtaDrive D port} `{Hmem : DmaMemory D}.
  Context (fuel : nat) (Hfuel : (max_busy < fuel)%nat).

(** Polling ends when the drive is not busy, and changes nothing else. *)
Lemma poll_spec data d :
  (data = true -> a_words (view d) <> []) ->
  exists d', ata_poll fuel port false data false d = Some (tt, d') /\ view d' = (view d) <| a_busy := 0%nat |>.
Proof.
  intros Hdata. destruct (view_ok d) as [Hb _]. assert (Hf : (a_busy (view d) < fuel)%nat) by lia.
  unfold ata_poll. clear Hb Hfuel. revert d Hdata Hf. induction fuel as [|f IH]; intros d Hdata Hf; [lia|].
  destruct (status_in d) as (v&d'&E&Hv&Hw&Hbsy&Herr&Hdfa&Hdrq). cbn [ata_poll_loop].
  assert (E1 : inb (stat_port port false) d = Some (v, d')).
  { unfold inb, in_, stat_port. rewrite E. simpl. by rewrite u8_id. }
  rewrite (bind_eq _ _ _ _ _ E1). cbn [negb andb orb]. rewrite (bind_eq _ _ _ 0 d') by done. cbv beta.
  rewrite Herr, Hdfa, Hbsy. cbn [negb andb orb]. rewrite !andb_true_r.
  destruct (a_busy (view d)) as [|n] eqn:En.
  - assert (data && negb (has v ATA_STATUS_DRQ) = false) as ->.
    { destruct data; [|done]. rewrite Hdrq, bool_decide_false by auto. done. }
    exists d'. split; [done|]. rewrite Hw. done.
  - destruct (IH d') as (d2&E2&H2).
    + by rewrite Hw.
    + rewrite Hw. simpl. lia.
    + exists d2. split; [exact E2|]. rewrite H2, Hw. done.
Qed.
Lemma inw_spec d w ws :
  a_busy (view d) = 0%nat -> a_words (view d) = w :: ws -> 0 <= w < 2 ^ 16 ->
  exists d', inw (io_base port + ATA_REG_DATA) d = Some (w, d') /\ same_drive (view d) (view d')
    /\ a_words (view d') = ws /\ ((length ws mod 256 <> 0)%nat -> a_busy (view d') = 0%nat).
Proof.
  intros Hb Hw Hr. destruct (data_in d w ws Hb Hw) as (d'&E&?). exists d'. split; [|done].
  unfold inw, in_. rewrite E. simpl. by rewrite u16_id by lia.
Qed.
Lemma read_words_spec n m : forall d buf k,
  length (a_words (view d)) = (n + 256 * m)%nat -> (n <= 256)%nat -> (n <> 0%nat -> a_busy (view d) = 0%nat) ->
  Forall (fun w => 0 <= w < 2 ^ 16) (a_words (view d)) ->
  exists d', read_words port n buf k d = Some (put_words buf k (take n (a_words (view d))), d')
    /\ same_drive (view d) (view d') /\ a_words (view d') = drop n (a_words (view d)).
Proof.
  induction n as [|n IH]; intros d buf k Hl Hn Hb Hr; [by exists d|].
  destruct (a_words (view d)) as [|w ws] eqn:Ew; [done|]. simpl in Hl. apply Forall_cons in Hr as [Hr Hrs].
  destruct (inw_spec d w ws (Hb ltac:(lia)) Ew Hr) as (d1&E1&Hs&Hw1&Hb1).
  destruct (IH d1 (set16 buf k w) (k + 1)) as (d2&E2&Hs2&Hw2); rewrite ?Hw1; try done; try lia.
  { intros. apply Hb1. replace (length ws) with (n + m * 256)%nat by lia. rewrite Nat.Div0.mod_add, Nat.mod_small by lia. done. }
  exists d2. cbn [read_words]. rewrite (bind_eq _ _ _ _ _ E1), E2, Hw1. simpl. split; [done|].
  split; [by eapply same_drive_trans|]. by rewrite Hw2, Hw1.
Qed.
Lemma read_sectors_spec n : forall d buf i,
  length (a_words (view d)) = (256 * n)%nat -> Forall (fun w => 0 <= w < 2 ^ 16) (a_words (view d)) ->
  exists d', read_sectors fuel port n buf i d = Some (put_words buf (i * 256) (a_words (view d)), d')
    /\ same_drive (view d) (view d') /\ a_words (view d') = [].
Proof.
  induction n as [|n IH]; intros d buf i Hl Hr.
  { exists d. destruct (a_words (view d)); done. }
  destruct (poll_spec true d) as (d1&E1&H1); [intros _ E; rewrite E in Hl; simpl in Hl; lia|].
  destruct (read_words_spec 256 n d1 buf (i * 256)) as (d2&E2&Hs2&Hw2); rewrite ?H1; simpl a_words; simpl a_busy; try done; try lia.
  rewrite H1 in Hs2, Hw2, E2. simpl a_words in Hw2, E2.
  destruct (IH d2 (put_words buf (i * 256) (take 256 (a_words (view d)))) (i + 1)) as (d3&E3&Hs3&Hw3).
  { rewrite Hw2, length_drop. lia. }
  { rewrite Hw2. by apply Forall_drop. }
  exists d3. cbn [read_sectors]. rewrite (bind_eq _ _ _ _ _ E1), (bind_eq _ _ _ _ _ E2), E3, Hw2.
  split; [|split; [by eapply same_drive_trans|done]]. do 2 f_equal.
  rewrite <- (take_drop 256 (a_words (view d))) at 3. rewrite put_words_app. f_equal.
  unfold zlen. rewrite length_take, Hl. lia.
Qed.

Lemma out_register d r x :
  a_busy (view d) = 0%nat -> a_words (view d) = [] -> ATA_REG_SECTOR_COUNT <= r < ATA_REG_DRIVE_HEAD ->
  exists d', outb (io_base port + r) x d = Some (tt, d') /\ view d' = set_register r (u8 x) (view d).
Proof.
  intros Hb Hw Hr. eexists. split; [reflexivity|]. apply register_out; try done; [apply u8_range|lia|lia].
Qed.
Lemma head_bits b lba : b = 0 \/ b = 1 ->
  let x := Z.lor (Z.lor (Z.shiftl b 4) 0xE0) (u8 (Z.land (Z.shiftr lba 24) 0xF)) in
  0 <= x < 256 /\ Z.testbit x 4 = Z.testbit b 0 /\ Z.testbit x 6 = true /\ Z.land x 0xF = Z.land (Z.shiftr lba 24) 0xF.
Proof.
  intros Hb. assert (Hl : 0 <= Z.land (Z.shiftr lba 24) 0xF < 16).
  { change 0xF with (Z.ones 4). rewrite Z.land_ones by lia. apply Z.mod_pos_bound. lia. }
  rewrite u8_id by lia. remember (Z.land (Z.shiftr lba 24) 0xF) as h eqn:Eh. clear Eh.
  assert (Hall : forallb (fun h => forallb (fun b => let x := Z.lor (Z.lor (Z.shiftl b 4) 0xE0) h in
    (0 <=? x) && (x <? 256) && eqb (Z.testbit x 4) (Z.testbit b 0) && Z.testbit x 6 && (Z.land x 0xF =? h)) [0; 1]) (seqZ 0 16) = true)
    by reflexivity.
  eapply forallb_forall in Hall; [|apply list_elem_of_In, elem_of_seqZ; exact Hl].
  eapply forallb_forall in Hall; [|destruct Hb as [-> | ->]; simpl; [left; reflexivity|right; left; reflexivity]].
  cbv beta zeta in Hall. rewrite !andb_true_iff in Hall. destruct Hall as [[[[? ?] E] ?] ?]. apply eqb_prop in E. repeat split; lia || done.
Qed.
Lemma selected_spec d : a_busy (view d) = 0%nat ->
  exists d' b, ata_get_selected_drive port d = Some (b, d') /\ view d' = view d
    /\ (b = 0 \/ b = 1) /\ Z.testbit b 0 = Z.testbit (a_head (view d)) 4.
Proof.
  intros Hb. destruct (head_in d Hb) as (d'&E&Hd). destruct (view_ok d) as (_&Hr&_).
  exists d', (Z.land (Z.shiftr (a_head (view d)) 4) 1). unfold ata_get_selected_drive, inb, in_. split; [|split; [done|split]].
  - unfold mbind, P_bind. rewrite E. simpl. by rewrite u8_id.
  - rewrite (Z.land_ones _ 1 ltac:(lia) : Z.land _ 1 = _).
    pose proof (Z.mod_pos_bound (Z.shiftr (a_head (view d)) 4) (2 ^ 1)). lia.
  - rewrite Z.land_spec, Z.shiftr_spec by lia. simpl. apply andb_true_r.
Qed.
Lemma lba_parts lba : 0 <= lba < 2 ^ 28 ->
  u8 (Z.land lba 0xFF) + 0x100 * u8 (Z.land (Z.shiftr lba 8) 0xFF) + 0x10000 * u8 (Z.land (Z.shiftr lba 16) 0xFF)
  + 0x1000000 * Z.land (Z.shiftr lba 24) 0xF = lba.
Proof.
  intros Hl. change 0xFF with (Z.ones 8). change 0xF with (Z.ones 4). rewrite !Z.land_ones, !Z.shiftr_div_pow2 by lia.
  unfold u8. Z.to_euclidean_division_equations. lia.
Qed.

Lemma prepare_spec d lba count :
  a_busy (view d) = 0%nat -> a_words (view d) = [] -> 0 <= lba < 2 ^ 28 -> 0 < count < 256 ->
  (lba + count) * ATA_SECTOR <= zlen (a_disk (view d)) ->
  exists d', ata_prepare_transfer fuel port ATA_CMD_READ lba count d = Some (tt, d')
    /\ same_drive (view d) (view d') /\ a_words (view d') = sector_words (a_disk (view d)) lba count.
Proof.
  intros Hb Hw Hl Hc Hd. destruct (selected_spec d Hb) as (d0&b&E0&H0&Hb01&Hsel).
  destruct (head_bits b lba Hb01) as (Hx&Hx4&Hx6&HxF). set (x := Z.lor _ _) in *.
  assert (exists d1, outb (io_base port + ATA_REG_DRIVE_HEAD) x d0 = Some (tt, d1) /\ view d1 = (view d) <| a_head := x |>) as (d1&E1&H1).
  { eexists. split; [reflexivity|]. cbn [trunc]. rewrite u8_id by done. rewrite <- H0.
    apply (register_out _ ATA_REG_DRIVE_HEAD); rewrite ?H0; try done. intros _. by rewrite Hx4. }
  destruct (out_register d1 ATA_REG_SECTOR_COUNT count) as (d2&E2&H2); [by rewrite H1..|done|].
  destruct (out_register d2 ATA_REG_LBA_LOW (Z.land lba 0xFF)) as (d3&E3&H3); [by rewrite H2, H1..|done|].
  destruct (out_register d3 ATA_REG_LBA_MID (Z.land (Z.shiftr lba 8) 0xFF)) as (d4&E4&H4); [by rewrite H3, H2, H1..|done|].
  destruct (out_register d4 ATA_REG_LBA_HI (Z.land (Z.shiftr lba 16) 0xFF)) as (d5&E5&H5); [by rewrite H4, H3, H2, H1..|done|].
  destruct (poll_spec false d5) as (d6&E6&H6); [done|].
  rewrite H5, H4, H3, H2, H1 in H6. cbn [set_register] in H6.
  assert (Hlba : drive_lba (view d6) = lba).
  { rewrite H6. unfold drive_lba. cbn -[Z.mul Z.land u8]. rewrite HxF. by apply lba_parts. }
  assert (Hcnt : drive_count (view d6) = count).
  { rewrite H6. unfold drive_count. cbn -[u8]. rewrite u8_id by lia. destruct (Z.eqb_spec count 0); lia. }
  assert (Hdisk : a_disk (view d6) = a_disk (view d)) by by rewrite H6.
  destruct (read_command d6) as [Hs Hws]; [by rewrite H6|by rewrite H6|by rewrite H6; exact Hx6|by rewrite Hlba, Hcnt, Hdisk|].
  eexists. unfold ata_prepare_transfer. rewrite (bind_eq _ _ _ _ _ E0). fold x. rewrite (bind_eq _ _ _ _ _ E1), (bind_eq _ _ _ _ _ E2),
    (bind_eq _ _ _ _ _ E3), (bind_eq _ _ _ _ _ E4), (bind_eq _ _ _ _ _ E5), (bind_eq _ _ _ _ _ E6).
  split; [reflexivity|]. split; [|by rewrite <- Hdisk, <- Hlba, <- Hcnt].
  eapply same_drive_trans; [|exact Hs]. split; [done|]. rewrite H6.
  change (Z.testbit x 4 = Z.testbit (a_head (view d)) 4). by rewrite Hx4.
Qed.

Lemma ata_pio_read_spec d buf lba count :
  a_words (view d) = [] -> 0 <= lba < 2 ^ 28 -> 0 < count < 256 ->
  (lba + count) * ATA_SECTOR <= zlen (a_disk (view d)) -> count * ATA_SECTOR <= zlen buf ->
  exists d', ata_pio_read fuel port buf lba count d
      = Some (blit buf 0 (slice (a_disk (view d)) (lba * ATA_SECTOR) (count * ATA_SECTOR)), d')
    /\ same_drive (view d) (view d') /\ a_words (view d') = [].
Proof.
  intros Hw Hl Hc Hd Hbuf. unfold ATA_SECTOR in *.
  destruct (poll_spec false d) as (d1&E1&H1); [done|].
  destruct (prepare_spec d1 lba count) as (d2&E2&Hs2&Hw2); rewrite ?H1; try done.
  rewrite H1 in Hw2, Hs2. simpl a_disk in Hw2. destruct (view_ok d) as (_&_&Hbytes).
  set (disk := a_disk (view d)) in *.
  destruct (read_sectors_spec (Z.to_nat count) d2 buf 0) as (d3&E3&Hs3&Hw3).
  { rewrite Hw2. unfold sector_words. rewrite length_fmap, length_seqZ. lia. }
  { rewrite Hw2. apply Forall_fmap, Forall_forall. intros i _. apply le16_range. done. }
  exists d3. unfold ata_pio_read. rewrite (bind_eq _ _ _ _ _ E1). rewrite u8_id by lia. rewrite (bind_eq _ _ _ _ _ E2), E3, Hw2.
  split; [|split; [by eapply same_drive_trans; [exact Hs2|]|done]].
  do 2 f_equal. unfold sector_words. replace (count * 256) with (Z.of_nat (Z.to_nat (count * 256))) by lia.
  rewrite put_words_blit by (done || lia). do 2 f_equal; lia.
Qed.
End reading.

(** ** A drive *)
Definition pio_port : ata_port := AtaPort 0x1F0 0x3F6 false 0 0 0.
Definition sim_view (d : drive) : drive :=
  d <| a_disk := u8 <$> a_disk d |> <| a_busy := Nat.min (a_busy d) 3 |> <| a_head := u8 (a_head d) |>.
Definition sim_status (v : drive) : Z :=
  match a_busy v, a_words v with S _, _ => 0x80 | O, [] => 0x40 | O, _ => 0x48 end.
#[global] Instance sim_ports : PortDevice drive := {|
  port_in w p d :=
    let v := sim_view d in
    match w with
    | W8 => if p =? 0x1F7 then (sim_status v, v <| a_busy := pred (a_busy v) |>)
            else if p =? 0x1F6 then (a_head v, v) else (0, v)
    | W16 => match a_words v with
             | w :: ws => (w, v <| a_words := ws |> <| a_busy := if (length ws mod 256 =? 0)%nat then 3%nat else 0%nat |>)
             | [] => (0, v)
             end
    | W32 => (0, v)
    end;
  port_out w p x d :=
    let v := sim_view d in
    if p =? 0x1F7 then
      if x =? ATA_CMD_READ
      then v <| a_words := sector_words (a_disk v) (drive_lba v) (drive_count v) |> <| a_busy := 3%nat |> else v
    else if (0x1F2 <=? p) && (p <=? 0x1F6) then set_register (p - 0x1F0) x v else v
|}.
#[global] Instance sim_memory : DmaMemory drive := {| region_read _ _ n := replicate (Z.to_nat n) 0; set_prdt_nbytes _ _ d := d |}.
Lemma sim_view_view d : sim_view (sim_view d) = sim_view d.
Proof.
  unfold sim_view. cbn. f_equal; [|lia|apply u8_id, u8_range].
  rewrite <- list_fmap_compose. apply list_fmap_ext. intros _ x _. apply (u8_id (u8 x)), u8_range.
Qed.
Lemma sim_normal v : (a_busy v <= 3)%nat -> 0 <= a_head v < 256 -> u8 <$> a_disk v = a_disk v -> sim_view v = v.
Proof.
  intros Hb Hh Hd. destruct v. cbn in *. unfold sim_view. cbn. rewrite Hd, u8_id, Nat.min_l by lia. done.
Qed.
Lemma sim_parts d : (a_busy (sim_view d) <= 3)%nat /\ 0 <= a_head (sim_view d) < 256
  /\ u8 <$> a_disk (sim_view d) = a_disk (sim_view d) /\ forall i, 0 <= get 0 (a_disk (sim_view d)) i < 256.
Proof.
  unfold sim_view. cbn. split; [lia|]. split; [apply u8_range|]. split.
  - rewrite <- list_fmap_compose. apply list_fmap_ext. intros _ x _. apply (u8_id (u8 x)), u8_range.
  - intros i. unfold get. destruct (i <? 0); [simpl; lia|]. rewrite list_lookup_fmap.
    destruct (a_disk d !! Z.to_nat i); simpl; [apply u8_range|lia].
Qed.
#[global, program] Instance sim_drive : AtaDrive drive pio_port := {| view := sim_view; max_busy := 3 |}.
Next Obligation. intros d. destruct (sim_parts d) as (?&?&_&?). done. Qed.
Next Obligation.
  intros d. destruct (sim_parts d) as (?&?&?&?). eexists _, _. split; [reflexivity|].
  split; [unfold sim_status; destruct (a_busy (sim_view d)), (a_words (sim_view d)); lia|].
  split; [apply sim_normal; cbn -[sim_view]; done || lia|].
  unfold sim_status. destruct (a_busy (sim_view d)), (a_words (sim_view d)); repeat split; done.
Qed.
Next Obligation.
  intros d Hb. exists (sim_view d). split; [done|]. apply sim_view_view.
Qed.
Next Obligation.
  intros d r v Hb Hw Hv Hr _. destruct (sim_parts d) as (?&?&?&?). cbn [port_out sim_ports io_base pio_port].
  unfold ATA_REG_SECTOR_COUNT, ATA_REG_DRIVE_HEAD in Hr. rewrite (u16_id (0x1F0 + r)) by lia.
  rewrite (proj2 (Z.eqb_neq _ _)), (proj2 (Z.leb_le 0x1F2 _)), (proj2 (Z.leb_le _ 0x1F6)) by lia. cbn [andb].
  replace (0x1F0 + r - 0x1F0) with r by lia. unfold set_register.
  repeat destruct (r =? _); apply sim_normal; cbn -[sim_view]; done || lia.
Qed.
Next Obligation.
  intros d Hb Hw H6 Hl. destruct (sim_parts d) as (?&?&?&?). cbn zeta.
  match goal with |- same_drive _ ?v /\ _ => assert (v = sim_view d <| a_words := sector_words (a_disk (sim_view d))
    (drive_lba (sim_view d)) (drive_count (sim_view d)) |> <| a_busy := 3%nat |>) as -> end; [|done].
  apply sim_normal; cbn -[sim_view]; done || lia.
Qed.
Next Obligation.
  intros d w ws Hb Hw. destruct (sim_parts d) as (?&?&?&?). eexists.
  split; [cbn [port_in sim_ports]; rewrite Hw; reflexivity|].
  match goal with |- same_drive _ (sim_view ?x) /\ _ => assert (sim_view x = x) as -> end.
  - apply sim_normal; cbn -[sim_view Nat.modulo]; try done. destruct (length ws mod 256 =? 0)%nat; lia.
  - split; [done|]. split; [done|]. intros Hm. cbn -[sim_view Nat.modulo].
    by destruct (Nat.eqb_spec (length ws mod 256) 0).
Qed.

(** ** Properties *)

(** C34: [ata_read] without bus mastering returns the sectors asked for that
    the disk has, up to 255 of them, in the order of the disk and nowhere
    else in the buffer, whatever the drive's delays, and leaves the drive
    idle; the offset moves past them. *)
Theorem ata_read_sectors {D} `{Hports : PortDevice D} (dev : ata_dev_impl) `{Hdrive : !AtaDrive D (ad_port dev)}
    `{Hmem : DmaMemory D} (fuel : nat) (d : D) (buf : list Z) (count offset : Z) :
  let capacity := current_sector_capacity (ad_info dev) in
  let n := Z.max 0 (Z.min count (capacity - offset)) in
  let disk := a_disk (view d) in
  dma (ad_port dev) = false -> (max_busy < fuel)%nat -> a_words (view d) = [] ->
  0 <= offset -> 0 <= count -> offset + count < 2 ^ 32 -> capacity <= 2 ^ 28 -> capacity * ATA_SECTOR <= zlen disk ->
  n < 256 -> n * ATA_SECTOR <= zlen buf ->
  exists d', ata_read fuel dev buf count offset d
      = Some (blit buf 0 (slice disk (offset * ATA_SECTOR) (n * ATA_SECTOR)), offset + n, n, d')
    /\ a_words (view d') = [] /\ a_disk (view d') = disk.
Proof.
  intros capacity n disk Hdma Hfuel Hw Ho Hc Hsum Hcap Hdisk Hn Hbuf.
  unfold ata_read, bounds_check. fold capacity.
  assert (forall k : Z, k = 0 -> slice disk (offset * ATA_SECTOR) (k * ATA_SECTOR) = []) as Hnil by (intros ? ->; done).
  destruct (Z.leb_spec capacity offset) as [Hout|Hin].
  { exists d. assert (n = 0) as -> by lia. rewrite Hnil, blit_nil, Z.add_0_r by done. done. }
  rewrite u32_id by lia.
  assert ((if capacity <=? offset + count then Some (u32 (capacity - offset)) else Some count) = Some n) as ->.
  { destruct (Z.leb_spec capacity (offset + count)); f_equal; [rewrite u32_id by lia|]; lia. }
  destruct (Z.eqb_spec n 0) as [En|Hn0].
  { exists d. rewrite En, Hnil, blit_nil, Z.add_0_r by done. done. }
  rewrite Hdma. unfold ATA_SECTOR in *.
  destruct (ata_pio_read_spec fuel Hfuel d buf offset n) as (d'&E&Hs&Hw'); unfold ATA_SECTOR; fold disk; try done; try lia.
  exists d'. rewrite (bind_eq _ _ _ _ _ E). rewrite u32_id, s32_id by lia. split; [done|]. split; [done|]. apply Hs.
Qed.
Definition sim_info : list Z := replicate 114 0 ++ [4; 0; 0; 0] ++ replicate 394 0.
Definition sim_disk : drive := Drive (flat_map (fun k => replicate 512 k) (seqZ 1 4)) [] 2 0xA0 0 0 0 0.
Lemma ata_read_sectors_witness :
  let dev := AtaDev pio_port sim_info 0 in
  exists d', ata_read 4 dev (replicate 1536 9) 3 2 sim_disk
    = Some (blit (replicate 1536 9) 0 (slice (a_disk (view sim_disk)) 1024 1024), 4, 2, d')
    /\ a_words (view d') = [] /\ a_disk (view d') = a_disk (view sim_disk).
Proof.
  apply (ata_read_sectors (AtaDev pio_port sim_info 0) 4 sim_disk (replicate 1536 9) 3 2);
    [reflexivity|apply Nat.ltb_lt; reflexivity|reflexivity|lia|lia|lia|vm_compute; congruence..].
Defined.

(** Reordering twice restores a string. *)
Lemma ata_reorder_string_twice s : ata_reorder_string (ata_reorder_string s) = s.
Proof.
  assert (forall n s, (length s <= n)%nat -> ata_reorder_string (ata_reorder_string s) = s) as H; [|by eapply H].
  clear s. induction n as [|n IH]; intros [|a [|b s]] Hl; simpl in *; try done; try lia. rewrite IH by lia. done.
Qed.

(** The driver of the controller writes its own configuration only. *)
Lemma ata_pci_driver_keeps {D} `{PciHost D} : keeps_others ata_pci_driver.
Proof. intros c todo dev h Hv Hn. eapply r_bind; [by apply read16_keeps|]. intros cmd. by apply write16_keeps. Qed.
