(* ===== verification/Partition.v ===== *)
(** * Partition: kernel/partition.c, fs/mbr.c, include/depthos/partition.h and mbr.h

    The partition table of the first sector and the devices of partitions.  A
    device's [read] is as in Ext2: buffer, sectors and [*offset] to buffer,
    [*offset] and result; [None] of an entry point is NULL. *)
From S2P Require Import Prelude Words Ext2.

Definition MBR_PART_ATTR_ACTIVE_BOOTABLE := 0x80.
Definition PARTITION_ATTR_BOOTABLE := 1.
Definition MBR_SIZE := 512.
Definition MBR_PARTITIONS := 446.
Definition MBR_PARTITION_SIZE := 16.

Record mbr_partition := MbrPartition { attributes : Z; mbr_type : Z; mbr_lba : Z; mbr_sectors : Z }.
(** [partitions[i]] of the packed structure. *)
Definition mbr_partitions (m : list Z) (i : Z) : mbr_partition :=
  let o := MBR_PARTITIONS + MBR_PARTITION_SIZE * i in
  MbrPartition (get 0 m o) (get 0 m (o + 4)) (le32 m (o + 8)) (le32 m (o + 12)).

(** [dev] is the entry point of the partition's disk. *)
Record generic_partition (A : Type) := GenericPartition { attr : Z; part_dev : A; lba : Z; part_index : Z; sector_count : Z }.
Arguments GenericPartition {A}.
Arguments attr {A}.
Arguments part_dev {A}.
Arguments lba {A}.
Arguments part_index {A}.
Arguments sector_count {A}.

(** [p.attributes & MBR_PART_ATTR_ACTIVE_BOOTABLE != 0]: the comparison is
    made first, and is 1. *)
Definition create_mbr_partition {A} (dev : A) (idx : Z) (p : mbr_partition) : generic_partition A :=
  GenericPartition
    (if Z.land (attributes p) (b2z (negb (MBR_PART_ATTR_ACTIVE_BOOTABLE =? 0))) =? 0 then 0 else PARTITION_ATTR_BOOTABLE)
    dev (mbr_lba p) idx (mbr_sectors p).

Definition dev_read_t := list Z -> Z -> Z -> option (list Z * Z * Z).
(** A write leaves the disk's state [S]. *)
Definition dev_write_t (S : Type) := list Z -> Z -> Z -> S -> option (Z * Z * S).

(** [junk] is the allocation; [None] inside is NULL. *)
Definition mbr_parse (junk : list Z) (dev_read : dev_read_t) : option (option (list Z)) :=
  '(res, _, r) ← dev_read junk 1 0;
  Some (if r =? 0 then None else Some res).

(** The sectors that are transferred: [Some None] is the early return with
    [ENIMPL]. *)
Definition part_count {A B} (part : generic_partition A) (op : option B) (count offset : Z) : option Z :=
  if sector_count part <=? u32 (offset + count) then Some (u32 (sector_count part - offset))
  else match op with None => None | Some _ => Some count end.

Definition partdev_read (part : generic_partition (option dev_read_t)) (buf : list Z) (count offset : Z)
  : option (list Z * Z * Z) :=
  if sector_count part =? 0 then Some (buf, offset, 0) else
  match part_count part (part_dev part) count offset with
  | None => Some (buf, offset, ENIMPL)
  | Some count =>
      read ← part_dev part;
      '(buf, tmpoff, ret) ← read buf count (u32 (offset + lba part));
      Some (buf, u32 (tmpoff - lba part), ret)
  end.
(** [*offset], the result and the disk. *)
Definition partdev_write {S} (part : generic_partition (option (dev_write_t S))) (buf : list Z) (count offset : Z) (s : S)
  : option (Z * Z * S) :=
  if sector_count part =? 0 then Some (offset, 0, s) else
  match part_count part (part_dev part) count offset with
  | None => Some (offset, ENIMPL, s)
  | Some count =>
      write ← part_dev part;
      '(tmpoff, ret, s) ← write buf count (u32 (offset + lba part)) s;
      Some (u32 (tmpoff - lba part), ret, s)
  end.
Definition partdev_seek : Z := ENIMPL.

(** What [create_partition_device] sets. *)
Record part_device := PartDevice { pd_block_size : Z; pd_type : Z; pd_name : list Z; pd_pos : Z; pd_impl : generic_partition (option dev_read_t) }.
Definition create_partition_device (name : list Z) (block_size type : Z) (part : generic_partition (option dev_read_t)) : part_device :=
  PartDevice block_size type name 0 part.

(** ** A partition is a disk *)
Lemma slice_slice {A} (l : list A) o n o' n' :
  0 <= o -> 0 <= o' -> 0 <= n' -> o' + n' <= n -> slice (slice l o n) o' n' = slice l (o + o') n'.
Proof.
  intros. unfold slice. rewrite skipn_firstn_comm, firstn_firstn, drop_drop. f_equal; [lia|f_equal; lia].
Qed.

Lemma partdev_read_spec dbs (dev_read : dev_read_t) disk (part : generic_partition (option dev_read_t)) buf n sec :
  holds dbs dev_read disk -> part_dev part = Some dev_read ->
  0 <= lba part -> (lba part + sector_count part) * dbs <= zlen disk -> lba part + sector_count part < 2 ^ 32 ->
  0 <= sec -> 0 <= n -> sec + n <= sector_count part -> n * dbs <= zlen buf ->
  partdev_read part buf n sec = Some (blit buf 0 (slice disk ((lba part + sec) * dbs) (n * dbs)), sec + n, n).
Proof.
  intros [Hpos Hsz Hr] Hdev Hl Hd Hw Hs Hn Hsn Hb. unfold partdev_read, part_count. rewrite Hdev.
  destruct (Z.eqb_spec (sector_count part) 0) as [E|E].
  { assert (n = 0) as -> by lia. assert (sec = 0) as -> by lia. rewrite Z.mul_0_l. unfold slice. rewrite take_0, blit_nil. done. }
  rewrite u32_id by lia.
  assert ((if sector_count part <=? sec + n then Some (u32 (sector_count part - sec)) else Some n) = Some n) as ->.
  { destruct (Z.leb_spec (sector_count part) (sec + n)); [|done]. f_equal. rewrite u32_id by lia. lia. }
  cbn [mbind option_bind]. rewrite u32_id by lia. rewrite Hr by nia. cbn [mbind option_bind].
  rewrite u32_id by lia. do 3 f_equal; [|lia]. do 2 f_equal. lia.
Qed.

(** C35: a partition of an MBR disk is a disk: the device made from entry [i]
    of the table in the first sector holds exactly the sectors that the entry
    gives, so that everything that reads a disk, ext2 among it, can read the
    partition.  *)
Theorem mbr_partition_holds dbs (dev_read : dev_read_t) disk junk i :
  holds dbs dev_read disk -> zlen junk = MBR_SIZE -> dbs = MBR_SIZE -> MBR_SIZE <= zlen disk ->
  let p := mbr_partitions (slice disk 0 MBR_SIZE) i in
  0 <= mbr_lba p -> 0 <= mbr_sectors p -> (mbr_lba p + mbr_sectors p) * dbs <= zlen disk ->
  exists m, mbr_parse junk dev_read = Some (Some m)
    /\ holds dbs (partdev_read (create_mbr_partition (Some dev_read) i (mbr_partitions m i)))
         (slice disk (mbr_lba p * dbs) (mbr_sectors p * dbs)).
Proof.
  intros Hdev Hj -> Hd p Hl Hs Hp. unfold MBR_SIZE in *. exists (slice disk 0 512).
  assert (zlen (slice disk 0 512) = 512) by (apply zlen_slice; lia). pose proof Hdev as [Hpos Hsz Hr].
  split.
  - unfold mbr_parse. rewrite Hr by lia. cbn [mbind option_bind]. rewrite Z.mul_0_l, Z.mul_1_l.
    rewrite blit_full by lia. done.
  - assert (2 ^ 32 = 0x100000000) as E32 by done.
    split; [lia|rewrite zlen_slice by lia; lia|]. intros buf n sec Hs0 Hn Hb Hle.
    rewrite zlen_slice in Hle by lia.
    fold p. set (part := create_mbr_partition _ _ _).
    assert (lba part = mbr_lba p) as El by done. assert (sector_count part = mbr_sectors p) as Ec by done.
    assert (part_dev part = Some dev_read) as Ed by done. clearbody part p.
    rewrite (partdev_read_spec 512 dev_read disk) by (exact Hdev || exact Ed || lia).
    rewrite El. rewrite slice_slice by lia. do 4 f_equal. f_equal. lia.
Qed.

(** An entry for two sectors after the first, on a disk of three. *)
Definition mbr_disk : list Z :=
  replicate 446 0 ++ [0x80; 0; 0; 0; 0x83; 0; 0; 0; 1; 0; 0; 0; 2; 0; 0; 0] ++ replicate 48 0 ++ [0x55; 0xAA]
  ++ replicate 512 7 ++ replicate 512 8.
Definition mbr_disk_read : dev_read_t := fun buf n sec => Some (blit buf 0 (slice mbr_disk (sec * 512) (n * 512)), sec + n, n).
Lemma mbr_partition_holds_witness :
  let p := mbr_partitions (slice mbr_disk 0 512) 0 in
  (mbr_lba p, mbr_sectors p) = (1, 2)
  /\ exists m, mbr_parse (replicate 512 0) mbr_disk_read = Some (Some m)
    /\ holds 512 (partdev_read (create_mbr_partition (Some mbr_disk_read) 0 (mbr_partitions m 0)))
         (slice mbr_disk (mbr_lba p * 512) (mbr_sectors p * 512)).
Proof.
  split; [vm_compute; reflexivity|].
  apply (mbr_partition_holds 512 mbr_disk_read mbr_disk (replicate 512 0) 0);
    [split; [lia|vm_compute; congruence|reflexivity]|reflexivity|reflexivity|vm_compute; congruence..].
Defined.
