(* ===== verification/Idt.v ===== *)
(** * Idt: arch/x86/idt.c, idt_handlers.h and include/depthos/idt.h

    The table of interrupt gates and the table of interrupt handlers.
    Functions and the entry stubs of intr.S are addresses. *)
From S2P Require Import Prelude Words Gdt Ports Pic.

Definition IDT_SIZE := 256.
Definition INTERRUPTS_COUNT := 129.
Definition IRQCALL := 0xFFFF.

Record idt_entry := IdtEntry { addr_low : Z; sel : Z; zero : Z; flags : Z; addr_high : Z }.
Definition empty_entry := IdtEntry 0 0 0 0 0.

(** [.mask] is every line: [IRQCALL] includes the others. *)
Definition default_pic_config : pic_config :=
  PicConfig false true false false false false true 0x20 0x28 0x2 0x4 (u16 IRQCALL).

(** [i] is a [uint8_t]: [i >= IDT_SIZE] never holds. *)
Definition make_gate (type dpl cb : Z) : idt_entry :=
  IdtEntry (u16 (Z.land cb 0xFFFF)) 8 0 (u8 (Z.lor (Z.lor (Z.land type 0xF) (Z.shiftl dpl 5)) 0x80))
    (u16 (Z.shiftr (Z.land cb 0xFFFF0000) 16)).
Definition idt_register_llhandler (i type dpl cb : Z) (t : list idt_entry) : list idt_entry := set t i (make_gate type dpl cb).
Definition idt_register_interrupt (i f : Z) (intrs : list Z) : list Z :=
  if INTERRUPTS_COUNT <=? i then intrs else set intrs i f.

(** [idt_ptr.size]; [pic]: [current_pic_config]. *)
Record idt_state := IdtState { idt : list idt_entry; idt_ptr_size : Z; intrs : list Z; pic : pic_config }.
(** The addresses of the stubs and of the functions that [idt_init] installs. *)
Record idt_functions := IdtFunctions {
  stub : Z -> Z; unregistered_llhandler : Z; except_gpf : Z; except_invalid_op : Z; except_zero : Z; except_nmi : Z
}.

Definition idt_gates (f : idt_functions) : list idt_entry :=
  let t := replicate 256 empty_entry in
  let t := foldl (fun t i => idt_register_llhandler i 0xE 0 (stub f i) t) t (seqZ 0 INTERRUPTS_COUNT) in
  let t := foldl (fun t i => idt_register_llhandler i 0xE 0 (unregistered_llhandler f) t) t
             (seqZ INTERRUPTS_COUNT (IDT_SIZE - INTERRUPTS_COUNT)) in
  let t := idt_register_llhandler 0x64 0xE 3 (stub f 100) t in
  let t := idt_register_llhandler 0x80 0xE 3 (stub f 128) t in
  idt_register_llhandler 0x30 0xE 3 (stub f 48) t.
Definition idt_exceptions (f : idt_functions) (intrs : list Z) : list Z :=
  idt_register_interrupt 2 (except_nmi f) (idt_register_interrupt 0 (except_zero f)
    (idt_register_interrupt 6 (except_invalid_op f) (idt_register_interrupt 13 (except_gpf f) intrs))).
Definition idt_init {D} `{PortDevice D} (f : idt_functions) (intrs : list Z) : P D idt_state :=
  cfg ← pic_init default_pic_config;
  mret (IdtState (idt_gates f) (8 * IDT_SIZE - 1) (idt_exceptions f intrs) cfg).

(** The dispatch, in the monad [M] of the handlers: [call] runs the function
    at an address.  [None]: the number is not one of the table. *)
Section dispatch.
  Context {M : Type -> Type} `{MRet M, MBind M} (call : Z -> M unit) (eoi : Z -> M unit).
Definition idt_interrupt_handler (intrs : list Z) (int_num : Z) : option (M unit) :=
  h ← intrs !! Z.to_nat int_num; Some (if h =? 0 then mret () else call h).
Definition idt_hwinterrupt_handler (intrs : list Z) (int_num : Z) : option (M unit) :=
  m ← idt_interrupt_handler intrs int_num; Some (m ≫= fun _ => eoi int_num).
End dispatch.

(** ** Reading a gate as the processor does *)
Definition gate_addr (e : idt_entry) : Z := Z.lor (addr_low e) (Z.shiftl (addr_high e) 16).
Definition gate_present (e : idt_entry) : bool := Z.testbit (flags e) 7.
Definition gate_dpl (e : idt_entry) : Z := Z.land (Z.shiftr (flags e) 5) 3.
Definition gate_type (e : idt_entry) : Z := Z.land (flags e) 0xF.

Lemma gate_addr_make type dpl cb : 0 <= cb < 2 ^ 32 -> gate_addr (make_gate type dpl cb) = cb.
Proof.
  intros Hc. unfold gate_addr, make_gate. cbn [addr_low addr_high].
  assert (forall x, 0 <= x < 0x10000 -> u16 x = x) as Hu by (intros; by apply u16_id).
  assert (0 <= Z.land cb 0xFFFF < 0x10000).
  { change 0xFFFF with (Z.ones 16). rewrite Z.land_ones by lia. apply Z.mod_pos_bound. lia. }
  assert (Z.shiftr (Z.land cb 0xFFFF0000) 16 = cb / 0x10000) as ->.
  { change 0xFFFF0000 with (bits 16 16). change 0x10000 with (2 ^ 16). rewrite <- (Z.shiftr_div_pow2 cb 16) by lia. same_bits. }
  rewrite !Hu by (Z.to_euclidean_division_equations; lia).
  change 0x10000 with (2 ^ 16). rewrite <- Z.shiftr_div_pow2 by lia. same_bits.
Qed.
(** Writes of entries that depend on the index only. *)
Lemma foldl_register (g : Z -> idt_entry) l t j :
  0 <= j < zlen t -> get empty_entry (foldl (fun t i => set t i (g i)) t l) j
  = if bool_decide (j ∈ l) then g j else get empty_entry t j.
Proof.
  revert t. induction l as [|i l IH]; intros t Hj; [done|]. simpl. rewrite IH by (by rewrite zlen_set).
  destruct (decide (j ∈ l)); [rewrite !bool_decide_true by set_solver; done|].
  rewrite (bool_decide_false (j ∈ l)) by done. destruct (decide (i = j)) as [->|].
  - rewrite get_set_eq by done. by rewrite bool_decide_true by set_solver.
  - rewrite get_set_ne by done. by rewrite bool_decide_false by set_solver.
Qed.
Lemma foldl_register_length (g : Z -> idt_entry) l t : zlen (foldl (fun t i => set t i (g i)) t l) = zlen t.
Proof. revert t. induction l as [|i l IH]; intros t; [done|]. simpl. by rewrite IH, zlen_set. Qed.

(** The vectors that user code may raise: yield, system call, POSIX system call. *)
Definition user_vector (i : Z) : bool := (i =? 0x30) || (i =? 0x64) || (i =? 0x80).
Lemma idt_gates_get f i : 0 <= i < 256 ->
  get empty_entry (idt_gates f) i
  = make_gate 0xE (if user_vector i then 3 else 0) (if i <? INTERRUPTS_COUNT then stub f i else unregistered_llhandler f).
Proof.
  intros Hi. unfold idt_gates, idt_register_llhandler, user_vector.
  set (t1 := foldl _ _ (seqZ 0 INTERRUPTS_COUNT)). set (t2 := foldl _ t1 _).
  assert (zlen t1 = 256) as H1 by (unfold t1; by rewrite foldl_register_length).
  assert (zlen t2 = 256) as H2 by (unfold t2; by rewrite foldl_register_length).
  assert (Hg : get empty_entry t2 i = make_gate 0xE 0 (if i <? INTERRUPTS_COUNT then stub f i else unregistered_llhandler f)).
  { unfold t2. rewrite foldl_register by lia. unfold t1. rewrite foldl_register by (rewrite zlen_replicate; lia).
    unfold INTERRUPTS_COUNT, IDT_SIZE. destruct (Z.ltb_spec i 129).
    - rewrite (bool_decide_false (_ ∈ _)), bool_decide_true by (rewrite elem_of_seqZ; lia). done.
    - rewrite bool_decide_true by (rewrite elem_of_seqZ; lia). done. }
  destruct (Z.eqb_spec i 0x30) as [->|]; [by rewrite get_set_eq by (rewrite !zlen_set; lia)|]. rewrite get_set_ne by done.
  destruct (Z.eqb_spec i 0x80) as [->|]; [by rewrite get_set_eq by (rewrite !zlen_set; lia)|]. rewrite get_set_ne by done.
  destruct (Z.eqb_spec i 0x64) as [->|]; [by rewrite get_set_eq by lia|]. by rewrite get_set_ne.
Qed.
Lemma pic_init_returns {D} `{PortDevice D} cfg d : dirty_mask cfg = false -> exists d', pic_init cfg d = Some (cfg, d').
Proof.
  intros Hd. unfold pic_init, pic_masks. rewrite Hd. unfold out_wait. destruct (iowait_mode cfg); eexists; reflexivity.
Qed.

(** C36: [idt_init] leaves every one of the 256 vectors with a present
    interrupt gate into the kernel's code segment, to the entry stub of the
    vector or, from 129 on, to the default one; user code may raise exactly
    the vectors of yield and of the two system call interfaces. *)
Theorem idt_init_gates {D} `{PortDevice D} (f : idt_functions) (intrs0 : list Z) (d : D) :
  (forall i, 0 <= stub f i < 2 ^ 32) -> 0 <= unregistered_llhandler f < 2 ^ 32 ->
  exists s d', idt_init f intrs0 d = Some (s, d') /\ zlen (idt s) = IDT_SIZE
    /\ forall i, 0 <= i < IDT_SIZE ->
         let e := get empty_entry (idt s) i in
         gate_present e = true /\ gate_type e = 0xE /\ sel e = GDT_KERNEL_CODE_SEL
         /\ gate_addr e = (if i <? INTERRUPTS_COUNT then stub f i else unregistered_llhandler f)
         /\ (gate_dpl e = 3 <-> user_vector i = true) /\ (gate_dpl e = 0 <-> user_vector i = false).
Proof.
  intros Hs Hu. destruct (pic_init_returns default_pic_config d eq_refl) as (d'&E).
  eexists _, d'. split; [unfold idt_init, mbind, P_bind; rewrite E; reflexivity|]. cbn [idt].
  split; [unfold idt_gates, idt_register_llhandler; by rewrite !zlen_set, !foldl_register_length|].
  intros i Hi. rewrite idt_gates_get by (unfold IDT_SIZE in Hi; lia).
  split; [by destruct (user_vector i)|]. split; [by destruct (user_vector i)|]. split; [done|].
  split; [apply gate_addr_make; by destruct (i <? INTERRUPTS_COUNT)|].
  assert (forall cb, gate_dpl (make_gate 0xE (if user_vector i then 3 else 0) cb) = if user_vector i then 3 else 0) as ->
    by (intros; by destruct (user_vector i)).
  destruct (user_vector i); split; split; congruence.
Qed.
Definition sample_functions : idt_functions := IdtFunctions (fun i => 0xC0100000 + i mod 256 * 16) 0xC0200000 1 2 3 4.
Lemma idt_init_gates_witness :
  exists s d', idt_init sample_functions (replicate 129 0) (Recorder (fun _ _ _ => 0) []) = Some (s, d')
    /\ zlen (idt s) = IDT_SIZE
    /\ forall i, 0 <= i < IDT_SIZE ->
         let e := get empty_entry (idt s) i in
         gate_present e = true /\ gate_type e = 0xE /\ sel e = GDT_KERNEL_CODE_SEL
         /\ gate_addr e = (if i <? INTERRUPTS_COUNT then stub sample_functions i else unregistered_llhandler sample_functions)
         /\ (gate_dpl e = 3 <-> user_vector i = true) /\ (gate_dpl e = 0 <-> user_vector i = false).
Proof.
  apply (idt_init_gates sample_functions).
  - intros i. cbn [stub sample_functions]. pose proof (Z.mod_pos_bound i 256). lia.
  - cbn. lia.
Defined.
