(* ===== verification/Pit.v ===== *)
(** * Pit: kernel/pit.c, drivers/beeper.c and their headers

    The interval timer: channel 0 ticks the scheduler, channel 2 is the
    speaker. *)
From S2P Require Import Prelude Pmm Paging UserMem Kernel Sched Ports Idt.

Definition PIT2_FREQ_DIV := 1193180.
Definition BEEPER_IOCTL_NPLAY := 1.
Definition BEEPER_IOCTL_NSTOP := 0.

Section timer.
  Context (kernel_pgd : Z).

Definition pit_ticker (pit_sched_enable : bool) (registers : Z) : K unit :=
  _ ← modify (fun s => s <| pit_ticks := u32 (pit_ticks s + 1) |>);
  if pit_sched_enable then sched_ticker kernel_pgd registers else mret tt.

(** The first member of [struct tms] is [user]; the others are 0. *)
Definition sys_times (pit_tps buf : Z) : K unit :=
  if pit_tps =? 0 then undefined else
  c ← current; me ← get_task c;
  put_user_words buf [u32 (1000000 / pit_tps * running_time me); 0; 0; 0].
End timer.

(** [while (pit_ticks < max_tick)]: [seen] are the values that the loop
    reads, [None] when it goes on after them. *)
Fixpoint sleep_loop (seen : list Z) (max_tick : Z) : option nat :=
  match seen with
  | [] => None
  | t :: seen => if t <? max_tick then S <$> sleep_loop seen max_tick else Some O
  end.
Definition sleep (pit_ticks ms : Z) (seen : list Z) : option nat := sleep_loop seen (u32 (pit_ticks + ms)).

Section ports.
  Context {D : Type} `{PortDevice D}.

(** The two reads of the counter are in the order of the source's text. *)
Definition pit_get_counter : P D Z :=
  _ ← outb 0x43 0xC0; lo ← inb 0x40; hi ← inb 0x40; mret (u16 (Z.lor lo (Z.shiftl hi 8))).
(** [pit_tps] and the handlers; [ticker] is the address of [pit_ticker]. *)
Definition pit_init (ticker : Z) (intrs : list Z) (tps : Z) : P D (Z * list Z) :=
  if tps =? 0 then panicf else
  let divisor := 1193180 / tps in
  _ ← outb 0x43 0x36;
  _ ← outb 0x40 (u8 (Z.land divisor 0xFF));
  _ ← outb 0x40 (u8 (Z.land (Z.shiftr divisor 8) 0xFF));
  mret (tps, idt_register_interrupt 0x20 ticker intrs).

Definition beeper_play (nf : Z) : P D unit :=
  if nf =? 0 then panicf else
  let div := PIT2_FREQ_DIV / nf in
  _ ← outb 0x43 0xB6;
  _ ← outb 0x42 (u8 div);
  _ ← outb 0x42 (u8 (Z.shiftr div 8));
  tmp ← inb 0x61;
  if tmp =? Z.lor tmp 3 then mret () else outb 0x61 (Z.lor tmp 3).
Definition beeper_stop : P D unit := tmp ← inb 0x61; outb 0x61 (Z.land tmp 0xFC).
(** The requests that play or stop return nothing: [None]. *)
Definition beeper_ioctl (request data : Z) : P D (option Z) :=
  if request =? BEEPER_IOCTL_NPLAY then
    if data =? 0 then mret (Some (- EINVAL)) else _ ← beeper_play data; mret None
  else if request =? BEEPER_IOCTL_NSTOP then _ ← beeper_stop; mret None
  else mret None.
End ports.

(** A busy wait ends after as many ticks as it was asked for, unless the sum
    with the current tick passes 32 bits. *)
Lemma sleep_ticks now ms :
  0 <= now -> 0 <= ms -> now + ms < 2 ^ 32 -> sleep now ms (seqZ now (ms + 1)) = Some (Z.to_nat ms).
Proof.
  intros Hn Hm Hs. unfold sleep. rewrite u32_id by lia.
  assert (forall k t, sleep_loop (seqZ t (Z.of_nat k + 1)) (t + Z.of_nat k) = Some k) as Hk.
  { induction k as [|k IH]; intros t.
    - simpl. by rewrite Z.add_0_r, Z.ltb_irrefl.
    - rewrite seqZ_cons by lia. cbn [sleep_loop]. rewrite (proj2 (Z.ltb_lt _ _)) by lia.
      replace (Z.pred (Z.of_nat (S k) + 1)) with (Z.of_nat k + 1) by lia.
      replace (t + Z.of_nat (S k)) with (Z.succ t + Z.of_nat k) by lia. by rewrite IH. }
  specialize (Hk (Z.to_nat ms) now). by rewrite Z2Nat.id in Hk.
Qed.
Lemma sleep_wraps : sleep 0xFFFFFFFF 1000 [0xFFFFFFFF] = Some O.
Proof. reflexivity. Qed.

(** The divisor that the two bytes written to channel 0 make. *)
Lemma pit_init_divisor ticker intrs tps f :
  19 <= tps < 2 ^ 32 ->
  exists lo hi, written f (pit_init ticker intrs tps)
    = Some ((tps, idt_register_interrupt 0x20 ticker intrs), [(W8, 0x43, 0x36); (W8, 0x40, lo); (W8, 0x40, hi)])
    /\ lo + 256 * hi = 1193180 / tps.
Proof.
  intros Ht. exists (u8 (u8 (Z.land (1193180 / tps) 0xFF))), (u8 (u8 (Z.land (Z.shiftr (1193180 / tps) 8) 0xFF))).
  unfold pit_init. destruct (Z.eqb_spec tps 0); [lia|]. split; [reflexivity|].
  assert (0 <= 1193180 / tps < 65536) as Hd.
  { split; [apply Z.div_pos; lia|]. apply Z.div_lt_upper_bound; lia. }
  generalize dependent (1193180 / tps). intros x Hx. change 0xFF with (Z.ones 8).
  rewrite !Z.land_ones, Z.shiftr_div_pow2 by lia. unfold u8. Z.to_euclidean_division_equations. lia.
Qed.
(** The speaker plays when both its bits are set, and leaves the rest of the
    control port alone. *)
Lemma beeper_stop_silences tmp : 0 <= tmp < 256 ->
  forall n, 0 <= n < 8 -> Z.testbit (Z.land tmp 0xFC) n = if n <? 2 then false else Z.testbit tmp n.
Proof.
  intros Ht n Hn. change 0xFC with (Words.bits 2 6).
  rewrite Z.land_spec, Words.testbit_bits by lia.
  destruct (Z.ltb_spec n 2), (Z.leb_spec 2 n), (Z.ltb_spec n (2 + 6)); simpl; try lia; by rewrite ?andb_true_r, ?andb_false_r.
Qed.
