(* ===== verification/IsaDma.v ===== *)
(** * IsaDma: kernel/dma-isa.c, kernel/locking.c, include/depthos/dma-isa.h and mutex.h

    The channels of the ISA DMA controllers, and the mutexes that guard
    them. *)
From S2P Require Import Prelude Words Ports.

(** ** Mutexes *)
Definition MUTEX_UNLOCKED := 0.
Definition MUTEX_LOCKED := 1.
(** The mutex and the result. *)
Definition mutex_try_acquire (m : Z) : Z * bool := if m =? MUTEX_UNLOCKED then (MUTEX_LOCKED, true) else (m, false).
Definition mutex_release (m : Z) : Z := MUTEX_UNLOCKED.
Section mutex.
  (** What the other tasks do to the mutex while this one yields. *)
  Context (sched_yield : nat -> Z -> Z).
Fixpoint mutex_acquire_yield (fuel : nat) (round : nat) (m : Z) : option Z :=
  match fuel with
  | O => None
  | S fuel =>
      let '(m, ok) := mutex_try_acquire m in
      if (ok : bool) then Some m else mutex_acquire_yield fuel (S round) (sched_yield round m)
  end.
(** The task that acquires holds the mutex, as soon as the others have
    released it. *)
Lemma mutex_acquire_held fuel round m m' : mutex_acquire_yield fuel round m = Some m' -> m' = MUTEX_LOCKED.
Proof.
  revert round m. induction fuel as [|fuel IH]; intros round m; [done|]. simpl. unfold mutex_try_acquire.
  destruct (m =? MUTEX_UNLOCKED); [congruence|apply IH].
Qed.
Lemma mutex_acquire_after n : forall round m,
  (forall k x, (k < round + n)%nat -> sched_yield k x = x) -> sched_yield (round + n)%nat m = MUTEX_UNLOCKED ->
  exists fuel, mutex_acquire_yield fuel round m = Some MUTEX_LOCKED.
Proof.
  induction n as [|n IH]; intros round m Hk Hr.
  - exists 2%nat. rewrite Nat.add_0_r in Hr. simpl. unfold mutex_try_acquire.
    destruct (m =? MUTEX_UNLOCKED); [done|]. by rewrite Hr.
  - destruct (IH (S round) m) as [fuel E].
    + intros k x Hx. apply Hk. lia.
    + by replace (S round + n)%nat with (round + S n)%nat by lia.
    + exists (S fuel). simpl. unfold mutex_try_acquire. destruct (m =? MUTEX_UNLOCKED); [done|].
      rewrite Hk by lia. exact E.
Qed.
End mutex.

(** ** Channels *)
Definition ISA_DMA_MAX_ADDR := 16 * 1024 * 1024.
Definition ISA_DMA_MAX_LEN := 64 * 1024.
Definition ISA_DMA_NUM_CHANNELS := 8.
Definition ISA_DMA_NUM_CONTROLLER_CHANNELS := 4.
Definition ISA_DMA_MODE_AUTOINIT_SHIFT := 4.
Definition ISA_DMA_MODE_DIR_SHIFT := 2.
Definition ISA_DMA_MODE_DIR_MASK := 3.
Definition ISA_DMA_MODE_DIR_PERIPHERAL_READING := 2.
Definition ISA_DMA_MODE_DOWN_SHIFT := 5.
Definition ISA_DMA_MODE_TYPE_SHIFT := 6.
Definition ISA_DMA_MODE_TYPE_MASK := 3.
Definition ISA_DMA_MODE_TYPE_SINGLE := 1.
Definition isa_dma_addr_ports : list Z := [0x0; 0x2; 0x4; 0x6; 0xC0; 0xC4; 0xC8; 0xCC].
Definition isa_dma_addrx_ports : list Z := [0x87; 0x83; 0x81; 0x82; 0x8F; 0x8B; 0x89; 0x8A].
Definition isa_dma_offset_ports : list Z := [0x1; 0x3; 0x5; 0x7; 0xC2; 0xC6; 0xCA; 0xCE].
(** [DEFINE_PORT] and [PORTV]: the controller of the channel. *)
Definition PORTV (primary secondary ch : Z) : Z := if ISA_DMA_NUM_CONTROLLER_CHANNELS <=? ch then secondary else primary.
Definition single_mask_port := PORTV 0x0A 0xD4.
Definition mode_port := PORTV 0x0B 0xD6.
Definition flipflop_reset_port := PORTV 0x0C 0xD8.

Section channels.
  Context {D : Type} `{PortDevice D}.

(** A port of a table; a negative channel is outside it. *)
Definition port_of (ports : list Z) (ch : Z) : P D Z :=
  if ch <? 0 then panicf else match ports !! Z.to_nat ch with None => panicf | Some p => mret p end.

Definition isa_dma_set_mode (ch dir : Z) (autoinit down : bool) (type : Z) : P D bool :=
  if ISA_DMA_NUM_CHANNELS <=? ch then mret false else
  if ISA_DMA_MODE_TYPE_MASK <? dir then mret false else
  if ISA_DMA_MODE_TYPE_MASK - 1 <? type then mret false else
  let v := u8 (Z.land ch 3) in
  let v := u8 (Z.lor v (Z.shiftl (Z.land dir ISA_DMA_MODE_DIR_MASK) ISA_DMA_MODE_DIR_SHIFT)) in
  let v := u8 (Z.lor v (Z.shiftl (b2z autoinit) ISA_DMA_MODE_AUTOINIT_SHIFT)) in
  let v := u8 (Z.lor v (Z.shiftl (b2z down) ISA_DMA_MODE_DOWN_SHIFT)) in
  let v := u8 (Z.lor v (Z.shiftl (Z.land type ISA_DMA_MODE_TYPE_MASK) ISA_DMA_MODE_TYPE_SHIFT)) in
  _ ← outb (mode_port ch) v;
  mret true.
Definition isa_dma_set_state (ch : Z) (enabled : bool) : P D bool :=
  if ISA_DMA_NUM_CHANNELS <=? ch then mret false else
  _ ← outb (single_mask_port ch) (Z.lor (Z.shiftl (b2z (negb enabled)) 2) (Z.land ch 3));
  mret true.
Definition isa_dma_reset_flipflop (ch : Z) : P D bool :=
  if ISA_DMA_NUM_CHANNELS <=? ch then mret false else
  _ ← outb (flipflop_reset_port ch) 0; mret true.
Definition isa_dma_set_address (ch addr : Z) : P D bool :=
  if ISA_DMA_NUM_CHANNELS <=? ch then mret false else
  if ISA_DMA_MAX_ADDR <? addr then mret false else
  _ ← isa_dma_reset_flipflop ch;
  let start := Z.shiftr addr 1 in
  p ← port_of isa_dma_addr_ports ch; x ← port_of isa_dma_addrx_ports ch;
  _ ← outb p (Z.land start 0xFF);
  _ ← outb p (Z.land (Z.shiftr start 8) 0xFF);
  _ ← outb x (Z.land (Z.shiftr addr 16) 0xFF);
  mret true.
Definition isa_dma_set_length (ch length : Z) : P D bool :=
  if ISA_DMA_NUM_CHANNELS <=? ch then mret false else
  if ISA_DMA_MAX_LEN <? length then mret false else
  _ ← isa_dma_reset_flipflop ch;
  p ← port_of isa_dma_offset_ports ch;
  _ ← outb p (Z.land length 0xFF);
  _ ← outb p (Z.land (Z.shiftr length 8) 0xFF);
  mret true.
End channels.

(** ** What the controller is programmed with

    A channel of the second controller counts words: its address is the low
    17 bits of the byte address, halved, below the page of 128 KiB. *)
Definition word_channel_address (lo hi page : Z) : Z := Z.lor (Z.shiftl (Z.lor lo (Z.shiftl hi 8)) 1) (Z.shiftl (Z.land page 0xFE) 16).
Definition byte_channel_address (lo hi page : Z) : Z := Z.lor (Z.lor lo (Z.shiftl hi 8)) (Z.shiftl page 16).

Lemma set_address_writes f ch addr :
  0 <= ch < 8 -> 0 <= addr <= ISA_DMA_MAX_ADDR ->
  exists lo hi page, written f (isa_dma_set_address ch addr)
    = Some (true, [(W8, flipflop_reset_port ch, 0); (W8, get 0 isa_dma_addr_ports ch, lo);
                   (W8, get 0 isa_dma_addr_ports ch, hi); (W8, get 0 isa_dma_addrx_ports ch, page)])
    /\ lo = u8 (Z.land (Z.shiftr addr 1) 0xFF) /\ hi = u8 (Z.land (Z.shiftr (Z.shiftr addr 1) 8) 0xFF)
    /\ page = u8 (Z.land (Z.shiftr addr 16) 0xFF).
Proof.
  intros Hch Ha. do 3 eexists. split; [|done]. unfold isa_dma_set_address, ISA_DMA_NUM_CHANNELS, ISA_DMA_MAX_ADDR in *.
  rewrite (proj2 (Z.leb_gt 8 ch)), (proj2 (Z.ltb_ge _ addr)) by lia.
  unfold isa_dma_reset_flipflop, ISA_DMA_NUM_CHANNELS. rewrite (proj2 (Z.leb_gt 8 ch)) by lia.
  assert (ch = 0 \/ ch = 1 \/ ch = 2 \/ ch = 3 \/ ch = 4 \/ ch = 5 \/ ch = 6 \/ ch = 7) as Hc by lia.
  repeat destruct Hc as [-> |Hc]; try subst ch; reflexivity.
Qed.
(** On a 16-bit channel an even address below 16 MiB is programmed. *)
Lemma word_address_programmed addr :
  0 <= addr < ISA_DMA_MAX_ADDR -> Z.even addr = true ->
  word_channel_address (u8 (Z.land (Z.shiftr addr 1) 0xFF)) (u8 (Z.land (Z.shiftr (Z.shiftr addr 1) 8) 0xFF))
    (u8 (Z.land (Z.shiftr addr 16) 0xFF)) = addr.
Proof.
  unfold ISA_DMA_MAX_ADDR. intros Ha He. change (16 * 1024 * 1024) with (2 ^ 24) in Ha. unfold word_channel_address, u8.
  change 0x100 with (2 ^ 8). rewrite <- !Z.land_ones by lia. change (Z.ones 8) with (bits 0 8). change 0xFE with (bits 1 7).
  assert (Z.testbit addr 0 = false) as H0 by (rewrite Z.bit0_odd, <- Z.negb_even, He; done).
  same_bits. all: try (rewrite (testbit_high addr 24) by lia; done).
  all: try (replace n with 0 by lia; done).
Qed.
(** On an 8-bit channel it is not: the low half is halved there too. *)
Lemma byte_address_halved :
  written (fun _ _ _ => 0) (isa_dma_set_address 1 0x1000)
  = Some (true, [(W8, 0x0C, 0); (W8, 0x2, 0); (W8, 0x2, 8); (W8, 0x83, 0)])
  /\ byte_channel_address 0 8 0 = 0x800.
Proof. split; reflexivity. Qed.
(** 16 MiB itself passes the bound and is programmed as 0. *)
Lemma max_address_accepted :
  written (fun _ _ _ => 0) (isa_dma_set_address 5 ISA_DMA_MAX_ADDR)
  = Some (true, [(W8, 0xD8, 0); (W8, 0xC4, 0); (W8, 0xC4, 0); (W8, 0x8B, 0)]).
Proof. reflexivity. Qed.
