(* ===== verification/Sb16.v ===== *)
(** * Sb16: drivers/sb16.c and include/depthos/sb16.h

    The Sound Blaster 16: its DSP and mixer through ports, transfers by the
    ISA DMA channel 5, and the device that plays a buffer at a time.  [fuel]
    bounds each polling loop. *)
From S2P Require Import Prelude Ports IsaDma.

Definition SB16_RESET_CYCLES := 3000%nat.
Definition SB16_BASE_JS1 := 0x220.
Definition SB16_MIXER_ADDRESS_PORT := 0x04.
Definition SB16_MIXER_DATA_PORT := 0x05.
Definition SB16_DSP_RESET_PORT := 0x06.
Definition SB16_DSP_READ_PORT := 0x0A.
Definition SB16_DSP_WRITE_PORT := 0x0C.
Definition SB16_DSP_STATUS_PORT := 0x0E.
Definition SB16_DSP_ACK16_PORT := 0x0F.
Definition SB16_MIXER_REG_COMPAT_MASTER_VOL := 0x22.
Definition SB16_MIXER_REG_MASTER_VOL_L := 0x30.
Definition SB16_MIXER_REG_MASTER_VOL_R := 0x31.
Definition SB16_DSP_CMD_GET_VERSION := 0xE1.
Definition SB16_DSP_CMD_SET_BLOCK_TRANSFER_SIZE := 0x48.
Definition SB16_DSP_CMD_SET_SAMPLE_RATE_OUT := 0x41.
Definition SB16_DSP_CMD_SET_SAMPLE_RATE_IN := 0x42.
Definition SB16_DSP_CMD_16BIT_DMA_PROGRAM_BASE := 0xB0.
Definition SB16_MAX_BLK_SIZE := ISA_DMA_MAX_LEN.
Definition SB16_IOCTL_SET_SAMPLERATE := 3.
Definition SB16_IOCTL_SET_STEREO := 4.
Definition SB16_IOCTL_GET_PERIOD := 5.

(** [curr_start] is 0 when nothing is being played. *)
Record sound_card_sb16 := SoundCard {
  base_port : Z; dsp_major : Z; dsp_minor : Z; sample_rate : Z; stereo : bool; dma_data : Z; dma_size : Z;
  curr_start : Z; curr_end : Z; curr_pgd : Z
}.
#[export] Instance eta_card : Eta sound_card_sb16 := fun c =>
  SoundCard (base_port c) (dsp_major c) (dsp_minor c) (sample_rate c) (stereo c) (dma_data c) (dma_size c)
    (curr_start c) (curr_end c) (curr_pgd c).

(** What the driver shares with the rest of the kernel: the mutexes, by
    number, what happens while it yields, and memory. *)
Class SharedKernel (D : Type) := {
  mutex_of : Z -> D -> Z;
  set_mutex : Z -> Z -> D -> D;
  yield : D -> D;
  store_bytes : Z -> list Z -> D -> D
}.
Definition CHANNEL5_MUTEX := 5.
Definition ISA_DMA_MUTEX := 8.

Section sb16.
  Context {D : Type} `{PortDevice D} `{SharedKernel D} (fuel : nat).

Definition assert_p (m : P D bool) : P D unit := ok ← m; if (ok : bool) then mret () else panicf.
Fixpoint mutex_acquire (fuel : nat) (i : Z) : P D unit :=
  match fuel with
  | O => panicf
  | S fuel => fun d =>
      let '(m, ok) := mutex_try_acquire (mutex_of i d) in
      if (ok : bool) then Some ((), set_mutex i m d) else mutex_acquire fuel i (yield d)
  end.
Definition mutex_release_p (i : Z) : P D unit := fun d => Some ((), set_mutex i (mutex_release (mutex_of i d)) d).

Section card.
  Context (dev : sound_card_sb16).
Fixpoint sb16_reset_loop (retries : nat) : P D bool :=
  match retries with
  | O => mret false
  | S retries =>
      _ ← outb (base_port dev + SB16_DSP_RESET_PORT) 1;
      _ ← repeat_p SB16_RESET_CYCLES (inb (base_port dev + SB16_DSP_RESET_PORT) ≫= fun _ => mret ());
      _ ← outb (base_port dev + SB16_DSP_RESET_PORT) 0;
      v ← inb (base_port dev + SB16_DSP_READ_PORT);
      if v =? 0xAA then mret true else sb16_reset_loop retries
  end.
Definition sb16_dsp_reset : P D bool := sb16_reset_loop SB16_RESET_CYCLES.

(** [while ((inb(status) >> 7) != ready)]. *)
Fixpoint dsp_wait (fuel : nat) (ready : Z) : P D unit :=
  match fuel with
  | O => panicf
  | S fuel =>
      s ← inb (base_port dev + SB16_DSP_STATUS_PORT);
      if Z.shiftr s 7 =? ready then mret () else dsp_wait fuel ready
  end.
Definition sb16_dsp_read : P D Z := _ ← dsp_wait fuel 1; inb (base_port dev + SB16_DSP_READ_PORT).
Definition sb16_dsp_write (value : Z) : P D unit := _ ← dsp_wait fuel 0; outb (base_port dev + SB16_DSP_WRITE_PORT) value.
Definition sb16_mixer_read (reg : Z) : P D Z :=
  _ ← outb (base_port dev + SB16_MIXER_ADDRESS_PORT) reg; inb (base_port dev + SB16_MIXER_DATA_PORT).
Definition sb16_mixer_write (reg value : Z) : P D unit :=
  _ ← outb (base_port dev + SB16_MIXER_ADDRESS_PORT) reg; outb (base_port dev + SB16_MIXER_DATA_PORT) value.
Definition sb16_mix_compat_set_master_vol (level_l level_r : Z) : P D bool :=
  if (15 <? level_l) || (15 <? level_r) then mret false else
  _ ← sb16_mixer_write SB16_MIXER_REG_COMPAT_MASTER_VOL (Z.lor level_r (Z.shiftl level_l 4)); mret true.
(** After setting the volume nothing is returned: [None]. *)
Definition sb16_mix_set_master_vol (level_l level_r : Z) : P D (option bool) :=
  if (31 <? level_l) || (31 <? level_r) then mret (Some false) else
  _ ← sb16_mixer_write SB16_MIXER_REG_MASTER_VOL_L level_l;
  _ ← sb16_mixer_write SB16_MIXER_REG_MASTER_VOL_R level_r; mret None.

Definition sb16_dsp_program_dma_16 (ad autoinit stereo signed_data : bool) (nsamples : Z) : P D unit :=
  let dsp_command := u8 (Z.lor (Z.lor SB16_DSP_CMD_16BIT_DMA_PROGRAM_BASE (Z.shiftl (b2z ad) 3)) (Z.shiftl (b2z autoinit) 2)) in
  let mode := u8 (Z.lor (Z.shiftl (b2z stereo) 5) (Z.shiftl (b2z signed_data) 4)) in
  _ ← sb16_dsp_write dsp_command;
  _ ← sb16_dsp_write mode;
  _ ← sb16_dsp_write (Z.land nsamples 0xFF);
  sb16_dsp_write (Z.land (Z.shiftr nsamples 8) 0xFF).
Definition sb16_dsp_set_sampling_rate (sampling_rate : Z) (input : bool) : P D unit :=
  _ ← sb16_dsp_write (if input then SB16_DSP_CMD_SET_SAMPLE_RATE_IN else SB16_DSP_CMD_SET_SAMPLE_RATE_OUT);
  _ ← sb16_dsp_write (Z.land (Z.shiftr sampling_rate 8) 0xFF);
  sb16_dsp_write (Z.land sampling_rate 0xFF).
Definition sb16_dsp_set_trblock_size (v : Z) : P D unit :=
  _ ← sb16_dsp_write SB16_DSP_CMD_SET_BLOCK_TRANSFER_SIZE;
  _ ← sb16_dsp_write (Z.land v 0xFF);
  sb16_dsp_write (Z.land (Z.shiftr v 8) 0xFF).

Definition sb16_prepare_dma16 (buffer length : Z) (autoinit : bool) : P D unit :=
  _ ← mutex_acquire fuel CHANNEL5_MUTEX;
  _ ← mutex_acquire fuel ISA_DMA_MUTEX;
  _ ← assert_p (isa_dma_set_state 5 false);
  _ ← assert_p (isa_dma_set_mode 5 ISA_DMA_MODE_DIR_PERIPHERAL_READING autoinit false ISA_DMA_MODE_TYPE_SINGLE);
  _ ← assert_p (isa_dma_set_address 5 buffer);
  _ ← assert_p (isa_dma_set_length 5 length);
  _ ← assert_p (isa_dma_set_state 5 true);
  mutex_release_p ISA_DMA_MUTEX.
Definition sb16_conclude_dma16 : P D unit := mutex_release_p CHANNEL5_MUTEX.

Definition sb16_start_transfer (nbytes : Z) (autoinit : bool) : P D unit :=
  let nbytes := Z.min nbytes (dma_size dev) in
  let nsamples := nbytes / 2 in
  let nsamples := if stereo dev then nsamples / 2 else nsamples in
  _ ← sb16_prepare_dma16 (ADDR_TO_PHYS (dma_data dev)) (u32 (nbytes - 1)) autoinit;
  _ ← sb16_dsp_set_sampling_rate (sample_rate dev) false;
  sb16_dsp_program_dma_16 false autoinit (stereo dev) true (u16 (nsamples - 1)).

(** The card and the result; [bytes] are those of [buffer] and [pgd] the
    current directory. *)
Definition sb16_dev_write (buffer : Z) (bytes : list Z) (nbytes pgd : Z) : P D (sound_card_sb16 * Z) :=
  if nbytes =? 0 then mret (dev, 0) else
  if negb (curr_start dev =? 0) then mret (dev, - EAGAIN) else
  let n := Z.min nbytes (dma_size dev) in
  _ ← (fun d => Some ((), store_bytes (dma_data dev) (take (Z.to_nat n) bytes) d));
  let card := dev <| curr_start := buffer |> <| curr_end := u32 (buffer + nbytes) |> <| curr_pgd := pgd |> in
  _ ← sb16_start_transfer n false;
  mret (card, n).
Definition sb16_irq_handler : P D sound_card_sb16 :=
  _ ← inb (base_port dev + SB16_DSP_ACK16_PORT);
  _ ← sb16_conclude_dma16;
  mret (dev <| curr_start := 0 |> <| curr_end := 0 |>).
Definition sb16_dev_ioctl (request data : Z) : sound_card_sb16 * Z :=
  if request =? SB16_IOCTL_SET_SAMPLERATE then (dev <| sample_rate := u16 data |>, 0)
  else if request =? SB16_IOCTL_SET_STEREO then (dev <| stereo := negb (data =? 0) |>, 0)
  else if request =? SB16_IOCTL_GET_PERIOD then (dev, ISA_DMA_MAX_LEN / 2)
  else (dev, 0).
End card.

(** [dma] is the physical region that was allocated; [junk] the members of
    the allocation that are not set. *)
Definition create_sb16_card (junk : sound_card_sb16) (base_port dma : Z) : option sound_card_sb16 :=
  if (dma =? INVALID_ADDR) || (0x1000000 <=? dma) then None else
  Some (SoundCard base_port (dsp_major junk) (dsp_minor junk) (sample_rate junk) (stereo junk) (ADDR_TO_VIRT dma)
          SB16_MAX_BLK_SIZE 0 0 (curr_pgd junk)).
(** [None]: the card did not answer the reset. *)
Definition sb16_init (card : sound_card_sb16) : P D (option sound_card_sb16) :=
  reset ← sb16_dsp_reset card;
  if negb reset then mret None else
  _ ← sb16_dsp_write card SB16_DSP_CMD_GET_VERSION;
  major ← sb16_dsp_read card;
  minor ← sb16_dsp_read card;
  if negb (major =? 4) then panicf else mret (Some (card <| dsp_major := major |> <| dsp_minor := minor |>)).
End sb16.

(** ** One buffer at a time *)
Section playing.
  Context {D : Type} `{PortDevice D} `{SharedKernel D} (fuel : nat).

(** While a buffer is played another is refused and nothing is programmed;
    the interrupt that ends it makes the card accept one again. *)
Lemma sb16_write_busy dev buffer bytes nbytes pgd d :
  nbytes <> 0 -> curr_start dev <> 0 -> sb16_dev_write fuel dev buffer bytes nbytes pgd d = Some ((dev, - EAGAIN), d).
Proof.
  intros Hn Hc. unfold sb16_dev_write. destruct (Z.eqb_spec nbytes 0); [done|].
  destruct (Z.eqb_spec (curr_start dev) 0); done.
Qed.
Lemma sb16_write_takes dev buffer bytes nbytes pgd d card n d' :
  nbytes <> 0 -> sb16_dev_write fuel dev buffer bytes nbytes pgd d = Some ((card, n), d') ->
  n = - EAGAIN /\ card = dev \/ n = Z.min nbytes (dma_size dev) /\ curr_start card = buffer.
Proof.
  intros Hn. unfold sb16_dev_write. destruct (Z.eqb_spec nbytes 0); [done|].
  destruct (negb (curr_start dev =? 0)) eqn:E; [intros [= <- <- <-]; by left|].
  unfold mbind at 1, P_bind. cbn [mbind option_bind]. intros Hw. unfold mbind, P_bind in Hw.
  destruct (sb16_start_transfer _ _ _ _ _) as [[[] d1]|]; [|done]. cbn in Hw. injection Hw as <- <- <-. by right.
Qed.
Lemma sb16_irq_ends dev d card d' :
  (forall i j x (d : D), mutex_of i (set_mutex j x d) = if i =? j then x else mutex_of i d) ->
  sb16_irq_handler dev d = Some (card, d') ->
  curr_start card = 0 /\ mutex_of CHANNEL5_MUTEX d' = MUTEX_UNLOCKED.
Proof.
  intros Hm. unfold sb16_irq_handler, sb16_conclude_dma16, mutex_release_p, inb, in_, mbind, P_bind.
  destruct (port_in _ _ d) as [v d1]. cbn. intros [= <- <-]. split; [done|]. by rewrite Hm.
Qed.
End playing.
