(* ===== verification/Serial.v ===== *)
(** * Serial: drivers/serial.c, drivers/ps2.c and kernel/emu.c

    The serial lines, their use as the console and as a keyboard; the ports of
    the PS/2 controller and of the emulator. *)
From S2P Require Import Prelude CString Keyboard Ports Idt.

(** ** The PS/2 controller's ports and the emulator's *)
Definition PS2_DATA_PORT := 0x60.
Definition PS2_STATUS_PORT := 0x64.
Section small.
  Context {D : Type} `{PortDevice D}.
Definition ps2_read : P D Z := inb PS2_DATA_PORT.
Definition ps2_get_status : P D Z := inb PS2_STATUS_PORT.
Definition qemu_shutdown : P D unit := _ ← outw 0xB004 0x2000; outw 0x604 0x2000.
Definition qemu_debugc (c : Z) : P D unit := outb 0xE9 c.
(** A string ends at its zero; without one the loop leaves the array. *)
Fixpoint qemu_debug (s : list Z) : P D unit :=
  match s with
  | [] => panicf
  | c :: s => if c =? 0 then mret () else _ ← qemu_debugc c; qemu_debug s
  end.
End small.

(** ** Serial lines *)
Definition devices : list Z := [0x3F8; 0x2F8; 0x3E8; 0x2E8].
Definition TX (base : Z) := base + 0.
Definition DLAB_LO (base : Z) := base + 0.
Definition DLAB_HI (base : Z) := base + 1.
Definition INTR_ENABLE (base : Z) := base + 1.
Definition INTR_IDENT (base : Z) := base + 2.
Definition INTR_IDENT_NO_PENDING := 0x1.
Definition INTR_IDENT_RECV_LINE_STATUS := 0x6.
Definition INTR_IDENT_FIFO_ENABLE := 0xC0.
Definition LINE_CONTROL (base : Z) := base + 3.
Definition LINE_CONTROL_8BIT := 0x03.
Definition LINE_CONTROL_DLAB := 0x80.
Definition MODEM_CONTROL (base : Z) := base + 4.
Definition MODEM_CONTROL_DTR := 0x1.
Definition MODEM_CONTROL_RTS := 0x2.
Definition MODEM_CONTROL_OUT1 := 0x4.
Definition MODEM_CONTROL_OUT2 := 0x8.
Definition MODEM_CONTROL_LOOP := 0x10.
Definition LINE_STATUS (base : Z) := base + 5.
Definition LINE_STATUS_DR := 0x1.
Definition LINE_STATUS_THRE := 0x20.
Definition TEST_BYTE := 0xDE.

Section serial.
  Context {D : Type} `{PortDevice D} (fuel : nat) (base : Z).

(** [while (!(inb(LINE_STATUS) & bit))]. *)
Fixpoint line_wait (fuel : nat) (bit : Z) : P D unit :=
  match fuel with
  | O => panicf
  | S fuel => s ← inb (LINE_STATUS base); if Z.land s bit =? 0 then line_wait fuel bit else mret ()
  end.
Fixpoint serial_write (data : list Z) : P D unit :=
  match data with
  | [] => mret ()
  | c :: data => _ ← line_wait fuel LINE_STATUS_THRE; _ ← outb (TX base) c; serial_write data
  end.
(** [n - 1] characters and the terminator. *)
Fixpoint serial_read_loop (n : nat) : P D (list Z) :=
  match n with
  | O => mret [0]
  | S n => _ ← line_wait fuel LINE_STATUS_DR; c ← inb (TX base); l ← serial_read_loop n; mret (s8 c :: l)
  end.
Definition serial_read (n : Z) : P D (list Z) := serial_read_loop (Z.to_nat (n - 1)).

(** [uint8_t] masks of the initialisation. *)
Definition or_all (l : list Z) : Z := foldr Z.lor 0 l.
(** The handlers, and whether the line works and became the console. *)
Definition serial_console_setup (handler : Z) (intrs : list Z) : P D (list Z * bool) :=
  _ ← outb (INTR_ENABLE base) 0x0;
  _ ← outb (LINE_CONTROL base) (or_all [LINE_CONTROL_8BIT; LINE_CONTROL_DLAB]);
  _ ← outb (DLAB_LO base) 0x1;
  _ ← outb (DLAB_HI base) 0x0;
  _ ← outb (LINE_CONTROL base) LINE_CONTROL_8BIT;
  _ ← outb (INTR_IDENT base) (or_all [INTR_IDENT_RECV_LINE_STATUS; INTR_IDENT_FIFO_ENABLE; INTR_IDENT_NO_PENDING]);
  _ ← outb (MODEM_CONTROL base) (or_all [MODEM_CONTROL_DTR; MODEM_CONTROL_RTS; MODEM_CONTROL_OUT2]);
  _ ← outb (MODEM_CONTROL base)
        (or_all [MODEM_CONTROL_DTR; MODEM_CONTROL_RTS; MODEM_CONTROL_OUT1; MODEM_CONTROL_OUT2; MODEM_CONTROL_LOOP]);
  _ ← outb (TX base) TEST_BYTE;
  tbyte ← inb (TX base);
  if negb (tbyte =? TEST_BYTE) then mret (intrs, false) else
  _ ← outb (MODEM_CONTROL base) (or_all [MODEM_CONTROL_DTR; MODEM_CONTROL_RTS; MODEM_CONTROL_OUT1; MODEM_CONTROL_OUT2]);
  let intrs := idt_register_interrupt 0x24 handler (idt_register_interrupt 0x23 handler intrs) in
  _ ← outb (INTR_ENABLE base) 0x1;
  mret (intrs, true).
End serial.

Section console.
  Context {D : Type} `{PortDevice D} (fuel : nat).
Definition serial_console_init (handler : Z) (intrs : list Z) (id : Z) : P D (list Z * bool) :=
  match devices !! Z.to_nat id with
  | None => mret (intrs, false)
  | Some base => serial_console_setup base handler intrs
  end.

(** The key of a character [c], a [char]. *)
Definition serial_event (c : Z) : keyboard_event :=
  let keycode :=
    if c =? 13 then KEY_RETURN else if c =? 0x7F then KEY_BACKSPACE else keycode_from_codepoint (u32 c) in
  KeyEvent keycode true (if (65 <=? c) && (c <=? 90) then KEYBOARD_MODIFIER_SHIFT else 0).
(** The event goes to [keyboard_current_event_handler]. *)
Definition serial_console_irq_handler : P D keyboard_event :=
  buf ← serial_read fuel 0x3F8 2; mret (serial_event (get 0 buf 0)).
End console.

(** ** A line, as specified

    [sent] are the bytes that went out; the transmitter is ready after its
    status was read [tx_busy] times. *)
Class Uart (D : Type) `{PortDevice D} (base : Z) := {
  sent : D -> list Z;
  tx_busy : D -> nat;
  tx_max : nat;
  tx_bound : forall d, (tx_busy d <= tx_max)%nat;
  status_read : forall d, exists v d', port_in W8 (u16 (LINE_STATUS base)) d = (v, d') /\ 0 <= v < 256
    /\ (Z.land v LINE_STATUS_THRE =? 0) = negb (tx_busy d =? 0)%nat /\ tx_busy d' = pred (tx_busy d) /\ sent d' = sent d;
  byte_written : forall d v, tx_busy d = 0%nat -> 0 <= v < 256 -> sent (port_out W8 (u16 (TX base)) v d) = sent d ++ [v]
}.

Section sending.
  Context {D : Type} `{Hp : PortDevice D} (base : Z) `{Hu : !Uart D base} (fuel : nat) (Hfuel : (tx_max < fuel)%nat).
Lemma line_wait_spec d : exists d', line_wait base fuel LINE_STATUS_THRE d = Some (tt, d') /\ tx_busy d' = 0%nat /\ sent d' = sent d.
Proof.
  assert (tx_busy d < fuel)%nat as Hf by (pose proof (tx_bound d); lia). clear Hfuel.
  revert d Hf. induction fuel as [|f IH]; intros d Hf; [lia|].
  destruct (status_read d) as (v&d'&E&Hv&Hb&Hb'&Hs). cbn [line_wait]. unfold mbind, P_bind.
  assert (inb (LINE_STATUS base) d = Some (v, d')) as -> by (unfold inb, in_; rewrite E; simpl; by rewrite u8_id).
  cbn [mbind option_bind]. rewrite Hb. destruct (tx_busy d) as [|n]; cbn [negb Nat.eqb].
  - exists d'. by rewrite Hb'.
  - destruct (IH d') as (d2&E2&?&?); [simpl in *; lia|]. exists d2. rewrite <- Hs. done.
Qed.
(** A write sends the bytes, in order, and returns. *)
Lemma serial_write_sends data : forall d,
  exists d', serial_write fuel base data d = Some (tt, d') /\ sent d' = sent d ++ (u8 <$> data).
Proof.
  induction data as [|c data IH]; intros d; [exists d; split; [done|]; by rewrite app_nil_r|].
  destruct (line_wait_spec d) as (d1&E1&Hb1&Hs1). destruct (IH (port_out W8 (u16 (TX base)) (u8 c) d1)) as (d2&E2&Hs2).
  exists d2. split.
  - cbn [serial_write]. unfold mbind at 1, P_bind at 1. rewrite E1. exact E2.
  - rewrite Hs2, byte_written, Hs1 by (done || apply u8_range). by rewrite <- app_assoc.
Qed.
End sending.

(** A line with a transmitter that takes two polls. *)
#[local] Instance line_ports : PortDevice (list Z * nat) := {|
  port_in w p d := if p =? 0x3FD then (match snd d with O => 0x20 | _ => 0 end, (fst d, pred (Nat.min 2 (snd d)))) else (0, d);
  port_out w p v d := if p =? 0x3F8 then (fst d ++ [v], 2%nat) else d
|}.
#[local, program] Instance line_uart : Uart (list Z * nat) 0x3F8 :=
  {| sent := fst; tx_busy d := Nat.min 2 (snd d); tx_max := 2 |}.
Next Obligation. intros d. apply Nat.le_min_l. Qed.
Next Obligation.
  intros [l n]. do 2 eexists. split; [reflexivity|]. simpl. destruct n as [|[|n]]; repeat split; lia.
Qed.
Next Obligation. done. Qed.
Example serial_write_hello : exists d', serial_write 3 0x3F8 (str "hello") ([], 0%nat) = Some (tt, d') /\ fst d' = str "hello".
Proof. eexists. split; vm_compute; reflexivity. Qed.

Example serial_return : serial_event 13 = KeyEvent KEY_RETURN true 0.
Proof. reflexivity. Qed.
Example serial_capital : serial_event 65 = KeyEvent KEY_A true KEYBOARD_MODIFIER_SHIFT.
Proof. reflexivity. Qed.
