(* ===== verification/Multiboot.v ===== *)
(** * Multiboot: kernel/multiboot.c, include/depthos/multiboot.h and framebuffer.h

    What the boot loader hands over: the command line, the modules, the map of
    memory and the framebuffer with its device. *)
From S2P Require Import Prelude Words CString Bitmap Pmm Vmm.

Definition MULTIBOOT_FLAG_CMDLINE := 0x4.
Definition MULTIBOOT_FLAG_MODULES := 0x8.
Definition MULTIBOOT_FLAG_MMAP := 0x40.
Definition MULTIBOOT_FLAG_FB := 0x1000.
Definition MULTIBOOT_MMAP_AREA_AVAILABLE := 1.
Definition MULTIBOOT_FRAMEBUFFER_RGB := 1.
Definition FRAMEBUFFER_IOCTL_NVARINFO := 1.
Definition FRAMEBUFFER_IOCTL_NSTINFO := 2.
Definition FRAMEBUFFER_IOCTL_NSETVARINFO := 3.

(** The members that are used. [mods] are the modules' start and end, [mmap]
    the memory from the map on, [cmdline] that from the command line on. *)
Record multiboot_information := MultibootInfo {
  mb_flags : Z; cmdline : list Z; mods_count : Z; mods : list (Z * Z); mmap_length : Z; mmap : list Z;
  framebuffer_addr : Z; framebuffer_pitch : Z; framebuffer_width : Z; framebuffer_height : Z; framebuffer_bpp : Z;
  framebuffer_type : Z
}.
Definition has_feature (b : multiboot_information) (flag : Z) : bool := negb (Z.land (mb_flags b) flag =? 0).

(** ** The map of memory

    An entry's [size] does not count itself; the entry's members follow it. *)
Definition le64 (m : list Z) (o : Z) : Z := Z.lor (le32 m o) (Z.shiftl (le32 m (o + 4)) 32).
Fixpoint mmap_loop (fuel : nat) (m : list Z) (length o mem_length : Z) : option Z :=
  match fuel with
  | O => None
  | S fuel =>
      if o <? length then
        let mem_length := if le32 m (o + 20) =? MULTIBOOT_MMAP_AREA_AVAILABLE then u64 (mem_length + le64 m (o + 12)) else mem_length in
        mmap_loop fuel m length (o + le32 m o + 4) mem_length
      else Some mem_length
  end.
(** The value of [__total_memory], a [size_t]. *)
Definition multiboot_load_mmap (m : list Z) (length : Z) : option Z :=
  u32 <$> mmap_loop (S (Z.to_nat length)) m length 0 0.

(** ** The framebuffer device *)
Record framebuffer_stinfo := StInfo { fb_width : Z; fb_height : Z; fb_pitch : Z; fb_bpp : Z }.
Record framebuffer_varinfo := VarInfo { xres : Z; yres : Z }.
Record multiboot_fb_dev_impl := FbImpl { static_info : framebuffer_stinfo; variable_info : framebuffer_varinfo; fb_phys_addr : Z }.
(** What a request stores at [data]. *)
Inductive fb_data := NoData | StoreVar (v : framebuffer_varinfo) | StoreSt (s : framebuffer_stinfo).
(** The result is [None] where the function ends without one. *)
Definition multiboot_fb_ioctl (impl : multiboot_fb_dev_impl) (request : Z) (arg : framebuffer_varinfo)
  : multiboot_fb_dev_impl * fb_data * option Z :=
  if request =? FRAMEBUFFER_IOCTL_NVARINFO then (impl, StoreVar (variable_info impl), None)
  else if request =? FRAMEBUFFER_IOCTL_NSTINFO then (impl, StoreSt (static_info impl), None)
  else if request =? FRAMEBUFFER_IOCTL_NSETVARINFO then
    if (fb_width (static_info impl) <? xres arg) || (fb_height (static_info impl) <? yres arg) then (impl, NoData, Some EINVAL)
    else (FbImpl (static_info impl) (VarInfo (xres arg) (yres arg)) (fb_phys_addr impl), NoData, None)
  else (impl, NoData, Some ENOIOCTL).
(** [pitch] and [height] are promoted to [int]. *)
Definition multiboot_fb_mmap (impl : multiboot_fb_dev_impl) (area : vm_area) : vm_area * Z :=
  let limit := u32 (fb_pitch (static_info impl) * fb_height (static_info impl)) in
  (VmArea (n_proc area) (addr area) (va_size area) limit (u32 (ceil_div limit PAGE_SIZE)) (fb_phys_addr impl) (va_pgd area)
     (Vmm.flags area) (file area) (file_off area) (ops area), 0).

(** ** Booting *)

(** What the command line asks for: the serial console, no colours, graphics. *)
Definition cmdline_flag (b : multiboot_information) (flag : list Z) : option bool :=
  if has_feature b MULTIBOOT_FLAG_CMDLINE then r ← strstr (cmdline b) flag; Some (match r with Some _ => true | None => false end)
  else Some false.
Record boot_options := BootOptions { opt_serial : bool; opt_no_color : bool; opt_graphics : bool; boot_imalloc : option Z; boot_memory : option Z }.
(** [boot_imalloc]: the new [imalloc_ptr], the end of the last module;
    [boot_memory]: [__total_memory]. *)
Definition multiboot_init_early (b : multiboot_information) : option boot_options :=
  serial ← cmdline_flag b (cstring (str "console=ttyS0"));
  no_color ← cmdline_flag b (cstring (str "console_no_color"));
  graphics ← cmdline_flag b (cstring (str "graphics"));
  imalloc ← (if has_feature b MULTIBOOT_FLAG_MODULES && (0 <? mods_count b)
             then m ← mods b !! Z.to_nat (mods_count b - 1); Some (Some (ADDR_TO_VIRT (snd m))) else Some None);
  memory ← (if has_feature b MULTIBOOT_FLAG_MMAP && (0 <? mmap_length b)
            then x ← multiboot_load_mmap (mmap b) (mmap_length b); Some (Some x) else Some None);
  Some (BootOptions serial no_color graphics imalloc memory).

(** [for (fa = addr; fa != pitch * height; fa += PAGE_SIZE)]: [None] when it
    has not ended after [fuel] frames. *)
Fixpoint fb_reserve (fuel : nat) (pmm : bitmap) (fa size : Z) : option bitmap :=
  match fuel with
  | O => None
  | S fuel => if fa =? size then Some pmm else fb_reserve fuel (pmm_set pmm fa 1 false) (u32 (fa + PAGE_SIZE)) size
  end.
(** The framebuffer device that is registered, if there is one, and the
    frames in use; the modules go to Initrd. *)
Definition multiboot_init_fb (fuel : nat) (b : multiboot_information) (pmm : bitmap)
  : option (bitmap * option multiboot_fb_dev_impl) :=
  if has_feature b MULTIBOOT_FLAG_FB && (framebuffer_type b =? MULTIBOOT_FRAMEBUFFER_RGB) then
    let impl := FbImpl (StInfo (u16 (framebuffer_width b)) (u16 (framebuffer_height b)) (u16 (framebuffer_pitch b)) (u8 (framebuffer_bpp b)))
                  (VarInfo (u16 (framebuffer_width b)) (u16 (framebuffer_height b))) (u32 (framebuffer_addr b)) in
    pmm ← fb_reserve fuel pmm (u32 (framebuffer_addr b)) (u32 (framebuffer_pitch b * framebuffer_height b));
    Some (pmm, Some impl)
  else Some (pmm, None).

(** ** What they do *)

(** Entries as a boot loader writes them. *)
Record mmap_entry := MmapEntry { me_addr : Z; me_length : Z; me_type : Z }.
Definition bytes_of (n : nat) (v : Z) : list Z := (fun i => u8 (Z.shiftr v (8 * i))) <$> seqZ 0 (Z.of_nat n).
Definition encode_entry (e : mmap_entry) : list Z :=
  bytes_of 4 20 ++ bytes_of 8 (me_addr e) ++ bytes_of 8 (me_length e) ++ bytes_of 4 (me_type e).
Definition encode_mmap (es : list mmap_entry) : list Z := concat (encode_entry <$> es).
Definition available (es : list mmap_entry) : Z :=
  foldr (fun e n => (if me_type e =? MULTIBOOT_MMAP_AREA_AVAILABLE then me_length e else 0) + n) 0 es.

Lemma u8_bit v k n : 0 <= k -> 0 <= n -> Z.testbit (u8 (Z.shiftr v k)) n = (n <? 8) && Z.testbit v (n + k).
Proof.
  intros. destruct (n <? 8) eqn:E; simpl.
  - rewrite testbit_u8 by lia. apply Z.shiftr_spec. lia.
  - unfold u8. change 0x100 with (2 ^ 8). apply Z.mod_pow2_bits_high. lia.
Qed.
Ltac byte_bits :=
  apply Z.bits_inj'; intros n Hn; unfold le16; cbn [get];
  repeat first [rewrite u8_bit by lia | progress rewrite ?andb_false_r, ?andb_true_r, ?orb_false_r, ?orb_true_r; cbn [andb orb]
                | bit_guard | bit_step]; try reflexivity; try (f_equal; lia).
Lemma le32_bytes v l o : 0 <= v < 2 ^ 32 -> 0 <= o -> (forall i, 0 <= i < 4 -> get 0 l (o + i) = u8 (Z.shiftr v (8 * i))) -> le32 l o = v.
Proof.
  intros Hv Ho Hl. unfold le32, le16.
  replace (o + 2 + 1) with (o + 3) by lia. rewrite <- (Z.add_0_r o) at 1.
  rewrite !Hl by lia. byte_bits.
  all: erewrite (testbit_high v 32) by (eassumption || lia); reflexivity.
Qed.
Lemma le64_bytes v l o : 0 <= v < 2 ^ 64 -> 0 <= o -> (forall i, 0 <= i < 8 -> get 0 l (o + i) = u8 (Z.shiftr v (8 * i))) -> le64 l o = v.
Proof.
  intros Hv Ho Hl. unfold le64.
  rewrite (le32_bytes (v mod 2 ^ 32)), (le32_bytes (Z.shiftr v 32)); try lia.
  - rewrite Z.shiftr_div_pow2, Z.shiftl_mul_pow2 by lia. rewrite Z.lor_comm.
    assert (Z.land (v / 2 ^ 32 * 2 ^ 32) (v mod 2 ^ 32) = 0) as Hand.
    { apply Z.bits_inj'. intros n Hn. rewrite Z.land_spec, Z.bits_0. destruct (decide (n < 32)).
      - by rewrite Z.mul_pow2_bits_low.
      - rewrite Z.mod_pow2_bits_high by lia. apply andb_false_r. }
    pose proof (Z.add_lor_land (v / 2 ^ 32 * 2 ^ 32) (v mod 2 ^ 32)). pose proof (Z.div_mod v (2 ^ 32)). lia.
  - rewrite Z.shiftr_div_pow2 by lia. split; [apply Z.div_pos; lia|]. apply Z.div_lt_upper_bound; lia.
  - intros i Hi. replace (o + 4 + i) with (o + (4 + i)) by lia. rewrite Hl, Z.shiftr_shiftr by lia. do 2 f_equal. lia.
  - apply Z.mod_pos_bound. lia.
  - intros i Hi. rewrite Hl by lia. apply Z.bits_inj'. intros n Hn. rewrite !u8_bit by lia.
    destruct (n <? 8) eqn:E; [|done]. simpl. by rewrite Z.mod_pow2_bits_low by lia.
Qed.

Lemma bytes_of_length n v : zlen (bytes_of n v) = Z.of_nat n.
Proof. unfold bytes_of. rewrite zlen_fmap. unfold zlen. rewrite length_seqZ. lia. Qed.
Lemma get_bytes_of n v i : 0 <= i < Z.of_nat n -> get 0 (bytes_of n v) i = u8 (Z.shiftr v (8 * i)).
Proof.
  intros Hi. unfold get, bytes_of. destruct (Z.ltb_spec i 0); [lia|].
  rewrite list_lookup_fmap, lookup_seqZ_lt by lia. simpl. do 2 f_equal. lia.
Qed.
Lemma encode_entry_length e : zlen (encode_entry e) = 24.
Proof. unfold encode_entry. rewrite !zlen_app, !bytes_of_length. lia. Qed.
(** The member of an entry that [pre] bytes come before. *)
Lemma get_member pre n v post i : 0 <= i < Z.of_nat n -> get 0 (pre ++ bytes_of n v ++ post) (zlen pre + i) = u8 (Z.shiftr v (8 * i)).
Proof.
  intros Hi. rewrite get_app_r by lia. rewrite get_app_l by (rewrite bytes_of_length; lia).
  rewrite get_bytes_of by lia. do 3 f_equal. lia.
Qed.
Definition entry_ok (e : mmap_entry) : Prop := 0 <= me_length e < 2 ^ 64 /\ 0 <= me_type e < 2 ^ 32.
Lemma entry_fields pre e post : entry_ok e ->
  let m := pre ++ encode_entry e ++ post in
  le32 m (zlen pre) = 20 /\ le64 m (zlen pre + 12) = me_length e /\ le32 m (zlen pre + 20) = me_type e.
Proof.
  intros [Hl Ht] m. unfold m, encode_entry. pose proof (zlen_nonneg pre). rewrite <- !app_assoc. split_and!.
  - apply le32_bytes; [lia|lia|]. intros i Hi. by apply get_member.
  - apply le64_bytes; [done|lia|]. intros i Hi.
    replace (zlen pre + 12 + i) with (zlen (pre ++ bytes_of 4 20 ++ bytes_of 8 (me_addr e)) + i)
      by (rewrite !zlen_app, !bytes_of_length; lia).
    rewrite <- (get_member (pre ++ bytes_of 4 20 ++ bytes_of 8 (me_addr e)) 8 (me_length e) (bytes_of 4 (me_type e) ++ post)) by lia.
    by rewrite <- !app_assoc.
  - apply le32_bytes; [done|lia|]. intros i Hi.
    replace (zlen pre + 20 + i) with (zlen (pre ++ bytes_of 4 20 ++ bytes_of 8 (me_addr e) ++ bytes_of 8 (me_length e)) + i)
      by (rewrite !zlen_app, !bytes_of_length; lia).
    rewrite <- (get_member (pre ++ bytes_of 4 20 ++ bytes_of 8 (me_addr e) ++ bytes_of 8 (me_length e)) 4 (me_type e) post) by lia.
    by rewrite <- !app_assoc.
Qed.
Lemma u64_add_l x y : u64 (u64 x + y) = u64 (x + y).
Proof. unfold u64. apply Zplus_mod_idemp_l. Qed.
Lemma mmap_loop_spec es : forall pre post fuel acc,
  Forall entry_ok es -> (length es < fuel)%nat ->
  mmap_loop fuel (pre ++ encode_mmap es ++ post) (zlen pre + 24 * zlen es) (zlen pre) (u64 acc) = Some (u64 (acc + available es)).
Proof.
  induction es as [|e es IH]; intros pre post fuel acc Hok Hf; (destruct fuel as [|fuel]; [simpl in Hf; lia|]).
  - simpl. rewrite (proj2 (Z.ltb_ge _ _)) by (unfold zlen; simpl; lia). by rewrite Z.add_0_r.
  - apply Forall_cons in Hok as [He Hok]. unfold encode_mmap. cbn [fmap list_fmap concat].
    rewrite <- app_assoc. fold (encode_mmap es).
    destruct (entry_fields pre e (encode_mmap es ++ post) He) as (E1&E2&E3).
    cbn [mmap_loop]. rewrite zlen_cons. pose proof (zlen_nonneg es). rewrite (proj2 (Z.ltb_lt _ _)) by lia. rewrite E1, E2, E3.
    specialize (IH (pre ++ encode_entry e) post fuel
      (acc + (if me_type e =? MULTIBOOT_MMAP_AREA_AVAILABLE then me_length e else 0)) Hok ltac:(simpl in Hf; lia)).
    rewrite zlen_app, encode_entry_length, <- app_assoc in IH.
    replace (zlen pre + 20 + 4) with (zlen pre + 24) by lia.
    replace (zlen pre + 24 * (zlen es + 1)) with (zlen pre + 24 + 24 * zlen es) by lia.
    cbn [available foldr]. fold (available es).
    destruct (me_type e =? MULTIBOOT_MMAP_AREA_AVAILABLE).
    + rewrite u64_add_l, IH. do 2 f_equal. lia.
    + rewrite Z.add_0_r in IH. rewrite IH. done.
Qed.
(** The memory that the boot loader's map makes available is counted, modulo
    2^32. *)
Lemma multiboot_load_mmap_total es post :
  Forall entry_ok es -> multiboot_load_mmap (encode_mmap es ++ post) (24 * zlen es) = Some (u32 (available es)).
Proof.
  intros Hok. unfold multiboot_load_mmap.
  pose proof (mmap_loop_spec es [] post (S (Z.to_nat (24 * zlen es))) 0 Hok) as Hm.
  change (zlen ([] : list Z)) with 0 in Hm. cbn [app] in Hm. rewrite Z.add_0_l in Hm. change (u64 0) with 0 in Hm. rewrite Hm by (unfold zlen; lia).
  cbn [fmap option_fmap option_map]. f_equal. unfold u64, u32. rewrite Z.add_0_l. symmetry.
  apply Znumtheory.Zmod_div_mod; [lia|lia|]. by exists 0x100000000.
Qed.
(** Four gigabytes count as none. *)
Lemma multiboot_four_gigabytes : multiboot_load_mmap (encode_mmap [MmapEntry 0 (2 ^ 32) 1]) 24 = Some 0.
Proof. vm_compute. reflexivity. Qed.

(** The loop that reserves the framebuffer ends at the frame numbered by the
    framebuffer's size, not at its end: when size and address differ by a part
    of a page it goes round for ever. *)
Lemma fb_reserve_hangs fuel : forall pmm fa size,
  0 <= fa < 2 ^ 32 -> 0 <= size < 2 ^ 32 -> fa mod 4096 <> size mod 4096 -> fb_reserve fuel pmm fa size = None.
Proof.
  induction fuel as [|fuel IH]; intros pmm fa size Hf Hs Hm; [done|]. simpl.
  destruct (Z.eqb_spec fa size) as [->|_]; [done|]. apply IH; [apply u32_range|done|].
  unfold u32, PAGE_SIZE. rewrite <- (Znumtheory.Zmod_div_mod 4096 0x100000000 (fa + 4096)) by (try lia; by exists 0x100000).
  rewrite <- (Z.mul_1_l 4096) at 1. by rewrite Z.mod_add.
Qed.
