(* ===== verification/Syscall.v ===== *)
(** * Syscall: kernel/syscall.c and the numbering of syscall_decl.inc

    The two system call interfaces.  A system call's function is applied to
    the five words that are pushed for it; the tables of functions are
    parameters. *)
From S2P Require Import Prelude Pmm Paging UserMem Kernel.

Definition sysargs := list Z.
Definition syscall_fn := sysargs -> K Z.

(** The registers that the arguments come from, first to last. *)
Definition arg_registers : list register := [ebx; ecx; edx; esi; edi].
Fixpoint get_args (regs : Z) (rs : list register) : K sysargs :=
  match rs with [] => mret [] | r :: rs => x ← get_reg regs r; l ← get_args regs rs; mret (x :: l) end.
(** A null function is called all the same. *)
Definition exec_syscall (regs : Z) (function : option syscall_fn) : K unit :=
  c ← current;
  _ ← (if c =? 0 then mret tt else on_task c (fun t => t <| t_regs := regs |>));
  args ← get_args regs arg_registers;
  match function with
  | None => undefined
  | Some f => ret ← f args; put_reg regs eax (u32 ret)
  end.

(** [syscall_entries] has an entry for each number below its length; 0 is
    none. *)
Definition syscall_handler (syscall_entries : list (option syscall_fn)) (regs : Z) : K unit :=
  n ← get_reg regs eax;
  match syscall_entries !! Z.to_nat n with
  | Some (Some f) =>
      _ ← modify (fun s => s <| k_errno := 0 |>);
      exec_syscall regs (Some f)
  | _ => put_reg regs eax (u32 (- ENOSYS))
  end.

Record posix_functions := PosixFunctions { px_exit : syscall_fn; px_fork : syscall_fn; px_write : syscall_fn; px_execve : syscall_fn }.
Definition resolve_posix_syscall_no (f : posix_functions) (no : Z) : option syscall_fn :=
  if no =? 0x1 then Some (px_exit f) else if no =? 0x2 then Some (px_fork f)
  else if no =? 0x4 then Some (px_write f) else if no =? 0xB then Some (px_execve f) else None.
Definition posix_syscall_handler (f : posix_functions) (regs : Z) : K unit :=
  n ← get_reg regs eax; exec_syscall regs (resolve_posix_syscall_no f n).

(** [copy_userspace_ptr]: the bytes at a user address. *)
Definition copy_userspace_ptr (ptr size : Z) : K (list Z) :=
  s ← get_state;
  opt (mapM (fun i => mload (Space (cr3 s) (k_pages s)) (u32 (ptr + i))) (seqZ 0 size)).

(** ** Dispatch *)

(** A frame with the six registers of a call: the number and the arguments. *)
Definition frame_at (s : kstate) (regs n : Z) (args : sysargs) : Prop :=
  k_stacks s !! (regs + reg_offset eax) = Some n
  /\ Forall2 (fun r x => k_stacks s !! (regs + reg_offset r) = Some x) arg_registers args.
Lemma run_get_args rs : forall regs args s,
  Forall2 (fun r x => k_stacks s !! (regs + reg_offset r) = Some x) rs args -> get_args regs rs s = Some (Return args, s).
Proof.
  induction rs as [|r rs IH]; intros regs args s H; inversion H as [|? x ? l Hx Hl]; subst; [done|].
  cbn [get_args]. unfold get_reg, stack_word. kstep. erewrite run_bind by by apply IH. done.
Qed.

(** A number that has no function fails with [ENOSYS] and changes nothing
    else. *)
Lemma syscall_unknown entries regs n s :
  k_stacks s !! (regs + reg_offset eax) = Some n -> entries !! Z.to_nat n = None \/ entries !! Z.to_nat n = Some None ->
  syscall_handler entries regs s
  = Some (Return tt, s <| k_stacks := <[regs + reg_offset eax := u32 (- ENOSYS)]> (k_stacks s) |>).
Proof.
  intros Hn He. unfold syscall_handler, get_reg, stack_word. kstep. by destruct He as [-> | ->].
Qed.
Lemma exec_syscall_runs regs args (f : syscall_fn) s c t r s' :
  Forall2 (fun r x => k_stacks s !! (regs + reg_offset r) = Some x) arg_registers args ->
  current_task s = c -> c <> 0 -> k_tasks s !! c = Some t ->
  f args (s <| k_tasks := <[c := t <| t_regs := regs |>]> (k_tasks s) |>) = Some (Return r, s') ->
  exec_syscall regs (Some f) s = Some (Return tt, s' <| k_stacks := <[regs + reg_offset eax := u32 r]> (k_stacks s') |>).
Proof.
  intros Ha <- Hc Ht Hf. unfold exec_syscall. erewrite (run_bind current) by reflexivity. cbv beta.
  destruct (Z.eqb_spec (current_task s) 0); [done|].
  erewrite run_bind by exact (run_on_task _ _ s t Ht). cbv beta.
  set (s1 := s <| k_tasks := <[current_task s := t <| t_regs := regs |>]> (k_tasks s) |>) in *.
  assert (get_args regs arg_registers s1 = Some (Return args, s1)) as E.
  { apply run_get_args. eapply Forall2_impl; [exact Ha|]. intros r0 x Hx. exact Hx. }
  erewrite run_bind by exact E. cbv beta.
  by erewrite run_bind by exact Hf.
Qed.
(** A function gets the arguments in the order of the registers, runs for the
    task that called, whose [regs] are the frame and whose [errno] is clear,
    and its result is what the task finds in [eax]. *)
Lemma syscall_calls (entries : list (option syscall_fn)) regs n args (f : syscall_fn) s c t r s' :
  frame_at s regs n args -> entries !! Z.to_nat n = Some (Some f) -> current_task s = c -> c <> 0 -> k_tasks s !! c = Some t ->
  f args (s <| k_errno := 0 |> <| k_tasks := <[c := t <| t_regs := regs |>]> (k_tasks s) |>) = Some (Return r, s') ->
  syscall_handler entries regs s = Some (Return tt, s' <| k_stacks := <[regs + reg_offset eax := u32 r]> (k_stacks s') |>).
Proof.
  intros [Hn Ha] He Hs Hc Ht Hf. unfold syscall_handler, get_reg, stack_word. kstep. rewrite He. kstep.
  by apply (exec_syscall_runs regs args f (s <| k_errno := 0 |>) c t).
Qed.
(** The POSIX interface has no such check: a number it does not know calls
    the null address. *)
Lemma posix_unknown_crashes f regs n s args :
  frame_at s regs n args -> n <> 1 -> n <> 2 -> n <> 4 -> n <> 11 -> posix_syscall_handler f regs s = None.
Proof.
  intros [Hn Ha] H1 H2 H4 H11. unfold posix_syscall_handler, get_reg, stack_word. kstep.
  unfold resolve_posix_syscall_no. rewrite !(proj2 (Z.eqb_neq _ _)) by done.
  unfold exec_syscall. erewrite (run_bind current) by reflexivity. cbv beta.
  destruct (current_task s =? 0).
  - erewrite (run_bind (mret tt)) by reflexivity. by rewrite (run_bind (get_args _ _) _ _ args _ (run_get_args _ _ _ _ Ha)).
  - unfold on_task. destruct (k_tasks s !! current_task s) as [t|] eqn:E.
    + rewrite (run_bind (x ← get_task (current_task s); put_task (current_task s) (x <| t_regs := regs |>)) _ _ tt (s <| k_tasks := <[current_task s := t <| t_regs := regs |>]> (k_tasks s) |>));
        [|exact (run_on_task _ _ s t E)].
      set (s1 := s <| k_tasks := <[current_task s := t <| t_regs := regs |>]> (k_tasks s) |>) in *.
      rewrite (run_bind (get_args regs arg_registers) _ s1 args s1); [done|].
      apply run_get_args. eapply Forall2_impl; [exact Ha|]. intros r0 x Hx. exact Hx.
    + unfold mbind at 1, K_bind at 1. unfold mbind at 1, K_bind at 1. unfold get_task, Kernel.reads, opt. by rewrite E.
Qed.
