(* ===== verification/Printk.v ===== *)
(** * Printk: the printing of io/console.c, io/logging.c and the dumps of lib/bitmap.c

    [printk] formats with vformat and hands each chunk to the console
    provider.  A [%s] argument is a pointer: [mem] gives what is behind it.
    [ui0], [si0] are vformat's uninitialised locals. *)
From S2P Require Import Prelude CString Strconv VFormat Stdio Console Bitmap Kernel.

(** What [output_console] points to, with its [console_context]; the console
    unless another was chosen by [switch_console_provider]. *)
Class Provider (C : Type) := output_console : list Z -> C -> option C.
#[export] Instance console_provider : Provider console := console_output.

(** Strings that are passed to a format, named by their position from 1. *)
Definition strings (ss : list (list Z)) (a : Z) : list Z := get [] ss (a - 1).
Definition nostrings : Z -> list Z := strings [].

Section printk.
  Context {C : Type} `{Provider C} (ui0 si0 : Z).

(** The callback on the chunks, in the order of the calls. *)
Fixpoint output_chunks (chunks : list (list Z)) (c : C) : option C :=
  match chunks with [] => Some c | l :: chunks => c ← output_console l c; output_chunks chunks c end.
Definition putk (ch : Z) (c : C) : option C := output_console [ch] c.
Definition vprintk (mem : Z -> list Z) (fmt ap : list Z) (c : C) : option C :=
  match vformat mem fmt ap ui0 si0 with Done st => output_chunks (vs_out st) c | _ => None end.
Definition printk (mem : Z -> list Z) (fmt : String.string) (args : list Z) (c : C) : option C :=
  vprintk mem (cstring (str fmt)) args c.
End printk.
Arguments printk {C _} ui0 si0 mem fmt%_string_scope args c.

Section logging.
  Context {C : Type} `{Provider C} (ui0 si0 : Z).
  #[local] Notation printk := (printk ui0 si0).

(** ** io/logging.c *)
Definition LOG_BUFFER_SIZE := 1024.
(** The message goes through a static buffer. *)
Definition debug (mem : Z -> list Z) (buffer msg ap : list Z) (c : C) : option (list Z * C) :=
  '(buffer, _) ← vsnprintf mem buffer 0 LOG_BUFFER_SIZE msg ap ui0 si0;
  c ← printk (strings [buffer]) "%s" [1] c;
  Some (buffer, c).
(** A static buffer filled without a limit: a longer text is undefined. *)
Definition vsprintf_static (mem : Z -> list Z) (buffer msg ap : list Z) : option (list Z) :=
  '(buffer, n) ← vsprintf mem buffer 0 msg ap ui0 si0;
  if n <? LOG_BUFFER_SIZE then Some buffer else None.
(** With [KLOG_ENABLED] 0 the message is formatted and dropped. *)
Definition klogv (mem : Z -> list Z) (buffer msg ap : list Z) : option (list Z) := vsprintf_static mem buffer msg ap.

(** ** Dumps *)
Definition dump_registers (r : register -> Z) (c : C) : option C :=
  c ← printk nostrings "EIP=0x%x CS=0x%x EFLAGS=0x%x USERESP=0x%x STACK=0x%x
" [r eip; r cs; r eflags; r useresp; r ss] c;
  c ← printk nostrings "FS=0x%x GS=0x%x ES=0x%x DS=0x%x
" [r fs; r gs; r es; r ds] c;
  printk nostrings "EDI=0x%x ESI=0x%x EBP=0x%x ESP=0x%x EBX=0x%x EDX=0x%x ECX=0x%x EAX=0x%x
" [r edi; r esi; r ebp; r esp; r ebx; r edx; r ecx; r eax] c.

(** The bits from [i] on, [n] of them; [gap] is what follows bit [i]. *)
Fixpoint dump_bits (gap : Z -> C -> option C) (bm : bitmap) (n : nat) (i : Z) (c : C) : option C :=
  match n with
  | O => Some c
  | S n => c ← printk nostrings "%d" [b2z (bitmap_test bm i)] c; c ← gap i c; dump_bits gap bm n (i + 1) c
  end.
(** [e] is unsigned: the test for a negative one is void.  [i] is an [int]
    compared as unsigned. *)
Definition dump_end (bm : bitmap) (e : Z) : Z := if bm_size bm <? e then bm_size bm else e.
Definition bitmap_dump (bm : bitmap) (s e : Z) (c : C) : option C :=
  c ← dump_bits (fun _ => Some) bm (Z.to_nat (dump_end bm e - s)) s c;
  printk nostrings "
" [] c.
Definition bitmap_dump_pretty (bm : bitmap) (s e : Z) (c : C) : option C :=
  c ← dump_bits (fun i c => if ((i + 1) mod 8 =? 0) && (i <? u32 (bm_size bm - 1)) then printk nostrings " " [] c else Some c)
        bm (Z.to_nat (dump_end bm e - s)) s c;
  printk nostrings "
" [] c.
(** [width] is in hexadecimal digits; a width below 2 divides by zero. *)
Fixpoint dump_bytes (bm : bitmap) (width : Z) (n : nat) (i e : Z) (c : C) : option C :=
  match n with
  | O => Some c
  | S n =>
      c ← printk nostrings "%x" [Z.land (get 0 (bm_bits bm) i) 0xF] c;
      c ← printk nostrings "%x" [Z.shiftr (get 0 (bm_bits bm) i) 4] c;
      if i =? e then Some c else
      c ← (if i =? 0 then printk nostrings " " [] c
           else if width =? 0 then None
           else if u32 (i + 1) mod width =? 0 then
             c ← printk nostrings "
" [] c;
             printk nostrings "%-5lu " [u32 (u32 (i + 1) * bitmap_elem_size)] c
           else printk nostrings " " [] c);
      dump_bytes bm width n (i + 1) e c
  end.
Definition bitmap_dump_compact (bm : bitmap) (s e width : Z) (c : C) : option C :=
  if bm_size bm <=? s then Some c else
  let e := (if bm_size bm <=? e then bm_size bm - 1 else e) / bitmap_elem_size in
  let i := s / bitmap_elem_size in
  c ← printk nostrings "%-5lu " [0] c;
  c ← dump_bytes bm (width / 2) (Z.to_nat (e + 1 - i)) i e c;
  printk nostrings "

" [] c.
End logging.

(** ** bootlog, on the console *)
Definition LOG_STATUS_SUCCESS := 0.
Definition LOG_STATUS_ERROR := 1.
Definition LOG_STATUS_WARNING := 2.
Definition PINK_COLOR := 12.
Definition WBLUE_COLOR := 9.
Definition WGREEN_COLOR := 10.
Definition YELLOW_COLOR := 14.
Definition bootlog (msg : list Z) (status : Z) (c : console) : option console :=
  let log (text : list Z) (color : Z) :=
    c ← console_write (cstring (str "[")) c;
    c ← console_write_color (cstring text) (-1) color c;
    c ← console_write (cstring (str "] ")) c;
    c ← console_write_color msg (-1) WBLUE_COLOR c;
    console_write (cstring (str "
")) c in
  if status =? LOG_STATUS_SUCCESS then log (str "OK   ") WGREEN_COLOR
  else if status =? LOG_STATUS_ERROR then log (str "ERROR") PINK_COLOR
  else if status =? LOG_STATUS_WARNING then log (str "WARN ") YELLOW_COLOR
  else Some c.

(** ** Printing is writing the formatted text *)
Lemma console_output_app a b c : console_output (a ++ b) c = (c ← console_output a c; console_output b c).
Proof.
  revert c. induction a as [|x a IH]; intros c; [done|]. simpl. destruct (console_putchar (u8 x) c); [apply IH|done].
Qed.
Lemma output_chunks_concat chunks (c : console) : output_chunks chunks c = console_output (concat chunks) c.
Proof.
  revert c. induction chunks as [|l chunks IH]; intros c; [done|]. simpl. rewrite console_output_app.
  unfold output_console, console_provider. destruct (console_output l c); [apply IH|done].
Qed.
Lemma printk_text ui0 si0 mem fmt ds tl args (c : console) :
  str fmt = format_text ds tl -> args_ok mem ds args -> literal_ok tl ->
  printk ui0 si0 mem fmt args c = console_output (expected mem ds args ++ tl) c.
Proof.
  intros Hf Ha Hl. destruct (vformat_renders mem ds tl args ui0 si0 Ha Hl) as (st&Hrun&Hout).
  unfold printk, vprintk. rewrite Hf, Hrun, output_chunks_concat. by rewrite Hout.
Qed.

Lemma literal_okb l : forallb (fun c => negb (c =? 0) && negb (c =? 37)) l = true -> literal_ok l.
Proof.
  intros Hb. apply Forall_forall. intros x Hx. rewrite forallb_forall in Hb. apply list_elem_of_In in Hx. specialize (Hb x Hx). lia.
Qed.
Lemma field_unpadded lft zero p b : field lft zero 0 p b = p ++ b.
Proof.
  unfold field. pose proof (zlen_nonneg p). pose proof (zlen_nonneg b).
  replace (Z.to_nat (0 - (zlen p + zlen b))) with 0%nat by lia. cbn [replicate]. destruct lft, zero; rewrite ?app_nil_r; done.
Qed.

(** A call of printk: its format in parts, and the arguments. *)
Record print_call := PrintCall { pc_mem : Z -> list Z; pc_parts : list (list Z * directive); pc_tail : list Z; pc_args : list Z }.
Definition pc_ok (p : print_call) : Prop := args_ok (pc_mem p) (pc_parts p) (pc_args p) /\ literal_ok (pc_tail p).
Definition pc_text (p : print_call) : list Z := expected (pc_mem p) (pc_parts p) (pc_args p) ++ pc_tail p.
Fixpoint print_calls {C} `{Provider C} (ui0 si0 : Z) (ps : list print_call) (c : C) : option C :=
  match ps with
  | [] => Some c
  | p :: ps => c ← vprintk ui0 si0 (pc_mem p) (cstring (format_text (pc_parts p) (pc_tail p))) (pc_args p) c; print_calls ui0 si0 ps c
  end.

(** C39: calls of printk, one after the other, with formats of literals, [%%]
    and the conversions d, u, o, x, p, s, c, left and zero flags and widths:
    the console ends as if all the formatted texts had been written to it as
    one, whatever the uninitialised locals of the formatter hold; the screen
    keeps its size and the cursor stays on it. *)
Theorem printk_shows ui0 si0 ps c :
  Forall pc_ok ps -> con_ok c ->
  exists c', print_calls ui0 si0 ps c = Some c' /\ console_output (concat (pc_text <$> ps)) c = Some c' /\ con_ok c'.
Proof.
  intros Hps. revert c. induction Hps as [|p ps [Ha Hl] _ IH]; intros c Hc; [by exists c|].
  destruct (vformat_renders (pc_mem p) (pc_parts p) (pc_tail p) (pc_args p) ui0 si0 Ha Hl) as (st&Hrun&Hout).
  cbn [print_calls]. unfold vprintk. rewrite Hrun, output_chunks_concat, Hout. fold (pc_text p).
  cbn [fmap list_fmap concat]. rewrite console_output_app.
  destruct (console_output_total (pc_text p) c Hc) as (c1&->&Hc1). cbn [mbind option_bind].
  destruct (IH c1 Hc1) as (c'&?&?&?). by exists c'.
Qed.
Lemma printk_shows_witness : exists c', print_calls 5 6
    [PrintCall nostrings [(str "cpu ", Conv false true 3 Cd); (str " at ", Conv false false 0 Cu)] [10] [7; 90];
     PrintCall (strings [cstring (str "ok")]) [(str "  ", Pct); ([], Conv true false 4 Cs)] [] [1]] con_example = Some c'
  /\ console_output (str "cpu 007 at 90
  %ok  ") con_example = Some c'.
Proof.
  match goal with |- exists c', print_calls _ _ ?ps _ = _ /\ _ => destruct (printk_shows 5 6 ps con_example) as (c'&H1&H2&_) end.
  - assert (Hw : forall w, 0 <= w < 10 -> 0 <= w < 2 ^ 31) by lia.
    apply Forall_cons. split; [|apply Forall_singleton]; (split; [|by apply literal_okb]); cbn [pc_mem pc_parts pc_args args_ok].
    + split; [by apply literal_okb|]. split; [apply Hw; lia|]. split; [by intros [=]|]. split; [by apply literal_okb|].
      split; [apply Hw; lia|]. by split; [intros [=]|].
    + split; [by apply literal_okb|]. split; [by apply literal_okb|]. split; [apply Hw; lia|]. split; [|reflexivity].
      intros _. split; [by intros [=]|]. exists (str "ok"), []. split; [reflexivity|]. by split; [repeat constructor|].
  - by vm_compute.
  - exists c'. split; [exact H1|]. rewrite <- H2. by vm_compute.
Defined.
