(* ===== verification/Shell.v ===== *)
(** * Shell: kernel/shell.c, the debugging shell

    A line editor on the keyboard's events, the splitting of a line into
    words and the commands.  Files are opened through Vfs; reading one is an
    operation of its driver, a Section variable.  [user] and [hostname] are
    declared [const] and written to. *)
From S2P Require Import Prelude CString Console Vfs Keyboard Ports Printk.

Definition BLACK_COLOR := 0.
Definition GREEN_COLOR := 2.
Definition RED_COLOR := 4.
Definition BROWN_COLOR := 6.

(** The value of an enumerator. *)
#[export] Instance keycode_eq_dec : EqDecision keycode.
Proof. solve_decision. Defined.
Definition keycode_number (k : keycode) : Z :=
  match list_find (fun k' => k' = k) all_keycodes with Some (i, _) => Z.of_nat i | None => 0 end.

(** [sh_dev]: the hardware behind the ports. *)
Record shell {D : Type} := Shell {
  shell_buffer : list Z; shell_buffer_idx : Z;
  shell_playback_buffer : list Z; shell_playback_buffer_idx : Z; shell_executing : bool;
  user : list Z; hostname : list Z; command_argv : list Z; command_argc : Z;
  sh_console : console; sh_vfs : vfs; sh_dev : D
}.
Arguments shell : clear implicits.
#[export] Instance eta_shell {D} : Eta (shell D) := fun s =>
  Shell D (shell_buffer s) (shell_buffer_idx s) (shell_playback_buffer s) (shell_playback_buffer_idx s)
    (shell_executing s) (user s) (hostname s) (command_argv s) (command_argc s) (sh_console s) (sh_vfs s) (sh_dev s).

Section shell.
  Context {D : Type} `{PortDevice D}.
  (** As in Vfs: the drivers' operations and the allocations of [vfs_open]. *)
  Context (fs_open : Z -> vfs -> Z -> list Z -> option (vfs * Z)) (dev_class dev_idx : Z -> Z) (junk fresh1 fresh2 : list Z).
  (** The read operation of a file, if it has one: the buffer after it and its result. *)
  Context (fs_read : Z -> option (vfs -> list Z -> Z -> option (vfs * list Z * Z))).
  (** What [kmalloc(1024 + 1)] holds, vformat's locals, and the clock, which
      stands still in an interrupt. *)
  Context (heap_junk : list Z) (ui0 si0 pit_ticks : Z).

(** A call that prints. *)
Definition on_console (f : console -> option console) (s : shell D) : option (shell D) :=
  c ← f (sh_console s); Some (s <| sh_console := c |>).
Definition say (text : String.string) (bg fg : Z) : shell D -> option (shell D) :=
  on_console (console_write_color (cstring (str text)) bg fg).
#[local] Arguments say text%_string_scope bg fg s.

Definition command_prompt (s : shell D) : option (shell D) :=
  s ← on_console (console_write_color (user s) (-1) PINK_COLOR) s;
  s ← on_console (console_putchar_color 64 (-1) GREEN_COLOR) s;
  s ← on_console (console_write_color (hostname s) (-1) BROWN_COLOR) s;
  s ← on_console (console_putchar_color 35 (-1) GREEN_COLOR) s;
  on_console (console_putchar 32) s.

(** ** The commands *)
Definition argv (s : shell D) (i : Z) : list Z := drop (Z.to_nat (256 * i)) (command_argv s).
Definition word_is (s : shell D) (i : Z) (text : String.string) : option bool := streq (argv s i) (cstring (str text)).
#[local] Arguments word_is s i text%_string_scope.

Definition command_uname (s : shell D) : option (shell D) :=
  all ← (if 1 <? command_argc s then word_is s 1 "-a" else Some false);
  s ← say (if (all : bool) then "DEPTHOS_ARCTIC depthos 0.0.1 2019 i686 DepthOS" else "DepthOS") BLACK_COLOR GREEN_COLOR s;
  on_console (console_putchar 10) s.
Definition command_setuser (s : shell D) : option (shell D) :=
  if command_argc s <? 2 then say "No user specified" BLACK_COLOR RED_COLOR s
  else u ← strcpy (user s) (argv s 1); Some (s <| user := u |>).
Definition command_hostname (s : shell D) : option (shell D) :=
  if command_argc s <? 2 then say "No hostname specified" BLACK_COLOR RED_COLOR s
  else h ← strcpy (hostname s) (argv s 1); Some (s <| hostname := h |>).
Definition command_shutdown (s : shell D) : option (shell D) :=
  '(_, d) ← (outw 0xB004 0x2000 ≫= fun _ => outw 0x604 0x2000 ≫= fun _ => outw 0x4004 0x3400) (sh_dev s);
  Some (s <| sh_dev := d |>).
Definition command_time : shell D -> option (shell D) :=
  on_console (printk ui0 si0 nostrings "%dh %dm %ds %dms have passed since OS started
" [pit_ticks / 1000 / 60 / 60; pit_ticks / 1000 / 60; pit_ticks / 1000; pit_ticks mod 1000]).
(** The buffer is written at the result of the read, also at an error number. *)
Definition command_cat (s : shell D) : option (shell D) :=
  if command_argc s <? 2 then say "No file specified" BLACK_COLOR RED_COLOR s else
  '(v, file) ← vfs_open fs_open dev_class dev_idx junk fresh1 fresh2 (sh_vfs s) (argv s 1);
  let s := s <| sh_vfs := v |> in
  if file =? 0 then say "No such file or directory
" BLACK_COLOR RED_COLOR s else
  '(v, buffer, b) ← match fs_read file with Some read => read (sh_vfs s) heap_junk 1024 | None => Some (sh_vfs s, heap_junk, - ENOSYS) end;
  let s := s <| sh_vfs := v |> in
  if (b <? 0) || (1024 <? b) then None else
  on_console (printk ui0 si0 (strings [set buffer b 0]) "%s" [1]) s.
Definition help_line (c desc : String.string) : shell D -> option (shell D) :=
  on_console (printk ui0 si0 (strings [cstring (str c); cstring (str desc)]) "%-10s - %s
" [1; 2]).
#[local] Arguments help_line c%_string_scope desc%_string_scope s.
Definition command_help (s : shell D) : option (shell D) :=
  s ← help_line "uname" "Output OS version and hostname" s;
  s ← help_line "setuser" "Change username" s;
  s ← help_line "hostname" "Change hostname" s;
  s ← help_line "clear" "Clear console" s;
  s ← help_line "time" "Output elapsed time from the boot" s;
  help_line "shutdown" "Shutdown the OS" s.

(** The chain of [else if]: the first name that is [argv[0]], in order. *)
Fixpoint run_first (cmds : list (String.string * (shell D -> option (shell D)))) (s : shell D) : option (shell D) :=
  match cmds with
  | [] => Some s
  | (name, run) :: cmds => found ← word_is s 0 name; if (found : bool) then run s else run_first cmds s
  end.
Definition command (name : String.string) (run : shell D -> option (shell D)) := (name, run).
#[local] Arguments command name%_string_scope run.
Definition commands : list (String.string * (shell D -> option (shell D))) :=
  [command "uname" command_uname; command "setuser" command_setuser; command "shutdown" command_shutdown;
   command "exit" command_shutdown; command "clear" (on_console (fun c => Some (console_clear c)));
   command "hostname" command_hostname; command "time" command_time; command "cat" command_cat; command "help" command_help].

(** The playback buffer is printed and its index reset; its text stays. *)
Definition execute_command (s : shell D) : option (shell D) :=
  let s := s <| shell_executing := true |> in
  '(words, n) ← strsplt (shell_buffer s) (command_argv s) 256 0 32;
  let s := s <| command_argv := words |> <| command_argc := n |> in
  if n =? 0 then Some s else
  s ← run_first commands s;
  s ← on_console (console_write (shell_playback_buffer s)) s;
  Some (s <| shell_executing := false |> <| shell_playback_buffer_idx := 0 |>).

(** ** The keyboard *)
(** Its body is empty. *)
Definition standard_keycode_handler (s : shell D) : shell D := s.
(** [buffer[idx]]: [None] out of its bounds. *)
Definition put_char (buffer : list Z) (idx ch : Z) : option (list Z) :=
  if (0 <=? idx) && (idx <? zlen buffer) then Some (set buffer idx (s8 ch)) else None.
Definition shell_keyhandler (e : keyboard_event) (s : shell D) : option (shell D) :=
  let keycode := keycode_number (ev_keycode e) in
  if shell_executing s then
    b ← put_char (shell_playback_buffer s) (shell_playback_buffer_idx s) keycode;
    Some (standard_keycode_handler (s <| shell_playback_buffer := b |>
      <| shell_playback_buffer_idx := shell_playback_buffer_idx s + 1 |>))
  else
    match ev_keycode e with
    | KEY_RALT | KEY_LCTRL | KEY_RCTRL | KEY_LSHIFT | KEY_RSHIFT => Some s
    | KEY_RETURN =>
        b ← put_char (shell_buffer s) (shell_buffer_idx s) 0;
        let s := s <| shell_buffer := b |> <| shell_buffer_idx := 0 |> in
        s ← on_console (console_putchar 10) s;
        s ← execute_command s;
        command_prompt s
    | KEY_BACKSPACE =>
        if 0 <? shell_buffer_idx s then Some (standard_keycode_handler (s <| shell_buffer_idx := shell_buffer_idx s - 1 |>))
        else Some s
    | _ =>
        b ← put_char (shell_buffer s) (shell_buffer_idx s) keycode;
        Some (standard_keycode_handler (s <| shell_buffer := b |> <| shell_buffer_idx := shell_buffer_idx s + 1 |>))
    end.
(** The handler that is installed, and the first prompt. *)
Definition shell_eventloop (handler : keyboard_event -> shell D -> option (shell D)) (s : shell D)
  : option ((keyboard_event -> shell D -> option (shell D)) * shell D) :=
  s ← command_prompt s; Some (keyboard_set_handler (Some shell_keyhandler) handler, s).

Fixpoint shell_keys (es : list keyboard_event) (s : shell D) : option (shell D) :=
  match es with [] => Some s | e :: es => s ← shell_keyhandler e s; shell_keys es s end.

(** ** A line that is typed is the line that is run *)
Definition key_edits (l : list Z) (e : keyboard_event) : list Z :=
  match ev_keycode e with
  | KEY_RALT | KEY_LCTRL | KEY_RCTRL | KEY_LSHIFT | KEY_RSHIFT => l
  | KEY_BACKSPACE => take (length l - 1) l
  | k => l ++ [s8 (keycode_number k)]
  end.
(** No command runs, and [l] is what has been typed. *)
Record editing (s : shell D) (l : list Z) : Prop := Editing {
  ed_idle : shell_executing s = false;
  ed_idx : shell_buffer_idx s = zlen l;
  ed_size : zlen (shell_buffer s) = 1024;
  ed_text : exists r, shell_buffer s = l ++ r
}.
Definition only_line (s s' : shell D) : Prop :=
  s' = s <| shell_buffer := shell_buffer s' |> <| shell_buffer_idx := shell_buffer_idx s' |>.

Lemma set_at (l : list Z) x r v : set (l ++ x :: r) (zlen l) v = l ++ v :: r.
Proof.
  unfold set, zlen. destruct (Z.of_nat (length l) <? 0) eqn:E; [zbool; lia|]. rewrite Nat2Z.id.
  rewrite insert_app_r_alt by lia. by rewrite Nat.sub_diag.
Qed.
Lemma put_char_at l r ch :
  zlen (l ++ r) = 1024 -> zlen l < 1024 ->
  exists r', put_char (l ++ r) (zlen l) ch = Some ((l ++ [s8 ch]) ++ r') /\ zlen ((l ++ [s8 ch]) ++ r') = 1024.
Proof.
  intros Hz Hl. destruct r as [|x r]; [rewrite app_nil_r in Hz; lia|]. exists r. pose proof (zlen_nonneg l).
  unfold put_char. rewrite Hz. replace ((0 <=? zlen l) && (zlen l <? 1024)) with true by lia.
  rewrite set_at, <- app_assoc. split; [done|]. rewrite zlen_app in *. exact Hz.
Qed.
Lemma edit_append s l ch :
  editing s l -> zlen l < 1024 -> exists b, put_char (shell_buffer s) (shell_buffer_idx s) ch = Some b
    /\ editing (s <| shell_buffer := b |> <| shell_buffer_idx := shell_buffer_idx s + 1 |>) (l ++ [s8 ch]).
Proof.
  intros [Hi Hx Hz [r Hb]] Hl. rewrite Hb in Hz. destruct (put_char_at l r ch Hz Hl) as (r'&Hp&Hz').
  eexists. rewrite Hb, Hx. split; [exact Hp|]. constructor; [done| |done|by eexists].
  cbn. by rewrite zlen_app.
Qed.
Lemma edit_step s l e :
  editing s l -> zlen l < 1024 -> ev_keycode e <> KEY_RETURN ->
  exists s', shell_keyhandler e s = Some s' /\ editing s' (key_edits l e) /\ only_line s s'.
Proof.
  intros Hed Hl Hne. pose proof Hed as [Hi Hx Hz [r Hb]]. unfold shell_keyhandler, key_edits. rewrite Hi.
  destruct (edit_append s l (keycode_number (ev_keycode e)) Hed Hl) as (b&Hp&Hed').
  destruct (ev_keycode e); try done;
    try (rewrite Hp; cbn [mbind option_bind]; eexists; split; [reflexivity|]; split; [exact Hed'|done]);
    try (exists s; split; [reflexivity|]; split; [done|by destruct s]).
  destruct (0 <? shell_buffer_idx s) eqn:E.
  - eexists. split; [reflexivity|]. split; [|by destruct s].
    assert (length l <> 0)%nat by (intros E0; rewrite Hx in E; unfold zlen in E; rewrite E0 in E; done).
    constructor; [done| |done|].
    + cbn. rewrite Hx. unfold zlen. rewrite length_take. lia.
    + exists (drop (length l - 1) l ++ r). cbn. by rewrite app_assoc, take_drop.
  - exists s. split; [done|]. split; [|by destruct s]. destruct l; [done|]. rewrite Hx, zlen_cons in E. pose proof (zlen_nonneg l). lia.
Qed.
Lemma key_edits_length l e : zlen (key_edits l e) <= zlen l + 1.
Proof. unfold key_edits, zlen. destruct (ev_keycode e); rewrite ?length_app, ?length_take; cbn [length]; lia. Qed.

(** What is typed and not taken back is in the buffer. *)
Lemma shell_edits es s l :
  editing s l -> zlen l + zlen es <= 1024 -> Forall (fun e => ev_keycode e <> KEY_RETURN) es ->
  exists s', shell_keys es s = Some s' /\ editing s' (foldl key_edits l es) /\ only_line s s'.
Proof.
  revert s l. induction es as [|e es IH]; intros s l Hed Hl Hes.
  { exists s. split; [done|]. split; [done|by destruct s]. }
  apply Forall_cons in Hes as [He Hes]. rewrite zlen_cons in Hl. pose proof (zlen_nonneg es).
  destruct (edit_step s l e Hed ltac:(lia) He) as (s1&Hs1&Hed1&Ho1). pose proof (key_edits_length l e).
  destruct (IH s1 _ Hed1 ltac:(lia) Hes) as (s2&Hs2&Hed2&Ho2).
  exists s2. cbn [shell_keys]. rewrite Hs1. split; [exact Hs2|]. split; [done|].
  unfold only_line in *. rewrite Ho1 in Ho2. by destruct s, s2.
Qed.

(** The words of a line, and the table that holds them. *)
Definition line_words (l : list Z) : list (list Z) := fields 32 None l.
Definition words_in (d : list Z) (ws : list (list Z)) : Prop :=
  forall i f, ws !! i = Some f -> exists t, drop (256 * i) d = cstring f ++ t.

Lemma fields_nonul delim k l : nonul l -> Forall nonul (fields delim k l).
Proof.
  unfold nonul. revert k. induction l as [|x l IH]; intros k Hl; cbn [fields]; [by repeat constructor|].
  pose proof Hl as [Hx Hl']%Forall_cons. destruct (x =? delim).
  - destruct k as [[|k]|]; repeat (constructor || done); by apply IH.
  - specialize (IH k Hl'). destruct (fields delim k l) as [|f fs]; [by repeat constructor|].
    apply Forall_cons in IH as [Hf Hfs]. by repeat constructor.
Qed.
Lemma line_words_count l : zlen (line_words l) <= zlen l + 1.
Proof.
  unfold zlen, line_words. rewrite fields_length. pose proof (length_filter (fun c => c = 32) l). lia.
Qed.
Lemma split_line (l r dest : list Z) :
  nonul l -> zlen l < 1024 -> zlen dest = 1024 * 256 -> (forall f, f ∈ line_words l -> zlen f < 256) ->
  exists d, strsplt (cstring l ++ r) dest 256 0 32 = Some (d, zlen (line_words l)) /\ words_in d (line_words l).
Proof.
  intros Hl Hz Hd Hf. pose proof (line_words_count l).
  destruct (strsplt_loop_spec (S (length (cstring l ++ r))) r 256 0 32 l dest 0) as (d&Hrun&_&Hrows&_); try done.
  - unfold cstring. rewrite !length_app. lia.
  - intros f Hin. specialize (Hf f Hin). lia.
  - change (splits_left 0 0) with (@None nat). fold (line_words l). lia.
  - exists d. split; [exact Hrun|]. intros i f Hi. specialize (Hrows i f Hi). unfold row, slice in Hrows.
    exists (drop (length (cstring f)) (drop (256 * i) d)).
    replace (Z.to_nat (256 * (0 + Z.of_nat i))) with (256 * i)%nat in Hrows by lia.
    rewrite <- (take_drop (Z.to_nat (zlen f + 1)) (drop (256 * i) d)) at 1. rewrite Hrows. f_equal. f_equal.
    unfold cstring, zlen. rewrite length_app. cbn. lia.
Qed.

(** The command that a first word names. *)
Definition command_named (f : list Z) : option (shell D -> option (shell D)) :=
  snd <$> List.find (fun c => bool_decide (f = str (fst c))) commands.
Definition perform (f : list Z) (s : shell D) : option (shell D) :=
  match command_named f with Some run => run s | None => Some s end.
Lemma run_first_spec cmds f t s :
  argv s 0 = cstring f ++ t -> nonul f -> Forall (fun c => nonul (str (fst c))) cmds ->
  run_first cmds s = match snd <$> List.find (fun c => bool_decide (f = str (fst c))) cmds with Some run => run s | None => Some s end.
Proof.
  intros Ha Hf. induction cmds as [|[name run] cmds IH]; intros Hc; [done|]. apply Forall_cons in Hc as [Hn Hc].
  cbn [run_first List.find fst snd]. unfold word_is. rewrite Ha, <- (app_nil_r (cstring (str name))), streq_cstring by done.
  cbn [mbind option_bind]. case_bool_decide; [done|]. by apply IH.
Qed.

Lemma typed_length es l : zlen (foldl key_edits l es) <= zlen l + zlen es.
Proof.
  revert l. induction es as [|e es IH]; intros l; cbn [foldl]; [rewrite zlen_nil; lia|].
  specialize (IH (key_edits l e)). pose proof (key_edits_length l e). rewrite zlen_cons. lia.
Qed.
Lemma shell_keys_app es es' s : shell_keys (es ++ es') s = (s1 ← shell_keys es s; shell_keys es' s1).
Proof. revert s. induction es as [|e es IH]; intros s; [done|]. cbn. destruct (shell_keyhandler e s); cbn; [apply IH|done]. Qed.
Lemma app_cstring l r : (l ++ [s8 0]) ++ r = cstring l ++ r.
Proof. done. Qed.

#[local] Opaque console_putchar console_write strsplt run_first command_prompt.
(** Typing a line and Return runs the command that its first word names, in a
    state where [command_argv] holds the line's words, or none; then the prompt
    is shown.  The text is the numbers of the keys. *)
Lemma shell_runs_line es p m s :
  editing s [] -> Forall (fun e => ev_keycode e <> KEY_RETURN) es -> zlen es < 1024 -> zlen (command_argv s) = 1024 * 256 ->
  let l := foldl key_edits [] es in
  nonul l -> (forall f, f ∈ line_words l -> zlen f < 256) ->
  exists buffer d, words_in d (line_words l) /\
    shell_keys (es ++ [KeyEvent KEY_RETURN p m]) s =
    (c ← console_putchar 10 (sh_console s);
     s2 ← perform (List.hd [] (line_words l)) (s <| shell_buffer := buffer |> <| shell_buffer_idx := 0 |> <| sh_console := c |>
            <| shell_executing := true |> <| command_argv := d |> <| command_argc := zlen (line_words l) |>);
     s3 ← on_console (console_write (shell_playback_buffer s2)) s2;
     command_prompt (s3 <| shell_executing := false |> <| shell_playback_buffer_idx := 0 |>)).
Proof.
  intros Hed Hes Hlen Hargv l Hl Hw. destruct (shell_edits es s [] Hed) as (s1&Hs1&Hed1&Ho); [rewrite zlen_nil; lia|done|].
  fold l in Hed1. pose proof (typed_length es []) as Hll. fold l in Hll. rewrite zlen_nil in Hll.
  destruct (edit_append s1 l 0 Hed1 ltac:(lia)) as (b&Hp&[_ _ _ [r Hb]]). cbn in Hb.
  destruct (split_line l r (command_argv s) Hl ltac:(lia) Hargv Hw) as (d&Hsp&Hd).
  exists b, d. split; [done|]. rewrite shell_keys_app, Hs1. cbn [mbind option_bind shell_keys].
  unfold shell_keyhandler. rewrite (ed_idle _ _ Hed1). cbn [ev_keycode]. rewrite Hp. cbn [mbind option_bind].
  rewrite Ho. unfold on_console at 1. cbn.
  destruct (console_putchar 10 (sh_console s)) as [c|]; cbn [mbind option_bind]; [|done].
  unfold execute_command. cbn. rewrite Hb, app_cstring, Hsp. cbn [mbind option_bind].
  assert (Hnn : Forall nonul (line_words l)) by (by apply fields_nonul).
  destruct (line_words l) as [|f fs] eqn:Ew.
  { pose proof (fields_length 32 None l) as Hn. fold (line_words l) in Hn. by rewrite Ew in Hn. }
  apply Forall_cons in Hnn as [Hf _]. destruct (Hd 0%nat f eq_refl) as [t Ht].
  replace (zlen (f :: fs) =? 0) with false by (symmetry; apply Z.eqb_neq; rewrite zlen_cons; pose proof (zlen_nonneg fs); lia).
  rewrite (run_first_spec commands f t) by first [done | repeat constructor; done].
  unfold perform, command_named. cbn [List.hd].
  destruct (match snd <$> _ with Some run => run _ | None => _ end) as [s2|]; cbn [mbind option_bind]; [|done].
  destruct (on_console _ s2); cbn [mbind option_bind]; [|done].
  by destruct (command_prompt _).
Qed.

(** A name that fits replaces the host's; one that does not runs over it. *)
Lemma hostname_sets s ws h :
  words_in (command_argv s) ws -> ws !! 1%nat = Some h -> command_argc s = zlen ws -> nonul h ->
  (length h < length (hostname s))%nat ->
  command_hostname s = Some (s <| hostname := cstring h ++ drop (S (length h)) (hostname s) |>).
Proof.
  intros Hd Hh Hc Hn Hl. destruct (Hd 1%nat h Hh) as [t Ht]. unfold command_hostname, argv.
  apply lookup_lt_Some in Hh. rewrite Hc. unfold zlen. destruct (Z.of_nat (length ws) <? 2) eqn:E; [zbool; lia|].
  change (Z.to_nat (256 * 1)) with (256 * 1)%nat. rewrite Ht, strcpy_cstring by done. done.
Qed.

(** ** No command can be typed on the keyboard

    The keys' numbers are not their characters, and each name has a letter
    whose code is the number of a modifier or of no key with a scan code. *)
Definition reported_keys : list keycode :=
  List.filter (fun k => match k with
      | KEY_LALT | KEY_RALT | KEY_LCTRL | KEY_RCTRL | KEY_LSHIFT | KEY_RSHIFT | KEY_CAPSLOCK => false | _ => true end)
    (scancode_set_1 ++ scancode_set_1_shift).
Definition reported (e : keyboard_event) : Prop :=
  exists payload mods mods', ps2_keyboard_handle_scancode payload mods = Some (mods', Some e).
Lemma reported_key e : reported e -> ev_keycode e ∈ reported_keys.
Proof.
  intros (payload&mods&mods'&He). unfold ps2_keyboard_handle_scancode in He.
  destruct (_ !! _) as [k|] eqn:Ek; [|done]. cbn [mbind option_bind] in He.
  assert (Hin : In k (scancode_set_1 ++ scancode_set_1_shift)).
  { apply in_or_app. apply list_elem_of_lookup_2, list_elem_of_In in Ek. destruct (has_modifier _ _); tauto. }
  apply list_elem_of_In, filter_In. destruct k; try discriminate; injection He as <- <-; done.
Qed.
Definition keyboard_chars : list Z := (fun k => s8 (keycode_number k)) <$> reported_keys.
Lemma typed_chars es l :
  Forall reported es -> Forall (fun x => x ∈ keyboard_chars) l -> Forall (fun x => x ∈ keyboard_chars) (foldl key_edits l es).
Proof.
  revert l. induction es as [|e es IH]; intros l Hes Hl; [done|]. apply Forall_cons in Hes as [He Hes]. cbn [foldl]. apply IH; [done|].
  assert (Hlast : Forall (fun x => x ∈ keyboard_chars) (l ++ [s8 (keycode_number (ev_keycode e))])).
  { apply Forall_app. split; [done|]. apply Forall_singleton. apply list_elem_of_fmap. eexists. split; [done|]. by apply reported_key. }
  unfold key_edits. destruct (ev_keycode e); try done. by apply Forall_take.
Qed.
Lemma first_word_chars (Q : Z -> Prop) l : Forall Q l -> Forall Q (List.hd [] (line_words l)).
Proof.
  unfold line_words. induction l as [|x l IH]; intros Hl; [done|]. apply Forall_cons in Hl as [Hx Hl]. cbn [fields].
  destruct (x =? 32); [done|]. specialize (IH Hl). destruct (fields 32 None l); cbn in *; by constructor.
Qed.
Lemma keyboard_runs_no_command es :
  Forall reported es -> command_named (List.hd [] (line_words (foldl key_edits [] es))) = None.
Proof.
  intros Hes. pose proof (first_word_chars _ _ (typed_chars es [] Hes ltac:(constructor))) as Hc.
  set (f := List.hd _ _) in *. clearbody f. unfold command_named.
  assert (Hall : Forall (fun c => ~ Forall (fun x => x ∈ keyboard_chars) (str (fst c))) commands)
    by (repeat constructor; cbn [fst command]; apply (bool_decide_eq_true_1 _); vm_compute; done).
  destruct (List.find _ commands) as [[name run]|] eqn:Ef; [|done].
  apply find_some in Ef as [Hin Heq]. apply bool_decide_eq_true in Heq. rewrite Forall_forall in Hall.
  destruct (Hall (name, run)); [by apply list_elem_of_In|]. cbn [fst] in *. by rewrite <- Heq.
Qed.
End shell.

(** ** A line on the screen

    The keys whose numbers are the letters of a line, and what the screen
    shows after it. *)
Definition key_of (ch : Z) : keyboard_event := KeyEvent (List.nth (Z.to_nat ch) all_keycodes KEY_UNKNOWN) true 0.
Definition shell_example : shell recorder :=
  Shell recorder (replicate 1024 0) 0 (replicate 1024 0) 0 false
    (cstring (str "root") ++ replicate 59 0) (cstring (str "depthos") ++ replicate 56 0) (replicate (4 * 256) 0) 0
    (Console (replicate 240 0) 4 60 0 7 0 0 []) vfs_example (Recorder (fun _ _ _ => 0) []).
Definition type_line (line : String.string) : option (shell recorder) :=
  shell_keys (fun _ _ _ _ => None) id id [] [] [] (fun _ => None) [] 0 0 61000 ((key_of <$> str line) ++ [KeyEvent KEY_RETURN true 0]) shell_example.
Arguments type_line line%_string_scope.
Definition screen_line (i : Z) (s : shell recorder) : list Z := (fun w => Z.land w 0xFF) <$> slice (videoMemory (sh_console s)) (60 * i) 60.
Lemma shell_example_editing : editing shell_example [].
Proof. constructor; [done..|]. by eexists. Qed.
Lemma shell_shows_version :
  screen_line 1 <$> type_line "uname -a" = Some (str "DEPTHOS_ARCTIC depthos 0.0.1 2019 i686 DepthOS" ++ replicate 14 0)
  /\ screen_line 2 <$> type_line "uname -a" = Some (str "root@depthos# " ++ replicate 46 0).
Proof. by vm_compute. Qed.
Lemma shell_shows_time :
  screen_line 1 <$> type_line "time" = Some (str "0h 1m 61s 0ms have passed since OS started" ++ replicate 18 0).
Proof. by vm_compute. Qed.
