(* ===== verification/Boot.v ===== *)
(** * Boot: the file systems that kernel/kmain.c mounts, and its messages

    vfs_init and the mounts of kmain with their reports, in the order of the
    boot; what kmain calls in between belongs to the other components and is
    not part of the model.  The source of tmpfs_init is not in the repository:
    it is a Section variable. *)
From S2P Require Import Prelude CString Console Vfs Printk.

Section mounts.
  (** The drivers, as in Vfs, and the addresses of their operations. *)
  Context (fs_name : Z -> list Z) (fs_mount : Z -> option (vfs -> Z -> option (vfs * Z))).
  Context (initrdfs devfs_ops ext2_fs : Z) (tmpfs_init : vfs -> option vfs).

Definition initrdfs_init (s : vfs) : option vfs := vfs_register s initrdfs.
Definition devfs_init (s : vfs) : option vfs := vfs_register s devfs_ops.
Definition ext2_init (s : vfs) : option vfs := vfs_register s ext2_fs.

(** [vfs_mount(path, vfs_get_filesystem(name), dev)]. *)
Definition mount_named (path name : list Z) (device : Z) (s : vfs) : option (vfs * Z) :=
  f ← vfs_get_filesystem fs_name s name; vfs_mount fs_mount s path f device.
Definition vfs_init (s : vfs) : option vfs :=
  s ← initrdfs_init s;
  s ← devfs_init s;
  '(s, _) ← mount_named (cstring (str "/dev")) (cstring (str "devfs")) 0 s;
  Some s.
Definition log_mount (msg : list Z) (m : Z) (c : console) : option console :=
  bootlog msg (if m =? -1 then LOG_STATUS_ERROR else LOG_STATUS_SUCCESS) c.
(** From vfs_init to the mount of tmpfs. *)
Definition kmain_memory_disks (s : vfs) (c : console) : option (vfs * console) :=
  s ← vfs_init s;
  '(s, m) ← mount_named (cstring (str "/initrd")) (cstring (str "initrd")) 0 s;
  c ← log_mount (cstring (str "Mounting initial ramdisk")) m c;
  s ← tmpfs_init s;
  '(s, m) ← mount_named (cstring (str "/tmp")) (cstring (str "tmpfs")) 0 s;
  c ← log_mount (cstring (str "Mounting tmpfs")) m c;
  Some (s, c).
(** From ext2_init on; [fs_root_dev] is the device ata1 or 0.  The result tells
    whether kmain goes on: without the device it returns. *)
Definition kmain_root (fs_root_dev : Z) (s : vfs) (c : console) : option (vfs * console * bool) :=
  s ← ext2_init s;
  '(s, m) ← (if fs_root_dev =? 0 then Some (s, -1) else mount_named (cstring (str "/")) (cstring (str "ext2")) fs_root_dev s);
  c ← log_mount (cstring (str "Mounting root filesystem")) m c;
  Some (s, c, negb (fs_root_dev =? 0)).
End mounts.

(** ** Messages *)
Definition resolve_filetype (type : Z) : list Z :=
  cstring (if type =? FS_FILE then str "file" else if type =? FS_DIR then str "directory"
           else if type =? FS_PIPE then str "pipe" else str "unknown").
Definition console_write_color_centered (text : list Z) (bg fg : Z) (c : console) : option console :=
  n ← strlen text;
  let tmp := cursorx c in
  let c := console_flushc (with_cursor (strs_len c / 2 - n / 2) (cursory c) c) in
  c ← console_write_color text bg fg c;
  Some (with_cursor tmp (cursory c) c).
Definition console_write_centered (text : list Z) (c : console) : option console :=
  console_write_color_centered text (-1) (-1) c.
(** [CONFIG_WELCOME_FULLSCREEN] is not defined; [osver] is [OSVER]. *)
Definition welcome_message (osver : list Z) (c : console) : option console :=
  c ← console_putchar 10 c;
  c ← console_write_color (cstring (str "Welcome to DepthOS v")) (-1) WGREEN_COLOR c;
  c ← console_write_color osver (-1) WGREEN_COLOR c;
  console_putchar 10 c.

(** ** The mounts after the boot *)
Section spec.
  Context (fs_name : Z -> list Z) (fs_mount : Z -> option (vfs -> Z -> option (vfs * Z))).

(** A mount adds its path at the end of the table; the root's is found there. *)
Lemma vfs_mount_adds s paths p f device a rest :
  mounts_are s paths -> zlen paths < MAX_VFS_MOUNTS -> zlen (vfs_mounts s) = MAX_VFS_MOUNTS -> nonul p -> f <> 0 ->
  match fs_mount f with
  | None => fresh s = a :: rest /\ a <> 0
  | Some mnt => exists s1, mnt s device = Some (set_fsis s1 s, a) /\ a <> 0 /\ is_Some (s1 !! a)
  end ->
  exists s', vfs_mount fs_mount s (cstring p) f device = Some (s', zlen paths) /\ mounts_are s' (paths ++ [p])
    /\ zlen (vfs_mounts s') = MAX_VFS_MOUNTS /\ vfs_filesystems s' = vfs_filesystems s
    /\ root_mount s' = (if bool_decide (p = str "/") then zlen paths else root_mount s).
Proof.
  intros (Hc&Hn&Hm) Hlt Hlen Hp Hf Hmnt. unfold vfs_mount. destruct (Z.eqb_spec f 0); [done|].
  pose proof (streq_cstring p (str "/") [] [] Hp) as Hroot. rewrite !app_nil_r in Hroot.
  assert (Hst : exists s1 x, match fs_mount f with
      | Some mnt => mnt s device
      | None => '(s, a) ← kmalloc s; Some (set_fsis (<[a := Filesystem f 0 0]> (fsis s)) s, a) end = Some (s1, a)
    /\ a <> 0 /\ fsis s1 !! a = Some x /\ vfs_mounts_count s1 = vfs_mounts_count s /\ root_mount s1 = root_mount s
    /\ vfs_mounts s1 = vfs_mounts s /\ vfs_filesystems s1 = vfs_filesystems s).
  { destruct (fs_mount f) as [mnt|].
    - destruct Hmnt as (s1&->&Ha&[x Hx]). by exists (set_fsis s1 s), x.
    - destruct Hmnt as [Hfr Ha]. unfold kmalloc. rewrite Hfr. cbn [mbind option_bind].
      do 2 eexists. split; [done|]. split; [done|]. split; [apply lookup_insert_eq|]. done. }
  destruct Hst as (s1&x&->&Ha&Hx&Hc1&Hr1&Hm1&Hf1). cbn [mbind option_bind]. destruct (Z.eqb_spec a 0); [done|].
  rewrite Hx. cbn [mbind option_bind vfs_mounts_count set_fsis root_mount vfs_mounts].
  rewrite Hc1, Hc, Hr1, Hm1. destruct (MAX_VFS_MOUNTS <=? zlen paths) eqn:E; [zbool; lia|].
  rewrite Hroot by (by repeat constructor). cbn [mbind option_bind].
  eexists. split; [done|]. cbn [vfs_mounts vfs_filesystems root_mount set_mounts set_fsis].
  split_and!; [|by rewrite zlen_set|done|done].
  split_and!; cbn [vfs_mounts_count set_mounts].
  - by rewrite zlen_app.
  - apply Forall_app. split; [done|by apply Forall_singleton].
  - intros j q Hq. cbn [vfs_mounts set_mounts]. pose proof (zlen_nonneg paths). unfold set. destruct (zlen paths <? 0) eqn:?; [zbool; lia|].
    destruct (decide (j = length paths)) as [->|Hj].
    + rewrite lookup_app_r, Nat.sub_diag in Hq by lia. injection Hq as <-. eexists.
      unfold zlen at 1. rewrite Nat2Z.id, list_lookup_insert_eq by (unfold zlen in *; lia). done.
    + apply lookup_app_Some in Hq as [Hq|[Hge Hq]].
      * unfold zlen at 1. rewrite Nat2Z.id, list_lookup_insert_ne by done. by apply Hm.
      * destruct (j - length paths)%nat eqn:?; [lia|done].
Qed.
End spec.

(** The boot with file systems that need no mount of their own but ext2, which
    allocates: the four mounts in the order of the boot, "/" the root, and
    every path under one of the first three is found there. *)
Definition boot_name (f : Z) : list Z :=
  cstring (if f =? 1 then str "initrd" else if f =? 2 then str "devfs" else if f =? 3 then str "tmpfs" else str "ext2").
Definition boot_mount (f : Z) : option (vfs -> Z -> option (vfs * Z)) :=
  if f =? 4 then Some (fun s _ => '(s, a) ← kmalloc s; Some (set_fsis (<[a := Filesystem 4 0 7]> (fsis s)) s, a)) else None.
Definition boot_vfs : vfs := Vfs 0 (-1) (replicate 256 (Mount [] 0)) [] ∅ ∅ [11; 12; 13; 14].
Definition booted (s : vfs) (dev : Z) : option vfs :=
  '(s, c) ← kmain_memory_disks boot_name boot_mount 1 2 (fun s => vfs_register s 3) s con_example;
  '(s, _, _) ← kmain_root boot_name boot_mount 4 dev s c;
  Some s.
Lemma boot_mounts : exists s, booted boot_vfs 9 = Some s
  /\ take 4 (vfs_mounts s) = [Mount (cstring (str "/dev")) 11; Mount (cstring (str "/initrd")) 12; Mount (cstring (str "/tmp")) 13; Mount (cstring (str "/")) 14]
  /\ vfs_mounts_count s = 4 /\ root_mount s = 3
  /\ find_mount [0] s (cstring (str "/dev/tty0")) = Some 0 /\ find_mount [0] s (cstring (str "/initrd/kernel.map")) = Some 1
  /\ find_mount [0] s (cstring (str "/sbin/init")) = Some 3.
Proof. eexists. split; [by vm_compute|]. by vm_compute. Qed.
