(* ===== verification/Trace.v ===== *)
(** * Trace: kernel/trace.c, panic of io/logging.c and what is printed before the kernel stops

    The walk over the stack frames, with the symbols of Ksymbols, and the
    reports that use it: panics, the processor's exceptions, page faults and
    the dumps of the gates and of the heap.  A frame is read from the words of
    the kernel stacks and of the active space, as in Fault, which also says what
    happens when it cannot be read. *)
From S2P Require Import Prelude CString Strconv VFormat Stdio Console Pmm Heap Paging.
From S2P Require Import Vfs Initrd Ksymbols Kernel Gdt Ports Pic Idt Printk Fault.

Section trace.
  Context {C : Type} `{Provider C} (ui0 si0 : Z).
  #[local] Notation printk := (printk ui0 si0).
  Context (kernel_symbols : list kernel_symbol) (console_no_color : bool).

(** [ebp = ebp->next], [n] times or up to the end. *)
Fixpoint trace_skip (st : Z -> option Z) (n : nat) (ebp : Z) : option Z :=
  match n with
  | O => Some ebp
  | S n => if ebp =? 0 then Some 0 else next ← st ebp; trace_skip st n next
  end.
Definition trace_symbol (ret : Z) (c : C) : option C :=
  let unknown := printk nostrings "??
" [] c in
  if VIRT_BASE <=? ret then
    match ksymbols_lookup kernel_symbols ret false with
    | Some s => if (ks_type s =? 84) || (ks_type s =? 116)
                then printk (strings [ks_name s]) "%s+0x%x
" [1; u32 (ret - ks_address s)] c
                else unknown
    | None => unknown
    end
  else unknown.
Fixpoint trace_frames (st : Z -> option Z) (n : nat) (ebp : Z) (c : C) : option C :=
  match n with
  | O => Some c
  | S n =>
      if ebp =? 0 then Some c else
      c ← printk nostrings "	" [] c;
      ret ← st (u32 (ebp + 4));
      c ← printk nostrings "<%p> " [ret] c;
      c ← trace_symbol ret c;
      next ← st ebp;
      trace_frames st n next c
  end.
(** [CONFIG_TRACE_TASK_INFO] is defined. *)
Definition trace_task (s : kstate) (c : C) : option C :=
  if current_task s =? 0 then printk nostrings "
" [] c else
  t ← k_tasks s !! current_task s;
  c ← (if t_process t =? 0 then printk (strings [t_name t]) "kernel thread: %s" [1] c
       else p ← k_procs s !! t_process t;
            printk (strings [p_filepath p]) "thread: %s [%d]" [1; thid t] c);
  printk nostrings "
" [] c.
(** [ebp] is the frame pointer of [trace] itself. *)
Definition trace (skip max ebp : Z) (s : kstate) (c : C) : option C :=
  ebp ← trace_skip (frame_word s) (Z.to_nat skip) ebp;
  c ← printk nostrings "Call trace:
" [] c;
  c ← trace_frames (frame_word s) (Z.to_nat max) ebp c;
  trace_task s c.

(** Escape sequences around a report. *)
Definition escape (seq : list Z) (c : C) : option C :=
  if console_no_color then Some c else vprintk ui0 si0 nostrings (cstring (27 :: seq)) [] c.

(** [panic] does not return: the result is what is on the console when the
    processor is stopped. *)
Definition panic (buffer file loc : list Z) (line : Z) (mem : Z -> list Z) (format args : list Z) (ebp : Z)
    (s : kstate) (c : C) : option C :=
  buffer ← vsprintf_static ui0 si0 mem buffer format args;
  c ← escape (str "[31;1m") c;
  c ← printk (strings [loc; file; buffer]) "%s (%s:%d): kernel panic: %s
" [1; 2; line; 3] c;
  c ← escape (str "[0m") c;
  trace 1 20 ebp s c.

(** ** Exceptions of the processor *)
Section exceptions.
  (** The buffer of [panic], its place in the program and its frame. *)
  Context (buffer : list Z) (file : list Z) (line : Z) (ebp : Z).
Definition panicf (loc format : String.string) (args : list Z) (s : kstate) (c : C) : option C :=
  panic buffer file (cstring (str loc)) line nostrings (cstring (str format)) args ebp s c.
#[local] Arguments panicf loc%_string_scope format%_string_scope args s c.
Definition except_gpf_handler (r : register -> Z) : kstate -> C -> option C :=
  if negb (r err_code =? 0)
  then panicf "except_gpf_handler" "General Protection Fault at %p for selector %x" [r eip; r err_code]
  else panicf "except_gpf_handler" "General Protection Fault at %p (%x)" [r eip; r err_code].
Definition except_zero_handler (s : kstate) (c : C) : option C :=
  c ← printk nostrings "ZERO!=============================
" [] c;
  panicf "except_zero_handler" "Zero devision" [] s c.
Definition except_non_maskable_interrupt : kstate -> C -> option C :=
  panicf "except_non_maskable_interrupt" "Non-maskable interrupt" [].
Definition except_breakpoint_handler : kstate -> C -> option C := panicf "except_breakpoint_handler" "Breakpoint" [].
Definition except_invalid_op : kstate -> C -> option C := panicf "except_invalid_op" "Invalid opcode" [].
End exceptions.

(** ** The report of a page fault, before the task or the kernel is stopped *)
Definition pagefault_bit (err i : Z) : Z := b2z (negb (Z.land err (Z.shiftl 1 i) =? 0)).
Definition pagefault_report (r : register -> Z) (cr2 ebp : Z) (s : kstate) (c : C) : option C :=
  c ← escape (str "[31;1m") c;
  c ← printk nostrings "page fault at %p for accessing %p: " [r eip; cr2] c;
  let bit := pagefault_bit (r err_code) in
  c ← printk nostrings "0x%x (pres=%d rw=%d super=%d reserved=%d id=%d)
" [r err_code; bit 0; bit 1; bit 2; bit 3; bit 4] c;
  c ← escape (str "[0m") c;
  c ← dump_registers ui0 si0 r c;
  trace 3 (u32 (-1)) ebp s c.

(** ** A task, as the scheduler prints it *)
Section tasks.
  (** What the local buffer of a line holds. *)
  Context (buffer : list Z).
Definition print_field (name : String.string) (mem : Z -> list Z) (fmt : String.string) (args : list Z) (c : C) : option C :=
  '(line, _) ← vsnprintf mem buffer 0 512 (cstring (str fmt)) args ui0 si0;
  c ← printk (strings [cstring (str name); line]) "	| %-15s | %-50s |
" [1; 2] c;
  printk (strings [set (blit line 0 (replicate 72 61)) 72 0]) "	%s
" [1] c.
#[local] Arguments print_field name%_string_scope mem fmt%_string_scope args c.
Definition dump_task (s : kstate) (t : task) (c : C) : option C :=
  c ← (if t_process t =? 0 then Some c
       else p ← k_procs s !! t_process t; printk (strings [p_filepath p]) "thread %s [%d]: " [1; thid t] c);
  c ← printk (strings [t_name t]) "%s: " [1] c;
  c ← printk nostrings "
" [] c;
  c ← (if t_entry t =? 0 then Some c else print_field "entry" nostrings "0x%x" [t_entry t] c);
  c ← print_field "stack" nostrings "0x%x-0x%x" [kernel_stack t; kernel_esp t] c;
  c ← print_field "regs" nostrings "0x%x-0x%x (+%d)" [t_regs t; u32 (t_regs t + REGISTERS_SIZE); REGISTERS_SIZE] c;
  regs_esp ← k_stacks s !! (t_regs t + reg_offset esp);
  c ← print_field "regs->esp" nostrings "0x%x (+%d)" [regs_esp; u32 (kernel_esp t - regs_esp)] c;
  c ← match ksymbols_lookup kernel_symbols (t_pgd t) true with
      | Some sym => print_field "pgd" (strings [ks_name sym]) "0x%x (%s)" [t_pgd t; 1] c
      | None => print_field "pgd" nostrings "0x%x" [t_pgd t] c
      end;
  regs_eip ← k_stacks s !! (t_regs t + reg_offset eip);
  c ← print_field "regs->eip" nostrings "0x%x" [regs_eip] c;
  regs_useresp ← k_stacks s !! (t_regs t + reg_offset useresp);
  print_field "regs->useresp" nostrings "0x%x" [regs_useresp] c.
Fixpoint dump_tasks (s : kstate) (l : list (Z * Z)) (c : C) : option C :=
  match l with
  | [] => Some c
  | (_, a) :: l => t ← k_tasks s !! a; c ← dump_task s t c; dump_tasks s l c
  end.
(** ** The report of a switch *)
(** A task's registers, where it has any. *)
Definition dump_saved (s : kstate) (t : task) (c : C) : option C :=
  if t_regs t =? 0 then Some c else
  vs ← mapM (fun r => k_stacks s !! (t_regs t + reg_offset r)) all_registers;
  dump_registers ui0 si0 (fun r => get 0 vs (reg_offset r / 4)) c.
Definition switch_line (of_process of_kernel : String.string) (s : kstate) (t : task) (c : C) : option C :=
  if t_process t =? 0 then printk (strings [t_name t]) of_kernel [1] c
  else p ← k_procs s !! t_process t; printk (strings [p_filepath p]) of_process [1; thid t] c.
#[local] Arguments switch_line of_process%_string_scope of_kernel%_string_scope s t c.
(** What [reschedule_to] prints before it switches to [t]. *)
Definition switch_report (sched_debug : bool) (s : kstate) (t : task) (c : C) : option C :=
  let rule := printk nostrings "------------------------
" [] in
  d ← (if sched_debug && sched_preempt s then strcmp (t_name t) (cstring (str "idle")) else Some 0);
  if d =? 0 then Some c else
  cur ← k_tasks s !! current_task s;
  c ← switch_line "switching from %s[%ld]
" "switching from %s
" s cur c;
  c ← switch_line "switching to %s[%ld]
" "switching to %s
" s t c;
  regs_esp ← k_stacks s !! (t_regs t + reg_offset esp);
  c ← (if regs_esp =? 0 then Some c else printk nostrings "esp: %lx
" [regs_esp] c);
  c ← printk nostrings "previous task:
" [] c;
  c ← rule c; c ← dump_saved s cur c; c ← dump_task s cur c;
  c ← printk nostrings "
new task:
" [] c;
  c ← rule c; c ← dump_saved s t c; dump_task s t c.
(** The idle task, up to the loop in which it halts. *)
Definition __idle_thread (s : kstate) (c : C) : option (kstate * C) :=
  c ← printk nostrings "lol" [] c; Some (s <| sched_preempt := true |>, c).
End tasks.

(** ** Dumps of tables *)
Fixpoint dump_each {A} (f : Z -> A -> C -> option C) (i : Z) (l : list A) (c : C) : option C :=
  match l with [] => Some c | x :: l => c ← f i x c; dump_each f (i + 1) l c end.
Definition idt_dump (t : list idt_entry) (c : C) : option C :=
  c ← dump_each (fun i g => printk nostrings "[%d]: 0x%x flags=%x selector=%x
" [i; Z.lor (addr_low g) (Z.shiftl (addr_high g) 16); flags g; sel g]) 0 (take (Z.to_nat INTERRUPTS_COUNT) t) c;
  printk nostrings "
" [] c.
Definition kheap_cache_dump (h : heap) (c : C) : option C :=
  dump_each (fun i sl => printk nostrings "slab[%d]: start=0x%x first=0x%x size=%d inuse=%d large=%d
" [i; sl_start sl; sl_first sl; sl_object_size sl; sl_inuse sl; b2z (sl_large sl)]) 0 (heap_cache h) c.
End trace.

(** ** What a trace shows *)
(** The last symbol of the table at or below an address. *)
Definition symbol_below (syms : list kernel_symbol) (a : Z) : option kernel_symbol :=
  last (filter (fun s => ks_address s <= a) syms).
Definition is_code (s : kernel_symbol) : bool := (ks_type s =? 84) || (ks_type s =? 116).
Definition place_text (syms : list kernel_symbol) (ret : Z) : list Z :=
  match (if VIRT_BASE <=? ret then symbol_below syms ret else None) with
  | Some s => if is_code s then c_str (ks_name s) ++ str "+0x" ++ numeral 16 (ret - ks_address s) else str "??"
  | None => str "??"
  end.
Definition frame_text (syms : list kernel_symbol) (ret : Z) : list Z :=
  9 :: str "<0x" ++ numeral 16 ret ++ str "> " ++ place_text syms ret ++ [10].
Definition task_text (s : kstate) : option (list Z) :=
  if current_task s =? 0 then Some [10] else
  t ← k_tasks s !! current_task s;
  if t_process t =? 0 then Some (str "kernel thread: " ++ c_str (t_name t) ++ [10])
  else p ← k_procs s !! t_process t;
       Some (str "thread: " ++ c_str (p_filepath p) ++ str " [" ++ numeral 10 (thid t) ++ str "]" ++ [10]).
(** A C string of a length that the formatter can count. *)
Definition c_string (l : list Z) : Prop := exists t, l = cstring t /\ nonul t /\ zlen t < 2 ^ 31.

Lemma lookup_below syms a : ksymbols_lookup syms a false = symbol_below syms a.
Proof.
  unfold ksymbols_lookup, symbol_below. induction syms as [|s syms IH] using rev_ind; [done|].
  rewrite reverse_snoc, filter_app, filter_cons. cbn [list_find negb andb].
  destruct (decide (ks_address s <= a)) as [Hle|Hgt].
  - rewrite decide_True by (apply orb_true_iff; zbool; lia). cbn. by rewrite last_snoc.
  - rewrite decide_False by (rewrite orb_true_iff; zbool; lia). cbn. rewrite app_nil_r, <- IH.
    by destruct (list_find _ _) as [[]|].
Qed.

Lemma run_printk ui0 si0 mem fmt ds tl args (c : console) :
  str fmt = format_text ds tl -> args_ok mem ds args -> literal_ok tl -> con_ok c ->
  exists c', printk ui0 si0 mem fmt args c = Some c' /\ con_ok c' /\ console_output (expected mem ds args ++ tl) c = Some c'.
Proof.
  intros Hf Ha Hl Hc. destruct (console_output_total (expected mem ds args ++ tl) c Hc) as (c'&Ho&Hc').
  exists c'. split_and!; [|done|done]. rewrite <- Ho. by apply printk_text.
Qed.
(** A run writes a text to the screen and leaves the screen in order. *)
Definition writes (f : console -> option console) (text : list Z) : Prop :=
  forall c, con_ok c -> exists c', f c = Some c' /\ con_ok c' /\ console_output text c = Some c'.
Lemma writes_printk ui0 si0 mem fmt ds tl args text :
  str fmt = format_text ds tl -> args_ok mem ds args -> literal_ok tl -> expected mem ds args ++ tl = text ->
  writes (printk ui0 si0 mem fmt args) text.
Proof. intros Hf Ha Hl <- c Hc. by apply run_printk. Qed.
Lemma writes_bind f g t1 t2 : writes f t1 -> writes g t2 -> writes (fun c => c ← f c; g c) (t1 ++ t2).
Proof.
  intros Hf Hg c Hc. destruct (Hf c Hc) as (c1&->&Hc1&Ho1). destruct (Hg c1 Hc1) as (c2&Hrun&Hc2&Ho2).
  exists c2. cbn [mbind option_bind]. split_and!; [done|done|]. rewrite console_output_app, Ho1. done.
Qed.
Lemma writes_read {A} (o : option A) (f : A -> console -> option console) a t :
  o = Some a -> writes (f a) t -> writes (fun c => x ← o; f x c) t.
Proof. by intros ->. Qed.
Lemma writes_nothing : writes Some [].
Proof. intros c Hc. by exists c. Qed.

Lemma writes_step (p1 : console -> option console) (p2 p3 p4 : Z -> console -> option console) o1 o2 ret next t1 t2 t3 t4 :
  o1 = Some ret -> o2 = Some next -> writes p1 t1 -> writes (p2 ret) t2 -> writes (p3 ret) t3 -> writes (p4 next) t4 ->
  writes (fun c => c ← p1 c; ret ← o1; c ← p2 ret c; c ← p3 ret c; next ← o2; p4 next c) (t1 ++ t2 ++ t3 ++ t4).
Proof.
  intros -> -> H1 H2 H3 H4. cbn [mbind option_bind]. apply (writes_bind p1); [exact H1|].
  apply (writes_bind (p2 ret)); [exact H2|]. by apply (writes_bind (p3 ret)).
Qed.

Section spec.
  Context (ui0 si0 : Z) (syms : list kernel_symbol).
  Context (Hsyms : Forall (fun s => 0 <= ks_address s /\ c_string (ks_name s)) syms).

Lemma symbol_below_in a s : symbol_below syms a = Some s -> s ∈ syms /\ ks_address s <= a.
Proof.
  intros Hl. apply last_Some_elem_of, list_elem_of_filter in Hl. tauto.
Qed.
Lemma strings_one t : strings [t] (u32 1) = t.
Proof. done. Qed.
Lemma writes_symbol ret : 0 <= ret < 2 ^ 32 -> writes (trace_symbol ui0 si0 syms ret) (place_text syms ret ++ [10]).
Proof.
  intros Hr. unfold trace_symbol, place_text. rewrite lookup_below.
  assert (Hu : writes (printk ui0 si0 nostrings "??
" []) (str "??" ++ [10])) by (eapply (writes_printk _ _ _ _ [] _ []); [reflexivity|done|by apply literal_okb|done]).
  destruct (VIRT_BASE <=? ret); [|exact Hu]. destruct (symbol_below syms ret) as [s|] eqn:Es; [|exact Hu].
  unfold is_code. destruct ((ks_type s =? 84) || (ks_type s =? 116)); [|exact Hu].
  destruct (symbol_below_in _ _ Es) as [Hin Hle]. rewrite Forall_forall in Hsyms.
  destruct (Hsyms s Hin) as [Ha (t&Ht&Hnt&Hlt)]. rewrite u32_id by lia.
  eapply (writes_printk _ _ _ _ [([], Conv false false 0 Cs); (str "+0x", Conv false false 0 Cx)] [10] [1; ret - ks_address s]).
  - reflexivity.
  - cbn [args_ok]. split_and!; try done; try (by apply literal_okb).
    intros _. split; [done|]. exists t, []. rewrite app_nil_r, strings_one. done.
  - by apply literal_okb.
  - cbn [expected conv_parts]. rewrite !field_unpadded, strings_one, !app_nil_r, u32_id by lia.
    cbn [app]. rewrite <- !app_assoc. done.
Qed.
Lemma writes_tab : writes (printk ui0 si0 nostrings "	" []) [9].
Proof. eapply (writes_printk _ _ _ _ [] [9] []); [reflexivity|done|by apply literal_okb|done]. Qed.
Lemma writes_ret ret : 0 <= ret < 2 ^ 32 ->
  writes (printk ui0 si0 nostrings "<%p> " [ret]) (str "<0x" ++ numeral 16 ret ++ str "> ").
Proof.
  intros Hr. eapply (writes_printk _ _ _ _ [(str "<", Conv false false 0 Cp)] (str "> ") [ret]); [reflexivity| |by apply literal_okb|].
  - cbn [args_ok]. split_and!; try done. by apply literal_okb.
  - cbn [expected conv_parts]. rewrite field_unpadded, u32_id, !app_nil_r, <- !app_assoc by lia. done.
Qed.
Lemma frame_text_app ret text : frame_text syms ret ++ text
  = [9] ++ (str "<0x" ++ numeral 16 ret ++ str "> ") ++ (place_text syms ret ++ [10]) ++ text.
Proof. unfold frame_text. cbn [app]. by rewrite <- !app_assoc. Qed.
Lemma trace_frames_unfold st n ebp (c : console) :
  trace_frames ui0 si0 syms st (S n) ebp c
  = if ebp =? 0 then Some c else
      c ← printk ui0 si0 nostrings "	" [] c;
      ret ← st (u32 (ebp + 4));
      c ← printk ui0 si0 nostrings "<%p> " [ret] c;
      c ← trace_symbol ui0 si0 syms ret c;
      next ← st ebp;
      trace_frames ui0 si0 syms st n next c.
Proof. reflexivity. Qed.
Lemma writes_frame st n ret next ebp text : ebp <> 0 -> 0 <= ret < 2 ^ 32 ->
  st (u32 (ebp + 4)) = Some ret -> st ebp = Some next -> writes (trace_frames ui0 si0 syms st n next) text ->
  writes (trace_frames ui0 si0 syms st (S n) ebp) (frame_text syms ret ++ text).
Proof.
  intros Hne Hr H1 H2 Hw. rewrite frame_text_app. intros c Hc. rewrite trace_frames_unfold.
  apply Z.eqb_neq in Hne. rewrite Hne. revert c Hc.
  apply (writes_step (printk ui0 si0 nostrings "	" []) (fun ret => printk ui0 si0 nostrings "<%p> " [ret])
    (trace_symbol ui0 si0 syms) (trace_frames ui0 si0 syms st n) _ _ ret next);
    [exact H1|exact H2|exact writes_tab|exact (writes_ret ret Hr)|exact (writes_symbol ret Hr)|exact Hw].
Qed.
Lemma writes_frames st n : forall frames ebp, stack_chain st ebp frames ->
  writes (trace_frames ui0 si0 syms st n ebp) (concat (frame_text syms <$> (take n frames).*2)).
Proof.
  induction n as [|n IH]; intros [|[a ret] frames] ebp Hch; try exact writes_nothing.
  - cbn in Hch. subst. exact writes_nothing.
  - destruct Hch as (->&Ha&Hr&Hrr&next&Hn&Hch). cbn [take fmap list_fmap concat]. eapply writes_frame; eauto.
Qed.
Lemma trace_skip_spec st n : forall frames ebp, stack_chain st ebp frames ->
  exists ebp', trace_skip st n ebp = Some ebp' /\ stack_chain st ebp' (drop n frames).
Proof.
  induction n as [|n IH]; intros [|[a ret] frames] ebp Hch; cbn [trace_skip drop]; try (by eexists).
  - cbn in Hch. subst. by exists 0.
  - destruct Hch as (->&Ha&Hr&Hrr&next&Hn&Hch). destruct (Z.eqb_spec a 0); [done|]. rewrite Hn. cbn [mbind option_bind].
    by apply IH.
Qed.
Definition task_strings_ok (s : kstate) : Prop := forall t, k_tasks s !! current_task s = Some t ->
  c_string (t_name t) /\ 0 <= thid t < 2 ^ 31 /\ forall p, k_procs s !! t_process t = Some p -> c_string (p_filepath p).
Lemma c_string_arg t : c_string t -> u32 1 <> 0 /\ exists u r, strings [t] (u32 1) = cstring u ++ r /\ nonul u /\ zlen u < 2 ^ 31.
Proof. intros (u&->&Hn&Hl). split; [done|]. exists u, []. by rewrite app_nil_r. Qed.
Lemma writes_newline : writes (printk ui0 si0 nostrings "
" []) [10].
Proof. eapply (writes_printk _ _ _ _ [] [10] []); [reflexivity|done|by apply literal_okb|done]. Qed.
Lemma writes_thread_name name n : c_string name -> 0 <= n < 2 ^ 31 ->
  writes (printk ui0 si0 (strings [name]) "thread: %s [%d]" [1; n])
    (str "thread: " ++ c_str name ++ str " [" ++ numeral 10 n ++ str "]").
Proof.
  intros Hname Hn.
  eapply (writes_printk _ _ _ _ [(str "thread: ", Conv false false 0 Cs); (str " [", Conv false false 0 Cd)] (str "]") [1; n]);
    [reflexivity| |by apply literal_okb|].
  - cbn [args_ok]. split_and!; try done; try (by apply literal_okb). intros _. by apply c_string_arg.
  - cbn [expected conv_parts]. rewrite s32_id by lia. destruct (n <? 0) eqn:E; [lia|].
    rewrite !field_unpadded, strings_one, !app_nil_r, <- !app_assoc. done.
Qed.
Lemma writes_task_name name : c_string name ->
  writes (printk ui0 si0 (strings [name]) "kernel thread: %s" [1]) (str "kernel thread: " ++ c_str name).
Proof.
  intros Hname. eapply (writes_printk _ _ _ _ [(str "kernel thread: ", Conv false false 0 Cs)] [] [1]); [reflexivity| |constructor|].
  - cbn [args_ok]. split_and!; [by apply literal_okb|done|done| |done]. intros _. by apply c_string_arg.
  - cbn [expected conv_parts]. by rewrite field_unpadded, strings_one, !app_nil_r.
Qed.
Lemma writes_task s text : task_text s = Some text -> task_strings_ok s -> writes (trace_task ui0 si0 s) text.
Proof.
  unfold task_text, trace_task. intros Ht Hok.
  destruct (current_task s =? 0); [apply Some_inj in Ht; subst text; exact writes_newline|].
  destruct (k_tasks s !! current_task s) as [t|] eqn:Et; [|done]. destruct (Hok t Et) as (Hname&Hth&Hproc).
  apply (writes_read _ (fun t c => c ← (if t_process t =? 0 then printk ui0 si0 (strings [t_name t]) "kernel thread: %s" [1] c
       else p ← k_procs s !! t_process t; printk ui0 si0 (strings [p_filepath p]) "thread: %s [%d]" [1; thid t] c);
     printk ui0 si0 nostrings "
" [] c) t); [done|]. change (Some t ≫= ?f) with (f t) in Ht. cbv beta in Ht.
  destruct (t_process t =? 0).
  - apply Some_inj in Ht. subst text. rewrite app_assoc.
    apply (writes_bind (printk ui0 si0 (strings [t_name t]) "kernel thread: %s" [1])); [by apply writes_task_name|exact writes_newline].
  - destruct (k_procs s !! t_process t) as [p|] eqn:Ep; [|done]. change (Some p ≫= ?f) with (f p) in Ht. cbv beta in Ht.
    apply Some_inj in Ht. subst text.
    replace (str "thread: " ++ c_str (p_filepath p) ++ str " [" ++ numeral 10 (thid t) ++ str "]" ++ [10])
      with ((str "thread: " ++ c_str (p_filepath p) ++ str " [" ++ numeral 10 (thid t) ++ str "]") ++ [10]) by (by rewrite <- !app_assoc).
    apply (writes_bind (fun c => p ← Some p; printk ui0 si0 (strings [p_filepath p]) "thread: %s [%d]" [1; thid t] c)); [|exact writes_newline].
    apply (writes_read _ _ p); [done|]. by apply writes_thread_name; [apply Hproc|].
Qed.
End spec.

(** C40: a trace from a frame whose stack can be followed to its end.  It ends,
    and the screen is as if there had been written a heading, a line for each
    of the frames after [skip], [max] at most, in order, and a line that names
    the task; a frame's line shows the return address and, in the kernel, the
    last symbol at or below it and the distance to it, if that is a function,
    and otherwise that the place is unknown. *)
Theorem trace_reports ui0 si0 syms skip max ebp frames s text c :
  Forall (fun s => 0 <= ks_address s /\ c_string (ks_name s)) syms -> task_strings_ok s -> task_text s = Some text ->
  stack_chain (frame_word s) ebp frames -> con_ok c ->
  exists c', trace ui0 si0 syms skip max ebp s c = Some c' /\ con_ok c'
    /\ console_output (str "Call trace:" ++ [10]
         ++ concat (frame_text syms <$> (take (Z.to_nat max) (drop (Z.to_nat skip) frames)).*2) ++ text) c = Some c'.
Proof.
  intros Hsyms Hok Ht Hch Hc. unfold trace.
  destruct (trace_skip_spec _ (Z.to_nat skip) _ _ Hch) as (ebp'&->&Hch'). cbn [mbind option_bind].
  rewrite app_assoc. revert c Hc. apply writes_bind.
  - eapply (writes_printk _ _ _ _ [] (str "Call trace:" ++ [10]) []); [reflexivity|done|by apply literal_okb|done].
  - apply writes_bind; [by apply writes_frames|by apply writes_task].
Qed.

(** Two frames of a kernel thread, one called from the kernel. *)
Definition traced_task : task :=
  Task (cstring (str "idle")) TASK_RUNNING 1 0 0 0 0 0 0 0 0 0 0 0 0 None [] 0 0 0 0 0 0.
Definition traced_state : kstate :=
  KState {[ 16 := traced_task ]} ∅
    {[ 0xC0809000 := 0xC0809010; 0xC0809004 := 0xC0100A48; 0xC0809010 := 0xC0809020; 0xC0809014 := 0xC0100A50;
       0xC0809020 := 0; 0xC0809024 := 0x401000 ]} ∅ ∅ ∅ ∅
    (PState ∅ [] ∅ pmm_example) 0 (Vfs.Vfs 0 0 [] [] ∅ ∅ []) [] 0 16 true 0 1 [] 0 0 0 0 [].
Lemma trace_reports_witness : exists c',
  trace 0 0 map_example 1 20 0xC0809000 traced_state con_example = Some c'
  /\ console_output (str "Call trace:
	<0xc0100a50> kmain+0x10
	<0x401000> ??
kernel thread: idle
") con_example = Some c'.
Proof.
  destruct (trace_reports 0 0 map_example 1 20 0xC0809000 [(0xC0809000, 0xC0100A48); (0xC0809010, 0xC0100A50); (0xC0809020, 0x401000)]
    traced_state (str "kernel thread: idle" ++ [10]) con_example) as (c'&H1&_&H2).
  - apply Forall_cons. split; [|apply Forall_singleton]; (split; [by vm_compute|]);
      eexists; (split; [reflexivity|]); by split; [repeat constructor|].
  - intros t Ht. assert (t = traced_task) as -> by (by apply Some_inj in Ht). split_and!; [|done|done|].
    + exists (str "idle"). split_and!; [done|by repeat constructor|done].
    + done.
  - by vm_compute.
  - cbn [stack_chain]. split_and!; try done.
    exists 0xC0809010. split_and!; try done. exists 0xC0809020. split_and!; try done. by exists 0.
  - by vm_compute.
  - exists c'. split; [exact H1|]. rewrite <- H2. by vm_compute.
Defined.
